(* ===== verification/_CoqProject ===== *)
-Q . S2P
Prelude.v
Binary64.v
Text.v
Config.v
FaultGpios.v
SlaveLink.v
ControlPilot.v
EnergyMeter.v
Nvs.v
OfflineStore.v
ProfileStore.v
SmartCharging.v
Session.v
SessionSpec.v
SessionEnd.v
Upload.v
Boot.v
BootSpec.v
Authorization.v
AuthorizationSpec.v
LocalList.v
OcppKeys.v
OcppKeysSpec.v
Status.v
StatusSpec.v
Led.v
LedSpec.v
Outcome.v
Network.v
NetworkSpec.v
Requests.v
RequestsSpec.v
Cjson.v
Messages.v
MessagesSpec.v
Reports.v
Senders.v
Display.v
DisplaySpec.v
WebConfig.v
WebConfigSpec.v
