(* ===== verification/Prelude.v ===== *)
(** * The EVSE firmware, verified

    The firmware of an electric-vehicle charging station (ESP32, one to three
    connectors) that talks OCPP 1.6 to a central system.  Its own code is
    under [main/]; it runs as a dozen FreeRTOS tasks that share global
    variables.  This library models the decision-making part of that code as
    executable functions on explicit states and proves what makes it right,
    or, where the code does not do what it means to, what it does instead.

    ** How the program is put together

    - [ConnectorTask] (one per connector, once a second) is the charging
      session: idle, authorisation, start, charge, stop.
    - [Connector0Task] (once a second) is the charge point: boot notification
      and reports after an absence, requests of the central system, the card
      reader, status notifications, fault shutdown and LED states.
    - [cpTask] samples the control pilot, publishes the vehicle's state and
      drives relay and PWM; [ReadFaultsTask] debounces the fault inputs and
      drives the relay coil; the energy meter is read by both tasks above.
    - [slaveTask] receives the frames of the second microcontroller that the
      lite board puts between the firmware and its relays.
    - [smartChargingTask] turns charging profiles into duty cycles,
      [interfaceTask] chooses among Wi-Fi, modem and Ethernet, [LedTask1]
      draws the LED strip, [LcdDisplayTask] the display, [custom_nvs.c] keeps
      everything in flash.
    - [ocpp.c] turns what the central system sends into flagged structures and
      the structures the tasks fill into messages; at power-up
      [StartServerOnPowerOn] serves the configuration page.

    Whatever one task leaves for another is a field of a shared state; a call
    out of the model (message, flash write, relay, pilot, display) is an event
    on a trace or a call list, latest first, with the data it carries.

    ** The files

    Shared.  [Prelude]: fixed-width integers, connector indices ([cid]),
    record update, commands ([cmd]: statements as state functions, with [;;],
    [IF], [WHEN], [foreach]), frame reasoning ([respects], [same]), symbolic
    execution ([symexec]) and iteration.  [Outcome]: statements that may
    restart the charger or be undefined in C.  [Binary64]: the C [double].
    [Text]: [printf]'s and [sscanf]'s numbers, copies into character arrays.

    Hardware side.
    - [Config]: [init_config] and [ocpp_task_init] ([main.c], [ocpp_task.c]).
    - [FaultGpios]: relay, coil economiser, fault inputs ([faultGpios.c]).
    - [SlaveLink]: framing, receiver, requests ([slave.c]).
    - [ControlPilot]: windows, pilot task, PWM ([ControlPilotState.c],
      [ControlPilotPwm.c], [ControlPilotAdc.c]).
    - [EnergyMeter]: values and protection flags ([EnergyMeter.c]).
    - [Led], [LedSpec]: LED states and strip ([ocpp_task.c], [ledStrip.c]).
    - [Network], [NetworkSpec]: [interfaceTask]
      ([networkInterfacesControl.c]).
    - [Display], [DisplaySpec]: the pages of the character displays and of the
      panel, and the task that draws them ([display.c]).
    - [WebConfig], [WebConfigSpec]: the configuration page and its window at
      power-up ([local_http_server.c]).

    Storage.  [Nvs] is the interface to the flash store: a class of
    operations, the laws its documentation gives ([NvsLaws]) and an instance
    over finite maps that satisfies them.  [OfflineStore] (queue of offline
    transactions) and [ProfileStore] (charging profiles), both of
    [custom_nvs.c], are proved against the interface.  [SmartCharging] is its
    user ([smartChargingTask], [ocpp_task.c]).

    Charging.
    - [Session] ([ConnectorTask] and its handlers); [SessionSpec]: control
      flow, who may start, power only while charging, interleaving of the
      connectors' tasks; [SessionEnd]: what stops a session, what is reported
      or stored, what energy is counted.
    - [Authorization], [AuthorizationSpec]: cards, plates, remote starts
      ([processRfidTappedState], the reader's loop, [Rfid.c]).
    - [LocalList]: [SendLocalList] ([ocpp.c]).

    The charge point.
    - [Upload]: the replay of the offline queue and the fate of a transaction
      open at a restart ([sendOfflineTransactionsData],
      [sendOngoigTransactionsData]).
    - [Boot], [BootSpec]: boot notification, power-up with and without a
      connection, reconnection.
    - [Status], [StatusSpec]: status notifications and fault shutdown.
    - [Requests], [RequestsSpec]: heartbeats, the emergency button's gesture
      and the central system's requests, in the order they are served.
    - [OcppKeys], [OcppKeysSpec]: the forty-three configuration keys
      ([SetDefaultOcppConfig], [ChangeConfiguration], [GetConfiguration]).

    Messages ([ocpp.c]).  [Cjson] is the interface to the JSON library: a class
    with the accessors the firmware reads documents through and the text of the
    trees it assembles, which with a parser are an instance.
    - [Messages], [MessagesSpec]: what a received text does to the structures
      of [ocpp.c] (the dispatch on the message type and action, the handler of
      every request and answer, the texts it copies and their buffers), the
      queue of printed messages, cut at its cells' 1700 bytes, and the numbers
      of calls.
    - [Reports]: the payloads of the messages to send.
    - [Senders]: the functions that put them onto the queue, and the answers
      [Connector0Task] gives.

    Definitions carry the source's names.  An array indexed by connector is a
    function of [cid] or a field of the connector's record; a [static] local
    is a field named after it; a buffer whose length matters ([OcppKeys],
    [SlaveLink]) is memory, the others are strings.

    ** What is proved

    - Safety of power: the relay and the pilot follow the vehicle's state
      ([ControlPilot.cpTask_safe]), the coil is energised exactly while the
      relay is closed ([FaultGpios]), current is offered only by a session in
      its charge state without a fault ([SessionSpec.power_only_while_charging]),
      and a fault takes the power away the turn it is seen
      ([StatusSpec.fault_shutdown]), is announced within two turns and, on a
      charger of one connector, stays on the display
      ([DisplaySpec.fault_stays_on_display]).
    - Who may charge: a grant is raised exactly for an accepted answer, a
      listed card or the offline policy, for the one who asked
      ([AuthorizationSpec.grants_exact]); a session starts only with one and
      consumes it ([SessionSpec]).
    - No transaction is lost: an open transaction is exactly one in the charge
      state, over all interleavings; a stop is reported online or queued
      offline; the queue is a bounded first-in first-out list
      ([OfflineStore.offline_queue_refinement]); what was queued reaches the
      central system ([Upload.offline_session_reaches_central_system]), also
      what a hard reset cut off ([RequestsSpec.hard_reset_reported]); power-up
      leaves every connector consistent ([BootSpec]).
    - Configuration: a change of a key that has a branch is what is reported
      and what a restart reads back ([OcppKeysSpec.configuration_roundtrip]);
      what is decoded is what the texts say, the profile SmartCharging apart
      ([OcppKeysSpec.configuration_coherent]); the form of the
      configuration page, saved as served, changes nothing
      ([WebConfigSpec.config_page_roundtrip]).
    - Messages: a well-formed request of the central system leaves the charge
      point exactly that request and its answer carries its id
      ([MessagesSpec.requests_delivered],
      [Senders.answered_under_request_id]); a request without its mandatory
      fields is not taken, three actions apart
      ([MessagesSpec.request_needs_its_fields]); an answer acts on the call that
      carried its number ([MessagesSpec.answers_correlated]); a report holds
      what the configuration asks for ([Reports]).
    - Display: every page asked for is drawn once, in the order of the task's
      chain, and the panel's registers are those last drawn ([DisplaySpec]).
    - Links: a frame is delivered, a damaged one rejected ([SlaveLink]); the
      failover goes to the best usable interface and no index leaves its
      array ([NetworkSpec]).
    - Liveness: boot notifications and heartbeats repeat, a soft reset
      completes, the charger restarts after ten minutes without a connection,
      fault and suspension timers fire, and the window of the configuration
      page closes ([WebConfigSpec.commissioning_window_bounded]).

    Several theorems state a defect as the code has it: the receive buffer
    overrun and the zero-length dead lock ([SlaveLink]), the profile store's
    replacement and deletion ([ProfileStore]), the start request that never
    gives up ([SessionEnd]), the plug test that always holds ([Upload]), keys
    compared by prefix and values longer than their arrays ([OcppKeysSpec]),
    differential list updates ([LocalList]), the meter failure taken back the
    next turn ([StatusSpec]), the soft reset that only stops connector 1,
    the cancellation that is not saved and the remote stop of transaction 0
    ([RequestsSpec]), the status text that overruns its buffer and the times
    of a charging profile that are never read ([MessagesSpec]), and of the
    configuration page that needs no login, the current it sets that no
    restart keeps and the upload a timeout ends ([WebConfigSpec]); three
    requests taken whatever they carry ([MessagesSpec]) and the feature profile
    whose flag is not its text's ([OcppKeysSpec]).

    ** Bounds and fuel

    The loops of the code that end by themselves are structural here.  Fuel
    appears in four places.  [Upload.upload_loop] takes one step per stored
    record: the length of the queue is enough
    ([Upload.offline_upload_terminates]), and the central system's answers
    are a list that two entries per record suffice for; an exhausted list is
    a central system that never answers, for which the C loop spins and the
    function returns [None].  [ProfileStore.clear_loop] is bounded by the
    stored count.  [OcppKeys.read_string] reads at most the size of the block
    of texts.  [WebConfig.wait_for_station] and [WebConfig.serve] take one step
    a second: the 120 and 600 seconds of the source and one step more are
    enough ([WebConfigSpec.commissioning_window_bounded]).  A message exchange is polled with the number of polls its
    answer takes, the request being sent again every hundred and first poll.
    Counters keep their width ([u8], [u16], [u32], [i32]); the timed
    behaviours are those of the code's constants (a tap is pending for 120
    iterations, boot and authorisation retries after 60 s, restart after 600
    iterations without a connection, ten iterations for the emergency
    button's gesture).  The number of a call has at most nine digits in its
    ten bytes, so the first thousand million calls are covered
    ([MessagesSpec]); the queue holds three messages of 1700 bytes, the end of
    a longer one is lost and sending one that fills its cell is undefined;
    a page of the display has 81 bytes and a copy past them is undefined.

    ** What is not modelled

    - cJSON's parsing and printing, the HTTP and websocket libraries and the
      OTA partition, which are parameters; the HTML and JavaScript of the
      configuration page.
    - Time conversions ([mktime]), hence the expiry of reservations and the
      charging schedules' absolute start; the clock is an input.
    - Update of the firmware over the network and the upload of logs ([OTA.c],
      [logsToSpiffs.c]): HTTP, flash partition and file system calls.
    - Register-level drivers ([rc522.c], [GpioExpander.c], [rtc_clock.c],
      [sw_serial.c]), the controller of the character display below the text it
      shows, and ESP-IDF's Wi-Fi, Ethernet, modem and websocket
      clients: their effects are the inputs of the tasks.
    - The components under [managed_components/], which are third-party.
    - Preemption inside an iteration: tasks interleave by whole iterations, an
      iteration reading the inputs as of its start. *)

From Stdlib Require Export ZArith Lia ZifyBool Bool.
From stdpp Require Export base decidable list strings gmap pretty numbers.

#[global] Open Scope Z_scope.
#[global] Set Default Goal Selector "!".

(** Linear arithmetic with [/] and [mod] by constants. *)
Ltac mlia := Z.to_euclidean_division_equations; lia.

(** ** Machine-width integers *)

(** Unsigned C types wrap modulo [2^w]. *)
Definition u8 (z : Z) : Z := z mod 256.
Definition u16 (z : Z) : Z := z mod 65536.
Definition u32 (z : Z) : Z := z mod 4294967296.

Lemma u8_range z : 0 <= u8 z < 256.
Proof. unfold u8; mlia. Qed.
Lemma u16_range z : 0 <= u16 z < 65536.
Proof. unfold u16; mlia. Qed.
Lemma u32_range z : 0 <= u32 z < 4294967296.
Proof. unfold u32; mlia. Qed.

Lemma u16_small z : 0 <= z < 65536 -> u16 z = z.
Proof. apply Z.mod_small. Qed.
Lemma u8_small z : 0 <= z < 256 -> u8 z = z.
Proof. apply Z.mod_small. Qed.
Lemma u32_small z : 0 <= z < 4294967296 -> u32 z = z.
Proof. apply Z.mod_small. Qed.

Arguments u8 : simpl never.
Arguments u16 : simpl never.
Arguments u32 : simpl never.

Create Rewrite HintDb evse_word.
#[export] Hint Rewrite u8_small u16_small u32_small using lia : evse_word.

(** ** Connector indices

    Every per-connector array of the firmware has [NUM_OF_CONNECTORS = 4]
    cells; [cid] is the type of its in-range indices. *)
Inductive cid := Conn0 | Conn1 | Conn2 | Conn3.

#[export] Instance cid_eq_dec : EqDecision cid.
Proof. intros [] []; first [left; reflexivity | right; discriminate]. Defined.

Definition cid_to_Z (c : cid) : Z :=
  match c with Conn0 => 0 | Conn1 => 1 | Conn2 => 2 | Conn3 => 3 end.

Definition cid_to_nat (c : cid) : nat :=
  match c with Conn0 => 0 | Conn1 => 1 | Conn2 => 2 | Conn3 => 3 end.

Definition cid_eqb (c d : cid) : bool := cid_to_Z c =? cid_to_Z d.

Lemma cid_eqb_spec c d : cid_eqb c d = bool_decide (c = d).
Proof. by destruct c, d. Qed.

Definition cid_of_Z (z : Z) : option cid :=
  if decide (z = 0) then Some Conn0
  else if decide (z = 1) then Some Conn1
  else if decide (z = 2) then Some Conn2
  else if decide (z = 3) then Some Conn3
  else None.

Lemma cid_of_to c : cid_of_Z (cid_to_Z c) = Some c.
Proof. by destruct c. Qed.

(** [for (uint8_t i = 1; i <= config.NumberOfConnectors; i++)]: the
    connectors such a loop visits, in order. *)
Definition connectors_upto (n : Z) : list cid :=
  filter (fun c => cid_to_Z c <= n) [Conn1; Conn2; Conn3].

Lemma connectors_upto_not_0 n : Conn0 ∉ connectors_upto n.
Proof. unfold connectors_upto. rewrite list_elem_of_filter, !elem_of_cons. intros (_ & [H|[H|[H|H]]]); [done..|]. by apply not_elem_of_nil in H. Qed.

Lemma connectors_upto_1 : connectors_upto 1 = [Conn1].
Proof. reflexivity. Qed.
Lemma connectors_upto_2 : connectors_upto 2 = [Conn1; Conn2].
Proof. reflexivity. Qed.
Lemma connectors_upto_3 : connectors_upto 3 = [Conn1; Conn2; Conn3].
Proof. reflexivity. Qed.

(** C arrays indexed by connector: total functions, updated in place. *)
Definition upd {A} (c : cid) (v : A) (f : cid -> A) : cid -> A :=
  fun d => if cid_eqb d c then v else f d.

Lemma upd_same {A} c (v : A) f : upd c v f c = v.
Proof. unfold upd. rewrite cid_eqb_spec. by rewrite bool_decide_true. Qed.
Lemma upd_other {A} c d (v : A) f : d <> c -> upd c v f d = f d.
Proof. intros. unfold upd. rewrite cid_eqb_spec. by rewrite bool_decide_false. Qed.

Create Rewrite HintDb evse_upd.
#[export] Hint Rewrite @upd_same : evse_upd.
#[export] Hint Rewrite @upd_other using (first [assumption | congruence]) : evse_upd.

(** ** Record update

    [update p f r] replaces field [p] of the record [r] by its image under
    [f].  A record type declares how it is rebuilt from its projections
    ([Rebuild]); the setter of a projection is then derived by abstracting
    that projection out of the rebuilt term. *)
Class Rebuild (R : Type) := rebuild : R -> R.
Class Setter {R T : Type} (p : R -> T) := update : (T -> T) -> R -> R.
Arguments update {R T} p {_} f r.

Ltac derive_setter :=
  match goal with
  | |- @Setter ?R ?T ?p =>
      let f := fresh "f" in
      let r := fresh "r" in
      unfold Setter; intros f r;
      let whole := eval hnf in (@rebuild R _ r) in
      match eval pattern (p r) in whole with
      | ?ctx _ => let out := eval cbv beta in (ctx (f (p r))) in exact out
      end
  end.
#[export] Hint Extern 0 (Setter _) => derive_setter : typeclass_instances.

Declare Scope evse_scope.
Delimit Scope evse_scope with evse.
#[global] Open Scope evse_scope.
Notation "r <| p := v |>" := (update p (fun _ => v) r)
  (at level 1, left associativity, format "r  <| p  :=  v |>") : evse_scope.

(** ** Commands

    A C statement over a state type [S] is a function [S -> S]; sequencing
    and conditionals read as in the source. *)
Section Commands.
Context {S : Type}.

Definition cmd := S -> S.
Definition skip : cmd := fun s => s.
Definition seqc (a b : cmd) : cmd := fun s => b (a s).
Definition ifc (g : S -> bool) (a b : cmd) : cmd :=
  fun s => if g s then a s else b s.
Definition whenc (g : S -> bool) (a : cmd) : cmd := ifc g a skip.
(** Read the state, then run the command chosen from it. *)
Definition withs (k : S -> cmd) : cmd := fun s => k s s.
Definition foreach {A} (l : list A) (body : A -> cmd) : cmd :=
  fun s => foldl (fun s a => body a s) s l.

(** [a] relates every pre-state to its post-state by [R]. *)
Definition respects (R : S -> S -> Prop) (a : cmd) : Prop := forall s, R s (a s).

(** Partial-correctness triple; commands are total, so it is total. *)
Definition triple (P : S -> Prop) (a : cmd) (Q : S -> Prop) : Prop :=
  forall s, P s -> Q (a s).
End Commands.
Arguments cmd S : clear implicits.

Notation "a ;; b" := (seqc a b)
  (at level 100, right associativity, format "'[v' a ;; '/' b ']'") : evse_scope.
Notation "'IF' g 'THEN' a 'ELSE' b 'FI'" := (ifc g a b)
  (at level 0, g at level 99, a at level 200, b at level 200) : evse_scope.
Notation "'WHEN' g 'THEN' a 'FI'" := (whenc g a)
  (at level 0, g at level 99, a at level 200) : evse_scope.

Section CommandRules.
Context {S : Type} (R : S -> S -> Prop) `{!PreOrder R}.

Lemma respects_skip : respects R skip.
Proof. intros s. by unfold skip. Qed.
Lemma respects_seq a b : respects R a -> respects R b -> respects R (a ;; b).
Proof. intros Ha Hb s. etrans; [apply Ha | apply Hb]. Qed.
Lemma respects_if g a b : respects R a -> respects R b -> respects R (ifc g a b).
Proof. intros Ha Hb s. unfold ifc. destruct (g s); auto. Qed.
Lemma respects_when g a : respects R a -> respects R (whenc g a).
Proof. intros. apply respects_if; [done | apply respects_skip]. Qed.
Lemma respects_with k : (forall s0, respects R (k s0)) -> respects R (withs k).
Proof. intros H s. apply H. Qed.
Lemma respects_foreach {A} (l : list A) body :
  (forall a, respects R (body a)) -> respects R (foreach l body).
Proof.
  intros H s. unfold foreach. revert s.
  induction l as [|a l IH]; intros s; simpl; [done|].
  etrans; [apply H | apply IH].
Qed.
End CommandRules.

(** A projection a command leaves alone. *)
Definition same {S A} (p : S -> A) : S -> S -> Prop := fun s s' => p s' = p s.
#[export] Instance same_preorder {S A} (p : S -> A) : PreOrder (same p).
Proof. split; [done|]. intros a b c H1 H2. unfold same in *. congruence. Qed.

Section TripleRules.
Context {S : Type}.
Implicit Types (P Q : S -> Prop) (a b : cmd S).

Lemma triple_seq P M Q a b : triple P a M -> triple M b Q -> triple P (a ;; b) Q.
Proof. intros Ha Hb s Hs. apply Hb, Ha, Hs. Qed.
Lemma triple_if P Q g a b :
  triple (fun s => P s /\ g s = true) a Q ->
  triple (fun s => P s /\ g s = false) b Q -> triple P (ifc g a b) Q.
Proof.
  intros Ha Hb s Hs. unfold ifc. destruct (g s) eqn:E; [apply Ha | apply Hb]; auto.
Qed.
Lemma triple_conseq (P P' Q Q' : S -> Prop) a :
  triple P' a Q' -> (forall s, P s -> P' s) -> (forall s, Q' s -> Q s) -> triple P a Q.
Proof. intros H Hp Hq s Hs. by apply Hq, H, Hp. Qed.
Lemma triple_respects R P a :
  respects R a -> (forall s s', R s s' -> P s -> P s') -> triple P a P.
Proof. intros Ha Hr s Hs. eapply Hr; [apply Ha | done]. Qed.
(** A predicate the command leaves alone can be carried along. *)
Lemma triple_frame (F : S -> Prop) P a Q :
  respects (same F) a -> triple P a Q ->
  triple (fun s => F s /\ P s) a (fun s => F s /\ Q s).
Proof. intros Hf Ht s [HF HP]. split; [|by apply Ht]. by rewrite (Hf s). Qed.
End TripleRules.

Create HintDb evse_cmd.
#[export] Hint Resolve respects_skip respects_seq respects_if respects_when
  respects_with respects_foreach : evse_cmd.

(** Walk down a composed command, by its syntax; [leaf] closes the primitive
    updates. *)
Ltac respects_tac leaf :=
  repeat (cbv beta zeta;
    lazymatch goal with
    | |- respects _ (seqc _ _) => apply respects_seq; [exact _ | |]
    | |- respects _ (ifc _ _ _) => apply respects_if
    | |- respects _ (whenc _ _) => apply respects_when; [exact _ |]
    | |- respects _ (withs _) => apply respects_with; intros ?
    | |- respects _ (foreach _ _) => apply respects_foreach; [exact _ | intros ?]
    | |- respects _ skip => apply respects_skip; exact _
    | |- respects _ (match ?x with _ => _ end) => destruct x
    | |- respects _ _ => leaf
    end).

(** Commands whose primitive updates all leave a projection alone. *)
Ltac same_tac :=
  lazymatch goal with
  | |- respects _ _ => idtac
  | |- same ?p ?s (?a ?s) =>
      let H := fresh in assert (H : respects (same p) a); [|exact (H s)]
  end;
  respects_tac ltac:(intros ?; reflexivity).

(** ** Symbolic execution of commands

    [symexec] runs the commands of the goal on their symbolic state: the state
    stays a chain of record updates, every guard is reduced to a condition on
    the initial state and decided from the context or split on.  Named
    commands are unfolded by the caller. *)
Section SymbolicExecution.
Context {S : Type} (g : S -> bool) (k : S -> cmd S) (a c b : cmd S) (s : S).
Lemma seqc_eq : seqc a b s = b (a s).
Proof. done. Qed.
Lemma seqc_assoc : seqc (seqc a c) b s = seqc a (seqc c b) s.
Proof. done. Qed.
Lemma seqc_skip : seqc skip b s = b s.
Proof. done. Qed.
Lemma seqc_when : seqc (whenc g a) b s = seqc (ifc g a skip) b s.
Proof. done. Qed.
Lemma seqc_with : seqc (withs k) b s = seqc (k s) b s.
Proof. done. Qed.
Lemma whenc_eq : whenc g a s = ifc g a skip s.
Proof. done. Qed.
Lemma withs_eq : withs k s = k s s.
Proof. done. Qed.
Lemma skip_eq : skip s = s.
Proof. done. Qed.
Lemma ifc_true : g s = true -> ifc g a c s = a s.
Proof. unfold ifc. by intros ->. Qed.
Lemma ifc_false : g s = false -> ifc g a c s = c s.
Proof. unfold ifc. by intros ->. Qed.
Lemma seqc_if_true : g s = true -> seqc (ifc g a c) b s = seqc a b s.
Proof. unfold seqc, ifc. by intros ->. Qed.
Lemma seqc_if_false : g s = false -> seqc (ifc g a c) b s = seqc c b s.
Proof. unfold seqc, ifc. by intros ->. Qed.
End SymbolicExecution.

(** Replace the guards decided in the context by their values. *)
Ltac use_guards :=
  repeat match goal with
    | H : ?v = true |- context [?v] =>
        lazymatch v with true => fail | false => fail | _ => rewrite H end
    | H : ?v = false |- context [?v] =>
        lazymatch v with true => fail | false => fail | _ => rewrite H end
    end; cbn.

(** How a guard is decided from the context; a file may strengthen it. *)
Ltac guard_hook := fail.
Ltac solve_guard := use_guards; first [reflexivity | guard_hook].

(** Decide the boolean [v]: by computation, from the context, or by cases. *)
Ltac decide_guard v ktrue kfalse :=
  lazymatch v with
  | true => ktrue (eq_refl true)
  | false => kfalse (eq_refl false)
  | _ =>
      let E := fresh "E" in
      first
        [ assert (E : v = true) by solve_guard; ktrue E; clear E
        | assert (E : v = false) by solve_guard; kfalse E; clear E
        | assert (E : v = true \/ v = false) by (destruct v; auto);
          destruct E as [E|E]; [ktrue E | kfalse E] ]
  end.

(** Calls executed by a summary lemma instead of their body. *)
Ltac call_hook := fail.

Ltac cmd_step :=
  first [call_hook |
  match goal with
  | |- context [seqc (seqc ?a ?c) ?b ?s] => rewrite (seqc_assoc a c b s)
  | |- context [seqc skip ?b ?s] => rewrite (seqc_skip b s); cbv beta
  | |- context [seqc (whenc ?g ?a) ?b ?s] => rewrite (seqc_when g a b s)
  | |- context [seqc (withs ?k) ?b ?s] => rewrite (seqc_with k b s); cbv beta
  | |- context [seqc (ifc ?g ?a ?c) ?b ?s] =>
      let v := eval cbn in (g s) in
      decide_guard v
        ltac:(fun H => rewrite (seqc_if_true g a c b s H))
        ltac:(fun H => rewrite (seqc_if_false g a c b s H))
  | |- context [seqc ?a ?b ?s] => rewrite (seqc_eq a b s); cbv beta
  | |- context [whenc ?g ?a ?s] => rewrite (whenc_eq g a s)
  | |- context [ifc ?g ?a ?c ?s] =>
      let v := eval cbn in (g s) in
      decide_guard v
        ltac:(fun H => rewrite (ifc_true g a c s H); cbv beta)
        ltac:(fun H => rewrite (ifc_false g a c s H); cbv beta)
  | |- context [withs ?k ?s] => rewrite (withs_eq k s); cbv beta
  | |- context [skip ?s] => rewrite (skip_eq s)
  end].

Ltac symexec := repeat cmd_step.

(** Run the command that produces the state [s'] the goal speaks of, once. *)
Tactic Notation "symexec_as" constr(t) tactic3(unf) :=
  let s' := fresh "s'" in let H := fresh "Hs" in
  remember t as s' eqn:H; revert H; unf; symexec; intros ->.

(** ** Boolean case analysis *)

(** Split every [if]/boolean test of the goal and context, keeping facts. *)
Ltac bool_simpl :=
  repeat match goal with
    | H : _ && _ = true |- _ => apply andb_true_iff in H as [? ?]
    | H : _ || _ = false |- _ => apply orb_false_iff in H as [? ?]
    | H : negb _ = true |- _ => apply negb_true_iff in H
    | H : negb _ = false |- _ => apply negb_false_iff in H
    | H : bool_decide _ = true |- _ => apply bool_decide_eq_true in H
    | H : bool_decide _ = false |- _ => apply bool_decide_eq_false in H
    | H : (_ >? _) = _ |- _ => rewrite Z.gtb_ltb in H
    | H : (_ >=? _) = _ |- _ => rewrite Z.geb_leb in H
    | H : (_ <=? _) = true |- _ => apply Z.leb_le in H
    | H : (_ <=? _) = false |- _ => apply Z.leb_gt in H
    | H : (_ <? _) = true |- _ => apply Z.ltb_lt in H
    | H : (_ <? _) = false |- _ => apply Z.ltb_ge in H
    | H : (_ =? _) = true |- _ => apply Z.eqb_eq in H
    | H : (_ =? _) = false |- _ => apply Z.eqb_neq in H
    end.

Ltac if_split :=
  match goal with
  | |- context [if ?b then _ else _] => destruct b eqn:?
  end.

(** ** Byte strings *)

Definition is_byte (b : Z) : Prop := 0 <= b < 256.

Fixpoint sumZ (l : list Z) : Z :=
  match l with [] => 0 | x :: l => x + sumZ l end.

Lemma sumZ_app l k : sumZ (l ++ k) = sumZ l + sumZ k.
Proof. induction l as [|x l IH]; simpl; [done|]. rewrite IH. lia. Qed.

Lemma sumZ_insert i b l :
  (i < length l)%nat -> sumZ (<[i := b]> l) = sumZ l - nth i l 0 + b.
Proof.
  revert i. induction l as [|x l IH]; intros i Hi; [cbn in Hi; lia|].
  destruct i as [|i]; simpl; [lia|]. simpl in Hi. rewrite IH by lia. lia.
Qed.

Lemma sumZ_bytes l : Forall is_byte l -> 0 <= sumZ l <= 255 * Z.of_nat (length l).
Proof.
  induction 1 as [|x l Hx Hl IH]; simpl; [lia|]. unfold is_byte in Hx. lia.
Qed.

(** Little-endian 16-bit stores, as [memcpy(&data[i], &u16, 2)] on the
    (little-endian) ESP32. *)
Definition le16 (z : Z) : list Z := [z mod 256; (z / 256) mod 256].

Lemma le16_bytes z : Forall is_byte (le16 z).
Proof. unfold le16, is_byte. repeat constructor; mlia. Qed.

Lemma le16_value z : 0 <= z < 65536 -> (z / 256) mod 256 * 256 + z mod 256 = z.
Proof. intros. mlia. Qed.

(** ** Iteration *)

Fixpoint iter {A} (n : nat) (f : A -> A) (x : A) : A :=
  match n with O => x | S k => iter k f (f x) end.

Lemma iter_S {A} n (f : A -> A) x : iter (S n) f x = f (iter n f x).
Proof. revert x. induction n as [|n IH]; intros x; [done|]. simpl in *. apply IH. Qed.

Lemma iter_add {A} m n (f : A -> A) x : iter (m + n) f x = iter n f (iter m f x).
Proof. revert x. induction m as [|m IH]; intros x; [done|]. simpl. apply IH. Qed.

Lemma iter_invariant {A} (P : A -> Prop) n f x :
  (forall y, P y -> P (f y)) -> P x -> P (iter n f x).
Proof. intros Hf. revert x. induction n; simpl; auto. Qed.
