(* ===== verification/Binary64.v ===== *)
(** * IEEE-754 arithmetic of the firmware

    The C [double] of the ESP32 toolchain is software binary64 and [float] is
    binary32, both rounding to nearest even.  [spec_float] of the standard
    library is that arithmetic as an executable definition; this file fixes
    the two formats, the conversions the sources use, and the order lemmas
    behind every threshold comparison. *)

From Stdlib Require Export SpecFloat.
From S2P Require Import Prelude.

(** ** Formats and operations *)

Abbreviation b64 := spec_float (only parsing).

Definition fadd : b64 -> b64 -> b64 := SFadd 53 1024.
Definition fsub : b64 -> b64 -> b64 := SFsub 53 1024.
Definition fmul : b64 -> b64 -> b64 := SFmul 53 1024.
Definition fdiv : b64 -> b64 -> b64 := SFdiv 53 1024.

(** Implicit conversion of an integer operand to [double]. *)
Definition f_of_Z (z : Z) : b64 := binary_normalize 53 1024 z 0 false.

(** A decimal literal [n / 10^k]: division is correctly rounded and both
    operands are exact below [2^53], so this is the literal's value. *)
Definition dec (n : Z) (k : Z) : b64 := fdiv (f_of_Z n) (f_of_Z (10 ^ k)).

(** C comparisons: false as soon as an operand is a NaN. *)
Definition fltb (x y : b64) : bool := SFltb x y.
Definition fgtb (x y : b64) : bool := fltb y x.
Definition fleb (x y : b64) : bool := SFleb x y.
Definition fgeb (x y : b64) : bool := fleb y x.

(** Conversion to an integer type: truncation toward zero (the caller wraps
    it to the width of the type). *)
Definition f_trunc (x : b64) : Z :=
  match x with
  | S754_finite s m e =>
      let a := if 0 <=? e then Zpos m * 2 ^ e else Zpos m / 2 ^ (- e) in
      if s then - a else a
  | _ => 0
  end.

(** Assignment of a [double] to a [float] variable. *)
Definition to_b32 (x : b64) : b64 :=
  match x with
  | S754_finite s m e => binary_round 24 128 s m e
  | _ => x
  end.

(** Float expressions stay folded in goals; witnesses evaluate them. *)
Arguments fadd : simpl never.
Arguments fsub : simpl never.
Arguments fmul : simpl never.
Arguments fdiv : simpl never.
Arguments f_of_Z : simpl never.
Arguments dec : simpl never.
Arguments fltb : simpl never.
Arguments fgtb : simpl never.
Arguments fleb : simpl never.
Arguments fgeb : simpl never.
Arguments f_trunc : simpl never.
Arguments to_b32 : simpl never.

(** ** Order *)

Definition is_nan (x : b64) : bool := match x with S754_nan => true | _ => false end.

(** Non-NaN values embed into lexicographically ordered triples. *)
Definition key (x : b64) : Z * Z * Z :=
  match x with
  | S754_zero _ | S754_nan => (0, 0, 0)
  | S754_infinity s => (if s then -2 else 2, 0, 0)
  | S754_finite s m e => if s then (-1, - e, Zneg m) else (1, e, Zpos m)
  end.

Definition key_lt (a b : Z * Z * Z) : Prop :=
  let '(a1, a2, a3) := a in let '(b1, b2, b3) := b in
  a1 < b1 \/ (a1 = b1 /\ (a2 < b2 \/ (a2 = b2 /\ a3 < b3))).

Lemma SFcompare_key x y :
  is_nan x = false -> is_nan y = false ->
  match SFcompare x y with
  | Some Lt => key_lt (key x) (key y)
  | Some Gt => key_lt (key y) (key x)
  | Some Eq => key x = key y
  | None => False
  end.
Proof.
  destruct x as [?|[]| |[] m e], y as [?|[]| |[] m' e']; cbn; try discriminate;
    intros _ _; try lia; try reflexivity.
  all: change (Pos.compare_cont Eq m m') with (m ?= m')%positive.
  all: destruct (Z.compare_spec e e'); cbn; try lia.
  all: destruct (Pos.compare_spec m m'); cbn; subst; try lia; reflexivity.
Qed.

Lemma SFcompare_nan_l x y : is_nan x = true -> SFcompare x y = None.
Proof. by destruct x. Qed.
Lemma SFcompare_nan_r x y : is_nan y = true -> SFcompare x y = None.
Proof. by destruct y, x. Qed.

Lemma fltb_spec x y :
  fltb x y = true <->
  is_nan x = false /\ is_nan y = false /\ key_lt (key x) (key y).
Proof.
  unfold fltb, SFltb. destruct (is_nan x) eqn:Hx.
  { rewrite SFcompare_nan_l by done. naive_solver. }
  destruct (is_nan y) eqn:Hy.
  { rewrite SFcompare_nan_r by done. naive_solver. }
  pose proof (SFcompare_key x y Hx Hy) as H. revert H.
  destruct (SFcompare x y) as [[]|], (key x) as [[a1 a2] a3], (key y) as [[b1 b2] b3];
    cbn; intros H; try (injection H; intros; subst); split; intros; try done; try lia.
Qed.

Lemma fleb_spec x y :
  fleb x y = true <->
  is_nan x = false /\ is_nan y = false /\ ~ key_lt (key y) (key x).
Proof.
  unfold fleb, SFleb. destruct (is_nan x) eqn:Hx.
  { rewrite SFcompare_nan_l by done. naive_solver. }
  destruct (is_nan y) eqn:Hy.
  { rewrite SFcompare_nan_r by done. naive_solver. }
  pose proof (SFcompare_key x y Hx Hy) as H. revert H.
  destruct (SFcompare x y) as [[]|], (key x) as [[a1 a2] a3], (key y) as [[b1 b2] b3];
    cbn; intros H; try (injection H; intros; subst); split; intros; try done; try lia.
  all: repeat split; lia.
Qed.

(** Turn every float comparison of the context into a fact on keys, then
    let linear arithmetic decide the order reasoning. *)
Ltac forder :=
  unfold fgtb, fgeb in *;
  repeat match goal with
    | |- ?b = false => apply not_true_is_false; intros ?
    | |- fltb _ _ = true => apply fltb_spec
    | |- fleb _ _ = true => apply fleb_spec
    | |- SFltb _ _ = true => apply fltb_spec
    | |- SFleb _ _ = true => apply fleb_spec
    | H : fltb _ _ = true |- _ => apply fltb_spec in H
    | H : fleb _ _ = true |- _ => apply fleb_spec in H
    | H : SFltb _ _ = true |- _ => apply fltb_spec in H
    | H : SFleb _ _ = true |- _ => apply fleb_spec in H
    | H : fltb ?x ?y = false |- _ =>
        rewrite <- not_true_iff_false, fltb_spec in H
    | H : fleb ?x ?y = false |- _ =>
        rewrite <- not_true_iff_false, fleb_spec in H
    | H : SFltb ?x ?y = false |- _ =>
        rewrite <- not_true_iff_false in H; change (SFltb x y) with (fltb x y) in H;
        rewrite fltb_spec in H
    | H : SFleb ?x ?y = false |- _ =>
        rewrite <- not_true_iff_false in H; change (SFleb x y) with (fleb x y) in H;
        rewrite fleb_spec in H
    end;
  repeat match goal with
    | H : context [key ?x] |- _ =>
        is_var x; destruct (key x) as [[? ?] ?]
    | |- context [key ?x] => is_var x; destruct (key x) as [[? ?] ?]
    end;
  unfold key_lt in *; cbn in *; intuition (try congruence; try lia).

Lemma fltb_irrefl x : fltb x x = false.
Proof. forder. Qed.
Lemma fltb_trans x y z : fltb x y = true -> fltb y z = true -> fltb x z = true.
Proof. intros. forder. Qed.
Lemma fleb_fltb_trans x y z : fleb x y = true -> fltb y z = true -> fltb x z = true.
Proof. intros. forder. Qed.
Lemma fltb_fleb_trans x y z : fltb x y = true -> fleb y z = true -> fltb x z = true.
Proof. intros. forder. Qed.
Lemma fleb_trans x y z : fleb x y = true -> fleb y z = true -> fleb x z = true.
Proof. intros. forder. Qed.
Lemma fltb_fleb_false x y : fltb x y = true -> fleb y x = false.
Proof. intros. forder. Qed.
Lemma fltb_asym x y : fltb x y = true -> fltb y x = false.
Proof. intros. forder. Qed.
Lemma fleb_total x y :
  is_nan x = false -> is_nan y = false -> fleb x y = false -> fltb y x = true.
Proof. intros. forder. Qed.

Lemma fltb_negtrans x y z :
  is_nan y = false -> fltb x y = false -> fltb y z = false -> fltb x z = false.
Proof. intros. forder. Qed.

Create HintDb evse_float.
#[export] Hint Resolve fltb_trans fleb_fltb_trans fltb_fleb_trans fleb_trans
  fltb_fleb_false fltb_asym : evse_float.
