(* ===== verification/Text.v ===== *)
(** * Formatted text

    [printf]'s decimal formats, as the display pages use them, and copies into
    the middle of a character array. *)

From Stdlib Require Import Ascii.
From S2P Require Import Prelude Binary64.

(** ** Decimal fractions *)

(** [m * 2^e * 10^p] to the nearest integer, ties to even: the conversion of
    ["%.pf"] is correctly rounded. *)
Definition round_scaled (p : nat) (m : positive) (e : Z) : Z :=
  let n := Zpos m * 10 ^ Z.of_nat p in
  if 0 <=? e then n * 2 ^ e
  else
    let d := 2 ^ (- e) in
    let q := n / d in
    let r := n mod d in
    if (2 * r >? d) || ((2 * r =? d) && Z.odd q) then q + 1 else q.

(** The last [p] digits of [n], with their zeros. *)
Definition last_digits (p : nat) (n : Z) : string :=
  let s := pretty (10 ^ Z.of_nat p + n mod 10 ^ Z.of_nat p) in
  String.substring 1 p s.

Definition decimal (p : nat) (n : Z) : string :=
  pretty (n / 10 ^ Z.of_nat p) ++ "." ++ last_digits p n.

(** ["%.pf"]. *)
Definition fixed (p : nat) (x : b64) : string :=
  let signed (s : bool) (t : string) := if s then ("-" ++ t)%string else t in
  match x with
  | S754_zero s => signed s (decimal p 0)
  | S754_infinity s => signed s "inf"
  | S754_nan => "nan"
  | S754_finite s m e => signed s (decimal p (round_scaled p m e))
  end.

(** ["%02d"]. *)
Definition two_digits (n : Z) : string :=
  if (0 <=? n) && (n <=? 9) then ("0" ++ pretty n)%string else pretty n.

(** ** Character arrays *)

(** [snprintf(dst, n, ...)]: what fits, before the terminator. *)
Definition clip (n : nat) (s : string) : string := String.substring 0 (n - 1) s.

(** [strncpy(buf + at, s, strlen(s))]: no terminator is written. *)
Fixpoint overlay (at_ : nat) (s buf : string) : string :=
  match at_, buf with
  | S k, String a buf => String a (overlay k s buf)
  | _, _ =>
      (fix put (s buf : string) : string :=
         match s, buf with
         | String a s, String _ buf => String a (put s buf)
         | _, _ => buf
         end) s buf
  end.

Definition spaces (n : nat) : string := String.string_of_list_ascii (replicate n " "%char).

(** ** Reading numbers *)

(** newlib's [atoi], which is [strtol] on a 32-bit [long]: white space, a
    sign, digits up to the first other character, saturating. *)
Definition is_space (a : ascii) : bool :=
  let n := Z.of_N (N_of_ascii a) in (n =? 32) || ((9 <=? n) && (n <=? 13)).
Fixpoint skip_spaces (s : string) : string :=
  match s with
  | String a s' => if is_space a then skip_spaces s' else s
  | EmptyString => s
  end.
Fixpoint digits (s : string) (acc : Z) : Z :=
  match s with
  | String a s' =>
      let n := Z.of_N (N_of_ascii a) in
      if (48 <=? n) && (n <=? 57) then digits s' (10 * acc + (n - 48)) else acc
  | EmptyString => acc
  end.
Definition to_long (z : Z) : Z := Z.max (-2147483648) (Z.min 2147483647 z).
Definition atoi (s : string) : Z :=
  match skip_spaces s with
  | String a s' =>
      if Ascii.eqb a "-" then to_long (- digits s' 0)
      else if Ascii.eqb a "+" then to_long (digits s' 0)
      else to_long (digits (String a s') 0)
  | EmptyString => 0
  end.


(** [sscanf(s, "%hd", &w)] into a 16-bit word that holds [w]: without a
    conversion the word is kept. *)
Definition is_digit (a : ascii) : bool :=
  let n := Z.of_N (N_of_ascii a) in (48 <=? n) && (n <=? 57).
Definition after_sign (s : string) : bool * string :=
  match s with
  | String a s' => if Ascii.eqb a "-" then (true, s') else if Ascii.eqb a "+" then (false, s') else (false, s)
  | EmptyString => (false, s)
  end.
Definition scan_short (s : string) (w : Z) : Z :=
  match snd (after_sign (skip_spaces s)) with
  | String a _ => if is_digit a then u16 (atoi s) else w
  | EmptyString => w
  end.

(** The digits at the front of [s]: the number they continue [acc] to, how
    many they are, and what follows. *)
Fixpoint take_digits (s : string) (acc : Z) (k : nat) : Z * nat * string :=
  match s with
  | String a s' =>
      if is_digit a then take_digits s' (10 * acc + (Z.of_N (N_of_ascii a) - 48)) (S k) else (acc, k, s)
  | EmptyString => (acc, k, s)
  end.

(** [n * 10^e], correctly rounded. *)
Definition decimal_value (neg : bool) (n e : Z) : b64 :=
  match n with
  | Zpos m =>
      if 0 <=? e then binary_round 53 1024 neg (m * Z.to_pos (10 ^ e)) 0
      else fdiv (S754_finite neg m 0) (S754_finite false (Z.to_pos (10 ^ (- e))) 0)
  | _ => S754_zero neg
  end.

(** The exponent of a decimal number, when a complete one follows. *)
Definition scan_exponent (s : string) : Z :=
  match s with
  | String a s' =>
      if Ascii.eqb a "e" || Ascii.eqb a "E" then
        let '(neg, s') := after_sign s' in
        let '(n, k, _) := take_digits s' 0 0 in
        if (k =? 0)%nat then 0 else if neg then - n else n
      else 0
  | EmptyString => 0
  end.

Definition starts_with (w s : string) : bool := String.prefix w s.
Definition upper (a : ascii) : ascii :=
  let n := nat_of_ascii a in
  if ((97 <=? n) && (n <=? 122))%nat then ascii_of_nat (n - 32) else a.
Fixpoint uppercase (s : string) : string :=
  match s with EmptyString => EmptyString | String a s => String (upper a) (uppercase s) end.

(** [sscanf(s, "%lf", &x)] on a decimal number, an infinity or a NaN. *)
Definition scan_double (s : string) : option b64 :=
  let '(neg, s) := after_sign (skip_spaces s) in
  let '(n, k, s1) := take_digits s 0 0 in
  let '(n, j, s2) := match s1 with
    | String a s' => if Ascii.eqb a "." then take_digits s' n 0 else (n, 0%nat, s1)
    | EmptyString => (n, 0%nat, s1)
    end in
  if (k + j =? 0)%nat then
    if starts_with "INF" (uppercase s) then Some (S754_infinity neg)
    else if starts_with "NAN" (uppercase s) then Some S754_nan
    else None
  else Some (decimal_value neg n (scan_exponent s2 - Z.of_nat j)).

(** ** Laws *)

(** The decimal is the nearest one: at most half a unit away. *)
Lemma round_scaled_nearest p m e :
  e < 0 ->
  2 * Z.abs (round_scaled p m e * 2 ^ (- e) - Zpos m * 10 ^ Z.of_nat p) <= 2 ^ (- e).
Proof.
  intros He. unfold round_scaled. replace (0 <=? e) with false by lia. cbv zeta.
  set (n := Zpos m * 10 ^ Z.of_nat p). set (d := 2 ^ (- e)).
  assert (Hd : 0 < d) by (apply Z.pow_pos_nonneg; lia). clearbody n d.
  pose proof (Z.div_mod n d ltac:(lia)). pose proof (Z.mod_pos_bound n d Hd).
  destruct (_ || _) eqn:E; nia.
Qed.

Lemma pretty_N_go_length x s : (String.length s <= String.length (pretty_N_go x s))%nat.
Proof.
  revert s. induction (N.lt_wf_0 x) as [x _ IH]; intros s.
  assert (x = 0 \/ 0 < x)%N as [->|Hx] by lia; [by rewrite pretty_N_go_0|].
  rewrite pretty_N_go_step by done.
  etrans; [|apply IH; by apply N.div_lt]. cbn. lia.
Qed.

(** A number has more than [k] digits exactly from [10^k] on. *)
Lemma pretty_go_digits (k : nat) x s :
  ((10 ^ N.of_nat k <= x)%N -> (S k + String.length s <= String.length (pretty_N_go x s))%nat) /\
  ((x < 10 ^ N.of_nat k)%N -> (String.length (pretty_N_go x s) <= k + String.length s)%nat).
Proof.
  revert x s. induction k as [|k IH]; intros x s.
  - split; intros Hx.
    + rewrite pretty_N_go_step by (cbn in Hx; lia).
      etrans; [|apply pretty_N_go_length]. done.
    + replace x with 0%N by (cbn in Hx; lia). by rewrite pretty_N_go_0.
  - rewrite Nat2N.inj_succ, N.pow_succ_r'. destruct (IH (x `div` 10)%N
      (String (pretty_N_char (x `mod` 10)) s)) as [IH1 IH2]. cbn [String.length] in IH1, IH2.
    split; intros Hx.
    + rewrite pretty_N_go_step by (pose proof (N.pow_nonzero 10 (N.of_nat k)); lia).
      etrans; [|apply IH1, N.div_le_lower_bound; lia]. lia.
    + destruct (decide (x = 0%N)) as [->|Hx0]; [rewrite pretty_N_go_0; lia|].
      rewrite pretty_N_go_step by lia. etrans; [apply IH2, N.Div0.div_lt_upper_bound; lia|]. lia.
Qed.

Lemma length_pretty (k : nat) n :
  0 < n -> (String.length (pretty n) <= k)%nat <-> n < 10 ^ Z.of_nat k.
Proof.
  intros Hn. destruct n as [|p|p]; [lia| |lia].
  change (pretty (Z.pos p)) with (pretty (N.pos p)). unfold pretty, pretty_N.
  rewrite decide_False by done.
  destruct (pretty_go_digits k (N.pos p) "") as [H1 H2]. cbn [String.length] in H1, H2.
  replace (10 ^ Z.of_nat k) with (Z.of_N (10 ^ N.of_nat k)) by (rewrite N2Z.inj_pow; lia).
  split; intros H; [|lia].
  destruct (N.lt_ge_cases (N.pos p) (10 ^ N.of_nat k)); [lia|]. lia.
Qed.

Lemma length_overlay at_ s buf : String.length (overlay at_ s buf) = String.length buf.
Proof.
  revert buf. induction at_ as [|k IH]; intros buf.
  - cbn. revert buf. induction s as [|a s IHs]; intros [|b buf]; cbn; try done. by rewrite IHs.
  - destruct buf as [|b buf]; [by destruct s|]. cbn. by rewrite IH.
Qed.

Lemma length_clip n s : (String.length (clip (S n) s) <= n)%nat.
Proof.
  unfold clip. replace (S n - 1)%nat with n by lia. revert s.
  induction n as [|n IH]; intros [|a s]; cbn; try lia. specialize (IH s). lia.
Qed.

(** ** Fields of a line *)

Lemma length_spaces n : String.length (spaces n) = n.
Proof. unfold spaces. induction n as [|n IH]; [done|]. cbn. by rewrite IH. Qed.

Lemma length_app_string (s t : string) : String.length (s ++ t) = (String.length s + String.length t)%nat.
Proof. induction s as [|a s IH]; [done|]. exact (f_equal S IH). Qed.

Lemma app_assoc_string (s t u : string) : ((s ++ t) ++ u = s ++ (t ++ u))%string.
Proof. induction s as [|a s IH]; [done|]. exact (f_equal (String a) IH). Qed.

Lemma substring_short n s : (String.length s <= n)%nat -> String.substring 0 n s = s.
Proof.
  revert n. induction s as [|a s IH]; intros [|n]; cbn; try done; [lia|].
  intros Hl. by rewrite IH by lia.
Qed.
Lemma substring_all s : String.substring 0 (String.length s) s = s.
Proof. by apply substring_short. Qed.
Lemma substring_app_l s t : String.substring 0 (String.length s) (s ++ t) = s.
Proof. induction s as [|a s IH]; [by destruct t | exact (f_equal (String a) IH)]. Qed.
Lemma substring_app_r s t k n :
  String.substring (String.length s + k) n (s ++ t) = String.substring k n t.
Proof. induction s as [|a s IH]; [done|]. exact IH. Qed.

Lemma overlay_app_l s a b :
  (String.length s <= String.length a)%nat -> overlay 0 s (a ++ b) = (overlay 0 s a ++ b)%string.
Proof.
  revert a. induction s as [|c s IH]; intros [|d a] Hl; try done; [cbn in Hl; lia|].
  change (String c (overlay 0 s (a ++ b)) = String c (overlay 0 s a ++ b)%string).
  f_equal. apply IH. cbn in Hl. lia.
Qed.
Lemma overlay_app_r k s a b :
  overlay (String.length a + k) s (a ++ b) = (a ++ overlay k s b)%string.
Proof. induction a as [|c a IH]; [done|]. exact (f_equal (String c) IH). Qed.
Lemma overlay_whole s b : String.length s = String.length b -> overlay 0 s b = s.
Proof.
  revert b. induction s as [|c s IH]; intros [|d b] Hl; try done.
  change (String c (overlay 0 s b) = String c s). f_equal. apply IH. by injection Hl.
Qed.

(** Text written over blanks is the text filled up with blanks. *)
Lemma overlay_spaces n m s :
  (String.length s <= n <= m)%nat -> overlay 0 s (spaces n) = String.substring 0 n (s ++ spaces m).
Proof.
  revert n. induction s as [|c s IH]; intros n Hn.
  - assert (Hs : forall n m, (n <= m)%nat -> String.substring 0 n (spaces m) = spaces n).
    { clear. induction n as [|n IH]; intros [|m] Hl; try done; [lia|].
      unfold spaces in *. cbn. rewrite IH by lia. done. }
    change (spaces n = String.substring 0 n (spaces m)). symmetry. apply Hs. lia.
  - destruct n as [|n]; [cbn in Hn; lia|]. cbn in Hn.
    change (overlay 0 (String c s) (spaces (S n))) with (String c (overlay 0 s (spaces n))).
    change (String.substring 0 (S n) (String c s ++ spaces m))
      with (String c (String.substring 0 n (s ++ spaces m))).
    f_equal. apply IH. lia.
Qed.

(** ** Reading back a printed number *)

Definition starts_digit (s : string) : bool :=
  match s with String a _ => is_digit a | EmptyString => false end.

Lemma pretty_N_char_digit d :
  (d < 10)%N -> is_digit (pretty_N_char d) = true /\
  Z.of_N (N_of_ascii (pretty_N_char d)) = 48 + Z.of_N d.
Proof.
  intros Hd. assert (Hall : Forall (fun d => is_digit (pretty_N_char (Z.to_N d)) = true /\
    Z.of_N (N_of_ascii (pretty_N_char (Z.to_N d))) = 48 + d) (seqZ 0 10))
    by (apply (bool_decide_unpack _); vm_compute; exact I).
  rewrite Forall_forall in Hall. specialize (Hall (Z.of_N d)). rewrite N2Z.id in Hall.
  apply Hall, list_elem_of_In, elem_of_seqZ. lia.
Qed.

Lemma digits_pretty x s : digits (pretty_N_go x s) 0 = digits s (Z.of_N x).
Proof.
  revert s. induction (N.lt_wf_0 x) as [x _ IH]; intros s.
  assert (x = 0 \/ 0 < x)%N as [->|Hx] by lia; [by rewrite pretty_N_go_0|].
  rewrite pretty_N_go_step by done. rewrite IH by (by apply N.div_lt).
  destruct (pretty_N_char_digit (x `mod` 10)) as [Hd Hn]; [by apply N.mod_lt|].
  cbn [digits]. unfold is_digit in Hd. rewrite Hd, Hn. f_equal.
  rewrite N2Z.inj_div, N2Z.inj_mod. pose proof (Z.div_mod (Z.of_N x) 10). lia.
Qed.

Lemma pretty_go_starts x s : (0 < x)%N \/ starts_digit s = true -> starts_digit (pretty_N_go x s) = true.
Proof.
  revert s. induction (N.lt_wf_0 x) as [x _ IH]; intros s Hs.
  assert (x = 0 \/ 0 < x)%N as [->|Hx] by lia.
  - rewrite pretty_N_go_0. by destruct Hs as [|Hs]; [lia|].
  - rewrite pretty_N_go_step by done. apply IH; [by apply N.div_lt|]. right.
    apply pretty_N_char_digit. by apply N.mod_lt.
Qed.

Lemma digit_plain a :
  is_digit a = true -> is_space a = false /\ Ascii.eqb a "-" = false /\ Ascii.eqb a "+" = false.
Proof. destruct a as [[] [] [] [] [] [] [] []]; cbn; intros Hd; try discriminate; by split_and!. Qed.

Lemma scan_short_pretty n w : 0 <= n < 65536 -> scan_short (pretty n) w = n.
Proof.
  intros Hn. destruct n as [|p|]; [done| |lia].
  change (pretty (Z.pos p)) with (pretty (N.pos p)). unfold pretty, pretty_N. rewrite decide_False by done.
  pose proof (pretty_go_starts (N.pos p) "" (or_introl eq_refl)) as Hs.
  pose proof (digits_pretty (N.pos p) "") as Hd.
  destruct (pretty_N_go (N.pos p) "") as [|a s]; [done|].
  cbn [starts_digit] in Hs. destruct (digit_plain a Hs) as (H1 & H2 & H3).
  unfold scan_short, atoi. cbn [skip_spaces]. rewrite H1. unfold after_sign. rewrite H2, H3.
  cbn [snd]. rewrite Hs, Hd. cbn [digits]. change (Z.of_N (N.pos p)) with (Z.pos p).
  unfold to_long. rewrite Z.min_r, Z.max_r by lia. by apply u16_small.
Qed.
