(* ===== verification/Config.v ===== *)
(** * Configuration: [Config_t] and the settings derived at boot

    [main/ProjectSettings.h] declares the persistent configuration;
    [init_config] ([main/main.c]) normalises it at every boot and
    [ocpp_task_init] ([main/ocpp_task.c]) derives from the charger type which
    connectors have a control pilot and which have a push button.  The
    character arrays of [Config_t] (names, URLs, passwords), the [_old]
    thresholds and the spare fields take no part in those computations and
    are left out of the record. *)

From S2P Require Import Prelude Binary64.

(** ** [Config_t] *)

Record Config_t := mkConfig {
  wifiAvailability : bool;
  wifiPriority : Z;
  gsmAvailability : bool;
  gsmPriority : Z;
  ethernetAvailability : bool;
  ethernetPriority : Z;
  wifiEnable : bool;
  gsmEnable : bool;
  ethernetEnable : bool;
  onlineOffline : bool;
  online : bool;
  offline : bool;
  ethernetConfig : bool;
  lowCurrentTime : Z;
  minLowCurrentThreshold : b64;
  resumeSession : bool;
  otaEnable : bool;
  redirectLogs : bool;
  CurrentGain : b64;
  CurrentOffset : b64;
  CurrentGain1 : b64;
  CurrentGain2 : b64;
  restoreSession : bool;
  sessionRestoreTime : Z;
  factoryReset : bool;
  plugnplay : bool;
  gfci : bool;
  timestampSync : bool;
  clearAuthCache : bool;
  defaultConfig : bool;
  vcharge_v5 : bool;
  vcharge_lite_1_4 : bool;
  vcharge_lite_1_3 : bool;
  infra_charger : bool;
  sales_charger : bool;
  Ac3s : bool;
  Ac7s : bool;
  Ac11s : bool;
  Ac22s : bool;
  Ac44s : bool;
  Ac14D : bool;
  Ac10DP : bool;
  Ac10DA : bool;
  Ac10t : bool;
  Ac14t : bool;
  Ac18t : bool;
  displayType : Z;
  NumofDisplays : Z;
  MultiConnectorDisplay : bool;
  NumberOfConnectors : Z;
  cpDuty : cid -> Z;
  overVoltageThreshold : b64;
  underVoltageThreshold : b64;
  overCurrentThreshold : cid -> b64;
  overTemperatureThreshold : b64;
  AC1 : bool;
  AC2 : bool;
  AC3 : bool;
  Ac6D : bool;
  smartCharging : bool;
  BatteryBackup : bool;
  DiagnosticServer : bool;
  StopTransactionInSuspendedState : bool;
  StopTransactionInSuspendedStateTime : Z;
  ALPR : bool;
  NumOfAlprDevices : Z;
  serverSetCpDuty : cid -> Z
}.

#[export] Instance Config_rebuild : Rebuild Config_t := fun c =>
  mkConfig
    (wifiAvailability c) (wifiPriority c) (gsmAvailability c) (gsmPriority c)
    (ethernetAvailability c) (ethernetPriority c) (wifiEnable c)
    (gsmEnable c) (ethernetEnable c) (onlineOffline c) (online c) (offline c)
    (ethernetConfig c) (lowCurrentTime c) (minLowCurrentThreshold c)
    (resumeSession c) (otaEnable c) (redirectLogs c) (CurrentGain c)
    (CurrentOffset c) (CurrentGain1 c) (CurrentGain2 c) (restoreSession c)
    (sessionRestoreTime c) (factoryReset c) (plugnplay c) (gfci c)
    (timestampSync c) (clearAuthCache c) (defaultConfig c) (vcharge_v5 c)
    (vcharge_lite_1_4 c) (vcharge_lite_1_3 c) (infra_charger c)
    (sales_charger c) (Ac3s c) (Ac7s c) (Ac11s c) (Ac22s c) (Ac44s c)
    (Ac14D c) (Ac10DP c) (Ac10DA c) (Ac10t c) (Ac14t c) (Ac18t c)
    (displayType c) (NumofDisplays c) (MultiConnectorDisplay c)
    (NumberOfConnectors c) (cpDuty c) (overVoltageThreshold c)
    (underVoltageThreshold c) (overCurrentThreshold c)
    (overTemperatureThreshold c) (AC1 c) (AC2 c) (AC3 c) (Ac6D c)
    (smartCharging c) (BatteryBackup c) (DiagnosticServer c)
    (StopTransactionInSuspendedState c)
    (StopTransactionInSuspendedStateTime c) (ALPR c) (NumOfAlprDevices c)
    (serverSetCpDuty c).

(** [memset(&config, 0, sizeof(Config_t))]: all-zero bytes. *)
Definition zeroed_config : Config_t :=
  mkConfig
    false 0 false 0 false 0 false false false false false false false 0
    (S754_zero false) false false false (S754_zero false) (S754_zero false)
    (S754_zero false) (S754_zero false) false 0 false false false false false
    false false false false false false false false false false false false
    false false false false false 0 0 false 0 (fun _ => 0) (S754_zero false)
    (S754_zero false) (fun _ => S754_zero false) (S754_zero false) false
    false false false false false false false 0 false 0 (fun _ => 0).

Definition DISP_LED := 1.
Definition DISP_CHAR := 2.
Definition DISP_DWIN := 3.

(** ** [init_config] *)

Record boot := mkBoot {
  config : Config_t;
  connectorEnabled : cid -> bool
}.
#[export] Instance boot_rebuild : Rebuild boot :=
  fun b => mkBoot (config b) (connectorEnabled b).

Definition setc (f : Config_t -> Config_t) : cmd boot := update config f.
Definition enable (c : cid) : cmd boot := update connectorEnabled (upd c true).

(** The factory defaults written when [config.defaultConfig] is clear. *)
Definition factory_config : Config_t :=
  zeroed_config
    <| wifiAvailability := true |> <| wifiPriority := 3 |>
    <| gsmAvailability := true |> <| gsmPriority := 2 |>
    <| ethernetAvailability := true |> <| ethernetPriority := 1 |>
    <| wifiEnable := true |> <| gsmEnable := true |> <| ethernetEnable := false |>
    <| onlineOffline := false |> <| online := true |> <| offline := false |>
    <| plugnplay := true |> <| ethernetConfig := false |>
    <| lowCurrentTime := 30 |> <| minLowCurrentThreshold := dec 25 2 |>
    <| resumeSession := true |> <| otaEnable := true |> <| redirectLogs := true |>
    <| CurrentGain := dec 98042 5 |> <| CurrentOffset := dec (-2957) 5 |>
    <| CurrentGain1 := dec 2202 3 |> <| CurrentGain2 := dec 221 2 |>
    <| overVoltageThreshold := f_of_Z 275 |>
    <| underVoltageThreshold := f_of_Z 175 |>
    <| overCurrentThreshold :=
         upd Conn3 (f_of_Z 17) (upd Conn2 (f_of_Z 35)
           (upd Conn1 (f_of_Z 35) (fun _ => S754_zero false))) |>
    <| overTemperatureThreshold := f_of_Z 80 |>
    <| restoreSession := true |> <| sessionRestoreTime := 60 |>
    <| factoryReset := false |> <| timestampSync := true |>
    <| clearAuthCache := false |> <| gfci := false |>
    <| vcharge_v5 := false |> <| vcharge_lite_1_4 := true |>
    <| AC1 := false |> <| AC2 := false |>
    <| infra_charger := false |> <| sales_charger := true |>
    <| Ac3s := true |> <| Ac7s := false |> <| Ac11s := false |> <| Ac22s := false |>
    <| Ac44s := false |> <| Ac14D := false |> <| Ac10DP := false |>
    <| Ac10DA := false |> <| Ac10t := false |> <| Ac14t := false |>
    <| Ac18t := false |> <| Ac6D := false |>
    <| cpDuty := upd Conn3 100 (upd Conn2 100 (upd Conn1 53 (fun _ => 0))) |>
    <| displayType := DISP_LED |> <| NumofDisplays := 1 |>
    <| NumberOfConnectors := 1 |> <| MultiConnectorDisplay := false |>
    <| smartCharging := false |> <| BatteryBackup := false |>
    <| DiagnosticServer := false |> <| ALPR := false |>
    <| StopTransactionInSuspendedState := true |>
    <| StopTransactionInSuspendedStateTime := 480 |>.

Definition load_defaults : cmd boot :=
  WHEN (fun b => negb (defaultConfig (config b))) THEN
    setc (fun _ => factory_config)
  FI.

(** [if (config.CurrentGain > 5.0) ...]: out-of-range calibrations. *)
Definition reset_gains : cmd boot :=
  WHEN (fun b => fgtb (CurrentGain (config b)) (f_of_Z 5)) THEN
    setc (fun c => c <| CurrentGain := f_of_Z 1 |>) FI ;;
  WHEN (fun b => fgtb (CurrentGain1 (config b)) (f_of_Z 5)) THEN
    setc (fun c => c <| CurrentGain1 := f_of_Z 2 |>) FI ;;
  WHEN (fun b => fgtb (CurrentGain2 (config b)) (f_of_Z 5)) THEN
    setc (fun c => c <| CurrentGain2 := f_of_Z 2 |>) FI ;;
  WHEN (fun b => fgtb (CurrentOffset (config b)) (f_of_Z 5)) THEN
    setc (fun c => c <| CurrentOffset := S754_zero false |>) FI.

Definition is_single (c : Config_t) : bool :=
  Ac3s c || Ac7s c || Ac11s c || Ac22s c || Ac44s c.
Definition is_dual (c : Config_t) : bool :=
  Ac10DA c || Ac10DP c || Ac14D c || Ac6D c.
Definition is_triple (c : Config_t) : bool :=
  Ac10t c || Ac14t c || Ac18t c.

Definition number_of_connectors_from_type : cmd boot :=
  WHEN (fun b => is_single (config b)) THEN
    setc (fun c => c <| NumberOfConnectors := 1 |>) ;;
    enable Conn1
  FI ;;
  WHEN (fun b => is_dual (config b)) THEN
    setc (fun c => c <| NumberOfConnectors := 2 |>) ;;
    enable Conn1 ;; enable Conn2
  FI ;;
  WHEN (fun b => is_triple (config b)) THEN
    setc (fun c => c <| NumberOfConnectors := 3 |>) ;;
    enable Conn1 ;; enable Conn2 ;; enable Conn3
  FI.

Definition clamp_displays : cmd boot :=
  WHEN (fun b => NumofDisplays (config b) >? NumberOfConnectors (config b)) THEN
    setc (fun c => c <| NumofDisplays := NumberOfConnectors c |>)
  FI ;;
  setc (fun c => c <| MultiConnectorDisplay :=
    (NumofDisplays c =? 1) && (NumberOfConnectors c >? 1)
    && (displayType c =? DISP_CHAR) |>).

(** The disjunction of inequalities the source tests. *)
Definition server_duty_rejected (d : Z) : bool :=
  negb (d =? 16) || negb (d =? 26) || negb (d =? 36) || negb (d =? 41)
  || negb (d =? 53) || negb (d =? 66) || negb (d =? 83) || negb (d =? 89).

Definition restore_duty (i : cid) : cmd boot :=
  WHEN (fun b => server_duty_rejected (serverSetCpDuty (config b) i)) THEN
    setc (fun c => c <| serverSetCpDuty := upd i 53 (serverSetCpDuty c) |>)
  FI ;;
  setc (fun c => c <| cpDuty := upd i (serverSetCpDuty c i) (cpDuty c) |>).

(** The part of [init_config] that computes on the configuration (the string
    fields, the NVS write and the OTA partition queries are I/O). *)
Definition init_config : cmd boot :=
  load_defaults ;;
  WHEN (fun b => vcharge_v5 (config b)) THEN
    setc (fun c => c <| ethernetEnable := false |>) FI ;;
  reset_gains ;;
  number_of_connectors_from_type ;;
  clamp_displays ;;
  withs (fun b =>
    foreach (connectors_upto (NumberOfConnectors (config b))) restore_duty) ;;
  WHEN (fun b => smartCharging (config b)
                 && (vcharge_v5 (config b) || vcharge_lite_1_4 (config b))) THEN
    setc (fun c => c <| smartCharging := false |>)
  FI.

(** ** Hardware derived from the charger type ([ocpp_task_init]) *)

(** Types with a control pilot on connector 1, as [ocpp_task_init],
    [updateCpConfig] and [Control_pilot_state_init] test them. *)
Definition has_cp1 (c : Config_t) : bool :=
  Ac7s c || Ac11s c || Ac22s c || Ac44s c || Ac14D c || Ac10DP c || Ac10DA c
  || Ac14t c || Ac18t c.
Definition has_cp2 (c : Config_t) : bool := Ac14D c || Ac18t c.

Definition cpEnable_init (c : Config_t) : cid -> bool :=
  upd Conn2 (has_cp2 c) (upd Conn1 (has_cp1 c) (fun _ => false)).

Definition PushButtonEnabled_init (c : Config_t) : cid -> bool :=
  if Ac6D c then upd Conn2 true (upd Conn1 true (fun _ => false))
  else if Ac10t c then upd Conn3 true (upd Conn2 true (upd Conn1 true (fun _ => false)))
  else if Ac14t c then upd Conn3 true (upd Conn2 true (fun _ => false))
  else fun _ => false.

(** ** Properties *)

(** Some charger type is configured. *)
Definition typed (c : Config_t) : bool := is_single c || is_dual c || is_triple c.

(** What the tasks started after [init_config] rely on. *)
Definition duties_ok (c : Config_t) : Prop :=
  forall i, cid_to_Z i <= NumberOfConnectors c -> i <> Conn0 ->
    cpDuty c i = 53 /\ serverSetCpDuty c i = 53.

Definition connectors_ok (b : boot) : Prop :=
  1 <= NumberOfConnectors (config b) <= 3 /\
  forall i, connectorEnabled b i =
    bool_decide (1 <= cid_to_Z i <= NumberOfConnectors (config b)).

(** No calibration constant exceeds 5.0 (a NaN read from flash stays). *)
Definition gains_ok (c : Config_t) : Prop :=
  fgtb (CurrentGain c) (f_of_Z 5) = false /\ fgtb (CurrentGain1 c) (f_of_Z 5) = false
  /\ fgtb (CurrentGain2 c) (f_of_Z 5) = false
  /\ fgtb (CurrentOffset c) (f_of_Z 5) = false.

Lemma load_defaults_typed b :
  (defaultConfig (config b) = false \/ typed (config b) = true) ->
  typed (config (load_defaults b)) = true /\
  connectorEnabled (load_defaults b) = connectorEnabled b.
Proof.
  intros H. unfold load_defaults, whenc, ifc, skip, setc.
  destruct (defaultConfig (config b)) eqn:E; simpl; [naive_solver|].
  by split.
Qed.

Lemma number_of_connectors_eq b :
  number_of_connectors_from_type b =
  let c := config b in
  if is_triple c then enable Conn3 (enable Conn2 (enable Conn1
    ((if is_dual c then fun b => enable Conn2 (enable Conn1 b) else id)
    ((if is_single c then enable Conn1 else id)
      (b <| config := c <| NumberOfConnectors := 3 |> |>)))))
  else if is_dual c then enable Conn2 (enable Conn1
    ((if is_single c then enable Conn1 else id)
      (b <| config := c <| NumberOfConnectors := 2 |> |>)))
  else if is_single c then
    enable Conn1 (b <| config := c <| NumberOfConnectors := 1 |> |>)
  else b.
Proof.
  destruct b as [c e]. unfold number_of_connectors_from_type, whenc, ifc, seqc, skip, setc.
  cbn [config]. destruct (is_single c) eqn:E1, (is_dual c) eqn:E2, (is_triple c) eqn:E3;
    cbn; unfold is_dual, is_triple in *; cbn; rewrite ?E2, ?E3; cbn; rewrite ?E3; reflexivity.
Qed.

Lemma number_of_connectors_spec b :
  typed (config b) = true -> (forall i, connectorEnabled b i = false) ->
  connectors_ok (number_of_connectors_from_type b).
Proof.
  intros Ht He. rewrite number_of_connectors_eq. cbv zeta. unfold typed in Ht.
  destruct (is_triple (config b)), (is_dual (config b)), (is_single (config b));
    try discriminate.
  all: split; [cbn; lia|].
  all: intros []; cbn; rewrite ?He; reflexivity.
Qed.

Definition displays_ok (c : Config_t) : Prop :=
  NumofDisplays c <= NumberOfConnectors c /\
  MultiConnectorDisplay c = (NumofDisplays c =? 1) && (NumberOfConnectors c >? 1)
    && (displayType c =? DISP_CHAR).

Lemma reset_gains_spec b : gains_ok (config (reset_gains b)).
Proof.
  unfold reset_gains, gains_ok, whenc, ifc, seqc, skip, setc.
  destruct b as [c e]. cbn -[fgtb f_of_Z].
  destruct (fgtb (CurrentGain c) (f_of_Z 5)) eqn:E1; cbn -[fgtb f_of_Z];
    destruct (fgtb (CurrentGain1 c) (f_of_Z 5)) eqn:E2; cbn -[fgtb f_of_Z];
    destruct (fgtb (CurrentGain2 c) (f_of_Z 5)) eqn:E3; cbn -[fgtb f_of_Z];
    destruct (fgtb (CurrentOffset c) (f_of_Z 5)) eqn:E4; cbn -[fgtb f_of_Z];
    rewrite ?E1, ?E2, ?E3, ?E4; repeat split.
Qed.

Lemma clamp_displays_spec b : displays_ok (config (clamp_displays b)).
Proof.
  unfold clamp_displays, displays_ok, whenc, ifc, seqc, skip, setc.
  destruct (NumofDisplays (config b) >? NumberOfConnectors (config b)) eqn:E; cbn;
    (split; [lia | done]).
Qed.

Lemma restore_duties_spec b :
  1 <= NumberOfConnectors (config b) <= 3 ->
  duties_ok (config
    (foreach (connectors_upto (NumberOfConnectors (config b))) restore_duty b)).
Proof.
  intros HN. assert (Hrej : forall d, server_duty_rejected d = true).
  { intros d. unfold server_duty_rejected.
    destruct (Z.eqb_spec d 16), (Z.eqb_spec d 26); subst; done || lia. }
  assert (Hn : forall l, same (fun b => NumberOfConnectors (config b)) b (foreach l restore_duty b)).
  { intros l. apply respects_foreach; [exact _|]. intros i. unfold restore_duty. same_tac. }
  unfold duties_ok. rewrite Hn. intros i Hi Hi0.
  assert (NumberOfConnectors (config b) = 1 \/ NumberOfConnectors (config b) = 2
    \/ NumberOfConnectors (config b) = 3) as [E | [E | E]] by lia; rewrite E in *;
    rewrite ?connectors_upto_1, ?connectors_upto_2, ?connectors_upto_3;
    (destruct i; cbn in Hi; try done; try lia);
    unfold foreach, restore_duty, whenc, ifc, seqc, setc; cbn -[server_duty_rejected];
    rewrite !Hrej; done.
Qed.

(** The postconditions accumulated along [init_config], stage by stage. *)
Definition fresh_typed (b : boot) : Prop :=
  typed (config b) = true /\ forall i, connectorEnabled b i = false.

Lemma reset_gains_triple :
  triple fresh_typed reset_gains (fun b => fresh_typed b /\ gains_ok (config b)).
Proof.
  intros b [Ht He]. split; [|apply reset_gains_spec].
  assert (same (fun b => (typed (config b), connectorEnabled b)) b (reset_gains b)) as H
    by (unfold reset_gains; same_tac).
  injection H as H1 H2. unfold fresh_typed. by rewrite H1, H2.
Qed.

Lemma number_of_connectors_triple :
  triple (fun b => fresh_typed b /\ gains_ok (config b)) number_of_connectors_from_type
    (fun b => connectors_ok b /\ gains_ok (config b)).
Proof.
  intros b [[Ht He] Hg]. split; [by apply number_of_connectors_spec|].
  assert (same (fun b => gains_ok (config b)) b (number_of_connectors_from_type b)) as ->
    by (unfold number_of_connectors_from_type; same_tac).
  done.
Qed.

Lemma clamp_displays_triple :
  triple (fun b => (connectors_ok b /\ gains_ok (config b)) /\ True) clamp_displays
    (fun b => (connectors_ok b /\ gains_ok (config b)) /\ displays_ok (config b)).
Proof.
  apply (triple_frame (fun b => connectors_ok b /\ gains_ok (config b)));
    [unfold clamp_displays; same_tac | intros b _; apply clamp_displays_spec].
Qed.

Lemma restore_duties_triple :
  triple (fun b => gains_ok (config b) /\ displays_ok (config b) /\ connectors_ok b)
    (withs (fun b =>
      foreach (connectors_upto (NumberOfConnectors (config b))) restore_duty))
    (fun b => gains_ok (config b) /\ displays_ok (config b) /\ connectors_ok b
              /\ duties_ok (config b)).
Proof.
  apply (triple_frame (fun b => gains_ok (config b)));
    [unfold restore_duty; same_tac|].
  apply (triple_frame (fun b => displays_ok (config b)));
    [unfold restore_duty; same_tac|].
  intros b Hc. split; [|apply restore_duties_spec, Hc].
  match goal with |- connectors_ok (?k b) =>
    enough (same connectors_ok b (k b)) as -> by done end.
  unfold restore_duty; same_tac.
Qed.

(** Whatever configuration flash holds, provided it names a charger
    type (or is replaced by the factory defaults), [init_config] leaves it
    ready for the tasks: the connectors enabled are exactly [1..N] with
    [1 <= N <= 3]; every one of them starts at the 53% (32 A) duty cycle; no
    calibration constant exceeds 5.0; there are at most as many displays as
    connectors and the shared-display mode is on exactly for one character
    display serving several connectors; smart charging stays off on the
    boards without it. *)
Theorem init_config_ready b :
  defaultConfig (config b) = false \/ typed (config b) = true ->
  (forall i, connectorEnabled b i = false) ->
  let b' := init_config b in
  connectors_ok b' /\ duties_ok (config b') /\ gains_ok (config b') /\
  displays_ok (config b') /\
  (smartCharging (config b') = true ->
   vcharge_v5 (config b') = false /\ vcharge_lite_1_4 (config b') = false).
Proof.
  intros Ht He. cbv zeta.
  assert (H : triple (fun b0 => b0 = b) init_config (fun b' =>
    connectors_ok b' /\ duties_ok (config b') /\ gains_ok (config b') /\
    displays_ok (config b') /\ (smartCharging (config b') = true ->
      vcharge_v5 (config b') = false /\ vcharge_lite_1_4 (config b') = false)));
    [|by apply H].
  unfold init_config.
  eapply triple_seq.
  { instantiate (1 := fresh_typed). intros ? ->.
    destruct (load_defaults_typed b Ht) as [H1 H2]. split; [done|]. by rewrite H2. }
  eapply triple_seq.
  { instantiate (1 := fresh_typed). intros b0 [H1 H2].
    unfold whenc, ifc, skip, setc. by destruct (vcharge_v5 _). }
  eapply triple_seq; [apply reset_gains_triple|].
  eapply triple_seq; [apply number_of_connectors_triple|].
  eapply triple_seq;
    [eapply triple_conseq; [apply clamp_displays_triple | tauto | intros ? H; exact H]|].
  eapply triple_seq;
    [eapply triple_conseq; [apply restore_duties_triple | tauto | intros ? H; exact H]|].
  intros b0 (H1 & H2 & H3 & H4). unfold whenc, ifc, skip, setc.
  destruct (smartCharging (config b0)) eqn:E1, (vcharge_v5 (config b0)) eqn:E2,
    (vcharge_lite_1_4 (config b0)) eqn:E3; cbn [andb orb]; split_and!; try done; cbn; congruence.
Qed.

Definition witness_boot : boot :=
  mkBoot (zeroed_config <| defaultConfig := true |> <| Ac18t := true |>
            <| smartCharging := true |> <| AC1 := true |>) (fun _ => false).

Lemma init_config_ready_witness :
  connectors_ok (init_config witness_boot) /\
  NumberOfConnectors (config (init_config witness_boot)) = 3 /\
  smartCharging (config (init_config witness_boot)) = true.
Proof.
  split; [|by vm_compute].
  assert (H1 : typed (config witness_boot) = true) by reflexivity.
  assert (H2 : forall i, connectorEnabled witness_boot i = false) by reflexivity.
  exact (proj1 (init_config_ready witness_boot (or_intror H1) H2)).
Defined.
