(* ===== verification/FaultGpios.v ===== *)
(** * Relay driver and fault inputs ([main/faultGpios.c])

    The relay is an economiser-driven coil on the AC1 board (PWM on LEDC
    channel 1: full pull-in current first, 25% holding current later) and a
    plain GPIO on the others.  [ReadFaultsTask] runs every 70 ms: it advances
    the economiser and debounces the fault inputs with two samples 20 ms
    apart; [updateRelayState] is called by the control-pilot task and by the
    connector tasks. *)

From S2P Require Import Prelude Binary64 Config.

(** ** State *)

(** Pin numbers ([main/ProjectSettings.h]). *)
Definition GFCI_V14_PIN := 36.
Definition GFCI_V5_PIN := 34.
Definition GFCI_AC1_PIN := 34.
Definition EARTH_DISCONNECT_V14_PIN := 32.
Definition EARTH_DISCONNECT_V5_PIN := 39.
Definition EMERGENCY_V5_PIN := 36.
Definition RELAY_V5_PIN := 18.
Definition RELAY_AC1_PIN := 33.
Definition WATCH_DOG_V5_PIN := 2.
Definition WATCH_DOG_AC1_PIN := 15.

(** The file's globals, the registers it writes, and the sample variables of
    the task, which live across its iterations. *)
Record faults := mkFaults {
  relay_state : Z;
  relayOnTime : Z;
  relayOffTime : Z;
  gfciButton_pin : Z;
  earthDisconnectButton_pin : Z;
  emergencyButton_pin : Z;
  relay_pin : Z;
  watchdog_pin : Z;
  earthDisconnectCircuit : bool;
  gfciButton : bool;
  earthDisconnectButton : bool;
  emergencyButton : bool;
  gfciButton_temp : Z;
  earthDisconnectButton_temp : Z;
  emergencyButton_temp : Z;
  ledc1 : Z;               (* duty of LEDC channel 1, 10 bits *)
  gpio_out : Z -> option Z (* level last driven on each pin *)
}.
#[export] Instance faults_rebuild : Rebuild faults := fun f =>
  mkFaults (relay_state f) (relayOnTime f) (relayOffTime f) (gfciButton_pin f)
    (earthDisconnectButton_pin f) (emergencyButton_pin f) (relay_pin f)
    (watchdog_pin f) (earthDisconnectCircuit f) (gfciButton f)
    (earthDisconnectButton f) (emergencyButton f) (gfciButton_temp f)
    (earthDisconnectButton_temp f) (emergencyButton_temp f) (ledc1 f) (gpio_out f).

(** The values of the globals at reset. *)
Definition faults_reset : faults :=
  mkFaults 0 0 0 0 0 0 0 0 false false false false 0 0 0 0 (fun _ => None).

Definition ledc_set_duty1 (d : Z) : cmd faults := fun f => f <| ledc1 := d |>.
Definition gpio_set_level (pin level : Z) : cmd faults :=
  fun f => f <| gpio_out := fun p => if p =? pin then Some level else gpio_out f p |>.

(** ** [ReadFaultsTask] *)

(** The economiser half of an iteration (AC1 only). *)
Definition economiser : cmd faults :=
  IF fun f => relay_state f =? 1 THEN
    WHEN fun f => relayOnTime f <? 230 THEN
      fun f => f <| relayOnTime := u32 (relayOnTime f + 1) |> FI ;;
    IF fun f => relayOnTime f >? 225 THEN ledc_set_duty1 256
    ELSE IF fun f => relayOnTime f >? 150 THEN ledc_set_duty1 512
    ELSE IF fun f => relayOnTime f >? 75 THEN ledc_set_duty1 768
    ELSE ledc_set_duty1 1024 FI FI FI
  ELSE
    WHEN fun f => relayOffTime f <? 230 THEN
      fun f => f <| relayOffTime := u32 (relayOffTime f + 1) |> FI
  FI.

(** [earthDisconnectCircuit && (config.AC1 == false)]. *)
Definition earth_wired (c : Config_t) (f : faults) : bool :=
  earthDisconnectCircuit f && negb (AC1 c).

(** First samples: [level] is [gpio_get_level] before the 20 ms delay. *)
Definition sample_inputs (c : Config_t) (level : Z -> Z) : cmd faults :=
  WHEN fun _ => gfci c THEN
    fun f => f <| gfciButton_temp := level (gfciButton_pin f) |> FI ;;
  WHEN earth_wired c THEN
    fun f => f <| earthDisconnectButton_temp := level (earthDisconnectButton_pin f) |> FI ;;
  WHEN fun _ => vcharge_v5 c THEN
    fun f => f <| emergencyButton_temp := level (emergencyButton_pin f) |> FI.

(** Second samples: a flag follows its input only when both agree. *)
Definition confirm_inputs (c : Config_t) (level : Z -> Z) : cmd faults :=
  IF fun _ => gfci c THEN
    WHEN fun f => gfciButton_temp f =? level (gfciButton_pin f) THEN
      fun f => f <| gfciButton := gfciButton_temp f =? 1 |> FI
  ELSE fun f => f <| gfciButton := false |> FI ;;
  WHEN earth_wired c THEN
    WHEN fun f => earthDisconnectButton_temp f =? level (earthDisconnectButton_pin f) THEN
      fun f => f <| earthDisconnectButton := earthDisconnectButton_temp f =? 1 |> FI FI ;;
  WHEN fun f => (emergencyButton_temp f =? level (emergencyButton_pin f)) && vcharge_v5 c THEN
    fun f => f <| emergencyButton := emergencyButton_temp f =? 1 |> FI.

(** One iteration of the task; [before] and [after] are the input levels at
    the two sampling instants. *)
Definition ReadFaultsTask (c : Config_t) (before after : Z -> Z) : cmd faults :=
  WHEN fun _ => AC1 c THEN economiser FI ;;
  sample_inputs c before ;;
  confirm_inputs c after.

(** ** [fault_gpios_init] *)

Definition assign_pins (c : Config_t) : cmd faults :=
  IF fun _ => vcharge_lite_1_4 c THEN
    fun f => f <| gfciButton_pin := GFCI_V14_PIN |>
               <| earthDisconnectButton_pin := EARTH_DISCONNECT_V14_PIN |>
  ELSE IF fun _ => vcharge_v5 c THEN
    fun f => f <| gfciButton_pin := GFCI_V5_PIN |>
               <| earthDisconnectButton_pin := EARTH_DISCONNECT_V5_PIN |>
               <| emergencyButton_pin := EMERGENCY_V5_PIN |>
               <| relay_pin := RELAY_V5_PIN |>
               <| watchdog_pin := WATCH_DOG_V5_PIN |>
  ELSE WHEN fun _ => AC1 c THEN
    fun f => f <| gfciButton_pin := GFCI_AC1_PIN |>
               <| relay_pin := RELAY_AC1_PIN |>
               <| watchdog_pin := WATCH_DOG_AC1_PIN |> FI FI FI.

Definition fault_gpios_init (c : Config_t) : cmd faults :=
  assign_pins c ;;
  (fun f => f <| earthDisconnectCircuit :=
     Ac11s c || Ac22s c || Ac44s c || Ac14D c || Ac10DP c || Ac10DA c || Ac6D c
     || Ac10t c || Ac14t c || Ac18t c |>) ;;
  WHEN fun _ => vcharge_v5 c THEN
    fun f => f <| earthDisconnectCircuit := true |> FI ;;
  WHEN fun _ => vcharge_v5 c THEN
    fun f => gpio_set_level (relay_pin f) 0 f FI ;;
  WHEN fun _ => AC1 c THEN
    ledc_set_duty1 0 ;;
    (fun f => f <| relay_state := 0 |> <| relayOnTime := 0 |> <| relayOffTime := 0 |>) FI ;;
  WHEN fun _ => vcharge_v5 c || AC1 c THEN
    fun f => gpio_set_level (watchdog_pin f) 0 f FI.

(** ** [updateRelayState] *)

Definition RELAY1 := 1.

Definition updateRelayState (c : Config_t) (relay state : Z) : cmd faults :=
  IF fun _ => AC1 c THEN
    IF fun f => (relay =? RELAY1) && (state =? 0) && (relay_state f =? 1) THEN
      ledc_set_duty1 0 ;;
      (fun f => f <| relay_state := 0 |> <| relayOnTime := 0 |> <| relayOffTime := 0 |>)
    ELSE WHEN fun f => (relay =? RELAY1) && (state =? 1) && (relay_state f =? 0) THEN
      ledc_set_duty1 1024 ;;
      (fun f => f <| relay_state := 1 |> <| relayOnTime := 0 |> <| relayOffTime := 0 |>)
    FI FI
  ELSE
    IF fun _ => (relay =? RELAY1) && (state =? 0) THEN
      fun f => gpio_set_level (relay_pin f) 0 f
    ELSE WHEN fun _ => (relay =? RELAY1) && (state =? 1) THEN
      fun f => gpio_set_level (relay_pin f) 1 f FI FI
  FI.

(** [togglewatchdog]: the watchdog pin is pulsed and left low. *)
Definition togglewatchdog : cmd faults :=
  (fun f => gpio_set_level (watchdog_pin f) 0 f) ;;
  (fun f => gpio_set_level (watchdog_pin f) 1 f) ;;
  (fun f => gpio_set_level (watchdog_pin f) 0 f).

(** ** Properties *)

(** The holding current the economiser settles on, by number of elapsed
    70 ms ticks since the relay closed. *)
Definition coil_pwm (t : Z) : Z :=
  if t >? 225 then 256 else if t >? 150 then 512 else if t >? 75 then 768 else 1024.

(** A run of the task: the samples seen by each iteration, oldest first. *)
Definition run_task (c : Config_t) (samples : list ((Z -> Z) * (Z -> Z))) : cmd faults :=
  foreach samples (fun '(before, after) => ReadFaultsTask c before after).

(** The relay half of the state. *)
Definition coil (f : faults) : Z * Z * Z * Z :=
  (relay_state f, relayOnTime f, relayOffTime f, ledc1 f).

Lemma ReadFaultsTask_coil c before after f :
  AC1 c = true -> coil (ReadFaultsTask c before after f) = coil (economiser f).
Proof.
  intros HA. unfold ReadFaultsTask, seqc, whenc at 1, ifc at 1. rewrite HA.
  set (f1 := economiser f). clearbody f1.
  etrans; [|reflexivity].
  assert (H : respects (same coil) (sample_inputs c before ;; confirm_inputs c after))
    by (unfold sample_inputs, confirm_inputs; same_tac).
  apply H.
Qed.

Lemma economiser_closed f :
  relay_state f = 1 -> 0 <= relayOnTime f <= 230 ->
  coil (economiser f) =
    (1, Z.min 230 (relayOnTime f + 1), relayOffTime f,
     coil_pwm (Z.min 230 (relayOnTime f + 1))).
Proof.
  intros Hr Ht. symexec_as (economiser f) (unfold economiser, ledc_set_duty1); bool_simpl; try (exfalso; lia);
    unfold coil, coil_pwm; cbn; rewrite ?Hr.
  all: rewrite ?u32_small in * by lia.
  all: repeat if_split; bool_simpl; repeat f_equal; lia.
Qed.

(** The relay economiser: on the AC1 board, [n > 0] task
    iterations after the relay closes, and whatever the fault inputs do
    meanwhile, the coil is driven at 100%, 75%, 50% or 25% according to
    [min n 230] (in 70 ms ticks), and the tick counter has stopped at 230, so
    it never overflows. *)
Theorem economiser_profile c samples f :
  AC1 c = true -> relay_state f = 1 -> relayOnTime f = 0 -> samples <> [] ->
  let n := Z.of_nat (length samples) in
  coil (run_task c samples f) =
    (1, Z.min 230 n, relayOffTime f, coil_pwm (Z.min 230 n)).
Proof.
  intros HA Hr Ht Hne n. subst n.
  assert (Hgen : forall samples f, samples <> [] -> relay_state f = 1 ->
    0 <= relayOnTime f <= 230 ->
    let t := Z.min 230 (relayOnTime f + Z.of_nat (length samples)) in
    coil (run_task c samples f) = (1, t, relayOffTime f, coil_pwm t)).
  { clear -HA. intros samples.
    induction samples as [|[b a] l IH]; intros f Hne Hr Ht t; [done|]. subst t.
    pose proof (ReadFaultsTask_coil c b a f HA) as Hc.
    rewrite economiser_closed in Hc by done. unfold coil in Hc.
    injection Hc as H1 H2 H3 H4.
    unfold run_task, foreach. cbn [foldl]. fold (run_task c l (ReadFaultsTask c b a f)).
    destruct l as [|x l].
    - cbn. unfold coil. by rewrite H1, H2, H3, H4.
    - change (foldl _ _ _) with (run_task c (x :: l) (ReadFaultsTask c b a f)).
      rewrite IH; [|done|done|lia]. rewrite H2, H3.
      replace (Z.min 230 (Z.min 230 (relayOnTime f + 1) + Z.of_nat (length (x :: l))))
        with (Z.min 230 (relayOnTime f + Z.of_nat (length ((b, a) :: x :: l))))
        by (cbn [length]; lia).
      done. }
  rewrite Hgen by (done || lia). by rewrite Ht.
Qed.

Definition ac1_config : Config_t := zeroed_config <| AC1 := true |>.

Lemma economiser_profile_witness :
  let c := ac1_config in
  let f := updateRelayState c RELAY1 1 faults_reset in
  let samples := replicate 100 (fun _ : Z => 0, fun _ : Z => 1) in
  coil (run_task c samples f) = (1, 100, 0, 768).
Proof.
  cbv zeta. rewrite economiser_profile; [reflexivity | reflexivity | reflexivity | reflexivity | discriminate].
Defined.

(** The operations other tasks interleave on the relay state. *)
Inductive fault_step (c : Config_t) : faults -> faults -> Prop :=
| step_task before after f : fault_step c f (ReadFaultsTask c before after f)
| step_relay relay state f : fault_step c f (updateRelayState c relay state f)
| step_watchdog f : fault_step c f (togglewatchdog f).

(** The coil is driven exactly when the relay is closed. *)
Definition coil_ok (f : faults) : Prop :=
  (relay_state f = 0 /\ ledc1 f = 0 /\ 0 <= relayOffTime f <= 230) \/
  (relay_state f = 1 /\ In (ledc1 f) [1024; 768; 512; 256] /\ 0 <= relayOnTime f <= 230
   /\ (relayOnTime f = 0 -> ledc1 f = 1024)).

Lemma economiser_open f :
  relay_state f = 0 -> 0 <= relayOffTime f <= 230 ->
  coil (economiser f) = (0, relayOnTime f, Z.min 230 (relayOffTime f + 1), ledc1 f).
Proof.
  intros Hr Ht.
  symexec_as (economiser f) (unfold economiser); bool_simpl; try (exfalso; lia);
    unfold coil; cbn; rewrite Hr.
  - by rewrite u32_small, Z.min_r by lia.
  - repeat f_equal; lia.
Qed.

Lemma coil_pwm_range t : In (coil_pwm t) [1024; 768; 512; 256].
Proof. unfold coil_pwm. repeat if_split; cbn; auto. Qed.

Lemma coil_ok_step c f f' :
  AC1 c = true -> coil_ok f -> fault_step c f f' -> coil_ok f'.
Proof.
  intros HA Hok Hs. destruct Hs as [before after f | relay state f | f].
  - pose proof (ReadFaultsTask_coil c before after f HA) as Hc.
    destruct Hok as [(Hr & Hl & Ht) | (Hr & Hl & Ht & Ht0)].
    + rewrite economiser_open in Hc by done. injection Hc as H1 H2 H3 H4.
      left. rewrite H1, H3, H4. split_and!; [done..|lia|lia].
    + rewrite economiser_closed in Hc by done. injection Hc as H1 H2 H3 H4.
      right. rewrite H1, H2, H4. split_and!; [done|apply coil_pwm_range|lia|lia|lia].
  - unfold updateRelayState, whenc, ifc, seqc, skip. rewrite HA.
    destruct ((relay =? RELAY1) && (state =? 0) && (relay_state f =? 1)).
    { left. cbn. lia. }
    destruct ((relay =? RELAY1) && (state =? 1) && (relay_state f =? 0)); [|done].
    right. cbn. split_and!; auto; lia.
  - done.
Qed.

(** Coil safety: on the AC1 board, from initialisation and under
    any interleaving of the fault task, relay commands from any task and
    watchdog pulses, the coil is energised (between 25% and 100%) exactly
    when the relay is recorded closed, and it is energised at 100% right after
    closing. *)
Theorem coil_energised_iff_closed c f :
  AC1 c = true -> rtc (fault_step c) (fault_gpios_init c faults_reset) f -> coil_ok f.
Proof.
  intros HA Hr.
  assert (coil_ok (fault_gpios_init c faults_reset)) as H0.
  { left. unfold fault_gpios_init, assign_pins, whenc, ifc, seqc, skip. rewrite HA, orb_true_r.
    destruct (vcharge_lite_1_4 c), (vcharge_v5 c); cbn; lia. }
  revert Hr H0. generalize (fault_gpios_init c faults_reset) as f0.
  induction 1 as [|x y z Hxy Hyz IH]; eauto using coil_ok_step.
Qed.

Lemma coil_energised_iff_closed_witness :
  let c := ac1_config in
  coil_ok (updateRelayState c RELAY1 0
    (ReadFaultsTask c (fun _ => 0) (fun _ => 0)
      (updateRelayState c RELAY1 1 (fault_gpios_init c faults_reset)))).
Proof.
  cbv zeta. apply (coil_energised_iff_closed ac1_config); [reflexivity|].
  eapply rtc_l; [apply step_relay with (relay := RELAY1) (state := 1)|].
  eapply rtc_l; [apply step_task with (before := fun _ => 0) (after := fun _ => 0)|].
  eapply rtc_l; [apply step_relay with (relay := RELAY1) (state := 0) | apply rtc_refl].
Defined.

(** Debouncing: a fault flag changes only when the two samples of
    an iteration agree, and then takes their value; a disabled GFCI reads
    healthy; the emergency button exists on the V5 board only and the earth
    input only where its circuit is fitted. *)
Theorem debounce_spec c before after f :
  let f' := ReadFaultsTask c before after f in
  let agree p := before p =? after p in
  gfciButton f' =
    (if gfci c then
       if agree (gfciButton_pin f) then before (gfciButton_pin f) =? 1 else gfciButton f
     else false) /\
  earthDisconnectButton f' =
    (if earth_wired c f then
       if agree (earthDisconnectButton_pin f) then before (earthDisconnectButton_pin f) =? 1
       else earthDisconnectButton f
     else earthDisconnectButton f) /\
  emergencyButton f' =
    (if vcharge_v5 c && agree (emergencyButton_pin f)
     then before (emergencyButton_pin f) =? 1 else emergencyButton f).
Proof.
  cbv zeta. unfold ReadFaultsTask.
  set (f1 := whenc (fun _ => AC1 c) economiser f).
  assert (Hs : same (fun f => (gfciButton_pin f, earthDisconnectButton_pin f,
      emergencyButton_pin f, earth_wired c f, gfciButton f, earthDisconnectButton f,
      emergencyButton f)) f f1).
  { subst f1. unfold economiser. same_tac. }
  injection Hs as E1 E2 E3 E4 E5 E6 E7.
  unfold seqc. fold f1. rewrite <- E1, <- E2, <- E3, <- E4, <- E5, <- E6, <- E7.
  clearbody f1. clear f E1 E2 E3 E4 E5 E6 E7.
  match goal with |- context [confirm_inputs c after ?s] =>
    change (confirm_inputs c after s)
      with ((sample_inputs c before ;; confirm_inputs c after) f1) end.
  symexec_as ((sample_inputs c before ;; confirm_inputs c after) f1)
    (unfold sample_inputs, confirm_inputs, earth_wired).
  all: cbn; use_guards; split_and!; try reflexivity.
  all: repeat (if_split; bool_simpl; subst; cbn); try congruence.
  all: cbn in *; bool_simpl; congruence.
Qed.
