(* ===== verification/SlaveLink.v ===== *)
(** * Serial link to the slave controller ([main/slave.c])

    On the lite 1.4 board the relays, LEDs, push buttons and control pilots
    sit behind a second microcontroller.  Both directions use frames
    [55 AA len(2) id(2) payload checksum(2)], little endian, where [len]
    counts everything after itself and the checksum is the 16-bit sum of all
    preceding bytes.  [slaveTask] is the byte-driven receiver; the [Slave...]
    functions send a request and poll a flag the receiver sets. *)

From S2P Require Import Prelude Binary64 Config.

(** ** Message identifiers ([enum packetMsgId] of [slave.h]) *)

Definition LED_ID := 1.
Definition RELAY_ID := 2.
Definition PUSHBUTTON_ID := 3.
Definition CONTROL_PILOT_SET_ID := 4.
Definition CONTROL_PILOT_READ_ID := 5.
Definition CP_CONFIG_ID := 6.
Definition CP_STATE_ID := 7.
Definition FIRMWARE_VERSION_ID := 8.
Definition FIRMWARE_UPDATE_START_ID := 9.
Definition FIRMWARE_DATA_ID := 10.
Definition FIRMWARE_UPDATE_END_ID := 11.
Definition FIRMWARE_UPDATE_COMPLETED_ID := 12.
Definition RESTART_ID := 13.
Definition FIRMWARE_STATUS_ID := 14.
Definition FIRMWARE_UPDATE_SUCCEESS_ID := 15.
Definition FIRMWARE_UPDATE_FAIL_ID := 16.

Definition SLAVE_REQUEST := 256.
Definition SLAVE_RESPONSE := 0.
Definition SLAVE_BUFF_SIZE := 1024.
Definition SERIAL_FEEDBACK_TIME : nat := 10.

(** ** State *)

(** [UART_t]; the sixteen [<ID>_RECEIVED] booleans are one map from ids. *)
Record UART_t := mkUART {
  RECEIVED : Z -> bool;
  messageStart : bool;
  errorMessage : bool;
  messageCompletedStatus : bool;
  messageLengthFirstByteStatus : bool;
  messageLengthSecondByteStatus : bool;
  CommunicationFlag : Z;
  messageLengthFirstByte : Z;
  messageLengthSecondByte : Z;
  messageLength : Z;
  messageReceiveCounter : Z;
  messagechecksumValue : Z;
  checksumValue : Z;
  messageTimeOutCount : Z
}.
#[export] Instance UART_rebuild : Rebuild UART_t := fun u =>
  mkUART (RECEIVED u) (messageStart u) (errorMessage u) (messageCompletedStatus u)
    (messageLengthFirstByteStatus u) (messageLengthSecondByteStatus u)
    (CommunicationFlag u) (messageLengthFirstByte u) (messageLengthSecondByte u)
    (messageLength u) (messageReceiveCounter u) (messagechecksumValue u)
    (checksumValue u) (messageTimeOutCount u).

(** The receiver: [slave_uart], its local buffer, and the globals it writes.
    [overrun] and [version_overrun] record that a store went past the end of
    [slave_data[1024]], or of [config.slavefirmwareVersion[30]]. *)
Record link := mkLink {
  slave_uart : UART_t;
  slave_data : Z -> Z;
  slavePushButton : cid -> Z;
  PushButton : cid -> Z;
  cpState : cid -> Z;
  slavefirmwareVersion : list Z;
  slaveFirmwareStatusReceived : bool;
  relayState : cid -> bool;
  tx : list (list Z);      (* frames written to the UART, latest first *)
  overrun : bool;
  version_overrun : bool
}.
#[export] Instance link_rebuild : Rebuild link := fun l =>
  mkLink (slave_uart l) (slave_data l) (slavePushButton l) (PushButton l) (cpState l)
    (slavefirmwareVersion l) (slaveFirmwareStatusReceived l) (relayState l) (tx l)
    (overrun l) (version_overrun l).

Definition setu (f : UART_t -> UART_t) : cmd link := update slave_uart f.
Definition set_received (id : Z) (b : bool) : cmd link :=
  setu (fun u => u <| RECEIVED := fun i => if i =? id then b else RECEIVED u i |>).

(** [slave_data[i] = b]. *)
Definition store (i b : Z) : cmd link := fun l =>
  l <| slave_data := fun j => if j =? i then b else slave_data l j |>
    <| overrun := overrun l || (SLAVE_BUFF_SIZE <=? i) |>.

(** ** Frames *)

Definition checksum16 (bs : list Z) : Z := u16 (sumZ bs).

(** The header, [messageDataLength] for a payload of that size, and the
    checksum loop common to all senders; [payload] starts with the id. *)
Definition with_header (payload : list Z) : list Z :=
  [85; 170] ++ le16 (Z.of_nat (length payload) + 2) ++ payload.
Definition frame (payload : list Z) : list Z :=
  with_header payload ++ le16 (checksum16 (with_header payload)).

(** The 12-byte frames: id, two data bytes, two spare bytes. *)
Definition short_payload (messageId a b : Z) : list Z :=
  le16 messageId ++ [u8 a; u8 b; 0; 0].

Definition uart_write_bytes (f : list Z) : cmd link := fun l => l <| tx := f :: tx l |>.

Definition SlaveSendResponse (c : Config_t) (id : Z) : cmd link :=
  WHEN fun _ => vcharge_lite_1_4 c THEN
    uart_write_bytes (frame (short_payload id id 0)) FI.

(** ** Receiver *)

Definition PUSH_BUTTON1 := 0.
Definition PUSH_BUTTON2 := 1.
Definition PUSH_BUTTON3 := 2.
Definition PUSH_BUTTON4 := 3.
Definition CP1 := 1.
Definition CP2 := 2.

Definition press (i : cid) (state : Z) : cmd link :=
  IF fun _ => state =? 0 THEN update slavePushButton (upd i 0)
  ELSE WHEN fun _ => state =? 1 THEN update slavePushButton (upd i 1) FI FI.

Definition updatePushButtonStateReceivedFromSlave (pb state : Z) : cmd link :=
  (if pb =? PUSH_BUTTON1 then press Conn0 state
   else if pb =? PUSH_BUTTON2 then press Conn1 state
   else if pb =? PUSH_BUTTON3 then press Conn2 state
   else if pb =? PUSH_BUTTON4 then press Conn3 state
   else skip) ;;
  (fun l => l <| PushButton :=
    upd Conn3 (slavePushButton l Conn2) (upd Conn2 (slavePushButton l Conn1)
      (upd Conn1 (slavePushButton l Conn0) (PushButton l))) |>).

(** [memcpy(config.slavefirmwareVersion, &slave_data[6], messageLength - 4)]:
    the length is an [int] that wraps to a huge [size_t] below zero. *)
Definition copy_version : cmd link := fun l =>
  let n := messageLength (slave_uart l) - 4 in
  l <| slavefirmwareVersion :=
         map (fun k => if Z.of_nat k <? n then slave_data l (6 + Z.of_nat k) else 0) (seq 0 30) |>
    <| version_overrun := version_overrun l || (n <? 0) || (30 <? n) |>.

(** The dispatch on [slave_data[4]] of an accepted frame. *)
Definition dispatch (c : Config_t) : cmd link := withs (fun l =>
  let id := slave_data l 4 in
  if id =? PUSHBUTTON_ID then
    WHEN fun l => slave_data l 5 =? 1 THEN
      withs (fun l =>
        updatePushButtonStateReceivedFromSlave (slave_data l 6) (slave_data l 7)) ;;
      SlaveSendResponse c id FI ;;
    set_received id true
  else if id =? CP_STATE_ID then
    (if slave_data l 6 =? CP1 then update cpState (upd Conn1 (slave_data l 7))
     else if slave_data l 6 =? CP2 then update cpState (upd Conn2 (slave_data l 7))
     else skip) ;;
    WHEN fun l => slave_data l 5 =? 1 THEN SlaveSendResponse c id FI ;;
    set_received id true
  else if id =? FIRMWARE_VERSION_ID then copy_version ;; set_received id true
  else if (id =? FIRMWARE_UPDATE_SUCCEESS_ID) || (id =? FIRMWARE_UPDATE_FAIL_ID) then
    (fun l => l <| slaveFirmwareStatusReceived := true |>) ;; set_received id true
  else if (1 <=? id) && (id <=? 14) then set_received id true
  else setu (fun u => u <| errorMessage := true |>)).

(** The last byte of a frame: compare the checksums, then dispatch. *)
Definition finish_frame (c : Config_t) (b : Z) : cmd link :=
  setu (fun u => u <| checksumValue := u16 (checksumValue u + 256 * b) |>
                   <| messageStart := false |>
                   <| messageLengthFirstByteStatus := false |>
                   <| messageLengthSecondByteStatus := false |>) ;;
  IF fun l => messagechecksumValue (slave_uart l) =? checksumValue (slave_uart l) THEN
    setu (fun u => u <| CommunicationFlag := 0 |> <| messageTimeOutCount := 0 |>
                     <| messageCompletedStatus := true |>
                     <| messagechecksumValue := 0 |> <| checksumValue := 0 |>
                     <| errorMessage := false |>) ;;
    dispatch c
  ELSE
    setu (fun u => u <| errorMessage := true |>
                     <| messagechecksumValue := 0 |> <| checksumValue := 0 |>)
  FI.

(** The data phase: payload bytes are summed, the last two are the checksum. *)
Definition receive_data (c : Config_t) (b : Z) : cmd link :=
  WHEN fun l => messageReceiveCounter (slave_uart l) <? messageLength (slave_uart l) THEN
    withs (fun l => store (4 + messageReceiveCounter (slave_uart l)) b) ;;
    IF fun l => messageReceiveCounter (slave_uart l) <? messageLength (slave_uart l) - 2 THEN
      setu (fun u => u <| messagechecksumValue := u16 (messagechecksumValue u + b) |>)
    ELSE IF fun l => messageReceiveCounter (slave_uart l) <? messageLength (slave_uart l) - 1 THEN
      setu (fun u => u <| checksumValue := b |>)
    ELSE finish_frame c b FI FI
  FI ;;
  setu (fun u => u <| messageReceiveCounter := u16 (messageReceiveCounter u + 1) |>).

(** One received byte, as the body of [slaveTask]'s loop. *)
Definition slaveTask (c : Config_t) (b : Z) : cmd link :=
  IF fun l => negb (messageStart (slave_uart l)) THEN
    IF fun _ => b =? 85 THEN store 0 85
    ELSE IF fun l => (b =? 170) && (slave_data l 0 =? 85) THEN
      setu (fun u => u <| messageStart := true |>) ;;
      store 1 170 ;;
      setu (fun u => u <| messagechecksumValue := 255 |>)
    ELSE
      store 0 0 ;;
      setu (fun u => u <| messagechecksumValue := 0 |>)
    FI FI
  ELSE IF fun l => negb (messageLengthFirstByteStatus (slave_uart l)) THEN
    store 2 b ;;
    setu (fun u => u <| messageLengthFirstByte := b |>
                     <| messageLengthFirstByteStatus := true |>
                     <| messagechecksumValue := u16 (messagechecksumValue u + b) |>)
  ELSE IF fun l => negb (messageLengthSecondByteStatus (slave_uart l)) THEN
    store 3 b ;;
    setu (fun u => u <| messageLengthSecondByte := b |>
                     <| messageLength := u16 (b * 256 + messageLengthFirstByte u) |>
                     <| messageReceiveCounter := 0 |>
                     <| messageLengthSecondByteStatus := true |>
                     <| messagechecksumValue := u16 (messagechecksumValue u + b) |>)
  ELSE receive_data c b FI FI FI.

Definition receive (c : Config_t) (bs : list Z) : cmd link := foreach bs (slaveTask c).

(** ** Senders *)

(** Polling the acknowledgement flag: [flag k] is its value at the [k]-th
    test of [while ((flag == false) && (count < limit))]. *)
Fixpoint wait_ack (limit : nat) (count : nat) (flag : nat -> bool) : bool :=
  match limit with
  | O => flag count
  | S n => if flag count then true else wait_ack n (S count) flag
  end.

(** A request frame for [id], the reset of its flag, and the poll; [flag] is
    what the receiver task does to it meanwhile. *)
Definition send_request (limit : nat) (id : Z) (payload : list Z) (flag : nat -> bool)
    (l : link) : link * bool :=
  let l1 := set_received id false (uart_write_bytes (frame payload) l) in
  let ok := wait_ack limit 0 flag in
  (set_received id ok l1, ok).

Definition on_lite (c : Config_t) (l : link) (k : link * bool) : link * bool :=
  if vcharge_lite_1_4 c then k else (l, false).

Definition request (c : Config_t) (id a b : Z) (flag : nat -> bool) (l : link) : link * bool :=
  on_lite c l
    (send_request SERIAL_FEEDBACK_TIME id (short_payload (id + SLAVE_REQUEST) a b) flag l).

Definition SlaveGetState (c : Config_t) (cp : Z) := request c CP_STATE_ID cp 0.
Definition SlaveGetPushButtonState (c : Config_t) (pb : Z) := request c PUSHBUTTON_ID pb 0.
Definition SlaveSetLedColor (c : Config_t) (led color : Z) := request c LED_ID led color.
Definition SlaveSetControlPilotDuty (c : Config_t) (cp duty : Z) :=
  request c CONTROL_PILOT_SET_ID cp duty.

(** [SlaveUpdateRelay]: a relay already in the requested state is not sent. *)
Definition SlaveUpdateRelay (c : Config_t) (relay : cid) (state : Z) (flag : nat -> bool)
    (l : link) : link * bool :=
  on_lite c l
    (if negb (Z.b2z (relayState l relay) =? state) then
       let '(l1, ok) := send_request SERIAL_FEEDBACK_TIME RELAY_ID
         (short_payload (RELAY_ID + SLAVE_REQUEST) (cid_to_Z relay) state) flag l in
       if ok then (l1 <| relayState := upd relay (negb (state =? 0)) (relayState l1) |>, true)
       else (l1, false)
     else (l, true)).

(** [SlaveSendID]: only the listed ids are acknowledged. *)
Definition acknowledged_id (id : Z) : bool :=
  existsb (Z.eqb id)
    [FIRMWARE_VERSION_ID; FIRMWARE_UPDATE_START_ID; FIRMWARE_UPDATE_END_ID;
     FIRMWARE_UPDATE_COMPLETED_ID; RESTART_ID; FIRMWARE_STATUS_ID;
     FIRMWARE_UPDATE_SUCCEESS_ID; FIRMWARE_UPDATE_FAIL_ID].

Definition SlaveSendID (c : Config_t) (id : Z) (flag : nat -> bool) (l : link) : link * bool :=
  let payload := short_payload (id + SLAVE_REQUEST) id 0 in
  on_lite c l
    (if acknowledged_id id then send_request SERIAL_FEEDBACK_TIME id payload flag l
     else (uart_write_bytes (frame payload) l, false)).

(** [sendFirmwareData]: packet number (32 bits) and data, polled 500 times. *)
Definition sendFirmwareData (c : Config_t) (dataToSend : list Z) (packetNo : Z)
    (flag : nat -> bool) (l : link) : link * bool :=
  on_lite c l
    (send_request (50 * SERIAL_FEEDBACK_TIME) FIRMWARE_DATA_ID
       (le16 (FIRMWARE_DATA_ID + SLAVE_REQUEST)
        ++ le16 packetNo ++ le16 (packetNo / 65536) ++ dataToSend) flag l).

(** ** Receiver lemmas *)

#[local] Ltac guard_hook ::= lia.

Definition idle (l : link) : Prop :=
  messageStart (slave_uart l) = false /\
  messageLengthFirstByteStatus (slave_uart l) = false /\
  messageLengthSecondByteStatus (slave_uart l) = false.

(** Inside a frame of declared length [n], [k] data bytes received. *)
Definition in_data (n k chk : Z) (l : link) : Prop :=
  messageStart (slave_uart l) = true /\
  messageLengthFirstByteStatus (slave_uart l) = true /\
  messageLengthSecondByteStatus (slave_uart l) = true /\
  messageLength (slave_uart l) = n /\ messageReceiveCounter (slave_uart l) = k /\
  messagechecksumValue (slave_uart l) = chk.

(** What reception leaves alone until a frame is complete. *)
Definition effects (l : link) :=
  (RECEIVED (slave_uart l), slavePushButton l, PushButton l, cpState l,
   slavefirmwareVersion l, slaveFirmwareStatusReceived l, relayState l, tx l,
   version_overrun l).

Definition header (n : Z) : list Z := [85; 170] ++ le16 n.

Lemma receive_app c bs bs' l : receive c (bs ++ bs') l = receive c bs' (receive c bs l).
Proof. unfold receive, foreach. by rewrite foldl_app. Qed.
Lemma receive_cons c b bs l : receive c (b :: bs) l = receive c bs (slaveTask c b l).
Proof. done. Qed.
Lemma receive_nil c l : receive c [] l = l.
Proof. done. Qed.

Lemma header_step c n l :
  idle l -> 0 <= n < 65536 ->
  let l' := receive c (header n) l in
  in_data n 0 (u16 (255 + n mod 256 + n / 256 mod 256)) l' /\ effects l' = effects l /\
  overrun l' = overrun l /\ errorMessage (slave_uart l') = errorMessage (slave_uart l).
Proof.
  intros (H1 & H2 & H3) Hn. cbv zeta. unfold header, le16.
  cbn [app]. rewrite !receive_cons, receive_nil.
  remember (slaveTask c 85 l) as l1 eqn:E1.
  assert (idle l1 /\ slave_data l1 0 = 85 /\ effects l1 = effects l /\
    overrun l1 = overrun l /\ errorMessage (slave_uart l1) = errorMessage (slave_uart l))
    as ((H1' & H2' & H3') & Hd & Hf & Ho & He).
  { revert E1. unfold slaveTask, store. symexec. intros ->.
    unfold idle, effects; cbn. rewrite orb_false_r. by split_and!. }
  rewrite <- Hf, <- Ho, <- He. clear E1 H1 H2 H3 Hf Ho He.
  remember (slaveTask c 170 l1) as l2 eqn:E2.
  assert (messageStart (slave_uart l2) = true /\
    messageLengthFirstByteStatus (slave_uart l2) = false /\
    messageLengthSecondByteStatus (slave_uart l2) = false /\
    messagechecksumValue (slave_uart l2) = 255 /\ effects l2 = effects l1 /\
    overrun l2 = overrun l1 /\ errorMessage (slave_uart l2) = errorMessage (slave_uart l1))
    as (A1 & A2 & A3 & A4 & Hf & Ho & He).
  { revert E2. unfold slaveTask, store, setu. symexec. intros ->.
    unfold effects; cbn. rewrite orb_false_r. by split_and!. }
  rewrite <- Hf, <- Ho, <- He. clear E2 H1' H2' H3' Hf Ho He Hd.
  remember (slaveTask c (n mod 256) l2) as l3 eqn:E3.
  remember (slaveTask c (n / 256 mod 256) l3) as l4 eqn:E4.
  revert E3. unfold slaveTask at 1, store, setu. symexec. intros ->.
  revert E4. unfold slaveTask, store, setu. symexec. intros ->.
  unfold in_data, effects; cbn. rewrite A4, !orb_false_r. split_and!; try done.
  - unfold u16. mlia.
  - unfold u16. by rewrite Zplus_mod_idemp_l.
Qed.

(** [bs] written at [slave_data[4 + k ..]]. *)
Definition written (k : Z) (bs : list Z) (d : Z -> Z) : Z -> Z := fun j =>
  if (4 + k <=? j) && (j <? 4 + k + Z.of_nat (length bs))
  then nth (Z.to_nat (j - 4 - k)) bs 0 else d j.

Lemma data_step c n k chk b l :
  in_data n k chk l -> 0 <= k < n - 2 -> n < 65536 -> is_byte b ->
  let l' := slaveTask c b l in
  in_data n (k + 1) (u16 (chk + b)) l' /\ effects l' = effects l /\
  errorMessage (slave_uart l') = errorMessage (slave_uart l) /\
  overrun l' = overrun l || (1024 <=? 4 + k) /\
  forall j, slave_data l' j = if j =? 4 + k then b else slave_data l j.
Proof.
  intros (H1 & H2 & H3 & H4 & H5 & H6) Hk Hn Hb l'. subst l'. unfold is_byte in Hb.
  symexec_as (slaveTask c b l) (unfold slaveTask, receive_data, finish_frame, store, setu).
  unfold in_data, effects; cbn. rewrite H4, H5, H6, u16_small by lia.
  by split_and!.
Qed.

Lemma data_run c n bs k chk l :
  in_data n k (u16 chk) l -> 0 <= k -> k + Z.of_nat (length bs) <= n - 2 -> n < 65536 ->
  Forall is_byte bs ->
  let l' := receive c bs l in
  let m := k + Z.of_nat (length bs) in
  in_data n m (u16 (chk + sumZ bs)) l' /\ effects l' = effects l /\
  errorMessage (slave_uart l') = errorMessage (slave_uart l) /\
  overrun l' = overrun l || ((k <? m) && (1020 <? m)) /\
  forall j, slave_data l' j = written k bs (slave_data l) j.
Proof.
  revert k chk l. induction bs as [|b bs IH]; intros k chk l Hd Hk Hm Hn Hb l' m; subst l' m.
  - rewrite receive_nil. cbn [length sumZ Z.of_nat]. rewrite !Z.add_0_r.
    split_and!; try done; [rewrite Z.ltb_irrefl; cbn; by rewrite orb_false_r|].
    intros j. unfold written.
    match goal with |- context [if ?x then _ else _] => destruct x eqn:E end; [|done].
    cbn [length] in E. exfalso. bool_simpl. lia.
  - inversion_clear Hb as [|? ? Hb1 Hb2]. cbn [length] in *.
    rewrite Nat2Z.inj_succ in *. rewrite receive_cons.
    destruct (data_step c n k (u16 chk) b l) as (S1 & S2 & S3 & S4 & S5); [done|lia|lia|done|].
    specialize (IH (k + 1) (chk + b) (slaveTask c b l)).
    replace (u16 (u16 chk + b)) with (u16 (chk + b)) in S1
      by (unfold u16; by rewrite Zplus_mod_idemp_l).
    destruct IH as (I1 & I2 & I3 & I4 & I5); [done|lia|lia|lia|done|].
    cbn [sumZ].
    replace (k + Z.succ (Z.of_nat (length bs))) with (k + 1 + Z.of_nat (length bs)) by lia.
    replace (chk + (b + sumZ bs)) with (chk + b + sumZ bs) by lia.
    split_and!; [done|congruence|congruence| |].
    + rewrite I4, S4. rewrite <- orb_assoc. f_equal. lia.
    + intros j. rewrite I5. unfold written. rewrite S5. cbn [length].
      rewrite Nat2Z.inj_succ.
      destruct (Z.eqb_spec j (4 + k)) as [->|Hj].
      * replace (4 + (k + 1) <=? 4 + k) with false by lia.
        replace (4 + k <=? 4 + k) with true by lia.
        replace (4 + k <? 4 + k + Z.succ (Z.of_nat (length bs))) with true by lia. cbn [andb].
        by replace (Z.to_nat (4 + k - 4 - k)) with 0%nat by lia.
      * destruct ((4 + (k + 1) <=? j) && (j <? 4 + (k + 1) + Z.of_nat (length bs))) eqn:E.
        -- bool_simpl. replace (4 + k <=? j) with true by lia.
           replace (j <? 4 + k + Z.succ (Z.of_nat (length bs))) with true by lia. cbn [andb].
           replace (Z.to_nat (j - 4 - k)) with (S (Z.to_nat (j - 4 - (k + 1)))) by lia. done.
        -- replace ((4 + k <=? j) && (j <? 4 + k + Z.succ (Z.of_nat (length bs))))
             with false; [done|]. symmetry. lia.
Qed.

(** The low checksum byte, then the high one. *)
Lemma checksum_low c n chk b l :
  in_data n (n - 2) chk l -> 2 <= n < 65536 -> is_byte b ->
  let l' := slaveTask c b l in
  in_data n (n - 1) chk l' /\ checksumValue (slave_uart l') = b /\ effects l' = effects l /\
  errorMessage (slave_uart l') = errorMessage (slave_uart l) /\
  overrun l' = overrun l || (1024 <=? 4 + (n - 2)) /\
  forall j, slave_data l' j = if j =? 4 + (n - 2) then b else slave_data l j.
Proof.
  intros (H1 & H2 & H3 & H4 & H5 & H6) Hn Hb l'. subst l'. unfold is_byte in Hb.
  symexec_as (slaveTask c b l) (unfold slaveTask, receive_data, finish_frame, store, setu).
  unfold in_data, effects; cbn. rewrite H4, H5, u16_small by lia.
  split_and!; done || lia.
Qed.

(** The state just before [finish_frame] decides. *)
Definition at_end (n chk low : Z) (l : link) : Prop :=
  in_data n (n - 1) chk l /\ checksumValue (slave_uart l) = low.

Definition accepted (l : link) : link :=
  setu (fun u => u <| messageStart := false |>
                   <| messageLengthFirstByteStatus := false |>
                   <| messageLengthSecondByteStatus := false |>
                   <| CommunicationFlag := 0 |> <| messageTimeOutCount := 0 |>
                   <| messageCompletedStatus := true |>
                   <| messagechecksumValue := 0 |> <| checksumValue := 0 |>
                   <| errorMessage := false |>) l.

Definition rejected (l : link) : link :=
  setu (fun u => u <| messageStart := false |>
                   <| messageLengthFirstByteStatus := false |>
                   <| messageLengthSecondByteStatus := false |>
                   <| errorMessage := true |>
                   <| messagechecksumValue := 0 |> <| checksumValue := 0 |>) l.

Definition bump (l : link) : link :=
  setu (fun u => u <| messageReceiveCounter := u16 (messageReceiveCounter u + 1) |>) l.

Lemma checksum_high c n chk low b l :
  at_end n chk low l -> 1 <= n < 65536 -> is_byte low -> is_byte b ->
  slaveTask c b l =
    bump (if chk =? low + 256 * b then dispatch c (accepted (store (4 + (n - 1)) b l))
          else rejected (store (4 + (n - 1)) b l)).
Proof.
  intros [(H1 & H2 & H3 & H4 & H5 & H6) H7] Hn Hl Hb. unfold is_byte in *.
  assert (Hu : u16 (checksumValue (slave_uart l) + 256 * b) = low + 256 * b)
    by (rewrite H7; apply u16_small; lia).
  rewrite <- H5. unfold slaveTask, receive_data, finish_frame.
  destruct (Z.eqb_spec chk (low + 256 * b)) as [Hc|Hc]; symexec; reflexivity.
Qed.

(** Dispatching leaves the receiver's position and buffer alone. *)
Definition position (l : link) :=
  (messageStart (slave_uart l), messageLengthFirstByteStatus (slave_uart l),
   messageLengthSecondByteStatus (slave_uart l), slave_data l, overrun l, relayState l).

Lemma dispatch_position c l : position (dispatch c l) = position l.
Proof.
  enough (H : respects (same position) (dispatch c)) by apply H.
  unfold dispatch, updatePushButtonStateReceivedFromSlave, press, SlaveSendResponse.
  same_tac.
Qed.

Definition known_id (id : Z) : bool := (1 <=? id) && (id <=? 16).

Lemma set_received_eq id l :
  RECEIVED (slave_uart (set_received id true l)) =
    (fun i => if i =? id then true else RECEIVED (slave_uart l) i) /\
  errorMessage (slave_uart (set_received id true l)) = errorMessage (slave_uart l).
Proof. done. Qed.

(** It raises the flag of a known id, and the error flag for any other. *)
Lemma dispatch_flags c l :
  let id := slave_data l 4 in
  RECEIVED (slave_uart (dispatch c l)) =
    (fun i => if known_id id && (i =? id) then true else RECEIVED (slave_uart l) i) /\
  errorMessage (slave_uart (dispatch c l)) =
    (if known_id id then errorMessage (slave_uart l) else true).
Proof.
  cbv zeta. set (id := slave_data l 4).
  assert (Hk : forall a : cmd link, known_id id = true ->
    respects (same (fun l => (RECEIVED (slave_uart l), errorMessage (slave_uart l)))) a ->
    RECEIVED (slave_uart ((a ;; set_received id true) l)) =
      (fun i => if known_id id && (i =? id) then true else RECEIVED (slave_uart l) i) /\
    errorMessage (slave_uart ((a ;; set_received id true) l)) =
      (if known_id id then errorMessage (slave_uart l) else true)).
  { intros a -> Ha. unfold seqc.
    assert (E1 : RECEIVED (slave_uart (a l)) = RECEIVED (slave_uart l))
      by exact (f_equal fst (Ha l)).
    assert (E2 : errorMessage (slave_uart (a l)) = errorMessage (slave_uart l))
      by exact (f_equal snd (Ha l)).
    destruct (set_received_eq id (a l)) as [-> ->]. rewrite E1, E2. done. }
  unfold dispatch. rewrite withs_eq. cbv beta zeta. fold id.
  destruct (id =? PUSHBUTTON_ID) eqn:E1.
  { apply Hk; [unfold known_id, PUSHBUTTON_ID in *; lia|].
    unfold updatePushButtonStateReceivedFromSlave, press, SlaveSendResponse. same_tac. }
  destruct (id =? CP_STATE_ID) eqn:E2.
  { rewrite <- seqc_assoc. apply Hk; [unfold known_id, CP_STATE_ID in *; lia|].
    unfold SlaveSendResponse. same_tac. }
  destruct (id =? FIRMWARE_VERSION_ID) eqn:E3.
  { apply Hk; [unfold known_id, FIRMWARE_VERSION_ID in *; lia|]. same_tac. }
  destruct ((id =? FIRMWARE_UPDATE_SUCCEESS_ID) || (id =? FIRMWARE_UPDATE_FAIL_ID)) eqn:E4.
  { apply Hk; [|same_tac].
    unfold known_id, FIRMWARE_UPDATE_SUCCEESS_ID, FIRMWARE_UPDATE_FAIL_ID in *. lia. }
  destruct ((1 <=? id) && (id <=? 14)) eqn:E5.
  { apply (Hk skip); [unfold known_id in *; lia|]. same_tac. }
  replace (known_id id) with false
    by (unfold known_id, FIRMWARE_UPDATE_SUCCEESS_ID, FIRMWARE_UPDATE_FAIL_ID in *; lia).
  done.
Qed.

(** ** Frames at the receiver *)

(** The outcome of one frame [header n ++ p ++ [c1; c2]] with declared length
    [n] matching its [p] and checksum bytes. *)
Lemma receive_frame c p c1 c2 l :
  idle l -> Forall is_byte p -> is_byte c1 -> is_byte c2 ->
  let n := Z.of_nat (length p) + 2 in
  n <= 65535 ->
  exists l0, effects l0 = effects l /\
    (forall k : nat, Z.of_nat k < Z.of_nat (length p) ->
       slave_data l0 (4 + Z.of_nat k) = nth k p 0) /\
    overrun l0 = overrun l || (1020 <? n) /\
    receive c (header n ++ p ++ [c1; c2]) l =
      bump (if u16 (255 + n mod 256 + n / 256 mod 256 + sumZ p) =? c1 + 256 * c2
            then dispatch c (accepted l0) else rejected l0).
Proof.
  intros Hi Hp Hc1 Hc2 n Hn. rewrite !receive_app.
  destruct (header_step c n l) as (A1 & A2 & A3 & A4); [done|lia|].
  set (la := receive c (header n) l) in *. clearbody la.
  destruct (data_run c n p 0 (255 + n mod 256 + n / 256 mod 256) la)
    as (B1 & B2 & B3 & B4 & B5); [done|lia|lia|lia|done|].
  set (lb := receive c p la) in *. clearbody lb.
  rewrite receive_cons. rewrite Z.add_0_l in B1.
  replace (Z.of_nat (length p)) with (n - 2) in B1 by lia.
  destruct (checksum_low c n _ c1 lb B1) as (D1 & D2 & D3 & D4 & D5 & D6); [lia|done|].
  set (lc := slaveTask c c1 lb) in *. clearbody lc.
  exists (store (4 + (n - 1)) c2 lc). split_and!.
  - unfold effects, store in *. cbn. congruence.
  - intros k Hk. unfold store; cbn -[Z.add].
    replace (4 + Z.of_nat k =? 4 + (n - 1)) with false by lia.
    rewrite D6. replace (4 + Z.of_nat k =? 4 + (n - 2)) with false by lia.
    rewrite B5. unfold written.
    replace ((4 + 0 <=? 4 + Z.of_nat k) && (4 + Z.of_nat k <? 4 + 0 + Z.of_nat (length p)))
      with true by lia.
    f_equal. lia.
  - unfold store; cbn -[Z.add Z.leb]. rewrite D5, B4, A3. unfold SLAVE_BUFF_SIZE. lia.
  - rewrite receive_cons, receive_nil.
    rewrite (checksum_high c n (u16 (255 + n mod 256 + n / 256 mod 256 + sumZ p)) c1 c2 lc); [done|by split|lia|done|done].
Qed.

Lemma checksum_value payload :
  checksum16 (with_header payload) =
    u16 (255 + (Z.of_nat (length payload) + 2) mod 256
         + (Z.of_nat (length payload) + 2) / 256 mod 256 + sumZ payload).
Proof.
  unfold checksum16, with_header. f_equal. rewrite !sumZ_app. unfold le16. cbn [sumZ]. lia.
Qed.

Lemma frame_shape payload :
  frame payload =
    header (Z.of_nat (length payload) + 2) ++ payload ++
    le16 (checksum16 (with_header payload)).
Proof. unfold frame, with_header at 1, header. by rewrite <- !app_assoc. Qed.

Lemma bump_accepted_position l c l0 :
  l = bump (dispatch c (accepted l0)) ->
  idle l /\ overrun l = overrun l0 /\ slave_data l = slave_data l0 /\
  RECEIVED (slave_uart l) =
    (let id := slave_data l0 4 in
     fun i => if known_id id && (i =? id) then true else RECEIVED (slave_uart l0) i) /\
  errorMessage (slave_uart l) = negb (known_id (slave_data l0 4)).
Proof.
  intros ->. pose proof (dispatch_position c (accepted l0)) as Hp.
  injection Hp as P1 P2 P3 P4 P5 P6.
  destruct (dispatch_flags c (accepted l0)) as [F1 F2].
  set (l1 := dispatch c (accepted l0)) in *. clearbody l1. unfold idle. cbn in *.
  split_and!; [done|done|done|done|done|done|].
  rewrite F2. by destruct (known_id _).
Qed.

(** Claim C38.  Delivery: whatever the receiver saw before, as long as it is
    between frames, a well-formed frame with a known id and at most 1018
    payload bytes is accepted: the payload lands in the buffer in order, the
    flag of its id (and no other) is raised, no error is recorded, no store
    leaves the buffer, and the receiver is between frames again. *)
Theorem frame_delivered c payload l :
  idle l -> Forall is_byte payload -> 1 <= Z.of_nat (length payload) <= 1018 ->
  known_id (nth 0 payload 0) = true ->
  let l' := receive c (frame payload) l in
  idle l' /\ overrun l' = overrun l /\ errorMessage (slave_uart l') = false /\
  (forall i, RECEIVED (slave_uart l') i =
     (i =? nth 0 payload 0) || RECEIVED (slave_uart l) i) /\
  forall k : nat, (k < length payload)%nat ->
    slave_data l' (4 + Z.of_nat k) = nth k payload 0.
Proof.
  intros Hi Hp Hn Hk l'. subst l'. rewrite frame_shape, checksum_value.
  set (n := Z.of_nat (length payload) + 2).
  set (chk := 255 + n mod 256 + n / 256 mod 256 + sumZ payload).
  pose proof (u16_range chk) as Hr. unfold le16.
  destruct (receive_frame c payload (u16 chk mod 256) (u16 chk / 256 mod 256) l)
    as (l0 & E1 & E2 & E3 & E4); [done|done|unfold is_byte; mlia|unfold is_byte; mlia|lia|].
  fold n in E3, E4. fold chk in E4. fold n chk. rewrite E4. rewrite (Z.mod_small (u16 chk / 256)) by mlia.
  replace (u16 chk =? u16 chk mod 256 + 256 * (u16 chk / 256)) with true by mlia.
  destruct (bump_accepted_position _ c l0 eq_refl) as (A1 & A2 & A3 & A4 & A5).
  assert (Hid : slave_data l0 4 = nth 0 payload 0) by (apply (E2 0%nat); lia).
  rewrite A2, A3, A4, A5, E3, Hid, Hk. replace (1020 <? _) with false by lia.
  rewrite orb_false_r. injection E1 as R1 _ _ _ _ _ _ _ _. rewrite R1.
  split_and!; [done|done|done| |intros k Hlt; apply E2; lia].
  intros i. cbv zeta. rewrite Hk. by destruct (i =? nth 0 payload 0).
Qed.

Definition witness_link : link :=
  mkLink (mkUART (fun _ => false) false false false false false 0 0 0 0 0 0 0 0)
    (fun _ => 85) (fun _ => 0) (fun _ => 0) (fun _ => 5) [] false (fun _ => false) [] false false.

Definition lite_config : Config_t := zeroed_config <| vcharge_lite_1_4 := true |>.

Lemma frame_delivered_witness :
  let payload := [CP_STATE_ID; 1; CP1; 7; 0; 0] in
  let l' := receive lite_config (frame payload) witness_link in
  idle l' /\ cpState l' Conn1 = 7 /\ length (tx l') = 1%nat.
Proof.
  cbv zeta. split; [|by vm_compute].
  apply (frame_delivered lite_config [CP_STATE_ID; 1; CP1; 7; 0; 0] witness_link);
    [by split_and! | | cbn; lia | reflexivity].
  repeat constructor; by unfold is_byte.
Defined.

(** Error detection: a frame whose payload was damaged in one byte
    is dropped.  It raises no flag, answers nothing, changes no pilot state,
    button or relay, only records the error, and leaves the receiver between
    frames. *)
Theorem corruption_rejected c payload i b l :
  idle l -> Forall is_byte payload -> is_byte b ->
  (i < length payload)%nat -> b <> nth i payload 0 ->
  Z.of_nat (length payload) + 2 <= 65535 ->
  let damaged := header (Z.of_nat (length payload) + 2) ++ <[i := b]> payload ++
                 le16 (checksum16 (with_header payload)) in
  let l' := receive c damaged l in
  idle l' /\ effects l' = effects l /\ errorMessage (slave_uart l') = true.
Proof.
  intros Hi Hp Hb Hlt Hne Hn damaged l'. subst l' damaged.
  pose proof (sumZ_insert i b payload Hlt) as Hs.
  assert (Hby : is_byte (nth i payload 0)).
  { apply List.Forall_nth; [done|lia]. }
  assert (Hp' : Forall is_byte (<[i := b]> payload)) by by apply Forall_insert.
  rewrite checksum_value.
  rewrite <- (length_insert payload i b).
  set (n := Z.of_nat (length (<[i := b]> payload)) + 2).
  set (k := u16 (255 + n mod 256 + n / 256 mod 256 + sumZ payload)).
  pose proof (u16_range (255 + n mod 256 + n / 256 mod 256 + sumZ payload)) as Hk.
  fold k in Hk. unfold le16.
  destruct (receive_frame c (<[i := b]> payload) (k mod 256) (k / 256 mod 256) l)
    as (l0 & E1 & E2 & E3 & E4);
    [done|done|unfold is_byte; mlia|unfold is_byte; mlia|rewrite length_insert; lia|].
  fold n in E3, E4. rewrite E4, Hs.
  destruct (Z.eqb_spec (u16 (255 + n mod 256 + n / 256 mod 256 +
    (sumZ payload - nth i payload 0 + b))) (k mod 256 + 256 * (k / 256 mod 256))) as [E|E].
  { exfalso. replace (k mod 256 + 256 * (k / 256 mod 256)) with k in E by mlia.
    unfold k, u16, is_byte in *. mlia. }
  rewrite <- E1. unfold idle, effects. cbn. by split_and!.
Qed.

Lemma corruption_rejected_witness :
  let payload := short_payload RELAY_ID 1 1 in
  let l' := receive lite_config
    (header (Z.of_nat (length payload) + 2) ++ <[2%nat := 9]> payload ++
     le16 (checksum16 (with_header payload))) witness_link in
  idle l' /\ effects l' = effects witness_link /\ errorMessage (slave_uart l') = true.
Proof.
  cbv zeta. apply corruption_rejected; [by split_and! | | | cbn; lia | by cbn | by cbn].
  - repeat constructor; unfold is_byte, u8; mlia.
  - by unfold is_byte.
Defined.

(** Buffer bound: a frame overruns [slave_data[1024]] exactly when
    its declared length exceeds 1020, whatever its checksum; nothing in the
    receiver rejects longer declarations. *)
Theorem overrun_iff c p c1 c2 l :
  idle l -> overrun l = false -> Forall is_byte p -> is_byte c1 -> is_byte c2 ->
  let n := Z.of_nat (length p) + 2 in
  n <= 65535 ->
  overrun (receive c (header n ++ p ++ [c1; c2]) l) = (1020 <? n).
Proof.
  intros Hi Ho Hp H1 H2 n Hn.
  destruct (receive_frame c p c1 c2 l) as (l0 & E1 & E2 & E3 & E4); [done..|].
  fold n in E3, E4. rewrite E4. rewrite Ho in E3. cbn in E3. rewrite <- E3.
  match goal with |- context [if ?x then _ else _] => destruct x end; [|done].
  pose proof (dispatch_position c (accepted l0)) as Hd. by injection Hd.
Qed.

Lemma overrun_iff_witness :
  overrun (receive lite_config (header 1021 ++ replicate 1019 0 ++ [0; 0]) witness_link) = true.
Proof.
  assert (H : Forall is_byte (replicate 1019 0))
    by (apply Forall_replicate; by unfold is_byte).
  exact (overrun_iff lite_config (replicate 1019 0) 0 0 witness_link
    (conj eq_refl (conj eq_refl eq_refl)) eq_refl H (conj (Z.le_refl 0) eq_refl)
    (conj (Z.le_refl 0) eq_refl) ltac:(vm_compute; discriminate)).
Defined.

(** A frame that declares length 0 stops the receiver for good:
    every later byte, well-formed frames included, is swallowed without any
    effect. *)
Theorem zero_length_deadlock c bs l :
  idle l ->
  let l' := receive c (header 0 ++ bs) l in
  effects l' = effects l /\ messageStart (slave_uart l') = true /\
  overrun l' = overrun l.
Proof.
  intros Hi. cbv zeta. rewrite receive_app.
  destruct (header_step c 0 l) as ((A1 & A2 & A3 & A4 & A0 & _) & A5 & A6 & _); [done|lia|].
  rewrite <- A5, <- A6. clear A5 A6 Hi.
  assert (Hc : 0 <= messageReceiveCounter (slave_uart (receive c (header 0) l))) by lia.
  revert A1 A2 A3 A4 Hc. clear. generalize (receive c (header 0) l). clear l.
  induction bs as [|b bs IH]; intros l H1 H2 H3 H4 Hc; [by rewrite receive_nil|].
  rewrite receive_cons.
  assert (slaveTask c b l = bump l) as ->.
  { unfold slaveTask, receive_data. symexec. done. }
  destruct (IH (bump l)) as (B1 & B2 & B3); try done. cbn. apply u16_range.
Qed.

Lemma zero_length_deadlock_witness :
  RECEIVED (slave_uart (receive lite_config
    (header 0 ++ frame (short_payload RELAY_ID 1 1)) witness_link)) RELAY_ID = false.
Proof.
  pose proof (zero_length_deadlock lite_config (frame (short_payload RELAY_ID 1 1))
    witness_link (conj eq_refl (conj eq_refl eq_refl))) as [H _].
  apply (f_equal (fun e => e.1.1.1.1.1.1.1.1 RELAY_ID)) in H. exact H.
Defined.

(** The poll sees an acknowledgement iff the flag is up at one of the tests. *)
Lemma wait_ack_spec limit count flag :
  wait_ack limit count flag = true <->
  exists k, (count <= k <= count + limit)%nat /\ flag k = true.
Proof.
  revert count. induction limit as [|n IH]; intros count; cbn.
  - split; [exists count; split; [lia | done]|]. intros (k & Hk & Hf).
    by replace count with k by lia.
  - destruct (flag count) eqn:E.
    + split; [|done]. exists count. split; [lia | done].
    + rewrite IH. split; intros (k & Hk & Hf); exists k; (split; [|done]); [lia|].
      destruct (decide (k = count)) as [->|]; [congruence | lia].
Qed.

(** Relay commands: on the lite 1.4 board the recorded state of
    the relay changes only when the slave acknowledges within the eleven tests
    of the poll; the call reports success exactly when the recorded state is
    the requested one, and a relay already in that state is not commanded
    again.  No other relay is touched. *)
Theorem SlaveUpdateRelay_spec c relay (state : bool) flag l :
  vcharge_lite_1_4 c = true ->
  let '(l', sent) := SlaveUpdateRelay c relay (Z.b2z state) flag l in
  relayState l' relay = (if sent then state else negb state) /\
  (sent = true <-> relayState l relay = state \/
                   exists k, (k <= 10)%nat /\ flag k = true) /\
  (relayState l relay = state -> l' = l) /\
  (forall r, r <> relay -> relayState l' r = relayState l r).
Proof.
  intros Hc. unfold SlaveUpdateRelay, on_lite. rewrite Hc.
  destruct (Z.eqb_spec (Z.b2z (relayState l relay)) (Z.b2z state)) as [E|E]; cbn [negb].
  - assert (relayState l relay = state) by (destruct (relayState l relay), state; done).
    split_and!; auto. split; auto.
  - assert (Hr : relayState l relay = negb state)
      by (destruct (relayState l relay), state; cbn in E; congruence || done).
    unfold send_request.
    destruct (wait_ack SERIAL_FEEDBACK_TIME 0 flag) eqn:Ew; cbn.
    + autorewrite with evse_upd. split_and!.
      * by destruct state.
      * split; [|done]. intros _. right. apply wait_ack_spec in Ew as (k & Hk & Hf).
        exists k. unfold SERIAL_FEEDBACK_TIME in Hk. split; [lia | done].
      * intros Hs. rewrite Hs in Hr. by destruct state.
      * intros r Hne. by rewrite upd_other.
    + split_and!; [done| | |done].
      * split; [done|]. intros [Hs|(k & Hk & Hf)]; [rewrite Hs in Hr; by destruct state|].
        rewrite <- not_true_iff_false, wait_ack_spec in Ew. exfalso. apply Ew.
        exists k. unfold SERIAL_FEEDBACK_TIME. split; [lia | done].
      * intros Hs. rewrite Hs in Hr. by destruct state.
Qed.

Lemma SlaveUpdateRelay_spec_witness :
  relayState (SlaveUpdateRelay lite_config Conn2 (Z.b2z true) (fun k => Nat.leb 4 k)
    witness_link).1 Conn2 = true.
Proof.
  pose proof (SlaveUpdateRelay_spec lite_config Conn2 true (fun k => Nat.leb 4 k)
    witness_link eq_refl) as H.
  destruct (SlaveUpdateRelay _ _ _ _ _) as [l' sent] eqn:E.
  assert (sent = true) as -> by (by apply (f_equal snd) in E).
  exact (proj1 H).
Defined.
