(* ===== verification/ControlPilot.v ===== *)
(** * Control pilot ([main/ControlPilotState.c], [ControlPilotPwm.c],
    [ControlPilotAdc.c])

    The pilot voltage is sampled by the ADC and classified into the IEC 61851
    vehicle states by per-connector windows, which depend on the PWM duty in
    force.  [cpTask] drives the relay and the PWM from the classification;
    [Control_pilot_state_init] and [updateCpConfig] load the windows of the
    configured duty from the calibration tables (and send them to the slave
    controller on the lite board).

    The sixteen arrays [cp_state<S>_{min,max}[4]] are one map from connectors
    to a record of sixteen limits; the sixteen raw arrays of length 8 are a
    record of lists. *)

From S2P Require Import Prelude Binary64 Config FaultGpios SlaveLink.

(** ** States ([EVSE_states_enum_t]) *)

Definition STARTUP := 0.
Definition GFCI_CHECK_START := 1.
Definition GFCI_CHECK_EXPECTED := 2.
Definition GFCI_PASSED := 3.
Definition FAULT := 4.
Definition STATE_A := 5.
Definition STATE_B1 := 6.
Definition STATE_B2 := 7.
Definition STATE_C := 8.
Definition STATE_D := 9.
Definition STATE_E1 := 10.
Definition STATE_E2 := 11.
Definition STATE_SUS := 12.
Definition STATE_DIS := 13.
Definition STATE_F := 14.

(** ** Duty cycles and calibration tables *)

Definition cpDutyCycleCurrent : list Z := [10; 16; 20; 25; 32; 40; 50; 64].
Definition cpDutyCycle : list Z := [16; 26; 33; 41; 53; 66; 83; 89].

(** The raw tables, one list of eight entries (by duty index) per limit. *)
Record tables := mkTables {
  cp_stateA_max_rawvalue : list Z;
  cp_stateA_min_rawvalue : list Z;
  cp_stateB1_max_rawvalue : list Z;
  cp_stateB1_min_rawvalue : list Z;
  cp_stateE2_max_rawvalue : list Z;
  cp_stateE2_min_rawvalue : list Z;
  cp_state_disc_max_rawvalue : list Z;
  cp_state_disc_min_rawvalue : list Z;
  cp_stateB2_max_rawvalue : list Z;
  cp_stateB2_min_rawvalue : list Z;
  cp_stateC_max_rawvalue : list Z;
  cp_stateC_min_rawvalue : list Z;
  cp_stateD_max_rawvalue : list Z;
  cp_stateD_min_rawvalue : list Z;
  cp_stateE1_max_rawvalue : list Z;
  cp_stateE1_min_rawvalue : list Z
}.

(** The initialisers of the globals. *)
Definition default_tables : tables :=
  mkTables
    [4096; 4096; 4096; 4096; 4096; 4096; 4096; 4096]
    [3702; 3702; 3702; 3702; 3500; 3702; 3702; 3766]
    [3702; 3702; 3702; 3702; 3500; 3702; 3702; 3372]
    [3031; 3031; 3031; 3031; 2800; 3031; 3234; 3031]
    [3031; 3031; 3031; 3031; 2800; 3031; 2957; 3031]
    [1658; 1849; 1984; 2138; 2100; 2616; 2726; 2830]
    [1658; 1849; 1984; 2138; 2100; 2616; 3234; 3766]
    [522; 878; 1129; 1416; 1800; 2309; 2957; 3372]
    [522; 878; 1129; 1416; 1800; 2309; 2726; 2830]
    [444; 749; 962; 1209; 1550; 1976; 2493; 2680]
    [444; 749; 962; 1209; 1550; 1976; 2493; 2680]
    [371; 627; 802; 1008; 1150; 1652; 2087; 2240]
    [371; 627; 802; 1008; 1150; 1652; 2087; 2240]
    [268; 458; 612; 804; 850; 1296; 1618; 1763]
    [268; 458; 612; 804; 850; 1296; 1618; 1763]
    [0; 0; 0; 0; 0; 0; 0; 0].

(** The entries [Control_pilot_state_init] assigns on the AC1 board. *)
Definition ac1_tables : tables :=
  mkTables
    [4096; 4096; 4096; 4096; 4096; 4096; 4096; 4096]
    [3900; 3900; 3900; 3900; 3900; 3900; 3900; 3900]
    [3600; 3600; 3600; 3600; 3600; 3600; 3600; 3572]
    [3420; 3420; 3420; 3420; 3420; 3420; 3420; 3420]
    [3000; 3000; 3000; 3000; 3000; 3000; 3000; 2985]
    [2800; 2800; 2800; 2800; 2800; 2800; 2886; 2800]
    [716; 1104; 1372; 1681; 2145; 2657; 3410; 3750]
    [639; 1013; 1272; 1571; 2020; 2517; 3200; 3573]
    [641; 980; 1214; 1484; 1889; 2327; 2886; 3129]
    [567; 893; 1119; 1380; 1772; 2195; 2764; 2988]
    [566; 858; 1058; 1290; 1637; 2012; 2500; 2675]
    [495; 775; 969; 1193; 1530; 1892; 2368; 2540]
    [495; 775; 969; 1193; 1530; 1892; 2368; 2540]
    [248; 388; 485; 597; 765; 946; 1184; 1270]
    [248; 388; 485; 597; 765; 946; 1184; 1270]
    [0; 0; 0; 0; 0; 0; 0; 0].

(** The limits in force for one connector. *)
Record limits := mkLimits {
  cp_stateA_min : Z;
  cp_stateA_max : Z;
  cp_stateB1_min : Z;
  cp_stateB1_max : Z;
  cp_stateB2_min : Z;
  cp_stateB2_max : Z;
  cp_stateE2_min : Z;
  cp_stateE2_max : Z;
  cp_state_disc_min : Z;
  cp_state_disc_max : Z;
  cp_stateC_min : Z;
  cp_stateC_max : Z;
  cp_stateD_min : Z;
  cp_stateD_max : Z;
  cp_stateE1_min : Z;
  cp_stateE1_max : Z
}.

Definition zero_limits : limits := mkLimits 0 0 0 0 0 0 0 0 0 0 0 0 0 0 0 0.

(** The sixteen assignments [cp_state<S>[c] = cp_state<S>_rawvalue[i]]. *)
Definition column (t : tables) (i : nat) : limits :=
  mkLimits
    (nth i (cp_stateA_min_rawvalue t) 0)
    (nth i (cp_stateA_max_rawvalue t) 0)
    (nth i (cp_stateB1_min_rawvalue t) 0)
    (nth i (cp_stateB1_max_rawvalue t) 0)
    (nth i (cp_stateB2_min_rawvalue t) 0)
    (nth i (cp_stateB2_max_rawvalue t) 0)
    (nth i (cp_stateE2_min_rawvalue t) 0)
    (nth i (cp_stateE2_max_rawvalue t) 0)
    (nth i (cp_state_disc_min_rawvalue t) 0)
    (nth i (cp_state_disc_max_rawvalue t) 0)
    (nth i (cp_stateC_min_rawvalue t) 0)
    (nth i (cp_stateC_max_rawvalue t) 0)
    (nth i (cp_stateD_min_rawvalue t) 0)
    (nth i (cp_stateD_max_rawvalue t) 0)
    (nth i (cp_stateE1_min_rawvalue t) 0)
    (nth i (cp_stateE1_max_rawvalue t) 0).

(** ** State *)

Record pilot := mkPilot {
  raw : tables;
  cp : cid -> limits;
  cp_adc_value : cid -> Z;
  cpState : cid -> Z;
  cpState_local_old : cid -> Z;
  taskDelayTime : cid -> Z;   (* local of each pilot task *)
  ledc0 : Z;                  (* duty of LEDC channel 0, 10 bits *)
  relay : faults;             (* the relay driver *)
  slave_link : link           (* the link to the slave controller *)
}.
#[export] Instance pilot_rebuild : Rebuild pilot := fun p =>
  mkPilot (raw p) (cp p) (cp_adc_value p) (cpState p) (cpState_local_old p)
    (taskDelayTime p) (ledc0 p) (relay p) (slave_link p).

(** [SetControlPilotDuty]: percentage to the 10-bit duty register. *)
Definition duty_register (Percentage : Z) : Z :=
  if (Percentage <=? 100) && (Percentage >=? 0) then Percentage * 1024 / 100 else 1024.

Definition SetControlPilotDuty (c : Config_t) (Percentage : Z) : cmd pilot :=
  WHEN fun _ => vcharge_v5 c || AC1 c THEN
    fun p => p <| ledc0 := duty_register Percentage |> FI.

(** [readAdcValue]: mean of 300 conversions, for connector 1 only. *)
Definition readAdcValue (samples : list Z) : cmd pilot := fun p =>
  p <| cp_adc_value := upd Conn1 (u16 (u32 (sumZ samples) / 300)) (cp_adc_value p) |>.

(** ** [cpTask] *)

(** The window tests, in the order the task makes them. *)
Definition in_window (v lo hi : Z) : bool := (v >=? lo) && (v <? hi).

Inductive reading := InA | InB1 | InB2 | InE2 | InDis | InC | InD | InE1 | InGap.

Definition classify (w : limits) (v : Z) : reading :=
  if in_window v (cp_stateA_min w) (cp_stateA_max w) then InA
  else if in_window v (cp_stateB1_min w) (cp_stateB1_max w) then InB1
  else if in_window v (cp_stateB2_min w) (cp_stateB2_max w) then InB2
  else if in_window v (cp_stateE2_min w) (cp_stateE2_max w) then InE2
  else if in_window v (cp_state_disc_min w) (cp_state_disc_max w) then InDis
  else if in_window v (cp_stateC_min w) (cp_stateC_max w) then InC
  else if in_window v (cp_stateD_min w) (cp_stateD_max w) then InD
  else if v <? cp_stateE1_max w then InE1
  else InGap.

Definition set_relay (c : Config_t) (id : cid) (state : Z) : cmd pilot :=
  update relay (updateRelayState c (cid_to_Z id) state).
Definition set_state (id : cid) (s : Z) : cmd pilot := update cpState (upd id s).

(** One branch of the classification: its relay command, duty and state. *)
Definition act (c : Config_t) (id : cid) (r : reading) : cmd pilot :=
  match r with
  | InA => set_relay c id 0 ;; SetControlPilotDuty c 100 ;; set_state id STATE_A
  | InB1 => set_relay c id 0 ;; SetControlPilotDuty c 100 ;; set_state id STATE_B1
  | InB2 => set_relay c id 0 ;; SetControlPilotDuty c (cpDuty c Conn1) ;; set_state id STATE_B2
  | InE2 => SetControlPilotDuty c 100 ;; set_relay c id 0 ;; set_state id STATE_E2
  | InDis => set_relay c id 0 ;; SetControlPilotDuty c 100 ;; set_state id STATE_DIS
  | InC => SetControlPilotDuty c (cpDuty c Conn1) ;; set_relay c id 1 ;; set_state id STATE_C
  | InD => SetControlPilotDuty c (cpDuty c Conn1) ;; set_relay c id 1 ;; set_state id STATE_D
  | InE1 => SetControlPilotDuty c 100 ;; set_relay c id 0 ;; set_state id STATE_E1
  | InGap => set_relay c id 0 ;; SetControlPilotDuty c 100
  end.

(** The prologue of the task. *)
Definition cpTask_start (c : Config_t) (id : cid) : cmd pilot :=
  set_state id STATE_A ;;
  (fun p => p <| cpState_local_old := upd id (cpState p id) (cpState_local_old p) |>) ;;
  SetControlPilotDuty c 100 ;;
  set_relay c id 0.

(** One iteration of the loop (log output apart). *)
Definition cpTask (c : Config_t) (id : cid) (samples : list Z) : cmd pilot :=
  readAdcValue samples ;;
  withs (fun p => act c id (classify (cp p id) (cp_adc_value p id))) ;;
  (fun p => p <| cpState_local_old := upd id (cpState p id) (cpState_local_old p) |>
              <| taskDelayTime := upd id
                   (if (cpState p id =? STATE_B2) || (cpState p id =? STATE_C)
                       || (cpState p id =? STATE_DIS) then 40 else 500)
                   (taskDelayTime p) |>).

(** ** Loading the windows *)

(** [for (i = 0; i < 8; i++) if (config.cpDuty[d] == cpDutyCycle[i]) {...}]:
    the body runs at each matching index. *)
Definition for_matching_duty (d : Z) (body : nat -> cmd pilot) : cmd pilot :=
  foreach (seq 0 8) (fun i =>
    WHEN fun _ => d =? nth i cpDutyCycle 0 THEN body i FI).

Definition load_column (id : cid) (i : nat) : cmd pilot := fun p =>
  p <| cp := upd id (column (raw p) i) (cp p) |>.

(** [SlaveCpConfig_t], and its in-memory bytes (16-bit fields, no padding). *)
Record SlaveCpConfig_t := mkSlaveCpConfig {
  s_cpEnable : cid -> bool;
  s_cpDuty : cid -> Z;
  s_limits : cid -> limits
}.

Definition four {A B} (f : cid -> A) (g : A -> list B) : list B :=
  g (f Conn0) ++ g (f Conn1) ++ g (f Conn2) ++ g (f Conn3).

Definition cp_config_bytes (s : SlaveCpConfig_t) : list Z :=
  four (s_cpEnable s) (fun b => [Z.b2z b]) ++
  four (s_cpDuty s) (fun d => [u8 d]) ++
  flat_map (fun field : limits -> Z => four (fun c => field (s_limits s c)) le16)
    [cp_stateA_min; cp_stateA_max; cp_stateB1_min; cp_stateB1_max;
     cp_stateB2_min; cp_stateB2_max; cp_stateE2_min; cp_stateE2_max;
     cp_state_disc_min; cp_state_disc_max; cp_stateC_min; cp_stateC_max;
     cp_stateD_min; cp_stateD_max; cp_stateE1_min; cp_stateE1_max].

Definition SlaveSendControlPilotConfig (c : Config_t) (s : SlaveCpConfig_t)
    (flag : nat -> bool) (l : link) : link * bool :=
  on_lite c l
    (send_request SERIAL_FEEDBACK_TIME CP_CONFIG_ID
       (le16 (CP_CONFIG_ID + SLAVE_REQUEST) ++ cp_config_bytes s) flag l).

(** The closing block of both loaders. *)
Definition send_cp_config (c : Config_t) (cpEnable : cid -> bool) (flag : nat -> bool)
    : cmd pilot :=
  WHEN fun _ => vcharge_lite_1_4 c THEN
    fun p => p <| slave_link :=
      (SlaveSendControlPilotConfig c
         (mkSlaveCpConfig cpEnable (cpDuty c) (cp p)) flag (slave_link p)).1 |>
  FI.

Definition updateCpConfig (c : Config_t) (cpEnable : cid -> bool) (flag : nat -> bool)
    : cmd pilot :=
  WHEN fun _ => has_cp1 c THEN
    for_matching_duty (cpDuty c Conn1) (fun i =>
      load_column Conn1 i ;; SetControlPilotDuty c (cpDuty c Conn1)) FI ;;
  WHEN fun _ => has_cp2 c THEN
    for_matching_duty (cpDuty c Conn2) (fun i =>
      load_column Conn2 i ;; SetControlPilotDuty c (cpDuty c Conn1)) FI ;;
  send_cp_config c cpEnable flag.

(** [Control_pilot_state_init]; the tasks it creates start with
    [cpTask_start]. *)
Definition Control_pilot_state_init (c : Config_t) (cpEnable : cid -> bool)
    (flag : nat -> bool) : cmd pilot :=
  WHEN fun _ => AC1 c THEN fun p => p <| raw := ac1_tables |> FI ;;
  WHEN fun _ => has_cp1 c THEN
    for_matching_duty (cpDuty c Conn1) (load_column Conn1) ;;
    WHEN fun _ => vcharge_v5 c || AC1 c THEN cpTask_start c Conn1 FI FI ;;
  WHEN fun _ => has_cp2 c THEN
    for_matching_duty (cpDuty c Conn2) (load_column Conn2) ;;
    WHEN fun _ => vcharge_v5 c || AC1 c THEN cpTask_start c Conn2 FI FI ;;
  send_cp_config c cpEnable flag.

(** ** Windows *)

(** The tests of [classify], independently of their order. *)
Definition matches (w : limits) (v : Z) : list reading :=
  (if in_window v (cp_stateA_min w) (cp_stateA_max w) then [InA] else []) ++
  (if in_window v (cp_stateB1_min w) (cp_stateB1_max w) then [InB1] else []) ++
  (if in_window v (cp_stateB2_min w) (cp_stateB2_max w) then [InB2] else []) ++
  (if in_window v (cp_stateE2_min w) (cp_stateE2_max w) then [InE2] else []) ++
  (if in_window v (cp_state_disc_min w) (cp_state_disc_max w) then [InDis] else []) ++
  (if in_window v (cp_stateC_min w) (cp_stateC_max w) then [InC] else []) ++
  (if in_window v (cp_stateD_min w) (cp_stateD_max w) then [InD] else []) ++
  (if v <? cp_stateE1_max w then [InE1] else []).

(** [classify] takes the first window that matches. *)
Lemma classify_first w v : classify w v = hd InGap (matches w v).
Proof. unfold classify, matches. repeat if_split; reflexivity. Qed.

(** The 12-bit readings. *)
Definition adc_range : list Z := map Z.of_nat (seq 0 (Z.to_nat 4096)).

Lemma adc_range_spec v : 0 <= v < 4096 -> In v adc_range.
Proof.
  intros Hv. unfold adc_range. apply in_map_iff. exists (Z.to_nat v).
  rewrite in_seq. lia.
Qed.

Definition partition_at (v : Z) (i : nat) : bool :=
  (length (matches (column default_tables i) v) =? 1)%nat.

Lemma partition_all :
  forallb (fun i => forallb (fun v => partition_at v i) adc_range) (seq 0 8) = true.
Proof. vm_compute. reflexivity. Qed.

(** The calibration tables are exact partitions: for each of the
    eight duty cycles, every 12-bit reading falls in one and only one window,
    and that is the one [classify] returns.  Under them the pilot task never
    sees a gap and the order of its tests is irrelevant. *)
Theorem windows_partition i v :
  (i < 8)%nat -> 0 <= v < 4096 ->
  matches (column default_tables i) v = [classify (column default_tables i) v].
Proof.
  intros Hi Hv. pose proof partition_all as H. rewrite forallb_forall in H.
  specialize (H i). rewrite in_seq in H. specialize (H ltac:(lia)).
  rewrite forallb_forall in H. specialize (H v (adc_range_spec v Hv)).
  unfold partition_at in H. apply Nat.eqb_eq in H. rewrite classify_first.
  destruct (matches _ v) as [|r [|? ?]]; done.
Qed.

Lemma windows_partition_witness :
  matches (column default_tables 4) 1500 = [InC].
Proof. rewrite (windows_partition 4 1500); [reflexivity | lia | lia]. Defined.

Definition ac1_unambiguous_at (v : Z) (i : nat) : bool :=
  (length (matches (column ac1_tables i) v) <=? 1)%nat
  || ((i =? 0)%nat && ((v =? 639) || (v =? 640))).

Lemma ac1_scan :
  forallb (fun i => forallb (fun v => ac1_unambiguous_at v i) adc_range) (seq 0 8) = true.
Proof. vm_compute. reflexivity. Qed.

(** The AC1 calibration leaves gaps but is unambiguous: at most one
    window matches a 12-bit reading, except readings 639 and 640 of the 16%
    column, which lie in both the B2 and the disconnected window; the order of
    the tests then decides for B2. *)
Theorem ac1_windows i v :
  (i < 8)%nat -> 0 <= v < 4096 ->
  (length (matches (column ac1_tables i) v) <= 1)%nat \/
  (i = 0%nat /\ (v = 639 \/ v = 640) /\
   matches (column ac1_tables i) v = [InB2; InDis] /\
   classify (column ac1_tables i) v = InB2).
Proof.
  intros Hi Hv. pose proof ac1_scan as H. rewrite forallb_forall in H.
  specialize (H i). rewrite in_seq in H. specialize (H ltac:(lia)).
  rewrite forallb_forall in H. specialize (H v (adc_range_spec v Hv)).
  unfold ac1_unambiguous_at in H. apply orb_true_iff in H as [H|H].
  - left. by apply Nat.leb_le.
  - right. apply andb_true_iff in H as [->%Nat.eqb_eq H].
    apply orb_true_iff in H as [->%Z.eqb_eq | ->%Z.eqb_eq]; split_and!; auto.
Qed.

Lemma ac1_windows_witness :
  (length (matches (column ac1_tables 0) 639) <= 1)%nat \/
  (0%nat = 0%nat /\ (639 = 639 \/ 639 = 640) /\
   matches (column ac1_tables 0) 639 = [InB2; InDis] /\
   classify (column ac1_tables 0) 639 = InB2).
Proof. apply ac1_windows; lia. Defined.

(** ** Duty register and IEC 61851 *)

Lemma duty_register_range d : 0 <= duty_register d <= 1024.
Proof.
  unfold duty_register. destruct ((d <=? 100) && (d >=? 0)) eqn:E; [|lia]. mlia.
Qed.

(** IEC 61851-1 Annex A: the current (in tenths of an ampere) a duty cycle of
    [d] percent advertises. *)
Definition iec_current (d : Z) : Z := if d <=? 85 then 6 * d else 25 * (d - 64).

(** The duty table implements IEC 61851: for each entry, the
    current advertised to the vehicle never exceeds the nominal current of the
    entry and falls short of it by at most 1.5 A; the 10-bit register realises
    each duty to within one part in 1024; and both tables increase. *)
Theorem duty_table_iec i :
  (i < 8)%nat ->
  let d := nth i cpDutyCycle 0 in
  let amps := nth i cpDutyCycleCurrent 0 in
  10 * amps - 15 <= iec_current d <= 10 * amps /\
  1024 * d - 100 < 100 * duty_register d <= 1024 * d /\
  forall j, (i < j < 8)%nat ->
    d < nth j cpDutyCycle 0 /\ amps < nth j cpDutyCycleCurrent 0.
Proof.
  intros Hi.
  do 8 (destruct i as [|i];
    [cbv zeta; split; [vm_compute; split; discriminate|];
     split; [vm_compute; split; [reflexivity | discriminate]|];
     intros j Hj; do 8 (destruct j as [|j]; [try lia; by vm_compute|]); lia|]).
  lia.
Qed.

Lemma duty_table_iec_witness : iec_current 53 <= 320.
Proof. exact (proj2 (proj1 (duty_table_iec 4 ltac:(lia)))). Defined.

(** ** The pilot task *)

Definition relay_closed (c : Config_t) (f : faults) : bool :=
  if AC1 c then relay_state f =? 1
  else match gpio_out f (relay_pin f) with Some l => l =? 1 | None => false end.

Definition energising (r : reading) : bool :=
  match r with InC | InD => true | _ => false end.
Definition modulated (r : reading) : bool :=
  match r with InB2 | InC | InD => true | _ => false end.
Definition state_of (r : reading) (old : Z) : Z :=
  match r with
  | InA => STATE_A | InB1 => STATE_B1 | InB2 => STATE_B2 | InE2 => STATE_E2
  | InDis => STATE_DIS | InC => STATE_C | InD => STATE_D | InE1 => STATE_E1
  | InGap => old
  end.

(** The relay driver obeys a command to relay 1. *)
Lemma updateRelayState_obeys c (b : bool) f :
  relay_state f = 0 \/ relay_state f = 1 ->
  relay_closed c (updateRelayState c RELAY1 (Z.b2z b) f) = b.
Proof.
  intros Hr. unfold relay_closed.
  symexec_as (updateRelayState c RELAY1 (Z.b2z b) f)
    (unfold updateRelayState, ledc_set_duty1, gpio_set_level); destruct b; cbn in *;
    use_guards; rewrite ?Z.eqb_refl; try done; destruct Hr as [Hr|Hr]; by rewrite Hr in *.
Qed.

Lemma updateRelayState_state c relay state f :
  relay_state f = 0 \/ relay_state f = 1 ->
  relay_state (updateRelayState c relay state f) = 0 \/
  relay_state (updateRelayState c relay state f) = 1.
Proof.
  intros Hr.
  symexec_as (updateRelayState c relay state f)
    (unfold updateRelayState, ledc_set_duty1, gpio_set_level); cbn; auto.
Qed.

(** Claim C37.  The pilot task energises the vehicle only when it asks for it:
    after every iteration on connector 1 of a V5 or AC1 board, the relay is
    closed exactly when the averaged reading is in the C or D window; the PWM
    carries the configured duty exactly in B2, C and D and is otherwise held
    at 100%; the published state is the window's, unchanged in a gap (where
    the relay is open). *)
Theorem cpTask_safe c samples p :
  vcharge_v5 c || AC1 c = true ->
  relay_state (relay p) = 0 \/ relay_state (relay p) = 1 ->
  let r := classify (cp p Conn1) (u16 (u32 (sumZ samples) / 300)) in
  let p' := cpTask c Conn1 samples p in
  relay_closed c (relay p') = energising r /\
  ledc0 p' = duty_register (if modulated r then cpDuty c Conn1 else 100) /\
  cpState p' Conn1 = state_of r (cpState p Conn1) /\
  taskDelayTime p' Conn1 =
    (if (cpState p' Conn1 =? STATE_B2) || (cpState p' Conn1 =? STATE_C)
        || (cpState p' Conn1 =? STATE_DIS) then 40 else 500) /\
  (relay_state (relay p') = 0 \/ relay_state (relay p') = 1).
Proof.
  intros Hb Hr. cbv zeta. unfold cpTask.
  rewrite seqc_eq. set (p1 := readAdcValue samples p).
  rewrite seqc_with. cbv beta.
  replace (cp_adc_value p1 Conn1) with (u16 (u32 (sumZ samples) / 300)) by done.
  change (cp p1 Conn1) with (cp p Conn1).
  destruct (classify (cp p Conn1) _); cbn [act];
    unfold SetControlPilotDuty, set_relay, set_state; symexec;
    cbn -[updateRelayState duty_register relay_closed];
    change (cid_to_Z Conn1) with RELAY1;
    (split_and!; [| done | done | done | by apply updateRelayState_state]).
  all: first [exact (updateRelayState_obeys c false _ Hr) | exact (updateRelayState_obeys c true _ Hr)].
Qed.

Definition witness_pilot : pilot :=
  mkPilot default_tables (fun _ => column default_tables 4) (fun _ => 0) (fun _ => STATE_B2)
    (fun _ => STATE_B2) (fun _ => 500) 1024 faults_reset witness_link.

Definition ac1_32A : Config_t := ac1_config <| cpDuty := fun _ => 53 |>.

Lemma cpTask_safe_witness :
  let p' := cpTask ac1_32A Conn1 (replicate 300 1500) witness_pilot in
  relay_closed ac1_32A (relay p') = true /\ ledc0 p' = 542 /\ cpState p' Conn1 = STATE_C.
Proof.
  cbv zeta.
  assert (Hb : vcharge_v5 ac1_32A || AC1 ac1_32A = true) by reflexivity.
  destruct (cpTask_safe ac1_32A (replicate 300 1500) witness_pilot Hb (or_introl eq_refl))
    as (H1 & H2 & H3 & _).
  rewrite H1, H2, H3. clear. vm_compute. repeat split.
Defined.

(** ** Loading the windows *)

Lemma cpDutyCycle_bound i : (i < 8)%nat -> 0 < nth i cpDutyCycle 0 <= 100.
Proof. intros Hi. do 8 (destruct i as [|i]; [by vm_compute|]). lia. Qed.

(** The duties of the table are distinct, so the loop body runs once, or not
    at all for a duty outside the table. *)
Lemma for_matching_duty_hit i body p :
  (i < 8)%nat -> for_matching_duty (nth i cpDutyCycle 0) body p = body i p.
Proof. intros Hi. do 8 (destruct i as [|i]; [reflexivity|]). lia. Qed.

Lemma for_matching_duty_miss d body p :
  ~ In d cpDutyCycle -> for_matching_duty d body p = p.
Proof.
  intros Hd. unfold for_matching_duty, foreach, whenc, ifc, skip. cbn [foldl seq].
  assert (Hk : forall k, (k < 8)%nat -> (d =? nth k cpDutyCycle 0) = false).
  { intros k Hk. apply Z.eqb_neq. intros ->. apply Hd, nth_In. exact Hk. }
  by rewrite !Hk by lia.
Qed.

(** One column load followed by the duty update. *)
Definition loaded (c : Config_t) (id : cid) (i : nat) (d : Z) (p : pilot) : pilot :=
  p <| cp := upd id (column (raw p) i) (cp p) |>
    <| ledc0 := if vcharge_v5 c || AC1 c then duty_register d else ledc0 p |>.

Lemma load_block c id i d p :
  (load_column id i ;; SetControlPilotDuty c d) p = loaded c id i d p.
Proof.
  unfold loaded, load_column, SetControlPilotDuty. destruct p.
  symexec; use_guards; reflexivity.
Qed.

(** What [act] and the closing block leave alone. *)
Lemma send_cp_config_same {A} (f : pilot -> A) c en flag p :
  (forall p l, f (p <| slave_link := l |>) = f p) -> f (send_cp_config c en flag p) = f p.
Proof.
  intros Hf. unfold send_cp_config. unfold whenc, ifc, skip.
  destruct (vcharge_lite_1_4 c); auto.
Qed.

Lemma cpTask_start_cp c id p :
  cp (cpTask_start c id p) = cp p /\ raw (cpTask_start c id p) = raw p.
Proof.
  assert (H : same (fun p => (cp p, raw p)) p (cpTask_start c id p)).
  { unfold cpTask_start, SetControlPilotDuty, set_state, set_relay. same_tac. }
  split; [exact (f_equal fst H) | exact (f_equal snd H)].
Qed.

(** Changing the duty keeps classification consistent with the PWM:
    after [updateCpConfig] with a duty of the table, connector 1 (and
    connector 2 where it has a pilot) classifies with exactly the calibration
    column of its own duty, other connectors keep their windows, and the PWM
    of connector 1's channel carries connector 1's duty. *)
Theorem updateCpConfig_spec c en flag i p :
  has_cp1 c = true -> (i < 8)%nat -> cpDuty c Conn1 = nth i cpDutyCycle 0 ->
  let p' := updateCpConfig c en flag p in
  cp p' Conn1 = column (raw p) i /\
  (forall j, (j < 8)%nat -> cpDuty c Conn2 = nth j cpDutyCycle 0 ->
     cp p' Conn2 = if has_cp2 c then column (raw p) j else cp p Conn2) /\
  cp p' Conn0 = cp p Conn0 /\ cp p' Conn3 = cp p Conn3 /\
  ledc0 p' = (if vcharge_v5 c || AC1 c then cpDuty c Conn1 * 1024 / 100 else ledc0 p) /\
  cpState p' = cpState p /\ relay p' = relay p.
Proof.
  intros H1 Hi Hd. cbv zeta. unfold updateCpConfig.
  pose proof (cpDutyCycle_bound i Hi) as Hb.
  assert (Hreg : cpDuty c Conn1 * 1024 / 100 = duty_register (cpDuty c Conn1)).
  { unfold duty_register. by replace ((_ <=? 100) && (_ >=? 0)) with true by lia. }
  rewrite seqc_when, seqc_if_true by done. rewrite seqc_eq, Hd, for_matching_duty_hit by done.
  rewrite seqc_eq, !send_cp_config_same, load_block, <- Hd, Hreg by done.
  set (p1 := loaded c Conn1 i (cpDuty c Conn1) p).
  assert (Hcase : (exists k, (k < 8)%nat /\ cpDuty c Conn2 = nth k cpDutyCycle 0) \/
                  ~ In (cpDuty c Conn2) cpDutyCycle).
  { destruct (in_dec Z.eq_dec (cpDuty c Conn2) cpDutyCycle) as [Hin|Hin]; [left | by right].
    apply In_nth with (d := 0) in Hin as (j & Hj & Hn). by exists j. }
  assert (Hinj : forall j k, (j < 8)%nat -> (k < 8)%nat ->
    nth j cpDutyCycle 0 = nth k cpDutyCycle 0 -> j = k).
  { intros j k Hj Hk. do 8 (destruct j as [|j]; [do 8 (destruct k as [|k]; [done|]); lia|]). lia. }
  destruct (has_cp2 c) eqn:H2; unfold whenc;
    [rewrite ifc_true by done | rewrite ifc_false by done; by split_and!].
  destruct Hcase as [(k & Hk & Hdk) | Hnot].
  - rewrite Hdk, for_matching_duty_hit by done. rewrite load_block.
    split_and!; try done.
    + intros j Hj Hdj. by rewrite (Hinj j k Hj Hk).
    + subst p1. cbn -[duty_register]. by destruct (vcharge_v5 c || AC1 c).
  - rewrite for_matching_duty_miss by done. split_and!; try done.
    intros j Hj Hdj. exfalso. apply Hnot. rewrite Hdj. by apply nth_In.
Qed.

Definition dual_config : Config_t :=
  zeroed_config <| Ac14D := true |> <| vcharge_lite_1_4 := true |>
    <| cpDuty := upd Conn2 26 (fun _ => 53) |>.

Lemma updateCpConfig_spec_witness :
  let p' := updateCpConfig dual_config (cpEnable_init dual_config) (fun _ => true) witness_pilot in
  cp p' Conn1 = column default_tables 4 /\ cp p' Conn2 = column default_tables 1.
Proof.
  cbv zeta.
  assert (H1 : has_cp1 dual_config = true) by reflexivity.
  assert (H2 : has_cp2 dual_config = true) by reflexivity.
  destruct (updateCpConfig_spec dual_config (cpEnable_init dual_config) (fun _ => true) 4
    witness_pilot H1 ltac:(lia) eq_refl) as (E1 & E2 & _).
  split; [exact E1|]. rewrite (E2 1%nat); [by rewrite H2 | lia | reflexivity].
Defined.

(** The configuration frame the slave receives encodes the whole
    structure: it is 144 bytes long, its payload is at fixed offsets the
    enables, the duties and, for each of the sixteen limits and each connector,
    the two bytes of the value, so every 16-bit limit can be read back. *)
Theorem cp_config_roundtrip s :
  (forall id, 0 <= s_cpDuty s id < 256) ->
  let b := cp_config_bytes s in
  let get16 off := nth off b 0 + 256 * nth (S off) b 0 in
  Z.of_nat (length b) = 136 /\
  Z.of_nat (length (frame (le16 (CP_CONFIG_ID + SLAVE_REQUEST) ++ b))) = 144 /\
  forall id,
    let k := cid_to_nat id in
    nth k b 0 = Z.b2z (s_cpEnable s id) /\ nth (4 + k) b 0 = s_cpDuty s id /\
    let w := s_limits s id in
    map (fun f => get16 (8 + 8 * f + 2 * k)%nat) (seq 0 16) =
      map u16 [cp_stateA_min w; cp_stateA_max w; cp_stateB1_min w; cp_stateB1_max w;
        cp_stateB2_min w; cp_stateB2_max w; cp_stateE2_min w; cp_stateE2_max w;
        cp_state_disc_min w; cp_state_disc_max w; cp_stateC_min w; cp_stateC_max w;
        cp_stateD_min w; cp_stateD_max w; cp_stateE1_min w; cp_stateE1_max w].
Proof.
  intros Hd. cbv zeta.
  assert (H16 : forall z, z mod 256 + 256 * (z / 256 mod 256) = u16 z)
    by (intros z; unfold u16; mlia).
  split; [reflexivity|]. split; [reflexivity|].
  intros id. split; [by destruct id|]. split.
  { destruct id; cbn -[Z.mul]; by rewrite u8_small by apply Hd. }
  destruct id; cbn -[Z.mul Z.modulo Z.div Z.add]; rewrite !H16; reflexivity.
Qed.

Lemma cp_config_roundtrip_witness :
  let s := mkSlaveCpConfig (fun _ => true) (fun _ => 53) (fun _ => column default_tables 4) in
  nth 5 (cp_config_bytes s) 0 = 53.
Proof.
  cbv zeta.
  assert (H : forall id : cid, 0 <= 53 < 256) by (intros; lia).
  exact (proj1 (proj2 (proj2 (proj2 (cp_config_roundtrip
    (mkSlaveCpConfig (fun _ => true) (fun _ => 53) (fun _ => column default_tables 4)) H)) Conn1))).
Defined.
