(* ===== verification/EnergyMeter.v ===== *)
(** * Energy meter ([main/EnergyMeter.c])

    The ATM90E36 metering chip is read over SPI; voltages and currents are
    scaled in binary64 and clamped near zero.  [readEnrgyMeter] feeds
    billing, [readMeterFaults] derives the protection flags (with per-phase
    thresholds on the three-phase chargers), the worst offending value for the
    fault report, the earth-disconnect flag of boards without the dedicated
    input, and relay weld detection on the AC1 board. *)

From S2P Require Import Prelude Binary64 Config FaultGpios.

(** ** Register access *)

Definition ATM90E36A_READ := 32768.
Definition ATM90E36A_WRITE := 0.
Definition UrmsA := 217.
Definition UrmsB := 218.
Definition UrmsC := 219.
Definition IrmsA := 221.
Definition IrmsB := 222.
Definition IrmsC := 223.
Definition Temp := 252.

(** The four bytes of a transaction and the decoding of the answer. *)
Definition command_bytes (RW address val : Z) : list Z :=
  let readCommand := Z.lor address RW in
  [Z.land (Z.shiftr readCommand 8) 255; Z.land readCommand 255;
   Z.land (Z.shiftr val 8) 255; Z.land val 255].

(** [spi] is the SPI driver: sent bytes to received bytes. *)
Definition CommEnergyIC (spi : list Z -> list Z) (RW address val : Z) : Z :=
  let rx := spi (command_bytes RW address val) in
  Z.lor (Z.shiftl (nth 2 rx 0) 8) (nth 3 rx 0).

Definition read_reg (spi : list Z -> list Z) (address : Z) : Z :=
  CommEnergyIC spi ATM90E36A_READ address 0.

(** ** Data *)

(** [PHASE_NA], [PHASE_A], [PHASE_B] and [PHASE_C] index the arrays of length
    four, like the connectors. *)
Abbreviation PHASE_NA := Conn0 (only parsing).
Abbreviation PHASE_A := Conn1 (only parsing).
Abbreviation PHASE_B := Conn2 (only parsing).
Abbreviation PHASE_C := Conn3 (only parsing).

Record MeterValues_t := mkMeterValues {
  temp : Z;
  voltage : cid -> b64;
  current : cid -> b64;
  power : b64
}.
#[export] Instance MeterValues_rebuild : Rebuild MeterValues_t := fun v =>
  mkMeterValues (temp v) (voltage v) (current v) (power v).

Record MeterFaults_t := mkMeterFaults {
  MeterUnderVoltage : bool;
  MeterOverVoltage : bool;
  MeterOverCurrent : bool;
  MeterPowerLoss : bool;
  MeterHighTemp : bool;
  MeterFailure : bool
}.

(** The globals of the component, the calibration constants (which the AC1
    initialisation overrides), and the relay driver it consults. *)
Record meter := mkMeter {
  voltageMultificationFactor : b64;
  voltageOffset : b64;
  mconfig : Config_t;
  drv : faults;
  relayWeldDetectionButton : bool;
  meterValueFault : cid -> MeterValues_t  (* [ConnectorData[i].meterValueFault] *)
}.
#[export] Instance meter_rebuild : Rebuild meter := fun m =>
  mkMeter (voltageMultificationFactor m) (voltageOffset m) (mconfig m) (drv m)
    (relayWeldDetectionButton m) (meterValueFault m).

Definition default_factor : b64 := dec 989649057 9.
Definition default_offset : b64 := dec 315538775 9.

(** ** Scaling *)

Definition volts (raw : Z) : b64 := fmul (f_of_Z raw) (dec 1 2).
Definition amps (raw : Z) : b64 := fmul (f_of_Z raw) (dec 1 3).

Definition scale_voltage (m : meter) (v : b64) : b64 :=
  fadd (fmul v (voltageMultificationFactor m)) (voltageOffset m).

Definition scale_current (c : Config_t) (i : b64) : b64 :=
  let i := if fgtb i (dec 85 1) then fmul i (CurrentGain2 c) else fmul i (CurrentGain1 c) in
  fsub (fmul i (CurrentGain c)) (CurrentOffset c).

Definition clamp_voltage (v : b64) : b64 := if fltb v (f_of_Z 1) then S754_zero false else v.
Definition clamp_current (i : b64) : b64 := if fltb i (dec 1 1) then S754_zero false else i.

Definition is_three_phase (c : Config_t) : bool := Ac11s c || Ac22s c || Ac44s c.

(** ** Initialisation *)

(** The register writes of [ATM90E36_Initialise], in order. *)
Definition init_writes : list (Z * Z) :=
  [(0, 30874); (3, 0); (4, 0); (8, 1); (48, 22136); (49, 2145);
   (50, 50280); (51, 4231); (52, 5376); (53, 0); (54, 0); (55, 0);
   (56, 0); (57, 0); (58, 0); (59, 18241); (64, 22136); (71, 0);
   (72, 0); (73, 0); (74, 0); (75, 0); (76, 0); (65, 0);
   (66, 0); (67, 0); (68, 0); (69, 0); (70, 0); (77, 0);
   (80, 22136); (81, 0); (82, 0); (83, 0); (84, 0); (85, 0);
   (86, 0); (87, 0); (96, 22136); (97, 2); (98, 64895); (99, 0);
   (100, 0); (101, 2); (102, 64895); (103, 0); (104, 0); (105, 2);
   (106, 64895); (107, 0); (108, 0); (109, 64895); (111, 758); (48, 22136);
   (64, 22136); (80, 22136); (96, 22136); (0, 30874)].

Definition ATM90E36_Initialise : cmd meter :=
  WHEN fun m => AC1 (mconfig m) THEN fun m =>
    m <| voltageMultificationFactor := dec 1539249378 9 |>
      <| voltageOffset := dec 51283407 9 |>
      <| mconfig := (mconfig m) <| CurrentGain1 := f_of_Z 1 |> <| CurrentGain2 := f_of_Z 1 |>
           <| CurrentGain := dec 98042 5 |> <| CurrentOffset := dec (-2957) 5 |> |>
  FI.

(** The bytes it sends to the chip. *)
Definition init_transactions : list (list Z) :=
  map (fun '(address, val) => command_bytes ATM90E36A_WRITE address val) init_writes.

(** ** [readEnrgyMeter] *)

Definition set_voltage (i : cid) (v : b64) : cmd MeterValues_t := update voltage (upd i v).
Definition set_current (i : cid) (x : b64) : cmd MeterValues_t := update current (upd i x).

(** The local [MeterValues] is uninitialised: it starts as [junk]. *)
Definition readEnrgyMeter (m : meter) (spi : list Z -> list Z) (junk : MeterValues_t)
    (connId : cid) : MeterValues_t :=
  let c := mconfig m in
  let reg := read_reg spi in
  let fetch i u_reg i_reg : cmd MeterValues_t :=
    set_voltage i (clamp_voltage (scale_voltage m (volts (reg u_reg)))) ;;
    set_current i (clamp_current (scale_current c (amps (reg i_reg)))) in
  let phase_power (v : MeterValues_t) i := fmul (voltage v i) (current v i) in
  if is_three_phase c then
    ((fun v => v <| temp := reg Temp |>) ;;
     fetch PHASE_A UrmsA IrmsA ;; fetch PHASE_B UrmsB IrmsB ;; fetch PHASE_C UrmsC IrmsC ;;
     (fun v => v <| power := phase_power v PHASE_A |>) ;;
     (fun v => v <| power := fadd (power v) (phase_power v PHASE_B) |>) ;;
     (fun v => v <| power := fadd (power v) (phase_power v PHASE_C) |>)) junk
  else
    ((fun v => v <| temp := reg Temp |>) ;;
     fetch connId (UrmsA + cid_to_Z connId - 1) (IrmsA + cid_to_Z connId - 1) ;;
     (fun v => v <| power := phase_power v connId |>)) junk.

(** ** [readMeterFaults] *)

(** The thresholds both halves apply to one phase. *)
Section Thresholds.
Context (c : Config_t) (circuit : bool) (connId : cid).

Definition over_voltage (v : b64) : bool := fgtb v (overVoltageThreshold c).
Definition over_current (i : b64) : bool := fgtb i (overCurrentThreshold c connId).
Definition high_temp (t : Z) : bool := fgtb (f_of_Z t) (overTemperatureThreshold c).
Definition failure (v : b64) : bool := fgtb v (f_of_Z 600).
Definition power_loss (v : b64) : bool :=
  if circuit then fltb v (f_of_Z 50) else fltb v (f_of_Z 20).
Definition earth_lost (v : b64) : bool := fgeb v (f_of_Z 20) && fltb v (f_of_Z 130).
Definition under_voltage (v : b64) : bool :=
  if circuit then fltb v (underVoltageThreshold c)
  else fgeb v (f_of_Z 130) && fltb v (underVoltageThreshold c).
End Thresholds.

(** Does some phase satisfy the test? *)
Definition any_phase (p : b64 -> bool) (f : cid -> b64) : bool :=
  p (f PHASE_A) || p (f PHASE_B) || p (f PHASE_C).

(** [if (A beats B and C) A else if (B beats A and C) B else C]. *)
Definition worst (beats : b64 -> b64 -> bool) (f : cid -> b64) : b64 :=
  if beats (f PHASE_A) (f PHASE_B) && beats (f PHASE_A) (f PHASE_C) then f PHASE_A
  else if beats (f PHASE_B) (f PHASE_A) && beats (f PHASE_B) (f PHASE_C) then f PHASE_B
  else f PHASE_C.

Definition record_fault (connId : cid) (u : cmd MeterValues_t) : cmd meter :=
  fun m => m <| meterValueFault := upd connId (u (meterValueFault m connId)) (meterValueFault m) |>.

Definition set_earth (b : bool) : cmd meter :=
  fun m => m <| drv := (drv m) <| earthDisconnectButton := b |> |>.

Definition scaled_values (m : meter) (spi : list Z -> list Z) (i : cid) (u_reg i_reg : Z)
    : cmd MeterValues_t :=
  set_voltage i (clamp_voltage (scale_voltage m (volts (read_reg spi u_reg)))) ;;
  set_current i (clamp_current (scale_current (mconfig m) (amps (read_reg spi i_reg)))).

(** The three-phase half. *)
Definition readMeterFaults_three (spi : list Z -> list Z) (junk : MeterValues_t)
    (connId : cid) (m : meter) : meter * MeterFaults_t :=
  let c := mconfig m in
  let circuit := earthDisconnectCircuit (drv m) in
  let v := ((fun v => v <| temp := read_reg spi Temp |>) ;;
            scaled_values m spi PHASE_A UrmsA IrmsA ;;
            scaled_values m spi PHASE_B UrmsB IrmsB ;;
            scaled_values m spi PHASE_C UrmsC IrmsC) junk in
  let f := mkMeterFaults
    (any_phase (under_voltage c circuit) (voltage v))
    (any_phase (over_voltage c) (voltage v))
    (any_phase (over_current c connId) (current v))
    (any_phase (power_loss circuit) (voltage v))
    (high_temp c (temp v))
    (any_phase failure (voltage v)) in
  (( WHEN fun _ => negb circuit THEN set_earth (any_phase earth_lost (voltage v)) FI ;;
     WHEN fun _ => MeterOverVoltage f THEN
       record_fault connId (set_voltage PHASE_NA (worst fgtb (voltage v))) FI ;;
     WHEN fun _ => MeterUnderVoltage f THEN
       record_fault connId (set_voltage PHASE_NA (worst fltb (voltage v))) FI ;;
     WHEN fun _ => MeterOverCurrent f THEN
       record_fault connId (set_current PHASE_NA (worst fgtb (current v))) FI ;;
     WHEN fun _ => MeterHighTemp f THEN
       record_fault connId (fun r => r <| temp := temp v |>) FI) m, f).

(** The single-phase half.  The channel of connector [k] is [UrmsA + k - 1];
    on the AC1 board channel B measures the load side of the relay, scaled
    but not clamped. *)
Definition readMeterFaults_single (spi : list Z -> list Z) (junk : MeterValues_t)
    (connId : cid) (m : meter) : meter * MeterFaults_t :=
  let c := mconfig m in
  let circuit := earthDisconnectCircuit (drv m) in
  let reg := read_reg spi in
  let channel i u_reg i_reg : cmd MeterValues_t :=
    set_voltage i (volts (reg u_reg)) ;; set_current i (amps (reg i_reg)) ;;
    (fun v => set_voltage PHASE_NA (voltage v i) v) ;;
    (fun v => set_current PHASE_NA (current v i) v) in
  let v := ((fun v => v <| temp := reg Temp |>) ;;
    (match connId with
     | Conn1 =>
         channel PHASE_A UrmsA IrmsA ;;
         WHEN fun _ => AC1 c THEN
           set_voltage PHASE_B (volts (reg UrmsB)) ;;
           (fun v => set_voltage PHASE_B (scale_voltage m (voltage v PHASE_B)) v) FI
     | Conn2 => channel PHASE_B UrmsB IrmsB
     | Conn3 => channel PHASE_C UrmsC IrmsC
     | Conn0 => skip
     end) ;;
    (fun v => set_voltage PHASE_NA (scale_voltage m (voltage v PHASE_NA)) v) ;;
    (fun v => set_current PHASE_NA (scale_current c (current v PHASE_NA)) v) ;;
    (fun v => set_voltage PHASE_NA (clamp_voltage (voltage v PHASE_NA)) v) ;;
    (fun v => set_current PHASE_NA (clamp_current (current v PHASE_NA)) v)) junk in
  let v_na := voltage v PHASE_NA in
  let f := mkMeterFaults
    (under_voltage c circuit v_na) (over_voltage c v_na)
    (over_current c connId (current v PHASE_NA)) (power_loss circuit v_na)
    (high_temp c (temp v)) (failure v_na) in
  (( WHEN fun _ => negb circuit THEN set_earth (earth_lost v_na) FI ;;
     WHEN fun _ => MeterOverVoltage f || MeterUnderVoltage f THEN
       record_fault connId (set_voltage PHASE_NA v_na) FI ;;
     WHEN fun _ => MeterOverCurrent f THEN
       record_fault connId (set_current PHASE_NA (current v PHASE_NA)) FI ;;
     WHEN fun _ => MeterHighTemp f THEN
       record_fault connId (fun r => r <| temp := temp v |>) FI ;;
     WHEN fun _ => AC1 c THEN
       IF fun m => (relay_state (drv m) =? 0) && fgtb (voltage v PHASE_B) (f_of_Z 10)
                   && negb (is_three_phase c) && (relayOffTime (drv m) >? 50) THEN
         fun m => m <| relayWeldDetectionButton := true |>
       ELSE IF fun m => (relay_state (drv m) =? 1) && fltb (voltage v PHASE_B) (f_of_Z 10)
                   && negb (is_three_phase c) && (relayOnTime (drv m) >? 50) THEN
         fun m => m <| relayWeldDetectionButton := true |>
       ELSE fun m => m <| relayWeldDetectionButton := false |> FI FI
     FI) m, f).

Definition readMeterFaults (spi : list Z -> list Z) (junk : MeterValues_t)
    (connId : cid) (m : meter) : meter * MeterFaults_t :=
  if is_three_phase (mconfig m) then readMeterFaults_three spi junk connId m
  else readMeterFaults_single spi junk connId m.

(** ** Properties *)

Definition channels (c : Config_t) (connId : cid) : list cid :=
  if is_three_phase c then [PHASE_A; PHASE_B; PHASE_C] else [connId].

Arguments clamp_voltage : simpl never.
Arguments clamp_current : simpl never.
Arguments scale_voltage : simpl never.
Arguments scale_current : simpl never.
Arguments volts : simpl never.
Arguments amps : simpl never.
Arguments read_reg : simpl never.

(** Claim C40.  Protection and billing see the same electrical values: for
    connectors 1 to 3, on single- and three-phase chargers alike, the flags
    [readMeterFaults] returns are the thresholds applied to the scaled and
    clamped values [readEnrgyMeter] returns for the same chip registers, a
    three-phase flag being raised when some phase raises it.  The two
    independently written scaling paths, and the uninitialised locals of
    both, do not matter. *)
Theorem faults_agree_with_metering m spi junk junk' connId :
  connId <> Conn0 ->
  let c := mconfig m in
  let circuit := earthDisconnectCircuit (drv m) in
  let v := readEnrgyMeter m spi junk connId in
  let some p f := existsb (fun i => p (f i)) (channels c connId) in
  (readMeterFaults spi junk' connId m).2 =
  mkMeterFaults
    (some (under_voltage c circuit) (voltage v)) (some (over_voltage c) (voltage v))
    (some (over_current c connId) (current v)) (some (power_loss circuit) (voltage v))
    (high_temp c (temp v)) (some failure (voltage v)).
Proof.
  intros Hid. cbv zeta. unfold readMeterFaults, readEnrgyMeter, channels.
  destruct (is_three_phase (mconfig m)).
  - unfold any_phase. cbn. by rewrite !orb_false_r, !orb_assoc.
  - destruct connId; [done|..]; cbn; rewrite !orb_false_r; [|done..].
    destruct (AC1 (mconfig m)); reflexivity.
Qed.

(** A driver that answers every read with the register file [r]. *)
Definition spi_of (r : Z -> Z) (tx : list Z) : list Z :=
  let v := r (Z.land (nth 1 tx 0) 255) in [0; 0; Z.shiftr v 8; Z.land v 255].

Definition junk_values : MeterValues_t :=
  mkMeterValues 7 (fun _ => S754_nan) (fun _ => f_of_Z 99) S754_nan.

Definition eu_config : Config_t :=
  factory_config <| Ac3s := false |> <| Ac22s := true |>.

Definition eu_meter : meter :=
  mkMeter default_factor default_offset eu_config faults_reset false (fun _ => junk_values).

(** 300 V on phases A and B, 230 V on C, 10 A everywhere. *)
Definition tied_registers (address : Z) : Z :=
  if (address =? UrmsA) || (address =? UrmsB) then 30000
  else if address =? UrmsC then 23000
  else if address =? Temp then 30 else 10000.

Lemma faults_agree_with_metering_witness :
  MeterOverVoltage (readMeterFaults (spi_of tied_registers) junk_values Conn1 eu_meter).2 = true.
Proof.
  rewrite (faults_agree_with_metering eu_meter (spi_of tied_registers) junk_values junk_values Conn1);
    [vm_compute; reflexivity | discriminate].
Defined.

(** Voltage bands of boards without an earth input: whatever the
    reading, at most one of power loss (below 20 V), earth disconnection
    (20 V to 130 V) and under-voltage (130 V to the threshold) is reported;
    one of them is reported exactly when the reading is below 130 V or below
    the under-voltage threshold. *)
Theorem voltage_bands c v :
  let p := power_loss false v in
  let e := earth_lost v in
  let u := under_voltage c false v in
  p && e = false /\ p && u = false /\ e && u = false /\
  p || e || u = fltb v (f_of_Z 130) || fltb v (underVoltageThreshold c).
Proof.
  cbv zeta. unfold power_loss, earth_lost, under_voltage.
  assert (H20 : fltb (f_of_Z 20) (f_of_Z 130) = true) by reflexivity.
  assert (E1 : fltb v (f_of_Z 20) = true -> fltb v (f_of_Z 130) = true)
    by (intros H; exact (fltb_trans _ _ _ H H20)).
  assert (E2 : fltb v (f_of_Z 20) = true -> fgeb v (f_of_Z 20) = false)
    by apply fltb_fleb_false.
  assert (E3 : fltb v (f_of_Z 130) = true -> fgeb v (f_of_Z 130) = false)
    by apply fltb_fleb_false.
  assert (E4 : fltb v (f_of_Z 130) = true -> fltb v (f_of_Z 20) = false ->
               fgeb v (f_of_Z 20) = true).
  { set (a := f_of_Z 20) in *. set (b := f_of_Z 130) in *.
    assert (is_nan a = false) by reflexivity. intros. forder. }
  assert (E5 : fltb v (underVoltageThreshold c) = true -> fltb v (f_of_Z 130) = false ->
               fgeb v (f_of_Z 130) = true).
  { set (b := f_of_Z 130) in *. assert (is_nan b = false) by reflexivity.
    generalize (underVoltageThreshold c). intros. forder. }
  destruct (fltb v (f_of_Z 20)), (fltb v (f_of_Z 130)), (fgeb v (f_of_Z 20)),
    (fgeb v (f_of_Z 130)), (fltb v (underVoltageThreshold c)); cbn;
    intuition discriminate.
Qed.

(** [worst] picks the greatest phase unless A and B tie strictly above C. *)
Lemma worst_greatest f :
  is_nan (f PHASE_A) = false -> is_nan (f PHASE_B) = false -> is_nan (f PHASE_C) = false ->
  let w := worst fgtb f in
  (fgtb (f PHASE_A) w = false /\ fgtb (f PHASE_B) w = false /\ fgtb (f PHASE_C) w = false) <->
  ~ (fgtb (f PHASE_A) (f PHASE_B) = false /\ fgtb (f PHASE_B) (f PHASE_A) = false /\
     fgtb (f PHASE_A) (f PHASE_C) = true).
Proof.
  unfold worst. generalize (f PHASE_A) as a, (f PHASE_B) as b, (f PHASE_C) as c.
  intros a b c Ha Hb Hc. cbv zeta. unfold fgtb.
  pose proof (fltb_asym a b). pose proof (fltb_asym a c). pose proof (fltb_asym b c).
  pose proof (fltb_trans a b c). pose proof (fltb_trans b c a). pose proof (fltb_trans c a b).
  pose proof (fltb_trans a c b). pose proof (fltb_trans b a c). pose proof (fltb_trans c b a).
  pose proof (fltb_negtrans a c b Hc). pose proof (fltb_negtrans b a c Ha).
  pose proof (fltb_negtrans c b a Hb). pose proof (fltb_negtrans a b c Hb).
  pose proof (fltb_negtrans b c a Hc). pose proof (fltb_negtrans c a b Ha).
  pose proof (fltb_irrefl a). pose proof (fltb_irrefl b). pose proof (fltb_irrefl c).
  destruct (fltb a b) eqn:?, (fltb a c) eqn:?, (fltb b a) eqn:?, (fltb b c) eqn:?,
    (fltb c a) eqn:?, (fltb c b) eqn:?; cbn; use_guards; intuition congruence.
Qed.

(** The value reported with a three-phase over-voltage: when the
    flag is raised, [meterValueFault] records a phase voltage that no other
    phase exceeds, unless phases A and B agree exactly and both exceed phase
    C; then phase C's (possibly healthy) voltage is recorded instead. *)
Theorem overvoltage_record m spi junk connId :
  is_three_phase (mconfig m) = true -> connId <> Conn0 ->
  let v := voltage (readEnrgyMeter m spi junk connId) in
  let '(m', f) := readMeterFaults spi junk connId m in
  let w := voltage (meterValueFault m' connId) PHASE_NA in
  MeterOverVoltage f = true -> MeterUnderVoltage f = false ->
  is_nan (v PHASE_A) = false -> is_nan (v PHASE_B) = false -> is_nan (v PHASE_C) = false ->
  ((fgtb (v PHASE_A) w = false /\ fgtb (v PHASE_B) w = false /\ fgtb (v PHASE_C) w = false) <->
   ~ (fgtb (v PHASE_A) (v PHASE_B) = false /\ fgtb (v PHASE_B) (v PHASE_A) = false /\
      fgtb (v PHASE_A) (v PHASE_C) = true)).
Proof.
  intros H3 Hid. cbv zeta.
  assert (Hv : forall i, voltage (readEnrgyMeter m spi junk connId) i =
    voltage (((fun v => v <| temp := read_reg spi Temp |>) ;;
            scaled_values m spi PHASE_A UrmsA IrmsA ;;
            scaled_values m spi PHASE_B UrmsB IrmsB ;;
            scaled_values m spi PHASE_C UrmsC IrmsC) junk) i).
  { intros i. unfold readEnrgyMeter. rewrite H3. reflexivity. }
  unfold readMeterFaults. rewrite H3. unfold readMeterFaults_three.
  set (vals := seqc _ _ junk) in *. clearbody vals.
  intros Hov Huv. cbn [MeterOverVoltage MeterUnderVoltage] in Hov, Huv. rewrite !Hv.
  intros Ha Hb Hc.
  match goal with |- context [voltage (meterValueFault ?x connId) PHASE_NA] =>
    enough (voltage (meterValueFault x connId) PHASE_NA = worst fgtb (voltage vals)) as ->
      by by apply worst_greatest end.
  cbn [MeterOverVoltage MeterUnderVoltage MeterOverCurrent MeterHighTemp].
  unfold record_fault, set_earth, set_voltage, set_current.
  generalize (worst fgtb (voltage vals)) as w. intros w.
  symexec; cbn; by autorewrite with evse_upd.
Qed.

(** The exception happens: 300 V twice and 230 V once report 230 V. *)
Lemma overvoltage_record_witness :
  let r := readMeterFaults (spi_of tied_registers) junk_values Conn1 eu_meter in
  MeterOverVoltage r.2 = true /\
  over_voltage eu_config (voltage (meterValueFault r.1 Conn1) PHASE_NA) = false /\
  ~ (let v := voltage (readEnrgyMeter eu_meter (spi_of tied_registers) junk_values Conn1) in
     let w := voltage (meterValueFault r.1 Conn1) PHASE_NA in
     fgtb (v PHASE_A) w = false /\ fgtb (v PHASE_B) w = false /\ fgtb (v PHASE_C) w = false).
Proof.
  cbv zeta. split; [by vm_compute|]. split; [by vm_compute|].
  assert (H3 : is_three_phase (mconfig eu_meter) = true) by reflexivity.
  assert (Hid : Conn1 <> Conn0) by discriminate.
  pose proof (overvoltage_record eu_meter (spi_of tied_registers) junk_values Conn1 H3 Hid) as H.
  cbv zeta in H.
  destruct (readMeterFaults (spi_of tied_registers) junk_values Conn1 eu_meter) as [m' f] eqn:E.
  assert (Hov : MeterOverVoltage f = true).
  { apply (f_equal (fun r => MeterOverVoltage r.2)) in E. cbn in E. rewrite <- E. by vm_compute. }
  assert (Huv : MeterUnderVoltage f = false).
  { apply (f_equal (fun r => MeterUnderVoltage r.2)) in E. cbn in E. rewrite <- E. by vm_compute. }
  clear E. cbn [fst].
  intros Hw. apply (H Hov Huv) in Hw; [|by vm_compute..].
  apply Hw. split_and!; by vm_compute.
Defined.

(** Relay weld detection on the single-phase AC1 board: the flag
    is raised exactly when the load side carries more than 10 V although the
    relay has been open for over 50 ticks, or less than 10 V although it has
    been closed for over 50 ticks; a transition in progress never raises it. *)
Theorem weld_detection m spi junk :
  let c := mconfig m in
  is_three_phase c = false -> AC1 c = true ->
  let load := scale_voltage m (volts (read_reg spi UrmsB)) in
  relayWeldDetectionButton (readMeterFaults spi junk Conn1 m).1 =
    ((relay_state (drv m) =? 0) && fgtb load (f_of_Z 10) && (50 <? relayOffTime (drv m)))
    || ((relay_state (drv m) =? 1) && fltb load (f_of_Z 10) && (50 <? relayOnTime (drv m))).
Proof.
  cbv zeta. intros H3 HA. unfold readMeterFaults. rewrite H3. unfold readMeterFaults_single.
  match goal with |- context [seqc ?a ?b junk] => set (vals := seqc a b junk) end.
  assert (Hload : voltage vals PHASE_B = scale_voltage m (volts (read_reg spi UrmsB))).
  { subst vals. cbn. unfold seqc, whenc, ifc, skip. rewrite HA. reflexivity. }
  cbn [MeterOverVoltage MeterUnderVoltage MeterOverCurrent MeterHighTemp].
  rewrite <- Hload. clearbody vals. unfold fst.
  match goal with |- context [seqc ?a (seqc ?b (seqc ?d (seqc ?e ?w))) m] =>
    change (seqc a (seqc b (seqc d (seqc e w))) m) with (w ((a ;; b ;; d ;; e) m));
    set (m1 := (a ;; b ;; d ;; e) m) end.
  assert (Hs : relay_state (drv m1) = relay_state (drv m) /\
    relayOffTime (drv m1) = relayOffTime (drv m) /\
    relayOnTime (drv m1) = relayOnTime (drv m)).
  { assert (H : same (fun m => (relay_state (drv m), relayOffTime (drv m),
      relayOnTime (drv m))) m m1).
    { subst m1. unfold record_fault, set_earth. same_tac. }
    injection H as S1 S2 S3. by rewrite S1, S2, S3. }
  clearbody m1. destruct Hs as (<- & <- & <-). rewrite <- !Z.gtb_ltb.
  symexec; cbn; rewrite ?H3 in *; cbn in *; rewrite ?andb_true_r in *; use_guards;
    by rewrite ?orb_true_r.
Qed.

Definition ac1_meter (on : bool) : meter :=
  mkMeter default_factor default_offset ac1_config
    ((if on then faults_reset <| relay_state := 1 |> else faults_reset)
       <| relayOnTime := 60 |> <| relayOffTime := 60 |>) false (fun _ => junk_values).

Lemma weld_detection_witness :
  relayWeldDetectionButton
    (readMeterFaults (spi_of tied_registers) junk_values Conn1 (ac1_meter false)).1 = true.
Proof.
  rewrite (weld_detection (ac1_meter false)); [vm_compute; reflexivity | reflexivity | reflexivity].
Defined.
