(* ===== verification/Nvs.v ===== *)
(** * Non-volatile storage

    The firmware persists its records through the ESP-IDF key-value store,
    which is not part of this code base.  [Nvs] is the interface the sources
    use within one namespace (32-bit counters and blobs under string keys),
    [NvsLaws] the documented behaviour they rely on: a committed write is read
    back, and a write to one key disturbs no other.  Writes are taken to
    succeed; the sources only log a failure.  [Flash], over finite maps,
    shows the laws are consistent. *)

From S2P Require Import Prelude Text.

Class Nvs (N B : Type) := {
  nvs_get_u32 : N -> string -> option Z;
  nvs_set_u32 : N -> string -> Z -> N;
  nvs_get_blob : N -> string -> option B;
  nvs_set_blob : N -> string -> B -> N
}.

Class NvsLaws (N B : Type) `{Nvs N B} := {
  get_set_u32 n k v : nvs_get_u32 (nvs_set_u32 n k v) k = Some v;
  get_set_u32_other n k k' v :
    k <> k' -> nvs_get_u32 (nvs_set_u32 n k v) k' = nvs_get_u32 n k';
  get_set_blob n k b : nvs_get_blob (nvs_set_blob n k b) k = Some b;
  get_set_blob_other n k k' b :
    k <> k' -> nvs_get_blob (nvs_set_blob n k b) k' = nvs_get_blob n k';
  get_u32_set_blob n k k' b :
    k <> k' -> nvs_get_u32 (nvs_set_blob n k b) k' = nvs_get_u32 n k';
  get_blob_set_u32 n k k' v :
    k <> k' -> nvs_get_blob (nvs_set_u32 n k v) k' = nvs_get_blob n k'
}.

(** [nvs_get_*(h, key, &x)]: on a missing key [x] keeps its value. *)
Definition read_into {A} (found : option A) (x : A) : A := default x found.

(** ** The finite-map instance *)

Definition Flash (B : Type) : Type := gmap string (Z + B).

Definition flash_u32 {B} (n : Flash B) (k : string) : option Z :=
  match n !! k with Some (inl v) => Some v | _ => None end.
Definition flash_blob {B} (n : Flash B) (k : string) : option B :=
  match n !! k with Some (inr b) => Some b | _ => None end.

#[export] Instance flash_nvs B : Nvs (Flash B) B := {
  nvs_get_u32 := flash_u32;
  nvs_set_u32 n k v := <[k := inl v]> n;
  nvs_get_blob := flash_blob;
  nvs_set_blob n k b := <[k := inr b]> n
}.

#[export] Instance flash_laws B : NvsLaws (Flash B) B.
Proof.
  split; intros; cbn; unfold flash_u32, flash_blob, Flash in *.
  all: first [by rewrite lookup_insert_eq | by rewrite lookup_insert_ne].
Qed.

(** ** Numbered keys

    [sprintf(key, "<prefix>%ld", i)].  Distinct numbers give distinct keys,
    and a numbered key differs from a fixed one that does not extend its
    prefix. *)
Definition numbered (prefix : string) (i : Z) : string := (prefix +:+ pretty i)%string.

Lemma string_app_inj_l s t u : (s +:+ t = s +:+ u)%string -> t = u.
Proof. induction s as [|a s IH]; cbn; [done|]. intros H. injection H. apply IH. Qed.

Lemma numbered_inj prefix i j : numbered prefix i = numbered prefix j -> i = j.
Proof. intros H%string_app_inj_l. by apply (inj pretty) in H. Qed.

Lemma numbered_ne prefix i j : i <> j -> numbered prefix i <> numbered prefix j.
Proof. by intros Hne ?%numbered_inj. Qed.

(** A decimal number is never empty, so a numbered key is not its prefix. *)
Lemma pretty_pos_length p : (1 <= String.length (pretty (N.pos p)))%nat.
Proof.
  unfold pretty, pretty_N. rewrite decide_False by done.
  rewrite pretty_N_go_step by done.
  etrans; [|apply pretty_N_go_length]. done.
Qed.

Lemma pretty_Z_nonempty (i : Z) : pretty i <> ""%string.
Proof.
  intros E. apply (f_equal String.length) in E. destruct i as [|p|p]; [done| |done].
  pose proof (pretty_pos_length p) as Hl.
  change (pretty (Z.pos p)) with (pretty (N.pos p)) in E. rewrite E in Hl. cbn in Hl. lia.
Qed.

Lemma numbered_extends prefix i : prefix <> numbered prefix i.
Proof.
  intros E. apply (pretty_Z_nonempty i), (string_app_inj_l prefix).
  unfold numbered in E. rewrite <- E. clear. symmetry.
  induction prefix as [|a s IH]; [done|]. exact (f_equal (String a) IH).
Qed.

(** Rewrite reads over writes, with the key disequalities at hand. *)
Create Rewrite HintDb evse_nvs.
#[export] Hint Rewrite @get_set_u32 @get_set_blob : evse_nvs.
#[export] Hint Rewrite @get_set_u32_other @get_set_blob_other @get_u32_set_blob
  @get_blob_set_u32 using (solve [auto]) : evse_nvs.

(** ** Numbered slots

    Both stores keep a sequence in the slots [1..count] of a namespace and
    delete by shifting down:
    [for (i = from; i < count; i++) slot[i] = slot[i + 1]], through a local
    buffer that keeps the last blob moved. *)
Section Slots.
Context {N B : Type} `{NvsLaws N B} (key : Z -> string).
Context (key_inj : forall i j, key i = key j -> i = j).

(** The loop indices [from, from + 1, ..., count - 1]. *)
Definition slot_range (from count : Z) : list Z :=
  map (fun k => from + Z.of_nat k) (seq 0 (Z.to_nat (count - from))).

Definition shift_step (s : N * B) (i : Z) : N * B :=
  let b := read_into (nvs_get_blob s.1 (key (i + 1))) s.2 in
  (nvs_set_blob s.1 (key i) b, b).

Definition shift_down (from count : Z) (s : N * B) : N * B :=
  foldl shift_step s (slot_range from count).

(** Slots [1..] of [n] hold the list [l]. *)
Definition slots (n : N) (l : list B) : Prop :=
  forall (i : nat) x, l !! i = Some x -> nvs_get_blob n (key (Z.of_nat i + 1)) = Some x.

(** Two stores agree away from the slots. *)
Definition agree_off (n n' : N) : Prop :=
  (forall k, (forall i, k <> key i) -> nvs_get_blob n' k = nvs_get_blob n k) /\
  (forall k, (forall i, k <> key i) -> nvs_get_u32 n' k = nvs_get_u32 n k).

Lemma agree_off_refl n : agree_off n n.
Proof. done. Qed.
Lemma agree_off_trans n1 n2 n3 : agree_off n1 n2 -> agree_off n2 n3 -> agree_off n1 n3.
Proof. intros [A1 A2] [B1 B2]. split; intros k Hk; [rewrite B1, A1 | rewrite B2, A2]; done. Qed.
Lemma agree_off_set n i b : agree_off n (nvs_set_blob n (key i) b).
Proof.
  split; intros k Hk; [rewrite get_set_blob_other | rewrite get_u32_set_blob]; auto.
Qed.

Lemma slot_range_cons from count :
  from < count -> slot_range from count = from :: slot_range (from + 1) count.
Proof.
  intros Hlt. unfold slot_range.
  replace (Z.to_nat (count - from)) with (S (Z.to_nat (count - (from + 1)))) by lia.
  cbn [seq map]. f_equal; [lia|]. rewrite <- seq_shift, map_map.
  apply map_ext. intros k. lia.
Qed.
Lemma slot_range_nil from count : count <= from -> slot_range from count = [].
Proof. intros Hle. unfold slot_range. by replace (Z.to_nat (count - from)) with 0%nat by lia. Qed.

Lemma slots_set n l i b :
  slots n l -> Z.of_nat (length l) = i -> slots (nvs_set_blob n (key (i + 1)) b) (l ++ [b]).
Proof.
  intros Hl <- j y Hj. apply lookup_app_Some in Hj as [Hj|[Hle Hj]].
  - rewrite get_set_blob_other; [by apply Hl|].
    apply lookup_lt_Some in Hj. intros E%key_inj. lia.
  - apply list_lookup_singleton_Some in Hj as [Hj ->].
    replace j with (length l) by lia. apply get_set_blob.
Qed.

Lemma slots_app_l n l k : slots n (l ++ k) -> slots n l.
Proof. intros Hs i x Hi. apply Hs. by apply lookup_app_l_Some. Qed.

Lemma last_indep (z : B) l b c : List.last (z :: l) b = List.last (z :: l) c.
Proof. revert z. induction l as [|y l IH]; intros z; [done|]. apply IH. Qed.

(** Deleting one element by the loop, starting at its slot. *)
Lemma shift_down_spec pre x post n b :
  slots n (pre ++ x :: post) ->
  let from := Z.of_nat (length pre) + 1 in
  let '(n', b') := shift_down from (from + Z.of_nat (length post)) (n, b) in
  slots n' (pre ++ post) /\ b' = List.last post b /\ agree_off n n'.
Proof.
  revert pre x n b. induction post as [|y post IH]; intros pre x n b Hs from.
  - unfold shift_down. rewrite slot_range_nil by (cbn; lia). cbn.
    split; [|split; [done|apply agree_off_refl]]. rewrite app_nil_r. by apply slots_app_l in Hs.
  - unfold shift_down. rewrite slot_range_cons by (cbn [length]; lia). cbn [foldl].
    assert (Hy : nvs_get_blob n (key (from + 1)) = Some y).
    { specialize (Hs (S (length pre)) y). subst from.
      replace (Z.of_nat (S (length pre)) + 1) with (Z.of_nat (length pre) + 1 + 1) in Hs by lia.
      apply Hs. rewrite lookup_app_r by lia.
      by replace (S (length pre) - length pre)%nat with 1%nat by lia. }
    unfold shift_step at 2. cbn [fst snd]. rewrite Hy. change (read_into (Some y) b) with y.
    set (n1 := nvs_set_blob n (key from) y).
    assert (Hs1 : slots n1 ((pre ++ [y]) ++ y :: post)).
    { intros j z Hj. subst n1. destruct (decide (j = length pre)) as [->|Hne].
      - rewrite <- app_assoc in Hj. rewrite lookup_app_r in Hj by lia.
        rewrite Nat.sub_diag in Hj. injection Hj as <-. apply get_set_blob.
      - rewrite get_set_blob_other by (intros E%key_inj; lia).
        apply Hs. rewrite <- app_assoc in Hj. destruct (decide (j < length pre)%nat).
        + rewrite lookup_app_l in * by lia. done.
        + rewrite lookup_app_r in * by lia.
          destruct (j - length pre)%nat eqn:E; [lia|]. cbn in *. done. }
    specialize (IH (pre ++ [y]) y n1 y Hs1). cbn zeta in IH.
    rewrite length_app in IH. cbn [length] in *.
    replace (Z.of_nat (length pre + 1) + 1) with (from + 1) in IH by lia.
    replace (from + Z.of_nat (S (length post))) with (from + 1 + Z.of_nat (length post)) by lia.
    unfold shift_down in IH.
    destruct (foldl shift_step (n1, y) _) as [n' b'].  cbv beta iota.
    destruct IH as (I1 & I2 & I3). rewrite <- app_assoc in I1. split; [done|]. split.
    + rewrite I2. destruct post as [|z post]; [done|].
      change (List.last (y :: z :: post) b) with (List.last (z :: post) b).
      apply last_indep.
    + eapply agree_off_trans; [|done]. apply agree_off_set.
Qed.
End Slots.
