(* ===== verification/OfflineStore.v ===== *)
(** * Offline transaction queue ([main/custom_nvs.c])

    Transactions finished while the charge point is offline are queued per
    connector in the "offlineData" namespace, at most 100 each, and replayed
    oldest first when the central system is reachable again.  A write to a
    full queue drops the oldest transaction. *)

From S2P Require Import Prelude Nvs.

Definition MAX_OFFLINE_TRANSACTIONS_FOR_CONNECTOR := 100.

(** [CONNECTOR1_OFFLINE_DATA_COUNT] etc. and the blob keys. *)
Definition count_key (id : cid) : string :=
  match id with
  | Conn0 => "" | Conn1 => "OData1count" | Conn2 => "OData2count" | Conn3 => "OData3count"
  end.
Definition data_prefix (id : cid) : string :=
  match id with
  | Conn0 => "Con0OffData" | Conn1 => "Con1OffData" | Conn2 => "Con2OffData"
  | Conn3 => "Con3OffData"
  end.
Definition data_key (id : cid) (i : Z) : string := numbered (data_prefix id) i.

Lemma data_key_inj id i j : data_key id i = data_key id j -> i = j.
Proof. apply numbered_inj. Qed.

Lemma data_key_other id id' i j : id <> id' -> data_key id i <> data_key id' j.
Proof. by destruct id, id'. Qed.

Lemma data_key_count id id' i : id' <> Conn0 -> data_key id i <> count_key id'.
Proof. by destruct id, id'. Qed.

Lemma count_key_inj id id' : count_key id = count_key id' -> id = id'.
Proof. by destruct id, id'. Qed.

Section OfflineStore.
(** [N] is the flash namespace, [B] is [ConnectorPrivateData_t]. *)
Context {N B : Type} `{NvsLaws N B}.

Record offline := mkOffline {
  flash : N;
  connectorsOfflineDataCount : cid -> Z;
  updatingOfflineData : cid -> bool;
  ConnectorOfflineData : cid -> B
}.
#[local] Instance offline_rebuild : Rebuild offline := fun s =>
  mkOffline (flash s) (connectorsOfflineDataCount s) (updatingOfflineData s)
    (ConnectorOfflineData s).

(** [nvs_get_u32(handle, CONNECTOR<id>_OFFLINE_DATA_COUNT, &count[id])]. *)
Definition load_count (id : cid) : cmd offline := fun s =>
  s <| connectorsOfflineDataCount := upd id
    (read_into (nvs_get_u32 (flash s) (count_key id)) (connectorsOfflineDataCount s id))
    (connectorsOfflineDataCount s) |>.
Definition store_count (id : cid) : cmd offline := fun s =>
  s <| flash := nvs_set_u32 (flash s) (count_key id) (connectorsOfflineDataCount s id) |>.
Definition set_count (id : cid) (f : Z -> Z) : cmd offline := fun s =>
  s <| connectorsOfflineDataCount :=
    upd id (f (connectorsOfflineDataCount s id)) (connectorsOfflineDataCount s) |>.

(** One connector of [custom_nvs_read_connectors_offline_data_count]. *)
Definition read_count (id : cid) : cmd offline :=
  IF fun s => match nvs_get_u32 (flash s) (count_key id) with Some _ => true | None => false end
  THEN
    load_count id ;;
    (fun s => s <| updatingOfflineData :=
       upd id (connectorsOfflineDataCount s id >? 0) (updatingOfflineData s) |>)
  ELSE fun s => s <| flash := nvs_set_u32 (flash s) (count_key id) 0 |> FI.

Definition custom_nvs_read_connectors_offline_data_count : cmd offline :=
  read_count Conn1 ;; read_count Conn2 ;; read_count Conn3.

(** Pop the oldest transaction into [ConnectorOfflineData[id]].  [junk] is
    the uninitialised local it is read into; [ConnectorOfflineData[id]]
    itself is the buffer of the shifting loop. *)
Definition custom_nvs_read_connectors_offline_data (id : cid) (junk : B) : cmd offline :=
  load_count id ;;
  WHEN fun s => connectorsOfflineDataCount s id >? 0 THEN
    withs (fun s =>
      let temp := read_into (nvs_get_blob (flash s) (data_key id 1)) junk in
      (fun s =>
         let '(n, b) := shift_down (data_key id) 1 (connectorsOfflineDataCount s id)
                          (flash s, ConnectorOfflineData s id) in
         s <| flash := n |> <| ConnectorOfflineData := upd id b (ConnectorOfflineData s) |>) ;;
      set_count id (fun k => u32 (k - 1)) ;;
      store_count id ;;
      (fun s => s <| ConnectorOfflineData := upd id temp (ConnectorOfflineData s) |>))
  FI.

(** Append [ConnectorData[id]], here [data]. *)
Definition custom_nvs_write_connectors_offline_data (id : cid) (data junk : B) : cmd offline :=
  IF fun s => match nvs_get_u32 (flash s) (count_key id) with Some _ => true | None => false end
  THEN load_count id ELSE set_count id (fun _ => 0) FI ;;
  WHEN fun s => connectorsOfflineDataCount s id >=? MAX_OFFLINE_TRANSACTIONS_FOR_CONNECTOR
  THEN
    custom_nvs_read_connectors_offline_data id junk ;;
    load_count id
  FI ;;
  set_count id (fun k => u32 (k + 1)) ;;
  (fun s => s <| flash := nvs_set_blob (flash s)
     (data_key id (connectorsOfflineDataCount s id)) data |>) ;;
  store_count id.

(** ** The queue abstraction *)

(** The flash image of queue [l] of connector [id]. *)
Definition holds (n : N) (id : cid) (l : list B) : Prop :=
  nvs_get_u32 n (count_key id) = Some (Z.of_nat (length l)) /\
  slots (data_key id) n l.

Definition bounded_push (l : list B) (d : B) : list B :=
  if Z.of_nat (length l) >=? MAX_OFFLINE_TRANSACTIONS_FOR_CONNECTOR
  then tail l ++ [d] else l ++ [d].

Lemma agree_off_holds n n' id id' l :
  id <> id' -> id' <> Conn0 -> agree_off (data_key id) n n' ->
  holds n id' l -> holds n' id' l.
Proof.
  intros Hne Hid [A1 A2] [H1 H2]. split.
  - rewrite A2; [done|]. intros i E. by apply (data_key_count id id' i).
  - intros i x Hi. rewrite A1; [by apply H2|]. intros j E.
    by apply (data_key_other id id' j (Z.of_nat i + 1)).
Qed.

Lemma holds_set_count n id id' v l :
  id <> id' -> id <> Conn0 -> id' <> Conn0 ->
  holds n id' l -> holds (nvs_set_u32 n (count_key id) v) id' l.
Proof.
  intros Hne Hid Hid' [H1 H2]. split.
  - rewrite get_set_u32_other; [done|]. by intros E%count_key_inj.
  - intros i x Hi. rewrite get_blob_set_u32; [by apply H2|].
    intros E. by apply (data_key_count id' id (Z.of_nat i + 1)).
Qed.

(** ** Each operation implements its queue operation *)

Lemma load_count_eq id s l :
  holds (flash s) id l ->
  load_count id s = s <| connectorsOfflineDataCount :=
    upd id (Z.of_nat (length l)) (connectorsOfflineDataCount s) |>.
Proof. intros [Hc _]. unfold load_count. by rewrite Hc. Qed.

(** Other connectors' queues and buffers are untouched. *)
Definition others_kept (id : cid) (s s' : offline) : Prop :=
  forall id', id' <> id -> id' <> Conn0 ->
    (forall l, holds (flash s) id' l -> holds (flash s') id' l) /\
    ConnectorOfflineData s' id' = ConnectorOfflineData s id'.

Lemma pop_spec id junk s x l :
  id <> Conn0 -> Z.of_nat (length l) < 2^31 -> holds (flash s) id (x :: l) ->
  let s' := custom_nvs_read_connectors_offline_data id junk s in
  holds (flash s') id l /\ ConnectorOfflineData s' id = x /\ others_kept id s s'.
Proof.
  intros Hid Hlen Hh. cbv zeta. unfold custom_nvs_read_connectors_offline_data.
  rewrite seqc_eq, (load_count_eq id s _ Hh). cbn [length].
  set (s1 := s <| connectorsOfflineDataCount := _ |>).
  rewrite whenc_eq, ifc_true by (subst s1; cbn; rewrite upd_same; lia).
  rewrite withs_eq. destruct Hh as [Hc Hs].
  assert (Hx : nvs_get_blob (flash s1) (data_key id 1) = Some x) by exact (Hs 0%nat x eq_refl).
  rewrite Hx. cbv zeta. rewrite seqc_eq. cbv beta.
  pose proof (shift_down_spec (data_key id) (data_key_inj id) [] x l (flash s)
    (ConnectorOfflineData s id) Hs) as Hsh.
  cbn [length app] in Hsh. cbv zeta in Hsh. change (Z.of_nat 0 + 1) with 1 in Hsh.
  replace (connectorsOfflineDataCount s1 id) with (1 + Z.of_nat (length l))
    by (subst s1; cbn; rewrite upd_same; lia).
  change (flash s1) with (flash s).
  change (ConnectorOfflineData s1) with (ConnectorOfflineData s).
  match goal with |- context [shift_down ?k ?a ?c ?st] =>
    destruct (shift_down k a c st) as [n b] end.
  destruct Hsh as (S1 & _ & S3).
  set (s2 := s1 <| flash := n |> <| ConnectorOfflineData := _ |>).
  rewrite !seqc_eq. unfold store_count, set_count. cbn. autorewrite with evse_upd.
  rewrite u32_small by lia.
  replace (Z.of_nat (S (length l)) - 1) with (Z.of_nat (length l)) by lia.
  split; [split|split; [done|]].
  - by rewrite get_set_u32.
  - intros i y Hy. rewrite get_blob_set_u32 by (apply not_eq_sym, data_key_count; done).
    by apply S1.
  - intros id' Hne Hid'. split.
    + intros l' Hl'. apply holds_set_count; [congruence..|].
      eapply (agree_off_holds _ _ id id'); [congruence | done | exact S3 | exact Hl'].
    + cbn. by autorewrite with evse_upd.
Qed.

Lemma pop_empty id junk s :
  id <> Conn0 -> holds (flash s) id [] ->
  let s' := custom_nvs_read_connectors_offline_data id junk s in
  flash s' = flash s /\ ConnectorOfflineData s' = ConnectorOfflineData s.
Proof.
  intros Hid Hh. cbv zeta. unfold custom_nvs_read_connectors_offline_data.
  rewrite seqc_eq, (load_count_eq id s _ Hh). cbn [length].
  rewrite whenc_eq, ifc_false by (cbn; rewrite upd_same; done). done.
Qed.

Lemma append_spec id data s l :
  id <> Conn0 -> Z.of_nat (length l) < 2^31 -> holds (flash s) id l ->
  connectorsOfflineDataCount s id = Z.of_nat (length l) ->
  let s' := (set_count id (fun k => u32 (k + 1)) ;;
    (fun s => s <| flash := nvs_set_blob (flash s)
       (data_key id (connectorsOfflineDataCount s id)) data |>) ;;
    store_count id) s in
  holds (flash s') id (l ++ [data]) /\ others_kept id s s'.
Proof.
  intros Hid Hlen [Hc Hs] Hn. cbv zeta. rewrite !seqc_eq. unfold store_count, set_count.
  cbn. autorewrite with evse_upd. rewrite Hn, u32_small by lia. split; [split|].
  - rewrite get_set_u32, length_app. cbn [length]. f_equal. lia.
  - intros i y Hy. rewrite get_blob_set_u32 by (apply not_eq_sym, data_key_count; done).
    by apply (slots_set (data_key id) (data_key_inj id) (flash s) l).
  - intros id' Hne Hid'. split; [|done].
    intros l' Hl'. apply holds_set_count; [congruence..|].
    eapply (agree_off_holds _ _ id id'); [congruence | done | apply agree_off_set | exact Hl'].
Qed.

Lemma push_spec id data junk s l :
  id <> Conn0 -> Z.of_nat (length l) <= MAX_OFFLINE_TRANSACTIONS_FOR_CONNECTOR ->
  holds (flash s) id l ->
  let s' := custom_nvs_write_connectors_offline_data id data junk s in
  holds (flash s') id (bounded_push l data) /\
  forall id', id' <> id -> id' <> Conn0 -> forall l',
    holds (flash s) id' l' -> holds (flash s') id' l'.
Proof.
  intros Hid Hlen Hh. cbv zeta. unfold custom_nvs_write_connectors_offline_data, bounded_push.
  unfold MAX_OFFLINE_TRANSACTIONS_FOR_CONNECTOR in *.
  rewrite seqc_if_true by (by rewrite (proj1 Hh)).
  rewrite seqc_eq, (load_count_eq id s _ Hh).
  set (s1 := s <| connectorsOfflineDataCount := _ |>).
  assert (Hc1 : connectorsOfflineDataCount s1 id = Z.of_nat (length l))
    by (subst s1; cbn; by rewrite upd_same).
  rewrite seqc_when. destruct (Z.of_nat (length l) >=? 100) eqn:E.
  - rewrite seqc_if_true by (by rewrite Hc1). rewrite seqc_assoc, seqc_eq.
    destruct l as [|x l]; [done|]. cbn [length] in *.
    destruct (pop_spec id junk s1 x l Hid ltac:(lia) Hh) as (P1 & P2 & P3).
    set (s2 := custom_nvs_read_connectors_offline_data id junk s1) in *. clearbody s2.
    rewrite seqc_eq, (load_count_eq id s2 _ P1).
    set (s3 := s2 <| connectorsOfflineDataCount := _ |>).
    destruct (append_spec id data s3 l Hid ltac:(lia) P1) as [A1 A2]; [exact (upd_same id _ _)|].
    split; [exact A1|]. intros id' Hne Hid' l' Hl'.
    apply A2; [done..|]. by apply P3.
  - rewrite seqc_if_false by (by rewrite Hc1). rewrite seqc_skip.
    destruct (append_spec id data s1 l Hid ltac:(lia) Hh Hc1) as [A1 A2].
    split; [exact A1|]. intros id' Hne Hid' l' Hl'. by apply A2.
Qed.

(** ** Refinement *)

Inductive op := Push (id : cid) (d : B) | Pop (id : cid).
Definition op_id (o : op) : cid := match o with Push id _ | Pop id => id end.

(** The specification: one bounded queue per connector; [Pop] answers the
    oldest element. *)
Definition queues := cid -> list B.
Definition spec_step (q : queues) (o : op) : queues * option B :=
  match o with
  | Push id d => (upd id (bounded_push (q id) d) q, None)
  | Pop id => (upd id (tail (q id)) q, head (q id))
  end.

(** The implementation; a caller reads [ConnectorOfflineData[id]] after a pop
    when the stored count was not zero. *)
Definition impl_step (junk : B) (s : offline) (o : op) : offline * option B :=
  match o with
  | Push id d => (custom_nvs_write_connectors_offline_data id d junk s, None)
  | Pop id =>
      let s' := custom_nvs_read_connectors_offline_data id junk s in
      (s', if read_into (nvs_get_u32 (flash s) (count_key id)) 0 >? 0
           then Some (ConnectorOfflineData s' id) else None)
  end.

Fixpoint run {S} (step : S -> op -> S * option B) (s : S) (os : list op) : S * list (option B) :=
  match os with
  | [] => (s, [])
  | o :: os => let '(s, r) := step s o in
               let '(s, rs) := run step s os in (s, r :: rs)
  end.

Definition represents (s : offline) (q : queues) : Prop :=
  forall id, id <> Conn0 -> holds (flash s) id (q id) /\
    Z.of_nat (length (q id)) <= MAX_OFFLINE_TRANSACTIONS_FOR_CONNECTOR.

Lemma bounded_push_length l d :
  Z.of_nat (length l) <= MAX_OFFLINE_TRANSACTIONS_FOR_CONNECTOR ->
  Z.of_nat (length (bounded_push l d)) <= MAX_OFFLINE_TRANSACTIONS_FOR_CONNECTOR.
Proof.
  unfold bounded_push, MAX_OFFLINE_TRANSACTIONS_FOR_CONNECTOR. intros Hl.
  if_split; bool_simpl; rewrite length_app; cbn [length]; [|lia].
  destruct l; cbn [tail length] in *; lia.
Qed.

Lemma step_refines junk s q o :
  op_id o <> Conn0 -> represents s q ->
  represents (impl_step junk s o).1 (spec_step q o).1 /\
  (impl_step junk s o).2 = (spec_step q o).2.
Proof.
  intros Hid Hr. destruct o as [id d|id]; cbn [op_id impl_step spec_step fst snd] in *.
  - split; [|done]. destruct (Hr id Hid) as [Hh Hl].
    destruct (push_spec id d junk s (q id) Hid Hl Hh) as [P1 P2].
    intros id' Hid'. destruct (decide (id' = id)) as [->|Hne].
    + rewrite upd_same. split; [done | by apply bounded_push_length].
    + rewrite upd_other by done. destruct (Hr id' Hid'). split; [by apply P2 | done].
  - destruct (Hr id Hid) as [Hh Hl]. rewrite (proj1 Hh).
    change (read_into (Some ?n) 0) with n. destruct (q id) as [|x l] eqn:E.
    + destruct (pop_empty id junk s Hid Hh) as [P1 P2]. split; [|done].
      intros id' Hid'. rewrite P1. destruct (Hr id' Hid').
      destruct (decide (id' = id)) as [->|Hne];
        [rewrite upd_same; by rewrite E in * | by rewrite upd_other].
    + cbn [length] in Hl. unfold MAX_OFFLINE_TRANSACTIONS_FOR_CONNECTOR in Hl.
      destruct (pop_spec id junk s x l Hid ltac:(lia) Hh) as (P1 & P2 & P3).
      rewrite P2. split; [|reflexivity].
      intros id' Hid'. destruct (decide (id' = id)) as [->|Hne].
      * rewrite upd_same. split; [done|]. unfold MAX_OFFLINE_TRANSACTIONS_FOR_CONNECTOR.
        cbn [tail]. lia.
      * rewrite upd_other by done. destruct (Hr id' Hid'). split; [by apply P3 | done].
Qed.

(** Claim C36.  The flash-backed store implements one bounded FIFO queue per
    connector: for every sequence of stores and replays, over any storage
    that satisfies the key-value laws, each replay returns the oldest stored
    transaction (nothing is lost, duplicated or reordered until 100 are
    waiting, then the oldest is dropped), and connectors do not interfere. *)
Theorem offline_queue_refinement junk os s q :
  represents s q -> Forall (fun o => op_id o <> Conn0) os ->
  represents (run (impl_step junk) s os).1 (run spec_step q os).1 /\
  (run (impl_step junk) s os).2 = (run spec_step q os).2.
Proof.
  revert s q. induction os as [|o os IH]; intros s q Hr Ho; [done|].
  inversion_clear Ho as [|? ? H1 H2]. cbn [run].
  destruct (step_refines junk s q o H1 Hr) as [R1 R2].
  destruct (impl_step junk s o) as [s1 r1], (spec_step q o) as [q1 r1'].
  cbn [fst snd] in R1, R2. subst r1'.
  destruct (IH s1 q1 R1 H2) as [I1 I2].
  destruct (run (impl_step junk) s1 os) as [s2 rs], (run spec_step q1 os) as [q2 rs'].
  cbn [fst snd] in *. subst. done.
Qed.

(** What boot may find for one connector: no counter yet, or a queue. *)
Definition bootable (s : offline) (q : queues) (id : cid) : Prop :=
  (nvs_get_u32 (flash s) (count_key id) = None /\ q id = []) \/ holds (flash s) id (q id).

Lemma read_count_spec id s l :
  id <> Conn0 ->
  (nvs_get_u32 (flash s) (count_key id) = None /\ l = []) \/ holds (flash s) id l ->
  let s' := read_count id s in
  holds (flash s') id l /\
  (forall id' l', id' <> id -> id' <> Conn0 ->
     (holds (flash s) id' l' -> holds (flash s') id' l') /\
     nvs_get_u32 (flash s') (count_key id') = nvs_get_u32 (flash s) (count_key id')).
Proof.
  intros Hid Hcase. cbv zeta. unfold read_count. destruct Hcase as [[Hn ->]|Hh].
  - rewrite ifc_false by (by rewrite Hn). cbn. split.
    + split; [by rewrite get_set_u32|]. intros i x Hi. by rewrite lookup_nil in Hi.
    + intros id' l' Hne Hid'. split; [intros Hl'; by apply holds_set_count; [congruence|..]|].
      rewrite get_set_u32_other; [done|]. by intros E%count_key_inj.
  - rewrite ifc_true by (by rewrite (proj1 Hh)). done.
Qed.

(** Boot: starting from blank storage or from whatever queues the
    previous run left, [custom_nvs_read_connectors_offline_data_count]
    establishes the representation the queue operations need, with the
    stored queues intact. *)
Theorem boot_establishes_queues s q :
  (forall id, id <> Conn0 -> bootable s q id /\
     Z.of_nat (length (q id)) <= MAX_OFFLINE_TRANSACTIONS_FOR_CONNECTOR) ->
  represents (custom_nvs_read_connectors_offline_data_count s) q.
Proof.
  intros H1. unfold custom_nvs_read_connectors_offline_data_count. rewrite !seqc_eq.
  destruct (read_count_spec Conn1 s (q Conn1) ltac:(done) (proj1 (H1 Conn1 ltac:(done))))
    as [A1 A2].
  set (s1 := read_count Conn1 s) in *.
  assert (B2 : bootable s1 q Conn2).
  { destruct (A2 Conn2 (q Conn2) ltac:(done) ltac:(done)) as [E1 E2].
    destruct (proj1 (H1 Conn2 ltac:(done))) as [[Hn Hq]|Hh];
      [left; by rewrite E2 | right; auto]. }
  destruct (read_count_spec Conn2 s1 (q Conn2) ltac:(done) B2) as [C1 C2].
  set (s2 := read_count Conn2 s1) in *.
  assert (B3 : bootable s2 q Conn3).
  { destruct (A2 Conn3 (q Conn3) ltac:(done) ltac:(done)) as [E1 E2].
    destruct (C2 Conn3 (q Conn3) ltac:(done) ltac:(done)) as [E3 E4].
    destruct (proj1 (H1 Conn3 ltac:(done))) as [[Hn Hq]|Hh];
      [left; by rewrite E4, E2 | right; auto]. }
  destruct (read_count_spec Conn3 s2 (q Conn3) ltac:(done) B3) as [D1 D2].
  intros id Hid. split; [|exact (proj2 (H1 id Hid))].
  destruct id; [done | | |done].
  - apply D2; [done..|]. by apply C2.
  - by apply D2.
Qed.
End OfflineStore.
Arguments op : clear implicits.

(** Witnesses, over the finite-map storage with numbers as transactions. *)
Definition blank : @offline (Flash Z) Z := mkOffline ∅ (fun _ => 7) (fun _ => false) (fun _ => 0).

Lemma boot_establishes_queues_witness :
  represents (custom_nvs_read_connectors_offline_data_count blank) (fun _ => []).
Proof.
  apply boot_establishes_queues. intros id Hid. split; [left; by destruct id | done].
Defined.

Lemma offline_queue_refinement_witness :
  (run (impl_step 99) (custom_nvs_read_connectors_offline_data_count blank)
     [Push Conn1 11; Push Conn2 21; Push Conn1 12; Pop Conn1; Pop Conn1; Pop Conn1; Pop Conn2]).2
  = [None; None; None; Some 11; Some 12; None; Some 21].
Proof.
  assert (H : represents (custom_nvs_read_connectors_offline_data_count blank) (fun _ => [])).
  { intros id Hid. split; [split|done]; [destruct id; [done|by vm_compute..]|].
    intros i x Hi. by rewrite lookup_nil in Hi. }
  refine (proj2 (offline_queue_refinement 99 _ _ (fun _ => []) H _)).
  repeat constructor; discriminate.
Defined.
