(* ===== verification/ProfileStore.v ===== *)
(** * Charging profile store ([main/custom_nvs.c])

    Smart-charging profiles received from the central system are kept in the
    "chargProfile" namespace as a numbered sequence of at most 1000 entries.
    The effective profile of a connector is the one with the highest stack
    level among those addressed to it. *)

From S2P Require Import Prelude Binary64 Nvs.

(** ** Data ([ocpp.h]) *)

Definition MAX_CHARGING_PROFILES := 1000.
Definition ChargePointMaxProfile := 1.
Definition TxDefaultProfile := 2.
Definition TxProfile := 3.
Definition Absolute := 1.
Definition Recurring := 2.
Definition Relative := 3.
Definition Daily := 1.
Definition Weekly := 2.
Definition chargingRateUnitAmpere := 1.
Definition chargingRateUnitWatt := 2.
Definition SchedulePeriodCount : nat := 20.

(** One [chargingSchedulePeriod]; [limit] is a [float]. *)
Record period := mkPeriod {
  schedulePresent : bool;
  startPeriod : Z;
  limit : b64;
  numberPhases : Z
}.

(** [ChargingProfiles_t], its nested structures flattened. *)
Record ChargingProfiles_t := mkProfile {
  connectorId : Z;
  chargingProfileId : Z;
  transactionId : Z;
  stackLevel : Z;
  chargingProfilePurpose : Z;
  chargingProfileKind : Z;
  recurrencyKind : Z;
  validFrom : Z;
  validTo : Z;
  duration : Z;
  startSchedule : Z;
  chargingRateUnit : Z;
  chargingSchedulePeriod : nat -> period;
  minChargingRate : b64
}.
#[export] Instance profile_rebuild : Rebuild ChargingProfiles_t := fun p =>
  mkProfile (connectorId p) (chargingProfileId p) (transactionId p) (stackLevel p)
    (chargingProfilePurpose p) (chargingProfileKind p) (recurrencyKind p) (validFrom p)
    (validTo p) (duration p) (startSchedule p) (chargingRateUnit p)
    (chargingSchedulePeriod p) (minChargingRate p).

(** [memset(&profile, 0, sizeof(profile))]. *)
Definition zero_period : period := mkPeriod false 0 (S754_zero false) 0.
Definition zero_profile : ChargingProfiles_t :=
  mkProfile 0 0 0 0 0 0 0 0 0 0 0 0 (fun _ => zero_period) (S754_zero false).

Definition CHARGING_PROGILE_COUNT : string := "cpcount".
Definition profile_key (i : Z) : string := numbered CHARGING_PROGILE_COUNT i.

Lemma profile_key_inj i j : profile_key i = profile_key j -> i = j.
Proof. apply numbered_inj. Qed.

Lemma profile_key_count i : CHARGING_PROGILE_COUNT <> profile_key i.
Proof. apply numbered_extends. Qed.

Section ProfileStore.
(** [N] is the flash namespace. *)
Context {N : Type} `{NvsLaws N ChargingProfiles_t}.

Record profiles := mkProfiles {
  pflash : N;
  ChargingProfileAddedOrDeleted : bool;
  ChargingProfile : cid -> ChargingProfiles_t;
  ChargePointMaxChargingProfile : cid -> ChargingProfiles_t
}.
#[local] Instance profiles_rebuild : Rebuild profiles := fun s =>
  mkProfiles (pflash s) (ChargingProfileAddedOrDeleted s) (ChargingProfile s)
    (ChargePointMaxChargingProfile s).

Definition custome_nvs_read_chargingProfilesCount (n : N) : Z :=
  read_into (nvs_get_u32 n CHARGING_PROGILE_COUNT) 0.

(** The parameter [ChargingProfile] of the C function is also the buffer of
    its shifting loop: [moved] is its value after the loop. *)
Definition custom_nvs_write_chargingProgile (ChargingProfile : ChargingProfiles_t)
    : cmd profiles := fun s =>
  let count := custome_nvs_read_chargingProfilesCount (pflash s) in
  let '(n, moved, count) :=
    if count >=? MAX_CHARGING_PROFILES then
      let '(n, moved) := shift_down profile_key 1 count (pflash s, ChargingProfile) in
      (n, moved, count)
    else (pflash s, ChargingProfile, u32 (count + 1)) in
  s <| pflash := nvs_set_u32 (nvs_set_blob n (profile_key count) moved)
                   CHARGING_PROGILE_COUNT count |>
    <| ChargingProfileAddedOrDeleted := true |>.

(** [custom_nvs_read_charging_profile]: [junk] is the uninitialised result
    returned when the slot is missing. *)
Definition custom_nvs_read_charging_profile (junk : ChargingProfiles_t) (n : N) (i : Z)
    : ChargingProfiles_t :=
  read_into (nvs_get_blob n (profile_key i)) junk.

(** The three selection functions differ in the purpose they accept:
    [None] accepts every purpose. *)
Definition eligible (purpose : option Z) (connId : cid) (p : ChargingProfiles_t) : bool :=
  ((connectorId p =? cid_to_Z connId) || (connectorId p =? 0)) &&
  match purpose with None => true | Some k => chargingProfilePurpose p =? k end.

Definition max_stack_level (purpose : option Z) (junk : ChargingProfiles_t) (n : N)
    (connId : cid) : ChargingProfiles_t :=
  let count := custome_nvs_read_chargingProfilesCount n in
  let '(_, at_) := foldl (fun '(MaxStackLevel, at_) i =>
      let p := custom_nvs_read_charging_profile junk n i in
      if eligible purpose connId p && (stackLevel p >? MaxStackLevel)
      then (stackLevel p, i) else (MaxStackLevel, at_))
    (0, 0) (slot_range 1 (count + 1)) in
  if at_ >? 0 then custom_nvs_read_charging_profile junk n at_ else zero_profile.

Definition custom_nvs_get_max_stack_level_charging_profile := max_stack_level None.
Definition custom_nvs_get_max_stack_level_TxDefault_charging_profile :=
  max_stack_level (Some TxDefaultProfile).
Definition custom_nvs_get_max_stack_level_ChargePointMax_charging_profile :=
  max_stack_level (Some ChargePointMaxProfile).

(** [custom_nvs_clear_chargingProfile]: the loop variable [i] advances even
    after a deletion, and the loop bound is the decremented count; [fuel]
    bounds the iterations (the initial count is enough).  [buf] is the local
    variable, the shifting buffer. *)
Fixpoint clear_loop (fuel : nat) (id i count : Z) (n : N) (changed : bool)
    (buf : ChargingProfiles_t) : N * bool :=
  match fuel with
  | O => (n, changed)
  | S fuel =>
      if i <=? count then
        let p := custom_nvs_read_charging_profile buf n i in
        if chargingProfileId p =? id then
          let '(n, b) := shift_down profile_key i count (n, p) in
          let n := nvs_set_u32 n CHARGING_PROGILE_COUNT (u32 (count - 1)) in
          clear_loop fuel id (i + 1) (count - 1) n true b
        else clear_loop fuel id (i + 1) count n changed p
      else (n, changed)
  end.

Definition custom_nvs_clear_chargingProfile (id : Z) : cmd profiles := fun s =>
  let count := custome_nvs_read_chargingProfilesCount (pflash s) in
  let '(n, changed) := clear_loop (Z.to_nat count) id 1 count (pflash s)
                         (ChargingProfileAddedOrDeleted s) zero_profile in
  s <| pflash := n |> <| ChargingProfileAddedOrDeleted := changed |>.

(** [set_ChargingProfiles], for one connector; [transaction] is
    [ConnectorData[connId].transactionId]. *)
Definition choose_profile (junk : ChargingProfiles_t) (transaction : Z) (n : N) (connId : cid)
    : ChargingProfiles_t :=
  let p := custom_nvs_get_max_stack_level_charging_profile junk n connId in
  let txdef := custom_nvs_get_max_stack_level_TxDefault_charging_profile junk n connId in
  let cpmax := custom_nvs_get_max_stack_level_ChargePointMax_charging_profile junk n connId in
  if (chargingProfilePurpose p =? TxProfile) && (transactionId p =? transaction) then p
  else if (chargingProfilePurpose p =? TxProfile) && negb (transactionId p =? transaction) then
    if stackLevel txdef >=? stackLevel cpmax then txdef else cpmax
  else p.

Definition set_ChargingProfiles (junk : ChargingProfiles_t) (transaction : cid -> Z)
    : cmd profiles :=
  foreach [Conn1; Conn2; Conn3] (fun connId s =>
    s <| ChargingProfile :=
      upd connId (choose_profile junk (transaction connId) (pflash s) connId)
        (ChargingProfile s) |>) ;;
  (fun s => s <| ChargingProfileAddedOrDeleted := false |>).

Definition set_ChargePointMaxChargingProfiles (junk : ChargingProfiles_t) : cmd profiles :=
  foreach [Conn1; Conn2; Conn3] (fun connId s =>
    s <| ChargePointMaxChargingProfile :=
      upd connId
        (custom_nvs_get_max_stack_level_ChargePointMax_charging_profile junk (pflash s) connId)
        (ChargePointMaxChargingProfile s) |>).

(** ** The list a namespace holds *)

Definition stored (n : N) (l : list ChargingProfiles_t) : Prop :=
  nvs_get_u32 n CHARGING_PROGILE_COUNT = Some (Z.of_nat (length l)) /\
  slots profile_key n l /\ Z.of_nat (length l) <= MAX_CHARGING_PROFILES.

Lemma stored_count n l :
  stored n l -> custome_nvs_read_chargingProfilesCount n = Z.of_nat (length l).
Proof. intros [Hc _]. unfold custome_nvs_read_chargingProfilesCount. by rewrite Hc. Qed.

Lemma stored_read n pre p post junk :
  stored n (pre ++ p :: post) ->
  custom_nvs_read_charging_profile junk n (Z.of_nat (length pre) + 1) = p.
Proof.
  intros (_ & Hs & _). unfold custom_nvs_read_charging_profile.
  rewrite (Hs (length pre) p); [done|]. by rewrite lookup_app_r, Nat.sub_diag by lia.
Qed.

Lemma slots_set_count n v l :
  slots profile_key n l -> slots profile_key (nvs_set_u32 n CHARGING_PROGILE_COUNT v) l.
Proof.
  intros Hs i x Hi. rewrite get_blob_set_u32; [by apply Hs|]. apply profile_key_count.
Qed.

(** What [custom_nvs_write_chargingProgile] makes of the list. *)
Definition written_list (l : list ChargingProfiles_t) (p : ChargingProfiles_t) :=
  if Z.of_nat (length l) >=? MAX_CHARGING_PROFILES
  then tail l ++ [List.last (tail l) p] else l ++ [p].

(** Storing a profile appends it while fewer than 1000 are
    stored.  At 1000 the oldest entry is dropped, but the entry appended is a
    second copy of the newest stored one: the profile passed in is lost. *)
Theorem write_profile_spec p s l :
  stored (pflash s) l ->
  stored (pflash (custom_nvs_write_chargingProgile p s)) (written_list l p) /\
  ChargingProfileAddedOrDeleted (custom_nvs_write_chargingProgile p s) = true.
Proof.
  intros Hst. unfold custom_nvs_write_chargingProgile, written_list.
  rewrite (stored_count _ _ Hst). destruct Hst as (Hc & Hs & Hle).
  unfold MAX_CHARGING_PROFILES in *.
  destruct (Z.of_nat (length l) >=? 1000) eqn:E.
  - destruct l as [|x post]; [done|]. cbn [length tail] in *.
    pose proof (shift_down_spec profile_key profile_key_inj [] x post (pflash s) p Hs) as Hsh.
    cbn [length app] in Hsh. cbv zeta in Hsh. change (Z.of_nat 0 + 1) with 1 in Hsh.
    replace (Z.of_nat (S (length post))) with (1 + Z.of_nat (length post)) by lia.
    destruct (shift_down profile_key 1 (1 + Z.of_nat (length post)) (pflash s, p)) as [n b].
    destruct Hsh as (S1 & -> & S3). split; [|done]. cbn [pflash update].
    split; [|split].
    + etrans; [apply get_set_u32|]. rewrite length_app. cbn [length]. f_equal. lia.
    + apply slots_set_count. rewrite Z.add_comm.
      by apply (slots_set profile_key profile_key_inj n post).
    + rewrite length_app. unfold MAX_CHARGING_PROFILES. cbn [length]. lia.
  - split; [|done]. rewrite u32_small by lia. split; [|split].
    + etrans; [apply get_set_u32|]. rewrite length_app. cbn [length]. f_equal. lia.
    + apply slots_set_count. by apply (slots_set profile_key profile_key_inj (pflash s) l).
    + rewrite length_app. unfold MAX_CHARGING_PROFILES. cbn [length]. lia.
Qed.

(** What [custom_nvs_clear_chargingProfile] makes of the list: the element
    after a deleted one is not examined. *)
Fixpoint clear_list (id : Z) (l : list ChargingProfiles_t) : list ChargingProfiles_t :=
  match l with
  | [] => []
  | x :: l =>
      if chargingProfileId x =? id then
        match l with [] => [] | y :: l => y :: clear_list id l end
      else x :: clear_list id l
  end.

Definition has_id (id : Z) (p : ChargingProfiles_t) : bool := chargingProfileId p =? id.

Lemma clear_loop_spec fuel id pre rest n changed buf :
  (length rest <= fuel)%nat -> stored n (pre ++ rest) ->
  let '(n', changed') := clear_loop fuel id (Z.of_nat (length pre) + 1)
                           (Z.of_nat (length (pre ++ rest))) n changed buf in
  stored n' (pre ++ clear_list id rest) /\ changed' = changed || existsb (has_id id) rest.
Proof.
  revert pre rest n changed buf. induction fuel as [|fuel IH]; intros pre rest n changed buf Hf Hst.
  { destruct rest; [|cbn in Hf; lia]. cbn. by rewrite orb_false_r. }
  cbn [clear_loop]. destruct rest as [|x rest].
  { rewrite app_nil_r in *. replace (_ <=? _) with false by lia. cbn.
    by rewrite app_nil_r, orb_false_r. }
  replace (_ <=? _) with true by (rewrite length_app; cbn [length]; lia).
  rewrite (stored_read n pre x rest buf Hst).
  cbn [clear_list existsb]. change (has_id id x) with (chargingProfileId x =? id).
  destruct (chargingProfileId x =? id) eqn:Ex.
  - destruct Hst as (Hc & Hs & Hle).
    pose proof (shift_down_spec profile_key profile_key_inj pre x rest n x Hs) as Hsh.
    cbv zeta in Hsh.
    replace (Z.of_nat (length pre) + 1 + Z.of_nat (length rest))
      with (Z.of_nat (length (pre ++ x :: rest))) in Hsh
      by (rewrite length_app; cbn [length]; lia).
    destruct (shift_down profile_key _ _ (n, x)) as [n1 b]. destruct Hsh as (S1 & _ & _).
    assert (Hlen : Z.of_nat (length (pre ++ x :: rest)) - 1 = Z.of_nat (length (pre ++ rest)))
      by (rewrite !length_app; cbn [length]; lia).
    rewrite Hlen. unfold MAX_CHARGING_PROFILES in Hle.
    rewrite u32_small by (rewrite length_app in *; cbn [length] in *; lia).
    set (n2 := nvs_set_u32 n1 _ _).
    assert (Hst2 : stored n2 (pre ++ rest)).
    { split; [apply get_set_u32 | split; [by apply slots_set_count|]].
      unfold MAX_CHARGING_PROFILES. rewrite length_app in *. cbn [length] in *. lia. }
    destruct rest as [|y rest].
    + specialize (IH pre [] n2 true b). clear -Hst2. rewrite app_nil_r in *.
      destruct fuel; cbn [clear_loop]; [by rewrite orb_true_r|].
      replace (_ <=? _) with false by lia. by rewrite orb_true_r.
    + specialize (IH (pre ++ [y]) rest n2 true b). rewrite <- app_assoc in IH.
      rewrite (length_app pre [y]) in IH. cbn [length] in IH, Hf.
      replace (Z.of_nat (length pre + 1) + 1) with (Z.of_nat (length pre) + 1 + 1) in IH by lia.
      specialize (IH ltac:(lia) Hst2). cbn [app] in IH.
      destruct (clear_loop fuel id _ _ n2 true b) as [n' c'].
      destruct IH as [I1 ->]. rewrite <- app_assoc in I1. split; [exact I1|].
      cbn. by rewrite !orb_true_r.
  - specialize (IH (pre ++ [x]) rest n changed x). rewrite <- app_assoc in IH.
    rewrite (length_app pre [x]) in IH. cbn [length] in IH, Hf.
    replace (Z.of_nat (length pre + 1) + 1) with (Z.of_nat (length pre) + 1 + 1) in IH by lia.
    specialize (IH ltac:(lia) Hst). cbn [app] in IH.
    destruct (clear_loop fuel id _ _ n changed x) as [n' c'].
    destruct IH as [I1 I2]. rewrite <- app_assoc in I1. by split.
Qed.

Lemma clear_list_filter id l :
  (forall pre x y post, l = pre ++ x :: y :: post ->
     ~ (chargingProfileId x = id /\ chargingProfileId y = id)) ->
  clear_list id l = List.filter (fun p => negb (has_id id p)) l.
Proof.
  induction l as [l IH] using (induction_ltof1 _ (@length ChargingProfiles_t)).
  intros Hadj. destruct l as [|x l]; [done|]. cbn [clear_list List.filter].
  change (has_id id x) with (chargingProfileId x =? id).
  destruct (chargingProfileId x =? id) eqn:Ex; cbn [negb].
  - destruct l as [|y l]; [done|]. cbn [List.filter].
    assert (Hy : has_id id y = false).
    { unfold has_id. apply Z.eqb_neq. intros Ey. apply (Hadj [] x y l eq_refl).
      split; [by apply Z.eqb_eq | done]. }
    rewrite Hy. cbn [negb]. f_equal. apply IH; [unfold ltof; cbn; lia|].
    intros pre a b post ->. exact (Hadj (x :: y :: pre) a b post eq_refl).
  - f_equal. apply IH; [unfold ltof; cbn; lia|].
    intros pre a b post ->. exact (Hadj (x :: pre) a b post eq_refl).
Qed.

(** Deleting by id terminates within the stored count and
    keeps the survivors in order; the change flag is raised exactly when a
    stored profile had the id.  All of them are deleted when no two
    neighbours share the id; of two neighbours that do, the second survives
    the pass. *)
Theorem clear_profile_spec id s l :
  stored (pflash s) l ->
  let s' := custom_nvs_clear_chargingProfile id s in
  stored (pflash s') (clear_list id l) /\
  ChargingProfileAddedOrDeleted s' =
    ChargingProfileAddedOrDeleted s || existsb (has_id id) l /\
  ((forall pre x y post, l = pre ++ x :: y :: post ->
      ~ (chargingProfileId x = id /\ chargingProfileId y = id)) ->
   stored (pflash s') (List.filter (fun p => negb (has_id id p)) l)) /\
  (forall x y post, l = x :: y :: post -> chargingProfileId x = id ->
     exists l', stored (pflash s') (y :: l')).
Proof.
  intros Hst. cbv zeta. unfold custom_nvs_clear_chargingProfile.
  rewrite (stored_count _ _ Hst).
  pose proof (clear_loop_spec (Z.to_nat (Z.of_nat (length l))) id [] l (pflash s)
    (ChargingProfileAddedOrDeleted s) zero_profile ltac:(lia) Hst) as Hl.
  cbn [length app] in Hl. change (Z.of_nat 0 + 1) with 1 in Hl.
  destruct (clear_loop _ id 1 _ _ _ _) as [n' c']. destruct Hl as [L1 ->].
  split; [exact L1|]. split; [done|]. split.
  - intros Hadj. rewrite <- (clear_list_filter id l Hadj). exact L1.
  - intros x y post -> Hx. exists (clear_list id post).
    cbn [clear_list] in L1. apply Z.eqb_eq in Hx. rewrite Hx in L1. exact L1.
Qed.

(** The running maximum over the profiles read so far. *)
Definition best_of (purpose : option Z) (connId : cid) (pre : list ChargingProfiles_t)
    (M at_ : Z) : Prop :=
  (at_ = 0 /\ M = 0 /\
     Forall (fun q => eligible purpose connId q = true -> stackLevel q <= 0) pre) \/
  exists p1 r p2, pre = p1 ++ r :: p2 /\ at_ = Z.of_nat (length p1) + 1 /\
    M = stackLevel r /\ 0 < M /\ eligible purpose connId r = true /\
    Forall (fun q => eligible purpose connId q = true -> stackLevel q < M) p1 /\
    Forall (fun q => eligible purpose connId q = true -> stackLevel q <= M) p2.

Lemma best_of_step purpose connId pre M at_ p :
  best_of purpose connId pre M at_ ->
  let upd_ := eligible purpose connId p && (stackLevel p >? M) in
  best_of purpose connId (pre ++ [p]) (if upd_ then stackLevel p else M)
    (if upd_ then Z.of_nat (length pre) + 1 else at_).
Proof.
  intros Hb. cbv zeta. destruct (eligible purpose connId p) eqn:E1; cbn [andb];
    [destruct (stackLevel p >? M) eqn:E2; bool_simpl|].
  - right. exists pre, p, []. split_and!; try done.
    + destruct Hb as [(_ & -> & _)|(p1 & r & p2 & _ & _ & _ & ? & _)]; lia.
    + destruct Hb as [(_ & -> & Hf)|(p1 & r & p2 & -> & _ & -> & ? & _ & F1 & F2)].
      * eapply Forall_impl; [|exact Hf]. cbn. intros q Hq Hel. specialize (Hq Hel). lia.
      * apply Forall_app_2; [eapply Forall_impl; [|exact F1]; cbn; intros q Hq Hel;
          specialize (Hq Hel); lia|].
        constructor; [intros; lia|]. eapply Forall_impl; [|exact F2]. cbn.
        intros q Hq Hel. specialize (Hq Hel). lia.
  - destruct Hb as [(-> & -> & Hf)|(p1 & r & p2 & -> & -> & -> & H3 & H4 & F1 & F2)].
    + left. split_and!; try done. apply Forall_app_2; [done|]. constructor; [intros; lia | done].
    + right. exists p1, r, (p2 ++ [p]). rewrite <- app_assoc. split_and!; try done.
      apply Forall_app_2; [done|]. constructor; [intros; lia | done].
  - destruct Hb as [(-> & -> & Hf)|(p1 & r & p2 & -> & -> & -> & H3 & H4 & F1 & F2)].
    + left. split_and!; try done. apply Forall_app_2; [done|].
      constructor; [intros; congruence | done].
    + right. exists p1, r, (p2 ++ [p]). rewrite <- app_assoc. split_and!; try done.
      apply Forall_app_2; [done|]. constructor; [intros; congruence | done].
Qed.

Lemma scan_spec purpose connId junk n pre rest M at_ :
  stored n (pre ++ rest) -> best_of purpose connId pre M at_ ->
  let '(M', at') := foldl (fun '(MaxStackLevel, at_) i =>
      let p := custom_nvs_read_charging_profile junk n i in
      if eligible purpose connId p && (stackLevel p >? MaxStackLevel)
      then (stackLevel p, i) else (MaxStackLevel, at_))
    (M, at_) (slot_range (Z.of_nat (length pre) + 1) (Z.of_nat (length (pre ++ rest)) + 1)) in
  best_of purpose connId (pre ++ rest) M' at'.
Proof.
  revert pre M at_. induction rest as [|p rest IH]; intros pre M at_ Hst Hb.
  - rewrite app_nil_r, slot_range_nil by lia. done.
  - rewrite slot_range_cons by (rewrite length_app; cbn [length]; lia). cbn [foldl].
    rewrite (stored_read n pre p rest junk Hst).
    pose proof (best_of_step purpose connId pre M at_ p Hb) as Hb'. cbv zeta in Hb' |- *.
    specialize (IH (pre ++ [p])). rewrite <- app_assoc in IH. cbn [app] in IH.
    rewrite (length_app pre [p]) in IH. cbn [length] in IH.
    replace (Z.of_nat (length pre + 1) + 1) with (Z.of_nat (length pre) + 1 + 1) in IH by lia.
    destruct (eligible purpose connId p && (stackLevel p >? M)); apply (IH _ _ Hst Hb').
Qed.

(** Profile selection: the effective profile of a connector is
    the first one with the highest stack level among the stored profiles
    addressed to it (of the given purpose), provided that level is positive;
    with no such profile, and in particular when every candidate sits at
    level 0, the answer is the all-zero profile.  The slots' content alone
    decides: the uninitialised result variable never shows. *)
Theorem max_stack_level_spec purpose junk n connId l :
  stored n l ->
  let r := max_stack_level purpose junk n connId in
  (r = zero_profile /\
     Forall (fun q => eligible purpose connId q = true -> stackLevel q <= 0) l) \/
  (exists p1 p2, l = p1 ++ r :: p2 /\ eligible purpose connId r = true /\ 0 < stackLevel r /\
     Forall (fun q => eligible purpose connId q = true -> stackLevel q < stackLevel r) p1 /\
     Forall (fun q => eligible purpose connId q = true -> stackLevel q <= stackLevel r) p2).
Proof.
  intros Hst. cbv zeta. unfold max_stack_level. rewrite (stored_count _ _ Hst).
  pose proof (scan_spec purpose connId junk n [] l 0 0 Hst
    (or_introl (conj eq_refl (conj eq_refl (Forall_nil_2 _))))) as Hs.
  cbn [length app] in Hs. change (Z.of_nat 0 + 1) with 1 in Hs.
  destruct (foldl _ (0, 0) _) as [M at_].
  destruct Hs as [(-> & -> & Hf)|(p1 & r & p2 & -> & -> & -> & H3 & H4 & F1 & F2)].
  - left. done.
  - right. exists p1, p2. replace (_ >? 0) with true by lia.
    rewrite (stored_read n p1 r p2 junk Hst). done.
Qed.
End ProfileStore.

(** Witnesses: a store with three profiles. *)
Definition profile_at (id conn level purpose : Z) : ChargingProfiles_t :=
  zero_profile <| chargingProfileId := id |> <| connectorId := conn |> <| stackLevel := level |>
    <| chargingProfilePurpose := purpose |>.

Definition three_profiles : list ChargingProfiles_t :=
  [profile_at 5 1 2 TxDefaultProfile; profile_at 5 0 7 TxProfile; profile_at 6 1 7 TxProfile].

Definition profile_flash : Flash ChargingProfiles_t :=
  {[ CHARGING_PROGILE_COUNT := inl 3;
     profile_key 1 := inr (profile_at 5 1 2 TxDefaultProfile);
     profile_key 2 := inr (profile_at 5 0 7 TxProfile);
     profile_key 3 := inr (profile_at 6 1 7 TxProfile) ]}.

Definition witness_profiles : profiles :=
  mkProfiles profile_flash false (fun _ => zero_profile) (fun _ => zero_profile).

Lemma profile_flash_stored : stored profile_flash three_profiles.
Proof.
  split; [reflexivity | split; [|done]].
  intros i x Hi. do 3 (destruct i as [|i]; [injection Hi as <-; reflexivity|]). done.
Qed.

Lemma write_profile_spec_witness :
  stored (pflash (custom_nvs_write_chargingProgile (profile_at 9 1 1 TxProfile) witness_profiles))
    (three_profiles ++ [profile_at 9 1 1 TxProfile]).
Proof. exact (proj1 (write_profile_spec _ witness_profiles _ profile_flash_stored)). Defined.

Lemma clear_profile_spec_witness :
  exists l', stored (pflash (custom_nvs_clear_chargingProfile 5 witness_profiles))
    (profile_at 5 0 7 TxProfile :: l').
Proof.
  destruct (clear_profile_spec 5 witness_profiles _ profile_flash_stored) as (_ & _ & _ & H).
  exact (H _ _ _ eq_refl eq_refl).
Defined.

Lemma max_stack_level_spec_witness :
  0 < stackLevel (max_stack_level None zero_profile profile_flash Conn1).
Proof.
  destruct (max_stack_level_spec None zero_profile profile_flash Conn1 _ profile_flash_stored)
    as [[_ Hf] | (p1 & p2 & _ & _ & Hp & _)]; [|exact Hp].
  unfold three_profiles in Hf. inversion_clear Hf as [|? ? H1 _]. specialize (H1 eq_refl).
  cbn in H1. lia.
Defined.
