(* ===== verification/SmartCharging.v ===== *)
(** * Smart charging ([smartChargingTask] and [changeDutyCycle],
    [main/ocpp_task.c])

    Periodically, for each connector, the effective charging profile (see
    [ProfileStore]) is turned into the schedule period in force, that period's
    limit into one of the eight duty cycles, and the duty cycle into the
    control-pilot configuration (see [ControlPilot]) unless a transaction is
    running. *)

From S2P Require Import Prelude Binary64 Config Nvs ProfileStore FaultGpios SlaveLink ControlPilot.

(** ** The period in force *)

(** [NumOfChargingSchedulePeriodsPresent]: the periods are present up to the
    first absent one. *)
Fixpoint count_periods (sched : nat -> period) (i fuel : nat) : nat :=
  match fuel with
  | O => 0
  | S fuel => if schedulePresent (sched i) then S (count_periods sched (S i) fuel) else 0
  end.

Definition periods_present (p : ChargingProfiles_t) : nat :=
  count_periods (chargingSchedulePeriod p) 0 SchedulePeriodCount.

(** [for (i = 0; i < n - 1; i++) if (elapsed in [start[i], start[i+1])) break;]
    [SchedulePeriodToBeUsed] is 0 when no window matches. *)
Fixpoint find_period (sched : nat -> period) (elapsed : Z) (i fuel : nat) : nat :=
  match fuel with
  | O => 0
  | S fuel =>
      if (elapsed >=? startPeriod (sched i)) && (elapsed <? startPeriod (sched (S i)))
      then i else find_period sched elapsed (S i) fuel
  end.

(** [None]: with no period present, [chargingSchedulePeriod[n - 1]] is indexed
    by [2^32 - 1]. *)
Definition SchedulePeriodToBeUsed (p : ChargingProfiles_t) (elapsed : Z) : option nat :=
  let sched := chargingSchedulePeriod p in
  match periods_present p with
  | O => None
  | S O => Some 0%nat
  | S last =>
      if elapsed >=? startPeriod (sched last) then Some last
      else Some (find_period sched elapsed 0 last)
  end.

(** [timeElapsed]; [meter_start] is the parsed start time of the ongoing
    transaction.  Subtractions are on [uint32_t]. *)
Definition timeElapsed (p : ChargingProfiles_t) (now : Z) (ongoing : bool) (meter_start : Z) : Z :=
  if chargingProfileKind p =? Absolute then
    let startTime :=
      if startSchedule p >? 0 then startSchedule p
      else if ongoing then meter_start else now in
    u32 (now - startTime)
  else if chargingProfileKind p =? Recurring then
    if recurrencyKind p =? Daily then now mod 86400 else now mod 604800
  else if ongoing then u32 (now - meter_start)
  else 0.

(** ** From the limit to a duty cycle *)

Definition duty_of_current (currentLimit : b64) : Z :=
  if fgeb currentLimit (f_of_Z 64) then 89
  else if fgeb currentLimit (f_of_Z 50) then 83
  else if fgeb currentLimit (f_of_Z 40) then 66
  else if fgeb currentLimit (f_of_Z 32) then 53
  else if fgeb currentLimit (f_of_Z 25) then 41
  else if fgeb currentLimit (f_of_Z 20) then 33
  else if fgeb currentLimit (f_of_Z 16) then 26
  else 16.

Definition three_phase (c : Config_t) : bool := Ac11s c || Ac22s c || Ac44s c.

(** [powerLimit / 3.0] is computed in double and stored in a [float]. *)
Definition per_phase_power (c : Config_t) (powerLimit : b64) : b64 :=
  if three_phase c then to_b32 (fdiv powerLimit (f_of_Z 3)) else powerLimit.

Definition duty_of_power (powerLimit : b64) : Z :=
  if fgeb powerLimit (f_of_Z 14719) then 53
  else if fgeb powerLimit (f_of_Z 11499) then 53
  else if fgeb powerLimit (f_of_Z 9199) then 53
  else if fgeb powerLimit (f_of_Z 7359) then 53
  else if fgeb powerLimit (f_of_Z 5749) then 41
  else if fgeb powerLimit (f_of_Z 4599) then 33
  else if fgeb powerLimit (f_of_Z 3679) then 26
  else 16.

Definition duty_of_profile (c : Config_t) (p : ChargingProfiles_t) (k : nat) : Z :=
  let lim := limit (chargingSchedulePeriod p k) in
  if chargingRateUnit p =? chargingRateUnitAmpere then duty_of_current lim
  else duty_of_power (per_phase_power c lim).

(** ** The task *)

Section SmartCharging.
Context {N : Type} `{NvsLaws N ChargingProfiles_t}.

(** The globals the task shares: the configuration, the profile store, the
    duty to set, the pilot.  [crashed] records an out-of-range index. *)
Record smart := mkSmart {
  sconfig : Config_t;
  store : @profiles N;
  cpDutyCycleToSet : cid -> Z;
  spilot : pilot;
  crashed : bool
}.
#[local] Instance smart_rebuild : Rebuild smart := fun s =>
  mkSmart (sconfig s) (store s) (cpDutyCycleToSet s) (spilot s) (crashed s).

(** What one pass observes: the clock, the connectors' transactions, and
    the slave's acknowledgements while the pilot is reconfigured. *)
Record observed := mkObserved {
  current_time_sec : Z;
  isTransactionOngoing : cid -> bool;
  meterStart_time : cid -> Z;
  transaction : cid -> Z;
  cp_enabled : cid -> bool;
  slave_flag : nat -> bool;
  junk : ChargingProfiles_t
}.

Definition changeDutyCycle (o : observed) (connId : cid) : cmd smart :=
  (fun s => s <| sconfig := (sconfig s)
     <| cpDuty := upd connId (cpDutyCycleToSet s connId) (cpDuty (sconfig s)) |> |>) ;;
  (fun s => s <| spilot :=
     updateCpConfig (sconfig s) (cp_enabled o) (slave_flag o) (spilot s) |>) ;;
  (fun s => s <| spilot :=
     SetControlPilotDuty (sconfig s) (cpDuty (sconfig s) connId) (spilot s) |>).

(** The body for one connector.  The arrays [current_chargingProfileId] and
    [current_chargingSchedulePeriod] are never assigned, so the guard
    comparing with them is [id <> 0 || period <> 100]. *)
Definition smart_connector (o : observed) (connId : cid) : cmd smart :=
  withs (fun s0 =>
    let p := ChargingProfile (store s0) connId in
    WHEN fun _ => (chargingProfileId p >? 0) && (chargingProfileKind p >? 0) THEN
      WHEN fun _ => (validFrom p >? 0) && (validTo p >? 0)
                    && (current_time_sec o >=? validTo p) THEN
        update store (custom_nvs_clear_chargingProfile (chargingProfileId p)) FI ;;
      WHEN fun s => negb (ChargingProfileAddedOrDeleted (store s)) THEN
        let elapsed := timeElapsed p (current_time_sec o)
                         (isTransactionOngoing o connId) (meterStart_time o connId) in
        match SchedulePeriodToBeUsed p elapsed with
        | None => fun s => s <| crashed := true |>
        | Some k =>
            WHEN fun _ => negb (chargingProfileId p =? 0) || negb (Z.of_nat k =? 100) THEN
              (fun s => s <| cpDutyCycleToSet :=
                 upd connId (duty_of_profile (sconfig s) p k) (cpDutyCycleToSet s) |>) ;;
              WHEN fun s => negb (isTransactionOngoing o connId)
                && negb (cpDuty (sconfig s) connId =? cpDutyCycleToSet s connId) THEN
                changeDutyCycle o connId FI
            FI
        end
      FI
    FI).

(** One pass of the [while (true)] loop. *)
Definition smart_pass (o : observed) : cmd smart :=
  WHEN fun s => ChargingProfileAddedOrDeleted (store s) THEN
    update store (set_ChargingProfiles (junk o) (transaction o)) FI ;;
  withs (fun s =>
    foreach (connectors_upto (NumberOfConnectors (sconfig s))) (smart_connector o)).

(** The default profile the task stores for a connector without one; the
    fields the source leaves uninitialised come from [garbage]. *)
Definition default_profile (garbage : ChargingProfiles_t) (connId : cid) : ChargingProfiles_t :=
  garbage <| connectorId := cid_to_Z connId |> <| chargingProfileId := cid_to_Z connId |>
    <| stackLevel := 0 |> <| chargingProfilePurpose := ChargePointMaxProfile |>
    <| chargingProfileKind := Relative |> <| chargingRateUnit := chargingRateUnitAmpere |>
    <| chargingSchedulePeriod := fun k =>
         match k with
         | O => mkPeriod true 0 (f_of_Z 17) (numberPhases (chargingSchedulePeriod garbage 0))
         | _ => chargingSchedulePeriod garbage k
         end |>.

Definition smart_start (o : observed) : cmd smart :=
  withs (fun s =>
    foreach (connectors_upto (NumberOfConnectors (sconfig s))) (fun c s =>
      s <| cpDutyCycleToSet := upd c (cpDuty (sconfig s) c) (cpDutyCycleToSet s) |>)) ;;
  update store (set_ChargingProfiles (junk o) (transaction o)) ;;
  withs (fun s =>
    foreach (connectors_upto (NumberOfConnectors (sconfig s))) (fun c =>
      WHEN fun s => chargingProfileId (ChargingProfile (store s) c) =? 0 THEN
        update store (custom_nvs_write_chargingProgile (default_profile (junk o) c)) FI)).
End SmartCharging.

(** ** Properties *)

Definition nominal (i : nat) : b64 := f_of_Z (nth i cpDutyCycleCurrent 0).

(** [i] is the greatest entry [th] admits for [x], entry 0 being the default. *)
Definition greatest_entry (th : nat -> b64) (last : nat) (x : b64) (i : nat) : Prop :=
  (i <= last)%nat /\ (i = 0%nat \/ fgeb x (th i) = true) /\
  forall j, (i < j <= last)%nat -> fgeb x (th j) = false.

(** Claim C39.  Current limits: whatever the requested limit (NaN included),
    the duty set is an entry of the duty table, its nominal current does not
    exceed the limit unless it is the 10 A minimum, and it is the largest such
    entry; a larger limit never gives a smaller duty.  Below 10 A the limit is
    therefore not honoured. *)
Theorem current_limit_respected lim :
  (exists i, duty_of_current lim = nth i cpDutyCycle 0 /\
     greatest_entry nominal 7 lim i) /\
  (forall lim', fleb lim lim' = true -> duty_of_current lim <= duty_of_current lim').
Proof.
  split.
  - assert (Hmono : forall a b, fleb (f_of_Z a) (f_of_Z b) = true ->
      fgeb lim (f_of_Z a) = false -> fgeb lim (f_of_Z b) = false).
    { intros a b Hab Ha. apply not_true_iff_false. intros Hb. rewrite <- not_true_iff_false in Ha.
      apply Ha. exact (fleb_trans _ _ _ Hab Hb). }
    unfold duty_of_current, greatest_entry, nominal.
    repeat match goal with
      | |- context [if fgeb lim (f_of_Z ?k) then _ else _] =>
          destruct (fgeb lim (f_of_Z k)) eqn:?
      end;
      [exists 7%nat | exists 6%nat | exists 5%nat | exists 4%nat | exists 3%nat | exists 2%nat
       | exists 1%nat | exists 0%nat].
    all: split; [done|]; split; [lia|]; split; [first [by left | by right]|]; intros j Hj.
    all: do 8 (destruct j as [|j]; [try lia; done|]); lia.
  - intros lim' Hle. unfold duty_of_current.
    repeat match goal with
      | |- context [if fgeb ?x (f_of_Z ?k) then _ else _] =>
          let E := fresh "E" in destruct (fgeb x (f_of_Z k)) eqn:E;
          [try (lazymatch x with lim =>
             pose proof (fleb_trans _ _ _ E Hle : fgeb lim' (f_of_Z k) = true) end) |]
      end; first [vm_compute; discriminate | unfold fgeb in *; congruence].
Qed.

(** The power thresholds: 230 V times the nominal current, less one watt. *)
Definition power_threshold (i : nat) : b64 :=
  f_of_Z (230 * nth i cpDutyCycleCurrent 0 - 1).

(** Power limits: the duty set is the largest of the first five
    table entries (at most 32 A) whose nominal power at 230 V exceeds the
    per-phase limit by at most one watt, or the 10 A minimum. *)
Theorem power_limit_respected lim :
  exists i, duty_of_power lim = nth i cpDutyCycle 0 /\
    greatest_entry power_threshold 4 lim i.
Proof.
  assert (Hmono : forall a b, fleb (f_of_Z a) (f_of_Z b) = true ->
    fgeb lim (f_of_Z b) = true -> fgeb lim (f_of_Z a) = true).
  { intros a b Hab Hb. exact (fleb_trans _ _ _ Hab Hb). }
  pose proof (Hmono 11499 14719 eq_refl). pose proof (Hmono 9199 11499 eq_refl).
  pose proof (Hmono 7359 9199 eq_refl).
  unfold duty_of_power, greatest_entry, power_threshold.
  destruct (fgeb lim (f_of_Z 7359)) eqn:E0.
  - exists 4%nat. split; [by repeat if_split|].
    split; [lia|]. split; [by right|]. intros j Hj. lia.
  - destruct (fgeb lim (f_of_Z 14719)), (fgeb lim (f_of_Z 11499)), (fgeb lim (f_of_Z 9199));
      try (exfalso; intuition discriminate).
    repeat match goal with
      | |- context [if fgeb lim (f_of_Z ?k) then _ else _] =>
          destruct (fgeb lim (f_of_Z k)) eqn:?
      end;
      [exists 3%nat | exists 2%nat | exists 1%nat | exists 0%nat].
    all: split; [done|]; split; [lia|]; split; [first [by left | by right]|]; intros j Hj.
    all: do 5 (destruct j as [|j]; [try lia; done|]); lia.
Qed.

Lemma current_limit_respected_witness :
  exists i, duty_of_current (dec 245 1) = nth i cpDutyCycle 0 /\
    greatest_entry nominal 7 (dec 245 1) i.
Proof. exact (proj1 (current_limit_respected (dec 245 1))). Defined.

Lemma count_periods_spec sched i fuel :
  (forall j, (i <= j < i + count_periods sched i fuel)%nat -> schedulePresent (sched j) = true) /\
  (count_periods sched i fuel <= fuel)%nat.
Proof.
  revert i. induction fuel as [|fuel IH]; intros i; cbn; [split; [lia | done]|].
  destruct (schedulePresent (sched i)) eqn:E; [|split; lia].
  destruct (IH (S i)) as [I1 I2]. split; [|lia].
  intros j Hj. destruct (decide (j = i)) as [->|]; [done|]. apply I1. lia.
Qed.

Lemma find_period_spec sched elapsed i fuel :
  startPeriod (sched i) <= elapsed < startPeriod (sched (i + fuel)%nat) ->
  let k := find_period sched elapsed i fuel in
  (i <= k < i + fuel)%nat /\
  startPeriod (sched k) <= elapsed < startPeriod (sched (S k)).
Proof.
  revert i. induction fuel as [|fuel IH]; intros i He; cbn zeta.
  - rewrite Nat.add_0_r in He. lia.
  - cbn [find_period]. destruct (_ && _) eqn:E.
    + bool_simpl. split; lia.
    + replace (i + S fuel)%nat with (S i + fuel)%nat in He by lia.
      destruct (IH (S i)) as [I1 I2]; [lia|]. split; [lia | done].
Qed.

Lemma no_period p :
  periods_present p = 0%nat <-> schedulePresent (chargingSchedulePeriod p 0%nat) = false.
Proof.
  assert (H : periods_present p = if schedulePresent (chargingSchedulePeriod p 0%nat)
    then S (count_periods (chargingSchedulePeriod p) 1 19) else 0%nat) by reflexivity.
  rewrite H. by destruct (schedulePresent _).
Qed.

(** The schedule period in force: for a profile whose [n >= 1]
    present periods start at 0, the selected index is a present period that
    contains the elapsed time (the last one is open-ended); when the starts
    increase it is the only such period.  A profile with no period present is
    the only case without a selection (the source then indexes the array at
    [2^32 - 1]). *)
Theorem period_in_force p elapsed :
  let sched := chargingSchedulePeriod p in
  let n := periods_present p in
  (SchedulePeriodToBeUsed p elapsed = None <-> schedulePresent (sched 0%nat) = false) /\
  (startPeriod (sched 0%nat) = 0 -> 0 <= elapsed ->
   forall k, SchedulePeriodToBeUsed p elapsed = Some k ->
     (k < n <= 20)%nat /\ schedulePresent (sched k) = true /\
     startPeriod (sched k) <= elapsed /\
     ((S k < n)%nat -> elapsed < startPeriod (sched (S k))) /\
     ((forall i j, (i < j < n)%nat -> startPeriod (sched i) < startPeriod (sched j)) ->
      forall j, (j < n)%nat -> startPeriod (sched j) <= elapsed ->
        ((S j < n)%nat -> elapsed < startPeriod (sched (S j))) -> j = k)).
Proof.
  cbv zeta.
  destruct (count_periods_spec (chargingSchedulePeriod p) 0 SchedulePeriodCount) as [Hp Hle].
  fold (periods_present p) in Hp, Hle. change SchedulePeriodCount with 20%nat in Hle. split.
  - rewrite <- no_period. unfold SchedulePeriodToBeUsed.
    destruct (periods_present p) as [|[|last]]; [done..|]. by if_split.
  - intros H0 He k Hk.
    assert (Hsel : (k < periods_present p)%nat /\ startPeriod (chargingSchedulePeriod p k) <= elapsed /\
      ((S k < periods_present p)%nat -> elapsed < startPeriod (chargingSchedulePeriod p (S k)))).
    { unfold SchedulePeriodToBeUsed in Hk. destruct (periods_present p) as [|[|last]]; [done| |].
      - injection Hk as <-. split_and!; lia.
      - destruct (elapsed >=? _) eqn:E; apply (inj Some) in Hk; subst k; bool_simpl; [split_and!; lia|].
        pose proof (find_period_spec (chargingSchedulePeriod p) elapsed 0 (S last)) as Hf.
        cbn [Nat.add] in Hf. destruct Hf as [F1 F2]; [lia|]. split_and!; lia. }
    destruct Hsel as (S1 & S2 & S3). split_and!; [lia|done|apply Hp; lia|done|done|].
    intros Hinc j Hj Hje Hjn.
    destruct (Nat.lt_trichotomy j k) as [Hlt|[->|Hgt]]; [|done|].
    + exfalso. specialize (Hjn ltac:(lia)). destruct (decide (S j = k)) as [<-|]; [lia|].
      specialize (Hinc (S j) k ltac:(lia)). lia.
    + exfalso. specialize (S3 ltac:(lia)). destruct (decide (S k = j)) as [<-|]; [lia|].
      specialize (Hinc (S k) j ltac:(lia)). lia.
Qed.

Definition night_profile : ChargingProfiles_t :=
  zero_profile <| chargingProfileId := 4 |> <| chargingProfileKind := Recurring |>
    <| recurrencyKind := Daily |> <| chargingRateUnit := chargingRateUnitAmpere |>
    <| chargingSchedulePeriod := fun k =>
         match k with
         | O => mkPeriod true 0 (f_of_Z 32) 1
         | S O => mkPeriod true 21600 (f_of_Z 16) 1
         | S (S O) => mkPeriod true 79200 (f_of_Z 32) 1
         | _ => zero_period
         end |>.

Lemma period_in_force_witness :
  startPeriod (chargingSchedulePeriod night_profile 1) <= 30000.
Proof.
  destruct (period_in_force night_profile 30000) as [_ H].
  destruct (H eq_refl ltac:(lia) 1%nat eq_refl) as (_ & _ & H1 & _). exact H1.
Defined.

Section SmartProperties.
Context {N : Type} `{NvsLaws N ChargingProfiles_t}.
Implicit Types (s : @smart N) (o : observed).

(** The elapsed time a pass computes for a connector. *)
Definition elapsed_of (o : observed) (connId : cid) (p : ChargingProfiles_t) : Z :=
  timeElapsed p (current_time_sec o) (isTransactionOngoing o connId) (meterStart_time o connId).

Definition expired (o : observed) (p : ChargingProfiles_t) : bool :=
  (validFrom p >? 0) && (validTo p >? 0) && (current_time_sec o >=? validTo p).

(** Applying a profile: while a transaction runs on the
    connector its duty cycle is never touched; otherwise an active,
    unexpired profile with a selected period leaves the connector at exactly
    the duty of that period's limit.  Other connectors keep their duty, and
    an expired profile is deleted from the store, after which the duty is
    left alone until the effective profiles are recomputed. *)
Theorem smart_connector_spec o connId s :
  let p := ChargingProfile (store s) connId in
  let active := (chargingProfileId p >? 0) && (chargingProfileKind p >? 0) in
  let s' := smart_connector o connId s in
  (isTransactionOngoing o connId = true -> sconfig s' = sconfig s /\ spilot s' = spilot s) /\
  (forall k, active = true -> isTransactionOngoing o connId = false -> expired o p = false ->
     ChargingProfileAddedOrDeleted (store s) = false ->
     SchedulePeriodToBeUsed p (elapsed_of o connId p) = Some k ->
     cpDuty (sconfig s') connId = duty_of_profile (sconfig s) p k /\
     crashed s' = crashed s) /\
  (forall d, d <> connId -> cpDuty (sconfig s') d = cpDuty (sconfig s) d) /\
  (active = true -> expired o p = true ->
     store s' = custom_nvs_clear_chargingProfile (chargingProfileId p) (store s)) /\
  (ChargingProfileAddedOrDeleted (store s') = true -> sconfig s' = sconfig s).
Proof.
  cbv zeta. set (p := ChargingProfile (store s) connId).
  set (active := (_ >? _) && (_ >? _)).
  remember (smart_connector o connId s) as s' eqn:Hs. revert Hs.
  unfold smart_connector. rewrite withs_eq. cbv zeta. fold p. fold (elapsed_of o connId p).
  unfold changeDutyCycle.
  change (fun _ : smart => (validFrom p >? 0) && (validTo p >? 0) && (current_time_sec o >=? validTo p))
    with (fun _ : @smart N => expired o p).
  change (fun _ : smart => (chargingProfileId p >? 0) && (chargingProfileKind p >? 0))
    with (fun _ : @smart N => active).
  destruct (SchedulePeriodToBeUsed p (elapsed_of o connId p)) as [k|]; symexec;
    intros ->; cbn in *; bool_simpl; (split_and!; intros; cbn in *;
      autorewrite with evse_upd in *); try congruence; try done.
  all: match goal with H : Some ?a = Some ?b |- _ => assert (a = b) by congruence; subst b end.
  all: split; [|done]; try done; try lia.
Qed.
End SmartProperties.

(** Witness: the night profile at 08:20 UTC lowers an idle connector to 16 A. *)
Definition witness_smart : @smart (Flash ChargingProfiles_t) :=
  mkSmart (ac1_32A <| NumberOfConnectors := 1 |>)
    (mkProfiles ∅ false (fun _ => night_profile) (fun _ => zero_profile))
    (fun _ => 53) witness_pilot false.

Definition witness_observed : observed :=
  mkObserved 30000 (fun _ => false) (fun _ => 0) (fun _ => 0) (fun _ => false)
    (fun _ => false) zero_profile.

Lemma smart_connector_spec_witness :
  cpDuty (sconfig (smart_connector witness_observed Conn1 witness_smart)) Conn1 = 26.
Proof.
  destruct (smart_connector_spec witness_observed Conn1 witness_smart) as (_ & H & _).
  destruct (H 1%nat eq_refl eq_refl eq_refl eq_refl eq_refl) as [-> _]. reflexivity.
Defined.
