(* ===== verification/Session.v ===== *)
(** * Charging session state machine ([main/ocpp_task.c])

    [ConnectorTask] runs once a second for every connector and steps its
    session through idle, authentication, start, charge and stop.  The
    handlers share the globals of the RFID reader, the remote and ALPR
    authorisations and the fault inputs, which the other tasks write; what a
    connector owns is its own record, what all of them share is another.

    A call to another component (a message handed to the OCPP queue, a flash
    write, a relay or pilot command, a display bit) is an event appended to
    the trace, carrying the data it is called with.  The arrays indexed by
    connector are fields of the connector's record; the [static] locals of a
    handler are fields named after it. *)

From S2P Require Import Prelude Binary64 Config EnergyMeter ControlPilot.

(** ** Data ([ocpp_task.h], [ocpp.h]) *)

(** [enum EvseDevStatuse], the values [taskState] takes in these handlers. *)
Inductive EvseDevStatuse :=
  | flag_EVSE_initialisation
  | flag_EVSE_is_Booted
  | flag_EVSE_Read_Id_Tag
  | falg_EVSE_Authentication
  | flag_EVSE_Start_Transaction
  | flag_EVSE_Request_Charge
  | flag_EVSE_Stop_Transaction
  | flag_EVSE_UnAutharized
  | flag_EVSE_Reboot_Request
  | flag_EVSE_Reserve_Now
  | flag_EVSE_Cancle_Reservation
  | flag_EVSE_Local_Authantication.

#[export] Instance EvseDevStatuse_eq_dec : EqDecision EvseDevStatuse.
Proof. solve_decision. Defined.

(** [stopReasons_t], kept in a [uint8_t] field. *)
Definition Stop_EmergencyStop := 0.
Definition Stop_EVDisconnected := 1.
Definition Stop_HardReset := 2.
Definition Stop_Local := 3.
Definition Stop_Other := 4.
Definition Stop_PowerLoss := 5.
Definition Stop_Reboot := 6.
Definition Stop_Remote := 7.
Definition Stop_SoftReset := 8.
Definition Stop_UnlockCommand := 9.
Definition Stop_DeAuthorized := 10.

(** The [ledStates_t] values the stop handler sets. *)
Definition FINISHING_LED_STATE := 12.
Definition OFFLINE_FINISHING_LED_STATE := 13.
Definition ONLINE_ONLY_FINISHING_LED_STATE := 31.
Definition ONLINE_ONLY_OFFLINE_FINISHING_LED_STATE := 32.
Definition OFFLINE_ONLY_FINISHING_LED_STATE := 45.

Definition STATUS_TIMEOUT := 60.
Definition START_TRANSACTION_TIMEOUT := 120.
Definition MeterValueSampleTime := 5.
(** [10000000.0] *)
Definition METER_VALUE_RESET : b64 := f_of_Z 10000000.

Record Reserved_t := mkReserved {
  rs_idTag : string;
  rs_expiryDate : string;
  rs_parentidTag : string;
  rs_reservationId : Z
}.

Record ConnectorPrivateData_t := mkConnectorData {
  isTransactionOngoing : bool;
  offlineStarted : bool;
  isReserved : bool;
  CmsAvailableScheduled : bool;
  CmsAvailable : bool;
  CmsAvailableChanged : bool;
  UnkownId : bool;
  InvalidId : bool;
  idTag : string;
  state : Z;
  stopReason : Z;
  transactionId : Z;
  chargingDuration : Z;
  meterStart : b64;
  meterStop : b64;
  meterValue : MeterValues_t;
  Energy : b64;
  ReservedData : Reserved_t;
  meterStart_time : string;
  meterStop_time : string;
  meterValueFault : MeterValues_t
}.
#[export] Instance ConnectorPrivateData_rebuild : Rebuild ConnectorPrivateData_t := fun d =>
  mkConnectorData (isTransactionOngoing d) (offlineStarted d) (isReserved d)
    (CmsAvailableScheduled d) (CmsAvailable d) (CmsAvailableChanged d) (UnkownId d)
    (InvalidId d) (idTag d) (state d) (stopReason d) (transactionId d) (chargingDuration d)
    (meterStart d) (meterStop d) (meterValue d) (Energy d) (ReservedData d)
    (meterStart_time d) (meterStop_time d) (meterValueFault d).

Record MeterValueAlignedData_t := mkAligned {
  al_temp : Z;
  al_voltage : cid -> b64;
  al_current : cid -> b64;
  al_power : b64;
  al_Energy : b64
}.
#[export] Instance MeterValueAlignedData_rebuild : Rebuild MeterValueAlignedData_t := fun a =>
  mkAligned (al_temp a) (al_voltage a) (al_current a) (al_power a) (al_Energy a).

(** [memset(&MeterValueAlignedData[connId], 0, ...)]. *)
Definition zeroed_aligned : MeterValueAlignedData_t :=
  mkAligned 0 (fun _ => S754_zero false) (fun _ => S754_zero false)
    (S754_zero false) (S754_zero false).

(** The text of a sampled value, before formatting: empty, ["%.2lf"] of a
    double or ["%u"] of an integer. *)
Inductive sampled := Unset | Fmt_2lf (x : b64) | Fmt_u (n : Z).

Record CPMeterValuesRequest_t := mkMeterReq {
  mv_Sent : bool;
  mv_connectorId : Z;
  mv_transactionId : Z;
  mv_context1 : string;   (* [sampledValue[1].context] *)
  mv_timestamp : string;
  mv_sampledValue : list sampled
}.
#[export] Instance CPMeterValuesRequest_rebuild : Rebuild CPMeterValuesRequest_t := fun r =>
  mkMeterReq (mv_Sent r) (mv_connectorId r) (mv_transactionId r) (mv_context1 r)
    (mv_timestamp r) (mv_sampledValue r).

Record CPStartTransactionRequest_t := mkStartReq {
  st_Sent : bool;
  st_UniqId : Z;
  st_connectorId : Z;
  st_idTag : string;
  st_meterStart : Z;
  st_reservationIdPresent : bool;
  st_timestamp : string
}.
#[export] Instance CPStartTransactionRequest_rebuild : Rebuild CPStartTransactionRequest_t := fun r =>
  mkStartReq (st_Sent r) (st_UniqId r) (st_connectorId r) (st_idTag r) (st_meterStart r)
    (st_reservationIdPresent r) (st_timestamp r).

Record CPStopTransactionRequest_t := mkStopReq {
  sp_Sent : bool;
  sp_UniqId : Z;
  sp_idTag : string;
  sp_meterStop : Z;
  sp_timestamp : string;
  sp_transactionId : Z;
  sp_reason : string
}.
#[export] Instance CPStopTransactionRequest_rebuild : Rebuild CPStopTransactionRequest_t := fun r =>
  mkStopReq (sp_Sent r) (sp_UniqId r) (sp_idTag r) (sp_meterStop r) (sp_timestamp r)
    (sp_transactionId r) (sp_reason r).

Record CPStatusNotificationRequest_t := mkStatusReq {
  sn_Sent : bool;
  sn_UniqId : Z;
  sn_connectorId : Z;
  sn_errorCode : string;
  sn_status : string;
  sn_timestamp : string;
  sn_vendorErrorCode : string
}.
#[export] Instance CPStatusNotificationRequest_rebuild : Rebuild CPStatusNotificationRequest_t := fun r =>
  mkStatusReq (sn_Sent r) (sn_UniqId r) (sn_connectorId r) (sn_errorCode r) (sn_status r)
    (sn_timestamp r) (sn_vendorErrorCode r).

(** [CMSStartTransactionResponse_t]: the fields the handler reads. *)
Record CMSStartTransactionResponse_t := mkStartResp {
  sr_Received : bool;
  sr_status : string;   (* [idtaginfo.status] *)
  sr_transactionId : Z
}.
#[export] Instance CMSStartTransactionResponse_rebuild : Rebuild CMSStartTransactionResponse_t := fun r =>
  mkStartResp (sr_Received r) (sr_status r) (sr_transactionId r).

(** [CPGetConfigurationResponse]: the keys the handlers consult. *)
Record OcppConfig := mkOcppConfig {
  ClockAlignedDataInterval : Z;
  ConnectionTimeOut : Z;
  MeterValueSampleInterval : Z;
  TransactionMessageAttempts : Z;
  TransactionMessageRetryInterval : Z;
  MaxEnergyOnInvalidId : Z;
  StopTransactionOnInvalidId : bool
}.

(** The display bits the handlers raise. *)
Inductive display_bit :=
  | ChargerFaultBit | ChargerUnAvailableBit | ChargerReservedBit
  | ChargerAvailableBit | ChargerEvPluggedTapRfidBit | ChargerFinishingdBit
  | ChargerSuspendedBit | ChargerChargingBit.

(** The display bits of the authorisation, for the whole charge point. *)
Inductive auth_bit :=
  | ChargerRfidTappedBit | ChargerAuthSuccessPlugEvBit | ChargerAuthSuccessBit | ChargerAuthFailedBit.

(** Calls into the other components, in the order they are made. *)
Inductive event :=
  | EvStartTransaction (r : CPStartTransactionRequest_t)
  | EvStopTransaction (r : CPStopTransactionRequest_t)
  | EvMeterValues (connId : cid) (r : CPMeterValuesRequest_t) (context : string)
  | EvStatusNotification (r : CPStatusNotificationRequest_t)
  | EvWriteConnectorData (connId : cid) (d : ConnectorPrivateData_t)
  | EvWriteOfflineData (connId : cid) (d : ConnectorPrivateData_t)
  | EvSlaveUpdateRelay (connId : cid) (on : bool)
  | EvUpdateRelayState (connId : cid) (on : bool)
  | EvSlaveSetControlPilotDuty (connId : cid) (duty : Z)
  | EvSetControlPilotDuty (duty : Z)
  | EvUpdateCpConfig (cpDuty : cid -> Z)
  | EvDisplay (connId : cid) (b : display_bit)
  | EvAuthorize (UniqId : Z) (tag : string)
  | EvWriteAuthorizationCache (l : list (string * bool))
  | EvAuthDisplay (b : auth_bit)
  | EvRemoteStartResponse (connId : cid) (status : string)
  | EvChangeAvailabilityResponse (connId : cid) (status : string)
  | EvReserveNowResponse (connId : cid) (status : string)
  | EvLCD_DisplayReinit
  | EvSlaveSetLedColor (led color : Z)
  | EvBootNotification
  | EvClearRestartReason
  | EvHeartbeat
  | EvFirmwareStatus
  | EvDiagnosticsStatus
  | EvRemoteStopResponse
  | EvCancelReservationResponse (status : string)
  | EvTriggerMessageResponse (status : string)
  | EvClearCacheResponse (status : string)
  | EvResetResponse (status : string)
  | EvUpdateFirmwareResponse
  | EvUpdateFirmware
  | EvSetClock (currentTime : string)
  | EvWriteTimeBuffer (time : string)
  | EvUploadLogs.

(** ** State *)

(** Globals all the tasks share. *)
Record shared := mkShared {
  config : Config_t;
  CPGetConfigurationResponse : OcppConfig;
  clock : string;   (* what [getTimeInOcppFormat] formats now *)
  randomNumber : Z;
  isWebsocketConnected : bool;
  isWebsocketBooted : bool;
  emergencyButton : bool;
  earthDisconnectButton : bool;
  gfciButton : bool;
  relayWeldDetectionButton : bool;
  FirmwareUpdateStarted : bool;
  ClockAlignedDataTime : bool;
  newRfidRead : bool;
  rfidTagNumberbuf : string;
  rfidMatchingWithLocalList : bool;
  rfidAuthenticated : bool;
  RemoteAuthenticated : bool;
  RemoteAuthorizeConnId : Z;
  AlprAuthenticated : bool;
  AlprAuthorizeConnId : Z;
  AuthenticationProcessed : bool;
  isRfidTappedFirst : bool;
  processRfidForConnector : cid -> bool;
  ConnectorData0 : ConnectorPrivateData_t;   (* [ConnectorData[0]] *)
  trace : list event   (* latest first *)
}.
#[export] Instance shared_rebuild : Rebuild shared := fun g =>
  mkShared (config g) (CPGetConfigurationResponse g) (clock g) (randomNumber g)
    (isWebsocketConnected g) (isWebsocketBooted g) (emergencyButton g)
    (earthDisconnectButton g) (gfciButton g) (relayWeldDetectionButton g)
    (FirmwareUpdateStarted g) (ClockAlignedDataTime g) (newRfidRead g)
    (rfidTagNumberbuf g) (rfidMatchingWithLocalList g) (rfidAuthenticated g)
    (RemoteAuthenticated g) (RemoteAuthorizeConnId g) (AlprAuthenticated g)
    (AlprAuthorizeConnId g) (AuthenticationProcessed g) (isRfidTappedFirst g)
    (processRfidForConnector g) (ConnectorData0 g) (trace g).

(** The cells of one connector. *)
Record conn := mkConn {
  taskState : EvseDevStatuse;
  cpState : Z;
  cpEnable : bool;
  PushButtonEnabled : bool;
  PushButton : bool;
  relayState : bool;
  connectorFault : bool;
  MeterFaults : MeterFaults_t;
  meter_now : MeterValues_t;   (* what [readEnrgyMeter(connId)] returns now *)
  ConnectorData : ConnectorPrivateData_t;
  ConnectorOfflineData : ConnectorPrivateData_t;
  cpDutyCycleToSet : Z;
  updatingDataToCms : bool;
  rfidReceivedFromRemote : bool;
  CPAuthorizeRequest_Sent : bool;
  CMSAuthorizeResponse_Received : bool;
  CPRemoteStartTransactionResponse_Sent : bool;
  CPStartTransactionRequest : CPStartTransactionRequest_t;
  CMSStartTransactionResponse : CMSStartTransactionResponse_t;
  CPStopTransactionRequest : CPStopTransactionRequest_t;
  CMSStopTransactionResponse_Received : bool;
  CPMeterValuesRequest : CPMeterValuesRequest_t;
  CMSMeterValuesResponse_Received : bool;
  CPStatusNotificationRequest : CPStatusNotificationRequest_t;
  isConnectorCharging : bool;
  finishingStatusSent : bool;
  finishingStatusPending : bool;
  connectorChargingStatusSent : bool;
  ChargingSuspendedTimeCount : Z;
  ChargingFaultTimeCount : Z;
  ledState : Z;
  MeterValueAlignedData : MeterValueAlignedData_t;
  ClockAlignedDataCount : Z;
  AuthenticationTimeout : Z;
  start_timeout : Z;
  start_retryCount : Z;
  stop_timeout : Z;
  stop_retryCount : Z;
  charge_timeout : Z;
  charge_loopCount : Z
}.
#[export] Instance conn_rebuild : Rebuild conn := fun m =>
  mkConn (taskState m) (cpState m) (cpEnable m) (PushButtonEnabled m) (PushButton m)
    (relayState m) (connectorFault m) (MeterFaults m) (meter_now m) (ConnectorData m)
    (ConnectorOfflineData m) (cpDutyCycleToSet m) (updatingDataToCms m)
    (rfidReceivedFromRemote m) (CPAuthorizeRequest_Sent m)
    (CMSAuthorizeResponse_Received m) (CPRemoteStartTransactionResponse_Sent m)
    (CPStartTransactionRequest m) (CMSStartTransactionResponse m)
    (CPStopTransactionRequest m) (CMSStopTransactionResponse_Received m)
    (CPMeterValuesRequest m) (CMSMeterValuesResponse_Received m)
    (CPStatusNotificationRequest m) (isConnectorCharging m) (finishingStatusSent m)
    (finishingStatusPending m) (connectorChargingStatusSent m)
    (ChargingSuspendedTimeCount m) (ChargingFaultTimeCount m) (ledState m)
    (MeterValueAlignedData m) (ClockAlignedDataCount m) (AuthenticationTimeout m)
    (start_timeout m) (start_retryCount m) (stop_timeout m) (stop_retryCount m)
    (charge_timeout m) (charge_loopCount m).

(** What one run of a connector's task reads and writes. *)
Record session := mkSession { glob : shared; me : conn }.
#[export] Instance session_rebuild : Rebuild session := fun s => mkSession (glob s) (me s).

(** ** Statements *)

Definition setg (f : shared -> shared) : cmd session := fun s => update glob f s.
Definition setm (f : conn -> conn) : cmd session := fun s => update me f s.
Definition setd (f : ConnectorPrivateData_t -> ConnectorPrivateData_t) : cmd session :=
  setm (fun m => m <| ConnectorData := f (ConnectorData m) |>).
Definition goto (t : EvseDevStatuse) : cmd session := setm (fun m => m <| taskState := t |>).
Definition emit (e : session -> event) : cmd session := fun s =>
  setg (fun g => g <| trace := e s :: trace g |>) s.

(** [memcpy(dst, src, strlen(src))] onto a C string: the bytes of [dst] past
    the copy stay. *)
Fixpoint memcpy_str (src dst : string) : string :=
  match src, dst with
  | EmptyString, _ => dst
  | String a src, EmptyString => String a (memcpy_str src EmptyString)
  | String a src, String _ dst => String a (memcpy_str src dst)
  end.

(** [memcmp(s, p, strlen(p)) == 0] on a zero-terminated buffer. *)
Definition starts_with (p s : string) : bool := String.prefix p s.

(** Wrap to [int]. *)
Definition i32 (z : Z) : Z := (z + 2147483648) mod 4294967296 - 2147483648.

(** [isWebsocketConnected && isWebsocketBooted]. *)
Definition online_now (s : session) : bool :=
  isWebsocketConnected (glob s) && isWebsocketBooted (glob s).

Definition cp_is (x : Z) (s : session) : bool := cpState (me s) =? x.
Definition ev_plugged (s : session) : bool := cp_is STATE_B1 s || cp_is STATE_E2 s.

Arguments setg f s /.
Arguments setm f s /.
Arguments setd f s /.
Arguments goto t s /.
Arguments emit e s /.
Arguments online_now s /.
Arguments cp_is x s /.
Arguments ev_plugged s /.

(** [for (i = from; i <= config.NumberOfConnectors; i++)
    processRfidForConnector[i] = false]. *)
Definition clear_rfid (from0 : bool) : cmd session :=
  withs (fun s => foreach
    ((if from0 then [Conn0] else []) ++ connectors_upto (NumberOfConnectors (config (glob s))))
    (fun i => setg (fun g => g <| processRfidForConnector :=
                                 upd i false (processRfidForConnector g) |>))).

(** ** Requests to the central system ([ocpp.c])

    The JSON text is built by the cJSON library from the request record; a
    sender hands the record to the outgoing queue, marks it sent and forgets
    the previous response. *)

Definition next_id : cmd session :=
  setg (fun g => g <| randomNumber := (randomNumber g + 1) mod 18446744073709551616 |>).

Definition sendStartTransactionRequest : cmd session :=
  withs (fun s => setm (fun m => m <| CPStartTransactionRequest :=
    (CPStartTransactionRequest m) <| st_UniqId := randomNumber (glob s) |> |>)) ;;
  next_id ;;
  emit (fun s => EvStartTransaction (CPStartTransactionRequest (me s))) ;;
  setm (fun m => m
    <| CPStartTransactionRequest := (CPStartTransactionRequest m) <| st_Sent := true |> |>
    <| CMSStartTransactionResponse :=
         (CMSStartTransactionResponse m) <| sr_Received := false |> |>).

Definition sendStopTransactionRequest : cmd session :=
  withs (fun s => setm (fun m => m <| CPStopTransactionRequest :=
    (CPStopTransactionRequest m) <| sp_UniqId := randomNumber (glob s) |> |>)) ;;
  next_id ;;
  emit (fun s => EvStopTransaction (CPStopTransactionRequest (me s))) ;;
  setm (fun m => m
    <| CPStopTransactionRequest := (CPStopTransactionRequest m) <| sp_Sent := true |> |>
    <| CMSStopTransactionResponse_Received := false |>).

Definition sendStatusNotificationRequest : cmd session :=
  withs (fun s => setm (fun m => m <| CPStatusNotificationRequest :=
    (CPStatusNotificationRequest m) <| sn_UniqId := randomNumber (glob s) |> |>)) ;;
  next_id ;;
  emit (fun s => EvStatusNotification (CPStatusNotificationRequest (me s))) ;;
  setm (fun m => m <| CPStatusNotificationRequest :=
    (CPStatusNotificationRequest m) <| sn_Sent := true |> |>).

Definition sendMeterValuesRequest (connId : cid) (context : string) : cmd session :=
  next_id ;;
  emit (fun s => EvMeterValues connId (CPMeterValuesRequest (me s)) context) ;;
  setm (fun m => m
    <| CPMeterValuesRequest := (CPMeterValuesRequest m) <| mv_Sent := true |> |>
    <| CMSMeterValuesResponse_Received := false |>).

(** ** Helpers *)

Definition custom_nvs_write_connector_data (connId : cid) : cmd session :=
  emit (fun s => EvWriteConnectorData connId (ConnectorData (me s))).
Definition custom_nvs_write_connectors_offline_data (connId : cid) : cmd session :=
  emit (fun s => EvWriteOfflineData connId (ConnectorData (me s))).

(** [updateDisplayOnAcceptanceFailed]; its last but one branch repeats a
    condition already taken. *)
Definition updateDisplayOnAcceptanceFailed (connId : cid) : cmd session :=
  clear_rfid true ;;
  IF fun s => connectorFault (me s) THEN
    emit (fun _ => EvDisplay connId ChargerFaultBit)
  ELSE IF fun s => negb (CmsAvailable (ConnectorData (me s))) THEN
    emit (fun _ => EvDisplay connId ChargerUnAvailableBit)
  ELSE IF fun s => isReserved (ConnectorData (me s)) THEN
    emit (fun _ => EvDisplay connId ChargerReservedBit)
  ELSE IF fun s => (cpEnable (me s) && cp_is STATE_A s) || negb (cpEnable (me s)) THEN
    emit (fun _ => EvDisplay connId ChargerAvailableBit)
  ELSE IF fun s => cpEnable (me s) && cp_is STATE_A s THEN
    emit (fun _ => EvDisplay connId ChargerEvPluggedTapRfidBit)
  ELSE WHEN fun s => cpEnable (me s) && ev_plugged s THEN
    setg (fun g => g <| isRfidTappedFirst := false |>) ;;
    emit (fun _ => EvDisplay connId ChargerEvPluggedTapRfidBit)
  FI FI FI FI FI FI.

(** The OCPP name of a stop reason; an unknown value writes nothing. *)
Definition stop_reason_text (r : Z) : option string :=
  if r =? Stop_DeAuthorized then Some "DeAuthorized"
  else if r =? Stop_EVDisconnected then Some "EVDisconnected"
  else if r =? Stop_HardReset then Some "HardReset"
  else if r =? Stop_Local then Some "Local"
  else if r =? Stop_Other then Some "Other"
  else if r =? Stop_PowerLoss then Some "PowerLoss"
  else if r =? Stop_Reboot then Some "Reboot"
  else if r =? Stop_Remote then Some "Remote"
  else if r =? Stop_SoftReset then Some "SoftReset"
  else if r =? Stop_UnlockCommand then Some "UnlockCommand"
  else if r =? Stop_EmergencyStop then Some "EmergencyStop"
  else None.

Definition updateStopStansactionReason : cmd session :=
  withs (fun s =>
    let ConnectorData_temp :=
      if updatingDataToCms (me s) then ConnectorOfflineData (me s) else ConnectorData (me s) in
    match stop_reason_text (stopReason ConnectorData_temp) with
    | Some text => setm (fun m => m <| CPStopTransactionRequest :=
        (CPStopTransactionRequest m)
          <| sp_reason := memcpy_str text (sp_reason (CPStopTransactionRequest m)) |> |>)
    | None => skip
    end).

Definition updateStopReason : cmd session :=
  withs (fun s => setd (fun d => d <| stopReason :=
    if emergencyButton (glob s) then Stop_EmergencyStop
    else if MeterPowerLoss (MeterFaults (me s)) then Stop_PowerLoss
    else if earthDisconnectButton (glob s) then Stop_Other
    else if gfciButton (glob s) then Stop_Other
    else if MeterHighTemp (MeterFaults (me s)) then Stop_Other
    else if MeterOverVoltage (MeterFaults (me s)) then Stop_Other
    else if MeterUnderVoltage (MeterFaults (me s)) then Stop_Other
    else if MeterOverCurrent (MeterFaults (me s)) then Stop_Other
    else if relayWeldDetectionButton (glob s) then Stop_Other
    else Stop_Other |>)).

(** ** Idle: [processRfidState] *)

(** An authorisation addressed to this connector. *)
Definition own_grant (connId : cid) (s : session) : bool :=
  ((RemoteAuthorizeConnId (glob s) =? cid_to_Z connId) && RemoteAuthenticated (glob s))
  || ((AlprAuthorizeConnId (glob s) =? cid_to_Z connId) && AlprAuthenticated (glob s)).
Arguments own_grant connId s /.

Definition processRfidState (connId : cid) : cmd session :=
  WHEN fun s =>
    rfidReceivedFromRemote (me s)
    || ((rfidMatchingWithLocalList (glob s) || rfidAuthenticated (glob s))
        && processRfidForConnector (glob s) connId)
    || own_grant connId s
  THEN
    WHEN fun s => rfidMatchingWithLocalList (glob s) || rfidAuthenticated (glob s) THEN
      setg (fun g => g <| processRfidForConnector :=
                           upd connId false (processRfidForConnector g) |>)
    FI ;;
    IF fun s => negb (CmsAvailable (ConnectorData (me s))) THEN
      updateDisplayOnAcceptanceFailed connId
    ELSE IF fun s => isReserved (ConnectorData (me s))
                     && starts_with (rfidTagNumberbuf (glob s))
                          (rs_idTag (ReservedData (ConnectorData (me s)))) THEN
      setd (fun d => d <| isReserved := false |>) ;;
      setg (fun g => g <| AuthenticationProcessed := false |>) ;;
      goto falg_EVSE_Authentication
    ELSE IF fun s => isReserved (ConnectorData (me s))
                     && negb (starts_with (rfidTagNumberbuf (glob s))
                                (rs_idTag (ReservedData (ConnectorData (me s))))) THEN
      updateDisplayOnAcceptanceFailed connId
    ELSE
      setm (fun m => m <| CPAuthorizeRequest_Sent := false |>) ;;
      setg (fun g => g <| AuthenticationProcessed := false |>) ;;
      goto falg_EVSE_Authentication
    FI FI FI
  FI.

(** ** Authentication: [processAuthenticationState] *)

(** Any authorisation that lets this connector start. *)
Definition granted (connId : cid) (s : session) : bool :=
  rfidReceivedFromRemote (me s) || rfidMatchingWithLocalList (glob s)
  || rfidAuthenticated (glob s) || own_grant connId s.
Arguments granted connId s /.

(** The vehicle is plugged in, the connector has neither pilot nor button, or
    its button was pressed. *)
Definition ready_to_start (s : session) : bool :=
  (ev_plugged s && cpEnable (me s))
  || (negb (cpEnable (me s)) && negb (PushButtonEnabled (me s)))
  || (PushButtonEnabled (me s) && PushButton (me s)).
Arguments ready_to_start s /.

Definition clear_grants : cmd session :=
  setm (fun m => m <| rfidReceivedFromRemote := false |>) ;;
  setg (fun g => g <| rfidMatchingWithLocalList := false |> <| rfidAuthenticated := false |>
                   <| RemoteAuthenticated := false |> <| AlprAuthenticated := false |>).

(** Copy the tapped card into the connector. *)
Definition adopt_tag : cmd session :=
  WHEN fun s => rfidMatchingWithLocalList (glob s) || rfidAuthenticated (glob s) THEN
    withs (fun s => setd (fun d => d <| idTag := idTag (ConnectorData0 (glob s)) |>)) ;;
    WHEN fun s => rfidMatchingWithLocalList (glob s) THEN
      withs (fun s => setd (fun d => d <| UnkownId := UnkownId (ConnectorData0 (glob s)) |>)) ;;
      setg (fun g => g <| ConnectorData0 := (ConnectorData0 g) <| UnkownId := false |> |>)
    FI
  FI.

Definition accept_start (connId : cid) : cmd session :=
  WHEN fun s => negb (rfidReceivedFromRemote (me s))
                && negb (rfidMatchingWithLocalList (glob s)) && rfidAuthenticated (glob s) THEN
    setm (fun m => m <| CPAuthorizeRequest_Sent := false |>)
  FI ;;
  setm (fun m => m <| AuthenticationTimeout := 0 |>
    <| CPStartTransactionRequest := (CPStartTransactionRequest m) <| st_Sent := false |> |>) ;;
  setg (fun g => g <| isRfidTappedFirst := false |>) ;;
  adopt_tag ;;
  custom_nvs_write_connector_data connId ;;
  setm (fun m => m <| PushButton := false |>) ;;
  clear_grants ;;
  setg (fun g => g <| AuthenticationProcessed := true |>) ;;
  clear_rfid false ;;
  goto flag_EVSE_Start_Transaction.

Definition processAuthenticationState (connId : cid) : cmd session :=
  WHEN fun s => AuthenticationProcessed (glob s) THEN
    updateDisplayOnAcceptanceFailed connId ;;
    goto flag_EVSE_Read_Id_Tag
  FI ;;
  IF fun s => connectorFault (me s) THEN
    updateDisplayOnAcceptanceFailed connId ;;
    goto flag_EVSE_Read_Id_Tag
  ELSE IF fun s => granted connId s
                   && bool_decide (taskState (me s) = falg_EVSE_Authentication) THEN
    IF ready_to_start THEN
      accept_start connId
    ELSE
      setm (fun m => m <| AuthenticationTimeout := u32 (AuthenticationTimeout m + 1) |>) ;;
      setg (fun g => g <| isRfidTappedFirst := false |>)
    FI ;;
    WHEN fun s => AuthenticationTimeout (me s)
                  >? ConnectionTimeOut (CPGetConfigurationResponse (glob s)) THEN
      clear_grants ;;
      setm (fun m => m <| AuthenticationTimeout := 0 |>
        <| CPRemoteStartTransactionResponse_Sent := false |>
        <| CMSAuthorizeResponse_Received := false |>
        <| CPAuthorizeRequest_Sent := false |>) ;;
      updateDisplayOnAcceptanceFailed connId ;;
      goto flag_EVSE_Read_Id_Tag
    FI
  ELSE
    setm (fun m => m <| CPAuthorizeRequest_Sent := false |> <| AuthenticationTimeout := 0 |>) ;;
    updateDisplayOnAcceptanceFailed connId ;;
    goto flag_EVSE_Read_Id_Tag
  FI FI.

(** ** Start: [processStartTransactionState] *)

Definition stamp_start : cmd session :=
  withs (fun s => setd (fun d => d <| meterStart_time :=
    memcpy_str (clock (glob s)) (meterStart_time d) |>)).

(** The block that opens a transaction unless one is already open. *)
Definition begin_transaction (connId : cid) : cmd session :=
  WHEN fun s => negb (isTransactionOngoing (ConnectorData (me s))) THEN
    withs (fun s => setd (fun d => d
      <| offlineStarted := if online_now s then false else true |>
      <| isTransactionOngoing := true |> <| chargingDuration := 0 |>
      <| meterStart := meterStop d |> <| Energy := S754_zero false |>)) ;;
    custom_nvs_write_connector_data connId ;;
    setm (fun m => m <| MeterValueAlignedData := zeroed_aligned |>)
  FI.

Definition send_start (connId : cid) : cmd session :=
  WHEN fun s => negb (st_Sent (CPStartTransactionRequest (me s))) THEN
    withs (fun s => setm (fun m => m <| CPStartTransactionRequest :=
      (CPStartTransactionRequest m) <| st_connectorId := cid_to_Z connId |>
        <| st_idTag := idTag (ConnectorData m) |>
        <| st_meterStart := i32 (f_trunc (meterStop (ConnectorData m))) |>
        <| st_reservationIdPresent := false |>
        <| st_timestamp := memcpy_str (clock (glob s))
             (st_timestamp (CPStartTransactionRequest m)) |> |>)) ;;
    stamp_start ;;
    sendStartTransactionRequest ;;
    setm (fun m => m <| start_retryCount := 0 |> <| start_timeout := 0 |>
                     <| ChargingFaultTimeCount := 0 |>)
  FI.

Definition start_offline (connId : cid) : cmd session :=
  setd (fun d => d <| meterStart_time := "" |>) ;;
  stamp_start ;;
  setm (fun m => m <| ChargingFaultTimeCount := 0 |>) ;;
  goto flag_EVSE_Request_Charge ;;
  setd (fun d => d <| meterStart := meterStop d |>) ;;
  setm (fun m => m
    <| CMSStartTransactionResponse :=
         (CMSStartTransactionResponse m) <| sr_Received := false |> |>
    <| CPRemoteStartTransactionResponse_Sent := false |>
    <| CPStartTransactionRequest := (CPStartTransactionRequest m) <| st_Sent := false |> |>) ;;
  begin_transaction connId.

Definition drop_start_flags : cmd session :=
  setm (fun m => m
    <| CMSStartTransactionResponse :=
         (CMSStartTransactionResponse m) <| sr_Received := false |> |>
    <| CPStartTransactionRequest := (CPStartTransactionRequest m) <| st_Sent := false |> |>
    <| CPRemoteStartTransactionResponse_Sent := false |>
    <| CPAuthorizeRequest_Sent := false |>).

Definition await_start (connId : cid) : cmd session :=
  IF fun s => negb (sr_Received (CMSStartTransactionResponse (me s)))
              && st_Sent (CPStartTransactionRequest (me s)) THEN
    setm (fun m => m <| start_timeout := u32 (start_timeout m + 1) |>)
  ELSE IF fun s => starts_with "Accepted" (sr_status (CMSStartTransactionResponse (me s))) THEN
    setm (fun m => m
      <| ConnectorData := (ConnectorData m)
           <| transactionId := sr_transactionId (CMSStartTransactionResponse m) |> |>
      <| start_timeout := 0 |>
      <| CMSStartTransactionResponse :=
           (CMSStartTransactionResponse m) <| sr_Received := false |> |>
      <| CPStartTransactionRequest := (CPStartTransactionRequest m) <| st_Sent := false |> |>) ;;
    setd (fun d => d <| meterStart := meterStop d |>) ;;
    goto flag_EVSE_Request_Charge ;;
    begin_transaction connId
  ELSE
    setm (fun m => m <| start_timeout := 0 |>) ;;
    drop_start_flags ;;
    goto flag_EVSE_Read_Id_Tag
  FI FI.

Definition retry_start : cmd session :=
  WHEN fun s => start_timeout (me s)
                >? TransactionMessageRetryInterval (CPGetConfigurationResponse (glob s)) THEN
    setm (fun m => m <| start_timeout := 0 |>
                     <| start_retryCount := u32 (start_retryCount m + 1) |>) ;;
    WHEN fun s => start_retryCount (me s)
                  >? TransactionMessageAttempts (CPGetConfigurationResponse (glob s)) THEN
      goto flag_EVSE_Read_Id_Tag
    FI ;;
    drop_start_flags
  FI.

Definition processStartTransactionState (connId : cid) : cmd session :=
  IF online_now THEN send_start connId ELSE start_offline connId FI ;;
  WHEN online_now THEN await_start connId ;; retry_start FI.

(** ** Stop: [processStopTransactionState] *)

Definition finishing_flag : cmd session :=
  IF fun s => negb (connectorFault (me s)) THEN
    setm (fun m => m <| finishingStatusSent := true |>)
  ELSE setm (fun m => m <| finishingStatusPending := true |>) FI.

(** The connector's part of the stop request and its fresh text fields. *)
Definition send_stop (connId : cid) : cmd session :=
  WHEN fun s => negb (sp_Sent (CPStopTransactionRequest (me s))) THEN
    withs (fun s => setm (fun m => m
      <| ConnectorData := (ConnectorData m) <| meterStop_time :=
           memcpy_str (clock (glob s)) (meterStop_time (ConnectorData m)) |> |>
      <| CPStopTransactionRequest := (CPStopTransactionRequest m)
           <| sp_reason := "" |>
           <| sp_idTag := idTag (ConnectorData m) |>
           <| sp_meterStop := i32 (f_trunc (meterStop (ConnectorData m))) |>
           <| sp_timestamp := memcpy_str (clock (glob s))
                (sp_timestamp (CPStopTransactionRequest m)) |>
           <| sp_transactionId := i32 (transactionId (ConnectorData m)) |> |>)) ;;
    updateStopStansactionReason ;;
    sendStopTransactionRequest ;;
    setm (fun m => m <| stop_retryCount := 0 |>) ;;
    finishing_flag ;;
    setm (fun m => m <| stop_timeout := 0 |>)
  FI.

(** [if (meterStop > METER_VALUE_RESET) meterStop = 0;] then save. *)
Definition reset_meter_and_save (connId : cid) : cmd session :=
  WHEN fun s => fgtb (meterStop (ConnectorData (me s))) METER_VALUE_RESET THEN
    setd (fun d => d <| meterStop := S754_zero false |>)
  FI ;;
  custom_nvs_write_connector_data connId.

Definition stop_offline (connId : cid) : cmd session :=
  withs (fun s => setd (fun d => d <| meterStop_time := clock (glob s) |>)) ;;
  custom_nvs_write_connectors_offline_data connId ;;
  IF fun s => negb (connectorFault (me s)) THEN
    setm (fun m => m <| finishingStatusSent := true |>) ;;
    emit (fun _ => EvDisplay connId ChargerFinishingdBit) ;;
    withs (fun s => setm (fun m => m <| ledState :=
      if onlineOffline (config (glob s)) then OFFLINE_FINISHING_LED_STATE
      else if offline (config (glob s)) then OFFLINE_ONLY_FINISHING_LED_STATE
      else ONLINE_ONLY_OFFLINE_FINISHING_LED_STATE |>))
  ELSE setm (fun m => m <| finishingStatusPending := true |>) FI ;;
  goto flag_EVSE_Read_Id_Tag ;;
  setd (fun d => d <| InvalidId := false |> <| UnkownId := false |>) ;;
  reset_meter_and_save connId.

Definition announce_finishing (connId : cid) : cmd session :=
  withs (fun s => setm (fun m => m
    <| finishingStatusSent := true |>
    <| CPStatusNotificationRequest := (CPStatusNotificationRequest m)
         <| sn_connectorId := cid_to_Z connId |>
         <| sn_errorCode := "NoError" |> <| sn_status := "Finishing" |>
         <| sn_timestamp := memcpy_str (clock (glob s))
              (sn_timestamp (CPStatusNotificationRequest m)) |> |>)) ;;
  sendStatusNotificationRequest ;;
  emit (fun _ => EvDisplay connId ChargerFinishingdBit) ;;
  withs (fun s => setm (fun m => m <| ledState :=
    if onlineOffline (config (glob s)) then FINISHING_LED_STATE
    else ONLINE_ONLY_FINISHING_LED_STATE |>)).

Definition await_stop (connId : cid) : cmd session :=
  IF fun s => negb (CMSStopTransactionResponse_Received (me s))
              && sp_Sent (CPStopTransactionRequest (me s)) THEN
    setm (fun m => m <| stop_timeout := u32 (stop_timeout m + 1) |>)
  ELSE
    setd (fun d => d <| isTransactionOngoing := false |>) ;;
    custom_nvs_write_connector_data connId ;;
    setm (fun m => m <| stop_timeout := 0 |> <| CMSStopTransactionResponse_Received := false |>
      <| CPStopTransactionRequest := (CPStopTransactionRequest m) <| sp_Sent := false |> |>) ;;
    setd (fun d => d <| InvalidId := false |> <| UnkownId := false |>) ;;
    goto flag_EVSE_Read_Id_Tag ;;
    reset_meter_and_save connId ;;
    IF fun s => negb (connectorFault (me s)) THEN announce_finishing connId
    ELSE setm (fun m => m <| finishingStatusPending := true |>) FI
  FI.

(** The retry counter only logs: a stop is re-sent until it is answered. *)
Definition retry_stop : cmd session :=
  WHEN fun s => stop_timeout (me s)
                >? TransactionMessageRetryInterval (CPGetConfigurationResponse (glob s)) THEN
    setm (fun m => m <| stop_timeout := 0 |>
                     <| stop_retryCount := u32 (stop_retryCount m + 1) |>) ;;
    sendStopTransactionRequest
  FI.

Definition processStopTransactionState (connId : cid) : cmd session :=
  setm (fun m => m <| isConnectorCharging := false |>) ;;
  setd (fun d => d <| isTransactionOngoing := false |>) ;;
  IF online_now THEN send_stop connId ELSE stop_offline connId FI ;;
  WHEN online_now THEN await_stop connId ;; retry_stop FI.

(** ** Charging: [processChargeState] *)

(** Close the relay of a connector without pilot on the boards with a slave. *)
Definition charge_relay (connId : cid) : cmd session :=
  WHEN fun s => negb (cpEnable (me s)) && negb (relayState (me s))
                && negb (connectorFault (me s)) THEN
    WHEN fun s => negb (vcharge_v5 (config (glob s))) && negb (AC1 (config (glob s))) THEN
      emit (fun _ => EvSlaveUpdateRelay connId true)
    FI
  FI.

Definition offer_current (connId : cid) : cmd session :=
  IF fun s => vcharge_v5 (config (glob s)) || AC1 (config (glob s)) THEN
    emit (fun s => EvSetControlPilotDuty (cpDuty (config (glob s)) connId))
  ELSE
    emit (fun s => EvSlaveSetControlPilotDuty connId (cpDuty (config (glob s)) connId))
  FI.

(** A fault: wait for the power, stop at once, or give it
    [sessionRestoreTime] seconds to clear. *)
Definition charge_fault : cmd session :=
  setm (fun m => m <| isConnectorCharging := false |>) ;;
  IF fun s => restoreSession (config (glob s)) && MeterPowerLoss (MeterFaults (me s)) THEN
    skip
  ELSE IF fun s => negb (restoreSession (config (glob s)))
                   || MeterOverCurrent (MeterFaults (me s)) || gfciButton (glob s) THEN
    updateStopReason ;;
    goto flag_EVSE_Stop_Transaction
  ELSE
    setm (fun m => m <| ChargingFaultTimeCount := u16 (ChargingFaultTimeCount m + 1) |>) ;;
    WHEN fun s => ChargingFaultTimeCount (me s) >? sessionRestoreTime (config (glob s)) THEN
      updateStopReason ;;
      goto flag_EVSE_Stop_Transaction
    FI
  FI FI.

(** The vehicle draws nothing: the B2 state, or a low measured current. *)
Definition charge_suspended : cmd session :=
  setm (fun m => m <| isConnectorCharging := true |>
    <| ChargingSuspendedTimeCount := u16 (ChargingSuspendedTimeCount m + 1) |>) ;;
  WHEN fun s =>
    ((ChargingSuspendedTimeCount (me s)
        >? StopTransactionInSuspendedStateTime (config (glob s)))
     && cpEnable (me s) && StopTransactionInSuspendedState (config (glob s)))
    || ((ChargingSuspendedTimeCount (me s) >? lowCurrentTime (config (glob s)))
        && negb (cpEnable (me s)))
  THEN
    setm (fun m => m <| ChargingSuspendedTimeCount := 0 |>) ;;
    setd (fun d => d <| stopReason := Stop_EVDisconnected |>) ;;
    goto flag_EVSE_Stop_Transaction
  FI.

Definition unplugged (s : session) : bool := cp_is STATE_A s || cp_is STATE_DIS s.
Arguments unplugged s /.

Definition charge_supervise (connId : cid) : cmd session :=
  IF fun s => ev_plugged s && cpEnable (me s) && negb (connectorFault (me s)) THEN
    offer_current connId
  ELSE IF fun s => (((ev_plugged s || unplugged s) && cpEnable (me s)) || negb (cpEnable (me s)))
                   && connectorFault (me s) THEN
    charge_fault
  ELSE IF fun s => unplugged s && cpEnable (me s) && negb (connectorFault (me s)) THEN
    setd (fun d => d <| stopReason := Stop_EVDisconnected |>) ;;
    goto flag_EVSE_Stop_Transaction
  ELSE WHEN fun s =>
      ((cp_is STATE_B2 s && cpEnable (me s))
       || (negb (cpEnable (me s))
           && fgtb (minLowCurrentThreshold (config (glob s)))
                   (current (meterValue (ConnectorData (me s))) connId)))
      && isTransactionOngoing (ConnectorData (me s)) THEN
    charge_suspended
  FI FI FI FI.

Definition charge_deauthorize : cmd session :=
  WHEN fun s =>
    let d := ConnectorData (me s) in
    (UnkownId d && (MaxEnergyOnInvalidId (CPGetConfigurationResponse (glob s))
                      <=? u32 (f_trunc (Energy d))) && isTransactionOngoing d)
    || (InvalidId d && StopTransactionOnInvalidId (CPGetConfigurationResponse (glob s)))
  THEN
    setd (fun d => d <| InvalidId := false |> <| stopReason := Stop_DeAuthorized |>) ;;
    goto flag_EVSE_Stop_Transaction
  FI.

(** [changeDutyCycle] *)
Definition changeDutyCycle (connId : cid) : cmd session :=
  withs (fun s => setg (fun g => g <| config := (config g) <| cpDuty :=
    upd connId (cpDutyCycleToSet (me s)) (cpDuty (config g)) |> |>)) ;;
  emit (fun s => EvUpdateCpConfig (cpDuty (config (glob s)))) ;;
  emit (fun s => EvSetControlPilotDuty (cpDuty (config (glob s)) connId)).

(** Running mean of [n] values extended by one. *)
Definition mean_step (old : b64) (n : Z) (x : b64) : b64 :=
  fdiv (fadd (fmul old (f_of_Z n)) x) (f_of_Z (u32 (n + 1))).

Definition align_values (connId : cid) (c : Config_t) (n : Z) (d : ConnectorPrivateData_t)
    (a : MeterValueAlignedData_t) : MeterValueAlignedData_t :=
  let phases := if is_three_phase c then [PHASE_A; PHASE_B; PHASE_C] else [connId] in
  let mean_at (old new : cid -> b64) :=
    foldl (fun f p => upd p (mean_step (old p) n (new p)) f) old phases in
  a <| al_temp := u16 (u32 (al_temp a * n + temp (meterValue d)) `div` u32 (n + 1)) |>
    <| al_voltage := mean_at (al_voltage a) (voltage (meterValue d)) |>
    <| al_current := mean_at (al_current a) (current (meterValue d)) |>
    <| al_power := mean_step (al_power a) n (power (meterValue d)) |>
    <| al_Energy := fadd (al_Energy a) (Energy d) |>.

(** Every fifth run: read the meter, integrate the power over the interval and
    save. *)
Definition meter_sample (connId : cid) : cmd session :=
  setm (fun m => m <| ConnectorData := (ConnectorData m) <| meterValue := meter_now m |> |>) ;;
  setd (fun d => d <| meterStop := fadd (meterStop d)
    (fdiv (fmul (power (meterValue d)) (f_of_Z MeterValueSampleTime)) (f_of_Z 3600)) |>) ;;
  setd (fun d => d <| Energy := fsub (meterStop d) (meterStart d) |>) ;;
  custom_nvs_write_connector_data connId ;;
  WHEN fun s => negb (ClockAlignedDataInterval (CPGetConfigurationResponse (glob s)) =? 0) THEN
    withs (fun s => setm (fun m => m
      <| MeterValueAlignedData := align_values connId (config (glob s))
           (ClockAlignedDataCount m) (ConnectorData m) (MeterValueAlignedData m) |>
      <| ClockAlignedDataCount := u32 (ClockAlignedDataCount m + 1) |>))
  FI.

(** The nine sampled values of a report: energy, power, three voltages, three
    currents, temperature. *)
Definition sampled_values (connId : cid) (three : bool) (energy power0 : b64)
    (volt curr : cid -> b64) (temp0 : Z) : list sampled :=
  let base := <[1%nat := Fmt_2lf power0]> (<[0%nat := Fmt_2lf energy]> (replicate 9 Unset)) in
  let phased :=
    if three then
      <[7%nat := Fmt_2lf (curr PHASE_C)]> (<[6%nat := Fmt_2lf (curr PHASE_B)]>
      (<[5%nat := Fmt_2lf (curr PHASE_A)]> (<[4%nat := Fmt_2lf (volt PHASE_C)]>
      (<[3%nat := Fmt_2lf (volt PHASE_B)]> (<[2%nat := Fmt_2lf (volt PHASE_A)]> base)))))
    else
      <[(cid_to_nat connId + 4)%nat := Fmt_2lf (curr connId)]>
      (<[(cid_to_nat connId + 1)%nat := Fmt_2lf (volt connId)]> base) in
  <[8%nat := Fmt_u temp0]> phased.

Definition updateMeterValues (connId : cid) (Aligned : bool) : cmd session :=
  withs (fun s => setm (fun m =>
    let d := ConnectorData m in
    let a := MeterValueAlignedData m in
    let three := is_three_phase (config (glob s)) in
    let kilo p := fdiv p (f_of_Z 1000) in
    m <| CPMeterValuesRequest := (CPMeterValuesRequest m)
      <| mv_context1 := memcpy_str (if Aligned then "Sample.Clock" else "Sample.Periodic")
           (mv_context1 (CPMeterValuesRequest m)) |>
      <| mv_connectorId := cid_to_Z connId |>
      <| mv_transactionId := i32 (transactionId d) |>
      <| mv_timestamp := clock (glob s) |>
      <| mv_sampledValue :=
           if Aligned then
             sampled_values connId three (meterStop d) (kilo (al_power a))
               (al_voltage a) (al_current a) (al_temp a)
           else
             sampled_values connId three (meterStop d) (kilo (power (meterValue d)))
               (voltage (meterValue d)) (current (meterValue d)) (temp (meterValue d)) |> |>)).

Definition report_meter (connId : cid) (Aligned : bool) (context : string) : cmd session :=
  updateMeterValues connId Aligned ;;
  WHEN fun s => negb (updatingDataToCms (me s)) THEN
    sendMeterValuesRequest connId context
  FI.

Definition report_due (connId : cid) : cmd session :=
  WHEN online_now THEN
    WHEN fun s => ClockAlignedDataTime (glob s) THEN
      report_meter connId true "Sample.Clock" ;;
      setm (fun m => m <| ClockAlignedDataCount := 0 |>)
    FI ;;
    WHEN fun s => negb (mv_Sent (CPMeterValuesRequest (me s))) THEN
      report_meter connId false "Sample.Periodic" ;;
      setm (fun m => m <| charge_timeout := 0 |>)
    FI
  FI ;;
  WHEN online_now THEN
    IF fun s => negb (CMSMeterValuesResponse_Received (me s))
                && mv_Sent (CPMeterValuesRequest (me s)) THEN
      setm (fun m => m <| charge_timeout := u32 (charge_timeout m + 1) |>)
    ELSE setm (fun m => m <| charge_timeout := 0 |>) FI ;;
    WHEN fun s => charge_timeout (me s) >? START_TRANSACTION_TIMEOUT THEN
      setm (fun m => m <| charge_timeout := 0 |>) ;;
      report_meter connId false "Sample.Periodic"
    FI
  FI.

(** A card tapped during the session stops it when it is the card (or a
    prefix of the card) that started it. *)
Definition stop_by_tap (connId : cid) : cmd session :=
  WHEN fun s =>
    (newRfidRead (glob s)
     || (processRfidForConnector (glob s) connId && negb (cpEnable (me s))
         && PushButtonEnabled (me s)))
    && (cpEnable (me s)
        || (negb (cpEnable (me s))
            && (negb (PushButtonEnabled (me s))
                || (PushButtonEnabled (me s) && PushButton (me s)))))
  THEN
    WHEN fun s => starts_with (rfidTagNumberbuf (glob s)) (idTag (ConnectorData (me s))) THEN
      WHEN fun s => processRfidForConnector (glob s) connId && negb (cpEnable (me s))
                    && PushButtonEnabled (me s) && PushButton (me s) THEN
        setg (fun g => g <| AuthenticationProcessed := true |>) ;;
        clear_rfid false
      FI ;;
      setd (fun d => d <| stopReason := Stop_Local |>) ;;
      setg (fun g => g <| newRfidRead := false |>) ;;
      setm (fun m => m <| CMSMeterValuesResponse_Received := false |>
        <| CPMeterValuesRequest := (CPMeterValuesRequest m) <| mv_Sent := false |> |>) ;;
      goto flag_EVSE_Stop_Transaction
    FI
  FI.

(** Energy is flowing. *)
Definition charge_tick (connId : cid) : cmd session :=
  setm (fun m => m <| isConnectorCharging := true |> <| ChargingFaultTimeCount := 0 |>) ;;
  WHEN fun s => cpEnable (me s) THEN
    setm (fun m => m <| ChargingSuspendedTimeCount := 0 |>) FI ;;
  setd (fun d => d <| chargingDuration := u32 (chargingDuration d + 1) |>) ;;
  WHEN fun s => smartCharging (config (glob s))
                && negb (cpDuty (config (glob s)) connId =? cpDutyCycleToSet (me s)) THEN
    changeDutyCycle connId
  FI ;;
  WHEN fun s => charge_loopCount (me s) mod MeterValueSampleTime =? 0 THEN
    meter_sample connId
  FI ;;
  report_due connId ;;
  setm (fun m => m <| charge_loopCount := u32 (charge_loopCount m + 1) |>) ;;
  WHEN fun s => charge_loopCount (me s)
                  mod MeterValueSampleInterval (CPGetConfigurationResponse (glob s)) =? 0 THEN
    setm (fun m => m <| CPMeterValuesRequest :=
      (CPMeterValuesRequest m) <| mv_Sent := false |> |>)
  FI ;;
  stop_by_tap connId.

Definition charging_now (s : session) : bool :=
  (((cp_is STATE_C s || cp_is STATE_D s) && cpEnable (me s)) || negb (cpEnable (me s)))
  && connectorChargingStatusSent (me s)
  && bool_decide (taskState (me s) = flag_EVSE_Request_Charge)
  && negb (connectorFault (me s)).
Arguments charging_now s /.

Definition processChargeState (connId : cid) : cmd session :=
  charge_relay connId ;;
  charge_supervise connId ;;
  charge_deauthorize ;;
  WHEN charging_now THEN charge_tick connId FI.

(** ** The task *)

(** Take the power away, before anything else in the stop state. *)
Definition de_energise (connId : cid) : cmd session :=
  IF fun s => vcharge_lite_1_4 (config (glob s)) THEN
    IF fun s => cpEnable (me s) THEN
      emit (fun _ => EvSlaveSetControlPilotDuty connId 100)
    ELSE emit (fun _ => EvSlaveUpdateRelay connId false) FI
  ELSE
    emit (fun _ => EvUpdateRelayState connId false) ;;
    emit (fun _ => EvSetControlPilotDuty 100)
  FI.

Definition not_busy (s : session) : bool :=
  negb (updatingDataToCms (me s)) && negb (FirmwareUpdateStarted (glob s)).
Arguments not_busy s /.

(** One iteration of [ConnectorTask]. *)
Definition ConnectorTask (connId : cid) : cmd session :=
  withs (fun s =>
    match taskState (me s) with
    | flag_EVSE_Read_Id_Tag => WHEN not_busy THEN processRfidState connId FI
    | falg_EVSE_Authentication => WHEN not_busy THEN processAuthenticationState connId FI
    | flag_EVSE_Start_Transaction => WHEN not_busy THEN processStartTransactionState connId FI
    | flag_EVSE_Request_Charge => processChargeState connId
    | flag_EVSE_Stop_Transaction =>
        de_energise connId ;;
        WHEN not_busy THEN processStopTransactionState connId FI
    | _ => skip
    end).

(** ** All connectors *)

Record world := mkWorld { globals : shared; cells : cid -> conn }.

(** [ConnectorTask] of [connId] takes its turn. *)
Definition turn (connId : cid) (w : world) : world :=
  let s := ConnectorTask connId (mkSession (globals w) (cells w connId)) in
  mkWorld (glob s) (upd connId (me s) (cells w)).

(** The charge point's handling of [RemoteStopTransaction] ([Connector0Task]):
    the first connector carrying the transaction id is sent to the stop
    state.  (Its connector 0 arm touches no connector task.) *)
Definition remote_stop_connector (connId : cid) (w : world) : world :=
  mkWorld (globals w) (upd connId
    ((cells w connId) <| taskState := flag_EVSE_Stop_Transaction |>
       <| ConnectorData := (ConnectorData (cells w connId)) <| stopReason := Stop_Remote |> |>)
    (cells w)).

Definition remote_stop (txn : Z) (w : world) : world :=
  if txn =? transactionId (ConnectorData0 (globals w)) then
    mkWorld ((globals w) <| ConnectorData0 :=
      (ConnectorData0 (globals w)) <| stopReason := Stop_Remote |> |>) (cells w)
  else if txn =? transactionId (ConnectorData (cells w Conn1)) then remote_stop_connector Conn1 w
  else if txn =? transactionId (ConnectorData (cells w Conn2)) then remote_stop_connector Conn2 w
  else if txn =? transactionId (ConnectorData (cells w Conn3)) then remote_stop_connector Conn3 w
  else w.
