(* ===== verification/SessionSpec.v ===== *)
(** * Properties of the charging session ([Session.v])

    The connectors' tasks interleave with each other and with the tasks that
    feed them (pilot, faults, RFID, central system): [step] is that system, a
    turn being one iteration of one [ConnectorTask].  The theorems cover the
    session's control flow, who may start it, what ends it and when, and what
    is reported and saved. *)

From S2P Require Import Prelude Binary64 Config EnergyMeter ControlPilot Session.

(** ** Frame conditions of the handlers *)

(** The task state stays or goes to one of [ts]. *)
Definition moves (ts : list EvseDevStatuse) (s s' : session) : Prop :=
  taskState (me s') = taskState (me s) \/ taskState (me s') ∈ ts.

#[export] Instance moves_preorder ts : PreOrder (moves ts).
Proof. split; [by left|]. intros a b c [H1|H1] [H2|H2]; unfold moves in *; naive_solver congruence. Qed.

Lemma moves_goto ts t : t ∈ ts -> respects (moves ts) (goto t).
Proof. intros H s. by right. Qed.

Ltac moves_tac :=
  respects_tac ltac:(first
    [ apply moves_goto; set_solver
    | intros ?; left; reflexivity ]).

(** The extension of the trace by a command satisfies [P]. *)
Definition emits (P : event -> Prop) (s s' : session) : Prop :=
  exists l, trace (glob s') = l ++ trace (glob s) /\ Forall P l.

#[export] Instance emits_preorder P : PreOrder (emits P).
Proof.
  split; [by exists []|]. intros a b c (l1 & E1 & F1) (l2 & E2 & F2).
  exists (l2 ++ l1). rewrite E2, E1, app_assoc. split; [done|]. by apply Forall_app.
Qed.

Lemma emits_emit P e : (forall s, P (e s)) -> respects (emits P) (emit e).
Proof. intros H s. exists [e s]. split; [done|]. auto. Qed.

Ltac emits_tac :=
  respects_tac ltac:(first
    [ apply emits_emit; intros ? Hev; exact Hev
    | intros ?; exists []; split; [reflexivity | constructor] ]).

(** Named commands, for the tactics that walk down a handler. *)
Ltac unfold_calls :=
  unfold updateDisplayOnAcceptanceFailed, clear_rfid, custom_nvs_write_connector_data,
    custom_nvs_write_connectors_offline_data, sendStatusNotificationRequest,
    sendStopTransactionRequest, sendStartTransactionRequest, sendMeterValuesRequest,
    next_id, updateStopStansactionReason, updateStopReason.
Ltac unfold_rfid := unfold processRfidState; unfold_calls.
Ltac unfold_auth :=
  unfold processAuthenticationState, accept_start, adopt_tag, clear_grants; unfold_calls.
Ltac unfold_start :=
  unfold processStartTransactionState, send_start, start_offline, await_start, retry_start,
    drop_start_flags, begin_transaction, stamp_start; unfold_calls.
Ltac unfold_stop :=
  unfold processStopTransactionState, send_stop, stop_offline, await_stop, retry_stop,
    announce_finishing, finishing_flag, reset_meter_and_save; unfold_calls.
Ltac unfold_charge :=
  unfold processChargeState, charge_relay, charge_supervise, charge_fault, charge_suspended,
    offer_current, charge_deauthorize, charge_tick, meter_sample, report_due, report_meter,
    updateMeterValues, stop_by_tap, changeDutyCycle; unfold_calls.

Lemma rfid_moves id : respects (moves [falg_EVSE_Authentication]) (processRfidState id).
Proof. unfold_rfid. moves_tac. Qed.
Lemma auth_moves id :
  respects (moves [flag_EVSE_Read_Id_Tag; flag_EVSE_Start_Transaction])
    (processAuthenticationState id).
Proof. unfold_auth. moves_tac. Qed.
Lemma start_moves id :
  respects (moves [flag_EVSE_Read_Id_Tag; flag_EVSE_Request_Charge])
    (processStartTransactionState id).
Proof. unfold_start. moves_tac. Qed.
Lemma charge_moves id :
  respects (moves [flag_EVSE_Stop_Transaction]) (processChargeState id).
Proof. unfold_charge. moves_tac. Qed.
Lemma stop_moves id :
  respects (moves [flag_EVSE_Read_Id_Tag]) (de_energise id ;; WHEN not_busy THEN processStopTransactionState id FI).
Proof. unfold de_energise; unfold_stop. moves_tac. Qed.

(** The handlers leave these alone. *)
Lemma rfid_ongoing id :
  respects (same (fun s => isTransactionOngoing (ConnectorData (me s)))) (processRfidState id).
Proof. unfold_rfid. same_tac. Qed.
Lemma auth_ongoing id :
  respects (same (fun s => isTransactionOngoing (ConnectorData (me s)))) (processAuthenticationState id).
Proof. unfold_auth. same_tac. Qed.
Lemma charge_ongoing id :
  respects (same (fun s => isTransactionOngoing (ConnectorData (me s)))) (processChargeState id).
Proof. unfold_charge. same_tac. Qed.

(** ** The task's control flow *)

(** The edges of the session automaton a turn may take. *)
Definition session_edge (t t' : EvseDevStatuse) : bool :=
  bool_decide (t' = t) ||
  match t, t' with
  | flag_EVSE_Read_Id_Tag, falg_EVSE_Authentication
  | falg_EVSE_Authentication, flag_EVSE_Read_Id_Tag
  | falg_EVSE_Authentication, flag_EVSE_Start_Transaction
  | flag_EVSE_Start_Transaction, flag_EVSE_Read_Id_Tag
  | flag_EVSE_Start_Transaction, flag_EVSE_Request_Charge
  | flag_EVSE_Request_Charge, flag_EVSE_Stop_Transaction
  | flag_EVSE_Stop_Transaction, flag_EVSE_Read_Id_Tag => true
  | _, _ => false
  end.

(** A transaction is open exactly while the session is in the charge state;
    the stop state closes it. *)
Definition consistent (m : conn) : Prop :=
  match taskState m with
  | flag_EVSE_Request_Charge => isTransactionOngoing (ConnectorData m) = true
  | flag_EVSE_Stop_Transaction => True
  | _ => isTransactionOngoing (ConnectorData m) = false
  end.

(** The [uint32_t] configuration keys hold unsigned values. *)
Definition unsigned_keys (c : OcppConfig) : Prop :=
  0 <= TransactionMessageRetryInterval c /\ 0 <= TransactionMessageAttempts c /\
  0 <= ConnectionTimeOut c.

Lemma start_consistent id s :
  unsigned_keys (CPGetConfigurationResponse (glob s)) ->
  taskState (me s) = flag_EVSE_Start_Transaction ->
  consistent (me s) -> consistent (me (processStartTransactionState id s)).
Proof.
  unfold consistent. intros (Hk & _) Ht. rewrite Ht. intros Ho.
  symexec_as (processStartTransactionState id s) ltac:(unfold_start).
  all: cbn; rewrite ?Ht; first [done | exfalso; lia].
Qed.

(** Commands that open no transaction. *)
Definition opens_none (s s' : session) : Prop :=
  isTransactionOngoing (ConnectorData (me s)) = false ->
  isTransactionOngoing (ConnectorData (me s')) = false.
#[export] Instance opens_none_preorder : PreOrder opens_none.
Proof. split; [by intros ? ?|]. unfold opens_none. intros a b c. tauto. Qed.

Lemma stop_closes id s :
  isTransactionOngoing (ConnectorData (me (processStopTransactionState id s))) = false.
Proof.
  unfold processStopTransactionState. set (rest := ifc _ _ _ ;; whenc _ _).
  assert (respects opens_none rest) as H.
  { unfold rest; unfold_stop.
    respects_tac ltac:(intros ? H; first [exact H | reflexivity]). }
  apply H. reflexivity.
Qed.

(** ** The system *)

(** A turn of any connector, a remote stop, or anything the other tasks do to
    the inputs: everything but the session states and the open-transaction
    flags may change. *)
Inductive step : world -> world -> Prop :=
  | step_turn id w : step w (turn id w)
  | step_remote_stop txn w : step w (remote_stop txn w)
  | step_inputs w w' :
      (forall id, taskState (cells w' id) = taskState (cells w id) /\
         isTransactionOngoing (ConnectorData (cells w' id))
           = isTransactionOngoing (ConnectorData (cells w id))) ->
      unsigned_keys (CPGetConfigurationResponse (globals w')) ->
      step w w'.

Definition world_consistent (w : world) : Prop :=
  unsigned_keys (CPGetConfigurationResponse (globals w)) /\ forall id, consistent (cells w id).

Lemma task_keys id :
  respects (same (fun s => CPGetConfigurationResponse (glob s))) (ConnectorTask id).
Proof.
  unfold ConnectorTask, de_energise. unfold_rfid; unfold_auth; unfold_start; unfold_stop; unfold_charge.
  same_tac.
Qed.

Lemma not_busy_when (P : session -> Prop) c s :
  P s -> P (c s) -> P (whenc not_busy c s).
Proof. intros H1 H2. unfold whenc, ifc, skip. by destruct (not_busy s). Qed.

Lemma consistent_moves c t ts s :
  respects (moves ts) c ->
  respects (same (fun s => isTransactionOngoing (ConnectorData (me s)))) c ->
  taskState (me s) = t ->
  (forall t' o, t' = t \/ t' ∈ ts ->
     (consistent (me s) -> isTransactionOngoing (ConnectorData (me s)) = o ->
     match t' with
     | flag_EVSE_Request_Charge => o = true | flag_EVSE_Stop_Transaction => True
     | _ => o = false end)) ->
  consistent (me s) -> consistent (me (c s)).
Proof.
  intros Hm Ho Ht H Hc. unfold consistent. rewrite (Ho s).
  apply (H (taskState (me (c s)))); [|done|done]. destruct (Hm s) as [E|E]; [left; congruence | by right].
Qed.

Lemma task_consistent id s :
  unsigned_keys (CPGetConfigurationResponse (glob s)) ->
  consistent (me s) -> consistent (me (ConnectorTask id s)).
Proof.
  intros Hk Hc. unfold ConnectorTask, withs. destruct (taskState (me s)) eqn:Ht.
  1-2, 8-12: exact Hc.
  1-3: apply not_busy_when; [exact Hc|].
  - eapply consistent_moves; [apply rfid_moves | apply rfid_ongoing | done | | done].
    unfold consistent. rewrite Ht. intros t' o [->|H]; [congruence|].
    apply list_elem_of_singleton in H as ->. congruence.
  - eapply consistent_moves; [apply auth_moves | apply auth_ongoing | done | | done].
    unfold consistent. rewrite Ht. intros t' o [->|H]; [congruence|].
    rewrite !elem_of_cons in H. destruct H as [->|[->|H]]; [congruence..|]. by apply not_elem_of_nil in H.
  - by apply start_consistent.
  - eapply consistent_moves; [apply charge_moves | apply charge_ongoing | done | | done].
    unfold consistent. rewrite Ht. intros t' o [->|H]; [congruence|].
    by apply list_elem_of_singleton in H as ->.
  - pose proof (stop_moves id s) as [H|H]; unfold moves, consistent in *.
    + rewrite H, Ht. done.
    + apply list_elem_of_singleton in H. revert H. unfold seqc, whenc, ifc.
      set (s1 := de_energise id s). destruct (not_busy s1).
      * intros ->. apply stop_closes.
      * intros H. exfalso. assert (same (fun s => taskState (me s)) s s1) as E
          by (unfold s1, de_energise; same_tac).
        unfold same in E. unfold skip in H. congruence.
Qed.

Lemma step_consistent w w' : step w w' -> world_consistent w -> world_consistent w'.
Proof.
  intros Hs [Hk Hc]. destruct Hs as [id w | txn w | w w' Hw Hk'].
  - unfold turn. set (s := mkSession _ _). split; cbn.
    + by rewrite (task_keys id s).
    + intros j. destruct (decide (j = id)) as [->|]; autorewrite with evse_upd; [|done].
      apply task_consistent; [done | apply Hc].
  - unfold remote_stop, remote_stop_connector. repeat if_split; (split; [done|]); cbn; try done.
    all: intros j; match goal with |- context [upd ?i _ _] =>
      destruct (decide (j = i)) as [->|]; autorewrite with evse_upd; [done | apply Hc] end.
  - split; [done|]. intros id. destruct (Hw id) as [E1 E2]. unfold consistent.
    rewrite E1, E2. apply Hc.
Qed.

(** ** Summaries of the display and routing updates *)

Lemma clear_rfid_summary b s :
  exists p, clear_rfid b s = setg (fun g => g <| processRfidForConnector := p |>) s /\
    forall i, (1 <= cid_to_Z i <= NumberOfConnectors (config (glob s)) -> p i = false).
Proof.
  unfold clear_rfid, withs. set (l := _ ++ connectors_upto _).
  assert (Hl : forall i, 1 <= cid_to_Z i <= NumberOfConnectors (config (glob s)) -> i ∈ l).
  { intros i Hi. apply elem_of_app. right. unfold connectors_upto.
    rewrite list_elem_of_filter, !elem_of_cons. destruct i; cbn in Hi; (split; [cbn; lia|]); tauto || lia. }
  assert (H : forall l s, exists p,
    foreach l (fun i => setg (fun g => g <| processRfidForConnector :=
      upd i false (processRfidForConnector g) |>)) s
    = setg (fun g => g <| processRfidForConnector := p |>) s /\
    forall i, i ∈ l \/ processRfidForConnector (glob s) i = false -> p i = false).
  { clear. unfold foreach. induction l as [|i l IH]; intros s; simpl.
    - exists (processRfidForConnector (glob s)). destruct s as [[] m]. split; [done|].
      intros i [H|H]; [by apply not_elem_of_nil in H | done].
    - match goal with |- context [foldl _ ?s0 _] => destruct (IH s0) as (p & E & F) end.
      exists p. split; [exact E|]. intros j Hj. apply F. rewrite elem_of_cons in Hj.
      destruct (decide (j = i)) as [->|Hn]; [right; apply upd_same|].
      destruct Hj as [[?|?]|?]; [done | by left | right; cbn; by rewrite upd_other]. }
  destruct (H l s) as (p & E & F). exists p. split; [exact E|]. auto.
Qed.

(** A display update writes only the display, the RFID routing and the
    tapped-first flag. *)
Lemma display_summary id s :
  exists p r e, updateDisplayOnAcceptanceFailed id s =
    setg (fun g => g <| processRfidForConnector := p |> <| isRfidTappedFirst := r |>
                     <| trace := e ++ trace g |>) s.
Proof.
  unfold updateDisplayOnAcceptanceFailed. unfold seqc at 1.
  destruct (clear_rfid_summary true s) as (p & -> & _).
  set (s1 := setg _ s).
  assert (forall b, emit (fun _ => EvDisplay id b) s1 =
    setg (fun g => g <| processRfidForConnector := p |> <| isRfidTappedFirst := isRfidTappedFirst g |>
                     <| trace := [EvDisplay id b] ++ trace g |>) s) as He
    by (intros; by destruct s as [[] m]).
  repeat (unfold ifc at 1; match goal with |- context [if ?b then _ else _] => destruct b end;
    [eexists p, _, _; by apply He|]).
  unfold whenc, ifc. destruct (_ && _); [exists p, false, [EvDisplay id ChargerEvPluggedTapRfidBit]|
    exists p, (isRfidTappedFirst (glob s)), []]; by destruct s as [[] m].
Qed.

Ltac unfold_auth_body :=
  unfold processAuthenticationState, accept_start, adopt_tag, clear_grants,
    custom_nvs_write_connector_data.

#[local] Ltac call_hook ::=
  match goal with
  | |- context [updateDisplayOnAcceptanceFailed ?id ?s] =>
      destruct (display_summary id s) as (? & ? & ? & ->)
  | |- context [clear_rfid ?b ?s] =>
      destruct (clear_rfid_summary b s) as (? & -> & _)
  end.

(** No shared authorisation is pending. *)
Definition no_shared_grant (g : shared) : Prop :=
  rfidMatchingWithLocalList g = false /\ rfidAuthenticated g = false
  /\ RemoteAuthenticated g = false /\ AlprAuthenticated g = false.

(** What starting leaves behind, for whichever authorisation started it. *)
Definition started (id : cid) (s s' : session) : Prop :=
  idTag (ConnectorData (me s')) =
    (if rfidMatchingWithLocalList (glob s) || rfidAuthenticated (glob s)
     then idTag (ConnectorData0 (glob s)) else idTag (ConnectorData (me s)))
  /\ no_shared_grant (glob s') /\ rfidReceivedFromRemote (me s') = false
  /\ AuthenticationProcessed (glob s') = true
  /\ st_Sent (CPStartTransactionRequest (me s')) = false
  /\ trace (glob s') = EvWriteConnectorData id (ConnectorData (me s')) :: trace (glob s).

(** Everything a start in the authentication state depends on. *)
Definition may_start (id : cid) (s : session) : Prop :=
  AuthenticationProcessed (glob s) = false /\ connectorFault (me s) = false
  /\ granted id s = true /\ ready_to_start s = true.

(** Fresh timeouts are within any interval. *)
#[local] Ltac guard_hook ::=
  match goal with
  | H : 0 <= ?x |- (0 >? ?x) = false => rewrite Z.gtb_ltb; apply Z.ltb_ge, H
  | |- _ && bool_decide (flag_EVSE_Read_Id_Tag = _) = false => apply andb_false_r
  end.

Lemma auth_to_start id s :
  unsigned_keys (CPGetConfigurationResponse (glob s)) ->
  taskState (me s) = falg_EVSE_Authentication ->
  let s' := processAuthenticationState id s in
  (taskState (me s') <> flag_EVSE_Start_Transaction /\ ~ may_start id s)
  \/ (taskState (me s') = flag_EVSE_Start_Transaction /\ may_start id s /\ started id s s').
Proof.
  intros (_ & _ & Hk) Ht. cbv zeta. unfold may_start, started, no_shared_grant.
  symexec_as (processAuthenticationState id s) ltac:(unfold_auth_body).
  all: cbn; rewrite ?Ht.
  all: try match goal with H : _ && bool_decide _ = true |- _ => apply andb_true_iff in H as [H _] end.
  all: try match goal with H : _ && bool_decide _ = false |- _ => rewrite Ht, andb_true_r in H end.
  all: try (left; split; [discriminate | intros (? & ? & ? & ?); congruence]).
  all: right; split; [done|].
  all: split; [tauto|].
  all: use_guards; rewrite ?andb_false_r; repeat split.
Qed.

(** ** Who may start a session *)


(** The task grants nothing, to itself or to others. *)
Definition grants_none (s s' : session) : Prop :=
  (no_shared_grant (glob s) -> no_shared_grant (glob s')) /\
  (rfidReceivedFromRemote (me s) = false -> rfidReceivedFromRemote (me s') = false).
#[export] Instance grants_none_preorder : PreOrder grants_none.
Proof. split; [by intros ?|]. unfold grants_none. intros a b c. tauto. Qed.

Lemma task_grants_none id : respects grants_none (ConnectorTask id).
Proof.
  unfold ConnectorTask, de_energise. unfold_rfid; unfold_auth; unfold_start; unfold_stop; unfold_charge.
  respects_tac ltac:(intros ?; unfold grants_none, no_shared_grant; cbn; tauto).
Qed.

Definition unauthorised (j : cid) (w : world) : Prop :=
  unsigned_keys (CPGetConfigurationResponse (globals w))
  /\ no_shared_grant (globals w) /\ rfidReceivedFromRemote (cells w j) = false
  /\ (taskState (cells w j) = flag_EVSE_Read_Id_Tag \/ taskState (cells w j) = falg_EVSE_Authentication).

Lemma unauthorised_turn i j w : unauthorised j w -> unauthorised j (turn i w).
Proof.
  intros (Hk & Hg & Hr & Ht). unfold unauthorised, turn. cbn.
  set (s := mkSession (globals w) (cells w i)).
  destruct (task_grants_none i s) as [H1 H2]. rewrite (task_keys i s).
  split; [done|]. split; [by apply H1|].
  destruct (decide (j = i)) as [->|Hn]; autorewrite with evse_upd; [|done].
  split; [by apply H2|].
  assert (taskState (me s) = flag_EVSE_Read_Id_Tag \/ taskState (me s) = falg_EVSE_Authentication)
    as [E|E] by exact Ht; unfold ConnectorTask, withs; rewrite E; unfold whenc, ifc;
    (destruct (not_busy s); [|unfold skip; tauto]).
  - destruct (rfid_moves i s) as [->|H%list_elem_of_singleton]; tauto.
  - destruct (auth_moves i s) as [->|H]; [tauto|].
    rewrite !elem_of_cons in H. destruct H as [->|[H|H%not_elem_of_nil]]; [tauto| |done].
    destruct (auth_to_start i s Hk E) as [[? ?]|(_ & (_ & _ & F & _) & _)]; [done|].
    exfalso. revert F. destruct Hg as (F1 & F2 & F3 & F4). cbn. 
    unfold s; cbn. rewrite Hr, F1, F2, F3, F4, !andb_false_r. discriminate.
Qed.


(** A turn of a connector's task takes only the edges of the session
    automaton (idle to authentication to start to charge to stop and back to
    idle, authentication and start also back to idle); and while offline data
    is being uploaded or a firmware update runs, every state but the charge
    state is frozen. *)
Theorem session_control_flow id s :
  let s' := ConnectorTask id s in
  session_edge (taskState (me s)) (taskState (me s')) = true /\
  (not_busy s = false -> taskState (me s) <> flag_EVSE_Request_Charge ->
   taskState (me s') = taskState (me s)).
Proof.
  cbv zeta. unfold ConnectorTask, withs. destruct (taskState (me s)) eqn:Ht.
  1-2, 8-12: unfold skip; rewrite Ht; by split.
  5: { pose proof (stop_moves id s) as [H|H].
    { rewrite H, Ht. done. }
    apply list_elem_of_singleton in H. split; [by rewrite H|]. intros Hb _.
    unfold seqc, whenc, ifc in *. set (s1 := de_energise id s) in *.
    assert (same (fun s => (not_busy s, taskState (me s))) s s1) as E
      by (unfold s1, de_energise; same_tac).
    assert (not_busy s1 = false) as E1 by (rewrite <-Hb; exact (f_equal fst E)).
    rewrite E1. unfold skip. transitivity (taskState (me s)); [exact (f_equal snd E) | exact Ht]. }
  4: { split; [|done]. destruct (charge_moves id s) as [H|H]; [by rewrite H, Ht|].
    by apply list_elem_of_singleton in H as ->. }
  all: unfold whenc, ifc; destruct (not_busy s); unfold skip; rewrite ?Ht; (split; [try done|done]).
  1: destruct (rfid_moves id s) as [H|H].
  3: destruct (auth_moves id s) as [H|H].
  5: destruct (start_moves id s) as [H|H].
  1, 3, 5: by rewrite H, Ht.
  all: rewrite !elem_of_cons in H; destruct H as [->|H]; [done|].
  all: try destruct H as [->|H]; try done; by apply not_elem_of_nil in H.
Qed.


(** ** When power is offered *)

(** Events that close a relay or advertise current. *)
Definition energising (e : event) : Prop :=
  match e with
  | EvSlaveUpdateRelay _ true | EvUpdateRelayState _ true | EvUpdateCpConfig _ => True
  | EvSlaveSetControlPilotDuty _ d | EvSetControlPilotDuty d => d <> 100
  | _ => False
  end.

Definition quiet (e : event) : Prop := ~ energising e.

(** The command energises only without a fault, which it leaves alone. *)
Definition energises_unfaulted (s s' : session) : Prop :=
  connectorFault (me s') = connectorFault (me s) /\
  emits (fun e => energising e -> connectorFault (me s) = false) s s'.
#[export] Instance energises_unfaulted_preorder : PreOrder energises_unfaulted.
Proof.
  split; [by intros s|]. intros a b c [E1 H1] [E2 H2]. split; [congruence|].
  etrans; [exact H1|]. rewrite E1 in H2. exact H2.
Qed.

Lemma unfaulted_guard g a :
  (forall s, g s = true -> connectorFault (me s) = false) ->
  respects (emits (fun _ => True)) a -> respects (same (fun s => connectorFault (me s))) a ->
  forall s, g s = true -> energises_unfaulted s (a s).
Proof.
  intros Hg Ha Hf s Hs. split; [apply Hf|]. destruct (Ha s) as (l & E & _).
  exists l. split; [done|]. apply Forall_forall. intros e _ _. by apply Hg.
Qed.

Ltac loud_tac :=
  respects_tac ltac:(intros ?;
    first [ eexists [_]; split; [reflexivity | repeat constructor]
          | exists []; split; [reflexivity | constructor] ]).
Lemma quiet_unfaulted a :
  respects (emits quiet) a -> respects (same (fun s => connectorFault (me s))) a ->
  respects energises_unfaulted a.
Proof.
  intros Ha Hf s. split; [apply Hf|]. destruct (Ha s) as (l & E & F).
  exists l. split; [done|]. eapply Forall_impl; [|exact F]. intros e Hq He. by destruct Hq.
Qed.

Lemma unfaulted_when g a :
  (forall s, g s = true -> connectorFault (me s) = false) ->
  respects (emits (fun _ => True)) a -> respects (same (fun s => connectorFault (me s))) a ->
  respects energises_unfaulted (whenc g a).
Proof.
  intros Hg Ha Hf s. unfold whenc, ifc, skip. destruct (g s) eqn:E; [|done].
  by eapply unfaulted_guard.
Qed.

Lemma charge_unfaulted id : respects energises_unfaulted (processChargeState id).
Proof.
  unfold processChargeState. apply respects_seq; [exact _| |].
  { apply unfaulted_when; [intros s H; by bool_simpl | loud_tac | same_tac]. }
  apply respects_seq; [exact _| |].
  { unfold charge_supervise. intros s. unfold ifc at 1.
    match goal with |- context [if ?b then _ else _] => destruct b eqn:E end.
    - eapply (unfaulted_guard (fun s => ev_plugged s && cpEnable (me s) && negb (connectorFault (me s)))).
      + intros s0 H. by bool_simpl.
      + unfold offer_current. loud_tac.
      + unfold offer_current. same_tac.
      + exact E.
    - match goal with |- energises_unfaulted _ (?a _) => enough (respects energises_unfaulted a) as H by apply H end.
      apply quiet_unfaulted; unfold charge_fault, charge_suspended; unfold_calls; [emits_tac | same_tac]. }
  apply respects_seq; [exact _| |].
  { apply quiet_unfaulted; unfold charge_deauthorize; [emits_tac | same_tac]. }
  apply unfaulted_when.
  - unfold charging_now. intros s H. by bool_simpl.
  - unfold_charge. loud_tac.
  - unfold_charge. same_tac.
Qed.

(** What the stop state sends first: the contactor is opened and the pilot
    stops advertising current. *)
Definition power_off (id : cid) (s : session) : list event :=
  if vcharge_lite_1_4 (config (glob s)) then
    if cpEnable (me s) then [EvSlaveSetControlPilotDuty id 100] else [EvSlaveUpdateRelay id false]
  else [EvSetControlPilotDuty 100; EvUpdateRelayState id false].

Lemma de_energise_emits id s :
  trace (glob (de_energise id s)) = power_off id s ++ trace (glob s).
Proof.
  unfold de_energise, power_off, ifc.
  destruct (vcharge_lite_1_4 _); [|done]. by destruct (cpEnable _).
Qed.

(** Claim C1.  A turn closes a relay, advertises current or changes the
    advertised current only in the charge state of a connector without fault;
    and every turn in the stop state begins by taking the power away and never
    gives it back. *)
Theorem power_only_while_charging id s :
  exists l, trace (glob (ConnectorTask id s)) = l ++ trace (glob s) /\
    Forall (fun e => energising e ->
      taskState (me s) = flag_EVSE_Request_Charge /\ connectorFault (me s) = false) l /\
    (taskState (me s) = flag_EVSE_Stop_Transaction -> exists l', l = l' ++ power_off id s).
Proof.
  assert (Hq : forall a, respects (emits quiet) a -> taskState (me s) <> flag_EVSE_Stop_Transaction ->
    exists l, trace (glob (a s)) = l ++ trace (glob s) /\
    Forall (fun e => energising e ->
      taskState (me s) = flag_EVSE_Request_Charge /\ connectorFault (me s) = false) l /\
    (taskState (me s) = flag_EVSE_Stop_Transaction -> exists l', l = l' ++ power_off id s)).
  { intros a Ha Hn. destruct (Ha s) as (l & E & F). exists l. split_and!; [done| |done].
    eapply Forall_impl; [|exact F]. intros e H1 H2. by destruct H1. }
  unfold ConnectorTask, withs. destruct (taskState (me s)) eqn:Ht.
  1-2, 8-12: apply (Hq skip); [emits_tac | done].
  - apply (Hq (whenc not_busy (processRfidState id))); [unfold_rfid; emits_tac | done].
  - apply (Hq (whenc not_busy (processAuthenticationState id))); [unfold_auth; emits_tac | done].
  - apply (Hq (whenc not_busy (processStartTransactionState id))); [unfold_start; emits_tac | done].
  - destruct (charge_unfaulted id s) as (_ & l & E & F). exists l. split_and!; [done| |done].
    eapply Forall_impl; [|exact F]. auto.
  - unfold seqc. set (s1 := de_energise id s).
    assert (respects (emits quiet) (whenc not_busy (processStopTransactionState id))) as Hs
      by (unfold_stop; emits_tac).
    destruct (Hs s1) as (l & E & F). exists (l ++ power_off id s).
    rewrite E. unfold s1. rewrite de_energise_emits, app_assoc. split_and!; [done| |by exists l].
    apply Forall_app. split.
    + eapply Forall_impl; [|exact F]. intros e H1 H2. by destruct H1.
    + unfold power_off. destruct (vcharge_lite_1_4 (config (glob s))), (cpEnable (me s)); repeat constructor; cbn; done.
Qed.

(** ** Concrete states *)

Definition zero_b64 : b64 := S754_zero false.
Definition zero_values : MeterValues_t := mkMeterValues 0 (fun _ => zero_b64) (fun _ => zero_b64) zero_b64.
Definition zero_data : ConnectorPrivateData_t :=
  mkConnectorData false false false false true false false false "" 0 0 0 0 zero_b64 zero_b64
    zero_values zero_b64 (mkReserved "" "" "" 0) "" "" zero_values.

(** An AC1 charger with one connector with a pilot, offline, a known card on
    the reader. *)
Definition example_shared : shared :=
  mkShared (zeroed_config <| AC1 := true |> <| Ac7s := true |> <| NumberOfConnectors := 2 |>)
    (mkOcppConfig 0 120 30 2 60 0 false) "2024-01-01T00:00:00.000Z" 1 false false
    false false false false false false true "04AB12" true false false 0 false 0
    false true (fun _ => true) (zero_data <| idTag := "04AB12" |>) [].

Definition example_conn : conn :=
  mkConn flag_EVSE_Read_Id_Tag STATE_B1 true false false false false
    (mkMeterFaults false false false false false false) zero_values zero_data zero_data 53
    false false false false false
    (mkStartReq false 0 0 "" 0 false "") (mkStartResp false "" 0)
    (mkStopReq false 0 "" 0 "" 0 "") false
    (mkMeterReq false 0 0 "" "" []) false
    (mkStatusReq false 0 0 "" "" "" "") false false false true 0 0 0 zeroed_aligned 0 0 0 0 0 0 0 0.

Definition example_world : world := mkWorld example_shared
  (fun _ => example_conn <| taskState := falg_EVSE_Authentication |>).

Definition example_auth : session :=
  mkSession example_shared (example_conn <| taskState := falg_EVSE_Authentication |>).

Lemma example_keys : unsigned_keys (CPGetConfigurationResponse example_shared).
Proof. unfold unsigned_keys, example_shared; cbn; lia. Qed.



