(* ===== verification/SessionEnd.v ===== *)
(** * How charging sessions end ([Session.v])

    What stops a session and after how long, what is sent to the central
    system or kept in flash for it, and what the energy counter records. *)

From S2P Require Import Prelude Binary64 Config EnergyMeter ControlPilot Session SessionSpec.

(** ** One turn in the charge state *)

(** No reason to stop for a rejected card. *)
Definition authorised_card (s : session) : Prop :=
  UnkownId (ConnectorData (me s)) = false /\ InvalidId (ConnectorData (me s)) = false.

Lemma deauthorize_skips s : authorised_card s -> charge_deauthorize s = s.
Proof.
  intros [H1 H2]. unfold charge_deauthorize, whenc, ifc, skip. rewrite H1, H2. done.
Qed.

(** The stop reason a fault is given. *)
Definition fault_reason (s : session) : Z :=
  if emergencyButton (glob s) then Stop_EmergencyStop
  else if MeterPowerLoss (MeterFaults (me s)) then Stop_PowerLoss else Stop_Other.

(** A fault with the vehicle not drawing: the pilot task has left C and D. *)
Definition faulted (s : session) : Prop :=
  connectorFault (me s) = true /\ authorised_card s /\
  (cpEnable (me s) = true -> ev_plugged s || unplugged s = true).

Definition stop_for (r : Z) : cmd session :=
  setd (fun d => d <| stopReason := r |>) ;; goto flag_EVSE_Stop_Transaction.

Lemma faulted_turn id s :
  taskState (me s) = flag_EVSE_Request_Charge -> faulted s ->
  ConnectorTask id s = charge_fault s.
Proof.
  intros Ht (Hf & Hc & Hp). unfold ConnectorTask, withs. rewrite Ht.
  unfold processChargeState, seqc at 1.
  assert (charge_relay id s = s) as ->.
  { unfold charge_relay, whenc, ifc, skip. rewrite Hf, andb_false_r. done. }
  unfold seqc at 1.
  assert (charge_supervise id s = charge_fault s) as ->.
  { unfold charge_supervise, ifc at 1. rewrite Hf, andb_false_r. unfold ifc at 1.
    destruct (cpEnable (me s)) eqn:E; [|by rewrite Hf, orb_true_r].
    rewrite (Hp eq_refl), Hf. done. }
  unfold seqc. set (s1 := charge_fault s).
  rewrite deauthorize_skips.
  - unfold whenc, ifc, skip. assert (charging_now s1 = false) as ->; [|done].
    assert (connectorFault (me s1) = true) as E1.
    { rewrite <-Hf. assert (same (fun s => connectorFault (me s)) s s1) as E
        by (unfold s1, charge_fault; unfold_calls; same_tac). exact E. }
    cbn. rewrite E1. apply andb_false_r.
  - assert (same (fun s => (UnkownId (ConnectorData (me s)), InvalidId (ConnectorData (me s)))) s s1) as E
      by (unfold s1, charge_fault; unfold_calls; same_tac).
    destruct Hc as [H1 H2]. split; [rewrite <-H1; exact (f_equal fst E) | rewrite <-H2; exact (f_equal snd E)].
Qed.

(** A counter that grows by one per turn while [inv] holds fires the turn it
    would exceed [T]. *)
Lemma counts_down (f : session -> session) (inv post : session -> Prop) (cnt : session -> Z) T s :
  (forall s, inv s -> cnt s < T -> inv (f s) /\ cnt (f s) = cnt s + 1) ->
  (forall s, inv s -> cnt s = T -> post (f s)) ->
  inv s -> cnt s <= T ->
  (forall m : nat, Z.of_nat m <= T - cnt s -> inv (iter m f s)) /\
  post (iter (S (Z.to_nat (T - cnt s))) f s).
Proof.
  intros Hstep Hfire Hs Hc.
  assert (H : forall m : nat, Z.of_nat m <= T - cnt s ->
    inv (iter m f s) /\ cnt (iter m f s) = cnt s + Z.of_nat m).
  { induction m as [|m IH]; intros Hm; [split; [done | cbn; lia]|].
    destruct IH as [I1 I2]; [lia|]. rewrite iter_S.
    destruct (Hstep _ I1) as [J1 J2]; [lia|]. split; [done | lia]. }
  split; [intros m Hm; by apply H|]. rewrite iter_S.
  destruct (H (Z.to_nat (T - cnt s))) as [I1 I2]; [lia|]. apply Hfire; [done | lia].
Qed.

(** Faulted, with nothing that stops the session at once. *)
Definition awaiting_recovery (T r : Z) (s : session) : Prop :=
  taskState (me s) = flag_EVSE_Request_Charge /\ faulted s /\
  restoreSession (config (glob s)) = true /\ MeterPowerLoss (MeterFaults (me s)) = false /\
  MeterOverCurrent (MeterFaults (me s)) = false /\ gfciButton (glob s) = false /\
  sessionRestoreTime (config (glob s)) = T /\ fault_reason s = r /\
  0 <= ChargingFaultTimeCount (me s).

Definition stopped_for (r : Z) (s : session) : Prop :=
  taskState (me s) = flag_EVSE_Stop_Transaction /\ stopReason (ConnectorData (me s)) = r.

#[local] Ltac guard_hook ::= lia.

Lemma recovery_step id T r s :
  T < 65535 -> awaiting_recovery T r s -> ChargingFaultTimeCount (me s) < T ->
  awaiting_recovery T r (ConnectorTask id s) /\
  ChargingFaultTimeCount (me (ConnectorTask id s)) = ChargingFaultTimeCount (me s) + 1.
Proof.
  intros HT (Ht & Hf & H1 & H2 & H3 & H4 & H5 & H6 & H7) Hc.
  rewrite faulted_turn by done.
  assert (Hu : u16 (ChargingFaultTimeCount (me s) + 1) = ChargingFaultTimeCount (me s) + 1)
    by (apply u16_small; lia).
  symexec_as (charge_fault s) ltac:(unfold charge_fault; unfold_calls).
  unfold awaiting_recovery, faulted, authorised_card, fault_reason in *; cbn; cbn in *.
  rewrite Hu. split; [|done]. split_and!; tauto || lia.
Qed.

Lemma recovery_fires id T r s :
  T < 65535 -> awaiting_recovery T r s -> ChargingFaultTimeCount (me s) = T ->
  stopped_for r (ConnectorTask id s).
Proof.
  intros HT (Ht & Hf & H1 & H2 & H3 & H4 & H5 & <- & H7) Hc.
  rewrite faulted_turn by done.
  assert (Hu : u16 (ChargingFaultTimeCount (me s) + 1) = ChargingFaultTimeCount (me s) + 1)
    by (apply u16_small; lia).
  symexec_as (charge_fault s) ltac:(unfold charge_fault; unfold_calls).
  unfold stopped_for, fault_reason; cbn. split; [done|].
  rewrite H2, H3, H4. by repeat if_split.
Qed.

Lemma fault_stops_at_once id s :
  taskState (me s) = flag_EVSE_Request_Charge -> faulted s ->
  restoreSession (config (glob s)) && MeterPowerLoss (MeterFaults (me s)) = false ->
  negb (restoreSession (config (glob s))) || MeterOverCurrent (MeterFaults (me s))
    || gfciButton (glob s) = true ->
  stopped_for (fault_reason s) (ConnectorTask id s).
Proof.
  intros Ht Hf H1 H2. rewrite faulted_turn by done.
  symexec_as (charge_fault s) ltac:(unfold charge_fault; unfold_calls).
  unfold stopped_for, fault_reason; cbn. split; [done|]. by repeat if_split.
Qed.

(** Waiting for the mains. *)
Definition awaiting_power (s : session) : Prop :=
  taskState (me s) = flag_EVSE_Request_Charge /\ faulted s /\
  restoreSession (config (glob s)) = true /\ MeterPowerLoss (MeterFaults (me s)) = true.

Lemma power_step id s : awaiting_power s -> awaiting_power (ConnectorTask id s).
Proof.
  intros (Ht & Hf & H1 & H2). rewrite faulted_turn by done.
  symexec_as (charge_fault s) ltac:(unfold charge_fault; unfold_calls).
  unfold awaiting_power, faulted, authorised_card in *; cbn; cbn in *. tauto.
Qed.


(** ** A vehicle that stops drawing *)

(** The vehicle is connected and not charging (B2), nothing else is wrong. *)
Definition suspended (s : session) : Prop :=
  taskState (me s) = flag_EVSE_Request_Charge /\ cpEnable (me s) = true /\
  cpState (me s) = STATE_B2 /\ connectorFault (me s) = false /\
  isTransactionOngoing (ConnectorData (me s)) = true /\ authorised_card s.

Lemma suspended_turn id s : suspended s -> ConnectorTask id s = charge_suspended s.
Proof.
  intros (Ht & He & Hs & Hf & Ho & Hc). unfold ConnectorTask, withs. rewrite Ht.
  unfold processChargeState, seqc at 1.
  assert (charge_relay id s = s) as ->.
  { unfold charge_relay, whenc, ifc, skip. by rewrite He. }
  unfold seqc at 1.
  assert (charge_supervise id s = charge_suspended s) as ->.
  { unfold charge_supervise, whenc, ifc, ev_plugged, unplugged, cp_is.
    by rewrite He, Hs, Hf, Ho. }
  unfold seqc. set (s1 := charge_suspended s).
  assert (same (fun s => (cpEnable (me s), cpState (me s), UnkownId (ConnectorData (me s)),
                          InvalidId (ConnectorData (me s)))) s s1) as E
    by (unfold s1, charge_suspended; same_tac).
  injection E as E1 E2 E3 E4. destruct Hc as [Hc1 Hc2]. cbn in E1, E2, E3, E4.
  rewrite deauthorize_skips by (split; congruence).
  unfold whenc, ifc, skip, charging_now, cp_is. by rewrite E1, E2, He, Hs.
Qed.

Definition suspended_for (T : Z) (s : session) : Prop :=
  suspended s /\ StopTransactionInSuspendedState (config (glob s)) = true /\
  StopTransactionInSuspendedStateTime (config (glob s)) = T /\
  0 <= ChargingSuspendedTimeCount (me s).

Lemma suspended_step id T s :
  T < 65535 -> suspended_for T s -> ChargingSuspendedTimeCount (me s) < T ->
  suspended_for T (ConnectorTask id s) /\
  ChargingSuspendedTimeCount (me (ConnectorTask id s)) = ChargingSuspendedTimeCount (me s) + 1.
Proof.
  intros HT (Hs & H1 & H2 & H3) Hc. rewrite suspended_turn by done.
  assert (Hu : u16 (ChargingSuspendedTimeCount (me s) + 1) = ChargingSuspendedTimeCount (me s) + 1)
    by (apply u16_small; lia).
  destruct Hs as (Ht & He & Hs & Hf & Ho & Hc').
  symexec_as (charge_suspended s) ltac:(unfold charge_suspended).
  unfold suspended_for, suspended, authorised_card in *; cbn; cbn in *.
  rewrite Hu. split; [|done]. split_and!; tauto || lia.
Qed.

Lemma suspended_fires id T s :
  T < 65535 -> suspended_for T s -> ChargingSuspendedTimeCount (me s) = T ->
  stopped_for Stop_EVDisconnected (ConnectorTask id s).
Proof.
  intros HT (Hs & H1 & H2 & H3) Hc. rewrite suspended_turn by done.
  assert (Hu : u16 (ChargingSuspendedTimeCount (me s) + 1) = ChargingSuspendedTimeCount (me s) + 1)
    by (apply u16_small; lia).
  destruct Hs as (Ht & He & Hs & Hf & Ho & Hc').
  symexec_as (charge_suspended s) ltac:(unfold charge_suspended).
  by split.
Qed.

Lemma suspended_waits id s :
  suspended s -> StopTransactionInSuspendedState (config (glob s)) = false ->
  suspended (ConnectorTask id s) /\
  StopTransactionInSuspendedState (config (glob (ConnectorTask id s))) = false.
Proof.
  intros Hs H1. rewrite suspended_turn by done. destruct Hs as (Ht & He & Hs & Hf & Ho & Hc').
  symexec_as (charge_suspended s) ltac:(unfold charge_suspended).
  unfold suspended, authorised_card in *; cbn; cbn in *. split_and!; tauto.
Qed.

(** While the vehicle stays connected without drawing (state B2),
    the session is kept for the seconds that remain of
    [StopTransactionInSuspendedStateTime] and stopped as "EVDisconnected" one
    second after; with [StopTransactionInSuspendedState] off it is kept for
    as long as that lasts. *)
Theorem suspension_policy id s :
  suspended s ->
  0 <= ChargingSuspendedTimeCount (me s) <= StopTransactionInSuspendedStateTime (config (glob s)) ->
  StopTransactionInSuspendedStateTime (config (glob s)) < 65535 ->
  let left := StopTransactionInSuspendedStateTime (config (glob s)) - ChargingSuspendedTimeCount (me s) in
  if StopTransactionInSuspendedState (config (glob s)) then
    (forall m : nat, Z.of_nat m <= left ->
       taskState (me (iter m (ConnectorTask id) s)) = flag_EVSE_Request_Charge) /\
    stopped_for Stop_EVDisconnected (iter (S (Z.to_nat left)) (ConnectorTask id) s)
  else
    forall m : nat, taskState (me (iter m (ConnectorTask id) s)) = flag_EVSE_Request_Charge.
Proof.
  intros Hs Hc HT. cbv zeta.
  destruct (StopTransactionInSuspendedState _) eqn:E1.
  - destruct (counts_down (ConnectorTask id)
      (suspended_for (StopTransactionInSuspendedStateTime (config (glob s))))
      (stopped_for Stop_EVDisconnected) (fun s => ChargingSuspendedTimeCount (me s))
      (StopTransactionInSuspendedStateTime (config (glob s))) s) as [H1 H2].
    + intros s0 H0 H. apply suspended_step; [lia|done|done].
    + intros s0 H0 H. by eapply suspended_fires; [|done|done].
    + split_and!; try done. lia.
    + lia.
    + split; [|done]. intros m Hm. by apply H1.
  - intros m.
    enough (suspended (iter m (ConnectorTask id) s) /\
      StopTransactionInSuspendedState (config (glob (iter m (ConnectorTask id) s))) = false)
      as [H _] by apply H.
    apply (iter_invariant (fun s => suspended s /\
      StopTransactionInSuspendedState (config (glob s)) = false)); [|done].
    intros s0 [H1 H2]. by apply suspended_waits.
Qed.

(** ** An unanswered start *)

(** Online in the start state, no answer to the request in flight. *)
Definition unanswered (s : session) : Prop :=
  taskState (me s) = flag_EVSE_Start_Transaction /\ not_busy s = true /\ online_now s = true /\
  1 <= TransactionMessageAttempts (CPGetConfigurationResponse (glob s)) /\
  0 <= TransactionMessageRetryInterval (CPGetConfigurationResponse (glob s)) /\
  (st_Sent (CPStartTransactionRequest (me s)) = true ->
   sr_Received (CMSStartTransactionResponse (me s)) = false /\ start_retryCount (me s) = 0).

Lemma unanswered_step id s : unanswered s -> unanswered (ConnectorTask id s).
Proof.
  intros (Ht & Hb & Ho & Ha & Hi & Hs). unfold ConnectorTask, withs. rewrite Ht.
  unfold whenc, ifc at 1. rewrite Hb.
  assert (Hu1 : u32 (0 + 1) = 1) by reflexivity.
  destruct (st_Sent (CPStartTransactionRequest (me s))) eqn:E0;
    [destruct (Hs eq_refl) as [Hs1 Hs2];
     assert (Hu2 : u32 (start_retryCount (me s) + 1) = 1) by (by rewrite Hs2)|].
  all: cbn in Ho, Hb.
  all: symexec_as (processStartTransactionState id s)
    ltac:(unfold processStartTransactionState, send_start, start_offline, await_start,
      retry_start, drop_start_flags, begin_transaction, stamp_start,
      sendStartTransactionRequest, next_id, custom_nvs_write_connector_data).
  all: unfold unanswered; cbn; split_and!; try done; intros; by first [split | discriminate].
Qed.

(** As long as the charge point is online and the central system
    does not answer, the task never leaves the start state, for any
    [TransactionMessageAttempts] of at least one: every resend resets the
    retry counter, so the attempts never run out. *)
Theorem unanswered_start_never_gives_up id s :
  unanswered s ->
  forall n : nat, taskState (me (iter n (ConnectorTask id) s)) = flag_EVSE_Start_Transaction.
Proof.
  intros Hs n. enough (unanswered (iter n (ConnectorTask id) s)) as H by apply H.
  apply iter_invariant; [apply unanswered_step | done].
Qed.

(** ** Stopping *)

(** Offline: what is queued for the central system. *)
Definition offline_record (s : session) : ConnectorPrivateData_t :=
  (ConnectorData (me s)) <| isTransactionOngoing := false |> <| meterStop_time := clock (glob s) |>.

(** The outcome of an offline stop. *)
Definition stopped_offline (id : cid) (s s' : session) : Prop :=
  let d' := ConnectorData (me s') in
  taskState (me s') = flag_EVSE_Read_Id_Tag /\
  isTransactionOngoing d' = false /\ UnkownId d' = false /\ InvalidId d' = false /\
  meterStop d' = (if fgtb (meterStop (ConnectorData (me s))) METER_VALUE_RESET
                  then S754_zero false else meterStop (ConnectorData (me s))) /\
  trace (glob s') =
    EvWriteConnectorData id d'
    :: (if connectorFault (me s) then [] else [EvDisplay id ChargerFinishingdBit])
    ++ EvWriteOfflineData id (offline_record s) :: power_off id s ++ trace (glob s) /\
  (if connectorFault (me s) then finishingStatusPending (me s') = true
   else finishingStatusSent (me s') = true).

Lemma offline_stop_turn id s :
  taskState (me s) = flag_EVSE_Stop_Transaction -> not_busy s = true -> online_now s = false ->
  stopped_offline id s (ConnectorTask id s).
Proof.
  intros Ht Hb Ho. unfold stopped_offline. cbv zeta. unfold ConnectorTask, withs. rewrite Ht. cbn in Hb, Ho.
  unfold power_off, offline_record. destruct (connectorFault (me s)) eqn:Ef.
  all: symexec_as ((de_energise id ;; whenc not_busy (processStopTransactionState id)) s)
    ltac:(unfold de_energise, processStopTransactionState, stop_offline, reset_meter_and_save,
      custom_nvs_write_connectors_offline_data, custom_nvs_write_connector_data).
  all: cbn; use_guards; by repeat split.
Qed.

(** Claim C11.  Stopping while offline takes the power away, queues exactly one
    record of the transaction (closed, with its stop time and the meter
    reading before any reset) in the offline store, saves the connector, and
    returns to idle in the same turn; the meter is reset only past
    10,000,000 Wh, and the finishing status is announced now or, on a fault,
    left pending. *)
Theorem offline_stop_recorded id s :
  taskState (me s) = flag_EVSE_Stop_Transaction -> not_busy s = true -> online_now s = false ->
  let s' := ConnectorTask id s in
  let d' := ConnectorData (me s') in
  taskState (me s') = flag_EVSE_Read_Id_Tag /\
  isTransactionOngoing d' = false /\ UnkownId d' = false /\ InvalidId d' = false /\
  meterStop d' = (if fgtb (meterStop (ConnectorData (me s))) METER_VALUE_RESET
                  then S754_zero false else meterStop (ConnectorData (me s))) /\
  trace (glob s') =
    EvWriteConnectorData id d'
    :: (if connectorFault (me s) then [] else [EvDisplay id ChargerFinishingdBit])
    ++ EvWriteOfflineData id (offline_record s) :: power_off id s ++ trace (glob s) /\
  (if connectorFault (me s) then finishingStatusPending (me s') = true
   else finishingStatusSent (me s') = true).
Proof. apply offline_stop_turn. Qed.

Lemma memcpy_str_empty t : memcpy_str t "" = t.
Proof. induction t as [|a t IH]; cbn; [done|]. by rewrite IH. Qed.

(** The text of a stop reason in a fresh request. *)
Definition reason_text (r : Z) : string :=
  match stop_reason_text r with Some t => t | None => "" end.

(** The request a stop sends. *)
Definition stop_request (s : session) : CPStopTransactionRequest_t :=
  let d := ConnectorData (me s) in
  mkStopReq (sp_Sent (CPStopTransactionRequest (me s))) (randomNumber (glob s)) (idTag d) (i32 (f_trunc (meterStop d)))
    (memcpy_str (clock (glob s)) (sp_timestamp (CPStopTransactionRequest (me s))))
    (i32 (transactionId d)) (reason_text (stopReason d)).

(** The reason is copied into an emptied field. *)
Lemma reason_summary s :
  updatingDataToCms (me s) = false -> sp_reason (CPStopTransactionRequest (me s)) = "" ->
  updateStopStansactionReason s = setm (fun m => m <| CPStopTransactionRequest :=
    (CPStopTransactionRequest m) <| sp_reason := reason_text (stopReason (ConnectorData (me s))) |> |>) s.
Proof.
  intros Hu He. unfold updateStopStansactionReason, withs, reason_text. rewrite Hu.
  destruct (stop_reason_text _) as [t|].
  - unfold setm, update. rewrite He, memcpy_str_empty. done.
  - unfold skip. destruct s as [g m]. destruct m. cbn in He |- *.
    destruct CPStopTransactionRequest. cbn in He |- *. by rewrite He.
Qed.

(** The globals after the connector's task took the power away. *)
Definition de_energised (id : cid) (s : session) : session :=
  s <| glob := (glob s) <| trace := power_off id s ++ trace (glob s) |> |>.

Lemma de_energise_eq id s : de_energise id s = de_energised id s.
Proof.
  unfold de_energise, de_energised, power_off, ifc. destruct s as [[] m].
  cbn. destruct (vcharge_lite_1_4 _); [|done]. by destruct (cpEnable _).
Qed.

#[local] Ltac call_hook ::=
  match goal with
  | |- context [updateStopStansactionReason ?s] => rewrite (reason_summary s) by (cbn; tauto)
  end.

(** What a turn of a stop leaves while it waits for the answer, having made
    the calls [l], and once it has it. *)
Definition stop_awaits (id : cid) (s : session) (l : list event) (s' : session) : Prop :=
  taskState (me s') = flag_EVSE_Stop_Transaction /\
  sp_Sent (CPStopTransactionRequest (me s')) = true /\
  trace (glob s') = l ++ power_off id s ++ trace (glob s).
Definition stop_answered (id : cid) (s s' : session) : Prop :=
  taskState (me s') = flag_EVSE_Read_Id_Tag /\
  sp_Sent (CPStopTransactionRequest (me s')) = false /\
  exists d1 note,
    trace (glob s') = note ++ EvWriteConnectorData id (ConnectorData (me s'))
      :: EvWriteConnectorData id d1 :: power_off id s ++ trace (glob s) /\
    if connectorFault (me s) then note = [] else
      exists r, note = [EvDisplay id ChargerFinishingdBit; EvStatusNotification r] /\
        sn_status r = "Finishing" /\ sn_errorCode r = "NoError".

(** The stop request sent again. *)
Definition repeated_stop (s : session) : list event :=
  if u32 (stop_timeout (me s) + 1)
     >? TransactionMessageRetryInterval (CPGetConfigurationResponse (glob s))
  then [EvStopTransaction ((CPStopTransactionRequest (me s)) <| sp_UniqId := randomNumber (glob s) |>)]
  else [].

Lemma online_stop_turn id s :
  taskState (me s) = flag_EVSE_Stop_Transaction -> not_busy s = true -> online_now s = true ->
  1 <= TransactionMessageRetryInterval (CPGetConfigurationResponse (glob s)) ->
  if negb (sp_Sent (CPStopTransactionRequest (me s))) then
    stop_awaits id s [EvStopTransaction (stop_request s)] (ConnectorTask id s)
  else if negb (CMSStopTransactionResponse_Received (me s)) then
    stop_awaits id s (repeated_stop s) (ConnectorTask id s)
  else stop_answered id s (ConnectorTask id s).
Proof.
  intros Ht Hb Ho Hi. unfold stop_awaits, stop_answered, repeated_stop. unfold ConnectorTask, withs. rewrite Ht.
  unfold seqc. rewrite de_energise_eq. cbn in Hb, Ho.
  assert (Hu : updatingDataToCms (me s) = false) by (bool_simpl; done).
  assert (Hu1 : u32 (0 + 1) = 1) by reflexivity.
  destruct (connectorFault (me s)) eqn:Ef, (sp_Sent _) eqn:E1; cbn [negb];
    try destruct (CMSStopTransactionResponse_Received _) eqn:E2; cbn [negb].
  all: symexec_as (whenc not_busy (processStopTransactionState id) (de_energised id s))
    ltac:(unfold de_energised, processStopTransactionState, send_stop, await_stop, retry_stop,
      finishing_flag, announce_finishing, reset_meter_and_save, sendStopTransactionRequest,
      sendStatusNotificationRequest, next_id, custom_nvs_write_connector_data).
  all: cbn; use_guards; try by (unfold stop_request; split_and!).
  all: split_and!; [done..|].
  all: first
    [ eexists _, []; split; reflexivity
    | eexists _, [_; _]; split; [reflexivity|]; eexists; split_and!; reflexivity ].
Qed.

(** Claim C12.  Stopping while online: the first turn sends one request carrying
    the session's card, transaction id, meter reading, time and reason, and
    waits; later turns wait, repeating the request once the retry interval is
    exceeded, without limit; only the central system's answer returns the
    connector to idle, saved and announced as "Finishing" unless a fault leaves
    that pending.  Every one of these turns first takes the power away. *)
Theorem online_stop_reported id s :
  taskState (me s) = flag_EVSE_Stop_Transaction -> not_busy s = true -> online_now s = true ->
  1 <= TransactionMessageRetryInterval (CPGetConfigurationResponse (glob s)) ->
  let interval := TransactionMessageRetryInterval (CPGetConfigurationResponse (glob s)) in
  let s' := ConnectorTask id s in
  let sent := sp_Sent (CPStopTransactionRequest (me s)) in
  let waiting l :=
    taskState (me s') = flag_EVSE_Stop_Transaction /\
    sp_Sent (CPStopTransactionRequest (me s')) = true /\
    trace (glob s') = l ++ power_off id s ++ trace (glob s) in
  if negb sent then waiting [EvStopTransaction (stop_request s)]
  else if negb (CMSStopTransactionResponse_Received (me s)) then
    waiting (if u32 (stop_timeout (me s) + 1) >? interval
             then [EvStopTransaction ((CPStopTransactionRequest (me s))
                     <| sp_UniqId := randomNumber (glob s) |>)] else [])
  else
    taskState (me s') = flag_EVSE_Read_Id_Tag /\
    sp_Sent (CPStopTransactionRequest (me s')) = false /\
    exists d1 note,
      trace (glob s') = note ++ EvWriteConnectorData id (ConnectorData (me s'))
        :: EvWriteConnectorData id d1 :: power_off id s ++ trace (glob s) /\
      if connectorFault (me s) then note = [] else
        exists r, note = [EvDisplay id ChargerFinishingdBit; EvStatusNotification r] /\
          sn_status r = "Finishing" /\ sn_errorCode r = "NoError".
Proof. exact (online_stop_turn id s). Qed.

(** The stop reason an OCPP name stands for. *)
Definition stop_reason_of (t : string) : option Z :=
  if decide (t = "EmergencyStop") then Some Stop_EmergencyStop
  else if decide (t = "EVDisconnected") then Some Stop_EVDisconnected
  else if decide (t = "HardReset") then Some Stop_HardReset
  else if decide (t = "Local") then Some Stop_Local
  else if decide (t = "Other") then Some Stop_Other
  else if decide (t = "PowerLoss") then Some Stop_PowerLoss
  else if decide (t = "Reboot") then Some Stop_Reboot
  else if decide (t = "Remote") then Some Stop_Remote
  else if decide (t = "SoftReset") then Some Stop_SoftReset
  else if decide (t = "UnlockCommand") then Some Stop_UnlockCommand
  else if decide (t = "DeAuthorized") then Some Stop_DeAuthorized
  else None.

Lemma reason_text_decodes r : 0 <= r <= 10 -> stop_reason_of (reason_text r) = Some r.
Proof.
  intros H. assert (r = 0 \/ r = 1 \/ r = 2 \/ r = 3 \/ r = 4 \/ r = 5 \/ r = 6 \/ r = 7
    \/ r = 8 \/ r = 9 \/ r = 10) as Hr by lia.
  repeat destruct Hr as [->|Hr]; try reflexivity. subst. reflexivity.
Qed.

(** Whatever the request of the connector's previous session held,
    the reason in the stop request that is sent is the name of the session's
    stop reason and decodes back to it: no reason is lost, merged with another
    or left over. *)
Theorem stop_reason_roundtrip id s :
  sp_Sent (CPStopTransactionRequest (me s)) = false -> updatingDataToCms (me s) = false ->
  0 <= stopReason (ConnectorData (me s)) <= 10 ->
  exists r, trace (glob (send_stop id s)) = EvStopTransaction r :: trace (glob s) /\
    stop_reason_of (sp_reason r) = Some (stopReason (ConnectorData (me s))).
Proof.
  intros E1 Hu Hr.
  symexec_as (send_stop id s)
    ltac:(unfold send_stop, finishing_flag, sendStopTransactionRequest, next_id).
  all: eexists; split; [reflexivity|]; by apply reason_text_decodes.
Qed.

(** ** The energy counter *)

(** The turn samples the meter: energy is flowing once the supervision let the
    session continue, and it is a fifth turn. *)
Definition metered (id : cid) (s : session) : bool :=
  charging_now ((charge_relay id ;; charge_supervise id ;; charge_deauthorize) s)
  && (charge_loopCount (me s) mod MeterValueSampleTime =? 0).

(** The meter-related fields of a connector. *)
Definition meter_fields (s : session) :=
  (meterStop (ConnectorData (me s)), meterStart (ConnectorData (me s)),
   Energy (ConnectorData (me s)), meter_now (me s), charge_loopCount (me s)).

Lemma supervision_meter id :
  respects (same meter_fields) (charge_relay id ;; charge_supervise id ;; charge_deauthorize).
Proof.
  unfold charge_relay, charge_supervise, charge_fault, charge_suspended, offer_current,
    charge_deauthorize; unfold_calls. same_tac.
Qed.

(** The energy of one sampling interval. *)
Definition interval_energy (m : conn) : b64 :=
  fdiv (fmul (power (meter_now m)) (f_of_Z MeterValueSampleTime)) (f_of_Z 3600).

(** The tick before and after the meter is sampled. *)
Definition tick_before (id : cid) : cmd session :=
  setm (fun m => m <| isConnectorCharging := true |> <| ChargingFaultTimeCount := 0 |>) ;;
  WHEN fun s => cpEnable (me s) THEN
    setm (fun m => m <| ChargingSuspendedTimeCount := 0 |>) FI ;;
  setd (fun d => d <| chargingDuration := u32 (chargingDuration d + 1) |>) ;;
  WHEN fun s => smartCharging (config (glob s))
                && negb (cpDuty (config (glob s)) id =? cpDutyCycleToSet (me s)) THEN
    changeDutyCycle id
  FI.
Definition tick_after (id : cid) : cmd session :=
  report_due id ;;
  setm (fun m => m <| charge_loopCount := u32 (charge_loopCount m + 1) |>) ;;
  WHEN fun s => charge_loopCount (me s)
                  mod MeterValueSampleInterval (CPGetConfigurationResponse (glob s)) =? 0 THEN
    setm (fun m => m <| CPMeterValuesRequest :=
      (CPMeterValuesRequest m) <| mv_Sent := false |> |>)
  FI ;;
  stop_by_tap id.

Lemma tick_split id s :
  charge_tick id s = tick_after id
    ((WHEN fun s => charge_loopCount (me s) mod MeterValueSampleTime =? 0 THEN meter_sample id FI)
       (tick_before id s)).
Proof. unfold charge_tick, tick_after, tick_before. rewrite !seqc_eq. reflexivity. Qed.

Lemma tick_before_meter id : respects (same meter_fields) (tick_before id).
Proof. unfold tick_before, changeDutyCycle. same_tac. Qed.

(** The energy registers. *)
Definition registers (s : session) : b64 * b64 :=
  (meterStop (ConnectorData (me s)), Energy (ConnectorData (me s))).

Lemma tick_after_registers id : respects (same registers) (tick_after id).
Proof.
  unfold tick_after, report_due, report_meter, updateMeterValues, stop_by_tap; unfold_calls.
  same_tac.
Qed.

(** The registers after one sampling. *)
Definition advanced (m : conn) : b64 * b64 :=
  let stop := fadd (meterStop (ConnectorData m)) (interval_energy m) in
  (stop, fsub stop (meterStart (ConnectorData m))).

Lemma sample_registers id s : registers (meter_sample id s) = advanced (me s).
Proof.
  symexec_as (meter_sample id s) ltac:(unfold meter_sample, custom_nvs_write_connector_data);
    reflexivity.
Qed.

Lemma tick_registers id s :
  registers (charge_tick id s) =
  if charge_loopCount (me s) mod MeterValueSampleTime =? 0 then advanced (me s) else registers s.
Proof.
  rewrite tick_split, (tick_after_registers id _).
  pose proof (tick_before_meter id s) as E. set (s1 := tick_before id s) in *.
  injection E as E1 E2 E3 E4 E5. unfold whenc, ifc, skip. rewrite E5.
  destruct (_ =? 0); [rewrite sample_registers | ].
  - unfold advanced, interval_energy. by rewrite E1, E2, E4.
  - unfold registers. by rewrite E1, E3.
Qed.

(** The energy counter advances only while energy is flowing: on a
    sampling turn of the charge state it grows by the measured power over the
    five-second interval and the session's energy is its growth since the
    start; on every other turn in the charge state both registers stand
    still, as the counter does while idle, authenticating and starting.
    Energy flows only to a fault-free connector whose session the supervision
    let go on, with its pilot, if it has one, in C or D. *)
Theorem energy_only_while_charging id s :
  let s' := ConnectorTask id s in
  match taskState (me s) with
  | flag_EVSE_Request_Charge =>
      registers s' = (if metered id s then advanced (me s) else registers s)
  | flag_EVSE_Stop_Transaction => True
  | _ => meterStop (ConnectorData (me s')) = meterStop (ConnectorData (me s))
  end /\
  (metered id s = true -> connectorFault (me s) = false /\
    (cpEnable (me s) = true -> cpState (me s) = STATE_C \/ cpState (me s) = STATE_D)).
Proof.
  cbv zeta. split.
  - unfold ConnectorTask, withs. destruct (taskState (me s)) eqn:Ht; try done.
    + enough (same (fun s => meterStop (ConnectorData (me s))) s
        ((WHEN not_busy THEN processRfidState id FI) s)) as H by exact H.
      unfold_rfid. same_tac.
    + enough (same (fun s => meterStop (ConnectorData (me s))) s
        ((WHEN not_busy THEN processAuthenticationState id FI) s)) as H by exact H.
      unfold_auth. same_tac.
    + enough (same (fun s => meterStop (ConnectorData (me s))) s
        ((WHEN not_busy THEN processStartTransactionState id FI) s)) as H by exact H.
      unfold_start. same_tac.
    + unfold metered. set (s1 := (_ ;; _ ;; _) s).
      pose proof (supervision_meter id s) as E. fold s1 in E. injection E as E1 E2 E3 E4 E5.
      change (processChargeState id s) with ((WHEN charging_now THEN charge_tick id FI) s1).
      unfold whenc, ifc, skip. destruct (charging_now s1); cbn [andb].
      * rewrite tick_registers, E5. destruct (_ =? 0).
        -- unfold advanced, interval_energy. by rewrite E1, E2, E4.
        -- unfold registers. by rewrite E1, E3.
      * unfold registers. by rewrite E1, E3.
  - unfold metered. set (s1 := (_ ;; _ ;; _) s).
    assert (same (fun s => (connectorFault (me s), cpEnable (me s), cpState (me s))) s s1) as E.
    { unfold s1, charge_relay, charge_supervise, charge_fault, charge_suspended, offer_current,
        charge_deauthorize; unfold_calls. same_tac. }
    injection E as E1 E2 E3. unfold charging_now, cp_is. rewrite E1, E2, E3.
    intros H. bool_simpl. split; [done|]. intros He. rewrite He in *. cbn in *. lia.
Qed.

(** ** Concrete sessions *)

Definition example_charge : session :=
  mkSession (example_shared <| config := (config example_shared)
      <| restoreSession := true |> <| sessionRestoreTime := 3 |>
      <| StopTransactionInSuspendedState := true |>
      <| StopTransactionInSuspendedStateTime := 2 |> |>)
    (example_conn <| taskState := flag_EVSE_Request_Charge |>
       <| ConnectorData := zero_data <| isTransactionOngoing := true |> |>).

(** An earth-leakage-free fault with three seconds of grace. *)
Definition example_fault : session :=
  setm (fun m => m <| connectorFault := true |>) example_charge.


Definition example_suspended : session :=
  setm (fun m => m <| cpState := STATE_B2 |>) example_charge.

Lemma suspension_policy_witness :
  taskState (me (iter 2 (ConnectorTask Conn1) example_suspended)) = flag_EVSE_Request_Charge /\
  stopped_for Stop_EVDisconnected (iter 3 (ConnectorTask Conn1) example_suspended).
Proof.
  assert (Hs : suspended example_suspended) by (repeat split).
  assert (Hc : 0 <= ChargingSuspendedTimeCount (me example_suspended)
               <= StopTransactionInSuspendedStateTime (config (glob example_suspended)))
    by (cbn; lia).
  assert (HT : StopTransactionInSuspendedStateTime (config (glob example_suspended)) < 65535)
    by (cbn; lia).
  destruct (suspension_policy Conn1 example_suspended Hs Hc HT) as [H1 H2].
  split; [apply (H1 2%nat); cbn; lia | exact H2].
Defined.

Definition go_online (s : session) : session :=
  setg (fun g => g <| isWebsocketConnected := true |> <| isWebsocketBooted := true |>) s.

Definition example_start : session :=
  go_online (setm (fun m => m <| taskState := flag_EVSE_Start_Transaction |>) example_charge).

Lemma unanswered_start_never_gives_up_witness :
  TransactionMessageAttempts (CPGetConfigurationResponse (glob example_start)) = 2 /\
  taskState (me (iter 1000 (ConnectorTask Conn1) example_start)) = flag_EVSE_Start_Transaction.
Proof.
  split; [reflexivity|]. apply unanswered_start_never_gives_up.
  unfold unanswered; cbn; repeat split; lia || discriminate.
Defined.

Definition example_stop : session :=
  setm (fun m => m <| taskState := flag_EVSE_Stop_Transaction |>
    <| ConnectorData := (ConnectorData m) <| stopReason := Stop_Local |> |>) example_charge.

Lemma offline_stop_recorded_witness :
  taskState (me (ConnectorTask Conn1 example_stop)) = flag_EVSE_Read_Id_Tag /\
  meterStop_time (offline_record example_stop) = "2024-01-01T00:00:00.000Z".
Proof.
  pose proof (offline_stop_recorded Conn1 example_stop eq_refl eq_refl eq_refl) as (H & _).
  split; [exact H | reflexivity].
Defined.

Lemma online_stop_reported_witness :
  trace (glob (ConnectorTask Conn1 (go_online example_stop))) =
  [EvStopTransaction (stop_request (go_online example_stop));
   EvSetControlPilotDuty 100; EvUpdateRelayState Conn1 false].
Proof.
  assert (Hi : 1 <= TransactionMessageRetryInterval
    (CPGetConfigurationResponse (glob (go_online example_stop)))) by (cbn; lia).
  pose proof (online_stop_reported Conn1 (go_online example_stop) eq_refl eq_refl eq_refl Hi)
    as (_ & _ & H).
  exact H.
Defined.

Lemma stop_reason_roundtrip_witness :
  exists r, trace (glob (send_stop Conn1 (go_online example_stop))) = [EvStopTransaction r] /\
    stop_reason_of (sp_reason r) = Some Stop_Local.
Proof.
  apply (stop_reason_roundtrip Conn1 (go_online example_stop)); [reflexivity..|vm_compute; split; discriminate].
Defined.
