(* ===== verification/Upload.v ===== *)
(** * Reporting after a reconnection ([main/ocpp_task.c])

    When the central system is reachable again, [sendOfflineTransactionsData]
    replays a connector's offline queue and [sendOngoigTransactionsData]
    deals with a transaction that was open when the charge point restarted.
    Both send a request and poll for its answer every 100 ms, sending it again
    every so many polls.

    The central system is a list of answers: how many polls an answer takes,
    and what it says.  An exhausted list is a central system that never
    answers again: the C loop then spins for ever and the function returns
    [None]. *)

From S2P Require Import Prelude Binary64 Config EnergyMeter ControlPilot Nvs.
From S2P Require Import OfflineStore Session SessionSpec SessionEnd.

Record answer := mkAnswer {
  polls : nat;
  ans_status : string;
  ans_transactionId : Z
}.

(** ** Sending and polling *)

(** [while (Received == false) { delay; timeout++; if (timeout > limit)
    { timeout = 0; resend } }], the answer arriving after [ticks] polls. *)
Fixpoint poll (limit : Z) (resend : cmd session) (ticks : nat) (timeout : Z) : cmd session :=
  match ticks with
  | O => skip
  | S ticks =>
      if u32 (timeout + 1) >? limit then resend ;; poll limit resend ticks 0
      else poll limit resend ticks (u32 (timeout + 1))
  end.

Definition clear_start_flags : cmd session :=
  setm (fun m => m
    <| CMSStartTransactionResponse :=
         (CMSStartTransactionResponse m) <| sr_Received := false |> |>
    <| CPStartTransactionRequest := (CPStartTransactionRequest m) <| st_Sent := false |> |>).
Definition clear_stop_flags : cmd session :=
  setm (fun m => m <| CMSStopTransactionResponse_Received := false |>
    <| CPStopTransactionRequest := (CPStopTransactionRequest m) <| sp_Sent := false |> |>).

(** Send the prepared start request and wait for [a]. *)
Definition exchange_start (limit : Z) (a : answer) : cmd session :=
  sendStartTransactionRequest ;;
  poll limit sendStartTransactionRequest (polls a) 0 ;;
  setm (fun m => m <| CMSStartTransactionResponse :=
    mkStartResp true (ans_status a) (ans_transactionId a) |>) ;;
  clear_start_flags.

Definition exchange_stop (limit : Z) (a : answer) : cmd session :=
  sendStopTransactionRequest ;;
  poll limit sendStopTransactionRequest (polls a) 0 ;;
  setm (fun m => m <| CMSStopTransactionResponse_Received := true |>) ;;
  clear_stop_flags.

(** The start request of a recorded transaction. *)
Definition prepare_start (connId : cid) (d : ConnectorPrivateData_t) : cmd session :=
  setm (fun m => m <| CPStartTransactionRequest := (CPStartTransactionRequest m)
    <| st_Sent := false |> <| st_connectorId := cid_to_Z connId |>
    <| st_idTag := idTag d |> <| st_meterStart := i32 (f_trunc (meterStart d)) |>
    <| st_reservationIdPresent := false |> <| st_timestamp := meterStart_time d |> |>).

(** The stop request of a recorded transaction. *)
Definition prepare_stop (d : ConnectorPrivateData_t) : cmd session :=
  setm (fun m => m <| CPStopTransactionRequest := (CPStopTransactionRequest m)
    <| sp_reason := "" |> <| sp_idTag := idTag d |>
    <| sp_meterStop := i32 (f_trunc (meterStop d)) |>
    <| sp_timestamp := meterStop_time d |> |>) ;;
  updateStopStansactionReason ;;
  setm (fun m => m <| CPStopTransactionRequest := (CPStopTransactionRequest m)
    <| sp_transactionId := i32 (transactionId d) |> |>).

(** ** Replaying the offline queue *)
Section Upload.
Context {N : Type} `{NvsLaws N ConnectorPrivateData_t}.

Record uplink := mkUplink {
  sess : session;
  store : @offline N ConnectorPrivateData_t;
  cms : list answer
}.
#[local] Instance uplink_rebuild : Rebuild uplink := fun u =>
  mkUplink (sess u) (store u) (cms u).

(** [ConnectorOfflineData[connId]] is one variable in the source: the session
    sees what the store reads into it. *)
Definition read_record (connId : cid) (junk : ConnectorPrivateData_t) (u : uplink) : uplink :=
  let st := custom_nvs_read_connectors_offline_data connId junk (store u) in
  u <| store := st |>
    <| sess := setm (fun m => m <| ConnectorOfflineData :=
         OfflineStore.ConnectorOfflineData st connId |>) (sess u) |>.

(** Report the record in [ConnectorOfflineData[connId]]. *)
Definition report_record (connId : cid) (u : uplink) : option uplink :=
  let d := ConnectorOfflineData (me (sess u)) in
  if offlineStarted d then
    match cms u with
    | [] => None
    | a :: rest =>
        let s := (prepare_start connId d ;; exchange_start 1000 a) (sess u) in
        if starts_with "Accepted" (sr_status (CMSStartTransactionResponse (me s))) then
          let s := setm (fun m => m <| ConnectorOfflineData := (ConnectorOfflineData m)
            <| transactionId := sr_transactionId (CMSStartTransactionResponse m) |> |>) s in
          match rest with
          | [] => None
          | b :: rest =>
              Some (u <| sess := (prepare_stop (ConnectorOfflineData (me s)) ;;
                                  exchange_stop 1000 b) s |> <| cms := rest |>)
          end
        else Some (u <| sess := s |> <| cms := rest |>)
    end
  else
    match cms u with
    | [] => None
    | b :: rest =>
        Some (u <| sess := (prepare_stop d ;; exchange_stop 1000 b) (sess u) |>
                <| cms := rest |>)
    end.

(** One iteration of the replay loop. *)
Definition upload_step (connId : cid) (junk : ConnectorPrivateData_t) (u : uplink) : option uplink :=
  match report_record connId (read_record connId junk u) with
  | None => None
  | Some u => Some (u <| store := custom_nvs_read_connectors_offline_data_count (store u) |>)
  end.

Fixpoint upload_loop (fuel : nat) (connId : cid) (junk : ConnectorPrivateData_t) (u : uplink)
    : option uplink :=
  if updatingOfflineData (store u) connId then
    match fuel with
    | O => None
    | S fuel =>
        match upload_step connId junk u with
        | None => None
        | Some u => upload_loop fuel connId junk u
        end
    end
  else Some u.

Definition sendOfflineTransactionsData (fuel : nat) (connId : cid) (junk : ConnectorPrivateData_t)
    (u : uplink) : option uplink :=
  let u := u <| sess := setm (fun m => m <| updatingDataToCms := true |>) (sess u) |> in
  match upload_loop fuel connId junk u with
  | None => None
  | Some u => Some (u <| sess := setm (fun m => m <| updatingDataToCms := false |>) (sess u) |>)
  end.
End Upload.

(** ** What the central system is told *)

(** The content of a transaction message, without its sequence number. *)
Inductive report :=
  | RStart (connId : Z) (tag : string) (meter : Z) (time : string)
  | RStop (txn : Z) (tag : string) (meter : Z) (time reason : string).

Definition start_report (r : CPStartTransactionRequest_t) : report :=
  RStart (st_connectorId r) (st_idTag r) (st_meterStart r) (st_timestamp r).
Definition stop_report (r : CPStopTransactionRequest_t) : report :=
  RStop (sp_transactionId r) (sp_idTag r) (sp_meterStop r) (sp_timestamp r) (sp_reason r).

Definition report_of (e : event) : option report :=
  match e with
  | EvStartTransaction r => Some (start_report r)
  | EvStopTransaction r => Some (stop_report r)
  | _ => None
  end.

(** The transaction messages sent so far, in order. *)
Definition reports (s : session) : list report := omap report_of (reverse (trace (glob s))).

Lemma reports_cons s s' e :
  trace (glob s') = e :: trace (glob s) ->
  reports s' = reports s ++ omap report_of [e].
Proof. intros E. unfold reports. by rewrite E, reverse_cons, omap_app. Qed.

Lemma reports_same s s' : trace (glob s') = trace (glob s) -> reports s' = reports s.
Proof. intros E. unfold reports. by rewrite E. Qed.

Lemma poll_respects (R : session -> session -> Prop) `{!PreOrder R} limit resend ticks t :
  respects R resend -> respects R (poll limit resend ticks t).
Proof.
  intros Hr. revert t. induction ticks as [|k IH]; intros t; cbn [poll]; [by apply respects_skip|].
  destruct (_ >? _); [apply respects_seq; auto | apply IH].
Qed.

(** A request that repeats itself: sending it reports [r] and leaves it so. *)
Definition repeats (P : session -> Prop) (r : report) (resend : cmd session) : Prop :=
  forall s, P s -> P (resend s) /\ reports (resend s) = reports s ++ [r].

(** Polling for [k] ticks sends the request again every [limit + 1] ticks. *)
Lemma poll_reports P r resend limit ticks t s :
  repeats P r resend -> 0 <= t <= limit -> limit < 2^31 -> P s ->
  P (poll limit resend ticks t s) /\
  reports (poll limit resend ticks t s)
  = reports s ++ replicate (Z.to_nat ((t + Z.of_nat ticks) / (limit + 1))) r.
Proof.
  intros Hr. revert t s. induction ticks as [|k IH]; intros t s Ht Hl Hs; cbn [poll].
  - unfold skip. rewrite Z.div_small by lia. cbn. by rewrite app_nil_r.
  - rewrite u32_small by lia. destruct (t + 1 >? limit) eqn:E; bool_simpl.
    + rewrite seqc_eq. destruct (Hr s Hs) as [H1 H2].
      destruct (IH 0 (resend s)) as [H3 H4]; [lia..|done|]. split; [done|].
      rewrite H4, H2, <-app_assoc. f_equal.
      replace (t + Z.of_nat (S k)) with (0 + Z.of_nat k + 1 * (limit + 1)) by lia.
      rewrite Z.div_add by lia.
      assert (0 <= (0 + Z.of_nat k) / (limit + 1)) by (apply Z.div_pos; lia).
      rewrite Z2Nat.inj_add by lia. rewrite Nat.add_comm. reflexivity.
    + destruct (IH (t + 1) s) as [H3 H4]; [lia..|done|]. split; [done|]. rewrite H4.
      replace (t + 1 + Z.of_nat k) with (t + Z.of_nat (S k)) by lia. reflexivity.
Qed.

Lemma start_repeats r : repeats (fun s => start_report (CPStartTransactionRequest (me s)) = r) r
  sendStartTransactionRequest.
Proof.
  intros s <-. split; [done|].
  erewrite reports_cons by (unfold sendStartTransactionRequest, next_id; reflexivity). done.
Qed.

Lemma stop_repeats r : repeats (fun s => stop_report (CPStopTransactionRequest (me s)) = r) r
  sendStopTransactionRequest.
Proof.
  intros s <-. split; [done|].
  erewrite reports_cons by (unfold sendStopTransactionRequest, next_id; reflexivity). done.
Qed.

(** How often a request is sent until the answer [a] arrives. *)
Definition sendings (limit : Z) (a : answer) : nat :=
  S (Z.to_nat (Z.of_nat (polls a) / (limit + 1))).

(** What an exchange leaves alone. *)
Definition upload_frame (s : session) :=
  (updatingDataToCms (me s), ConnectorOfflineData (me s)).

Lemma exchange_start_spec limit a s :
  0 <= limit < 2^31 ->
  let s' := exchange_start limit a s in
  reports s' = reports s ++
    replicate (sendings limit a) (start_report (CPStartTransactionRequest (me s))) /\
  CMSStartTransactionResponse (me s') = mkStartResp false (ans_status a) (ans_transactionId a) /\
  upload_frame s' = upload_frame s.
Proof.
  intros Hl. cbv zeta. unfold exchange_start. rewrite !seqc_eq.
  set (r := start_report (CPStartTransactionRequest (me s))).
  destruct (start_repeats r s eq_refl) as [H1 H2].
  set (s1 := sendStartTransactionRequest s) in *.
  destruct (poll_reports _ r _ limit (polls a) 0 s1 (start_repeats r)) as [H3 H4]; [lia..|exact H1|].
  set (s2 := poll limit sendStartTransactionRequest (polls a) 0 s1) in *.
  split; [|split; [reflexivity|]].
  - rewrite (reports_same s2) by reflexivity. rewrite H4, H2, <-app_assoc. reflexivity.
  - transitivity (upload_frame s2); [reflexivity|].
    transitivity (upload_frame s1); [|reflexivity].
    unfold s2. apply (poll_respects (same upload_frame)).
    unfold sendStartTransactionRequest, next_id. same_tac.
Qed.

Lemma exchange_stop_spec limit a s :
  0 <= limit < 2^31 ->
  let s' := exchange_stop limit a s in
  reports s' = reports s ++
    replicate (sendings limit a) (stop_report (CPStopTransactionRequest (me s))) /\
  upload_frame s' = upload_frame s.
Proof.
  intros Hl. cbv zeta. unfold exchange_stop. rewrite !seqc_eq.
  set (r := stop_report (CPStopTransactionRequest (me s))).
  destruct (stop_repeats r s eq_refl) as [H1 H2].
  set (s1 := sendStopTransactionRequest s) in *.
  destruct (poll_reports _ r _ limit (polls a) 0 s1 (stop_repeats r)) as [H3 H4]; [lia..|exact H1|].
  set (s2 := poll limit sendStopTransactionRequest (polls a) 0 s1) in *.
  split.
  - rewrite (reports_same s2) by reflexivity. rewrite H4, H2, <-app_assoc. reflexivity.
  - transitivity (upload_frame s2); [reflexivity|].
    transitivity (upload_frame s1); [|reflexivity].
    unfold s2. apply (poll_respects (same upload_frame)).
    unfold sendStopTransactionRequest, next_id. same_tac.
Qed.

(** What reporting record [d] tells the central system answering [cms], and
    the answers left; [None] when an answer never comes. *)
Definition accepted (a : answer) : bool := starts_with "Accepted" (ans_status a).

Definition start_of (id : cid) (d : ConnectorPrivateData_t) : report :=
  RStart (cid_to_Z id) (idTag d) (i32 (f_trunc (meterStart d))) (meterStart_time d).
Definition stop_of (txn : Z) (d : ConnectorPrivateData_t) : report :=
  RStop (i32 txn) (idTag d) (i32 (f_trunc (meterStop d))) (meterStop_time d)
    (reason_text (stopReason d)).

Definition report_one (id : cid) (d : ConnectorPrivateData_t) (cms : list answer)
    : option (list report * list answer) :=
  match offlineStarted d, cms with
  | _, [] => None
  | false, b :: rest => Some (replicate (sendings 1000 b) (stop_of (transactionId d) d), rest)
  | true, a :: rest =>
      let started := replicate (sendings 1000 a) (start_of id d) in
      if accepted a then
        match rest with
        | [] => None
        | b :: rest =>
            Some (started ++ replicate (sendings 1000 b) (stop_of (ans_transactionId a) d), rest)
        end
      else Some (started, rest)
  end.

Fixpoint report_all (id : cid) (q : list ConnectorPrivateData_t) (cms : list answer)
    : option (list report * list answer) :=
  match q with
  | [] => Some ([], cms)
  | d :: q =>
      match report_one id d cms with
      | None => None
      | Some (l1, cms) =>
          match report_all id q cms with
          | None => None
          | Some (l2, cms) => Some (l1 ++ l2, cms)
          end
      end
  end.

(** Two answers per record suffice. *)
Lemma report_one_total id d cms :
  (2 <= length cms)%nat ->
  exists l rest, report_one id d cms = Some (l, rest) /\ (length cms <= 2 + length rest)%nat.
Proof.
  intros Hc. destruct cms as [|a [|b rest]]; cbn in Hc; [lia..|]. unfold report_one.
  destruct (offlineStarted d); [destruct (accepted a)|]; eexists _, _; (split; [reflexivity|]);
    cbn; lia.
Qed.

Lemma report_all_total id q cms :
  (2 * length q <= length cms)%nat -> exists l rest, report_all id q cms = Some (l, rest).
Proof.
  revert cms. induction q as [|d q IH]; intros cms Hc; cbn [report_all]; [by eexists _, _|].
  cbn [length] in Hc. destruct (report_one_total id d cms) as (l1 & rest & -> & Hr); [lia|].
  destruct (IH rest) as (l2 & rest2 & ->); [lia|]. by eexists _, _.
Qed.

(** [prepare_stop] fills the request from the record. *)
Lemma prepare_stop_report d s :
  updatingDataToCms (me s) = true -> stopReason (ConnectorOfflineData (me s)) = stopReason d ->
  let s' := prepare_stop d s in
  stop_report (CPStopTransactionRequest (me s')) = stop_of (transactionId d) d /\
  upload_frame s' = upload_frame s /\ reports s' = reports s.
Proof.
  intros Hu Hr. cbv zeta. unfold prepare_stop. rewrite !seqc_eq.
  set (s1 := setm _ s). unfold updateStopStansactionReason, withs.
  change (updatingDataToCms (me s1)) with (updatingDataToCms (me s)).
  change (ConnectorOfflineData (me s1)) with (ConnectorOfflineData (me s)). rewrite Hu, Hr.
  unfold stop_of, reason_text. destruct (stop_reason_text _) as [t|]; unfold skip.
  - split; [|done]. unfold stop_report. cbn. by rewrite memcpy_str_empty.
  - done.
Qed.

(** Reporting the end of a recorded transaction. *)
Lemma report_stop_spec d b s :
  updatingDataToCms (me s) = true -> stopReason (ConnectorOfflineData (me s)) = stopReason d ->
  let s' := (prepare_stop d ;; exchange_stop 1000 b) s in
  reports s' = reports s ++ replicate (sendings 1000 b) (stop_of (transactionId d) d) /\
  updatingDataToCms (me s') = true.
Proof.
  intros Hu Hr. cbv zeta. rewrite seqc_eq.
  destruct (prepare_stop_report d s Hu Hr) as (P1 & P2 & P3).
  destruct (exchange_stop_spec 1000 b (prepare_stop d s)) as (X1 & X2); [lia|].
  split; [by rewrite X1, P1, P3|].
  transitivity (updatingDataToCms (me s)); [|exact Hu].
  transitivity (updatingDataToCms (me (prepare_stop d s)));
    [exact (f_equal fst X2) | exact (f_equal fst P2)].
Qed.

Section UploadSpec.
Context {N : Type} `{NvsLaws N ConnectorPrivateData_t}.
#[local] Existing Instances uplink_rebuild offline_rebuild.

Lemma counts_represented (s : @offline N ConnectorPrivateData_t) q :
  represents s q ->
  let s' := custom_nvs_read_connectors_offline_data_count s in
  flash s' = flash s /\
  OfflineStore.ConnectorOfflineData s' = OfflineStore.ConnectorOfflineData s /\
  forall id, id <> Conn0 -> updatingOfflineData s' id = (0 <? Z.of_nat (length (q id))).
Proof.
  intros Hr. cbv zeta. unfold custom_nvs_read_connectors_offline_data_count. rewrite !seqc_eq.
  assert (Hone : forall i (s0 : @offline N ConnectorPrivateData_t), i <> Conn0 -> flash s0 = flash s ->
    read_count i s0 = s0
      <| connectorsOfflineDataCount := upd i (Z.of_nat (length (q i))) (connectorsOfflineDataCount s0) |>
      <| updatingOfflineData := upd i (0 <? Z.of_nat (length (q i))) (updatingOfflineData s0) |>).
  { intros i s0 Hi Hf. destruct (Hr i Hi) as [[Hc _] _]. unfold read_count.
    rewrite ifc_true by (by rewrite Hf, Hc). rewrite seqc_eq. unfold load_count.
    rewrite Hf, Hc. cbn. rewrite upd_same. unfold update. cbn.
    by rewrite Z.gtb_ltb. }
  rewrite (Hone Conn1 s) by done. rewrite (Hone Conn2) by done. rewrite (Hone Conn3) by done.
  split_and!; [done..|]. intros []; [done| | |]; intros _; cbn; by autorewrite with evse_upd.
Qed.

(** One record. *)
Lemma report_record_spec id (u : @uplink N) l rest :
  updatingDataToCms (me (sess u)) = true ->
  report_one id (ConnectorOfflineData (me (sess u))) (cms u) = Some (l, rest) ->
  exists u', report_record id u = Some u' /\ store u' = store u /\ cms u' = rest /\
    updatingDataToCms (me (sess u')) = true /\ reports (sess u') = reports (sess u) ++ l.
Proof.
  intros Hu. unfold report_one, report_record.
  set (d := ConnectorOfflineData (me (sess u))).
  destruct (offlineStarted d), (cms u) as [|a rest0]; try discriminate.
  - set (s1 := (prepare_start id d ;; exchange_start 1000 a) (sess u)).
    destruct (exchange_start_spec 1000 a (prepare_start id d (sess u))) as (E1 & E2 & E3); [lia|].
    change (exchange_start 1000 a (prepare_start id d (sess u))) with s1 in *.
    rewrite E2. cbn [sr_status sr_transactionId].
    change (starts_with "Accepted" (ans_status a)) with (accepted a).
    assert (Eu : updatingDataToCms (me s1) = true)
      by (transitivity (updatingDataToCms (me (sess u))); [exact (f_equal fst E3) | exact Hu]).
    assert (Ed : ConnectorOfflineData (me s1) = d) by exact (f_equal snd E3).
    destruct (accepted a).
    + destruct rest0 as [|b rest1]; [discriminate|]. intros [= <- <-].
      set (s2 := setm _ s1). eexists. split; [reflexivity|]. cbn [store cms sess].
      set (d2 := ConnectorOfflineData (me s2)).
      assert (Ed2 : d2 = d <| transactionId := ans_transactionId a |>).
      { transitivity ((ConnectorOfflineData (me s1))
          <| transactionId := sr_transactionId (CMSStartTransactionResponse (me s1)) |>);
          [reflexivity | by rewrite Ed, E2]. }
      destruct (report_stop_spec d2 b s2) as (X1 & X2); [exact Eu | reflexivity|].
      split_and!; [reflexivity..|exact X2|]. etransitivity; [exact X1|].
      change (reports s2) with (reports s1). rewrite E1, <-app_assoc, Ed2. reflexivity.
    + intros [= <- <-]. eexists. split; [reflexivity|]. split_and!; [done|done|exact Eu|].
      exact E1.
  - intros [= <- <-]. eexists. split; [reflexivity|].
    destruct (report_stop_spec d a (sess u)) as (X1 & X2); [exact Hu | reflexivity|].
    by split_and!.
Qed.
(** The store and session stand at queue [q] of connector [id]. *)
Definition replaying (id : cid) (q : queues) (u : @uplink N) : Prop :=
  represents (store u) q /\ updatingDataToCms (me (sess u)) = true /\
  updatingOfflineData (store u) id = (0 <? Z.of_nat (length (q id))).

(** One iteration takes the oldest record off the queue and reports it. *)
Lemma upload_step_spec id junk q d l u r rest :
  id <> Conn0 -> replaying id q u -> q id = d :: l -> report_one id d (cms u) = Some (r, rest) ->
  exists u', upload_step id junk u = Some u' /\ replaying id (upd id l q) u' /\
    cms u' = rest /\ reports (sess u') = reports (sess u) ++ r.
Proof.
  intros Hid (Hr & Hu & _) Hq Hone. unfold upload_step.
  destruct (Hr id Hid) as [Hh Hl]. rewrite Hq in Hh, Hl.
  unfold MAX_OFFLINE_TRANSACTIONS_FOR_CONNECTOR in Hl. cbn [length] in Hl.
  destruct (pop_spec id junk (store u) d l Hid) as (P1 & P2 & P3); [lia|exact Hh|].
  set (u1 := read_record id junk u).
  assert (Hrep : represents (store u1) (upd id l q)).
  { intros id' Hid'. destruct (decide (id' = id)) as [->|Hne]; autorewrite with evse_upd.
    - split; [exact P1|]. unfold MAX_OFFLINE_TRANSACTIONS_FOR_CONNECTOR. lia.
    - destruct (Hr id' Hid') as [H1 H2]. split; [by apply P3 | exact H2]. }
  assert (Hd : ConnectorOfflineData (me (sess u1)) = d) by exact P2.
  destruct (report_record_spec id u1 r rest) as (u2 & -> & E1 & E2 & E3 & E4);
    [exact Hu | by rewrite Hd|].
  eexists. split; [reflexivity|].
  destruct (counts_represented (store u1) (upd id l q) Hrep) as (C1 & C2 & C3).
  split_and!; [|exact E2|exact E4]. split_and!; [|exact E3|].
  - intros id' Hid'. 
    change (holds (flash (custom_nvs_read_connectors_offline_data_count (store u2))) id' (upd id l q id')
      /\ Z.of_nat (length (upd id l q id')) <= MAX_OFFLINE_TRANSACTIONS_FOR_CONNECTOR).
    rewrite E1, C1. by apply Hrep.
  - change (updatingOfflineData (custom_nvs_read_connectors_offline_data_count (store u2)) id
      = (0 <? Z.of_nat (length (upd id l q id)))).
    rewrite E1. by apply C3.
Qed.

Lemma upload_loop_spec id junk fuel q u r rest :
  id <> Conn0 -> replaying id q u -> (length (q id) <= fuel)%nat ->
  report_all id (q id) (cms u) = Some (r, rest) ->
  exists u', upload_loop fuel id junk u = Some u' /\ replaying id (upd id [] q) u' /\
    cms u' = rest /\ reports (sess u') = reports (sess u) ++ r.
Proof.
  intros Hid. revert q u r. induction fuel as [|fuel IH]; intros q u r Hr Hf Hall;
    destruct (q id) as [|d l] eqn:Hq; cbn [length] in Hf; try lia;
    pose proof Hr as (_ & _ & Hflag); rewrite Hq in Hflag; cbn [report_all length] in *.
  1, 2: injection Hall as <- <-; exists u; cbn [upload_loop]; rewrite Hflag; split; [done|];
    split; [|by rewrite app_nil_r];
    destruct Hr as (H1 & H2 & H3); split_and!; [|exact H2|by rewrite upd_same];
    intros id' Hid'; destruct (decide (id' = id)) as [->|]; autorewrite with evse_upd;
    [rewrite <-Hq|]; by apply H1.
  destruct (report_one id d (cms u)) as [[r1 rest1]|] eqn:H1; [|done].
  destruct (upload_step_spec id junk q d l u r1 rest1 Hid Hr Hq H1) as (u1 & E1 & R1 & C1 & S1).
  destruct (report_all id l rest1) as [[r2 rest2]|] eqn:H2; [|done]. injection Hall as <- <-.
  destruct (IH (upd id l q) u1 r2) as (u2 & E2 & R2 & C2 & S2).
  - exact R1.
  - rewrite upd_same. lia.
  - by rewrite upd_same, C1.
  - exists u2. cbn [upload_loop]. rewrite Hflag. cbn [Z.of_nat]. rewrite E1.
    split; [by rewrite E2|]. split_and!; [|done|by rewrite S2, S1, app_assoc].
    destruct R2 as (Q1 & Q2 & Q3). split_and!; [|exact Q2|rewrite upd_same in *; exact Q3].
    intros id' Hid'. specialize (Q1 id' Hid').
    destruct (decide (id' = id)) as [->|]; autorewrite with evse_upd in *; done.
Qed.

Lemma upload_spec id junk fuel q u r rest :
  id <> Conn0 -> represents (store u) q ->
  updatingOfflineData (store u) id = (0 <? Z.of_nat (length (q id))) ->
  (length (q id) <= fuel)%nat -> report_all id (q id) (cms u) = Some (r, rest) ->
  exists u', sendOfflineTransactionsData fuel id junk u = Some u' /\
    represents (store u') (upd id [] q) /\ cms u' = rest /\
    reports (sess u') = reports (sess u) ++ r /\
    updatingDataToCms (me (sess u')) = false /\ updatingOfflineData (store u') id = false.
Proof.
  intros Hid Hr Hflag Hf Hall.
  set (u0 := u <| sess := setm (fun m => m <| updatingDataToCms := true |>) (sess u) |>).
  destruct (upload_loop_spec id junk fuel q u0 r rest Hid) as (u1 & E1 & (R1 & R2 & R3) & C1 & S1);
    [by split_and! | exact Hf | exact Hall|].
  unfold sendOfflineTransactionsData. fold u0. rewrite E1.
  eexists. split; [reflexivity|]. rewrite upd_same in R3. by split_and!.
Qed.

(** The replay of an offline queue terminates and reports it: from a
    store that represents the queues, whenever the central system answers
    (two answers per queued transaction are enough, however late), the upload
    returns with this connector's queue empty and the others untouched, and
    has sent, oldest transaction first, exactly the messages of each record:
    the start request if it was opened offline, then, unless that start is
    rejected, the stop request with its card, meter reading, stop time and
    reason under the transaction id it was given.  A message is repeated once
    per 1001 polls its answer takes. *)
Theorem offline_upload_terminates id junk fuel q u :
  id <> Conn0 -> represents (store u) q ->
  updatingOfflineData (store u) id = (0 <? Z.of_nat (length (q id))) ->
  (length (q id) <= fuel)%nat -> (2 * length (q id) <= length (cms u))%nat ->
  exists u' r rest,
    sendOfflineTransactionsData fuel id junk u = Some u' /\
    report_all id (q id) (cms u) = Some (r, rest) /\
    represents (store u') (upd id [] q) /\ cms u' = rest /\
    reports (sess u') = reports (sess u) ++ r /\
    updatingDataToCms (me (sess u')) = false /\ updatingOfflineData (store u') id = false.
Proof.
  intros Hid Hr Hflag Hf Hc.
  destruct (report_all_total id (q id) (cms u) Hc) as (r & rest & Hall).
  destruct (upload_spec id junk fuel q u r rest Hid Hr Hflag Hf Hall) as (u' & E & H1 & H2 & H3 & H4 & H5).
  exists u', r, rest. by split_and!.
Qed.
End UploadSpec.

(** ** A transaction open at restart ([sendOngoigTransactionsData]) *)

(** A status notification without error. *)
Definition announce (connId : cid) (status : string) : cmd session :=
  withs (fun s => setm (fun m => m <| CPStatusNotificationRequest :=
    (CPStatusNotificationRequest m)
      <| sn_connectorId := cid_to_Z connId |>
      <| sn_errorCode := "NoError" |> <| sn_status := status |>
      <| sn_timestamp := memcpy_str (clock (glob s))
           (sn_timestamp (CPStatusNotificationRequest m)) |> |>)) ;;
  sendStatusNotificationRequest.

Definition not_plugged (s : session) : bool :=
  (negb (cp_is STATE_B1 s) || negb (cp_is STATE_E2 s)) && cpEnable (me s).

(** Whether the open transaction is closed instead of resumed. *)
Definition close_open (WebsocketRestart isPoweredOn : bool) (s : session) : bool :=
  (negb (resumeSession (config (glob s))) || WebsocketRestart || not_plugged s) && isPoweredOn.

(** Set the stop reason of a transaction the restart ended. *)
Definition restart_reason (unplugged : session -> bool) (isPoweredOn : bool) : cmd session :=
  WHEN fun s => negb (stopReason (ConnectorData (me s)) =? Stop_HardReset) THEN
    IF unplugged THEN setd (fun d => d <| stopReason := Stop_EVDisconnected |>)
    ELSE WHEN fun _ => isPoweredOn THEN
      setd (fun d => d <| stopReason := Stop_PowerLoss |>)
    FI FI
  FI.

(** Leave the charge state to the task, or close the transaction. *)
Definition resume (isPoweredOn : bool) : cmd session :=
  WHEN fun _ => isPoweredOn THEN goto flag_EVSE_Request_Charge FI.

Definition close_transaction (connId : cid) : cmd session :=
  announce connId "Finishing" ;;
  setd (fun d => d <| isTransactionOngoing := false |>) ;;
  custom_nvs_write_connector_data connId.

(** The stop request of the open transaction, up to its exchange; the
    transaction was opened online or its start was just accepted. *)
Definition stop_accepted (connId : cid) (isPoweredOn : bool) : cmd session :=
  announce connId "Charging" ;;
  updateMeterValues connId false ;;
  sendMeterValuesRequest connId "Sample.Periodic" ;;
  setm (fun m => m <| CPStopTransactionRequest := (CPStopTransactionRequest m)
    <| sp_reason := "" |> <| sp_idTag := idTag (ConnectorData m) |>
    <| sp_meterStop := i32 (f_trunc (meterStop (ConnectorData m))) |>
    <| sp_timestamp := meterStop_time (ConnectorData m) |> |>) ;;
  restart_reason (fun s => negb (cp_is STATE_B1 s) && cpEnable (me s)) isPoweredOn ;;
  updateStopStansactionReason ;;
  setm (fun m => m <| CPStopTransactionRequest := (CPStopTransactionRequest m)
    <| sp_transactionId := i32 (sr_transactionId (CMSStartTransactionResponse m)) |> |>).

Definition stop_online (connId : cid) (isPoweredOn : bool) : cmd session :=
  withs (fun s => setm (fun m => m <| CPStopTransactionRequest := (CPStopTransactionRequest m)
    <| sp_reason := "" |> <| sp_idTag := idTag (ConnectorData m) |>
    <| sp_meterStop := i32 (f_trunc (meterStop (ConnectorData m))) |>
    <| sp_timestamp := memcpy_str (clock (glob s))
         (sp_timestamp (CPStopTransactionRequest m)) |> |>)) ;;
  restart_reason not_plugged isPoweredOn ;;
  updateStopStansactionReason ;;
  updateMeterValues connId false ;;
  setm (fun m => m <| CPStopTransactionRequest := (CPStopTransactionRequest m)
    <| sp_transactionId := i32 (transactionId (ConnectorData m)) |> |>).

(** Close with [prepare] and one answer, or resume. *)
Definition close_or_resume (prepare : cmd session) (connId : cid) (WebsocketRestart isPoweredOn : bool)
    (s : session) (cms : list answer) : option (session * list answer) :=
  if close_open WebsocketRestart isPoweredOn s then
    match cms with
    | [] => None
    | b :: rest => Some ((prepare ;; exchange_stop 100 b ;; close_transaction connId) s, rest)
    end
  else Some (resume isPoweredOn s, cms).

Definition sendOngoigTransactionsData (connId : cid) (WebsocketRestart isPoweredOn : bool)
    (s : session) (cms : list answer) : option (session * list answer) :=
  if offlineStarted (ConnectorData (me s)) then
    match cms with
    | [] => None
    | a :: rest =>
        let s := (prepare_start connId (ConnectorData (me s)) ;; exchange_start 100 a) s in
        if starts_with "Accepted" (sr_status (CMSStartTransactionResponse (me s))) then
          let s := (setm (fun m => m <| ConnectorData := (ConnectorData m)
              <| transactionId := sr_transactionId (CMSStartTransactionResponse m) |>
              <| offlineStarted := false |> |>) ;;
            custom_nvs_write_connector_data connId) s in
          close_or_resume (stop_accepted connId isPoweredOn) connId WebsocketRestart isPoweredOn s rest
        else
          Some ((setd (fun d => d <| InvalidId := true |> <| isTransactionOngoing := false |>) ;;
                 custom_nvs_write_connector_data connId) s, rest)
    end
  else
    close_or_resume (stop_online connId isPoweredOn) connId WebsocketRestart isPoweredOn s cms.

(** What the messages leave alone. *)
Definition resume_frame (s : session) :=
  (taskState (me s), cpEnable (me s), config (glob s), isTransactionOngoing (ConnectorData (me s)),
   InvalidId (ConnectorData (me s))).

Lemma exchange_start_frame limit a : respects (same resume_frame) (exchange_start limit a).
Proof.
  assert (respects (same resume_frame) sendStartTransactionRequest)
    by (unfold sendStartTransactionRequest, next_id; same_tac).
  unfold exchange_start. apply respects_seq; [exact _|done|].
  apply respects_seq; [exact _|by apply poll_respects; [exact _|]|].
  unfold clear_start_flags. same_tac.
Qed.
Lemma exchange_stop_frame limit a : respects (same resume_frame) (exchange_stop limit a).
Proof.
  assert (respects (same resume_frame) sendStopTransactionRequest)
    by (unfold sendStopTransactionRequest, next_id; same_tac).
  unfold exchange_stop. apply respects_seq; [exact _|done|].
  apply respects_seq; [exact _|by apply poll_respects; [exact _|]|].
  unfold clear_stop_flags. same_tac.
Qed.

(** With a pilot, the plug test is vacuous. *)
Lemma not_plugged_eq s : not_plugged s = cpEnable (me s).
Proof.
  unfold not_plugged, cp_is, STATE_B1, STATE_E2.
  destruct (Z.eqb_spec (cpState (me s)) 6) as [->|]; done.
Qed.

Lemma close_spec prepare connId b s :
  respects (same resume_frame) prepare ->
  let s' := (prepare ;; exchange_stop 100 b ;; close_transaction connId) s in
  taskState (me s') = taskState (me s) /\ isTransactionOngoing (ConnectorData (me s')) = false.
Proof.
  intros Hp. cbv zeta. rewrite !seqc_eq.
  set (s1 := exchange_stop 100 b (prepare s)).
  assert (E : resume_frame s1 = resume_frame s)
    by (transitivity (resume_frame (prepare s)); [apply exchange_stop_frame | apply Hp]).
  split; [|reflexivity].
  transitivity (taskState (me s1)); [reflexivity|].
  exact (f_equal (fun x => fst (fst (fst (fst x)))) E).
Qed.

(** After an open transaction is dealt with. *)
Definition closed_from (s s' : session) : Prop :=
  taskState (me s') = taskState (me s) /\ isTransactionOngoing (ConnectorData (me s')) = false.
Definition resumed_from (isPoweredOn : bool) (s s' : session) : Prop :=
  taskState (me s') = (if isPoweredOn then flag_EVSE_Request_Charge else taskState (me s)) /\
  isTransactionOngoing (ConnectorData (me s')) = isTransactionOngoing (ConnectorData (me s)).

Definition must_close (WebsocketRestart isPoweredOn : bool) (s : session) : bool :=
  isPoweredOn && (negb (resumeSession (config (glob s))) || WebsocketRestart || cpEnable (me s)).

Lemma close_or_resume_spec prepare connId wsr on s cms :
  respects (same resume_frame) prepare -> (1 <= length cms)%nat ->
  exists s' rest, close_or_resume prepare connId wsr on s cms = Some (s', rest) /\
    if must_close wsr on s then closed_from s s' else resumed_from on s s'.
Proof.
  intros Hp Hc. unfold close_or_resume, close_open, must_close. rewrite not_plugged_eq, andb_comm.
  destruct (on && _).
  - destruct cms as [|b rest]; [cbn in Hc; lia|]. eexists _, _. split; [reflexivity|].
    by apply close_spec.
  - eexists _, _. split; [reflexivity|]. unfold resumed_from, resume, whenc, ifc, skip.
    by destruct on.
Qed.

Lemma prepare_start_frame connId d : respects (same resume_frame) (prepare_start connId d).
Proof. unfold prepare_start. same_tac. Qed.
Lemma stop_accepted_frame connId on : respects (same resume_frame) (stop_accepted connId on).
Proof. unfold stop_accepted, announce, restart_reason, updateMeterValues; unfold_calls. same_tac. Qed.
Lemma stop_online_frame connId on : respects (same resume_frame) (stop_online connId on).
Proof. unfold stop_online, restart_reason, updateMeterValues; unfold_calls. same_tac. Qed.

(** What becomes of a transaction that was open when the charge
    point restarted, once the central system answers: a transaction started
    offline whose start is now rejected is closed and marked invalid; after a
    power-up every other transaction of a connector with a control pilot is
    closed, whatever the vehicle does and even with session resume configured
    (the plug test the source intends is always true), as is one without pilot
    when resume is off or the restart was a reconnection; the rest, after a
    power-up, continues in the charge state. *)
Theorem open_transaction_policy connId wsr on s cms :
  (2 <= length cms)%nat ->
  exists s' rest, sendOngoigTransactionsData connId wsr on s cms = Some (s', rest) /\
    if offlineStarted (ConnectorData (me s)) && negb (accepted (hd (mkAnswer 0 "" 0) cms)) then
      closed_from s s' /\ InvalidId (ConnectorData (me s')) = true
    else if must_close wsr on s then closed_from s s' else resumed_from on s s'.
Proof.
  intros Hc. unfold sendOngoigTransactionsData.
  destruct (offlineStarted _) eqn:Eo; cbn [andb].
  2: { apply close_or_resume_spec; [apply stop_online_frame | lia]. }
  destruct cms as [|a rest]; [cbn in Hc; lia|]. cbn [hd length] in *.
  set (s1 := (prepare_start _ _ ;; exchange_start 100 a) s).
  assert (Ef : resume_frame s1 = resume_frame s).
  { transitivity (resume_frame (prepare_start connId (ConnectorData (me s)) s));
      [apply exchange_start_frame | apply prepare_start_frame]. }
  destruct (exchange_start_spec 100 a (prepare_start connId (ConnectorData (me s)) s))
    as (_ & E2 & _); [lia|].
  change (CMSStartTransactionResponse (me s1)
    = mkStartResp false (ans_status a) (ans_transactionId a)) in E2.
  rewrite E2. cbn [sr_status]. change (starts_with "Accepted" (ans_status a)) with (accepted a).
  clearbody s1. injection Ef as F1 F2 F3 F4 F5. destruct (accepted a); cbn [negb].
  - set (s2 := (_ ;; _) s1).
    destruct (close_or_resume_spec (stop_accepted connId on) connId wsr on s2 rest) as (s' & r & E & H);
      [apply stop_accepted_frame | lia|].
    exists s', r. split; [exact E|]. revert H. unfold must_close, closed_from, resumed_from.
    change (config (glob s2)) with (config (glob s1)). change (cpEnable (me s2)) with (cpEnable (me s1)).
    change (taskState (me s2)) with (taskState (me s1)).
    change (isTransactionOngoing (ConnectorData (me s2))) with (isTransactionOngoing (ConnectorData (me s1))).
    by rewrite F1, F2, F3, F4.
  - eexists _, _. split; [reflexivity|]. split; [split; [exact F1 | reflexivity] | reflexivity].
Qed.

(** ** From the stop to the central system *)

(** Carry out the offline-store writes of a trace, oldest event first. *)
Section Persist.
Context {N : Type} `{NvsLaws N ConnectorPrivateData_t}.

Definition persist_event (junk : ConnectorPrivateData_t) (e : event)
    (st : @offline N ConnectorPrivateData_t) : @offline N ConnectorPrivateData_t :=
  match e with
  | EvWriteOfflineData id d =>
      OfflineStore.custom_nvs_write_connectors_offline_data id d junk st
  | _ => st
  end.

Definition persist (junk : ConnectorPrivateData_t) (l : list event)
    (st : @offline N ConnectorPrivateData_t) : @offline N ConnectorPrivateData_t :=
  foldr (persist_event junk) st l.

Lemma report_all_app id q1 q2 cms r rest :
  report_all id (q1 ++ q2) cms = Some (r, rest) ->
  exists r1 r2 rest1, report_all id q1 cms = Some (r1, rest1) /\
    report_all id q2 rest1 = Some (r2, rest) /\ r = r1 ++ r2.
Proof.
  revert cms r. induction q1 as [|d q1 IH]; intros cms r; cbn [app report_all].
  { intros E. by eexists [], r, cms. }
  destruct (report_one id d cms) as [[l1 c1]|]; [|done].
  destruct (report_all id (q1 ++ q2) c1) as [[l2 c2]|] eqn:E; [|done]. intros [= <- <-].
  destruct (IH _ _ E) as (r1 & r2 & rest1 & -> & E2 & ->).
  eexists (l1 ++ r1), r2, rest1. by rewrite app_assoc.
Qed.

Lemma power_off_persists junk id s st : persist junk (power_off id s) st = st.
Proof. unfold power_off. destruct (vcharge_lite_1_4 _); [|done]. by destruct (cpEnable _). Qed.

(** Claim C15.  End to end: a session stopped offline is not lost.  Its task's
    turn in the stop state and the flash write it causes leave the offline
    store with the record behind the older ones (fewer than 100 waiting);
    once the boot count is read and the central system answers, the replay
    terminates and the last messages it sends are those of exactly this
    session: its card, its final meter reading and its stop time and reason. *)
Theorem offline_session_reaches_central_system id junk fuel q s st answers :
  id <> Conn0 -> represents st q ->
  Z.of_nat (length (q id)) < MAX_OFFLINE_TRANSACTIONS_FOR_CONNECTOR ->
  taskState (me s) = flag_EVSE_Stop_Transaction -> not_busy s = true -> online_now s = false ->
  (length (q id) < fuel)%nat -> (2 * length (q id) + 2 <= length answers)%nat ->
  let s' := ConnectorTask id s in
  exists new u' older rest1 rest own,
    trace (glob s') = new ++ trace (glob s) /\
    sendOfflineTransactionsData fuel id junk
      (mkUplink s' (custom_nvs_read_connectors_offline_data_count (persist junk new st)) answers)
      = Some u' /\
    report_all id (q id) answers = Some (older, rest1) /\
    report_one id (offline_record s) rest1 = Some (own, rest) /\
    reports (sess u') = reports s' ++ older ++ own /\
    represents (store u') (upd id [] q).
Proof.
  intros Hid Hr Hlen Ht Hb Ho Hf Ha. cbv zeta.
  destruct (offline_stop_turn id s Ht Hb Ho) as (_ & _ & _ & _ & _ & Etr & _).
  set (s' := ConnectorTask id s) in *.
  set (tail_events := if connectorFault (me s) then [] else [EvDisplay id ChargerFinishingdBit]) in *.
  set (new := EvWriteConnectorData id (ConnectorData (me s')) :: tail_events
    ++ EvWriteOfflineData id (offline_record s) :: power_off id s).
  assert (Enew : trace (glob s') = new ++ trace (glob s))
    by (rewrite Etr; unfold new; cbn; by rewrite <-app_assoc).
  set (st1 := OfflineStore.custom_nvs_write_connectors_offline_data id (offline_record s) junk st).
  assert (Est : persist junk new st = st1).
  { unfold persist, new. cbn [foldr persist_event]. rewrite foldr_app. cbn [foldr persist_event].
    fold (persist junk (power_off id s) st). rewrite power_off_persists.
    unfold tail_events. by destruct (connectorFault (me s)). }
  set (q1 := upd id (bounded_push (q id) (offline_record s)) q).
  assert (Hq1 : q1 id = q id ++ [offline_record s]).
  { unfold q1, bounded_push. rewrite upd_same.
    unfold MAX_OFFLINE_TRANSACTIONS_FOR_CONNECTOR in *.
    destruct (Z.of_nat (length (q id)) >=? 100) eqn:E; [lia | done]. }
  assert (Hr1 : represents st1 q1)
    by exact (proj1 (step_refines junk st q (Push id (offline_record s)) Hid Hr)).
  destruct (counts_represented st1 q1 Hr1) as (C1 & _ & C3).
  set (u := mkUplink s' (custom_nvs_read_connectors_offline_data_count st1) answers).
  assert (Hlen1 : length (q1 id) = S (length (q id))) by (rewrite Hq1, length_app; cbn; lia).
  destruct (report_all_total id (q1 id) answers) as (r & rest & Hall); [lia|].
  destruct (upload_spec id junk fuel q1 u r rest Hid) as (u' & E1 & R1 & _ & S1 & _);
    [intros i Hi; cbn; rewrite C1; by apply Hr1 | by apply C3 | lia | exact Hall |].
  rewrite Hq1 in Hall. destruct (report_all_app id _ _ _ _ _ Hall) as (older & own & rest1 & A1 & A2 & ->).
  cbn [report_all] in A2. destruct (report_one id (offline_record s) rest1) as [[l c]|] eqn:A3; [|done].
  injection A2 as <- <-. rewrite app_nil_r in S1.
  exists new, u', older, rest1, c, l. rewrite Est. split_and!; [done..|].
  intros i Hi. specialize (R1 i Hi). unfold q1 in R1.
  destruct (decide (i = id)) as [->|]; autorewrite with evse_upd in *; exact R1.
Qed.
End Persist.

(** ** A concrete replay, over the finite-map storage *)

Definition empty_store : @offline (Flash ConnectorPrivateData_t) ConnectorPrivateData_t :=
  custom_nvs_read_connectors_offline_data_count
    (mkOffline ∅ (fun _ => 0) (fun _ => false) (fun _ => zero_data)).

Lemma empty_store_represents : represents empty_store (fun _ => []).
Proof.
  intros id Hid. split; [split|done]; [destruct id; [done|by vm_compute..]|].
  intros i x Hi. by rewrite lookup_nil in Hi.
Qed.

(** Opened offline, ended by the card. *)
Definition example_record : ConnectorPrivateData_t :=
  zero_data <| idTag := "04AB12" |> <| offlineStarted := true |> <| stopReason := Stop_Local |>
    <| meterStart_time := "t0" |> <| meterStop_time := "t1" |>.

Definition example_store : @offline (Flash ConnectorPrivateData_t) ConnectorPrivateData_t :=
  custom_nvs_read_connectors_offline_data_count
    (OfflineStore.custom_nvs_write_connectors_offline_data Conn1 example_record zero_data empty_store).

Definition example_queues : @queues ConnectorPrivateData_t := upd Conn1 [example_record] (fun _ => []).

Lemma example_store_represents : represents example_store example_queues.
Proof.
  pose proof (proj1 (step_refines zero_data empty_store (fun _ => []) (Push Conn1 example_record)
    ltac:(done) empty_store_represents)) as H.
  destruct (counts_represented _ _ H) as (C1 & _ & _).
  intros i Hi. specialize (H i Hi).
  cbn [impl_step spec_step fst] in H, C1. unfold example_store. rewrite C1. exact H.
Qed.

(** An acceptance after 1500 polls, then an immediate confirmation. *)
Definition example_answers : list answer := [mkAnswer 1500 "Accepted" 77; mkAnswer 0 "" 0].

Lemma offline_upload_terminates_witness :
  exists u', sendOfflineTransactionsData 1 Conn1 zero_data
    (mkUplink example_stop example_store example_answers) = Some u' /\
  reports (sess u') =
    [RStart 1 "04AB12" 0 "t0"; RStart 1 "04AB12" 0 "t0"; RStop 77 "04AB12" 0 "t1" "Local"].
Proof.
  destruct (offline_upload_terminates Conn1 zero_data 1 example_queues
    (mkUplink example_stop example_store example_answers))
    as (u' & r & rest & E & Hr & _ & _ & Hs & _);
    [done | exact example_store_represents | by vm_compute | by vm_compute; lia | by vm_compute; lia |].
  exists u'. split; [exact E|]. rewrite Hs. vm_compute in Hr. injection Hr as <- _. by vm_compute.
Defined.

Lemma offline_session_reaches_central_system_witness :
  exists u', reports (sess u') = reports (ConnectorTask Conn1 example_stop)
    ++ [RStop 0 "" 0 "2024-01-01T00:00:00.000Z" "Local"] /\
  represents (store u') (upd Conn1 [] (fun _ => [])).
Proof.
  destruct (offline_session_reaches_central_system Conn1 zero_data 1 (fun _ => []) example_stop
    empty_store [mkAnswer 0 "" 0; mkAnswer 0 "" 0])
    as (new & u' & older & rest1 & rest & own & _ & _ & E1 & E2 & E3 & E4);
    [done | exact empty_store_represents | by vm_compute | reflexivity.. | cbn; lia | cbn; lia |].
  exists u'. split; [|exact E4]. rewrite E3. cbn in E1. injection E1 as <- <-.
  vm_compute in E2. injection E2 as <- _. reflexivity.
Defined.

Lemma open_transaction_policy_witness :
  cpEnable (me example_charge) = true /\
  exists s' rest, sendOngoigTransactionsData Conn1 false true
      (setg (fun g => g <| config := (config g) <| resumeSession := true |> |>) example_charge)
      example_answers = Some (s', rest) /\
    isTransactionOngoing (ConnectorData (me s')) = false.
Proof.
  split; [reflexivity|].
  destruct (open_transaction_policy Conn1 false true
    (setg (fun g => g <| config := (config g) <| resumeSession := true |> |>) example_charge)
    example_answers) as (s' & rest & E & H); [cbn; lia|].
  exists s', rest. split; [exact E|]. exact (proj2 H).
Defined.
