(* ===== verification/Boot.v ===== *)
(** * Power-up and reconnection ([main/ocpp_task.c], [Connector0Task])

    The charge point announces itself with a boot notification, repeated until
    it is accepted; then it reports what happened while it was away and lets
    the connectors' tasks run.  Without a connection it starts on its own
    after ten iterations.  [boot_step] is this part of an iteration of
    [Connector0Task]; its waits for the central system are those of
    [Upload.v], so it returns [None] when an answer never comes. *)

From S2P Require Import Prelude Binary64 Config EnergyMeter ControlPilot Nvs.
From S2P Require Import OfflineStore Session SessionSpec SessionEnd Upload.

Definition BOOT_RETRY_TIME := 60.
Definition BOOT_TIMEOUT := 60.
Definition BOOT_OFFLINE_TIMEOUT := 10.

Section Boot.
Context {N : Type} `{NvsLaws N ConnectorPrivateData_t}.
#[local] Existing Instances uplink_rebuild offline_rebuild.

Record plant := mkPlant {
  charge : world;
  backlog : @offline N ConnectorPrivateData_t;
  answers : list answer;   (* what the central system will answer *)
  CPBootNotificationRequest_Sent : bool;
  CMSBootNotificationResponse_Received : bool;
  CMSBootNotificationResponse_status : string;
  CMSBootNotificationResponse_interval : Z;
  isBootRejected : bool;
  timeout : Z;
  bootRetryTime : Z;
  offlineTimeout : Z;
  isPoweredOn : bool;
  WebsocketRestart : bool;
  isWebsocketConnected_old : bool;
  bootedNow : bool;
  connectorsOfflineDataSent : cid -> bool;
  updatingOfflineDataPending : cid -> bool;
  updateStatusAfterBoot : cid -> bool
}.
#[local] Instance plant_rebuild : Rebuild plant := fun p =>
  mkPlant (charge p) (backlog p) (answers p) (CPBootNotificationRequest_Sent p)
    (CMSBootNotificationResponse_Received p) (CMSBootNotificationResponse_status p)
    (CMSBootNotificationResponse_interval p) (isBootRejected p) (timeout p) (bootRetryTime p)
    (offlineTimeout p) (isPoweredOn p) (WebsocketRestart p) (isWebsocketConnected_old p)
    (bootedNow p) (connectorsOfflineDataSent p) (updatingOfflineDataPending p)
    (updateStatusAfterBoot p).

(** The globals and connector [i]'s cells as its session. *)
Definition session_of (i : cid) (p : plant) : session :=
  mkSession (globals (charge p)) (cells (charge p) i).
Definition put_session (i : cid) (s : session) (p : plant) : plant :=
  p <| charge := mkWorld (glob s) (upd i (me s) (cells (charge p))) |>.

Definition data (p : plant) (i : cid) : ConnectorPrivateData_t := ConnectorData (cells (charge p) i).
Definition fitted (p : plant) : list cid :=
  connectors_upto (NumberOfConnectors (Session.config (globals (charge p)))).

(** A global of the charge point, and a call of it. *)
Definition setg0 (f : shared -> shared) (p : plant) : plant :=
  p <| charge := mkWorld (f (globals (charge p))) (cells (charge p)) |>.
Definition note (e : event) : plant -> plant := setg0 (fun g => g <| trace := e :: trace g |>).

(** Run [f] for each connector of [l] in turn. *)
Fixpoint each (l : list cid) (f : cid -> plant -> option plant) (p : plant) : option plant :=
  match l with
  | [] => Some p
  | i :: l => match f i p with None => None | Some p => each l f p end
  end.

(** ** Reports *)

Definition mark_sent (i : cid) (p : plant) : plant :=
  p <| connectorsOfflineDataSent := upd i true (connectorsOfflineDataSent p) |>.

(** [sendOngoigTransactionsData(i)] *)
Definition ongoing (i : cid) (p : plant) : option plant :=
  match sendOngoigTransactionsData i (WebsocketRestart p) (isPoweredOn p) (session_of i p) (answers p) with
  | None => None
  | Some (s, rest) => Some (put_session i s p <| answers := rest |>)
  end.

(** [sendOfflineTransactionsData(i)] *)
Definition replay (fuel : nat) (junk : ConnectorPrivateData_t) (i : cid) (p : plant) : option plant :=
  match sendOfflineTransactionsData fuel i junk
          (mkUplink (session_of i p) (backlog p) (answers p)) with
  | None => None
  | Some u => Some (put_session i (sess u) p <| backlog := store u |> <| answers := cms u |>)
  end.

(** A transaction open since before, opened online. *)
Definition report_open (i : cid) (p : plant) : option plant :=
  if isTransactionOngoing (data p i) && negb (offlineStarted (data p i)) then
    match ongoing i p with None => None | Some p => Some (mark_sent i p) end
  else Some p.

(** The stored transactions of connector [i], then an open one that was
    opened offline. *)
Definition report_stored (fuel : nat) (junk : ConnectorPrivateData_t) (i : cid) (p : plant)
    : option plant :=
  let up := updatingOfflineData (backlog p) i in
  let open := isTransactionOngoing (data p i) in
  let replayed :=
    if up && open && offlineStarted (data p i) then replay fuel junk i (mark_sent i p)
    else if up && negb open then replay fuel junk i (mark_sent i p)
    else Some (p <| updatingOfflineDataPending := upd i up (updatingOfflineDataPending p) |>) in
  match replayed with
  | None => None
  | Some p =>
      if isTransactionOngoing (data p i) && offlineStarted (data p i) then ongoing i (mark_sent i p)
      else Some p
  end.

Definition count_backlog (p : plant) : plant :=
  p <| backlog := custom_nvs_read_connectors_offline_data_count (backlog p) |>.

Definition before_read_id (t : EvseDevStatuse) : bool :=
  match t with flag_EVSE_initialisation | flag_EVSE_is_Booted => true | _ => false end.

(** [if (taskState[i] < flag_EVSE_Read_Id_Tag) taskState[i] = flag_EVSE_Read_Id_Tag] *)
Definition release (i : cid) (p : plant) : plant :=
  if before_read_id (taskState (cells (charge p) i)) then
    p <| charge := mkWorld (globals (charge p))
      (upd i ((cells (charge p) i) <| taskState := flag_EVSE_Read_Id_Tag |>) (cells (charge p))) |>
  else p.
Definition release_all (l : list cid) (p : plant) : plant := foldl (fun p i => release i p) p l.

(** ** The boot notification *)

Definition sendBootNotificationRequest (p : plant) : plant :=
  note EvBootNotification
    (setg0 (fun g => g <| randomNumber := (randomNumber g + 1) mod 18446744073709551616 |>) p)
    <| CPBootNotificationRequest_Sent := true |>.

Definition set_task0 (t : EvseDevStatuse) (p : plant) : plant :=
  p <| charge := mkWorld (globals (charge p))
    (upd Conn0 ((cells (charge p) Conn0) <| taskState := t |>) (cells (charge p))) |>.

(** Accepted: report, then let the connectors run (the clock is set from the
    answer's time). *)
Definition boot_accepted (fuel : nat) (junk : ConnectorPrivateData_t) (p : plant) : option plant :=
  let p := set_task0 flag_EVSE_is_Booted
    (p <| offlineTimeout := 0 |> <| timeout := 0 |> <| isBootRejected := false |>) in
  match each (fitted p) report_open p with
  | None => None
  | Some p =>
      match each (fitted p) (report_stored fuel junk) (count_backlog p) with
      | None => None
      | Some p =>
          let p := setg0 (fun g => g <| isWebsocketBooted := true |>) p
            <| isWebsocketConnected_old := false |> <| bootedNow := true |> in
          Some (note EvClearRestartReason
            (release_all (fitted p) p
              <| isPoweredOn := false |> <| updateStatusAfterBoot := fun _ => true |>))
      end
  end.

Definition boot_rejected (p : plant) : plant :=
  p <| timeout := 0 |> <| isBootRejected := true |>
    <| bootRetryTime := if CMSBootNotificationResponse_interval p =? 0 then BOOT_RETRY_TIME
                        else CMSBootNotificationResponse_interval p |>
    <| CMSBootNotificationResponse_Received := false |>.

(** Send again after the interval of a rejection, or a minute of silence. *)
Definition boot_retry (p : plant) : plant :=
  if isBootRejected p then
    if timeout p >? bootRetryTime p then
      sendBootNotificationRequest (p <| isBootRejected := false |> <| timeout := 0 |>)
    else p
  else if timeout p >? BOOT_TIMEOUT then sendBootNotificationRequest (p <| timeout := 0 |>)
  else p.

Definition boot_online (fuel : nat) (junk : ConnectorPrivateData_t) (p : plant) : option plant :=
  let p := if negb (CPBootNotificationRequest_Sent p) && negb (isBootRejected p) then
             sendBootNotificationRequest (setg0 (fun g => g <| isWebsocketBooted := false |>) p)
           else p in
  let answered :=
    if negb (CMSBootNotificationResponse_Received p) then
      Some (p <| timeout := u32 (timeout p + 1) |>)
    else if starts_with "Accepted" (CMSBootNotificationResponse_status p) then
      boot_accepted fuel junk p
    else Some (boot_rejected p) in
  match answered with None => None | Some p => Some (boot_retry p) end.

(** ** Starting without a connection *)

(** The vehicle of an open transaction is still there, and sessions are
    resumed. *)
Definition resumable (p : plant) (i : cid) : bool :=
  let m := cells (charge p) i in
  ((((cpState m =? STATE_B1) || (cpState m =? STATE_E2)) && cpEnable m) || negb (cpEnable m))
  && (resumeSession (Session.config (globals (charge p))) || WebsocketRestart p).

(** Resume connector [i]'s open transaction, or end it and store it. *)
Definition settle_offline (junk : ConnectorPrivateData_t) (i : cid) (p : plant) : plant :=
  if isTransactionOngoing (data p i) then
    if resumable p i then
      put_session i (goto flag_EVSE_Request_Charge (session_of i p)) p
    else
      let p := put_session i
        ((setd (fun d => d <| isTransactionOngoing := false |> <| stopReason := Stop_PowerLoss |>) ;;
          custom_nvs_write_connector_data i ;;
          Session.custom_nvs_write_connectors_offline_data i) (session_of i p)) p in
      p <| backlog :=
        OfflineStore.custom_nvs_write_connectors_offline_data i (data p i) junk (backlog p) |>
  else p.

Definition boot_offline (junk : ConnectorPrivateData_t) (p : plant) : plant :=
  let p := p <| offlineTimeout := u32 (offlineTimeout p + 1) |> in
  if (offlineTimeout p >? BOOT_OFFLINE_TIMEOUT) || Config.offline (Session.config (globals (charge p))) then
    let p := if isPoweredOn p then foldl (fun p i => settle_offline junk i p) p (fitted p) else p in
    note EvClearRestartReason
      (release_all [Conn1; Conn2; Conn3]
        (p <| offlineTimeout := 0 |> <| timeout := 0 |> <| isPoweredOn := false |>))
  else p.

(** ** The iteration *)

Definition reconnected (fuel : nat) (junk : ConnectorPrivateData_t) (p : plant) : option plant :=
  let now := isWebsocketConnected (globals (charge p)) in
  let p := setg0 (fun g => g <| isWebsocketBooted := true |>) p in
  if negb (Bool.eqb now (isWebsocketConnected_old p)) && now then
    each (fitted p) (report_stored fuel junk) (count_backlog p)
  else Some p.

Definition boot_step (fuel : nat) (junk : ConnectorPrivateData_t) (p : plant) : option plant :=
  match taskState (cells (charge p) Conn0) with
  | flag_EVSE_initialisation =>
      if isWebsocketConnected (globals (charge p)) then boot_online fuel junk p
      else Some (boot_offline junk p)
  | flag_EVSE_is_Booted => reconnected fuel junk p
  | _ => Some p
  end.
End Boot.
