(* ===== verification/BootSpec.v ===== *)
(** * Properties of power-up and reconnection ([Boot.v])

    The charge point leaves every connector in a consistent state, keeps
    announcing itself until it is accepted, and without a connection resumes
    or stores the transactions that were open. *)

From S2P Require Import Prelude Binary64 Config EnergyMeter ControlPilot Nvs.
From S2P Require Import OfflineStore Session SessionSpec SessionEnd Upload Boot.

Section BootSpec.
Context {N : Type} `{NvsLaws N ConnectorPrivateData_t}.
#[local] Existing Instances uplink_rebuild offline_rebuild plant_rebuild.
Implicit Types (p : @plant N).

(** ** One connector's report *)

(** Before and after a connector's open transaction is dealt with. *)
Definition fresh (m : conn) : Prop := taskState m = flag_EVSE_initialisation.
Definition settled (m : conn) : Prop :=
  (fresh m /\ isTransactionOngoing (ConnectorData m) = false) \/
  (taskState m = flag_EVSE_Request_Charge /\ isTransactionOngoing (ConnectorData m) = true).

Lemma close_or_resume_settles prepare connId wsr s cms s' rest :
  respects (same resume_frame) prepare ->
  close_or_resume prepare connId wsr true s cms = Some (s', rest) ->
  fresh (me s) -> isTransactionOngoing (ConnectorData (me s)) = true ->
  settled (me s') /\ config (glob s') = config (glob s) /\
  (isTransactionOngoing (ConnectorData (me s')) = true ->
   offlineStarted (ConnectorData (me s')) = offlineStarted (ConnectorData (me s))).
Proof.
  intros Hp E Hf Ho. unfold close_or_resume in E. destruct (close_open wsr true s).
  - destruct cms as [|b cms]; [done|]. injection E as <- <-.
    destruct (close_spec prepare connId b s Hp) as [C1 C2].
    split; [left; split; [by unfold fresh; rewrite C1 | exact C2]|].
    split; [|by rewrite C2].
    rewrite !seqc_eq. set (s1 := exchange_stop 100 b (prepare s)).
    transitivity (config (glob s1)); [reflexivity|].
    assert (F : resume_frame s1 = resume_frame s)
      by (transitivity (resume_frame (prepare s)); [apply exchange_stop_frame | apply Hp]).
    exact (f_equal (fun x => snd (fst (fst x))) F).
  - injection E as <- <-. split; [by right|]. done.
Qed.

Lemma ongoing_settles connId wsr s cms s' rest :
  sendOngoigTransactionsData connId wsr true s cms = Some (s', rest) ->
  fresh (me s) -> isTransactionOngoing (ConnectorData (me s)) = true ->
  settled (me s') /\ config (glob s') = config (glob s) /\
  (isTransactionOngoing (ConnectorData (me s')) = true ->
   offlineStarted (ConnectorData (me s')) = false).
Proof.
  unfold sendOngoigTransactionsData. intros E Hf Ho.
  destruct (offlineStarted (ConnectorData (me s))) eqn:Es.
  2: { destruct (close_or_resume_settles _ _ _ _ _ _ _ (stop_online_frame connId true) E Hf Ho)
         as (H1 & H2 & H3). split; [done|]. split; [done|]. intros H4. by rewrite (H3 H4). }
  destruct cms as [|a cms]; [done|]. set (s1 := (_ ;; _) s) in E.
  assert (F : resume_frame s1 = resume_frame s).
  { transitivity (resume_frame (prepare_start connId (ConnectorData (me s)) s));
      [apply exchange_start_frame | apply prepare_start_frame]. }
  clearbody s1.
  pose proof (f_equal (fun x => fst (fst (fst (fst x)))) F : taskState (me s1) = taskState (me s)) as F1.
  pose proof (f_equal (fun x => snd (fst (fst x))) F : config (glob s1) = config (glob s)) as F2.
  pose proof (f_equal (fun x => snd (fst x)) F : isTransactionOngoing (ConnectorData (me s1))
    = isTransactionOngoing (ConnectorData (me s))) as F3.
  destruct (starts_with "Accepted" _).
  - set (s2 := (_ ;; _) s1) in E.
    assert (Hf2 : fresh (me s2)) by (unfold fresh in *; by rewrite <-Hf, <-F1).
    assert (Ho2 : isTransactionOngoing (ConnectorData (me s2)) = true) by (by rewrite <-Ho, <-F3).
    destruct (close_or_resume_settles _ _ _ _ _ _ _ (stop_accepted_frame connId true) E Hf2 Ho2)
      as (H1 & H2 & H3). split; [done|]. split; [by rewrite H2, <-F2 | exact H3].
  - injection E as <- <-. split; [left; split; [|done]; unfold fresh in *; by rewrite <-Hf, <-F1|].
    split; [exact F2 | done].
Qed.

(** Replaying a connector's queue leaves its own transaction alone. *)
Definition own_frame (s : session) := (taskState (me s), ConnectorData (me s), config (glob s)).

Lemma exchange_start_own limit a : respects (same own_frame) (exchange_start limit a).
Proof.
  assert (respects (same own_frame) sendStartTransactionRequest)
    by (unfold sendStartTransactionRequest, next_id; same_tac).
  unfold exchange_start. apply respects_seq; [exact _|done|].
  apply respects_seq; [exact _|by apply poll_respects; [exact _|]|].
  unfold clear_start_flags. same_tac.
Qed.
Lemma exchange_stop_own limit a : respects (same own_frame) (exchange_stop limit a).
Proof.
  assert (respects (same own_frame) sendStopTransactionRequest)
    by (unfold sendStopTransactionRequest, next_id; same_tac).
  unfold exchange_stop. apply respects_seq; [exact _|done|].
  apply respects_seq; [exact _|by apply poll_respects; [exact _|]|].
  unfold clear_stop_flags. same_tac.
Qed.
Lemma prepare_own connId d :
  respects (same own_frame) (prepare_start connId d) /\ respects (same own_frame) (prepare_stop d).
Proof. unfold prepare_start, prepare_stop; unfold_calls. split; same_tac. Qed.

Lemma report_record_own id (u u' : @uplink N) :
  report_record id u = Some u' -> own_frame (sess u') = own_frame (sess u).
Proof.
  assert (R1 : forall d a, respects (same own_frame) (prepare_start id d ;; exchange_start 1000 a))
    by (intros d a; apply respects_seq;
          [exact _ | apply (prepare_own id d) | apply exchange_start_own]).
  assert (R2 : forall d a, respects (same own_frame) (prepare_stop d ;; exchange_stop 1000 a))
    by (intros d a; apply respects_seq;
          [exact _ | apply (prepare_own id d) | apply exchange_stop_own]).
  unfold report_record. destruct (offlineStarted _), (cms u) as [|a rest]; try done.
  - set (s1 := (_ ;; _) (sess u)). destruct (starts_with "Accepted" _).
    + set (s2 := setm _ s1). destruct rest as [|b rest]; [done|]. intros [= <-].
      transitivity (own_frame s2); [apply R2 | apply (R1 _ _ (sess u))].
    + intros [= <-]. apply (R1 _ _ (sess u)).
  - intros [= <-]. apply (R2 _ _ (sess u)).
Qed.

Lemma replay_own fuel id junk (u u' : @uplink N) :
  sendOfflineTransactionsData fuel id junk u = Some u' -> own_frame (sess u') = own_frame (sess u).
Proof.
  unfold sendOfflineTransactionsData. set (u0 := update sess _ u).
  destruct (upload_loop fuel id junk u0) as [u1|] eqn:E; [|done]. intros [= <-].
  transitivity (own_frame (sess u1)); [reflexivity|].
  transitivity (own_frame (sess u0)); [|reflexivity]. clearbody u0. revert u0 E.
  induction fuel as [|fuel IH]; intros u0; cbn [upload_loop];
    (destruct (updatingOfflineData (store u0) id); [|by intros [= <-]]); [done|].
  unfold upload_step.
  destruct (report_record id (read_record id junk u0)) as [u2|] eqn:E2; [|done].
  intros E. rewrite (IH _ E). exact (report_record_own _ _ _ E2).
Qed.

(** ** The loops over the connectors *)

(** What the reports of one connector leave alone. *)
Definition plant_frame p := (isPoweredOn p, WebsocketRestart p, Session.config (globals (charge p))).

(** [f] acts on connector [i]'s cells only, and takes them from [A] to [B]. *)
Definition acts (A B : conn -> Prop) (f : cid -> plant -> option plant) : Prop :=
  forall i p p', f i p = Some p' -> isPoweredOn p = true -> A (cells (charge p) i) ->
    plant_frame p' = plant_frame p /\ B (cells (charge p') i) /\
    forall j, j <> i -> cells (charge p') j = cells (charge p) j.

Lemma each_acts A B f l p p' :
  acts A B f -> NoDup l -> each l f p = Some p' -> isPoweredOn p = true ->
  (forall i, i ∈ l -> A (cells (charge p) i)) ->
  plant_frame p' = plant_frame p /\ (forall i, i ∈ l -> B (cells (charge p') i)) /\
  forall j, j ∉ l -> cells (charge p') j = cells (charge p) j.
Proof.
  intros Hf Hl. revert p. induction Hl as [|i l Hi Hl IH]; intros p E Hon Ha; cbn [each] in E.
  { injection E as <-. split; [done|]. split; [|done]. intros i Hi. by apply not_elem_of_nil in Hi. }
  destruct (f i p) as [p1|] eqn:E1; [|done].
  destruct (Hf i p p1 E1 Hon) as (F1 & F2 & F3); [apply Ha, elem_of_cons; by left|].
  destruct (IH p1 E) as (G1 & G2 & G3).
  - pose proof (f_equal (fun x => fst (fst x)) F1 : isPoweredOn p1 = isPoweredOn p) as ->. done.
  - intros j Hj. rewrite F3 by (intros ->; done). apply Ha, elem_of_cons. by right.
  - split; [by rewrite G1|]. split.
    + intros j [->|Hj]%elem_of_cons; [by rewrite G3 | by apply G2].
    + intros j Hj. rewrite not_elem_of_cons in Hj. destruct Hj. by rewrite G3, F3.
Qed.

(** Between the two loops: dealt with, or opened offline. *)
Definition half (m : conn) : Prop :=
  (settled m /\ isTransactionOngoing (ConnectorData m) && offlineStarted (ConnectorData m) = false) \/
  (fresh m /\ isTransactionOngoing (ConnectorData m) && offlineStarted (ConnectorData m) = true).

Lemma ongoing_acts i p p' :
  ongoing i p = Some p' -> isPoweredOn p = true -> fresh (cells (charge p) i) ->
  isTransactionOngoing (data p i) = true ->
  plant_frame p' = plant_frame p /\
  (settled (cells (charge p') i) /\
   isTransactionOngoing (data p' i) && offlineStarted (data p' i) = false) /\
  forall j, j <> i -> cells (charge p') j = cells (charge p) j.
Proof.
  unfold ongoing. intros E Hon Hf Ho. rewrite Hon in E.
  destruct (sendOngoigTransactionsData i (WebsocketRestart p) true (session_of i p) (answers p))
    as [[s rest]|] eqn:Es; [|done]. injection E as <-.
  destruct (ongoing_settles _ _ _ _ _ _ Es Hf Ho) as (S1 & S2 & S3).
  assert (C : cells (charge (put_session i s p)) i = me s) by (cbn; by rewrite upd_same).
  unfold data. cbn [charge update] in *.
  split; [unfold plant_frame; cbn; by rewrite S2|]. split.
  - change (settled (cells (charge (put_session i s p)) i) /\
      isTransactionOngoing (ConnectorData (cells (charge (put_session i s p)) i)) &&
      offlineStarted (ConnectorData (cells (charge (put_session i s p)) i)) = false).
    rewrite C. split; [done|].
    destruct (isTransactionOngoing (ConnectorData (me s))); [by rewrite S3 | done].
  - intros j Hj. cbn. by rewrite upd_other.
Qed.

Lemma report_open_acts : acts fresh half report_open.
Proof.
  intros i p p' E Hon Hf. unfold report_open in E.
  destruct (isTransactionOngoing (data p i)) eqn:Ho; cbn [andb] in E.
  2: { injection E as <-. split; [done|]. split; [|done]. left.
       split; [by left | unfold data in Ho; by rewrite Ho]. }
  destruct (offlineStarted (data p i)) eqn:Es; cbn [negb] in E.
  { injection E as <-. split; [done|]. split; [|done]. right.
    split; [done|]. unfold data in *. by rewrite Ho, Es. }
  destruct (ongoing i p) as [p1|] eqn:E1; [|done]. injection E as <-.
  destruct (ongoing_acts i p p1 E1 Hon Hf Ho) as (H1 & H2 & H3).
  split; [exact H1|]. split; [left; exact H2 | exact H3].
Qed.

Lemma replay_acts fuel junk i p p' :
  replay fuel junk i p = Some p' ->
  plant_frame p' = plant_frame p /\
  (taskState (cells (charge p') i), data p' i) = (taskState (cells (charge p) i), data p i) /\
  forall j, j <> i -> cells (charge p') j = cells (charge p) j.
Proof.
  unfold replay. destruct (sendOfflineTransactionsData _ _ _ _) as [u|] eqn:E; [|done]. intros [= <-].
  apply replay_own in E. cbn [sess] in E.
  pose proof (f_equal snd E : Session.config (glob (sess u)) = Session.config (globals (charge p))) as E1.
  pose proof (f_equal fst E : (taskState (me (sess u)), ConnectorData (me (sess u)))
    = (taskState (cells (charge p) i), ConnectorData (cells (charge p) i))) as E2.
  split; [unfold plant_frame; cbn; by rewrite E1|]. split.
  - unfold data. cbn. rewrite upd_same. exact E2.
  - intros j Hj. cbn. by rewrite upd_other.
Qed.

Lemma report_stored_acts fuel junk : acts half settled (report_stored fuel junk).
Proof.
  intros i p p' E Hon Hh. unfold report_stored in E.
  set (replayed := if _ && _ && _ then _ else _) in E.
  assert (R : forall p1, replayed = Some p1 -> plant_frame p1 = plant_frame p /\
    (taskState (cells (charge p1) i), data p1 i) = (taskState (cells (charge p) i), data p i) /\
    forall j, j <> i -> cells (charge p1) j = cells (charge p) j).
  { intros p1. unfold replayed. destruct (_ && offlineStarted _).
    - intros Er. exact (replay_acts _ _ _ _ _ Er).
    - destruct (_ && negb _); [|by intros [= <-]]. intros Er. exact (replay_acts _ _ _ _ _ Er). }
  destruct replayed as [p1|]; [|done]. destruct (R p1 eq_refl) as (R1 & R2 & R3). clear R.
  pose proof (f_equal fst R2 : taskState (cells (charge p1) i) = taskState (cells (charge p) i)) as Rt.
  pose proof (f_equal snd R2 : data p1 i = data p i) as Rd. clear R2.
  pose proof (f_equal (fun x => fst (fst x)) R1 : isPoweredOn p1 = isPoweredOn p) as Ron.
  rewrite Rd in E. unfold half, settled, fresh in Hh. fold (data p i) in Hh.
  destruct (isTransactionOngoing (data p i) && offlineStarted (data p i)) eqn:Eo.
  - apply andb_true_iff in Eo as [Eo1 Eo2].
    assert (Hf : fresh (cells (charge p1) i)) by (unfold fresh; rewrite Rt; naive_solver).
    destruct (ongoing_acts i (mark_sent i p1) p' E) as (H1 & H2 & H3);
      [by rewrite <-Hon, <-Ron | exact Hf | change (isTransactionOngoing (data p1 i) = true); by rewrite Rd|].
    split; [by rewrite H1, <-R1|]. split; [apply H2|]. intros j Hj. rewrite H3 by done. by apply R3.
  - injection E as <-. split; [done|]. split; [|done].
    unfold settled, fresh. change (ConnectorData (cells (charge p1) i)) with (data p1 i).
    rewrite Rt, Rd. destruct Hh as [[Hh _]|[_ Hh]]; [exact Hh | congruence].
Qed.

Definition released (m : conn) : conn :=
  if before_read_id (taskState m) then m <| taskState := flag_EVSE_Read_Id_Tag |> else m.

Lemma release_spec i p :
  plant_frame (release i p) = plant_frame p /\
  cells (charge (release i p)) i = released (cells (charge p) i) /\
  forall j, j <> i -> cells (charge (release i p)) j = cells (charge p) j.
Proof.
  unfold release, released. destruct (before_read_id _); [|by repeat split].
  split; [reflexivity|]. split; [cbn; by rewrite upd_same | intros j Hj; cbn; by rewrite upd_other].
Qed.

Lemma release_all_out l p j :
  j ∉ l -> cells (charge (release_all l p)) j = cells (charge p) j.
Proof.
  revert p. induction l as [|i l IH]; intros p Hj; [done|]. rewrite not_elem_of_cons in Hj.
  change (release_all (i :: l) p) with (release_all l (release i p)).
  rewrite IH by tauto. destruct (release_spec i p) as (_ & _ & S3). apply S3. tauto.
Qed.

Lemma release_all_spec l p :
  NoDup l -> let p' := release_all l p in
  plant_frame p' = plant_frame p /\
  forall i, i ∈ l -> cells (charge p') i = released (cells (charge p) i).
Proof.
  intros Hl. cbv zeta. revert p. induction Hl as [|i l Hi Hl IH]; intros p.
  - split; [done|]. intros i Hi. by apply not_elem_of_nil in Hi.
  - change (release_all (i :: l) p) with (release_all l (release i p)).
    destruct (release_spec i p) as (S1 & S2 & S3). destruct (IH (release i p)) as [I1 I2].
    split; [by rewrite I1|]. intros j [->|Hj]%elem_of_cons; [by rewrite release_all_out|].
    rewrite I2 by done. by rewrite S3 by (intros ->; done).
Qed.

(** A connector the tasks may run on: idle, or continuing its transaction. *)
Definition ready (m : conn) : Prop :=
  consistent m /\ (taskState m = flag_EVSE_Read_Id_Tag \/ taskState m = flag_EVSE_Request_Charge).

Lemma settled_ready m : settled m -> ready (released m).
Proof.
  intros [[Hf Ho]|[Hc Ho]]; unfold ready, released, consistent, fresh in *.
  - rewrite Hf. cbn. by split; [|left].
  - rewrite Hc. cbn. rewrite Hc. by split; [|right].
Qed.

Lemma fitted_nodup n : NoDup (connectors_upto n).
Proof. apply list.NoDup_filter. by apply (bool_decide_unpack _). Qed.


(** The connectors that are fitted are those of the frame. *)
Lemma fitted_frame p p' : plant_frame p' = plant_frame p -> fitted p' = fitted p.
Proof. intros F. unfold fitted. by rewrite (f_equal snd F : Session.config (globals (charge p')) = _). Qed.

Lemma boot_accepted_ready fuel junk p p' :
  boot_accepted fuel junk p = Some p' -> isPoweredOn p = true ->
  (forall i, i ∈ fitted p -> fresh (cells (charge p) i)) ->
  isPoweredOn p' = false /\ fitted p' = fitted p /\
  forall i, i ∈ fitted p -> ready (cells (charge p') i).
Proof.
  unfold boot_accepted. intros E Hon Hf. set (p0 := set_task0 _ _) in E.
  assert (Hf0 : forall i, i ∈ fitted p0 -> fresh (cells (charge p0) i)).
  { intros i Hi. change (fitted p0) with (fitted p) in Hi. unfold p0, set_task0. cbn.
    rewrite upd_other; [by apply Hf|]. intros ->. by apply connectors_upto_not_0 in Hi. }
  assert (Hon0 : isPoweredOn p0 = true) by exact Hon.
  change (fitted p) with (fitted p0). clearbody p0. clear Hon Hf p.
  destruct (each (fitted p0) report_open p0) as [p1|] eqn:E1; [|done].
  destruct (each_acts _ _ _ _ p0 p1 report_open_acts (fitted_nodup _) E1 Hon0 Hf0) as (F1 & A1 & _).
  pose proof (f_equal (fun x => fst (fst x)) F1 : isPoweredOn p1 = isPoweredOn p0) as Hon1.
  rewrite Hon0 in Hon1. pose proof (fitted_frame _ _ F1) as Ft1.
  change (fitted (count_backlog p1)) with (fitted p1) in E.
  destruct (each (fitted p1) (report_stored fuel junk) (count_backlog p1)) as [p2|] eqn:E2; [|done].
  rewrite Ft1 in E2.
  destruct (each_acts _ _ _ _ (count_backlog p1) p2 (report_stored_acts fuel junk)
    (fitted_nodup _) E2 Hon1 A1) as (F2 & A2 & _).
  pose proof (fitted_frame _ _ F2) as Ft2. change (fitted (count_backlog p1)) with (fitted p1) in Ft2.
  injection E as <-. unfold note. cbv zeta.
  match goal with |- context [release_all (fitted ?q) ?r] => set (p3 := r); change (fitted q) with (fitted p2) end.
  rewrite Ft2, Ft1. destruct (release_all_spec (fitted p0) p3 (fitted_nodup _)) as [F3 A3].
  assert (Ft3 : fitted (release_all (fitted p0) p3) = fitted p0).
  { rewrite (fitted_frame _ _ F3). change (fitted p3) with (fitted p2). congruence. }
  pose proof (f_equal (fun x => fst (fst x)) F3 : isPoweredOn (release_all (fitted p0) p3) = false) as Hon3.
  split; [exact Hon3|]. split; [exact Ft3|].
  intros i Hi. change (ready (cells (charge (release_all (fitted p0) p3)) i)).
  rewrite A3 by done. apply settled_ready. exact (A2 i Hi).
Qed.

(** ** Starting without a connection *)

Definition closed_by_outage (d : ConnectorPrivateData_t) : ConnectorPrivateData_t :=
  d <| isTransactionOngoing := false |> <| stopReason := Stop_PowerLoss |>.

(** The open transaction of connector [i] is ended for want of a vehicle or
    of the permission to resume. *)
Definition abandoned p (i : cid) : bool := isTransactionOngoing (data p i) && negb (resumable p i).
Definition resumed p (i : cid) : bool := isTransactionOngoing (data p i) && resumable p i.

Definition after_outage p (i : cid) : conn :=
  let m := cells (charge p) i in
  if abandoned p i then m <| ConnectorData := closed_by_outage (ConnectorData m) |>
  else if resumed p i then m <| taskState := flag_EVSE_Request_Charge |>
  else m.

Definition outage_queue p (q : queues) (i : cid) : list ConnectorPrivateData_t :=
  if abandoned p i then bounded_push (q i) (closed_by_outage (data p i)) else q i.

(** What [settle_offline] consults outside the cells. *)
Definition outage_frame p := (plant_frame p, answers p, taskState (cells (charge p) Conn0)).

Lemma settle_offline_spec junk i p :
  i <> Conn0 ->
  let p' := settle_offline junk i p in
  outage_frame p' = outage_frame p /\
  cells (charge p') i = after_outage p i /\
  (forall j, j <> i -> cells (charge p') j = cells (charge p) j) /\
  forall q, represents (backlog p) q -> represents (backlog p') (upd i (outage_queue p q i) q).
Proof.
  intros Hi. cbv zeta. unfold settle_offline, after_outage, outage_queue, abandoned, resumed.
  assert (Keep : forall q : queues, represents (backlog p) q -> represents (backlog p) (upd i (q i) q)).
  { intros q Hr j Hj. destruct (decide (j = i)) as [->|Hne];
      [rewrite upd_same; by apply Hr | rewrite upd_other by done; by apply Hr]. }
  destruct (isTransactionOngoing (data p i)) eqn:Eo; cbn [andb]; [|by repeat split; auto; intros; eapply Keep].
  destruct (resumable p i) eqn:Er; cbn [negb].
  - split; [unfold outage_frame; cbn; by rewrite upd_other|].
    split; [cbn; by rewrite upd_same|]. split; [intros j Hj; cbn; by rewrite upd_other | by apply Keep].
  - set (p1 := put_session _ _ _).
    assert (Ed : data p1 i = closed_by_outage (data p i))
      by (unfold data, p1; cbn; by rewrite upd_same).
    split; [unfold outage_frame; cbn; by rewrite upd_other|].
    split; [cbn; by rewrite upd_same|]. split; [intros j Hj; cbn; by rewrite upd_other|].
    intros q Hr. rewrite Ed. change (backlog p1) with (backlog p).
    exact (proj1 (step_refines junk (backlog p) q (Push i (closed_by_outage (data p i))) Hi Hr)).
Qed.

Lemma after_outage_frame p p' i :
  plant_frame p' = plant_frame p -> cells (charge p') i = cells (charge p) i ->
  after_outage p' i = after_outage p i /\
  forall q q' : queues, q' i = q i -> outage_queue p' q' i = outage_queue p q i.
Proof.
  intros F C.
  pose proof (f_equal (fun x => snd (fst x)) F : WebsocketRestart p' = WebsocketRestart p) as F1.
  pose proof (f_equal snd F : Session.config (globals (charge p')) = Session.config (globals (charge p))) as F2.
  unfold after_outage, outage_queue, abandoned, resumed, resumable, data. rewrite C, F1, F2.
  split; [done|]. intros q q' ->. done.
Qed.

Lemma settle_all_spec junk l p :
  NoDup l -> Conn0 ∉ l ->
  let p' := foldl (fun p i => settle_offline junk i p) p l in
  outage_frame p' = outage_frame p /\
  (forall i, i ∈ l -> cells (charge p') i = after_outage p i) /\
  (forall i, i ∉ l -> cells (charge p') i = cells (charge p) i) /\
  forall q, represents (backlog p) q -> exists q', represents (backlog p') q' /\
    (forall i, i ∈ l -> q' i = outage_queue p q i) /\ forall i, i ∉ l -> q' i = q i.
Proof.
  intros Hl. cbv zeta. revert p. induction Hl as [|i l Hi Hl IH]; intros p H0'.
  { split; [done|]. split; [by intros i ?%elem_of_nil|]. split; [done|].
    intros q Hr. exists q. split; [exact Hr|]. split; [by intros i ?%elem_of_nil | done]. }
  rewrite not_elem_of_cons in H0'. destruct H0' as [Hi0 Hl0]. apply not_eq_sym in Hi0.
  change (foldl ?f p (i :: l)) with (foldl f (settle_offline junk i p) l).
  destruct (settle_offline_spec junk i p Hi0) as (S1 & S2 & S3 & S4). cbv zeta in *.
  destruct (IH (settle_offline junk i p) Hl0) as (I1 & I2 & I3 & I4).
  pose proof (f_equal (fun x => fst (fst x)) S1 : plant_frame (settle_offline junk i p) = plant_frame p) as F.
  split; [by rewrite I1|]. split; [|split].
  - intros j [->|Hj]%elem_of_cons; [by rewrite I3|].
    rewrite I2 by done. apply after_outage_frame; [done | apply S3; intros ->; done].
  - intros j Hj. rewrite not_elem_of_cons in Hj. destruct Hj. by rewrite I3, S3.
  - intros q Hr. destruct (I4 _ (S4 q Hr)) as (q' & R & Q1 & Q2). exists q'. split; [exact R|]. split.
    + intros j [->|Hj]%elem_of_cons; [by rewrite Q2, upd_same|]. rewrite Q1 by done.
      assert (Hne : j <> i) by (intros ->; done).
      apply after_outage_frame; [done | by apply S3 | by apply upd_other].
    + intros j Hj. rewrite not_elem_of_cons in Hj. destruct Hj. by rewrite Q2, upd_other.
Qed.

Lemma release_all_keeps {A} (f : plant -> A) l p :
  (forall i p, f (release i p) = f p) -> f (release_all l p) = f p.
Proof. intros Hf. revert p. induction l as [|i l IH]; intros p; [done|]. transitivity (f (release i p)); [apply IH | apply Hf]. Qed.

Lemma fitted_upto p i : i ∈ fitted p -> i ∈ [Conn1; Conn2; Conn3] /\ i <> Conn0.
Proof.
  intros Hi. split; [exact (proj2 (proj1 (list_elem_of_filter _ _ _) Hi))|]. intros ->. by apply connectors_upto_not_0 in Hi.
Qed.

Lemma after_outage_settled p i : fresh (cells (charge p) i) -> settled (after_outage p i).
Proof.
  unfold fresh, settled, after_outage, abandoned, resumed, data. intros Hf.
  destruct (isTransactionOngoing (ConnectorData (cells (charge p) i))) eqn:Eo; cbn [andb]; [|by left].
  destruct (resumable p i); cbn; [by right | by left].
Qed.

(** The iteration that starts without a connection. *)
Definition gives_up p : bool :=
  (u32 (offlineTimeout p + 1) >? BOOT_OFFLINE_TIMEOUT) || Config.offline (Session.config (globals (charge p))).

Lemma boot_offline_spec junk p :
  gives_up p = true -> isPoweredOn p = true ->
  let p' := boot_offline junk p in
  isPoweredOn p' = false /\ fitted p' = fitted p /\
  taskState (cells (charge p') Conn0) = taskState (cells (charge p) Conn0) /\
  (forall i, i ∈ fitted p -> cells (charge p') i = released (after_outage p i)) /\
  forall q, represents (backlog p) q -> exists q', represents (backlog p') q' /\
    (forall i, i ∈ fitted p -> q' i = outage_queue p q i) /\ forall i, i ∉ fitted p -> q' i = q i.
Proof.
  unfold gives_up, boot_offline. intros Hg Hon. cbv zeta.
  set (p0 := p <| offlineTimeout := _ |>).
  change (offlineTimeout p0) with (u32 (offlineTimeout p + 1)).
  change (globals (charge p0)) with (globals (charge p)). rewrite Hg.
  change (isPoweredOn p0) with (isPoweredOn p). rewrite Hon.
  destruct (settle_all_spec junk (fitted p0) p0 (fitted_nodup _) (connectors_upto_not_0 _))
    as (S1 & S2 & S3 & S4). cbv zeta in *.
  set (p1 := foldl _ p0 (fitted p0)) in *.
  pose proof (f_equal (fun x => fst (fst x)) S1 : plant_frame p1 = plant_frame p0) as F1.
  pose proof (f_equal snd S1 : taskState (cells (charge p1) Conn0) = taskState (cells (charge p0) Conn0)) as T1.
  clearbody p1. set (p2 := p1 <| offlineTimeout := 0 |> <| timeout := 0 |> <| isPoweredOn := false |>).
  assert (Hl : NoDup [Conn1; Conn2; Conn3]) by by apply (bool_decide_unpack _).
  destruct (release_all_spec [Conn1; Conn2; Conn3] p2 Hl) as [F3 A3].
  assert (B3 : backlog (release_all [Conn1; Conn2; Conn3] p2) = backlog p2).
  { apply (release_all_keeps backlog). intros i p3. unfold release. by destruct (before_read_id _). }
  assert (T3 : cells (charge (release_all [Conn1; Conn2; Conn3] p2)) Conn0 = cells (charge p2) Conn0).
  { rewrite release_all_out by set_solver. done. }
  set (p3 := release_all _ p2) in *. change (fitted p0) with (fitted p) in *.
  assert (Ft : fitted p3 = fitted p).
  { rewrite (fitted_frame p2 p3 F3). change (fitted p2) with (fitted p1). by rewrite (fitted_frame p0 p1 F1). }
  pose proof (f_equal (fun x => fst (fst x)) F3 : isPoweredOn p3 = false) as Hon3. clearbody p3.
  split; [exact Hon3|]. split; [exact Ft|]. split; [|split].
  - change (taskState (cells (charge p3) Conn0) = taskState (cells (charge p) Conn0)).
    rewrite T3. exact T1.
  - intros i Hi. change (cells (charge p3) i = released (after_outage p i)).
    rewrite A3 by apply (fitted_upto p i Hi). change (cells (charge p2)) with (cells (charge p1)).
    by rewrite S2.
  - intros q Hr. destruct (S4 q Hr) as (q' & R & Q1 & Q2).
    exists q'. split; [change (represents (backlog p3) q'); by rewrite B3 | done].
Qed.

(** ** Power-up *)

(** What an iteration that decides nothing leaves alone. *)
Definition view p :=
  (isPoweredOn p, cells (charge p), Session.config (globals (charge p)), backlog p, WebsocketRestart p).

Lemma boot_retry_view p : view (boot_retry p) = view p.
Proof. unfold boot_retry. destruct (isBootRejected p), (_ >? _); reflexivity. Qed.

Definition decided p p' : Prop :=
  isPoweredOn p' = false /\ fitted p' = fitted p /\ forall i, i ∈ fitted p -> ready (cells (charge p') i).

Lemma decided_view p p' p'' : view p' = view p -> decided p' p'' -> decided p p''.
Proof.
  intros V (D1 & D2 & D3).
  assert (F : fitted p' = fitted p)
    by (unfold fitted; by rewrite (f_equal (fun x => snd (fst (fst x))) V : Session.config _ = _)).
  rewrite F in *. done.
Qed.

Lemma boot_online_power fuel junk p p' :
  boot_online fuel junk p = Some p' -> isPoweredOn p = true ->
  (forall i, i ∈ fitted p -> fresh (cells (charge p) i)) ->
  view p' = view p \/ decided p p'.
Proof.
  unfold boot_online. intros E Hon Hf. set (p0 := if _ && _ then _ else p) in E.
  assert (V0 : view p0 = view p) by (unfold p0; by destruct (_ && _)).
  assert (Hf0 : forall i, i ∈ fitted p0 -> fresh (cells (charge p0) i))
    by (unfold p0; by destruct (_ && _)).
  pose proof (f_equal (fun x => fst (fst (fst (fst x)))) V0 : isPoweredOn p0 = isPoweredOn p) as Hon0.
  rewrite Hon in Hon0. clearbody p0.
  destruct (CMSBootNotificationResponse_Received p0); cbn [negb] in E.
  2: { injection E as <-. left. rewrite boot_retry_view, <-V0. reflexivity. }
  destruct (starts_with "Accepted" (CMSBootNotificationResponse_status p0)).
  2: { injection E as <-. left. rewrite boot_retry_view, <-V0. reflexivity. }
  destruct (boot_accepted fuel junk p0) as [p1|] eqn:E1; [|done]. injection E as <-.
  right. apply (decided_view p p0 _ V0).
  destruct (boot_accepted_ready _ _ _ _ E1 Hon0 Hf0) as (D1 & D2 & D3).
  pose proof (boot_retry_view p1) as V1. unfold decided, fitted.
  rewrite (f_equal (fun x => fst (fst (fst (fst x)))) V1 : isPoweredOn (boot_retry p1) = _).
  rewrite (f_equal (fun x => snd (fst (fst (fst x)))) V1 : cells (charge (boot_retry p1)) = _).
  rewrite (f_equal (fun x => snd (fst (fst x))) V1 : Session.config (globals (charge (boot_retry p1))) = _).
  by split.
Qed.

Lemma boot_offline_power junk p :
  isPoweredOn p = true -> (forall i, i ∈ fitted p -> fresh (cells (charge p) i)) ->
  view (boot_offline junk p) = view p \/ decided p (boot_offline junk p).
Proof.
  intros Hon Hf. destruct (gives_up p) eqn:Eg.
  - right. destruct (boot_offline_spec junk p Eg Hon) as (B1 & B2 & _ & B3 & _).
    split; [done|]. split; [done|]. intros i Hi. rewrite B3 by done.
    by apply settled_ready, after_outage_settled, Hf.
  - left. unfold gives_up in Eg. unfold boot_offline. cbn. rewrite Eg. reflexivity.
Qed.

(** Meanwhile the connection comes and goes, the central system answers the
    boot notification, and will answer what is sent to it. *)
Inductive boots : plant -> plant -> Prop :=
| BootIterates fuel junk p p' : boot_step fuel junk p = Some p' -> boots p p'
| BootConnection up p :
    boots p (setg0 (fun g => g <| isWebsocketConnected := up |>) p)
| BootAnswer status interval p :
    boots p (p <| CMSBootNotificationResponse_Received := true |>
               <| CMSBootNotificationResponse_status := status |>
               <| CMSBootNotificationResponse_interval := interval |>)
| BootAnswers l p : boots p (p <| answers := l |>).

Lemma boots_power p p' :
  boots p p' -> taskState (cells (charge p) Conn0) = flag_EVSE_initialisation ->
  isPoweredOn p = true -> (forall i, i ∈ fitted p -> fresh (cells (charge p) i)) ->
  view p' = view p \/ decided p p'.
Proof.
  intros Hs Ht Hon Hf. destruct Hs as [fuel junk p p' E| | |]; [|by left..].
  unfold boot_step in E. rewrite Ht in E. destruct (isWebsocketConnected _).
  - by eapply boot_online_power.
  - injection E as <-. by apply boot_offline_power.
Qed.

(** The iterations up to the one that decides. *)
Definition powering p p' : Prop := isPoweredOn p = true /\ boots p p'.

(** Claim C29.  From power-up, whatever the network and the central system do and however
    long it takes: until the charge point has booted or given up the
    connection no connector's cells change; the iteration that decides leaves
    every fitted connector idle with its transaction closed or charging with
    its transaction open. *)
Theorem power_up_consistent p p' :
  taskState (cells (charge p) Conn0) = flag_EVSE_initialisation ->
  isPoweredOn p = true -> (forall i, i ∈ fitted p -> fresh (cells (charge p) i)) ->
  rtc powering p p' ->
  if isPoweredOn p' then cells (charge p') = cells (charge p)
  else forall i, i ∈ fitted p -> ready (cells (charge p') i).
Proof.
  intros Ht Hon Hf Hs. induction Hs as [p|p p1 p' [_ Hb] Hs IH]; [by rewrite Hon|].
  destruct (boots_power p p1 Hb Ht Hon Hf) as [V|(D1 & D2 & D3)].
  - pose proof (f_equal (fun x => fst (fst (fst (fst x)))) V : isPoweredOn p1 = isPoweredOn p) as V1.
    pose proof (f_equal (fun x => snd (fst (fst (fst x)))) V : cells (charge p1) = cells (charge p)) as V2.
    pose proof (f_equal (fun x => snd (fst (fst x))) V
      : Session.config (globals (charge p1)) = Session.config (globals (charge p))) as V3.
    unfold fitted in *. rewrite V2, V3 in IH. apply IH; [done | congruence | done].
  - inversion Hs as [|? ? ? [? _]]; subst; [by rewrite D1 | congruence].
Qed.

(** ** Announcing the charge point *)

Fixpoint boot_run (fuel : nat) (junk : ConnectorPrivateData_t) (n : nat) (p : plant) : option plant :=
  match n with
  | O => Some p
  | S n => match boot_step fuel junk p with None => None | Some p => boot_run fuel junk n p end
  end.

Lemma boot_run_app fuel junk m n p p1 :
  boot_run fuel junk m p = Some p1 -> boot_run fuel junk (m + n) p = boot_run fuel junk n p1.
Proof.
  revert p. induction m as [|m IH]; intros p; cbn; [by intros [= ->]|].
  destruct (boot_step fuel junk p) as [p2|]; [apply IH | done].
Qed.

Definition is_announcement (e : event) : bool := match e with EvBootNotification => true | _ => false end.
(** The boot notifications sent so far. *)
Definition announced p : Z := Z.of_nat (length (List.filter is_announcement (trace (globals (charge p))))).

Definition silent p : Prop :=
  taskState (cells (charge p) Conn0) = flag_EVSE_initialisation /\
  isWebsocketConnected (globals (charge p)) = true /\
  CPBootNotificationRequest_Sent p = true /\ CMSBootNotificationResponse_Received p = false.

(** The iterations without an answer after which the notification is sent
    again. *)
Definition patience p : Z := if isBootRejected p then bootRetryTime p else BOOT_TIMEOUT.

Lemma silent_step fuel junk p :
  silent p -> 0 <= timeout p < 4294967295 ->
  exists p', boot_step fuel junk p = Some p' /\ silent p' /\
    if timeout p + 1 >? patience p then
      announced p' = announced p + 1 /\ timeout p' = 0 /\ isBootRejected p' = false
    else announced p' = announced p /\ timeout p' = timeout p + 1 /\
         isBootRejected p' = isBootRejected p /\ bootRetryTime p' = bootRetryTime p.
Proof.
  intros (Ht & Hw & Hs & Hr) Hb. unfold boot_step, boot_online. rewrite Ht, Hw, Hs. cbn [negb andb].
  rewrite Hr. cbn [negb]. rewrite u32_small by lia. eexists. split; [reflexivity|].
  unfold boot_retry, patience. set (p1 := p <| timeout := _ |>).
  change (isBootRejected p1) with (isBootRejected p). change (timeout p1) with (timeout p + 1).
  change (bootRetryTime p1) with (bootRetryTime p).
  assert (A : forall q, announced (sendBootNotificationRequest q) = announced q + 1).
  { intros q. unfold announced. cbn [sendBootNotificationRequest]. cbn. lia. }
  destruct (isBootRejected p) eqn:Er.
  - destruct (timeout p + 1 >? bootRetryTime p).
    + rewrite A. done.
    + repeat split; done.
  - destruct (timeout p + 1 >? BOOT_TIMEOUT).
    + rewrite A. done.
    + repeat split; done.
Qed.

(** The cycle of a minute, from [timeout] iterations into it. *)
Lemma silent_cycle fuel junk n p :
  silent p -> isBootRejected p = false -> 0 <= timeout p <= BOOT_TIMEOUT ->
  exists p', boot_run fuel junk n p = Some p' /\
    announced p' = announced p + (timeout p + Z.of_nat n) / (BOOT_TIMEOUT + 1).
Proof.
  unfold BOOT_TIMEOUT. change (60 + 1) with 61.
  revert p. induction n as [|n IH]; intros p Hs Hr Hb.
  - exists p. split; [done|]. rewrite Z.div_small by lia. lia.
  - destruct (silent_step fuel junk p Hs ltac:(lia)) as (p1 & E1 & S1 & C1).
    unfold patience, BOOT_TIMEOUT in C1. rewrite Hr in C1. cbn [boot_run]. rewrite E1.
    destruct (timeout p + 1 >? 60) eqn:Et; bool_simpl; destruct C1 as (A1 & T1 & C1).
    + destruct (IH p1 S1 C1 ltac:(lia)) as (p' & E' & A'). exists p'. split; [done|].
      rewrite A', A1, T1. replace (timeout p + Z.of_nat (S n)) with (0 + Z.of_nat n + 1 * 61) by lia.
      rewrite Z.div_add by lia. lia.
    + destruct C1 as [C1 _].
      destruct (IH p1 S1 C1 ltac:(lia)) as (p' & E' & A'). exists p'. split; [done|].
      rewrite A', A1, T1. f_equal. f_equal. lia.
Qed.

(** Waiting out a rejection. *)
Lemma silent_wait fuel junk n p :
  silent p -> isBootRejected p = true -> 0 <= timeout p -> bootRetryTime p < 4294967295 ->
  timeout p + Z.of_nat n <= bootRetryTime p ->
  exists p', boot_run fuel junk n p = Some p' /\ silent p' /\ isBootRejected p' = true /\
    announced p' = announced p /\ timeout p' = timeout p + Z.of_nat n /\ bootRetryTime p' = bootRetryTime p.
Proof.
  revert p. induction n as [|n IH]; intros p Hs Hr Ht Hb Hn.
  - exists p. split; [done|]. repeat split; try done; try apply Hs; lia.
  - destruct (silent_step fuel junk p Hs ltac:(lia)) as (p1 & E1 & S1 & C1).
    unfold patience in C1. rewrite Hr in C1. cbn [boot_run]. rewrite E1.
    destruct (timeout p + 1 >? bootRetryTime p) eqn:Et; bool_simpl; [lia|].
    destruct C1 as (A1 & T1 & R1 & B1).
    destruct (IH p1 S1 ltac:(congruence) ltac:(lia) ltac:(lia) ltac:(lia)) as (p' & E' & S' & R' & A' & T' & B').
    exists p'. rewrite A', A1, T', T1, B', B1. repeat split; try done; try apply S'; lia.
Qed.

(** While the central system stays silent, the boot notification is sent on
    the first iteration and again after every 61 further ones, without end; a
    rejection with interval [R] (a minute when it is [0]) delays the next
    one to [R + 1] iterations later, and the minute's cycle resumes.  The
    interval is an unsigned word, hence the bound. *)
Theorem boot_request_repeats fuel junk p n :
  taskState (cells (charge p) Conn0) = flag_EVSE_initialisation ->
  isWebsocketConnected (globals (charge p)) = true ->
  (CPBootNotificationRequest_Sent p = false -> isBootRejected p = false ->
   CMSBootNotificationResponse_Received p = false -> timeout p = 0 ->
   exists p', boot_run fuel junk (S n) p = Some p' /\
     announced p' = announced p + 1 + (Z.of_nat n + 1) / 61) /\
  (CPBootNotificationRequest_Sent p = true -> CMSBootNotificationResponse_Received p = true ->
   starts_with "Accepted" (CMSBootNotificationResponse_status p) = false ->
   0 <= CMSBootNotificationResponse_interval p < 4294967295 ->
   let R := if CMSBootNotificationResponse_interval p =? 0 then 60
            else CMSBootNotificationResponse_interval p in
   exists p', boot_run fuel junk (S n) p = Some p' /\
     announced p' = announced p + (if Z.of_nat n <=? R then 0 else 1 + (Z.of_nat n - R - 1) / 61)).
Proof.
  intros Ht Hw. split.
  - intros Hs Hj Hr H0'. cbn [boot_run]. unfold boot_step, boot_online. rewrite Ht, Hw, Hs, Hj. cbn [negb andb].
    set (p1 := sendBootNotificationRequest _).
    change (CMSBootNotificationResponse_Received p1) with (CMSBootNotificationResponse_Received p).
    rewrite Hr. cbn [negb]. change (timeout p1) with (timeout p). rewrite H0'. change (u32 (0 + 1)) with 1.
    set (p2 := p1 <| timeout := 1 |>).
    assert (E : boot_retry p2 = p2).
    { unfold boot_retry. change (isBootRejected p2) with (isBootRejected p). by rewrite Hj. }
    assert (S2 : silent p2) by done.
    assert (A2 : announced p2 = announced p + 1)
      by (unfold announced; cbn; lia).
    rewrite E. destruct (silent_cycle fuel junk n p2 S2 Hj) as (p' & E' & A'); [by cbn|].
    exists p'. split; [exact E'|]. rewrite A', A2. change (timeout p2) with 1. unfold BOOT_TIMEOUT.
    do 2 f_equal. lia.
  - intros Hs Hr Hna Hi. cbv zeta. cbn [boot_run]. unfold boot_step, boot_online.
    rewrite Ht, Hw, Hs. cbn [negb andb]. rewrite Hr, Hna. cbn [negb].
    set (R := if CMSBootNotificationResponse_interval p =? 0 then 60 else _).
    assert (HR : 0 < R < 4294967295) by (unfold R; if_split; bool_simpl; lia).
    set (p1 := boot_rejected p).
    assert (B1 : bootRetryTime p1 = R) by reflexivity. assert (T1 : timeout p1 = 0) by reflexivity.
    assert (J1 : isBootRejected p1 = true) by reflexivity. assert (S1 : silent p1) by done.
    assert (A1 : announced p1 = announced p) by reflexivity.
    assert (E1 : boot_retry p1 = p1).
    { unfold boot_retry. rewrite J1, B1, T1. destruct (0 >? R) eqn:Ez; bool_simpl; [lia | done]. }
    rewrite E1. clearbody p1 R. clear E1.
    destruct (Z.leb_spec (Z.of_nat n) R) as [Hn|Hn].
    + destruct (silent_wait fuel junk n p1 S1 J1 ltac:(lia) ltac:(lia) ltac:(lia))
        as (p' & E' & _ & _ & A' & _). exists p'. split; [exact E' | lia].
    + destruct (silent_wait fuel junk (Z.to_nat R) p1 S1 J1 ltac:(lia) ltac:(lia) ltac:(lia))
        as (p2 & E2 & S2 & J2 & A2 & T2 & B2).
      destruct (silent_step fuel junk p2 S2 ltac:(lia)) as (p3 & E3 & S3 & C3).
      unfold patience in C3. rewrite J2 in C3.
      destruct (timeout p2 + 1 >? bootRetryTime p2) eqn:Et; bool_simpl; [|lia].
      destruct C3 as (A3 & T3 & J3).
      destruct (silent_cycle fuel junk (n - Z.to_nat R - 1) p3 S3 J3) as (p' & E' & A');
        [rewrite T3; by cbn|].
      exists p'. split.
      * replace n with (Z.to_nat R + (1 + (n - Z.to_nat R - 1)))%nat by lia.
        rewrite (boot_run_app _ _ _ _ _ _ E2). cbn [boot_run Nat.add]. by rewrite E3.
      * rewrite A', A3, A2, A1, T3. unfold BOOT_TIMEOUT.
        replace (0 + Z.of_nat (n - Z.to_nat R - 1)) with (Z.of_nat n - R - 1) by lia.
        change (60 + 1) with 61. lia.
Qed.

(** ** The outage *)

Lemma offline_wait fuel junk n p :
  taskState (cells (charge p) Conn0) = flag_EVSE_initialisation ->
  isWebsocketConnected (globals (charge p)) = false ->
  Config.offline (Session.config (globals (charge p))) = false ->
  0 <= offlineTimeout p -> offlineTimeout p + Z.of_nat n <= BOOT_OFFLINE_TIMEOUT ->
  boot_run fuel junk n p = Some (p <| offlineTimeout := offlineTimeout p + Z.of_nat n |>).
Proof.
  intros Ht Hw Hc. unfold BOOT_OFFLINE_TIMEOUT. revert p Ht Hw Hc.
  induction n as [|n IH]; intros p Ht Hw Hc H0' Hn.
  { cbn [boot_run]. rewrite Z.add_0_r. by destruct p. }
  cbn [boot_run]. unfold boot_step. rewrite Ht, Hw.
  assert (E : boot_offline junk p = p <| offlineTimeout := offlineTimeout p + 1 |>).
  { unfold boot_offline. set (p0 := p <| offlineTimeout := u32 _ |>).
    change (offlineTimeout p0) with (u32 (offlineTimeout p + 1)).
    change (globals (charge p0)) with (globals (charge p)). subst p0. rewrite Hc, u32_small by lia.
    unfold BOOT_OFFLINE_TIMEOUT. destruct (offlineTimeout p + 1 >? 10) eqn:Ez; bool_simpl; [lia | done]. }
  rewrite E. set (p1 := p <| offlineTimeout := _ |>).
  assert (T1 : offlineTimeout p1 = offlineTimeout p + 1) by reflexivity.
  rewrite IH; [|done..|lia|lia]. rewrite T1. unfold p1. f_equal.
  replace (offlineTimeout p + Z.of_nat (S n)) with (offlineTimeout p + 1 + Z.of_nat n) by lia. reflexivity.
Qed.

End BootSpec.

(** ** Concrete states *)

(** The central system is unreachable, connector 1's vehicle left its
    transaction open, and nothing has been decided yet. *)
Definition example_plant (connected : bool) : @plant (Flash ConnectorPrivateData_t) :=
  mkPlant
    (mkWorld (example_shared <| isWebsocketConnected := connected |>)
      (upd Conn1 (example_conn <| taskState := flag_EVSE_initialisation |> <| cpState := STATE_A |>
                    <| ConnectorData := zero_data <| isTransactionOngoing := true |> |>)
        (fun _ => example_conn <| taskState := flag_EVSE_initialisation |>)))
    empty_store [] false false "" 0 false 0 0 0 true false false false
    (fun _ => false) (fun _ => false) (fun _ => false).

Definition example_offline_plant : @plant (Flash ConnectorPrivateData_t) :=
  setg0 (fun g => g <| Session.config := (Session.config g) <| Config.offline := true |> |>)
    (example_plant false).

Lemma power_up_consistent_witness :
  ready (cells (charge (boot_offline zero_data example_offline_plant)) Conn1).
Proof.
  assert (F : forall i, i ∈ fitted example_offline_plant ->
    ready (cells (charge (boot_offline zero_data example_offline_plant)) i)).
  { pose proof (power_up_consistent example_offline_plant (boot_offline zero_data example_offline_plant)) as P.
    apply P; [reflexivity..| |].
    - intros i Hi. destruct (fitted_upto _ i Hi) as [Hi' _].
      rewrite !elem_of_cons in Hi'. destruct Hi' as [->|[->|[->|Hn]]]; [reflexivity..|].
      by apply not_elem_of_nil in Hn.
    - apply rtc_once. split; [reflexivity|]. apply (BootIterates 0 zero_data). reflexivity. }
  apply F. by apply (bool_decide_unpack _).
Defined.

Lemma boot_request_repeats_witness :
  exists p', boot_run 0 zero_data 123 (example_plant true) = Some p' /\ announced p' = 3.
Proof.
  exact (proj1 (boot_request_repeats 0 zero_data (example_plant true) 122 eq_refl eq_refl)
    eq_refl eq_refl eq_refl eq_refl).
Defined.

