(* ===== verification/Authorization.v ===== *)
(** * Who may charge ([main/ocpp_task.c], [main/Rfid.c])

    A card tapped on the reader, a licence plate read by the camera and a
    remote start from the central system all end in [processRfidTappedState]:
    it asks the central system, accepts from the two local lists, or applies
    the offline policy, and raises the grant the connectors' tasks consume
    ([Session.v]).  [rfid_poll] is the part of [Connector0Task] that calls it
    for a tapped card.

    The requests and answers of the authorisation live in the cells of
    connector 0; its private data is [ConnectorData0] of the shared globals. *)

From Stdlib Require Import Ascii.
From S2P Require Import Prelude Binary64 Config EnergyMeter ControlPilot Session.

(** ** State *)

(** An entry of [CMSSendLocalListRequest.localAuthorizationList] or of
    [LocalAuthorizationList]: its text and its [idTagPresent] flag. *)
Definition entry : Type := string * bool.

Definition LOCAL_LIST_COUNT := 10.
Definition AUTH_TIMEOUT := 60.
Definition STATUS_AVAILABLE := 1.

(** The keys of [CPGetConfigurationResponse] consulted here. *)
Record AuthKeys := mkAuthKeys {
  LocalAuthListEnabled : bool;
  AuthorizationCacheEnabled : bool;
  LocalPreAuthorize : bool;
  LocalAuthorizeOffline : bool;
  AllowOfflineTxForUnknownId : bool;
  AuthorizeRemoteTxRequests : bool
}.

Record authz := mkAuthz {
  charge : world;
  keys : AuthKeys;
  localAuthorizationList : list entry;   (* [CMSSendLocalListRequest] *)
  LocalAuthorizationList : list entry;
  StatusState : cid -> Z;
  RemoteTagNumberbuf : string;
  AlprTagNumberbuf : string;
  RemoteAuthorize : bool;
  AlprAuthorize : bool;
  AllTasksBusy : bool;
  rfidTappedStateProcessed : bool;
  (* [CPAuthorizeRequest[0]], [CMSAuthorizeResponse[0]],
     [CPRemoteStartTransactionResponse[0]] *)
  ar_Sent : bool;
  ar_UniqId : Z;
  ar_idTag : string;
  aa_Received : bool;
  aa_status : string;
  rs_Sent : bool;
  (* the [static] locals of [processRfidTappedState] *)
  timeout : Z;
  loopCount : Z;
  (* the reader's part of [Connector0Task] *)
  newRfidRead_old : bool;
  rfidTappedBlinkLed : cid -> bool;
  RfidTappedFirstProcessed : bool;
  isEvPluggedFirst : bool;
  rfidTappedSentToDisplay : bool;
  isRfidLedProcessed : cid -> bool;
  rfidReadTimeCount : Z
}.
#[export] Instance authz_rebuild : Rebuild authz := fun a =>
  mkAuthz (charge a) (keys a) (localAuthorizationList a) (LocalAuthorizationList a)
    (StatusState a) (RemoteTagNumberbuf a) (AlprTagNumberbuf a) (RemoteAuthorize a)
    (AlprAuthorize a) (AllTasksBusy a) (rfidTappedStateProcessed a) (ar_Sent a) (ar_UniqId a)
    (ar_idTag a) (aa_Received a) (aa_status a) (rs_Sent a) (timeout a) (loopCount a)
    (newRfidRead_old a) (rfidTappedBlinkLed a) (RfidTappedFirstProcessed a)
    (isEvPluggedFirst a) (rfidTappedSentToDisplay a) (isRfidLedProcessed a)
    (rfidReadTimeCount a).
#[export] Instance world_rebuild : Rebuild world := fun w => mkWorld (globals w) (cells w).

(** The shared globals and a connector's cells, from here. *)
Definition G (a : authz) : shared := globals (charge a).
Definition cell (a : authz) (i : cid) : conn := cells (charge a) i.

Definition seta (f : authz -> authz) : cmd authz := f.
Definition setG (f : shared -> shared) : cmd authz := fun a =>
  update charge (fun w => update globals f w) a.
Definition setcell (i : cid) (f : conn -> conn) : cmd authz := fun a =>
  update charge (fun w => update cells (fun c => upd i (f (c i)) c) w) a.
(** [ConnectorData[0]]. *)
Definition set0 (f : ConnectorPrivateData_t -> ConnectorPrivateData_t) : cmd authz :=
  setG (fun g => g <| ConnectorData0 := f (ConnectorData0 g) |>).
Definition call (e : authz -> event) : cmd authz := fun a =>
  setG (fun g => g <| trace := e a :: trace g |>) a.

(** A call of a function of the session component for connector [i]. *)
Definition on_session (i : cid) (c : cmd session) : cmd authz := fun a =>
  let s := c (mkSession (G a) (cell a i)) in
  (setG (fun _ => glob s) ;; setcell i (fun _ => me s)) a.

Arguments G a /.
Arguments cell a i /.
Arguments seta f a /.
Arguments setG f a /.
Arguments setcell i f a /.
Arguments set0 f a /.
Arguments call e a /.

(** The connectors the loops [for (i = 1; i <= config.NumberOfConnectors; i++)]
    visit. *)
Definition fitted (a : authz) : list cid := connectors_upto (NumberOfConnectors (config (G a))).
Definition any (p : authz -> cid -> bool) (a : authz) : bool := existsb (p a) (fitted a).

Definition in_state (t : EvseDevStatuse) (a : authz) (i : cid) : bool :=
  bool_decide (taskState (cell a i) = t).

(** ** Lists *)

(** [strncmp(tag, entry, strlen(tag)) == 0 && idTagPresent], over the list. *)
Definition list_matches (tag : string) (l : list entry) : bool :=
  existsb (fun e => starts_with tag (fst e) && snd e) l.
Definition rfidMatchingLocalList (a : authz) : bool :=
  list_matches (rfidTagNumberbuf (G a)) (localAuthorizationList a).
Definition rfidMatchingAuthorizationCache (a : authz) : bool :=
  list_matches (rfidTagNumberbuf (G a)) (LocalAuthorizationList a).

(** The second loop of [saveTagToLocalAuthenticationList]: the first free slot
    takes the tag. *)
Fixpoint fill_free_slot (tag : string) (l : list entry) : list entry :=
  match l with
  | [] => []
  | (t, true) :: l => (t, true) :: fill_free_slot tag l
  | (_, false) :: l => (tag, true) :: l
  end.

Definition save_tag (tag : string) (l : list entry) : list entry :=
  if existsb (fun e => (fst e =? tag)%string && snd e) l then l else fill_free_slot tag l.

Definition saveTagToLocalAuthenticationList : cmd authz :=
  withs (fun a => seta (fun a => a <| LocalAuthorizationList :=
    save_tag (rfidTagNumberbuf (G a)) (LocalAuthorizationList a) |>)) ;;
  call (fun a => EvWriteAuthorizationCache (LocalAuthorizationList a)).

(** Listed, and the list in use. *)
Definition listed (a : authz) : bool :=
  (rfidMatchingLocalList a && LocalAuthListEnabled (keys a))
  || (rfidMatchingAuthorizationCache a && AuthorizationCacheEnabled (keys a)).

(** ** [processRfidTappedState] *)

Definition custom_nvs_write_connector_data_0 : cmd authz :=
  call (fun a => EvWriteConnectorData Conn0 (ConnectorData0 (G a))).

Definition sendAuthorizationRequest : cmd authz :=
  seta (fun a => a <| ar_UniqId := randomNumber (G a) |>) ;;
  setG (fun g => g <| randomNumber := (randomNumber g + 1) mod 18446744073709551616 |>) ;;
  call (fun a => EvAuthorize (ar_UniqId a) (ar_idTag a)) ;;
  seta (fun a => a <| ar_Sent := true |> <| aa_Received := false |>).

(** [if (isRfidTappedFirst) SetChargerAuthSuccessPlugEvBit(); else
    SetChargerAuthSuccessBit();] *)
Definition display_success : cmd authz :=
  call (fun a => EvAuthDisplay (if isRfidTappedFirst (G a) then ChargerAuthSuccessPlugEvBit
                                else ChargerAuthSuccessBit)).

(** [SetChargerAuthFailedBit(); updateDisplayOnAcceptanceFailed(1);] *)
Definition display_failure : cmd authz :=
  call (fun _ => EvAuthDisplay ChargerAuthFailedBit) ;;
  on_session Conn1 (updateDisplayOnAcceptanceFailed Conn1).

(** A connector a tapped card may concern: idle, or charging without pilot
    and waiting for its button. *)
Definition may_take_card (a : authz) (i : cid) : bool :=
  in_state flag_EVSE_Read_Id_Tag a i
  || (negb (cpEnable (cell a i)) && PushButtonEnabled (cell a i)
      && in_state flag_EVSE_Request_Charge a i).

(** [for (i ...) if (p) processRfidForConnector[i] = true;] *)
Definition offer_card (p : authz -> cid -> bool) : cmd authz :=
  withs (fun a => foreach (fitted a) (fun i =>
    WHEN fun a => p a i THEN
      setG (fun g => g <| processRfidForConnector := upd i true (processRfidForConnector g) |>)
    FI)).

(** [setNULL] and [memcpy] of the tapped card into [ConnectorData[0].idTag]. *)
Definition take_card : cmd authz :=
  withs (fun a => set0 (fun d => d <| idTag := rfidTagNumberbuf (G a) |>)).

(** The request for a remote start or a licence plate. *)
Definition ask_for_stored_tag : cmd authz :=
  seta (fun a => a <| loopCount := 0 |>) ;;
  withs (fun a =>
    let tag := if AlprAuthorize a then AlprTagNumberbuf a else RemoteTagNumberbuf a in
    seta (fun a => a <| ar_idTag := tag |>) ;;
    set0 (fun d => d <| idTag := tag |>)) ;;
  custom_nvs_write_connector_data_0 ;;
  sendAuthorizationRequest ;;
  seta (fun a => a <| rs_Sent := false |>) ;;
  setG (fun g => g <| newRfidRead := false |>) ;;
  seta (fun a => a <| RemoteAuthorize := false |> <| AlprAuthorize := false |> <| timeout := 0 |>).

(** A listed card, accepted without asking. *)
Definition accept_listed : cmd authz :=
  seta (fun a => a <| ar_Sent := false |>) ;;
  setG (fun g => g <| newRfidRead := false |>) ;;
  seta (fun a => a <| loopCount := 0 |>) ;;
  take_card ;;
  display_success ;;
  seta (fun a => a <| rfidTappedStateProcessed := true |>) ;;
  setG (fun g => g <| rfidMatchingWithLocalList := true |>) ;;
  offer_card may_take_card ;;
  seta (fun a => a <| timeout := 0 |>).

Definition ask_for_card : cmd authz :=
  seta (fun a => a <| rs_Sent := false |>) ;;
  setG (fun g => g <| newRfidRead := false |>) ;;
  seta (fun a => a <| loopCount := 0 |> <| ar_idTag := rfidTagNumberbuf (G a) |>) ;;
  take_card ;;
  custom_nvs_write_connector_data_0 ;;
  sendAuthorizationRequest ;;
  offer_card may_take_card ;;
  seta (fun a => a <| timeout := 0 |>).

(** A card nobody can take is forgotten, except on the three-socket AC10. *)
Definition drop_if_busy : cmd authz :=
  WHEN fun a => loopCount a >=? 2 THEN
    WHEN fun a => newRfidRead (G a) THEN
      seta (fun a => a <| AllTasksBusy := negb (any (in_state flag_EVSE_Read_Id_Tag) a) |>) ;;
      WHEN fun a => AllTasksBusy a && negb (Ac10t (config (G a))) THEN
        setG (fun g => g <| newRfidRead := false |>)
      FI
    FI
  FI.

Definition online (a : authz) : bool := isWebsocketConnected (G a) && isWebsocketBooted (G a).
Definition charging_somewhere (a : authz) : bool := any (in_state flag_EVSE_Request_Charge) a.
Arguments online a /.

(** A new authorisation, online. *)
Definition begin_online : cmd authz :=
  WHEN fun a => (newRfidRead (G a) || RemoteAuthorize a || AlprAuthorize a) && online a THEN
    WHEN fun a => charging_somewhere a && Ac10DA (config (G a)) THEN
      setG (fun g => g <| newRfidRead := false |>) ;;
      seta (fun a => a <| loopCount := 0 |>)
    FI ;;
    drop_if_busy ;;
    IF fun a => charging_somewhere a && (loopCount a <? 3) THEN
      seta (fun a => a <| loopCount := u8 (loopCount a + 1) |>)
    ELSE IF fun a => RemoteAuthorize a || AlprAuthorize a THEN
      ask_for_stored_tag
    ELSE IF fun a => listed a && LocalPreAuthorize (keys a) THEN
      accept_listed
    ELSE WHEN fun a => negb (ar_Sent a) THEN
      ask_for_card
    FI FI FI FI
  FI.

(** Whom an accepted answer is for: the remote start, the camera or the
    reader, in this order, by prefix of the tag asked about. *)
Definition attribute_answer : cmd authz :=
  IF fun a => starts_with (RemoteTagNumberbuf a) (ar_idTag a) THEN
    setG (fun g => g <| RemoteAuthenticated := true |>)
  ELSE IF fun a => starts_with (AlprTagNumberbuf a) (ar_idTag a) THEN
    setG (fun g => g <| AlprAuthenticated := true |>)
  ELSE WHEN fun a => starts_with (rfidTagNumberbuf (G a)) (ar_idTag a) THEN
    setG (fun g => g <| rfidAuthenticated := true |>) ;;
    seta (fun a => a <| rfidTappedStateProcessed := true |>)
  FI FI FI.

Definition accepted_answer : cmd authz :=
  seta (fun a => a <| timeout := 0 |>) ;;
  set0 (fun d => d <| UnkownId := false |>) ;;
  WHEN fun a => AuthorizationCacheEnabled (keys a)
                && starts_with (rfidTagNumberbuf (G a)) (ar_idTag a) THEN
    saveTagToLocalAuthenticationList
  FI ;;
  seta (fun a => a <| aa_Received := false |> <| ar_Sent := false |>) ;;
  attribute_answer ;;
  display_success.

Definition refused_answer : cmd authz :=
  seta (fun a => a <| timeout := 0 |>) ;;
  setG (fun g => g <| isRfidTappedFirst := false |>) ;;
  display_failure ;;
  seta (fun a => a <| aa_Received := false |> <| ar_Sent := false |>).

(** The answer of the central system, or another request after a minute. *)
Definition await_answer : cmd authz :=
  WHEN fun a => online a && ar_Sent a THEN
    IF fun a => negb (aa_Received a) && ar_Sent a THEN
      seta (fun a => a <| timeout := u32 (timeout a + 1) |>)
    ELSE IF fun a => starts_with "Accepted" (aa_status a) THEN
      accepted_answer
    ELSE
      refused_answer
    FI FI ;;
    WHEN fun a => timeout a >? AUTH_TIMEOUT THEN
      seta (fun a => a <| timeout := 0 |>) ;;
      sendAuthorizationRequest
    FI
  FI.

(** Accept the card without the central system. *)
Definition accept_offline (p : authz -> cid -> bool) : cmd authz :=
  take_card ;;
  custom_nvs_write_connector_data_0 ;;
  seta (fun a => a <| rfidTappedStateProcessed := true |>) ;;
  display_success ;;
  offer_card p ;;
  setG (fun g => g <| rfidMatchingWithLocalList := true |>).

Definition forget_tap : cmd authz :=
  setG (fun g => g <| newRfidRead := false |>) ;;
  seta (fun a => a <| loopCount := 0 |>).

Definition refuse_offline : cmd authz :=
  set0 (fun d => d <| UnkownId := false |>) ;;
  seta (fun a => a <| rfidTappedStateProcessed := true |>) ;;
  setG (fun g => g <| isRfidTappedFirst := false |> <| newRfidRead := false |>) ;;
  display_failure.

Definition sales_offline : cmd authz :=
  IF fun a => listed a && LocalAuthorizeOffline (keys a) THEN
    forget_tap ;;
    set0 (fun d => d <| UnkownId := false |>) ;;
    accept_offline may_take_card
  ELSE IF fun a => AllowOfflineTxForUnknownId (keys a) THEN
    forget_tap ;;
    set0 (fun d => d <| UnkownId := true |>) ;;
    accept_offline (in_state flag_EVSE_Read_Id_Tag)
  ELSE
    refuse_offline
  FI FI.

(** The offline policy: an infrastructure charger takes any card, a sales
    charger the listed ones, or any if configured so. *)
Definition decide_offline : cmd authz :=
  WHEN fun a => (onlineOffline (config (G a)) || offline (config (G a)))
                && negb (isWebsocketConnected (G a)) THEN
    IF fun a => any (fun a i => isTransactionOngoing (ConnectorData (cell a i))) a
                && (loopCount a <? 2) THEN
      seta (fun a => a <| loopCount := u8 (loopCount a + 1) |>)
    ELSE WHEN fun a => newRfidRead (G a) THEN
      seta (fun a => a <| ar_Sent := false |>) ;;
      WHEN fun a => infra_charger (config (G a)) THEN
        forget_tap ;;
        accept_offline may_take_card
      FI ;;
      WHEN fun a => sales_charger (config (G a)) THEN
        sales_offline
      FI
    FI FI
  FI.

Definition processRfidTappedState : cmd authz :=
  begin_online ;; await_answer ;; decide_offline.

(** ** The reader ([Rfid.c]) *)

(** Ten bytes [0xFF]: a tag that list_matches nothing. *)
Definition no_tag : string :=
  Eval cbv in String.string_of_list_ascii (replicate 10 (Ascii.Ascii true true true true true true true true)).

Definition hex_digit (n : Z) : ascii :=
  ascii_of_nat (Z.to_nat (if n <? 10 then n + 48 else n + 87)).
(** ["%02x"] of a [uint8_t]. *)
Definition hex2 (b : Z) : string :=
  String (hex_digit (b / 16)) (String (hex_digit (b mod 16)) EmptyString).
Definition tag_text (serial : Z) : string :=
  hex2 (u8 serial) +:+ hex2 (u8 (serial / 256)) +:+ hex2 (u8 (serial / 65536))
  +:+ hex2 (u8 (serial / (256 * 65536))).

(** [rc522_handler], without the buzzer. *)
Definition rc522_handler (serial_number : Z) : cmd authz :=
  WHEN fun a => negb (AlprAuthorize a) THEN
    setG (fun g => g <| newRfidRead := true |> <| rfidTagNumberbuf := tag_text serial_number |>) ;;
    seta (fun a => a <| RemoteTagNumberbuf := no_tag |> <| AlprTagNumberbuf := no_tag |>)
  FI.

(** Offline operation, or an online charge point that is online. *)
Definition reader_enabled (a : authz) : bool :=
  (online a && (onlineOffline (config (G a)) || Config.online (config (G a))))
  || (negb (isWebsocketConnected (G a)) && (onlineOffline (config (G a)) || offline (config (G a)))).

(** [for (i ...) if (connectorFault[i] == 1) { ... }]: a fault of any
    connector drops the tap. *)
Definition drop_if_fault : cmd authz :=
  WHEN any (fun a i => connectorFault (cell a i)) THEN
    setG (fun g => g <| newRfidRead := false |> <| rfidTagNumberbuf := no_tag |>)
  FI.

Definition clear_all_grants : cmd authz :=
  foreach [Conn0; Conn1; Conn2; Conn3] (fun i =>
    setcell i (fun m => m <| rfidReceivedFromRemote := false |>)) ;;
  setG (fun g => g <| rfidMatchingWithLocalList := false |> <| rfidAuthenticated := false |>
    <| RemoteAuthenticated := false |> <| AlprAuthenticated := false |>).

(** A tap stays pending for at most 120 iterations. *)
Definition serve_tap : cmd authz :=
  WHEN fun a => negb (RfidTappedFirstProcessed a) THEN
    seta (fun a => a <| RfidTappedFirstProcessed := true |>) ;;
    WHEN any (fun a i => (cpState (cell a i) =? STATE_B1) || (cpState (cell a i) =? STATE_E2)) THEN
      seta (fun a => a <| isEvPluggedFirst := true |>)
    FI ;;
    withs (fun a => setG (fun g => g <| isRfidTappedFirst := negb (isEvPluggedFirst a) |>))
  FI ;;
  WHEN fun a => negb (rfidTappedSentToDisplay a) THEN
    call (fun _ => EvAuthDisplay ChargerRfidTappedBit) ;;
    seta (fun a => a <| rfidTappedSentToDisplay := true |>)
  FI ;;
  WHEN fun a => negb (rfidTappedStateProcessed a) THEN processRfidTappedState FI ;;
  seta (fun a => a <| rfidReadTimeCount := u32 (rfidReadTimeCount a + 1) |>) ;;
  WHEN fun a => rfidReadTimeCount a >=? 120 THEN
    seta (fun a => a <| rfidTappedStateProcessed := false |>) ;;
    clear_all_grants ;;
    seta (fun a => a <| rfidReadTimeCount := 0 |>) ;;
    setG (fun g => g <| newRfidRead := false |>)
  FI.

(** The reader's part of an iteration of [Connector0Task]. *)
Definition rfid_poll : cmd authz :=
  WHEN fun a => newRfidRead (G a) THEN
    WHEN fun a => negb (Bool.eqb (newRfidRead (G a)) (newRfidRead_old a)) && newRfidRead (G a) THEN
      withs (fun a => foreach (fitted a) (fun i =>
        seta (fun a => a <| rfidTappedBlinkLed := upd i true (rfidTappedBlinkLed a) |>)))
    FI ;;
    WHEN fun a => negb (reader_enabled a) THEN
      setG (fun g => g <| newRfidRead := false |>)
    FI ;;
    drop_if_fault
  FI ;;
  withs (fun a => seta (fun a => a <| newRfidRead_old := newRfidRead (G a) |>)) ;;
  IF fun a => newRfidRead (G a) THEN
    serve_tap
  ELSE
    seta (fun a => a <| RfidTappedFirstProcessed := false |> <| rfidTappedStateProcessed := false |>
      <| rfidTappedSentToDisplay := false |> <| isRfidLedProcessed := fun _ => false |>
      <| rfidReadTimeCount := 0 |>)
  FI.

(** ** The camera ([updateAlprInfo]) *)

Record AlprData_t := mkAlpr {
  msgType : Z;
  header : Z;
  deviceID : Z;
  packTYPE : Z;
  packDATA : string;
  footer : Z
}.

Definition MESSAGE_TYPE_DATA := 1.
Definition CARPALTENUM := 33.

Definition is_plate (a : authz) (p : AlprData_t) : bool :=
  (msgType p =? MESSAGE_TYPE_DATA) && (packTYPE p =? CARPALTENUM) && (header p =? 85)
  && (footer p =? 35) && (deviceID p <=? NumberOfConnectors (config (G a))).

(** [ConnectorData[i].idTag] of any connector. *)
Definition set_idTag (i : cid) (tag : string) : cmd authz :=
  if decide (i = Conn0) then set0 (fun d => d <| idTag := tag |>)
  else setcell i (fun m => m <| ConnectorData := (ConnectorData m) <| idTag := tag |> |>).

(** [deviceID] is at most [NumberOfConnectors], which is at most 3. *)
Definition updateAlprInfo (AlprInfo : AlprData_t) : cmd authz :=
  WHEN fun a => is_plate a AlprInfo THEN
    match cid_of_Z (deviceID AlprInfo) with
    | None => skip
    | Some i =>
        WHEN fun a => in_state flag_EVSE_Read_Id_Tag a i && negb (newRfidRead (G a)) THEN
          setG (fun g => g <| AlprAuthorizeConnId := cid_to_Z i |>) ;;
          seta (fun a => a <| AlprAuthorize := true |> <| RemoteAuthorize := false |>) ;;
          setG (fun g => g <| newRfidRead := false |>) ;;
          seta (fun a => a <| AlprTagNumberbuf := packDATA AlprInfo |>) ;;
          set_idTag i (packDATA AlprInfo) ;;
          setG (fun g => g <| rfidTagNumberbuf := no_tag |>) ;;
          seta (fun a => a <| RemoteTagNumberbuf := no_tag |>) ;;
          processRfidTappedState
        FI
    end
  FI.

(** ** Requests of the central system ([Connector0Task]) *)

Definition press_button (i : cid) : cmd authz :=
  WHEN fun a => PushButtonEnabled (cell a i) THEN
    setcell i (fun m => m <| PushButton := true |>)
  FI.

Definition sendRemoteStartTransactionResponse (i : cid) (status : string) : cmd authz :=
  call (fun _ => EvRemoteStartResponse i status) ;;
  if decide (i = Conn0) then seta (fun a => a <| rs_Sent := true |>)
  else setcell i (fun m => m <| CPRemoteStartTransactionResponse_Sent := true |>).

(** [RemoteStartTransaction] for connector [i] with tag [tag] (of at most 19
    characters, so that the 20-byte buffers keep their terminator). *)
Definition remote_start (i : cid) (tag : string) : cmd authz :=
  IF fun a => connectorFault (cell a i) || negb (in_state flag_EVSE_Read_Id_Tag a i) THEN
    sendRemoteStartTransactionResponse i "Rejected"
  ELSE IF fun a => AuthorizeRemoteTxRequests (keys a) THEN
    seta (fun a => a <| RemoteAuthorize := true |>) ;;
    setG (fun g => g <| newRfidRead := false |> <| RemoteAuthorizeConnId := cid_to_Z i |>) ;;
    press_button i ;;
    set_idTag i tag ;;
    setG (fun g => g <| rfidTagNumberbuf := no_tag |>) ;;
    seta (fun a => a <| RemoteTagNumberbuf := tag |>) ;;
    processRfidTappedState ;;
    sendRemoteStartTransactionResponse i "Accepted"
  ELSE
    set_idTag i tag ;;
    setG (fun g => g <| rfidTagNumberbuf := tag |>) ;;
    setcell i (fun m => m <| rfidReceivedFromRemote := true |>) ;;
    press_button i ;;
    sendRemoteStartTransactionResponse i "Accepted"
  FI FI.

(** Connector [i]'s private data. *)
Definition data_of (a : authz) (i : cid) : ConnectorPrivateData_t :=
  if decide (i = Conn0) then ConnectorData0 (G a) else ConnectorData (cell a i).
Definition set_data (i : cid) (f : ConnectorPrivateData_t -> ConnectorPrivateData_t) : cmd authz :=
  if decide (i = Conn0) then set0 f
  else setcell i (fun m => m <| ConnectorData := f (ConnectorData m) |>).
Definition save_data (i : cid) : cmd authz :=
  call (fun a => EvWriteConnectorData i (data_of a i)).

(** [ChangeAvailability] of type [type]. *)
Definition change_availability (i : cid) (type : string) : cmd authz :=
  set_data i (fun d => d <| CmsAvailableChanged := false |>) ;;
  IF fun a => in_state flag_EVSE_Request_Charge a i THEN
    set_data i (fun d => d <| CmsAvailableScheduled := starts_with "Inoperative" type |>) ;;
    save_data i ;;
    call (fun _ => EvChangeAvailabilityResponse i "Scheduled")
  ELSE
    set_data i (fun d => d <| CmsAvailable := negb (starts_with "Inoperative" type) |>
                           <| CmsAvailableChanged := true |>) ;;
    save_data i ;;
    call (fun _ => EvChangeAvailabilityResponse i "Accepted")
  FI.

(** A scheduled change takes effect once the connector is idle. *)
Definition apply_scheduled (i : cid) : cmd authz :=
  WHEN fun a => in_state flag_EVSE_Read_Id_Tag a i
      && (((cpState (cell a i) =? STATE_A) && cpEnable (cell a i))
          || (negb (cpEnable (cell a i)) && (StatusState a i =? STATUS_AVAILABLE)))
      && CmsAvailableScheduled (data_of a i) THEN
    set_data i (fun d => d <| CmsAvailableScheduled := false |> <| CmsAvailable := false |>
                           <| CmsAvailableChanged := true |>) ;;
    call (fun _ => EvChangeAvailabilityResponse i "Accepted") ;;
    save_data i
  FI.

Record CMSReserveNowRequest_t := mkReserve {
  rn_idTag : string;
  rn_expiryDate : string;
  rn_parentidTag : option string;   (* [isparentidTagReceived] *)
  rn_reservationId : Z
}.

Definition reserve_now (i : cid) (r : CMSReserveNowRequest_t) : cmd authz :=
  IF fun a => connectorFault (cell a i) THEN
    call (fun _ => EvReserveNowResponse i "Faulted")
  ELSE IF fun a => negb (CmsAvailable (data_of a i)) THEN
    call (fun _ => EvReserveNowResponse i "Unavailable")
  ELSE IF fun a => in_state flag_EVSE_Request_Charge a i THEN
    call (fun _ => EvReserveNowResponse i "Occupied")
  ELSE
    set_data i (fun d => d <| isReserved := true |>
      <| ReservedData := mkReserved (rn_idTag r) (rn_expiryDate r)
           (default "" (rn_parentidTag r)) (rn_reservationId r) |>) ;;
    save_data i ;;
    call (fun _ => EvReserveNowResponse i "Accepted")
  FI FI FI.
