(* ===== verification/AuthorizationSpec.v ===== *)
(** * Properties of the authorisation ([Authorization.v])

    Which grants a call of [processRfidTappedState] raises, for whom, and what
    a tap, a remote start and a reservation lead to in the connectors' tasks. *)

From Stdlib Require Import Ascii.
From S2P Require Import Prelude Binary64 Config EnergyMeter ControlPilot Session.
From S2P Require Import SessionSpec Authorization.

(** ** Summaries and frames *)

(** [offer_card] only sets processing flags. *)
Lemma offer_card_summary p a :
  exists q, offer_card p a = setG (fun g => g <| processRfidForConnector := q |>) a.
Proof.
  unfold offer_card, withs, foreach. generalize (fitted a). intros l. revert a.
  induction l as [|i l IH]; intros a; simpl.
  - exists (processRfidForConnector (G a)). by destruct a as [[[] ?]].
  - unfold whenc, ifc at 2. destruct (p a i); unfold skip; [|apply IH].
    destruct (IH (setG (fun g => g <| processRfidForConnector := upd i true (processRfidForConnector g) |>) a))
      as (q & Hq).
    exists q. etransitivity; [exact Hq|]. reflexivity.
Qed.

Lemma display_failure_summary a :
  exists p r e, display_failure a =
    (setG (fun g => g <| processRfidForConnector := p |> <| isRfidTappedFirst := r |>
       <| trace := e ++ EvAuthDisplay ChargerAuthFailedBit :: trace g |>) ;;
     setcell Conn1 (fun m => m)) a.
Proof.
  unfold display_failure, on_session. unfold seqc at 1.
  set (a1 := call _ a).
  destruct (display_summary Conn1 (mkSession (G a1) (cell a1 Conn1))) as (p & r & e & ->).
  by exists p, r, e.
Qed.

(** Walk down a command of this component. *)
Ltac unfold_authz :=
  unfold processRfidTappedState, begin_online, drop_if_busy, ask_for_stored_tag, accept_listed,
    ask_for_card, await_answer, accepted_answer, refused_answer, attribute_answer, decide_offline,
    sales_offline, refuse_offline, accept_offline, forget_tap, take_card, display_success,
    saveTagToLocalAuthenticationList, custom_nvs_write_connector_data_0, sendAuthorizationRequest.

Ltac authz_leaf :=
  let a := fresh "a" in intros a; unfold same;
  lazymatch goal with
  | |- context [offer_card ?p a] => destruct (offer_card_summary p a) as (? & ->)
  | |- context [display_failure a] => destruct (display_failure_summary a) as (? & ? & ? & ->)
  | |- _ => idtac
  end; reflexivity.

Ltac authz_same :=
  lazymatch goal with
  | |- respects _ _ => idtac
  | |- same ?p ?s (?a ?s) =>
      let H := fresh in assert (H : respects (same p) a); [|exact (H s)]
  end;
  unfold_authz; respects_tac authz_leaf.

(** ** Grants *)

Definition grants (a : authz) : bool * bool * bool * bool :=
  (rfidMatchingWithLocalList (G a), RemoteAuthenticated (G a), AlprAuthenticated (G a),
   rfidAuthenticated (G a)).

(** Something to authorise. *)
Definition tapped (a : authz) : bool := newRfidRead (G a) || RemoteAuthorize a || AlprAuthorize a.

(** While a connector charges, three calls leave the tap to its task. *)
Definition delayed (a : authz) : bool :=
  charging_somewhere a
  && ((if charging_somewhere a && Ac10DA (config (G a)) then 0 else loopCount a) <? 3).

(** A request for a remote start or a plate replaces the pending one, and a
    listed card is accepted on the spot. *)
Definition stored_now (a : authz) : bool :=
  tapped a && online a && negb (delayed a) && (RemoteAuthorize a || AlprAuthorize a).
Definition listed_now (a : authz) : bool :=
  tapped a && online a && negb (delayed a) && negb (RemoteAuthorize a || AlprAuthorize a)
  && (listed a && LocalPreAuthorize (keys a)).

(** An answer is there and still wanted. *)
Definition answer_due (a : authz) : bool :=
  online a && ar_Sent a && aa_Received a && negb (stored_now a) && negb (listed_now a).
Definition answer_accepted (a : authz) : bool :=
  answer_due a && starts_with "Accepted" (aa_status a).

(** The offline policy of the configuration. *)
Definition offline_mode (a : authz) : bool :=
  (onlineOffline (config (G a)) || offline (config (G a))) && negb (isWebsocketConnected (G a)).
Definition offline_delayed (a : authz) : bool :=
  any (fun a i => isTransactionOngoing (ConnectorData (cell a i))) a && (loopCount a <? 2).
Definition offline_policy (a : authz) : bool :=
  infra_charger (config (G a))
  || (sales_charger (config (G a))
      && ((listed a && LocalAuthorizeOffline (keys a)) || AllowOfflineTxForUnknownId (keys a))).
Definition offline_grant (a : authz) : bool :=
  offline_mode a && negb (offline_delayed a) && newRfidRead (G a) && offline_policy a.

(** Whom an accepted answer is attributed to. *)
Definition for_remote (a : authz) : bool := starts_with (RemoteTagNumberbuf a) (ar_idTag a).
Definition for_alpr (a : authz) : bool :=
  negb (for_remote a) && starts_with (AlprTagNumberbuf a) (ar_idTag a).
Definition for_card (a : authz) : bool :=
  negb (for_remote a) && negb (starts_with (AlprTagNumberbuf a) (ar_idTag a))
  && starts_with (rfidTagNumberbuf (G a)) (ar_idTag a).

(** What [await_answer] looks at. *)
Definition answer_view (a : authz) :=
  (online a, (ar_Sent a, aa_Received a, aa_status a),
   (RemoteTagNumberbuf a, AlprTagNumberbuf a, rfidTagNumberbuf (G a), ar_idTag a), grants a,
   (LocalAuthorizationList a, AuthorizationCacheEnabled (keys a))).

Definition raise_answer (a : authz) : bool * bool * bool * bool :=
  let '(m, r, l, c) := grants a in (m, r || for_remote a, l || for_alpr a, c || for_card a).

Definition cache_after (a : authz) : list entry :=
  if AuthorizationCacheEnabled (keys a) && starts_with (rfidTagNumberbuf (G a)) (ar_idTag a)
  then save_tag (rfidTagNumberbuf (G a)) (LocalAuthorizationList a) else LocalAuthorizationList a.

Definition verdict (a : authz) := (grants a, LocalAuthorizationList a).

Lemma attribute_answer_spec a :
  verdict (attribute_answer a) = (raise_answer a, LocalAuthorizationList a).
Proof.
  unfold attribute_answer, whenc, ifc, raise_answer, verdict, grants, for_alpr, for_card, for_remote.
  cbv beta.
  destruct (starts_with (RemoteTagNumberbuf a) _), (starts_with (AlprTagNumberbuf a) _),
    (starts_with (rfidTagNumberbuf (G a)) _);
    cbn; by rewrite ?orb_true_r, ?orb_false_r.
Qed.

Lemma accepted_answer_spec a : verdict (accepted_answer a) = (raise_answer a, cache_after a).
Proof.
  unfold accepted_answer. rewrite !seqc_eq.
  set (a1 := set0 _ _). set (a2 := whenc _ _ a1). set (a3 := seta _ a2).
  transitivity (verdict (attribute_answer a3)); [reflexivity|]. rewrite attribute_answer_spec.
  assert (E : raise_answer a2 = raise_answer a1 /\ LocalAuthorizationList a2 = cache_after a1)
    by (unfold a2, whenc, ifc, cache_after; destruct (_ && _); split; reflexivity).
  transitivity (raise_answer a2, LocalAuthorizationList a2); [reflexivity|].
  destruct E as [-> ->]. reflexivity.
Qed.

Lemma await_answer_spec a :
  verdict (await_answer a) =
  if online a && ar_Sent a && aa_Received a && starts_with "Accepted" (aa_status a)
  then (raise_answer a, cache_after a) else verdict a.
Proof.
  unfold await_answer. rewrite whenc_eq. unfold ifc at 1. cbv beta.
  destruct (online a) eqn:Eo; [|done].
  destruct (ar_Sent a) eqn:Es; [|done].
  cbn [andb]. rewrite seqc_eq.
  set (b := ifc _ _ _ a).
  transitivity (verdict b); [unfold whenc, ifc; destruct (_ >? _); reflexivity|].
  unfold b, ifc. rewrite Es, andb_true_r. destruct (aa_Received a); cbn [negb andb]; [|done].
  destruct (starts_with "Accepted" (aa_status a)); [apply accepted_answer_spec|].
  change (same verdict a (refused_answer a)). authz_same.
Qed.

(** [begin_online] first filters the tap, then dispatches it. *)
Definition filter_tap : cmd authz :=
  WHEN fun a => charging_somewhere a && Ac10DA (config (G a)) THEN
    setG (fun g => g <| newRfidRead := false |>) ;;
    seta (fun a => a <| loopCount := 0 |>)
  FI ;;
  drop_if_busy.
Definition dispatch_tap : cmd authz :=
  IF fun a => charging_somewhere a && (loopCount a <? 3) THEN
    seta (fun a => a <| loopCount := u8 (loopCount a + 1) |>)
  ELSE IF fun a => RemoteAuthorize a || AlprAuthorize a THEN
    ask_for_stored_tag
  ELSE IF fun a => listed a && LocalPreAuthorize (keys a) THEN
    accept_listed
  ELSE WHEN fun a => negb (ar_Sent a) THEN
    ask_for_card
  FI FI FI FI.

Lemma begin_online_eq a :
  begin_online a = if tapped a && online a then dispatch_tap (filter_tap a) else a.
Proof. reflexivity. Qed.

(** What the filter leaves alone. *)
Definition tap_view (a : authz) :=
  (answer_view a, RemoteAuthorize a || AlprAuthorize a, listed a, LocalPreAuthorize (keys a),
   charging_somewhere a).

Lemma filter_tap_frame : respects (same tap_view) filter_tap.
Proof. unfold filter_tap. authz_same. Qed.

Lemma filter_tap_count a :
  loopCount (filter_tap a)
  = if charging_somewhere a && Ac10DA (config (G a)) then 0 else loopCount a.
Proof.
  unfold filter_tap. rewrite seqc_eq.
  set (a1 := whenc _ _ a).
  transitivity (loopCount a1); [change (same loopCount a1 (drop_if_busy a1)); authz_same|].
  unfold a1, whenc, ifc. by destruct (_ && _).
Qed.

(** After [begin_online]: the grants, and whether an answer is still due. *)
Lemma dispatch_tap_spec a :
  let d := charging_somewhere a && (loopCount a <? 3) in
  let r := RemoteAuthorize a || AlprAuthorize a in
  let l := listed a && LocalPreAuthorize (keys a) in
  (negb d && negb r && l = false -> grants (dispatch_tap a) = grants a) /\
  (negb d && negb r && l = true ->
     grants (dispatch_tap a) = (true, RemoteAuthenticated (G a), AlprAuthenticated (G a),
                            rfidAuthenticated (G a)) /\ ar_Sent (dispatch_tap a) = false) /\
  (negb d && r = true -> aa_Received (dispatch_tap a) = false) /\
  (negb d && (r || l) = false ->
     answer_view (dispatch_tap a) = answer_view a \/ aa_Received (dispatch_tap a) = false /\ ar_Sent a = false) /\
  LocalAuthorizationList (dispatch_tap a) = LocalAuthorizationList a /\
  online (dispatch_tap a) = online a.
Proof.
  cbv zeta. unfold dispatch_tap, whenc, ifc, skip.
  destruct (charging_somewhere a && _); [split_and!; try discriminate; auto|].
  destruct (RemoteAuthorize a || _); [split_and!; try discriminate; auto|].
  destruct (listed a && _).
  - split_and!; try discriminate; intros; try split.
    all: unfold accept_listed; rewrite !seqc_eq;
      match goal with |- context [offer_card ?p ?s] =>
        destruct (offer_card_summary p s) as (q & ->); reflexivity end.
  - destruct (ar_Sent a) eqn:Es; cbn [negb]; [split_and!; try discriminate; auto|].
    split_and!; try discriminate; intros; try right; try split; try done.
    all: unfold ask_for_card; rewrite !seqc_eq;
      match goal with |- context [offer_card ?p ?s] =>
        destruct (offer_card_summary p s) as (q & ->); reflexivity end.
Qed.

(** The offline policy's part. *)
Definition matched (a : authz) : (bool * bool * bool * bool) * list entry :=
  (true, RemoteAuthenticated (G a), AlprAuthenticated (G a), rfidAuthenticated (G a),
   LocalAuthorizationList a).

Lemma accept_offline_spec p a : verdict (accept_offline p a) = matched a.
Proof.
  unfold accept_offline. rewrite !seqc_eq.
  match goal with |- context [offer_card ?p ?s] =>
    destruct (offer_card_summary p s) as (q & ->); reflexivity end.
Qed.

Lemma refuse_offline_spec a : verdict (refuse_offline a) = verdict a.
Proof. change (same verdict a (refuse_offline a)). authz_same. Qed.

Definition policy_view (a : authz) :=
  (listed a, keys a, sales_charger (config (G a)), matched a).

Lemma sales_offline_spec a :
  verdict (sales_offline a) =
  if (listed a && LocalAuthorizeOffline (keys a)) || AllowOfflineTxForUnknownId (keys a)
  then matched a else verdict a.
Proof.
  unfold sales_offline, ifc.
  destruct (listed a && _); [rewrite !seqc_eq, accept_offline_spec; reflexivity|].
  destruct (AllowOfflineTxForUnknownId (keys a)); [|apply refuse_offline_spec].
  rewrite !seqc_eq, accept_offline_spec. reflexivity.
Qed.

Lemma infra_frame :
  respects (same policy_view)
    (WHEN fun a => infra_charger (config (G a)) THEN
       forget_tap ;; accept_offline may_take_card FI).
Proof. authz_same. Qed.

Lemma decide_offline_spec a :
  verdict (decide_offline a) = if offline_grant a then matched a else verdict a.
Proof.
  unfold decide_offline, offline_grant. rewrite whenc_eq. unfold ifc at 1.
  change (_ && negb (isWebsocketConnected (G a))) with (offline_mode a).
  destruct (offline_mode a); [|done].
  unfold ifc at 1. change (any _ a && _) with (offline_delayed a).
  destruct (offline_delayed a); [done|]. rewrite whenc_eq. unfold ifc at 1.
  destruct (newRfidRead (G a)); [|done]. cbn [negb andb].
  rewrite seqc_eq. set (a1 := seta _ a). rewrite seqc_eq.
  set (a2 := whenc _ _ a1).
  assert (F : policy_view a2 = policy_view a1) by apply infra_frame.
  assert (E : verdict a2 = if infra_charger (config (G a)) then matched a else verdict a).
  { unfold a2, whenc, ifc. change (infra_charger (config (G a1))) with (infra_charger (config (G a))).
    destruct (infra_charger _); [rewrite seqc_eq, accept_offline_spec|]; reflexivity. }
  assert (V : policy_view a2 = policy_view a) by (transitivity (policy_view a1); [exact F | reflexivity]).
  clearbody a2. clear F a1.
  pose proof (f_equal (fun v => fst (fst (fst v))) V : listed a2 = listed a) as V1.
  pose proof (f_equal (fun v => snd (fst (fst v))) V : keys a2 = keys a) as V2.
  pose proof (f_equal (fun v => snd (fst v)) V
    : sales_charger (config (G a2)) = sales_charger (config (G a))) as V3.
  pose proof (f_equal snd V : matched a2 = matched a) as M.
  unfold whenc, ifc. rewrite V3. clear V3. unfold offline_policy.
  destruct (sales_charger _); unfold skip.
  - rewrite sales_offline_spec, V1, V2, M, E.
    by destruct (infra_charger _), (_ || _).
  - by rewrite E, andb_false_l, orb_false_r.
Qed.

(** What [begin_online] does to the grants and to the pending answer. *)
Lemma begin_online_spec a :
  let a1 := begin_online a in
  (stored_now a = true -> aa_Received a1 = false /\ verdict a1 = verdict a) /\
  (listed_now a = true -> ar_Sent a1 = false /\ verdict a1 = matched a) /\
  (stored_now a = false -> listed_now a = false ->
     answer_view a1 = answer_view a \/
     aa_Received a1 = false /\ ar_Sent a = false /\ verdict a1 = verdict a) /\
  online a1 = online a.
Proof.
  cbv zeta. rewrite begin_online_eq. unfold stored_now, listed_now.
  destruct (tapped a && online a); cbn [andb]; [|by split_and!; auto].
  set (b := filter_tap a). pose proof (filter_tap_frame a : tap_view b = tap_view a) as F.
  destruct (dispatch_tap_spec b) as (D1 & D2 & D3 & D4 & D5 & D6). set (a1 := dispatch_tap b) in *.
  unfold delayed. rewrite <-(filter_tap_count a). fold b. clearbody a1 b.
  pose proof (f_equal snd F : charging_somewhere b = charging_somewhere a) as Fc.
  pose proof (f_equal (fun v => snd (fst v)) F : LocalPreAuthorize (keys b) = LocalPreAuthorize (keys a)) as Fp.
  pose proof (f_equal (fun v => snd (fst (fst v))) F : listed b = listed a) as Fl.
  pose proof (f_equal (fun v => snd (fst (fst (fst v)))) F
    : RemoteAuthorize b || AlprAuthorize b = RemoteAuthorize a || AlprAuthorize a) as Fr.
  pose proof (f_equal (fun v => fst (fst (fst (fst v)))) F : answer_view b = answer_view a) as Fv.
  pose proof (f_equal (fun v => (snd (fst v), fst (snd v))) Fv : verdict b = verdict a) as Fg.
  pose proof (f_equal (fun v => fst (fst (snd (fst (fst (fst v)))))) Fv : ar_Sent b = ar_Sent a) as Fs.
  pose proof (f_equal (fun v => fst (fst (fst (fst v)))) Fv : online b = online a) as Fo.
  rewrite Fl, Fp, Fr, Fc in *. clear F Fl Fp Fr Fc.
  assert (V : grants a1 = grants b -> verdict a1 = verdict a)
    by (intros E; rewrite <-Fg; unfold verdict; by rewrite E, D5).
  assert (M : matched b = matched a).
  { transitivity (match verdict b with (m, r, l, c, k) => (true, r, l, c, k) end); [reflexivity|].
    rewrite Fg. reflexivity. }
  revert D1 D2 D3 D4.
  destruct (charging_somewhere a && _), (RemoteAuthorize a || _), (listed a && _); cbn [negb andb orb];
    intros D1 D2 D3 D4; split_and!; try discriminate; intros; try (by rewrite D6).
  all: try (by apply D3). all: try (by apply D2). all: try (by apply V, D1).
  all: try (destruct (D4 eq_refl) as [E|[E1 E2]];
    [left; by rewrite E | right; rewrite <-Fs; split_and!; [done..|by apply V, D1]]).
  1-2: by split; [apply D3 | apply V, D1].
  destruct (D2 eq_refl) as [E Es]. split; [done|]. rewrite <-M. unfold verdict, matched. by rewrite E, D5.
Qed.

Lemma online_no_offline_grant a : online a = true -> offline_grant a = false.
Proof.
  unfold offline_grant, offline_mode. cbn. intros [-> _]%andb_true_iff. by rewrite andb_false_r.
Qed.

Lemma stored_not_listed a : stored_now a = true -> listed_now a = false.
Proof. unfold stored_now, listed_now. intros [_ ->]%andb_true_iff. by rewrite andb_false_r. Qed.
Lemma stored_no_answer a : stored_now a = true -> answer_accepted a = false.
Proof. unfold answer_accepted, answer_due. intros ->. by rewrite andb_false_r. Qed.
Lemma listed_no_answer a : listed_now a = true -> answer_accepted a = false.
Proof. unfold answer_accepted, answer_due. intros ->. by rewrite andb_false_r. Qed.
Lemma answer_accepted_plain a :
  online a = true -> stored_now a = false -> listed_now a = false ->
  answer_accepted a = ar_Sent a && aa_Received a && starts_with "Accepted" (aa_status a).
Proof. unfold answer_accepted, answer_due. intros -> -> ->. by rewrite !andb_true_r. Qed.

(** The answer's effect, and when it has one, depend on the view. *)
Lemma accepted_by_view a b :
  answer_view a = answer_view b ->
  (if ar_Sent a && aa_Received a && starts_with "Accepted" (aa_status a)
   then (raise_answer a, cache_after a) else verdict a)
  = (if ar_Sent b && aa_Received b && starts_with "Accepted" (aa_status b)
     then (raise_answer b, cache_after b) else verdict b).
Proof.
  set (f := fun v : bool * (bool * bool * string) * (string * string * string * string)
                    * (bool * bool * bool * bool) * (list entry * bool) =>
    let '(_, (s, r, st), (rt, at', ct, tag), (m, rg, ag, cg), (l, ce)) := v in
    if s && r && starts_with "Accepted" st
    then (m, rg || starts_with rt tag,
            ag || negb (starts_with rt tag) && starts_with at' tag,
            cg || negb (starts_with rt tag) && negb (starts_with at' tag) && starts_with ct tag,
          if ce && starts_with ct tag then save_tag ct l else l)
    else (m, rg, ag, cg, l)).
  intros E. exact (f_equal f E).
Qed.

Lemma online_frame :
  respects (same online) (begin_online ;; await_answer).
Proof. authz_same. Qed.

(** Claim C8.  A call raises exactly the grants the configuration and the
    central system justify: the list grant for a listed card that may be
    accepted without asking, or by the offline policy; the grant of the remote
    start, of the camera or of the reader for an accepted answer that is still
    wanted, attributed to the first of the three whose tag the asked tag
    extends.  Nothing else raises a grant, none is withdrawn, and a card enters
    the authorisation cache only with its accepted answer. *)
Theorem grants_exact a :
  let a' := processRfidTappedState a in
  rfidMatchingWithLocalList (G a') =
    rfidMatchingWithLocalList (G a) || listed_now a || offline_grant a /\
  RemoteAuthenticated (G a') = RemoteAuthenticated (G a) || answer_accepted a && for_remote a /\
  AlprAuthenticated (G a') = AlprAuthenticated (G a) || answer_accepted a && for_alpr a /\
  rfidAuthenticated (G a') = rfidAuthenticated (G a) || answer_accepted a && for_card a /\
  LocalAuthorizationList a' = if answer_accepted a then cache_after a else LocalAuthorizationList a.
Proof.
  cbv zeta. unfold processRfidTappedState. rewrite !seqc_eq.
  set (a1 := begin_online a). set (a2 := await_answer a1).
  assert (V : verdict (decide_offline a2) =
    (rfidMatchingWithLocalList (G a) || listed_now a || offline_grant a,
     RemoteAuthenticated (G a) || answer_accepted a && for_remote a,
     AlprAuthenticated (G a) || answer_accepted a && for_alpr a,
     rfidAuthenticated (G a) || answer_accepted a && for_card a,
     if answer_accepted a then cache_after a else LocalAuthorizationList a)).
  2: { unfold verdict, grants in V. clearbody a1 a2. set (a' := decide_offline a2) in *. clearbody a'.
       pose proof (f_equal snd V) as V5. apply (f_equal fst) in V.
       pose proof (f_equal snd V) as V4. apply (f_equal fst) in V.
       pose proof (f_equal snd V) as V3. apply (f_equal fst) in V.
       pose proof (f_equal snd V) as V2. apply (f_equal fst) in V. by split_and!. }
  rewrite decide_offline_spec. destruct (online a) eqn:Eo.
  - rewrite !online_no_offline_grant by
      (exact Eo || (transitivity (online a); [exact (online_frame a) | exact Eo])).
    unfold a2. rewrite await_answer_spec.
    destruct (begin_online_spec a) as (B1 & B2 & B3 & B4). fold a1 in B1, B2, B3, B4.
    rewrite B4, Eo. clear a2. clearbody a1. destruct (stored_now a) eqn:E1.
    + destruct (B1 eq_refl) as [-> ->]. rewrite andb_false_r. cbn [andb].
      rewrite (stored_not_listed a E1), (stored_no_answer a E1), !orb_false_r. done.
    + destruct (listed_now a) eqn:E2.
      * destruct (B2 eq_refl) as [-> ->]. cbn [andb].
        rewrite (listed_no_answer a E2), orb_true_r, !orb_false_r. done.
      * rewrite (answer_accepted_plain a Eo E1 E2), !orb_false_r.
        destruct (B3 eq_refl eq_refl) as [Ev|(-> & -> & ->)];
          [|by rewrite andb_false_r, !orb_false_r].
        cbn [andb]. rewrite (accepted_by_view a1 a Ev). by destruct (_ && _ && _); cbn; rewrite ?orb_false_r.
  - assert (a1 = a) as E by (unfold a1; by rewrite begin_online_eq, Eo, andb_false_r).
    assert (a2 = a) as -> by (unfold a2; rewrite E; unfold await_answer, whenc, ifc; by rewrite Eo).
    unfold answer_accepted, answer_due, listed_now. rewrite Eo, andb_false_r. cbn [andb].
    rewrite !orb_false_r. destruct (offline_grant a); [by rewrite orb_true_r | by rewrite orb_false_r].
Qed.

(** ** The tapped card's text *)

(** The value of a hexadecimal digit, and of a text of them, lowest byte
    first. *)
Definition hex_value (c : ascii) : Z :=
  let n := Z.of_nat (nat_of_ascii c) in if n <? 58 then n - 48 else n - 87.
Fixpoint text_value (s : string) : Z :=
  match s with
  | String h (String l s) => hex_value h * 16 + hex_value l + 256 * text_value s
  | _ => 0
  end.

Lemma hex_digit_value n : 0 <= n < 16 -> hex_value (hex_digit n) = n.
Proof.
  intros Hn. replace n with (Z.of_nat (Z.to_nat n)) by lia.
  assert (H : (Z.to_nat n < 16)%nat) by lia. revert H. generalize (Z.to_nat n) as k. intros k Hk.
  do 16 (destruct k as [|k]; [reflexivity|]). lia.
Qed.

Lemma hex2_value b s : text_value (hex2 (u8 b) +:+ s) = u8 b + 256 * text_value s.
Proof.
  pose proof (u8_range b). 
  change (text_value (hex2 (u8 b) +:+ s)) with (hex_value (hex_digit (u8 b / 16)) * 16
    + hex_value (hex_digit (u8 b mod 16)) + 256 * text_value s).
  rewrite !hex_digit_value by mlia. pose proof (Z.div_mod (u8 b) 16). lia.
Qed.

(** The text of a tapped card is eight characters that encode
    exactly the low 32 bits of its serial number: it decodes to them, so two
    cards have the same text, and hence the same authorisation, exactly when
    their serial numbers agree modulo [2^32]. *)
Theorem tag_text_roundtrip serial serial' :
  0 <= serial -> 0 <= serial' ->
  String.length (tag_text serial) = 8%nat /\ text_value (tag_text serial) = u32 serial /\
  (tag_text serial = tag_text serial' <-> u32 serial = u32 serial').
Proof.
  assert (V : forall n, 0 <= n -> text_value (tag_text n) = u32 n).
  { intros n Hn. unfold tag_text. rewrite !hex2_value.
    change (hex2 (u8 (n / (256 * 65536)))) with (hex2 (u8 (n / (256 * 65536))) +:+ "").
    rewrite hex2_value. cbn [text_value].
    unfold u8, u32. mlia. }
  intros H1 H2. split; [done|]. split; [by apply V|]. split; intros E.
  - by rewrite <-(V serial H1), E, V.
  - assert (U : forall n, tag_text (u32 n) = tag_text n).
    { intros n. unfold tag_text.
      replace (u8 (u32 n)) with (u8 n) by (unfold u8, u32; mlia).
      replace (u8 (u32 n / 256)) with (u8 (n / 256)) by (unfold u8, u32; mlia).
      replace (u8 (u32 n / 65536)) with (u8 (n / 65536)) by (unfold u8, u32; mlia).
      replace (u8 (u32 n / (256 * 65536))) with (u8 (n / (256 * 65536))) by (unfold u8, u32; mlia).
      done. }
    by rewrite <-U, E, U.
Qed.

Lemma tag_text_roundtrip_witness :
  tag_text 1122867 = "33221100" /\ (tag_text 1122867 = tag_text (1122867 + 5 * 2^32)).
Proof.
  split; [reflexivity|].
  apply (tag_text_roundtrip 1122867 (1122867 + 5 * 2^32)); [lia.. | reflexivity].
Defined.

(** ** The lists *)

(** [tag] occurs in the list, enabled. *)
Definition stored (tag : string) (l : list entry) : Prop := (tag, true) ∈ l.

Lemma prefix_refl tag : String.prefix tag tag = true.
Proof. induction tag as [|c s IH]; [done|]. cbn. by destruct (ascii_dec c c). Qed.

Lemma list_matches_spec tag l :
  list_matches tag l = true <-> exists t, stored t l /\ starts_with tag t = true.
Proof.
  unfold list_matches, stored. rewrite existsb_exists. split.
  - intros ([t b] & Hin & H). apply andb_true_iff in H as [H1 H2]. cbn in *. subst b.
    exists t. split; [by apply list_elem_of_In | done].
  - intros (t & Hin & H). exists (t, true). split; [by apply list_elem_of_In|]. cbn [fst snd]. by rewrite H.
Qed.

Lemma fill_free_slot_length tag l : length (fill_free_slot tag l) = length l.
Proof. induction l as [|[t []] l IH]; cbn; auto. Qed.

Lemma fill_free_slot_stored tag t l :
  stored t (fill_free_slot tag l) <->
  stored t l \/ t = tag /\ existsb (fun e => negb (snd e)) l = true.
Proof.
  unfold stored. induction l as [|[s []] l IH]; cbn.
  - rewrite elem_of_nil. naive_solver.
  - rewrite !elem_of_cons, IH. naive_solver.
  - rewrite !elem_of_cons. naive_solver.
Qed.

Lemma stored_test tag l :
  existsb (fun e : string * bool => (fst e =? tag)%string && snd e) l = true <-> stored tag l.
Proof.
  unfold stored. rewrite existsb_exists. split.
  - intros ([t b] & Hin & H). apply andb_true_iff in H as [H1%String.eqb_eq H2]. cbn in *. subst.
    by apply list_elem_of_In.
  - intros H. exists (tag, true). split; [by apply list_elem_of_In|]. cbn [fst snd]. by rewrite String.eqb_refl.
Qed.

(** The authorisation cache recognises what it learned: saving a
    card keeps the number of slots and every stored card, stores the card if it
    was stored already or a slot was free (with neither, the list is
    unchanged), and nothing else; a card that is stored is from then on
    accepted by the prefix test, and saving it again changes nothing. *)
Theorem saved_card_recognised tag l :
  let l' := save_tag tag l in
  length l' = length l /\
  (forall t, stored t l' <->
     stored t l \/ t = tag /\ existsb (fun e => negb (snd e)) l = true) /\
  (stored tag l \/ existsb (fun e => negb (snd e)) l = true ->
     list_matches tag l' = true /\ save_tag tag l' = l') /\
  (~ stored tag l -> existsb (fun e => negb (snd e)) l = false -> l' = l).
Proof.
  cbv zeta.
  assert (S : forall t, stored t (save_tag tag l) <->
     stored t l \/ t = tag /\ existsb (fun e => negb (snd e)) l = true).
  { intros t. unfold save_tag. destruct (existsb (fun e : string * bool => (fst e =? tag)%string && snd e) l) eqn:E;
      [|apply fill_free_slot_stored].
    apply stored_test in E. naive_solver. }
  split_and!; [|exact S| |].
  - unfold save_tag. if_split; [done | apply fill_free_slot_length].
  - intros H. assert (Hs : stored tag (save_tag tag l)) by (apply S; tauto).
    split; [apply list_matches_spec; exists tag; split; [done | apply prefix_refl]|].
    unfold save_tag at 1. by rewrite (proj2 (stored_test _ _) Hs).
  - intros Hn Hf. unfold save_tag. destruct (existsb (fun e : string * bool => (fst e =? tag)%string && snd e) l) eqn:E; [done|].
    clear E S Hn. induction l as [|[t []] l IH]; cbn in *; [done|by rewrite IH|done].
Qed.

Definition example_list : list entry := [("04ab12cd", true); ("", false)].

Lemma saved_card_recognised_witness :
  list_matches "33221100" (save_tag "33221100" example_list) = true /\
  save_tag "deadbeef" (save_tag "33221100" example_list) = save_tag "33221100" example_list.
Proof.
  split; [apply (saved_card_recognised "33221100" example_list); right; reflexivity|].
  apply (saved_card_recognised "deadbeef" (save_tag "33221100" example_list)); [|reflexivity].
  unfold stored. cbn. intros H. repeat (apply elem_of_cons in H as [H|H]; [discriminate|]).
  by apply not_elem_of_nil in H.
Defined.

(** ** The reader's loop *)

Ltac unfold_poll := unfold rfid_poll, serve_tap, drop_if_fault, clear_all_grants.

(** Nothing in the loop reports a card, or counts otherwise. *)
Definition no_new_tap (a a' : authz) : Prop :=
  (newRfidRead (G a') = true -> newRfidRead (G a) = true)
  /\ rfidReadTimeCount a' = rfidReadTimeCount a.
#[export] Instance no_new_tap_preorder : PreOrder no_new_tap.
Proof. split; [by split|]. intros a b c [? E1] [? E2]. split; [auto | congruence]. Qed.

Ltac no_new_tap_leaf :=
  let x := fresh "x" in intros x; split;
  lazymatch goal with
  | |- context [offer_card ?p x] => destruct (offer_card_summary p x) as (? & ->)
  | |- context [display_failure x] => destruct (display_failure_summary x) as (? & ? & ? & ->)
  | |- _ => idtac
  end; first [reflexivity | cbn; discriminate | cbn; auto].
Ltac no_new_tap_tac := unfold_authz; respects_tac no_new_tap_leaf.

Lemma process_no_new_tap : respects no_new_tap processRfidTappedState.
Proof. no_new_tap_tac. Qed.

Definition reading (a : authz) : bool := newRfidRead (G a).

(** Prove a step of a run from the command it runs. *)
Ltac by_respects :=
  match goal with
  | |- ?R ?x (?c ?x) => let H := fresh in assert (H : respects R c); [|exact (H x)]
  end.

(** A poll that leaves the tap pending has counted it, and not to the end. *)
Lemma rfid_poll_counts a :
  0 <= rfidReadTimeCount a < 120 -> reading (rfid_poll a) = true ->
  reading a = true /\ rfidReadTimeCount (rfid_poll a) = rfidReadTimeCount a + 1
  /\ rfidReadTimeCount a + 1 < 120.
Proof.
  intros Hc. unfold rfid_poll. rewrite !seqc_eq.
  set (a1 := whenc _ _ a).
  assert (N1 : no_new_tap a a1) by (unfold a1; by_respects; unfold drop_if_fault; no_new_tap_tac).
  set (a2 := withs _ a1). assert (N2 : no_new_tap a1 a2) by (by split).
  assert (N : no_new_tap a a2) by (by etransitivity). clearbody a2. clear N1 N2 a1.
  destruct N as [N1 N2]. unfold ifc. destruct (newRfidRead (G a2)) eqn:E.
  2: { intros H. exfalso. revert H. unfold reading. cbn in *. by rewrite E. }
  unfold serve_tap. rewrite !seqc_eq.
  set (b1 := whenc _ _ a2). assert (M1 : no_new_tap a2 b1).
  { unfold b1. by_respects. no_new_tap_tac. }
  set (b2 := whenc _ _ b1). assert (M2 : no_new_tap b1 b2).
  { unfold b2. by_respects. no_new_tap_tac. }
  set (b3 := whenc _ _ b2). assert (M3 : no_new_tap b2 b3).
  { unfold b3. by_respects. apply respects_when; [exact _ | apply process_no_new_tap]. }
  assert (M : no_new_tap a2 b3) by (by etransitivity; [exact M1 | etransitivity]).
  clearbody b3. clear M1 M2 M3 b1 b2. destruct M as [_ M].
  set (b4 := seta _ b3). unfold whenc, ifc. 
  assert (C : rfidReadTimeCount b4 = rfidReadTimeCount a + 1)
    by (change (u32 (rfidReadTimeCount b3 + 1) = rfidReadTimeCount a + 1); rewrite M, N2; apply u32_small; lia).
  rewrite C. destruct (_ >=? 120) eqn:E2; [done|]. unfold skip. intros _. rewrite C.
  split; [by apply N1|]. split; [done | lia].
Qed.

Definition keeps_none (a a' : authz) : Prop := reading a' = true -> reading a = true.
#[export] Instance keeps_none_preorder : PreOrder keeps_none.
Proof. split; unfold keeps_none; repeat intro; auto. Qed.

Ltac keeps_none_leaf :=
  let x := fresh "x" in
  intros x;
  lazymatch goal with
  | |- context [processRfidTappedState] => exact (proj1 (process_no_new_tap x))
  | |- _ => unfold keeps_none, reading; first [cbn; discriminate | cbn; auto]
  end.

Lemma rfid_poll_keeps_none : respects keeps_none rfid_poll.
Proof. unfold_poll. respects_tac keeps_none_leaf. Qed.

(** A tap is forgotten: without another one, at most 120 iterations
    of the reader's loop after it the card is no longer pending, whatever the
    connectors, the configuration and the central system are doing. *)
Theorem tap_forgotten a n :
  0 <= rfidReadTimeCount a < 120 -> (120 <= n)%nat ->
  newRfidRead (G (Prelude.iter n rfid_poll a)) = false.
Proof.
  intros Hc Hn. destruct (newRfidRead _) eqn:E; [exfalso|done].
  assert (H : forall k, reading (Prelude.iter k rfid_poll a) = true ->
    rfidReadTimeCount (Prelude.iter k rfid_poll a) = rfidReadTimeCount a + Z.of_nat k
    /\ rfidReadTimeCount a + Z.of_nat k < 120).
  { induction k as [|k IH]; [cbn; lia|]. rewrite iter_S. intros H.
    destruct (reading (Prelude.iter k rfid_poll a)) eqn:Er.
    - destruct (IH eq_refl) as [I1 I2].
      destruct (rfid_poll_counts (Prelude.iter k rfid_poll a)) as (_ & C1 & C2);
        [lia | exact H | lia].
    - exfalso. apply (rfid_poll_keeps_none (Prelude.iter k rfid_poll a)) in H. congruence. }
  destruct (H n E). lia.
Qed.

(** A fault on any fitted connector keeps the whole charge point's
    reader shut: an iteration of its loop drops the tap, asks nobody, grants
    nothing and calls nothing, also when the card was tapped for another,
    healthy connector. *)
Theorem fault_shuts_reader a i :
  i ∈ fitted a -> connectorFault (cell a i) = true ->
  let a' := rfid_poll a in
  newRfidRead (G a') = false /\ grants a' = grants a /\ trace (G a') = trace (G a) /\
  cells (charge a') = cells (charge a) /\
  processRfidForConnector (G a') = processRfidForConnector (G a) /\
  (newRfidRead (G a) = true -> rfidTagNumberbuf (G a') = no_tag).
Proof.
  intros Hi Hf. cbv zeta. unfold rfid_poll. rewrite !seqc_eq.
  set (a1 := whenc _ _ a).
  assert (E : newRfidRead (G a1) = false /\
    (newRfidRead (G a) = true -> rfidTagNumberbuf (G a1) = no_tag)).
  { destruct (newRfidRead (G a)) eqn:En.
    2: { assert (a1 = a) as -> by (unfold a1, whenc, ifc; by rewrite En). by split. }
    unfold a1. rewrite whenc_eq, ifc_true by exact En. rewrite !seqc_eq. clear a1. set (b := whenc _ _ (whenc _ _ a)).
    assert (F : any (fun a i => connectorFault (cell a i)) b = true).
    { transitivity (any (fun a i => connectorFault (cell a i)) a).
      - change (same (any (fun a i => connectorFault (cell a i))) a b).
        unfold b. rewrite <-seqc_eq. by_respects. respects_tac ltac:(intros ?; reflexivity).
      - unfold any. apply existsb_exists. exists i. split; [by apply list_elem_of_In | exact Hf]. }
    unfold drop_if_fault. rewrite whenc_eq, ifc_true by exact F. by split. }
  assert (S : (grants a1, trace (G a1), cells (charge a1), processRfidForConnector (G a1))
    = (grants a, trace (G a), cells (charge a), processRfidForConnector (G a))).
  { change (same (fun a => (grants a, trace (G a), cells (charge a), processRfidForConnector (G a))) a a1).
    unfold a1. by_respects. unfold drop_if_fault. respects_tac ltac:(intros ?; reflexivity). }
  clearbody a1. destruct E as [E1 E2]. unfold withs, ifc.
  set (a2 := seta _ a1). change (newRfidRead (G a2)) with (newRfidRead (G a1)). rewrite E1.
  split_and!; [exact E1| | | | |exact E2].
  - exact (f_equal (fun v => fst (fst (fst v))) S).
  - exact (f_equal (fun v => snd (fst (fst v))) S).
  - exact (f_equal (fun v => snd (fst v)) S).
  - exact (f_equal snd S).
Qed.

(** ** Concrete states *)

Definition example_keys_all : AuthKeys := mkAuthKeys true true true true false false.

(** Idle connectors, offline, the card of [saved_card_recognised_witness] on
    the reader of a sales charger that knows it. *)
Definition example_tap : authz :=
  mkAuthz
    (mkWorld (example_shared <| config := (config example_shared) <| sales_charger := true |>
                                 <| onlineOffline := true |> |>
       <| newRfidRead := true |> <| rfidTagNumberbuf := "04ab12cd" |>
       <| rfidMatchingWithLocalList := false |> <| processRfidForConnector := fun _ => false |>)
       (fun _ => example_conn))
    example_keys_all example_list [] (fun _ => 0) no_tag no_tag false false false false
    false 0 "" false "" false 0 0 false (fun _ => false) false false false (fun _ => false) 0.

Lemma tap_forgotten_witness :
  newRfidRead (G example_tap) = true /\
  newRfidRead (G (Prelude.iter 120 rfid_poll example_tap)) = false.
Proof. split; [reflexivity|]. apply tap_forgotten; [cbn; lia | lia]. Defined.

Definition example_faulty : authz :=
  setcell Conn2 (fun m => m <| connectorFault := true |>) example_tap.

Lemma fault_shuts_reader_witness :
  offline_grant example_faulty = true /\ grants (rfid_poll example_faulty) = grants example_faulty.
Proof.
  split; [reflexivity|].
  apply (fault_shuts_reader example_faulty Conn2); [|reflexivity].
  change (Conn2 ∈ [Conn1; Conn2]). apply elem_of_cons. right. by apply list_elem_of_singleton.
Defined.

(** ** From a tap to a session *)

(** A test of the connectors' cells only. *)
Definition of_cells (p : authz -> cid -> bool) : Prop :=
  forall a b, cells (charge a) = cells (charge b) -> p a = p b.

Lemma offer_card_offers p a i :
  of_cells p -> i ∈ fitted a -> p a i = true ->
  processRfidForConnector (G (offer_card p a)) i = true.
Proof.
  intros Hp Hi Hpi. unfold offer_card, withs, foreach. revert Hi. generalize (fitted a). intros l Hi.
  assert (H : forall b, p b i = true -> i ∈ l \/ processRfidForConnector (G b) i = true ->
    processRfidForConnector (G (foldl (fun b j => (WHEN fun a => p a j THEN
      setG (fun g => g <| processRfidForConnector := upd j true (processRfidForConnector g) |>)
    FI) b) b l)) i = true); [|by apply H; auto].
  clear Hi a Hpi. induction l as [|j l IH]; intros b Hb Hi; cbn [foldl].
  - destruct Hi as [Hi%not_elem_of_nil|Hi]; done.
  - apply IH.
    + unfold whenc, ifc. destruct (p b j); [by erewrite Hp | done].
    + rewrite elem_of_cons in Hi. unfold whenc, ifc.
      destruct (decide (i = j)) as [<-|Hn].
      * right. rewrite Hb. cbn. by rewrite upd_same.
      * destruct Hi as [[->|Hi]|Hi]; [done | by left | right].
        destruct (p b j); [cbn; by rewrite upd_other|done].
Qed.

(** An accepted tap, as a connector sees it. *)
Definition tap_accepted (i : cid) (a a' : authz) : Prop :=
  rfidMatchingWithLocalList (G a') = true /\ processRfidForConnector (G a') i = true /\
  idTag (ConnectorData0 (G a')) = rfidTagNumberbuf (G a) /\
  cells (charge a') = cells (charge a) /\
  FirmwareUpdateStarted (G a') = FirmwareUpdateStarted (G a) /\
  Session.CPGetConfigurationResponse (G a') = Session.CPGetConfigurationResponse (G a).

Lemma accept_offline_accepts p a i :
  of_cells p -> i ∈ fitted a -> p a i = true -> tap_accepted i a (accept_offline p a).
Proof.
  intros Hp Hi Hpi. unfold accept_offline. rewrite !seqc_eq.
  set (b := display_success _).
  assert (Hb : processRfidForConnector (G (offer_card p b)) i = true)
    by (apply offer_card_offers; [done | exact Hi | by rewrite (Hp b a)]).
  destruct (offer_card_summary p b) as (q & E). rewrite E in *. by split_and!.
Qed.

Lemma in_state_of_cells t : of_cells (in_state t).
Proof. intros a b E. unfold in_state, cell. by rewrite E. Qed.
Lemma may_take_card_of_cells : of_cells may_take_card.
Proof. intros a b E. unfold may_take_card, in_state, cell. by rewrite E. Qed.

Lemma tap_accepted_from i a b a' :
  (cells (charge b), FirmwareUpdateStarted (G b),
    Session.CPGetConfigurationResponse (G b), rfidTagNumberbuf (G b))
  = (cells (charge a), FirmwareUpdateStarted (G a),
     Session.CPGetConfigurationResponse (G a), rfidTagNumberbuf (G a)) ->
  tap_accepted i b a' -> tap_accepted i a a'.
Proof.
  intros [= E1 E2 E3 E4] (H1 & H2 & H3 & H4 & H5 & H6). unfold tap_accepted.
  cbn in *. by rewrite <-E1, <-E2, <-E3, <-E4.
Qed.

Lemma infra_keeps_sales :
  respects (same (fun a => sales_charger (config (G a)))) (accept_offline may_take_card).
Proof. authz_same. Qed.

(** The offline policy accepts for every idle connector. *)
Lemma offline_accepts a i :
  offline_grant a = true -> infra_charger (config (G a)) = negb (sales_charger (config (G a))) ->
  i ∈ fitted a -> in_state flag_EVSE_Read_Id_Tag a i = true ->
  tap_accepted i a (processRfidTappedState a).
Proof.
  intros Hg Hx Hi Hs.
  assert (Hm : may_take_card a i = true) by (unfold may_take_card; by rewrite Hs).
  assert (Ho : online a = false).
  { destruct (online a) eqn:E; [|done]. by rewrite online_no_offline_grant in Hg. }
  unfold processRfidTappedState. rewrite !seqc_eq, begin_online_eq, Ho, andb_false_r.
  replace (await_answer a) with a by (unfold await_answer; rewrite whenc_eq, ifc_false; [done|by rewrite Ho]).
  unfold offline_grant in Hg. apply andb_true_iff in Hg as [Hg Hp].
  apply andb_true_iff in Hg as [Hg Hr]. apply andb_true_iff in Hg as [Hg Hd].
  unfold decide_offline. rewrite whenc_eq, ifc_true by exact Hg.
  rewrite ifc_false by (by apply negb_true_iff in Hd). rewrite whenc_eq, ifc_true by exact Hr.
  rewrite seqc_eq. set (a1 := seta _ a). rewrite seqc_eq. unfold offline_policy in Hp. rewrite Hx in Hp.
  destruct (sales_charger (config (G a))) eqn:Es; cbn [negb orb andb] in Hx, Hp.
  - rewrite (whenc_eq _ _ a1), ifc_false by exact Hx. rewrite skip_eq, whenc_eq, ifc_true by exact Es.
    unfold sales_offline, ifc. change (listed a1) with (listed a). change (keys a1) with (keys a).
    destruct (listed a && _); [|rewrite orb_false_l in Hp; rewrite Hp]; rewrite !seqc_eq;
      (eapply tap_accepted_from; [|
        apply accept_offline_accepts; [apply may_take_card_of_cells || apply in_state_of_cells
          | exact Hi | exact Hm || exact Hs]]); reflexivity.
  - rewrite (whenc_eq _ _ a1), ifc_true by exact Hx. rewrite seqc_eq, whenc_eq, ifc_false.
    + rewrite skip_eq. eapply tap_accepted_from; [|
        apply accept_offline_accepts; [apply may_take_card_of_cells | exact Hi | exact Hm]]. reflexivity.
    + rewrite <-Es. exact (infra_keeps_sales (forget_tap a1)).
Qed.

(** An idle connector's turn on an authorisation. *)
Lemma idle_turn id s :
  taskState (me s) = flag_EVSE_Read_Id_Tag -> not_busy s = true ->
  CmsAvailable (ConnectorData (me s)) = true -> isReserved (ConnectorData (me s)) = false ->
  rfidReceivedFromRemote (me s)
  || ((rfidMatchingWithLocalList (glob s) || rfidAuthenticated (glob s))
      && processRfidForConnector (glob s) id)
  || own_grant id s = true ->
  exists q, ConnectorTask id s =
    (setg (fun g => g <| processRfidForConnector := q |>) ;;
     setm (fun m => m <| CPAuthorizeRequest_Sent := false |>) ;;
     setg (fun g => g <| AuthenticationProcessed := false |>) ;;
     goto falg_EVSE_Authentication) s.
Proof.
  intros Ht Hb Ha Hr Hg. unfold ConnectorTask, withs. rewrite Ht. rewrite whenc_eq, ifc_true by exact Hb.
  unfold processRfidState. rewrite whenc_eq, ifc_true by exact Hg. rewrite seqc_eq.
  set (s1 := whenc _ _ s).
  assert (E : exists q, s1 = setg (fun g => g <| processRfidForConnector := q |>) s).
  { unfold s1, whenc, ifc. destruct (rfidMatchingWithLocalList (glob s) || rfidAuthenticated (glob s));
      [by exists (upd id false (processRfidForConnector (glob s)))|].
    exists (processRfidForConnector (glob s)). by destruct s as [[] ?]. }
  destruct E as (q & ->). exists q.
  rewrite ifc_false by (cbn; by rewrite Ha). rewrite ifc_false by (cbn; by rewrite Hr).
  by rewrite ifc_false by (cbn; by rewrite Hr).
Qed.

(** The following turn starts the session. *)
Lemma idle_two_turns id w :
  unsigned_keys (Session.CPGetConfigurationResponse (globals w)) ->
  let s := mkSession (globals w) (cells w id) in
  taskState (me s) = flag_EVSE_Read_Id_Tag -> not_busy s = true ->
  CmsAvailable (ConnectorData (me s)) = true -> isReserved (ConnectorData (me s)) = false ->
  connectorFault (me s) = false -> ready_to_start s = true ->
  rfidReceivedFromRemote (me s)
  || ((rfidMatchingWithLocalList (glob s) || rfidAuthenticated (glob s))
      && processRfidForConnector (glob s) id)
  || own_grant id s = true ->
  let w2 := turn id (turn id w) in
  taskState (cells w2 id) = flag_EVSE_Start_Transaction /\
  idTag (ConnectorData (cells w2 id)) =
    (if rfidMatchingWithLocalList (glob s) || rfidAuthenticated (glob s)
     then idTag (ConnectorData0 (glob s)) else idTag (ConnectorData (me s))) /\
  no_shared_grant (globals w2) /\ rfidReceivedFromRemote (cells w2 id) = false.
Proof.
  intros Hk s Ht Hb Ha Hr Hf Hs Hg. cbv zeta.
  destruct (idle_turn id s Ht Hb Ha Hr Hg) as (q & E).
  set (s1 := ConnectorTask id s) in *.
  assert (Hw : turn id w = mkWorld (glob s1) (upd id (me s1) (cells w))) by reflexivity.
  rewrite Hw. clear Hw. unfold turn. cbn [cells globals]. rewrite !upd_same.
  replace (mkSession (glob s1) (me s1)) with s1 by (by destruct s1).
  clearbody s1. rewrite E. set (s2 := (_ ;; _) s).
  assert (M : may_start id s2).
  { repeat split; [exact Hf| |exact Hs]. unfold granted.
    change (own_grant id s2) with (own_grant id s).
    change (rfidReceivedFromRemote (me s2)) with (rfidReceivedFromRemote (me s)).
    change (rfidMatchingWithLocalList (glob s2)) with (rfidMatchingWithLocalList (glob s)).
    change (rfidAuthenticated (glob s2)) with (rfidAuthenticated (glob s)).
    revert Hg. generalize (own_grant id s). intros b.
    by destruct (rfidReceivedFromRemote (me s)), (rfidMatchingWithLocalList (glob s)),
      (rfidAuthenticated (glob s)), b. }
  assert (T : ConnectorTask id s2 = processAuthenticationState id s2).
  { transitivity (whenc not_busy (processAuthenticationState id) s2); [reflexivity|].
    rewrite whenc_eq, ifc_true; [done | exact Hb]. }
  rewrite T. destruct (auth_to_start id s2 Hk eq_refl) as [[_ H]|(H1 & _ & H2)]; [done|].
  destruct H2 as (I1 & I2 & I3 & _). split_and!; [exact H1 | exact I1 | exact I2 | exact I3].
Qed.

(** A connector a session can start on: idle, in service, unreserved,
    fault-free, not held back, its vehicle plugged in (or without pilot). *)
Definition startable (a : authz) (i : cid) : Prop :=
  i ∈ fitted a /\ taskState (cell a i) = flag_EVSE_Read_Id_Tag /\
  CmsAvailable (ConnectorData (cell a i)) = true /\
  isReserved (ConnectorData (cell a i)) = false /\ connectorFault (cell a i) = false /\
  updatingDataToCms (cell a i) = false /\ FirmwareUpdateStarted (G a) = false /\
  ready_to_start (mkSession (G a) (cell a i)) = true /\
  unsigned_keys (Session.CPGetConfigurationResponse (G a)).

(** From the tap to the session, offline: on a charge point that
    is either an infrastructure or a sales charger, a card the offline policy
    lets in starts a session on any startable connector within two turns of
    its task, in the name of exactly that card, and consumes the
    authorisation; a card the policy keeps out raises no grant. *)
Theorem offline_tap_starts_session a id :
  infra_charger (config (G a)) = negb (sales_charger (config (G a))) ->
  offline_mode a = true -> offline_delayed a = false -> newRfidRead (G a) = true ->
  startable a id ->
  let a' := processRfidTappedState a in
  let w := turn id (turn id (charge a')) in
  if offline_policy a then
    taskState (cells w id) = flag_EVSE_Start_Transaction /\
    idTag (ConnectorData (cells w id)) = rfidTagNumberbuf (G a) /\
    no_shared_grant (globals w) /\ rfidReceivedFromRemote (cells w id) = false
  else grants a' = grants a.
Proof.
  intros Hx Hm Hd Hr (Hi & Ht & Ha & Hres & Hf & Hu & Hfw & Hs & Hk). cbv zeta.
  destruct (offline_policy a) eqn:Hp.
  - assert (Hg : offline_grant a = true) by (unfold offline_grant; by rewrite Hm, Hd, Hr, Hp).
    destruct (offline_accepts a id Hg Hx Hi) as (A1 & A2 & A3 & A4 & A5 & A6);
      [unfold in_state; by rewrite bool_decide_true|].
    set (a' := processRfidTappedState a) in *. clearbody a'. unfold cell, G in *.
    destruct (idle_two_turns id (charge a')) as (T1 & T2 & T3 & T4); cbn [glob me].
    + by rewrite A6.
    + by rewrite A4.
    + unfold not_busy. cbn [glob me]. by rewrite A4, Hu, A5, Hfw.
    + by rewrite A4.
    + by rewrite A4.
    + by rewrite A4.
    + revert Hs. unfold ready_to_start, ev_plugged, cp_is. cbn [glob me]. by rewrite A4.
    + rewrite A1, A2. cbn. by rewrite orb_true_r.
    + split_and!; [exact T1| |exact T3|exact T4]. rewrite T2. cbn [glob]. by rewrite A1.
  - assert (E : verdict (processRfidTappedState a) = verdict a); [|exact (f_equal fst E)].
    assert (Ho : online a = false).
    { unfold offline_mode in Hm. apply andb_true_iff in Hm as [_ Hm]. apply negb_true_iff in Hm.
      unfold online. by rewrite Hm. }
    unfold processRfidTappedState. rewrite !seqc_eq, begin_online_eq, Ho, andb_false_r.
    rewrite decide_offline_spec.
    replace (await_answer a) with a by (unfold await_answer; rewrite whenc_eq, ifc_false; [done|by rewrite Ho]).
    unfold offline_grant. by rewrite Hp, andb_false_r.
Qed.

Lemma offline_tap_starts_session_witness :
  let w := turn Conn1 (turn Conn1 (charge (processRfidTappedState example_tap))) in
  offline_policy example_tap = true /\
  taskState (cells w Conn1) = flag_EVSE_Start_Transaction /\
  idTag (ConnectorData (cells w Conn1)) = "04ab12cd".
Proof.
  split; [reflexivity|].
  destruct (offline_tap_starts_session example_tap Conn1) as (H1 & H2 & _);
    [reflexivity..| |split; [exact H1 | exact H2]].
  unfold startable. split_and!; [|reflexivity..|exact example_keys].
  change (Conn1 ∈ [Conn1; Conn2]). by apply elem_of_cons; left.
Defined.

(** ** Remote starts and reservations *)

(** A connector a remote start can start: its button counts as pressed. *)
Definition remotely_startable (a : authz) (i : cid) : Prop :=
  taskState (cell a i) = flag_EVSE_Read_Id_Tag /\
  CmsAvailable (ConnectorData (cell a i)) = true /\
  isReserved (ConnectorData (cell a i)) = false /\
  updatingDataToCms (cell a i) = false /\ FirmwareUpdateStarted (G a) = false /\
  no_shared_grant (G a) /\
  (ready_to_start (mkSession (G a) (cell a i)) = true \/ PushButtonEnabled (cell a i) = true) /\
  unsigned_keys (Session.CPGetConfigurationResponse (G a)).

(** Claim C9.  Where the central system's own starts need no authorisation
    ([AuthorizeRemoteTxRequests] is false), a remote start is refused exactly on
    a faulty or busy connector, and then changes nothing but the answer, and
    accepted on every other.  An accepted one on a connector that can start
    ([remotely_startable]: idle, in service, not reserved, not reporting stored
    sessions, no firmware update, no grant waiting, and the vehicle ready or the
    connector equipped with a button) starts the session within two turns of its
    task in the name of the remote tag, the button counting as pressed, leaving
    no grant behind. *)
Theorem remote_start_policy a i tag :
  i <> Conn0 -> AuthorizeRemoteTxRequests (keys a) = false ->
  let a' := remote_start i tag a in
  if connectorFault (cell a i) || negb (in_state flag_EVSE_Read_Id_Tag a i) then
    trace (G a') = EvRemoteStartResponse i "Rejected" :: trace (G a) /\
    grants a' = grants a /\ taskState (cell a' i) = taskState (cell a i) /\
    ConnectorData (cell a' i) = ConnectorData (cell a i) /\
    rfidReceivedFromRemote (cell a' i) = rfidReceivedFromRemote (cell a i)
  else
    trace (G a') = EvRemoteStartResponse i "Accepted" :: trace (G a) /\
    (remotely_startable a i ->
     let w := turn i (turn i (charge a')) in
     taskState (cells w i) = flag_EVSE_Start_Transaction /\
     idTag (ConnectorData (cells w i)) = tag /\
     no_shared_grant (globals w) /\ rfidReceivedFromRemote (cells w i) = false).
Proof.
  intros Hi Hk. cbv zeta. unfold remote_start, ifc.
  destruct (connectorFault (cell a i) || _) eqn:Eg.
  - unfold sendRemoteStartTransactionResponse. rewrite seqc_eq, decide_False by exact Hi.
    cbn. rewrite upd_same. by split_and!.
  - rewrite Hk. apply orb_false_iff in Eg as [Ef _].
    unfold set_idTag, sendRemoteStartTransactionResponse. rewrite !decide_False by exact Hi.
    set (a' := seqc _ _ a). set (press := PushButtonEnabled (cell a i)).
    assert (C : cell a' i = (cell a i)
        <| ConnectorData := (ConnectorData (cell a i)) <| idTag := tag |> |>
        <| rfidReceivedFromRemote := true |>
        <| PushButton := if press then true else PushButton (cell a i) |>
        <| CPRemoteStartTransactionResponse_Sent := true |> /\
      G a' = (G a) <| rfidTagNumberbuf := tag |>
        <| trace := EvRemoteStartResponse i "Accepted" :: trace (G a) |>).
    { unfold a', press_button, whenc, ifc, press. rewrite !seqc_eq. cbv beta.
      match goal with |- context [if PushButtonEnabled ?c then _ else _] =>
        replace (PushButtonEnabled c) with (PushButtonEnabled (cell a i))
          by (cbn; by rewrite !upd_same) end.
      destruct (PushButtonEnabled (cell a i)); unfold skip; cbn; rewrite !upd_same;
        (split; [|reflexivity]); [reflexivity|]. by destruct (cells (charge a) i). }
    clearbody a'. destruct C as [C1 C2]. split; [by rewrite C2|].
    intros (Ht & Ha & Hr & Hu & Hw & Hn & Hs & Hkeys). unfold cell, G in *.
    destruct Hn as (N1 & N2 & N3 & N4).
    destruct (idle_two_turns i (charge a')) as (T1 & T2 & T3 & T4); cbn [glob me].
    + by rewrite C2.
    + by rewrite C1.
    + unfold not_busy. cbn [glob me]. rewrite C1, C2. cbn. by rewrite Hu, Hw.
    + by rewrite C1.
    + by rewrite C1.
    + by rewrite C1.
    + rewrite C1. unfold ready_to_start, ev_plugged, cp_is in *. cbn. cbn in Hs. fold press in Hs |- *.
      destruct press; [by rewrite orb_true_r|]. destruct Hs as [Hs|]; [|done]. by rewrite Hs.
    + by rewrite C1.
    + split_and!; [exact T1| |exact T3|exact T4]. rewrite T2. cbn [glob me]. rewrite C1, C2.
      cbn. by rewrite N1, N2.
Qed.

Definition example_remote : authz :=
  setG (fun g => g <| newRfidRead := false |>)
    (setcell Conn1 (fun m => m <| cpEnable := false |> <| PushButtonEnabled := true |>) example_tap).

Lemma remote_start_policy_witness :
  let w := turn Conn1 (turn Conn1 (charge (remote_start Conn1 "cafe" example_remote))) in
  taskState (cells w Conn1) = flag_EVSE_Start_Transaction /\
  idTag (ConnectorData (cells w Conn1)) = "cafe".
Proof.
  destruct (remote_start_policy example_remote Conn1 "cafe") as [_ H]; [discriminate | reflexivity|].
  destruct H as (H1 & H2 & _); [|split; [exact H1 | exact H2]].
  unfold remotely_startable. split_and!; try reflexivity; [by repeat split | by right | exact example_keys].
Defined.

(** A reservation is respected: once accepted (on a fault-free
    connector in service that is not charging), an idle connector facing a
    card's authorisation takes it exactly when the card's text is a prefix of
    the reserved tag, which consumes the reservation; any other card leaves
    the connector idle and reserved. *)
Theorem reservation_respected a i r :
  i <> Conn0 -> connectorFault (cell a i) = false ->
  CmsAvailable (ConnectorData (cell a i)) = true ->
  taskState (cell a i) = flag_EVSE_Read_Id_Tag ->
  updatingDataToCms (cell a i) = false -> FirmwareUpdateStarted (G a) = false ->
  rfidMatchingWithLocalList (G a) = true -> processRfidForConnector (G a) i = true ->
  let a' := reserve_now i r a in
  let w := turn i (charge a') in
  hd_error (trace (G a')) = Some (EvReserveNowResponse i "Accepted") /\
  if starts_with (rfidTagNumberbuf (G a)) (rn_idTag r)
  then taskState (cells w i) = falg_EVSE_Authentication /\ isReserved (ConnectorData (cells w i)) = false
  else taskState (cells w i) = flag_EVSE_Read_Id_Tag /\ isReserved (ConnectorData (cells w i)) = true.
Proof.
  intros Hi Hf Ha Ht Hu Hw Hm Hp. cbv zeta. unfold reserve_now, ifc, set_data, save_data, data_of.
  rewrite Hf, !decide_False by exact Hi. rewrite Ha. cbn [negb].
  unfold in_state. rewrite bool_decide_false by (rewrite Ht; discriminate).
  set (a' := seqc _ _ a).
  assert (C : cell a' i = (cell a i) <| ConnectorData := (ConnectorData (cell a i))
      <| isReserved := true |> <| ReservedData := mkReserved (rn_idTag r) (rn_expiryDate r)
           (default "" (rn_parentidTag r)) (rn_reservationId r) |> |> /\
    exists e, G a' = (G a) <| trace := EvReserveNowResponse i "Accepted" :: e |>).
  { unfold a'. rewrite !seqc_eq. cbn. rewrite upd_same. split; [done|]. by eexists. }
  clearbody a'. destruct C as (C1 & e & C2). split; [by rewrite C2|].
  unfold turn, cell, G in *. cbn [cells]. rewrite upd_same, C1, C2.
  set (s := mkSession _ _).
  assert (T : ConnectorTask i s = processRfidState i s).
  { transitivity (whenc not_busy (processRfidState i) s).
    - unfold ConnectorTask, withs. change (taskState (me s)) with (taskState (cells (charge a) i)).
      by rewrite Ht.
    - rewrite whenc_eq, ifc_true; [done|]. unfold not_busy, s. cbn. by rewrite Hu, Hw. }
  rewrite T. clear T. unfold processRfidState.
  rewrite whenc_eq, ifc_true by (unfold s; cbn; rewrite Hm, Hp; by rewrite orb_true_r). rewrite seqc_eq.
  set (s1 := whenc _ _ s).
  assert (E1 : s1 = setg (fun g => g <| processRfidForConnector :=
      upd i false (processRfidForConnector g) |>) s)
    by (unfold s1; rewrite whenc_eq, ifc_true; [done|]; unfold s; cbn; by rewrite Hm).
  rewrite E1. clear E1 s1.
  rewrite ifc_false by (unfold s; cbn; by rewrite Ha).
  destruct (starts_with (rfidTagNumberbuf (globals (charge a))) (rn_idTag r)) eqn:E.
  - rewrite ifc_true by exact E. by split.
  - rewrite ifc_false by exact E. rewrite ifc_true by (cbn [andb]; exact (f_equal negb E)).
    match goal with |- context [updateDisplayOnAcceptanceFailed ?j ?x] =>
      destruct (display_summary j x) as (q1 & q2 & q3 & ->) end.
    split; [exact Ht | done].
Qed.

Definition example_reserved : authz := setG (fun g => g <| rfidMatchingWithLocalList := true |>
  <| processRfidForConnector := fun _ => true |>) example_tap.

Lemma reservation_respected_witness :
  taskState (cells (turn Conn1 (charge
    (reserve_now Conn1 (mkReserve "deadbeef" "" None 7) example_reserved))) Conn1)
  = flag_EVSE_Read_Id_Tag.
Proof.
  destruct (reservation_respected example_reserved Conn1 (mkReserve "deadbeef" "" None 7))
    as (_ & H & _); [discriminate | reflexivity.. | exact H].
Defined.
