(* ===== verification/LocalList.v ===== *)
(** * The local authorisation list ([main/ocpp.c])

    [CMSSendLocalListRequestProcess] stores the list of cards the central
    system sends ([SendLocalList]), replacing it or adding to it; the cards in
    it are the ones [rfidMatchingLocalList] accepts ([Authorization.v]).

    The JSON text is parsed by the cJSON library; the handler sees, for every
    field, a string, a number or something else, which is [None] here. *)

From S2P Require Import Prelude Binary64 Config EnergyMeter ControlPilot Session.
From S2P Require Import SessionSpec Authorization.

(** ** Data *)

(** [localAuthorizationList[i]]. *)
Record slot := mkSlot {
  idTagPresent : bool;
  sl_idTag : string;
  expiryDate : string;
  parentidTag : string;
  status : string
}.
#[export] Instance slot_rebuild : Rebuild slot := fun s =>
  mkSlot (idTagPresent s) (sl_idTag s) (expiryDate s) (parentidTag s) (status s).

Definition empty_slot : slot := mkSlot false "" "" "" "".

(** [CMSSendLocalListRequest]. *)
Record CMSSendLocalListRequest_t := mkLocalList {
  UniqId : string;
  listVersion : Z;
  updateType : string;
  slots : list slot;
  Received : bool
}.
#[export] Instance CMSSendLocalListRequest_rebuild : Rebuild CMSSendLocalListRequest_t := fun r =>
  mkLocalList (UniqId r) (listVersion r) (updateType r) (slots r) (Received r).

(** An element of the received array. *)
Record item := mkItem {
  it_idTag : option string;
  it_expiryDate : option string;
  it_parentidTag : option string;
  it_status : option string
}.

Record payload := mkPayload {
  pl_UniqId : option string;
  pl_listVersion : option Z;
  pl_updateType : option string;
  pl_list : option (list item)   (* [None]: not an array *)
}.

(** ** The handler *)

Definition copy_opt (src : option string) (dst : string) : string :=
  match src with Some t => memcpy_str t dst | None => dst end.

(** The body of the [cJSON_ArrayForEach] loops for a slot in range. *)
Definition store_item (it : item) (s : slot) : slot :=
  let s := match it_idTag it with
           | Some tag => mkSlot true tag "" "" ""
           | None => s
           end in
  s <| expiryDate := copy_opt (it_expiryDate it) (expiryDate s) |>
    <| parentidTag := copy_opt (it_parentidTag it) (parentidTag s) |>
    <| status := copy_opt (it_status it) (status s) |>.

(** [isidTagInfoidTagReceived] after an element. *)
Definition tag_ok (it : item) (ok : bool) : bool :=
  match it_idTag it with Some _ => ok | None => false end.

(** The loop over the elements: index, slots and flag. *)
Fixpoint store_items (bound : Z) (items : list item) (i : Z) (l : list slot) (ok : bool)
    : Z * list slot * bool :=
  match items with
  | [] => (i, l, ok)
  | it :: items =>
      if i <? bound then
        store_items bound items (i + 1) (alter (store_item it) (Z.to_nat i) l) (tag_ok it ok)
      else store_items bound items (i + 1) l ok
  end.

(** [for (k = i; k < LOCAL_LIST_COUNT; k++) idTagPresent = false]. *)
Definition drop_from (i : Z) (l : list slot) : list slot :=
  imap (fun k s => if i <=? Z.of_nat k then s <| idTagPresent := false |> else s) l.

Definition existing_items (l : list slot) : Z :=
  Z.of_nat (length (filter (fun s => idTagPresent s = true) l)).

(** The array case: store, then drop the rest. *)
Definition store_list (bound first : Z) (received : bool) (items : list item)
    (r : CMSSendLocalListRequest_t) : CMSSendLocalListRequest_t :=
  let '(i, l, ok) := store_items bound items first (slots r) true in
  r <| slots := drop_from i l |> <| Received := received && ok |>.

Definition wipe_list (received : bool) (r : CMSSendLocalListRequest_t) : CMSSendLocalListRequest_t :=
  if received then r <| slots := map (fun _ => empty_slot) (slots r) |> <| Received := true |>
  else r <| Received := false |>.

Definition CMSSendLocalListRequestProcess (p : payload) (r : CMSSendLocalListRequest_t)
    : CMSSendLocalListRequest_t :=
  let r := r <| UniqId := default (UniqId r) (pl_UniqId p) |>
             <| listVersion := default (listVersion r) (pl_listVersion p) |>
             <| updateType := default (updateType r) (pl_updateType p) |> in
  let received := match pl_listVersion p, pl_updateType p with
                  | Some _, Some _ => true
                  | _, _ => false
                  end in
  if starts_with "Full" (updateType r) then
    match pl_list p with
    | Some items => store_list LOCAL_LIST_COUNT 0 received items r
    | None => wipe_list received r
    end
  else if starts_with "Differential" (updateType r) then
    match pl_list p with
    | Some items =>
        let existing := existing_items (slots r) in
        store_list (LOCAL_LIST_COUNT - existing) existing received items r
    | None => wipe_list received r
    end
  else r <| Received := false |>.

(** What the card reader sees of the list. *)
Definition entries (l : list slot) : list entry := map (fun s => (sl_idTag s, idTagPresent s)) l.

(** The enabled tags, in order. *)
Definition tags (l : list slot) : list string :=
  map sl_idTag (filter (fun s => idTagPresent s = true) l).

(** ** Properties *)

Definition item_tags (items : list item) : list string := omap it_idTag items.
Definition well_formed (items : list item) : Prop := Forall (fun it => is_Some (it_idTag it)) items.

Definition off (s : slot) : slot := s <| idTagPresent := false |>.

(** The slots after the elements were stored over them, from the first on. *)
Fixpoint overlay (items : list item) (l : list slot) : list slot :=
  match items, l with
  | it :: items, s :: l => store_item it s :: overlay items l
  | _, _ => l
  end.

Lemma store_items_beyond bound items i l ok :
  bound <= i -> store_items bound items i l ok = (i + Z.of_nat (length items), l, ok).
Proof.
  revert i. induction items as [|it items IH]; intros i Hi; cbn [store_items length].
  - f_equal. f_equal. lia.
  - destruct (i <? bound) eqn:E; [lia|]. rewrite IH by lia. f_equal. f_equal. lia.
Qed.

Lemma alter_after {A} (f : A -> A) (pre : list A) x l n :
  n = length pre -> alter f n (pre ++ x :: l) = pre ++ f x :: l.
Proof. intros ->. induction pre as [|y pre IH]; cbn; [done|]. f_equal. exact IH. Qed.

Lemma store_items_spec bound items pre l ok :
  let i := Z.of_nat (length pre) in
  i <= bound <= i + Z.of_nat (length l) -> well_formed items ->
  store_items bound items i (pre ++ l) ok
  = (i + Z.of_nat (length items), pre ++ overlay (take (Z.to_nat (bound - i)) items) l, ok).
Proof.
  cbv zeta. revert pre l. induction items as [|it items IH]; intros pre l Hb Hw; cbn [store_items].
  - rewrite take_nil. cbn. f_equal. f_equal. lia.
  - apply Forall_cons_1 in Hw as [Hit Hw].
    destruct (Z.of_nat (length pre) <? bound) eqn:E.
    2: { replace (Z.to_nat (bound - Z.of_nat (length pre))) with 0%nat by lia.
         rewrite store_items_beyond by lia. cbn. f_equal. f_equal. lia. }
    destruct l as [|s l]; [cbn in *; lia|].
    rewrite Nat2Z.id, alter_after by done.
    replace (tag_ok it ok) with ok by (unfold tag_ok; by destruct Hit as [t ->]).
    replace (Z.of_nat (length pre) + 1) with (Z.of_nat (length (pre ++ [store_item it s])))
      by (rewrite length_app; cbn; lia).
    rewrite (cons_middle (store_item it s) pre l), app_assoc.
    rewrite (IH (pre ++ [store_item it s]) l) by (try done; rewrite length_app; cbn in *; lia).
    rewrite length_app. cbn [length] in *.
    replace (Z.to_nat (bound - Z.of_nat (length pre)))
      with (S (Z.to_nat (bound - Z.of_nat (length pre + 1)))) by lia.
    cbn [take overlay]. rewrite <-app_assoc. cbn. f_equal. f_equal. lia.
Qed.

Lemma drop_from_eq i l :
  0 <= i -> drop_from i l = take (Z.to_nat i) l ++ map off (drop (Z.to_nat i) l).
Proof.
  intros Hi. unfold drop_from. apply list_eq. intros k. rewrite list_lookup_imap.
  destruct (l !! k) as [s|] eqn:E; cbn.
  2: { symmetry. apply lookup_ge_None in E. apply lookup_ge_None.
       rewrite length_app, length_take, length_map, length_drop. lia. }
  pose proof (lookup_lt_Some _ _ _ E) as Hk'.
  destruct (decide (k < Z.to_nat i)%nat) as [Hk|Hk].
  - rewrite lookup_app_l by (rewrite length_take; lia). rewrite lookup_take_lt, E by done.
    by rewrite (proj2 (Z.leb_gt i (Z.of_nat k))) by lia.
  - rewrite lookup_app_r by (rewrite length_take; lia).
    rewrite length_take, Nat.min_l by lia. rewrite list_lookup_fmap, lookup_drop.
    replace (Z.to_nat i + (k - Z.to_nat i))%nat with k by lia. rewrite E. cbn.
    by rewrite (proj2 (Z.leb_le i (Z.of_nat k))) by lia.
Qed.

Lemma tags_app l1 l2 : tags (l1 ++ l2) = tags l1 ++ tags l2.
Proof. unfold tags. by rewrite list.filter_app, map_app. Qed.
Lemma tags_off l : tags (map off l) = [].
Proof. unfold tags. induction l as [|s l IH]; [done|]. cbn [map].
  by rewrite filter_cons_False. Qed.
Lemma tags_none l : Forall (fun s => idTagPresent s = false) l -> tags l = [].
Proof.
  unfold tags. induction 1 as [|s l Hs _ IH]; [done|].
  rewrite filter_cons_False by (by rewrite Hs). done.
Qed.

Lemma overlay_length items l : length (overlay items l) = length l.
Proof. revert l. induction items as [|it items IH]; intros [|s l]; cbn; auto. Qed.

Lemma overlay_app items l k :
  (length items <= length l)%nat -> (length items <= k)%nat ->
  well_formed items ->
  tags (take k (overlay items l)) = item_tags items ++ tags (take (k - length items) (drop (length items) l)).
Proof.
  revert l k. induction items as [|it items IH]; intros l k Hl Hk Hw.
  - cbn. rewrite Nat.sub_0_r. by destruct l.
  - apply Forall_cons_1 in Hw as [[t Ht] Hw]. destruct l as [|s l]; [cbn in *; lia|].
    destruct k as [|k]; [cbn in *; lia|]. cbn [length] in *. cbn [overlay take drop Nat.sub].
    unfold tags at 1. rewrite filter_cons_True by (unfold store_item; by rewrite Ht). cbn [map].
    fold (tags (take k (overlay items l))). rewrite IH by (done || lia).
    replace (sl_idTag (store_item it s)) with t by (unfold store_item; by rewrite Ht).
    replace (item_tags (it :: items)) with (t :: item_tags items)
      by (unfold item_tags; cbn; by rewrite Ht). done.
Qed.

(** Present slots first, free ones behind, [LOCAL_LIST_COUNT] of them. *)
Definition compact (l : list slot) : Prop :=
  exists pre post, l = pre ++ post /\ Forall (fun s => idTagPresent s = true) pre /\
    Forall (fun s => idTagPresent s = false) post /\ Z.of_nat (length l) = LOCAL_LIST_COUNT.

Lemma existing_items_compact pre post :
  Forall (fun s => idTagPresent s = true) pre -> Forall (fun s => idTagPresent s = false) post ->
  existing_items (pre ++ post) = Z.of_nat (length pre) /\ tags (pre ++ post) = map sl_idTag pre.
Proof.
  intros H1 H2. rewrite tags_app, (tags_none post), app_nil_r by done.
  unfold existing_items, tags. rewrite list.filter_app, length_app.
  assert (E1 : filter (fun s => idTagPresent s = true) pre = pre).
  { induction H1 as [|s l Hs _ IH]; [done|]. by rewrite filter_cons_True, IH. }
  assert (E2 : filter (fun s => idTagPresent s = true) post = []).
  { induction H2 as [|s l Hs _ IH]; [done|]. rewrite filter_cons_False; [done | by rewrite Hs]. }
  rewrite E1, E2. cbn. split; [lia | done].
Qed.

Lemma item_tags_take k items : well_formed items -> item_tags (take k items) = take k (item_tags items).
Proof.
  intros Hw. revert k. induction Hw as [|it items [t Ht] Hw IH]; intros [|k]; [done..|].
  unfold item_tags in *. cbn. rewrite Ht. cbn. f_equal. apply IH.
Qed.

Lemma item_tags_length items : well_formed items -> length (item_tags items) = length items.
Proof. induction 1 as [|it items [t Ht] _ IH]; [done|]. unfold item_tags in *. cbn. rewrite Ht. cbn. by rewrite IH. Qed.

Lemma overlay_present items l k :
  well_formed items -> (k <= length items)%nat ->
  Forall (fun s => idTagPresent s = true) (take k (overlay items l)).
Proof.
  intros Hw. revert l k. induction Hw as [|it items [t Ht] Hw IH]; intros l [|k] Hk; try (by constructor).
  - cbn in Hk. lia.
  - destruct l as [|s l]; [constructor|]. cbn [overlay take]. constructor.
    + unfold store_item. by rewrite Ht.
    + apply IH. cbn in Hk. lia.
Qed.

Lemma overlay_drop items l :
  (length items <= length l)%nat -> drop (length items) (overlay items l) = drop (length items) l.
Proof.
  revert l. induction items as [|it items IH]; intros [|s l] Hl; cbn in *; try done; try lia.
  apply IH. lia.
Qed.

Lemma store_items_total bound items pre post :
  let n := Z.of_nat (length pre) in
  bound <= n + Z.of_nat (length post) -> well_formed items ->
  store_items bound items n (pre ++ post) true
  = (n + Z.of_nat (length items), pre ++ overlay (take (Z.to_nat (bound - n)) items) post, true).
Proof.
  cbv zeta. intros Hb Hw. destruct (Z.le_gt_cases (Z.of_nat (length pre)) bound).
  - by apply store_items_spec.
  - rewrite store_items_beyond by lia.
    replace (Z.to_nat (bound - Z.of_nat (length pre))) with 0%nat by lia. done.
Qed.

(** One request with a list: the [pre] slots are kept, the next ones up to
    [bound] take the elements, and nothing remains of the rest. *)
Lemma store_list_spec pre post bound received items r :
  let n := Z.of_nat (length pre) in
  let r' := store_list bound n received items r in
  slots r = pre ++ post -> Forall (fun s => idTagPresent s = true) pre ->
  bound <= n + Z.of_nat (length post) ->
  Forall (fun s => idTagPresent s = false) post \/ bound = n + Z.of_nat (length post) ->
  well_formed items ->
  tags (slots r') = map sl_idTag pre ++ take (Z.to_nat (bound - n)) (item_tags items) /\
  (Z.of_nat (length (slots r)) = LOCAL_LIST_COUNT -> compact (slots r')) /\ Received r' = received.
Proof.
  cbv zeta. intros Hs Hpre Hb Hpost Hw. unfold store_list.
  rewrite Hs, store_items_total by done.
  set (k := Z.to_nat (bound - Z.of_nat (length pre))). set (its := take k items).
  set (m := length items). set (O := overlay its post).
  assert (Hi : (length its <= length post)%nat) by (unfold its; rewrite length_take; lia).
  assert (Hm : (length its <= m)%nat) by (unfold its, m; rewrite length_take; lia).
  assert (Hwi : well_formed its) by (by apply Forall_take).
  assert (Hrest : tags (take (m - length its) (drop (length its) post)) = [] /\
    Forall (fun s => idTagPresent s = false) (take (m - length its) (drop (length its) post))).
  { assert (Hf : Forall (fun s => idTagPresent s = false) (take (m - length its) (drop (length its) post))).
    { destruct Hpost as [Hpost|Hpost]; [by apply Forall_take, Forall_drop|].
      unfold its, m in *. rewrite length_take in *. destruct (decide (length items <= k)%nat).
      - replace (length items - _)%nat with 0%nat by lia. constructor.
      - rewrite drop_ge by lia. rewrite take_nil. constructor. }
    split; [by apply tags_none | done]. }
  cbn [slots Received update]. change (slots (update _ _ _)) with
    (drop_from (Z.of_nat (length pre) + Z.of_nat m) (pre ++ O)).
  rewrite drop_from_eq by lia.
  replace (Z.to_nat (Z.of_nat (length pre) + Z.of_nat m)) with (length pre + m)%nat by lia.
  rewrite take_app_add, drop_app_add.
  split; [|split].
  - rewrite !tags_app, tags_off, app_nil_r. unfold O. rewrite overlay_app by done.
    rewrite (proj1 Hrest), app_nil_r. unfold its. rewrite item_tags_take by done.
    assert (E : tags pre = map sl_idTag pre); [|by rewrite E].
    pose proof (existing_items_compact pre [] Hpre (List.Forall_nil _)) as [_ E]. by rewrite app_nil_r in E.
  - intros Hlen.
    exists (pre ++ take (length its) O),
      (take (m - length its) (drop (length its) post) ++ map off (drop m O)).
    split_and!.
    + rewrite <-!app_assoc. f_equal. rewrite app_assoc. f_equal.
      unfold O. rewrite <-(overlay_drop its post) by done.
      rewrite take_take_drop. do 2 f_equal. lia.
    + apply Forall_app. split; [done|]. by apply overlay_present.
    + apply Forall_app. split; [apply Hrest|]. apply Forall_map. apply Forall_true. done.
    + rewrite <-Hlen. unfold O.
      rewrite !length_app, length_map, length_take, length_drop, overlay_length. lia.
  - by rewrite andb_true_r.
Qed.

(** The version and the type of update were received. *)
Definition identified (p : payload) : bool :=
  match pl_listVersion p, pl_updateType p with Some _, Some _ => true | _, _ => false end.

Lemma tags_matches tag l :
  list_matches tag (entries l) = existsb (starts_with tag) (tags l).
Proof.
  unfold list_matches, entries, tags. induction l as [|s l IH]; [done|]. cbn [map existsb fst snd].
  rewrite IH. destruct (idTagPresent s) eqn:E.
  - rewrite filter_cons_True by done. cbn. by rewrite andb_true_r.
  - rewrite filter_cons_False by (by rewrite E). by rewrite andb_false_r.
Qed.

(** A full update replaces the list: whatever was stored, the
    enabled cards are exactly the first ten received, in order, so a tapped
    card is accepted exactly when its text is a prefix of one of those; the
    ten slots are left compact, and the update counts as received exactly when
    it names its version. *)
Theorem full_update_replaces p items t r :
  pl_updateType p = Some t -> starts_with "Full" t = true -> pl_list p = Some items ->
  well_formed items -> Z.of_nat (length (slots r)) = LOCAL_LIST_COUNT ->
  let r' := CMSSendLocalListRequestProcess p r in
  tags (slots r') = take 10 (item_tags items) /\ compact (slots r') /\
  Received r' = identified p /\
  forall card, list_matches card (entries (slots r'))
    = existsb (starts_with card) (take 10 (item_tags items)).
Proof.
  intros Ht Hf Hl Hw Hn. cbv zeta. unfold CMSSendLocalListRequestProcess, identified.
  rewrite Ht, Hl. set (r1 := update updateType _ _).
  change (updateType r1) with t. rewrite Hf. set (received := match pl_listVersion p with Some _ => true | None => false end).
  destruct (store_list_spec [] (slots r1) LOCAL_LIST_COUNT received items r1) as (S1 & S2 & S3);
    [done | constructor | change (slots r1) with (slots r); cbn; lia
    | right; change (slots r1) with (slots r); cbn; lia | done |].
  cbn [length map app] in *. change (Z.of_nat 0) with 0 in *.
  change (Z.to_nat (LOCAL_LIST_COUNT - 0)) with 10%nat in S1.
  split_and!; [exact S1 | exact (S2 Hn) | exact S3|]. intros card. by rewrite tags_matches, S1.
Qed.

(** A differential update of a compact list with [n] cards keeps
    them and appends at most [10 - 2n] of the received ones: the bound on the
    slot index counts the stored cards twice, so with five or more stored
    nothing is added, although free slots remain and the request is answered
    as received. *)
Theorem differential_update_capacity p items t r :
  pl_updateType p = Some t -> starts_with "Full" t = false -> starts_with "Differential" t = true ->
  pl_list p = Some items -> well_formed items -> compact (slots r) ->
  let r' := CMSSendLocalListRequestProcess p r in
  let n := length (tags (slots r)) in
  tags (slots r') = tags (slots r) ++ take (10 - 2 * n) (item_tags items) /\
  compact (slots r') /\ Received r' = identified p /\
  ((5 <= n)%nat -> tags (slots r') = tags (slots r)).
Proof.
  intros Ht Hf Hd Hl Hw (pre & post & Hs & H1 & H2 & Hn). cbv zeta.
  unfold CMSSendLocalListRequestProcess, identified. rewrite Ht, Hl. set (r1 := update updateType _ _).
  change (updateType r1) with t. rewrite Hf, Hd.
  set (received := match pl_listVersion p with Some _ => true | None => false end).
  assert (Hs1 : slots r1 = pre ++ post) by exact Hs.
  destruct (existing_items_compact pre post H1 H2) as [E1 E2].
  rewrite Hs1, E1.
  destruct (store_list_spec pre post (LOCAL_LIST_COUNT - Z.of_nat (length pre)) received items r1)
    as (S1 & S2 & S3); [done | done | | by left | done |].
  { rewrite Hs, length_app in Hn. lia. }
  rewrite Hs, E2, length_map.
  replace (Z.to_nat (LOCAL_LIST_COUNT - Z.of_nat (length pre) - Z.of_nat (length pre)))
    with (10 - 2 * length pre)%nat in S1 by (unfold LOCAL_LIST_COUNT; lia).
  split_and!; [exact S1 | apply S2; rewrite Hs1, <-Hs; exact Hn | exact S3|].
  intros H5. replace (10 - 2 * length pre)%nat with 0%nat in S1 by lia.
  by rewrite S1, app_nil_r.
Qed.

(** What an element does to the reader's entry. *)
Definition entry_of (it : item) (e : entry) : entry :=
  match it_idTag it with Some t => (t, true) | None => e end.

Lemma entries_alter it i l :
  entries (alter (store_item it) i l) = alter (entry_of it) i (entries l).
Proof.
  revert i. unfold entries. induction l as [|s l IH]; intros [|i]; [done..| |].
  - cbn. f_equal. unfold store_item, entry_of. by destruct (it_idTag it).
  - cbn. f_equal. apply IH.
Qed.

Lemma entries_drop_from i l l' :
  entries l = entries l' -> entries (drop_from i l) = entries (drop_from i l').
Proof.
  unfold drop_from, entries. intros E.
  assert (H : forall k l l', map (fun s => (sl_idTag s, idTagPresent s)) l
      = map (fun s => (sl_idTag s, idTagPresent s)) l' ->
    map (fun s => (sl_idTag s, idTagPresent s)) (imap (fun j s => if i <=? Z.of_nat (k + j) then off s else s) l)
    = map (fun s => (sl_idTag s, idTagPresent s)) (imap (fun j s => if i <=? Z.of_nat (k + j) then off s else s) l')).
  { clear. intros k l. revert k. induction l as [|s l IH]; intros k [|s' l'] E; cbn in E; try done.
    injection E as E1 E2 E3. rewrite !imap_cons. cbn [map]. rewrite Nat.add_0_r.
    f_equal.
    - destruct (i <=? Z.of_nat k); cbn; by rewrite E1, ?E2.
    - specialize (IH (S k) l' E3). cbn in IH.
      erewrite (imap_ext _ (fun j s => if i <=? Z.of_nat (S (k + j)) then off s else s) l),
        (imap_ext _ (fun j s => if i <=? Z.of_nat (S (k + j)) then off s else s) l'); [exact IH|..];
        intros j x _; cbn; by rewrite Nat.add_succ_r. }
  exact (H 0%nat l l' E).
Qed.

(** An element reduced to its tag. *)
Definition tag_only (it : item) : item := mkItem (it_idTag it) None None None.

Lemma store_items_entries bound items i l l' ok :
  entries l = entries l' ->
  let '(i1, l1, ok1) := store_items bound items i l ok in
  let '(i2, l2, ok2) := store_items bound (map tag_only items) i l' ok in
  i1 = i2 /\ entries l1 = entries l2 /\ ok1 = ok2.
Proof.
  revert i l l' ok. induction items as [|it items IH]; intros i l l' ok E; cbn [store_items map]; [done|].
  destruct (i <? bound); [|by apply IH]. apply IH.
  rewrite !entries_alter, E. done.
Qed.

(** The status of a card is not consulted: two requests that agree
    except for the expiry dates, parents and statuses of their elements leave
    the reader with the same accepted cards, so a card listed as blocked or
    expired is accepted like any other. *)
Theorem status_not_consulted p r :
  entries (slots (CMSSendLocalListRequestProcess p r)) =
  entries (slots (CMSSendLocalListRequestProcess
    (mkPayload (pl_UniqId p) (pl_listVersion p) (pl_updateType p)
       (option_map (map tag_only) (pl_list p))) r)).
Proof.
  unfold CMSSendLocalListRequestProcess. cbn [pl_UniqId pl_listVersion pl_updateType pl_list].
  set (r1 := update updateType _ _).
  assert (H : forall bound first received items,
    entries (slots (store_list bound first received items r1))
    = entries (slots (store_list bound first received (map tag_only items) r1))).
  { intros bound first received items. unfold store_list.
    pose proof (store_items_entries bound items first (slots r1) (slots r1) true eq_refl) as E.
    destruct (store_items bound items first _ true) as [[i1 l1] ok1],
      (store_items bound (map tag_only items) first _ true) as [[i2 l2] ok2].
    destruct E as (-> & E & _). by apply entries_drop_from. }
  destruct (starts_with "Full" (updateType r1)), (starts_with "Differential" (updateType r1)),
    (pl_list p); cbn [option_map]; done || apply H.
Qed.

(** ** Concrete requests *)

Definition blank_list : CMSSendLocalListRequest_t :=
  mkLocalList "" 0 "" (replicate 10 empty_slot) false.

Definition card (t st : string) : item := mkItem (Some t) None None (Some st).
Definition list_request (type : string) (items : list item) : payload :=
  mkPayload (Some "1") (Some 7) (Some type) (Some items).

Definition five_cards : list item :=
  [card "aa000001" "Accepted"; card "aa000002" "Blocked"; card "aa000003" "Accepted";
   card "aa000004" "Accepted"; card "aa000005" "Accepted"].

Lemma full_update_replaces_witness :
  list_matches "aa000002"
    (entries (slots (CMSSendLocalListRequestProcess (list_request "Full" five_cards) blank_list))) = true.
Proof.
  destruct (full_update_replaces (list_request "Full" five_cards) five_cards "Full" blank_list)
    as (_ & _ & _ & H); [reflexivity.. | repeat constructor; by eexists | reflexivity |].
  by rewrite (H "aa000002").
Defined.

Lemma differential_update_capacity_witness :
  let r := CMSSendLocalListRequestProcess (list_request "Full" five_cards) blank_list in
  let r' := CMSSendLocalListRequestProcess (list_request "Differential" [card "bb000001" "Accepted"]) r in
  Received r' = true /\ tags (slots r') = tags (slots r) /\
  length (filter (fun s => idTagPresent s = false) (slots r')) = 5%nat.
Proof.
  cbv zeta.
  destruct (differential_update_capacity (list_request "Differential" [card "bb000001" "Accepted"])
    [card "bb000001" "Accepted"] "Differential"
    (CMSSendLocalListRequestProcess (list_request "Full" five_cards) blank_list))
    as (_ & _ & H1 & H2); [reflexivity.. | repeat constructor; by eexists | |].
  - exists (take 5 (slots (CMSSendLocalListRequestProcess (list_request "Full" five_cards) blank_list))),
      (drop 5 (slots (CMSSendLocalListRequestProcess (list_request "Full" five_cards) blank_list))).
    split_and!; [reflexivity | repeat constructor | repeat constructor | reflexivity].
  - split; [exact H1|]. split; [apply H2; vm_compute; lia | reflexivity].
Defined.
