(* ===== verification/OcppKeys.v ===== *)
(** * OCPP configuration keys ([main/ocpp_task.c], [main/ocpp.c], [main/ocpp.h])

    The forty-three keys of [CPGetConfigurationResponse]: their defaults
    ([SetDefaultOcppConfig]), the requests that change them (the
    [CMSChangeConfigurationRequest] part of [Connector0Task]) and the report
    of all of them (what [sendGetConfigurationResponseKeys] prints).

    A key has a text, sent and received, and a decoded value.  The texts are
    adjacent [char] arrays of the structure, so they are kept as one block of
    memory: a text longer than its array runs into its neighbours', as it does
    in C.  What is written past the last text is not followed further, only
    flagged ([spilled]). *)

From Stdlib Require Import Ascii.
From S2P Require Import Prelude Config EnergyMeter ControlPilot Nvs Session SessionSpec Text.

(** ** Keys *)

(** The members of [CPGetConfigurationResponse_t], in the order of their
    [...Value] arrays. *)
Inductive key :=
  | kAuthorizeRemoteTxRequests | kClockAlignedDataInterval | kConnectionTimeOut
  | kGetConfigurationMaxKeys | kHeartbeatInterval | kLocalAuthorizeOffline
  | kLocalPreAuthorize | kMeterValuesAlignedData | kMeterValuesSampledData
  | kMeterValueSampleInterval | kNumberOfConnectors | kResetRetries
  | kConnectorPhaseRotation | kStopTransactionOnEVSideDisconnect
  | kStopTransactionOnInvalidId | kStopTxnAlignedData | kStopTxnSampledData
  | kSupportedFeatureProfiles | kTransactionMessageAttempts
  | kTransactionMessageRetryInterval | kUnlockConnectorOnEVSideDisconnect
  | kAllowOfflineTxForUnknownId | kAuthorizationCacheEnabled | kBlinkRepeat
  | kLightIntensity | kMaxEnergyOnInvalidId | kMeterValuesAlignedDataMaxLength
  | kMeterValuesSampledDataMaxLength | kMinimumStatusDuration
  | kConnectorPhaseRotationMaxLength | kStopTxnAlignedDataMaxLength
  | kStopTxnSampledDataMaxLength | kSupportedFeatureProfilesMaxLength
  | kWebSocketPingInterval | kLocalAuthListEnabled | kLocalAuthListMaxLength
  | kSendLocalListMaxLength | kReserveConnectorZeroSupported
  | kChargeProfileMaxStackLevel | kChargingScheduleAllowedChargingRateUnit
  | kChargingScheduleMaxPeriods | kConnectorSwitch3to1PhaseSupported
  | kMaxChargingProfilesInstalled.
#[export] Instance key_eq_dec : EqDecision key.
Proof. solve_decision. Defined.

Definition keys : list key :=
  [kAuthorizeRemoteTxRequests; kClockAlignedDataInterval; kConnectionTimeOut;
   kGetConfigurationMaxKeys; kHeartbeatInterval; kLocalAuthorizeOffline;
   kLocalPreAuthorize; kMeterValuesAlignedData; kMeterValuesSampledData;
   kMeterValueSampleInterval; kNumberOfConnectors; kResetRetries;
   kConnectorPhaseRotation; kStopTransactionOnEVSideDisconnect;
   kStopTransactionOnInvalidId; kStopTxnAlignedData; kStopTxnSampledData;
   kSupportedFeatureProfiles; kTransactionMessageAttempts;
   kTransactionMessageRetryInterval; kUnlockConnectorOnEVSideDisconnect;
   kAllowOfflineTxForUnknownId; kAuthorizationCacheEnabled; kBlinkRepeat;
   kLightIntensity; kMaxEnergyOnInvalidId; kMeterValuesAlignedDataMaxLength;
   kMeterValuesSampledDataMaxLength; kMinimumStatusDuration;
   kConnectorPhaseRotationMaxLength; kStopTxnAlignedDataMaxLength;
   kStopTxnSampledDataMaxLength; kSupportedFeatureProfilesMaxLength;
   kWebSocketPingInterval; kLocalAuthListEnabled; kLocalAuthListMaxLength;
   kSendLocalListMaxLength; kReserveConnectorZeroSupported;
   kChargeProfileMaxStackLevel; kChargingScheduleAllowedChargingRateUnit;
   kChargingScheduleMaxPeriods; kConnectorSwitch3to1PhaseSupported;
   kMaxChargingProfilesInstalled].

Definition key_name (k : key) : string :=
  match k with
  | kAuthorizeRemoteTxRequests => "AuthorizeRemoteTxRequests"
  | kClockAlignedDataInterval => "ClockAlignedDataInterval"
  | kConnectionTimeOut => "ConnectionTimeOut"
  | kGetConfigurationMaxKeys => "GetConfigurationMaxKeys"
  | kHeartbeatInterval => "HeartbeatInterval"
  | kLocalAuthorizeOffline => "LocalAuthorizeOffline"
  | kLocalPreAuthorize => "LocalPreAuthorize"
  | kMeterValuesAlignedData => "MeterValuesAlignedData"
  | kMeterValuesSampledData => "MeterValuesSampledData"
  | kMeterValueSampleInterval => "MeterValueSampleInterval"
  | kNumberOfConnectors => "NumberOfConnectors"
  | kResetRetries => "ResetRetries"
  | kConnectorPhaseRotation => "ConnectorPhaseRotation"
  | kStopTransactionOnEVSideDisconnect => "StopTransactionOnEVSideDisconnect"
  | kStopTransactionOnInvalidId => "StopTransactionOnInvalidId"
  | kStopTxnAlignedData => "StopTxnAlignedData"
  | kStopTxnSampledData => "StopTxnSampledData"
  | kSupportedFeatureProfiles => "SupportedFeatureProfiles"
  | kTransactionMessageAttempts => "TransactionMessageAttempts"
  | kTransactionMessageRetryInterval => "TransactionMessageRetryInterval"
  | kUnlockConnectorOnEVSideDisconnect => "UnlockConnectorOnEVSideDisconnect"
  | kAllowOfflineTxForUnknownId => "AllowOfflineTxForUnknownId"
  | kAuthorizationCacheEnabled => "AuthorizationCacheEnabled"
  | kBlinkRepeat => "BlinkRepeat"
  | kLightIntensity => "LightIntensity"
  | kMaxEnergyOnInvalidId => "MaxEnergyOnInvalidId"
  | kMeterValuesAlignedDataMaxLength => "MeterValuesAlignedDataMaxLength"
  | kMeterValuesSampledDataMaxLength => "MeterValuesSampledDataMaxLength"
  | kMinimumStatusDuration => "MinimumStatusDuration"
  | kConnectorPhaseRotationMaxLength => "ConnectorPhaseRotationMaxLength"
  | kStopTxnAlignedDataMaxLength => "StopTxnAlignedDataMaxLength"
  | kStopTxnSampledDataMaxLength => "StopTxnSampledDataMaxLength"
  | kSupportedFeatureProfilesMaxLength => "SupportedFeatureProfilesMaxLength"
  | kWebSocketPingInterval => "WebSocketPingInterval"
  | kLocalAuthListEnabled => "LocalAuthListEnabled"
  | kLocalAuthListMaxLength => "LocalAuthListMaxLength"
  | kSendLocalListMaxLength => "SendLocalListMaxLength"
  | kReserveConnectorZeroSupported => "ReserveConnectorZeroSupported"
  | kChargeProfileMaxStackLevel => "ChargeProfileMaxStackLevel"
  | kChargingScheduleAllowedChargingRateUnit => "ChargingScheduleAllowedChargingRateUnit"
  | kChargingScheduleMaxPeriods => "ChargingScheduleMaxPeriods"
  | kConnectorSwitch3to1PhaseSupported => "ConnectorSwitch3to1PhaseSupported"
  | kMaxChargingProfilesInstalled => "MaxChargingProfilesInstalled"
  end.

Lemma elem_of_keys k : k ∈ keys.
Proof. destruct k; unfold keys; set_solver. Qed.

(** [sizeof CPGetConfigurationResponse.<key>Value] *)
Definition value_size (k : key) : Z :=
  match k with
  | kMeterValuesAlignedData | kMeterValuesSampledData | kStopTxnAlignedData
  | kStopTxnSampledData | kSupportedFeatureProfiles => 100
  | kConnectorPhaseRotation => 20
  | _ => 10
  end.
Fixpoint offset_in (l : list key) (k : key) : Z :=
  match l with
  | [] => 0
  | k' :: l => if decide (k = k') then 0 else value_size k' + offset_in l k
  end.
Definition value_offset (k : key) : Z := offset_in keys k.
Definition block_size : Z := 890.

(** [Measurand_t]; [Frequency] has no code that sets it. *)
Inductive measurand :=
  | mEnergyActiveExportRegister | mEnergyActiveImportRegister
  | mEnergyReactiveExportRegister | mEnergyReactiveImportRegister
  | mEnergyActiveExportInterval | mEnergyActiveImportInterval
  | mEnergyReactiveExportInterval | mEnergyReactiveImportInterval | mPowerActiveExport
  | mPowerActiveImport | mPowerOffered | mPowerReactiveExport | mPowerReactiveImport
  | mPowerFactor | mCurrentImport | mCurrentExport | mCurrentOffered | mVoltage
  | mFrequency | mTemperature | mSoC | mRPM.
#[export] Instance measurand_eq_dec : EqDecision measurand.
Proof. solve_decision. Defined.

(** The word [ChangeConfiguration] looks for in the value. *)
Definition measurand_word (m : measurand) : option string :=
  match m with
  | mEnergyActiveExportRegister => Some "Energy.Active.Export.Register"
  | mEnergyActiveImportRegister => Some "Energy.Active.Import.Register"
  | mEnergyReactiveExportRegister => Some "Energy.Reactive.Export.Register"
  | mEnergyReactiveImportRegister => Some "Energy.Reactive.Import.Register"
  | mEnergyActiveExportInterval => Some "Energy.Active.Export.Interval"
  | mEnergyActiveImportInterval => Some "Energy.Active.Import.Interval"
  | mEnergyReactiveExportInterval => Some "Energy.Reactive.Export.Interval"
  | mEnergyReactiveImportInterval => Some "Energy.Reactive.Import.Interval"
  | mPowerActiveExport => Some "Power.Active.Export"
  | mPowerActiveImport => Some "Power.Active.Import"
  | mPowerOffered => Some "Power.Offered"
  | mPowerReactiveExport => Some "Power.Reactive.Export"
  | mPowerReactiveImport => Some "Power.Reactive.Import"
  | mPowerFactor => Some "Power.Factor"
  | mCurrentExport => Some "Current.Export"
  | mCurrentImport => Some "Current.Import"
  | mCurrentOffered => Some "Current.Offered"
  | mVoltage => Some "Voltage"
  | mTemperature => Some "Temperature"
  | mSoC => Some "SoC"
  | mRPM => Some "RPM"
  | mFrequency => None
  end.

(** [SupportedFeatureProfiles_t] *)
Inductive feature :=
  | Core | LocalAuthListManagement | Reservation | RemoteTrigger | FirmwareManagement
  | SmartChargingProfile.
Definition feature_word (f : feature) : string :=
  match f with
  | Core => "Core" | LocalAuthListManagement => "LocalAuthListManagement"
  | Reservation => "Reservation" | RemoteTrigger => "RemoteTrigger"
  | FirmwareManagement => "FirmwareManagement" | SmartChargingProfile => "SmartCharging"
  end.

(** ** State *)

(** A structure member per key: [flag] for [bool] keys, [word] for
    [uint32_t] and [size_t] ones. *)
Record CPGetConfigurationResponse_t := mkKeys {
  ReadOnly : key -> bool;
  Value : Z -> ascii;
  spilled : bool;
  flag : key -> bool;
  word : key -> Z;
  measurands : key -> measurand -> bool;
  features : feature -> bool
}.
#[export] Instance keys_rebuild : Rebuild CPGetConfigurationResponse_t := fun c =>
  mkKeys (ReadOnly c) (Value c) (spilled c) (flag c) (word c) (measurands c) (features c).

(** The part of it the session's handlers consult. *)
Definition ocpp_config (c : CPGetConfigurationResponse_t) : OcppConfig :=
  mkOcppConfig (word c kClockAlignedDataInterval) (word c kConnectionTimeOut)
    (word c kMeterValueSampleInterval) (word c kTransactionMessageAttempts)
    (word c kTransactionMessageRetryInterval) (word c kMaxEnergyOnInvalidId)
    (flag c kStopTransactionOnInvalidId).

(** ** Texts in memory *)

Definition slen (s : string) : Z := Z.of_nat (String.length s).
Definition NUL : ascii := "000"%char.
Definition char_at (s : string) (i : Z) : ascii := default NUL (String.get (Z.to_nat i) s).

(** [memset(p, 0, n)], [memcpy(p, s, strlen(s))] and the string at [p]. *)
Definition memset0 (p n : Z) (mem : Z -> ascii) : Z -> ascii :=
  fun a => if (p <=? a) && (a <? p + n) then NUL else mem a.
Definition memcpy (p : Z) (s : string) (mem : Z -> ascii) : Z -> ascii :=
  fun a => if (p <=? a) && (a <? p + slen s) then char_at s (a - p) else mem a.
Fixpoint read_string (fuel : nat) (mem : Z -> ascii) (p : Z) : string :=
  match fuel with
  | O => ""
  | S fuel => if Ascii.eqb (mem p) NUL then "" else String (mem p) (read_string fuel mem (p + 1))
  end.

(** The text of key [k]: it ends at a [NUL], or else with the block. *)
Definition value_text (c : CPGetConfigurationResponse_t) (k : key) : string :=
  read_string (Z.to_nat (block_size - value_offset k)) (Value c) (value_offset k).

(** [setNULL(c.kValue); memcpy(c.kValue, v, strlen(v))] *)
Definition set_value (k : key) (v : string) : cmd CPGetConfigurationResponse_t := fun c =>
  c <| Value := memcpy (value_offset k) v (memset0 (value_offset k) (value_size k) (Value c)) |>
    <| spilled := spilled c || (value_offset k + slen v >? block_size) |>.

(** ** Defaults ([SetDefaultOcppConfig]) *)

Definition default_ReadOnly (k : key) : bool :=
  match k with
  | kGetConfigurationMaxKeys | kNumberOfConnectors | kSupportedFeatureProfiles
  | kMeterValuesAlignedDataMaxLength | kMeterValuesSampledDataMaxLength
  | kConnectorPhaseRotationMaxLength | kStopTxnAlignedDataMaxLength
  | kStopTxnSampledDataMaxLength | kSupportedFeatureProfilesMaxLength
  | kLocalAuthListMaxLength | kSendLocalListMaxLength | kReserveConnectorZeroSupported
  | kChargeProfileMaxStackLevel | kChargingScheduleMaxPeriods
  | kConnectorSwitch3to1PhaseSupported | kMaxChargingProfilesInstalled => true
  | _ => false
  end.

(** [config.NumberOfConnectors] as text. *)
Definition connectors_text (n : Z) : string := if n =? 1 then "1" else if n =? 2 then "2" else "3".
Definition default_measurands_text : string :=
  "Energy.Active.Import.Register, Power.Active.Import, Voltage, Current.Import, Temperature".
Definition default_text (connectors : Z) (k : key) : string :=
  match k with
  | kAuthorizeRemoteTxRequests | kAllowOfflineTxForUnknownId
  | kReserveConnectorZeroSupported | kConnectorSwitch3to1PhaseSupported => "false"
  | kClockAlignedDataInterval => "600"
  | kConnectionTimeOut => "120"
  | kGetConfigurationMaxKeys => "50"
  | kHeartbeatInterval | kMeterValueSampleInterval | kWebSocketPingInterval => "30"
  | kLocalAuthorizeOffline | kLocalPreAuthorize | kStopTransactionOnEVSideDisconnect
  | kStopTransactionOnInvalidId | kUnlockConnectorOnEVSideDisconnect
  | kAuthorizationCacheEnabled | kLocalAuthListEnabled => "true"
  | kMeterValuesAlignedData | kMeterValuesSampledData | kStopTxnAlignedData
  | kStopTxnSampledData => default_measurands_text
  | kResetRetries => "3"
  | kConnectorPhaseRotation => "NotApplicable"
  | kSupportedFeatureProfiles => "Core,LocalAuthListManagement,Reservation,RemoteTrigger,FirmwareManagement,SmartCharging"
  | kTransactionMessageAttempts => "2"
  | kTransactionMessageRetryInterval => "60"
  | kBlinkRepeat => "500"
  | kLightIntensity | kChargeProfileMaxStackLevel | kMaxChargingProfilesInstalled => "100"
  | kMaxEnergyOnInvalidId => "0"
  | kMeterValuesAlignedDataMaxLength | kMeterValuesSampledDataMaxLength
  | kStopTxnAlignedDataMaxLength | kStopTxnSampledDataMaxLength => "5"
  | kMinimumStatusDuration => "900"
  | kConnectorPhaseRotationMaxLength => "1"
  | kSupportedFeatureProfilesMaxLength => "6"
  | kLocalAuthListMaxLength | kSendLocalListMaxLength => "10"
  | kChargingScheduleAllowedChargingRateUnit => "A"
  | kChargingScheduleMaxPeriods => "20"
  | kNumberOfConnectors => connectors_text connectors
  end.

Definition default_flag (k : key) : bool :=
  match k with
  | kLocalAuthorizeOffline | kLocalPreAuthorize | kStopTransactionOnEVSideDisconnect
  | kStopTransactionOnInvalidId | kUnlockConnectorOnEVSideDisconnect
  | kAuthorizationCacheEnabled | kLocalAuthListEnabled => true
  | _ => false
  end.

Definition default_word (connectors : Z) (k : key) : Z :=
  match k with
  | kClockAlignedDataInterval => 600
  | kConnectionTimeOut => 120
  | kGetConfigurationMaxKeys => 50
  | kHeartbeatInterval | kMeterValueSampleInterval | kWebSocketPingInterval => 30
  | kResetRetries => 3
  | kTransactionMessageAttempts => 2
  | kTransactionMessageRetryInterval => 60
  | kBlinkRepeat => 500
  | kLightIntensity | kChargeProfileMaxStackLevel | kMaxChargingProfilesInstalled => 100
  | kMeterValuesAlignedDataMaxLength | kMeterValuesSampledDataMaxLength
  | kStopTxnAlignedDataMaxLength | kStopTxnSampledDataMaxLength => 5
  | kMinimumStatusDuration => 900
  | kConnectorPhaseRotationMaxLength => 1
  | kSupportedFeatureProfilesMaxLength => 6
  | kLocalAuthListMaxLength | kSendLocalListMaxLength => 10
  | kChargingScheduleMaxPeriods => 20
  | kNumberOfConnectors => connectors
  | _ => 0
  end.

Definition default_measurands (k : key) (m : measurand) : bool :=
  match k with
  | kMeterValuesAlignedData | kMeterValuesSampledData | kStopTxnAlignedData | kStopTxnSampledData =>
      match m with
      | mEnergyActiveImportRegister | mPowerActiveImport | mVoltage | mCurrentImport | mTemperature => true
      | _ => false
      end
  | _ => false
  end.
Definition default_features (f : feature) : bool :=
  match f with SmartChargingProfile => false | _ => true end.

(** [memset(&CPGetConfigurationResponse, 0, ...)] *)
Definition zero_keys : CPGetConfigurationResponse_t :=
  mkKeys (fun _ => false) (fun _ => NUL) false (fun _ => false) (fun _ => 0) (fun _ _ => false)
    (fun _ => false).
Definition set_values (connectors : Z) (l : list key) : cmd CPGetConfigurationResponse_t := fun c =>
  foldl (fun c k => set_value k (default_text connectors k) c) c l.
Definition default_keys (connectors : Z) : CPGetConfigurationResponse_t :=
  set_values connectors keys
    (zero_keys <| ReadOnly := default_ReadOnly |>
               <| flag := default_flag |> <| word := default_word connectors |>
               <| measurands := default_measurands |> <| features := default_features |>).

(** ** Decoding a value *)

(** [strstr(s, w) != NULL] *)
Definition strstr (s w : string) : bool := match String.index 0 w s with Some _ => true | None => false end.

(** ** Changing a key *)

(** What a branch of the chain does with the value besides keeping its text;
    a number the key cannot take is replaced by a default and its text. *)
Inductive kind :=
  | Flag
  | Word (repair : Z -> option (Z * string))
  | PingInterval (repair : Z -> option (Z * string))
  | Text
  | Measurands
  | Features.

Definition keep : Z -> option (Z * string) := fun _ => None.
Definition no_zero (d : Z) (s : string) : Z -> option (Z * string) :=
  fun n => if n =? 0 then Some (d, s) else None.
Definition at_most (d : Z) (s : string) : Z -> option (Z * string) :=
  fun n => if n >? d then Some (d, s) else None.
Definition between (lo hi d : Z) (s : string) : Z -> option (Z * string) :=
  fun n => if (n <? lo) || (n >? hi) then Some (d, s) else None.
Definition aligned_interval : Z -> option (Z * string) :=
  fun n => if (n >? 0) && (n <? 30) then Some (30, "30") else None.

(** The chain of [else if]s: each branch's key and what it does. *)
Definition timing_branches : list (key * kind) :=
  [(kAuthorizeRemoteTxRequests, Flag);
   (kClockAlignedDataInterval, Word aligned_interval);
   (kConnectionTimeOut, Word (no_zero 120 "120"));
   (kGetConfigurationMaxKeys, Word (no_zero 60 "60"));
   (kHeartbeatInterval, Word (no_zero 60 "60"));
   (kLocalAuthorizeOffline, Flag);
   (kLocalPreAuthorize, Flag)].
Definition meter_branches : list (key * kind) :=
  [(kMeterValuesAlignedData, Measurands);
   (kMeterValuesSampledData, Measurands);
   (kMeterValueSampleInterval, Word (no_zero 30 "30"));
   (kNumberOfConnectors, Word (no_zero 1 "1"));
   (kResetRetries, Word (no_zero 3 "3"));
   (kConnectorPhaseRotation, Text)].
Definition stop_branches : list (key * kind) :=
  [(kStopTransactionOnEVSideDisconnect, Flag);
   (kStopTransactionOnInvalidId, Flag);
   (kStopTxnAlignedData, Measurands);
   (kStopTxnSampledData, Measurands);
   (kSupportedFeatureProfiles, Features)].
Definition transaction_branches : list (key * kind) :=
  [(kTransactionMessageAttempts, Word (no_zero 1 "1"));
   (kTransactionMessageRetryInterval, Word (no_zero 60 "60"));
   (kUnlockConnectorOnEVSideDisconnect, Flag);
   (kAllowOfflineTxForUnknownId, Flag);
   (kAuthorizationCacheEnabled, Flag);
   (kBlinkRepeat, Word (no_zero 500 "500"));
   (kLightIntensity, Word (no_zero 100 "100"));
   (kMaxEnergyOnInvalidId, Word keep)].
Definition length_branches : list (key * kind) :=
  [(kMeterValuesAlignedDataMaxLength, Word (at_most 5 "5"));
   (kMeterValuesSampledDataMaxLength, Word (at_most 5 "5"));
   (kMinimumStatusDuration, Word (no_zero 2 "2"));
   (kConnectorPhaseRotationMaxLength, Word (at_most 1 "1"));
   (kStopTxnAlignedDataMaxLength, Word (at_most 5 "5"));
   (kStopTxnSampledDataMaxLength, Word (at_most 5 "5"));
   (kSupportedFeatureProfilesMaxLength, Word (at_most 6 "6"))].
Definition profile_branches : list (key * kind) :=
  [(kWebSocketPingInterval, PingInterval (between 10 180 30 "30"));
   (kLocalAuthListEnabled, Flag);
   (kLocalAuthListMaxLength, Word (between 1 20 10 "10"));
   (kSendLocalListMaxLength, Word (between 1 20 10 "10"));
   (kReserveConnectorZeroSupported, Flag);
   (kChargeProfileMaxStackLevel, Word keep);
   (kConnectorSwitch3to1PhaseSupported, Flag);
   (kChargingScheduleMaxPeriods, Word keep);
   (kMaxChargingProfilesInstalled, Word keep)].
Definition branches : list (key * kind) :=
  timing_branches ++ meter_branches ++ stop_branches ++ transaction_branches
  ++ length_branches ++ profile_branches.

(** [memcmp(request.key, "<key>", strlen("<key>")) == 0], for the first
    branch that matches. *)
Definition branch_for (name : string) : option (key * kind) :=
  List.find (fun b => starts_with (key_name b.1) name) branches.

Definition updk {A} (k : key) (v : A) (f : key -> A) : key -> A :=
  fun k' => if decide (k' = k) then v else f k'.

Definition set_word (repair : Z -> option (Z * string)) (k : key) (v : string)
    : cmd CPGetConfigurationResponse_t := fun c =>
  let n := u32 (atoi v) in
  match repair n with
  | Some (d, s) => set_value k s (c <| word := updk k d (word c) |>)
  | None => c <| word := updk k n (word c) |>
  end.

Definition parse_measurands (v : string) (old : measurand -> bool) : measurand -> bool :=
  fun m => match measurand_word m with Some w => strstr v w | None => old m end.

(** A branch's body when the key is writable. *)
Definition write_key (k : key) (kd : kind) (v : string) : cmd CPGetConfigurationResponse_t :=
  set_value k v ;;
  match kd with
  | Flag => fun c => c <| flag := updk k (starts_with "true" v) (flag c) |>
  | Word repair | PingInterval repair => set_word repair k v
  | Text => skip
  | Measurands => fun c => c <| measurands := updk k (parse_measurands v (measurands c k)) (measurands c) |>
  | Features => fun c => c <| features := fun f => strstr v (feature_word f) |>
  end.

(** The chain: the structure after it and the status answered. *)
Definition change_key (name v : string) (c : CPGetConfigurationResponse_t)
    : CPGetConfigurationResponse_t * string :=
  match branch_for name with
  | Some (k, kd) => if ReadOnly c k then (c, "Rejected") else (write_key k kd v c, "Accepted")
  | None => (c, "Rejected")
  end.

(** The websocket client's new ping interval ([setWebsocketPingInterval]). *)
Definition pings (name v : string) (c : CPGetConfigurationResponse_t) : list Z :=
  match branch_for name with
  | Some (k, PingInterval _) => if ReadOnly c k then [] else [word (change_key name v c).1 k]
  | _ => []
  end.

(** ** Reporting the keys ([sendGetConfigurationResponseKeys]) *)

(** The keys of each of the three messages. *)
Definition first_report : list key :=
  [kAuthorizeRemoteTxRequests; kClockAlignedDataInterval; kConnectionTimeOut;
   kGetConfigurationMaxKeys; kHeartbeatInterval; kLocalAuthorizeOffline; kLocalPreAuthorize;
   kMeterValuesAlignedData; kMeterValuesSampledData; kMeterValueSampleInterval;
   kNumberOfConnectors; kResetRetries; kConnectorPhaseRotation;
   kStopTransactionOnEVSideDisconnect; kStopTransactionOnInvalidId].
Definition second_report : list key :=
  [kStopTxnAlignedData; kStopTxnSampledData; kSupportedFeatureProfiles;
   kTransactionMessageAttempts; kTransactionMessageRetryInterval;
   kUnlockConnectorOnEVSideDisconnect; kAllowOfflineTxForUnknownId; kAuthorizationCacheEnabled;
   kBlinkRepeat; kLightIntensity; kMaxEnergyOnInvalidId; kMeterValuesAlignedDataMaxLength;
   kMeterValuesSampledDataMaxLength; kMinimumStatusDuration; kConnectorPhaseRotationMaxLength].
Definition third_report (c : CPGetConfigurationResponse_t) : list key :=
  [kStopTxnAlignedDataMaxLength; kStopTxnSampledDataMaxLength; kSupportedFeatureProfilesMaxLength;
   kWebSocketPingInterval]
  ++ (if features c LocalAuthListManagement then
        [kLocalAuthListEnabled; kLocalAuthListMaxLength; kSendLocalListMaxLength] else [])
  ++ (if features c Reservation then [kReserveConnectorZeroSupported] else [])
  ++ (if features c SmartChargingProfile then
        [kChargeProfileMaxStackLevel; kChargingScheduleAllowedChargingRateUnit;
         kChargingScheduleMaxPeriods; kConnectorSwitch3to1PhaseSupported;
         kMaxChargingProfilesInstalled] else []).

Definition key_entry (c : CPGetConfigurationResponse_t) (k : key) : string * bool * string :=
  (key_name k, ReadOnly c k, value_text c k).
(** What each message carries.  [sendGetConfigurationResponseKeys] prints it
    and puts the first [OCPP_MSG_SIZE] bytes of the text on the queue
    ([Senders.v], [queue_cell]). *)
Definition configurationKeyJsonArray (count : Z) (c : CPGetConfigurationResponse_t)
    : list (string * bool * string) :=
  map (key_entry c)
    (if count =? 1 then first_report else if count =? 2 then second_report
     else if count =? 3 then third_report c else []).

(** ** The task's handlers, with the flash *)

Section KeysTask.
Context {N : Type} `{NvsLaws N CPGetConfigurationResponse_t}.

Record keys_task := mkKeysTask {
  keys_now : CPGetConfigurationResponse_t;
  storage : N;
  CMSChangeConfigurationRequest_Received : bool;
  change_answers : list string;      (* statuses answered, newest first *)
  ping_intervals : list Z            (* intervals set, newest first *)
}.
#[local] Instance keys_task_rebuild : Rebuild keys_task := fun t =>
  mkKeysTask (keys_now t) (storage t) (CMSChangeConfigurationRequest_Received t)
    (change_answers t) (ping_intervals t).

Definition custom_nvs_write_config_ocpp : cmd keys_task := fun t =>
  t <| storage := nvs_set_blob (storage t) "configDataOcpp" (keys_now t) |>.

(** The texts of the number of connectors, over what is there. *)
Definition overwrite_connectors (connectors : Z) : cmd CPGetConfigurationResponse_t := fun c =>
  c <| Value := memcpy (value_offset kNumberOfConnectors) (connectors_text connectors) (Value c) |>.

Definition SetDefaultOcppConfig (connectors : Z) : cmd keys_task := fun t =>
  match nvs_get_blob (storage t) "configDataOcpp" with
  | None => custom_nvs_write_config_ocpp (t <| keys_now := default_keys connectors |>)
  | Some c => t <| keys_now := overwrite_connectors connectors c |>
  end.

(** [if (CMSChangeConfigurationRequest.Received)] for a request of [name] and
    [v]. *)
Definition change_configuration (name v : string) : cmd keys_task := fun t =>
  if CMSChangeConfigurationRequest_Received t then
    custom_nvs_write_config_ocpp
      (t <| keys_now := (change_key name v (keys_now t)).1 |>
         <| change_answers := (change_key name v (keys_now t)).2 :: change_answers t |>
         <| ping_intervals := pings name v (keys_now t) ++ ping_intervals t |>)
      <| CMSChangeConfigurationRequest_Received := false |>
  else t.
End KeysTask.
