(* ===== verification/OcppKeysSpec.v ===== *)
(** * Properties of the OCPP configuration keys ([OcppKeys.v])

    What the central system sets is what the next report holds and what the
    firmware uses, now and after a restart, as long as the value fits its array;
    which keys the chain of comparisons confuses; and where a longer value ends
    up. *)

From Stdlib Require Import Ascii.
From S2P Require Import Prelude Config EnergyMeter ControlPilot Nvs Session SessionSpec Text OcppKeys.

(** ** The layout of the texts *)

Definition in_field (k : key) (a : Z) : Prop := value_offset k <= a < value_offset k + value_size k.

Definition layout_ok : bool :=
  forallb (fun k =>
    (0 <=? value_offset k) && (0 <? value_size k) && (value_offset k + value_size k <=? block_size)
    && forallb (fun k' => bool_decide (k = k')
         || (value_offset k + value_size k <=? value_offset k')
         || (value_offset k' + value_size k' <=? value_offset k)) keys) keys.
Lemma layout : layout_ok = true.
Proof. vm_compute. reflexivity. Qed.

Lemma layout_key k :
  0 <= value_offset k /\ 0 < value_size k /\ value_offset k + value_size k <= block_size /\
  forall k', k' <> k -> value_offset k + value_size k <= value_offset k' \/
    value_offset k' + value_size k' <= value_offset k.
Proof.
  pose proof layout as H. unfold layout_ok in H. rewrite forallb_forall in H.
  specialize (H k (proj1 (list_elem_of_In _ _) (elem_of_keys k))).
  rewrite !andb_true_iff, forallb_forall in H. destruct H as [[[H1 H2] H3] H4].
  repeat split; [lia..|]. intros k' Hne.
  specialize (H4 k' (proj1 (list_elem_of_In _ _) (elem_of_keys k'))).
  rewrite bool_decide_false in H4 by congruence. lia.
Qed.

(** ** Strings in memory *)

Fixpoint sdrop (n : nat) (s : string) : string :=
  match n, s with S n, String _ s => sdrop n s | _, _ => s end.

Fixpoint no_nul (s : string) : bool :=
  match s with String a s => negb (Ascii.eqb a NUL) && no_nul s | EmptyString => true end.

Lemma sdrop_get n s :
  (n < String.length s)%nat -> no_nul s = true ->
  exists a, String.get n s = Some a /\ a <> NUL /\ sdrop n s = String a (sdrop (S n) s).
Proof.
  revert s. induction n as [|n IH]; intros [|a s]; cbn; try lia.
  - intros _ H. exists a. split; [done|]. split; [|by destruct s].
    intros ->. by rewrite Ascii.eqb_refl in H.
  - intros Hn H. apply andb_true_iff in H as [_ H]. apply (IH s); [lia | done].
Qed.
Lemma sdrop_all s : sdrop (String.length s) s = "".
Proof. by induction s. Qed.

Lemma memcpy_inside p v mem n :
  (n < String.length v)%nat -> memcpy p v mem (p + Z.of_nat n) = default NUL (String.get n v).
Proof.
  intros Hn. unfold memcpy, char_at, slen.
  replace ((p <=? p + Z.of_nat n) && (p + Z.of_nat n <? p + Z.of_nat (String.length v))) with true by lia.
  by replace (Z.to_nat (p + Z.of_nat n - p)) with n by lia.
Qed.
Lemma memcpy_outside p v mem a : a < p \/ p + slen v <= a -> memcpy p v mem a = mem a.
Proof. intros Ha. unfold memcpy. by replace ((p <=? a) && (a <? p + slen v)) with false by lia. Qed.
Lemma memset0_outside p n mem a : a < p \/ p + n <= a -> memset0 p n mem a = mem a.
Proof. intros Ha. unfold memset0. by replace ((p <=? a) && (a <? p + n)) with false by lia. Qed.
Lemma memset0_inside p n mem a : p <= a < p + n -> memset0 p n mem a = NUL.
Proof. intros Ha. unfold memset0. by replace ((p <=? a) && (a <? p + n)) with true by lia. Qed.

(** Reading from inside a copied string: the rest of it, then what follows. *)
Lemma read_memcpy p v mem fuel n :
  no_nul v = true -> (n <= String.length v)%nat -> (String.length v - n <= fuel)%nat ->
  read_string fuel (memcpy p v mem) (p + Z.of_nat n) =
    sdrop n v +:+ read_string (fuel - (String.length v - n)) (memcpy p v mem) (p + slen v).
Proof.
  intros Hv. remember (String.length v - n)%nat as d eqn:Ed. revert n fuel Ed.
  induction d as [|d IH]; intros n fuel Ed Hn Hf.
  - assert (n = String.length v) as -> by lia. rewrite sdrop_all, Nat.sub_0_r. done.
  - destruct (sdrop_get n v ltac:(lia) Hv) as (a & E & Ha & ->). destruct fuel as [|fuel]; [lia|].
    cbn [read_string]. rewrite memcpy_inside, E by lia. change (default NUL (Some a)) with a.
    apply Ascii.eqb_neq in Ha. rewrite Ha.
    replace (p + Z.of_nat n + 1) with (p + Z.of_nat (S n)) by lia.
    rewrite (IH (S n)) by lia. done.
Qed.

(** A text is determined by the memory up to its end. *)
Lemma read_string_agree fuel mem mem' p q :
  p <= q < p + Z.of_nat fuel -> mem q = NUL -> (forall a, p <= a <= q -> mem' a = mem a) ->
  read_string fuel mem' p = read_string fuel mem p.
Proof.
  revert p. induction fuel as [|fuel IH]; intros p Hq Hn Ha; [done|]. cbn [read_string].
  rewrite (Ha p) by lia. destruct (Ascii.eqb (mem p) NUL) eqn:E; [done|].
  assert (p <> q) by (intros ->; rewrite Hn in E; done).
  rewrite (IH (p + 1)); [done|lia|done|]. intros a ?. apply Ha. lia.
Qed.

Lemma append_nil_r v : v +:+ "" = v.
Proof. induction v as [|a v IH]; [done|]. exact (f_equal (String a) IH). Qed.

(** ** Setting a text *)

(** The text of [k] ends inside its array. *)
Definition terminated (c : CPGetConfigurationResponse_t) (k : key) : Prop :=
  exists a, in_field k a /\ Value c a = NUL.
Definition fits (k : key) (v : string) : Prop := no_nul v = true /\ slen v < value_size k.

Lemma value_text_agree c c' k :
  terminated c k -> (forall a, in_field k a -> Value c' a = Value c a) ->
  value_text c' k = value_text c k /\ terminated c' k.
Proof.
  intros (q & Hq & Hn) Ha. destruct (layout_key k) as (L1 & L2 & L3 & _). unfold in_field in *. split.
  - apply (read_string_agree _ _ _ _ q); [lia | done | intros a ?; apply Ha; lia].
  - exists q. split; [done|]. by rewrite Ha.
Qed.

Lemma set_value_other k v c k' :
  fits k v -> k' <> k -> terminated c k' ->
  value_text (set_value k v c) k' = value_text c k' /\ terminated (set_value k v c) k'.
Proof.
  intros [_ Hs] Hne Ht. apply value_text_agree; [done|]. intros a Ha. unfold in_field in Ha.
  destruct (layout_key k) as (L1 & L2 & L3 & L4). specialize (L4 k' Hne).
  change (Value (set_value k v c)) with
    (memcpy (value_offset k) v (memset0 (value_offset k) (value_size k) (Value c))).
  rewrite memcpy_outside by (unfold slen in *; lia). by rewrite memset0_outside by lia.
Qed.

Lemma set_value_same k v c :
  fits k v -> value_text (set_value k v c) k = v /\ terminated (set_value k v c) k.
Proof.
  intros [Hv Hs]. destruct (layout_key k) as (L1 & L2 & L3 & _).
  assert (Hend : Value (set_value k v c) (value_offset k + slen v) = NUL).
  { change (Value (set_value k v c)) with
      (memcpy (value_offset k) v (memset0 (value_offset k) (value_size k) (Value c))).
    rewrite memcpy_outside by lia. rewrite memset0_inside; [done|]. unfold slen in *. lia. }
  split; [|exists (value_offset k + slen v); split; [unfold in_field, slen in *; lia | done]].
  unfold value_text. set (fuel := Z.to_nat _).
  assert (Hf : (String.length v < fuel)%nat) by (subst fuel; unfold slen in *; lia).
  transitivity (read_string fuel (Value (set_value k v c)) (value_offset k + Z.of_nat 0));
    [by rewrite Z.add_0_r|].
  change (Value (set_value k v c)) with
    (memcpy (value_offset k) v (memset0 (value_offset k) (value_size k) (Value c))) at 1.
  rewrite read_memcpy by (done || lia).
  change (memcpy (value_offset k) v (memset0 (value_offset k) (value_size k) (Value c)))
    with (Value (set_value k v c)).
  destruct (fuel - (String.length v - 0))%nat as [|m] eqn:Em; [lia|]. cbn [read_string].
  rewrite Hend. cbn [Ascii.eqb]. destruct v; apply append_nil_r.
Qed.

(** ** The branches *)

Definition kind_repair (kd : kind) : option (Z -> option (Z * string)) :=
  match kd with Word r | PingInterval r => Some r | _ => None end.

(** A replaced number and its text agree, and the text fits. *)
Definition repair_ok (k : key) (kd : kind) : Prop :=
  forall r n d s, kind_repair kd = Some r -> r n = Some (d, s) ->
    fits k s /\ u32 (atoi s) = d /\ r d = None.

Lemma branches_repair : Forall (fun b => repair_ok b.1 b.2) branches.
Proof.
  unfold branches, repair_ok. cbn [app timing_branches meter_branches stop_branches
    transaction_branches length_branches profile_branches].
  repeat (apply Forall_cons_2; [cbn|]); try apply Forall_nil_2; intros r n d s; try done; intros [= <-];
    unfold keep, no_zero, at_most, between, aligned_interval; intros E; try done;
    destruct (_ : bool) in E; try done; injection E as <- <-; repeat split.
Qed.

Lemma branch_repair k kd : (k, kd) ∈ branches -> repair_ok k kd.
Proof. intros Hb. exact (proj1 (Forall_forall _ _) branches_repair _ (proj1 (list_elem_of_In _ _) Hb)). Qed.

Lemma branches_nodup : NoDup (map fst branches).
Proof. by apply (bool_decide_unpack _). Qed.
Lemma branches_functional k kd kd' : (k, kd) ∈ branches -> (k, kd') ∈ branches -> kd = kd'.
Proof.
  pose proof branches_nodup as Hn. induction branches as [|[k0 kd0] l IH]; [by intros ?%elem_of_nil|].
  cbn [map fst] in Hn. inversion Hn as [|? ? Hk Hn']; subst.
  assert (Hin : forall x, (k0, x) ∈ l -> False)
    by (intros x Hx; apply Hk; apply list_elem_of_fmap; by exists (k0, x)).
  rewrite !elem_of_cons. intros [[= -> ->]|H1] [[= <-]|H2]; try done.
  - by destruct (Hin kd').
  - subst. by destruct (Hin kd).
  - by apply IH.
Qed.

Lemma branch_for_elem name k kd :
  branch_for name = Some (k, kd) -> (k, kd) ∈ branches /\ starts_with (key_name k) name = true.
Proof. intros [H1 H2]%List.find_some. split; [by apply list_elem_of_In | done]. Qed.

(** ** Text and decoded value agree *)

(** The text a key keeps of the value sent. *)
Definition kept_text (kd : kind) (v : string) : string :=
  match kind_repair kd with
  | Some r => match r (u32 (atoi v)) with Some (_, s) => s | None => v end
  | None => v
  end.

(** The decoded value is the one the text stands for.  [ConnectorPhaseRotation]
    ([Text]) is nothing but its text; of the feature profiles smart charging is
    left out, whose default flag is not what the default text says
    ([configuration_coherent] states how they differ). *)
Definition coherent_key (c : CPGetConfigurationResponse_t) (b : key * kind) : Prop :=
  let '(k, kd) := b in
  match kd with
  | Flag => flag c k = starts_with "true" (value_text c k)
  | Word r | PingInterval r => word c k = u32 (atoi (value_text c k)) /\ r (word c k) = None
  | Measurands => forall m w, measurand_word m = Some w -> measurands c k m = strstr (value_text c k) w
  | Features => forall f, f <> SmartChargingProfile -> features c f = strstr (value_text c k) (feature_word f)
  | Text => True
  end.
Definition coherent (c : CPGetConfigurationResponse_t) : Prop :=
  (forall k, terminated c k) /\ forall b, b ∈ branches -> coherent_key c b.

Lemma updk_same {A} k (v : A) f : updk k v f k = v.
Proof. unfold updk. by rewrite decide_True. Qed.
Lemma updk_other {A} k k' (v : A) f : k' <> k -> updk k v f k' = f k'.
Proof. intros. unfold updk. by rewrite decide_False. Qed.

(** What a key shows of itself. *)
Definition key_state (c : CPGetConfigurationResponse_t) (k : key) :=
  (value_text c k, flag c k, word c k, measurands c k).

Lemma value_text_same_mem c c' : Value c' = Value c ->
  (forall k, value_text c' k = value_text c k) /\ forall k, terminated c k -> terminated c' k.
Proof. intros E. unfold value_text, terminated. by rewrite E. Qed.

Lemma set_value_key_other k v c k' :
  fits k v -> k' <> k -> terminated c k' -> key_state (set_value k v c) k' = key_state c k'.
Proof. intros Hv Hne Ht. unfold key_state. by rewrite (proj1 (set_value_other k v c k' Hv Hne Ht)). Qed.

Lemma set_value_terminated k v c :
  fits k v -> (forall k', terminated c k') -> forall k', terminated (set_value k v c) k'.
Proof.
  intros Hv Ht k'. destruct (decide (k' = k)) as [->|Hne];
    [by apply set_value_same | by apply set_value_other].
Qed.

Lemma set_word_spec r k v c :
  repair_ok k (Word r) -> (forall k, terminated c k) -> value_text c k = v ->
  let c' := set_word r k v c in
  (forall k, terminated c' k) /\ value_text c' k = kept_text (Word r) v /\
  (word c' k = u32 (atoi (value_text c' k)) /\ r (word c' k) = None) /\
  forall k', k' <> k -> key_state c' k' = key_state c k'.
Proof.
  intros Hr Ht Hv. cbv zeta. unfold set_word, kept_text. cbn [kind_repair].
  destruct (r (u32 (atoi v))) as [[d s]|] eqn:E.
  - destruct (Hr r _ d s eq_refl E) as (Hs & Hd & Hn).
    set (c1 := c <| word := updk k d (word c) |>).
    assert (Ht1 : forall k, terminated c1 k) by exact Ht.
    destruct (set_value_same k s c1 Hs) as [V1 V2].
    split; [by apply set_value_terminated|]. split; [exact V1|]. split.
    + rewrite V1. change (word (set_value k s c1) k) with (updk k d (word c) k).
      by rewrite updk_same.
    + intros k' Hne. rewrite set_value_key_other by done.
      unfold key_state. change (word c1 k') with (updk k d (word c) k'). by rewrite updk_other.
  - split; [exact Ht|]. split; [exact Hv|]. split.
    + change (value_text _ k) with (value_text c k). rewrite Hv. cbn. rewrite updk_same. done.
    + intros k' Hne. unfold key_state. cbn. by rewrite updk_other.
Qed.

Definition only_word_changes (kd : kind) : bool := match kd with Features => false | _ => true end.

Lemma write_key_spec k kd v c :
  (k, kd) ∈ branches -> fits k v -> (forall k, terminated c k) ->
  let c' := write_key k kd v c in
  (forall k, terminated c' k) /\ value_text c' k = kept_text kd v /\ coherent_key c' (k, kd) /\
  (forall k', k' <> k -> key_state c' k' = key_state c k') /\
  ReadOnly c' = ReadOnly c /\ (kd <> Features -> features c' = features c).
Proof.
  intros Hb Hv Ht. cbv zeta. unfold write_key. rewrite seqc_eq. set (c1 := set_value k v c).
  destruct (set_value_same k v c Hv) as [V1 _]. fold c1 in V1.
  assert (T1 : forall k, terminated c1 k) by (by apply set_value_terminated).
  assert (O1 : forall k', k' <> k -> key_state c1 k' = key_state c k')
    by (intros k' Hne; by apply set_value_key_other).
  assert (Words : forall r, repair_ok k (Word r) ->
    let c' := set_word r k v c1 in
    (forall k, terminated c' k) /\ value_text c' k = kept_text (Word r) v /\
    coherent_key c' (k, Word r) /\ (forall k', k' <> k -> key_state c' k' = key_state c k') /\
    ReadOnly c' = ReadOnly c /\ features c' = features c).
  { intros r Hr. cbv zeta. destruct (set_word_spec r k v c1 Hr T1 V1) as (S1 & S2 & S3 & S4).
    split; [done|]. split; [done|]. split; [done|]. split; [|unfold set_word; by destruct (r (u32 (atoi v))) as [[? ?]|]].
    intros k' Hne. by rewrite S4, O1. }
  pose proof (branch_repair k kd Hb) as Hr. destruct kd as [|r|r| | |].
  - split; [exact T1|]. split; [exact V1|].
    split.
    { change (updk k (starts_with "true" v) (flag c1) k = starts_with "true" (value_text c1 k)).
      by rewrite updk_same, V1. }
    split; [|done]. intros k' Hne. rewrite <-O1 by done. unfold key_state. cbn. by rewrite updk_other.
  - destruct (Words r Hr) as (W1 & W2 & W3 & W4 & W5 & W6). split_and!; done.
  - destruct (Words r) as (W1 & W2 & W3 & W4 & W5 & W6);
      [intros r' n d s [= <-]; by apply Hr | split_and!; done].
  - split_and!; done.
  - split; [exact T1|]. split; [exact V1|].
    split; [|split; [|done]].
    + intros m w E.
      change (updk k (parse_measurands v (measurands c1 k)) (measurands c1) k m
        = strstr (value_text c1 k) w).
      rewrite updk_same, V1. unfold parse_measurands. by rewrite E.
    + intros k' Hne. rewrite <-O1 by done. unfold key_state. cbn. by rewrite updk_other.
  - split_and!; try done. intros f _.
    change (strstr v (feature_word f) = strstr (value_text c1 k) (feature_word f)). by rewrite V1.
Qed.

Lemma coherent_key_state c c' k kd :
  key_state c' k = key_state c k -> (kd = Features -> features c' = features c) ->
  coherent_key c (k, kd) -> coherent_key c' (k, kd).
Proof.
  unfold key_state. intros [= E1 E2 E3 E4] E5. unfold coherent_key.
  destruct kd; rewrite ?E1, ?E2, ?E3, ?E4, ?E5; done.
Qed.

Lemma features_branch k : (k, Features) ∈ branches -> k = kSupportedFeatureProfiles.
Proof.
  assert (E : forallb (fun b => match b.2 with Features => bool_decide (b.1 = kSupportedFeatureProfiles) | _ => true end)
    branches = true) by (vm_compute; reflexivity).
  rewrite forallb_forall in E. intros Hb. apply list_elem_of_In, E in Hb.
  by apply bool_decide_eq_true in Hb.
Qed.

Lemma write_key_coherent k kd v c :
  (k, kd) ∈ branches -> fits k v -> coherent c -> coherent (write_key k kd v c).
Proof.
  intros Hb Hv [Ht Hc]. destruct (write_key_spec k kd v c Hb Hv Ht) as (W1 & W2 & W3 & W4 & _ & W6).
  split; [done|]. intros [k' kd'] Hb'. destruct (decide (k' = k)) as [->|Hne].
  - by rewrite (branches_functional k kd' kd Hb' Hb).
  - eapply coherent_key_state; [by apply W4| |by apply Hc]. intros ->. apply W6. intros ->.
    apply Hne. by rewrite (features_branch k' Hb'), (features_branch k Hb).
Qed.

(** The value fits the array it is copied to, if any. *)
Definition request_fits (name v : string) : Prop :=
  match branch_for name with Some (k, _) => fits k v | None => True end.

Lemma change_key_coherent name v c :
  request_fits name v -> coherent c -> coherent (change_key name v c).1.
Proof.
  unfold request_fits, change_key. destruct (branch_for name) as [[k kd]|] eqn:E; [|done].
  intros Hv Hc. destruct (ReadOnly c k); [done|]. cbn [fst].
  apply branch_for_elem in E as [Hb _]. by apply write_key_coherent.
Qed.

(** A read-only key keeps its text, and with the feature profiles read-only no
    profile is switched. *)
Lemma change_key_kept name v c k :
  request_fits name v -> (forall k, terminated c k) -> ReadOnly c k = true ->
  value_text (change_key name v c).1 k = value_text c k /\
  (k = kSupportedFeatureProfiles -> features (change_key name v c).1 = features c).
Proof.
  unfold request_fits, change_key. destruct (branch_for name) as [[k0 kd]|] eqn:E; [|done].
  intros Hv Ht Hk. destruct (ReadOnly c k0) eqn:E0; [done|]. cbn [fst].
  apply branch_for_elem in E as [Hb _].
  destruct (write_key_spec k0 kd v c Hb Hv Ht) as (_ & _ & _ & W4 & _ & W6). split.
  - assert (Hne : k <> k0) by congruence. specialize (W4 k Hne). unfold key_state in W4. congruence.
  - intros ->. apply W6. intros ->. rewrite (features_branch k0 Hb) in E0. congruence.
Qed.

Lemma change_key_readonly name v c : ReadOnly (change_key name v c).1 = ReadOnly c.
Proof.
  unfold change_key. destruct (branch_for name) as [[k kd]|]; [|done]. destruct (ReadOnly c k); [done|].
  cbn [fst]. unfold write_key. rewrite seqc_eq.
  destruct kd; try done; unfold set_word; by destruct (_ (u32 _)) as [[? ?]|].
Qed.

(** ** The defaults *)

Definition bool_coherent_key (c : CPGetConfigurationResponse_t) (b : key * kind) : bool :=
  let '(k, kd) := b in
  match kd with
  | Flag => Bool.eqb (flag c k) (starts_with "true" (value_text c k))
  | Word r | PingInterval r =>
      (word c k =? u32 (atoi (value_text c k))) && match r (word c k) with None => true | _ => false end
  | Measurands =>
      forallb (fun m => match measurand_word m with
        | Some w => Bool.eqb (measurands c k m) (strstr (value_text c k) w) | None => true end)
        [mEnergyActiveExportRegister; mEnergyActiveImportRegister; mEnergyReactiveExportRegister;
         mEnergyReactiveImportRegister; mEnergyActiveExportInterval; mEnergyActiveImportInterval;
         mEnergyReactiveExportInterval; mEnergyReactiveImportInterval; mPowerActiveExport;
         mPowerActiveImport; mPowerOffered; mPowerReactiveExport; mPowerReactiveImport; mPowerFactor;
         mCurrentImport; mCurrentExport; mCurrentOffered; mVoltage; mFrequency; mTemperature; mSoC; mRPM]
  | Features =>
      forallb (fun f => match f with SmartChargingProfile => true
          | _ => Bool.eqb (features c f) (strstr (value_text c k) (feature_word f)) end)
        [Core; LocalAuthListManagement; Reservation; RemoteTrigger; FirmwareManagement; SmartChargingProfile]
  | Text => true
  end.

Lemma bool_coherent_key_sound c b : bool_coherent_key c b = true -> coherent_key c b.
Proof.
  destruct b as [k kd]. unfold bool_coherent_key, coherent_key. destruct kd; try done.
  - apply Bool.eqb_prop.
  - rewrite andb_true_iff. intros [H1 H2]. split; [lia|]. by destruct (repair _).
  - rewrite andb_true_iff. intros [H1 H2]. split; [lia|]. by destruct (repair _).
  - rewrite forallb_forall. intros Hm m w E. apply Bool.eqb_prop.
    specialize (Hm m). rewrite E in Hm. apply Hm. destruct m; cbn; tauto.
  - rewrite forallb_forall. intros Hf f Hne. apply Bool.eqb_prop.
    specialize (Hf f). destruct f; try done; apply Hf; cbn; tauto.
Qed.

Lemma default_terminated n k : terminated (default_keys n) k.
Proof.
  assert (Hfit : forall k, fits k (default_text n k)).
  { intros []; cbn [default_text]; unfold connectors_text; repeat destruct (_ =? _);
      split; vm_compute; done. }
  unfold default_keys. generalize (zero_keys <| ReadOnly := default_ReadOnly |>
    <| flag := default_flag |> <| word := default_word n |>
    <| measurands := default_measurands |> <| features := default_features |>).
  assert (Hin : k ∈ keys) by apply elem_of_keys. revert Hin.
  unfold set_values. generalize keys. intros l. induction l as [|k0 l IH] using rev_ind.
  { intros Hin. by apply elem_of_nil in Hin. }
  intros Hin c. rewrite foldl_app. cbn [foldl].
  destruct (decide (k = k0)) as [->|Hne]; [by apply set_value_same|].
  apply set_value_other; [apply Hfit | done|]. apply IH.
  apply elem_of_app in Hin as [Hin|Hin]; [done|]. by apply list_elem_of_singleton in Hin.
Qed.

Lemma default_coherent n : 1 <= n <= 3 -> coherent (default_keys n).
Proof.
  intros Hn. split; [intros k; apply default_terminated|]. intros b Hb. apply bool_coherent_key_sound.
  assert (E : forallb (bool_coherent_key (default_keys n)) branches = true).
  { assert (n = 1 \/ n = 2 \/ n = 3) as [->|[->| ->]] by lia; vm_compute; reflexivity. }
  rewrite forallb_forall in E. apply E. by apply list_elem_of_In.
Qed.

(** ** Reports *)

(** The entries of the three messages of a report. *)
Definition reported (c : CPGetConfigurationResponse_t) : list (string * bool * string) :=
  configurationKeyJsonArray 1 c ++ configurationKeyJsonArray 2 c ++ configurationKeyJsonArray 3 c.
Definition reported_keys (c : CPGetConfigurationResponse_t) : list key :=
  first_report ++ second_report ++ third_report c.

Lemma reported_eq c : reported c = map (key_entry c) (reported_keys c).
Proof.
  unfold reported, configurationKeyJsonArray, reported_keys.
  cbn [Z.eqb Pos.eqb]. by rewrite !map_app.
Qed.

Lemma key_name_inj k k' : key_name k = key_name k' -> k = k'.
Proof.
  assert (E : forallb (fun k => forallb (fun k' =>
    bool_decide (k = k') || negb (String.eqb (key_name k) (key_name k'))) keys) keys = true)
    by (vm_compute; reflexivity).
  rewrite forallb_forall in E. specialize (E k (proj1 (list_elem_of_In _ _) (elem_of_keys k))).
  rewrite forallb_forall in E. specialize (E k' (proj1 (list_elem_of_In _ _) (elem_of_keys k'))).
  intros Hn. apply orb_true_iff in E as [E|E]; [by apply bool_decide_eq_true in E|].
  rewrite Hn, String.eqb_refl in E. done.
Qed.

(** The entry of [k] replaced. *)
Definition with_entry (k : key) (text : string) (e : string * bool * string) : string * bool * string :=
  if String.eqb e.1.1 (key_name k) then (key_name k, false, text) else e.

Lemma reported_change c c' k text :
  features c' = features c -> ReadOnly c' = ReadOnly c -> ReadOnly c k = false ->
  value_text c' k = text -> (forall k', k' <> k -> value_text c' k' = value_text c k') ->
  reported c' = map (with_entry k text) (reported c).
Proof.
  intros Hf Hro Hk Ht Ho. rewrite !reported_eq, map_map.
  replace (reported_keys c') with (reported_keys c)
    by (unfold reported_keys, third_report; by rewrite Hf).
  apply map_ext. intros k'. unfold with_entry, key_entry. cbn [fst].
  destruct (decide (k' = k)) as [->|Hne].
  - by rewrite String.eqb_refl, Hro, Hk, Ht.
  - rewrite Ho, Hro by done. destruct (String.eqb_spec (key_name k') (key_name k)) as [E|E]; [|done].
    by apply key_name_inj in E.
Qed.

(** ** Theorems *)

Section Keys.
Context {N : Type} `{NvsLaws N CPGetConfigurationResponse_t}.
#[local] Existing Instance keys_task_rebuild.

Lemma read_string_ext fuel mem mem' p :
  (forall a, mem' a = mem a) -> read_string fuel mem' p = read_string fuel mem p.
Proof.
  intros Hm. revert p. induction fuel as [|fuel IH]; intros p; [done|]. cbn [read_string].
  by rewrite Hm, IH.
Qed.

Lemma overwrite_same n c :
  value_text c kNumberOfConnectors = connectors_text n ->
  forall k, value_text (overwrite_connectors n c) k = value_text c k.
Proof.
  intros Ht k. destruct (layout_key kNumberOfConnectors) as (_ & L1 & L2 & _).
  assert (exists a, connectors_text n = String a "") as [a Ea]
    by (unfold connectors_text; repeat destruct (_ =? _); by eexists).
  unfold value_text in Ht. set (p := value_offset kNumberOfConnectors) in *.
  assert (Hp : Value c p = a).
  { rewrite Ea in Ht. destruct (Z.to_nat (block_size - p)) as [|m] eqn:Em; [lia|].
    clear Em L1 L2. cbn [read_string] in Ht. destruct (Ascii.eqb (Value c p) NUL); [done|].
    exact (f_equal (fun s => match s with String b _ => b | _ => NUL end) Ht). }
  assert (Hm : forall b, Value (overwrite_connectors n c) b = Value c b).
  { intros b. change (Value (overwrite_connectors n c)) with (memcpy p (connectors_text n) (Value c)).
    rewrite Ea. unfold memcpy, slen. cbn [String.length].
    destruct ((p <=? b) && (b <? p + Z.of_nat 1)) eqn:E; [|done].
    assert (b = p) as -> by lia. rewrite Hp. unfold char_at. by rewrite Z.sub_diag. }
  by apply read_string_ext.
Qed.

(** Claim C34.  What is set is what is reported.  A change of a writable key
    that [ChangeConfiguration] has a branch for, to a value that fits, is
    accepted; the next report of all keys then differs from the one before in
    this key's entry only, which holds the value sent (or the default that
    replaces a number the key cannot take); and, with as many connectors as
    before, a restart reads the same entries back from flash.  (The writable
    [ChargingScheduleAllowedChargingRateUnit] has no branch; and the answer to a
    later boot notification sets [HeartbeatInterval] and its text again.  The
    entries are those printed into the three messages; of a message longer than
    a cell of the queue the end is lost, [Messages.queue_cell].) *)
Theorem configuration_roundtrip name v k kd n (t t0 : keys_task) :
  branch_for name = Some (k, kd) -> kd <> Features -> fits k v ->
  CMSChangeConfigurationRequest_Received t = true ->
  ReadOnly (keys_now t) k = false -> (forall k', terminated (keys_now t) k') ->
  let t' := change_configuration name v t in
  change_answers t' = "Accepted" :: change_answers t /\
  reported (keys_now t') = map (with_entry k (kept_text kd v)) (reported (keys_now t)) /\
  (storage t0 = storage t' -> value_text (keys_now t') kNumberOfConnectors = connectors_text n ->
   reported (keys_now (SetDefaultOcppConfig n t0)) = reported (keys_now t')).
Proof.
  intros Hbr Hkd Hv Hrec Hro Ht. cbv zeta. unfold change_configuration. rewrite Hrec.
  set (t1 := custom_nvs_write_config_ocpp _).
  assert (E : change_key name v (keys_now t) = (write_key k kd v (keys_now t), "Accepted"))
    by (unfold change_key; by rewrite Hbr, Hro).
  assert (En : keys_now t1 = write_key k kd v (keys_now t))
    by (transitivity (change_key name v (keys_now t)).1; [reflexivity | by rewrite E]).
  split; [cbn; by rewrite E|]. split.
  - transitivity (reported (keys_now t1)); [reflexivity|]. rewrite En.
    apply branch_for_elem in Hbr as [Hb _].
    destruct (write_key_spec k kd v (keys_now t) Hb Hv Ht) as (_ & W2 & _ & W4 & W5 & W6).
    apply reported_change; [by apply W6 | done | done | done|].
    intros k' Hne. specialize (W4 k' Hne). unfold key_state in W4. congruence.
  - intros Hs Hn. unfold SetDefaultOcppConfig. rewrite Hs.
    replace (nvs_get_blob (storage _) "configDataOcpp") with (Some (keys_now t1))
      by (symmetry; apply get_set_blob).
    set (c := keys_now t1). change (keys_now _) with c in Hn.
    transitivity (reported (overwrite_connectors n c)); [reflexivity|].
    rewrite !reported_eq. apply map_ext. intros k'. unfold key_entry.
    by rewrite (overwrite_same n c Hn).
Qed.
End Keys.

(** The key whose branch a request for [k] reaches. *)
Definition shadow (k : key) : key :=
  match k with
  | kMeterValuesAlignedDataMaxLength => kMeterValuesAlignedData
  | kMeterValuesSampledDataMaxLength => kMeterValuesSampledData
  | kConnectorPhaseRotationMaxLength => kConnectorPhaseRotation
  | kStopTxnAlignedDataMaxLength => kStopTxnAlignedData
  | kStopTxnSampledDataMaxLength => kStopTxnSampledData
  | kSupportedFeatureProfilesMaxLength => kSupportedFeatureProfiles
  | k => k
  end.
(** The read-only length of a list of measurands. *)
Definition list_length_key (k : key) : bool :=
  match k with
  | kMeterValuesAlignedDataMaxLength | kMeterValuesSampledDataMaxLength
  | kStopTxnAlignedDataMaxLength | kStopTxnSampledDataMaxLength => true
  | _ => false
  end.

Lemma prefix_length w s : String.prefix w s = true -> (String.length w <= String.length s)%nat.
Proof.
  revert s. induction w as [|a w IH]; intros [|b s]; cbn; try done; [lia..|].
  destruct (ascii_dec a b); [|done]. intros ?%IH. lia.
Qed.
Lemma index_length w s i : String.index 0 w s = Some i -> (String.length w <= String.length s)%nat.
Proof.
  revert i. induction s as [|a s IH]; intros i.
  - destruct w; [cbn; lia | done].
  - change (String.index 0 w (String a s)) with
      (if String.prefix w (String a s) then Some 0%nat
       else match String.index 0 w s with Some n => Some (S n) | None => None end).
    destruct (String.prefix w (String a s)) eqn:E; [intros _; by apply prefix_length in E|].
    destruct (String.index 0 w s) as [j|]; [|done]. intros _. specialize (IH j eq_refl). cbn. lia.
Qed.
Lemma strstr_short s w : (String.length s < String.length w)%nat -> strstr s w = false.
Proof. intros Hl. unfold strstr. destruct (String.index 0 w s) as [i|] eqn:E; [|done]. apply index_length in E. lia. Qed.

(** The chain tells every key from every other, except that a
    request for one of the six [...MaxLength] keys whose name extends another
    key's is taken as a request for that one.  So a number sent to the
    read-only length of a list of measurands is accepted, and switches every
    measurand of the list off. *)
Theorem shadowed_keys k v c :
  change_key (key_name k) v c = change_key (key_name (shadow k)) v c /\
  (k <> kChargingScheduleAllowedChargingRateUnit ->
   exists kd, branch_for (key_name k) = Some (shadow k, kd)) /\
  (list_length_key k = true -> ReadOnly c k = true -> ReadOnly c (shadow k) = false -> slen v <= 2 ->
   (change_key (key_name k) v c).2 = "Accepted" /\
   forall m, m <> mFrequency -> measurands (change_key (key_name k) v c).1 (shadow k) m = false).
Proof.
  split; [by destruct k|]. split; [destruct k; try done; intros _; by eexists|].
  intros Hk _ Hro Hv.
  assert (E : branch_for (key_name k) = Some (shadow k, Measurands)) by (by destruct k).
  unfold change_key. rewrite E, Hro. split; [done|]. cbn [fst]. intros m Hm.
  unfold write_key. rewrite seqc_eq.
  change (updk (shadow k) (parse_measurands v (measurands c (shadow k))) (measurands c) (shadow k) m = false).
  rewrite updk_same. unfold parse_measurands, slen in *.
  destruct m; cbn [measurand_word]; try done; apply strstr_short; cbn; lia.
Qed.

Ltac in_branches := apply list_elem_of_In; repeat (first [left; reflexivity | right]).

(** What no change of the defaults alters: the keys that are read-only, and
    the feature profiles, which are. *)
Definition default_profiles (c : CPGetConfigurationResponse_t) : Prop :=
  ReadOnly c = default_ReadOnly /\ features c = default_features /\
  value_text c kSupportedFeatureProfiles = default_text 1 kSupportedFeatureProfiles.

Lemma default_profiles_start n : 1 <= n <= 3 -> default_profiles (default_keys n).
Proof.
  intros Hn. assert (n = 1 \/ n = 2 \/ n = 3) as [->|[->| ->]] by lia;
    (split; [reflexivity | split; [reflexivity | vm_compute; reflexivity]]).
Qed.

Lemma changes_coherent (requests : list (string * string)) c :
  Forall (fun r => request_fits r.1 r.2) requests -> coherent c -> default_profiles c ->
  let c' := foldl (fun c r => (change_key r.1 r.2 c).1) c requests in
  coherent c' /\ default_profiles c'.
Proof.
  intros Hr. cbv zeta. revert c. induction Hr as [|r l Hf Hr IH]; intros c Hc (H1 & H2 & H3); [done|].
  cbn [foldl]. apply IH; [by apply change_key_coherent|].
  destruct (change_key_kept r.1 r.2 c kSupportedFeatureProfiles Hf (proj1 Hc)) as [K1 K2]; [by rewrite H1|].
  split; [by rewrite change_key_readonly|]. split; [by rewrite K2 | by rewrite K1].
Qed.

(** Claim C35.  However many keys the central system changes from the defaults,
    as long as each value fits: the flag, number or list of measurands decoded
    for a key is the one its text stands for, and no interval or count is one
    the firmware cannot use; in particular the session's keys are unsigned, as
    its invariant requires.  So are the flags of the feature profiles, with one
    exception that no change removes: the text lists SmartCharging and its flag
    is off.  (The answer to a boot notification, which sets the heartbeat's
    interval and text, is not among the changes.) *)
Theorem configuration_coherent n (requests : list (string * string)) :
  1 <= n <= 3 -> Forall (fun r => request_fits r.1 r.2) requests ->
  let c := foldl (fun c r => (change_key r.1 r.2 c).1) (default_keys n) requests in
  coherent c /\
  (strstr (value_text c kSupportedFeatureProfiles) "SmartCharging" = true /\
   features c SmartChargingProfile = false) /\
  ReadOnly c = default_ReadOnly /\ unsigned_keys (ocpp_config c) /\
  ConnectionTimeOut (ocpp_config c) <> 0 /\ MeterValueSampleInterval (ocpp_config c) <> 0 /\
  TransactionMessageAttempts (ocpp_config c) <> 0 /\
  TransactionMessageRetryInterval (ocpp_config c) <> 0 /\
  (ClockAlignedDataInterval (ocpp_config c) = 0 \/ 30 <= ClockAlignedDataInterval (ocpp_config c)) /\
  10 <= word c kWebSocketPingInterval <= 180.
Proof.
  intros Hn Hr. cbv zeta. set (c := foldl _ _ _).
  destruct (changes_coherent requests (default_keys n) Hr (default_coherent n Hn)
    (default_profiles_start n Hn)) as [[It Ic] (Iro & If & Iv)]. fold c in It, Ic, Iro, If, Iv.
  clearbody c. split; [done|]. split; [by rewrite Iv, If|]. split; [done|].
  assert (W : forall k r, (k, Word r) ∈ branches -> 0 <= word c k < 4294967296 /\ r (word c k) = None).
  { intros k r Hb. destruct (Ic _ Hb) as [E1 E2]. split; [rewrite E1; apply u32_range | done]. }
  assert (Z0 : forall k d s, (k, Word (no_zero d s)) ∈ branches -> 0 <= word c k /\ word c k <> 0).
  { intros k d s Hb. destruct (W _ _ Hb) as [W1 W2]. unfold no_zero in W2.
    destruct (word c k =? 0) eqn:Ez; [done | lia]. }
  destruct (Z0 kTransactionMessageRetryInterval 60 "60") as [A1 A2]; [in_branches|].
  destruct (Z0 kTransactionMessageAttempts 1 "1") as [B1 B2]; [in_branches|].
  destruct (Z0 kConnectionTimeOut 120 "120") as [C1 C2]; [in_branches|].
  destruct (Z0 kMeterValueSampleInterval 30 "30") as [D1 D2]; [in_branches|].
  destruct (W kClockAlignedDataInterval aligned_interval) as [E1 E2]; [in_branches|].
  assert (P : (kWebSocketPingInterval, PingInterval (between 10 180 30 "30")) ∈ branches) by in_branches.
  apply Ic in P as [_ P]. unfold between, aligned_interval in *.
  split_and!; try done.
  - change (word c kClockAlignedDataInterval = 0 \/ 30 <= word c kClockAlignedDataInterval).
    destruct (_ && _) eqn:Ez in E2; [done | lia].
  - destruct (_ || _) eqn:Ez in P; [done | lia].
  - destruct (_ || _) eqn:Ez in P; [done | lia].
Qed.

(** Where a value too long for its array ends up: the key reports
    the whole value and whatever follows it, and every key whose array begins
    within the copy reports the rest of the value from there, be it read-only
    or not. *)
Theorem value_overflow_leaks name v k kd c :
  branch_for name = Some (k, kd) -> ReadOnly c k = false -> no_nul v = true ->
  (forall r, kind_repair kd = Some r -> r (u32 (atoi v)) = None) ->
  value_offset k + slen v <= block_size ->
  let c' := (change_key name v c).1 in
  (exists rest, value_text c' k = v +:+ rest) /\
  forall k', value_offset k < value_offset k' <= value_offset k + slen v ->
    exists rest, value_text c' k' = sdrop (Z.to_nat (value_offset k' - value_offset k)) v +:+ rest.
Proof.
  intros Hbr Hro Hv Hr Hb. cbv zeta. unfold change_key. rewrite Hbr, Hro. cbn [fst].
  set (c' := write_key k kd v c).
  assert (M : Value c' = memcpy (value_offset k) v (memset0 (value_offset k) (value_size k) (Value c))).
  { unfold c', write_key. rewrite seqc_eq. destruct kd as [|r|r| | |]; try done;
      unfold set_word; by rewrite (Hr r eq_refl). }
  assert (R : forall k', value_offset k <= value_offset k' <= value_offset k + slen v ->
    exists rest, value_text c' k' = sdrop (Z.to_nat (value_offset k' - value_offset k)) v +:+ rest).
  { intros k' Hk. unfold value_text. rewrite M. set (d := Z.to_nat (value_offset k' - value_offset k)).
    set (fuel := Z.to_nat (block_size - value_offset k')).
    assert (value_offset k' = value_offset k + Z.of_nat d) as -> by (subst d; lia).
    rewrite read_memcpy by (done || subst d fuel; unfold slen in *; lia). by eexists. }
  split; [|intros k' Hk; apply R; lia].
  destruct (R k) as [rest E]; [unfold slen; lia|]. rewrite Z.sub_diag in E. exists rest.
  rewrite E. by destruct v.
Qed.

(** ** Concrete requests *)

Definition example_task (n : Z) : @keys_task (Flash CPGetConfigurationResponse_t) :=
  mkKeysTask (default_keys n) ∅ true [] [].

Lemma configuration_roundtrip_witness :
  let t' := change_configuration "HeartbeatInterval" "45" (example_task 2) in
  change_answers t' = ["Accepted"] /\
  In ("HeartbeatInterval", false, "45") (reported (keys_now (SetDefaultOcppConfig 2 t'))).
Proof.
  destruct (configuration_roundtrip "HeartbeatInterval" "45" kHeartbeatInterval
    (Word (no_zero 60 "60")) 2 (example_task 2)
    (change_configuration "HeartbeatInterval" "45" (example_task 2)) eq_refl ltac:(done)
    (conj eq_refl eq_refl) eq_refl eq_refl (default_terminated 2)) as (H1 & H2 & H3).
  split; [exact H1|]. rewrite H3 by (reflexivity || vm_compute; reflexivity).
  rewrite H2. vm_compute. tauto.
Defined.

Lemma shadowed_keys_witness :
  measurands (change_key "MeterValuesSampledDataMaxLength" "3" (default_keys 1)).1
    kMeterValuesSampledData mPowerActiveImport = false.
Proof.
  refine (proj2 (proj2 (proj2 (shadowed_keys kMeterValuesSampledDataMaxLength "3" (default_keys 1)))
    _ _ _ _) mPowerActiveImport _); done.
Defined.

Lemma configuration_coherent_witness :
  let c := foldl (fun c r => (change_key r.1 r.2 c).1) (default_keys 1)
    [("ConnectionTimeOut", "0"); ("BlinkRepeat", "250")] in
  coherent c /\ features c SmartChargingProfile = false /\ ConnectionTimeOut (ocpp_config c) <> 0.
Proof.
  destruct (configuration_coherent 1 [("ConnectionTimeOut", "0"); ("BlinkRepeat", "250")])
    as (H1 & [_ H2] & _ & _ & H3 & _); [lia|repeat constructor; vm_compute; done|split_and!; assumption].
Defined.

(** A status duration of twelve digits spills into the read-only key after it. *)
Lemma value_overflow_leaks_witness :
  let c' := (change_key "MinimumStatusDuration" "000000000900xy" (default_keys 1)).1 in
  exists rest, value_text c' kConnectorPhaseRotationMaxLength = "00xy" +:+ rest.
Proof.
  refine (proj2 (value_overflow_leaks "MinimumStatusDuration" "000000000900xy" kMinimumStatusDuration
    (Word (no_zero 2 "2")) (default_keys 1) eq_refl eq_refl eq_refl _ _)
    kConnectorPhaseRotationMaxLength _).
  - intros r [= <-]. reflexivity.
  - by vm_compute.
  - by vm_compute.
Defined.
