(* ===== verification/Status.v ===== *)
(** * Status notifications and fault shutdown ([main/ocpp_task.c], [Connector0Task])

    Once a second the charge point task looks at every connector: it compares
    the fault inputs, the pilot state and the connection with what it saw the
    second before, and on a change tells the central system, sets the LED
    state and the display, and takes the power away.  [status_turn] is one
    pass of that loop body for one connector; [end_of_iteration] is what
    follows the loop.

    [readMeterFaults] is the energy meter's ([EnergyMeter.v]): a turn takes
    its result.  The inputs the other tasks sample ([emergencyButton], ...,
    [cpState]) are read as of the start of the turn, and the expiry of a
    reservation ([sscanf] and [mktime] of the two dates) is left out. *)

From S2P Require Import Prelude Config EnergyMeter ControlPilot Session.

(** ** LED states ([ledStates_t]) *)

Definition AVAILABLE_LED_STATE := 4.
Definition OFFLINE_AVAILABLE_LED_STATE := 5.
Definition PREPARING_LED_STATE := 6.
Definition OFFLINE_PREPARING_LED_STATE := 7.
Definition SUSPENDED_LED_STATE := 8.
Definition OFFLINE_SUSPENDED_LED_STATE := 9.
Definition CHARGING_LED_STATE := 10.
Definition OFFLINE_CHARGING_LED_STATE := 11.
Definition EMERGENCY_FAULT_LED_STATE := 14.
Definition OFFLINE_EMERGENCY_FAULT_LED_STATE := 15.
Definition FAULT_LED_STATE := 16.
Definition OFFLINE_FAULT_LED_STATE := 17.
Definition RESERVATION_LED_STATE := 18.
Definition OFFLINE_RESERVATION_LED_STATE := 19.
Definition UNAVAILABLE_LED_STATE := 20.
Definition OFFLINE_UNAVAILABLE_LED_STATE := 21.
Definition ONLINE_ONLY_AVAILABLE_LED_STATE := 23.
Definition ONLINE_ONLY_OFFLINE_AVAILABLE_LED_STATE := 24.
Definition ONLINE_ONLY_PREPARING_LED_STATE := 25.
Definition ONLINE_ONLY_OFFLINE_PREPARING_LED_STATE := 26.
Definition ONLINE_ONLY_SUSPENDED_LED_STATE := 27.
Definition ONLINE_ONLY_OFFLINE_SUSPENDED_LED_STATE := 28.
Definition ONLINE_ONLY_CHARGING_LED_STATE := 29.
Definition ONLINE_ONLY_OFFLINE_CHARGING_LED_STATE := 30.
Definition ONLINE_ONLY_EMERGENCY_LED_STATE := 33.
Definition ONLINE_ONLY_OFFLINE_EMERGENCY_LED_STATE := 34.
Definition ONLINE_ONLY_FAULT_LED_STATE := 35.
Definition ONLINE_ONLY_OFFLINE_FAULT_LED_STATE := 36.
Definition ONLINE_ONLY_RESERVATION_LED_STATE := 37.
Definition ONLINE_ONLY_OFFLINE_RESERVATION_LED_STATE := 38.
Definition ONLINE_ONLY_UNAVAILABLE_LED_STATE := 39.
Definition ONLINE_ONLY_OFFLINE_UNAVAILABLE_LED_STATE := 40.
Definition OFFLINE_ONLY_AVAILABLE_LED_STATE := 41.
Definition OFFLINE_ONLY_PREPARING_LED_STATE := 42.
Definition OFFLINE_ONLY_SUSPENDED_LED_STATE := 43.
Definition OFFLINE_ONLY_CHARGING_LED_STATE := 44.
Definition OFFLINE_ONLY_EMERGENCY_LED_STATE := 46.
Definition OFFLINE_ONLY_FAULT_LED_STATE := 47.

(** The LED states of one status: with the central system present, for a
    charger that also works offline and for one that does not; and without
    it, for each of the three modes. *)
Record leds := mkLeds {
  led_online : Z;
  led_online_only : Z;
  led_offline : Z;
  led_offline_only : Z;
  led_online_only_offline : Z
}.

Definition fault_leds : leds := mkLeds FAULT_LED_STATE ONLINE_ONLY_FAULT_LED_STATE
  OFFLINE_FAULT_LED_STATE OFFLINE_ONLY_FAULT_LED_STATE ONLINE_ONLY_OFFLINE_FAULT_LED_STATE.
Definition emergency_leds : leds :=
  mkLeds EMERGENCY_FAULT_LED_STATE ONLINE_ONLY_EMERGENCY_LED_STATE
    OFFLINE_EMERGENCY_FAULT_LED_STATE OFFLINE_ONLY_EMERGENCY_LED_STATE
    ONLINE_ONLY_OFFLINE_EMERGENCY_LED_STATE.
Definition unavailable_leds : leds :=
  mkLeds UNAVAILABLE_LED_STATE ONLINE_ONLY_UNAVAILABLE_LED_STATE
    OFFLINE_UNAVAILABLE_LED_STATE OFFLINE_UNAVAILABLE_LED_STATE
    ONLINE_ONLY_OFFLINE_UNAVAILABLE_LED_STATE.
Definition reservation_leds : leds :=
  mkLeds RESERVATION_LED_STATE ONLINE_ONLY_RESERVATION_LED_STATE
    OFFLINE_RESERVATION_LED_STATE ONLINE_ONLY_OFFLINE_RESERVATION_LED_STATE
    ONLINE_ONLY_OFFLINE_RESERVATION_LED_STATE.
Definition available_leds : leds :=
  mkLeds AVAILABLE_LED_STATE ONLINE_ONLY_AVAILABLE_LED_STATE OFFLINE_AVAILABLE_LED_STATE
    OFFLINE_ONLY_AVAILABLE_LED_STATE ONLINE_ONLY_OFFLINE_AVAILABLE_LED_STATE.
Definition finishing_leds : leds :=
  mkLeds FINISHING_LED_STATE ONLINE_ONLY_FINISHING_LED_STATE OFFLINE_FINISHING_LED_STATE
    OFFLINE_ONLY_FINISHING_LED_STATE ONLINE_ONLY_OFFLINE_FINISHING_LED_STATE.
Definition preparing_leds : leds :=
  mkLeds PREPARING_LED_STATE ONLINE_ONLY_PREPARING_LED_STATE OFFLINE_PREPARING_LED_STATE
    OFFLINE_ONLY_PREPARING_LED_STATE ONLINE_ONLY_OFFLINE_PREPARING_LED_STATE.
Definition suspended_leds : leds :=
  mkLeds SUSPENDED_LED_STATE ONLINE_ONLY_SUSPENDED_LED_STATE OFFLINE_SUSPENDED_LED_STATE
    OFFLINE_ONLY_SUSPENDED_LED_STATE ONLINE_ONLY_OFFLINE_SUSPENDED_LED_STATE.
Definition charging_leds : leds :=
  mkLeds CHARGING_LED_STATE ONLINE_ONLY_CHARGING_LED_STATE OFFLINE_CHARGING_LED_STATE
    OFFLINE_ONLY_CHARGING_LED_STATE ONLINE_ONLY_OFFLINE_CHARGING_LED_STATE.

Definition led_of (l : leds) (online : bool) (c : Config_t) : Z :=
  if online then if onlineOffline c then led_online l else led_online_only l
  else if onlineOffline c then led_offline l
  else if offline c then led_offline_only l
  else led_online_only_offline l.

(** ** Faults, in the order the code considers them *)

Inductive fault :=
  | MeterPowerLoss_ | emergency_ | gfci_ | earthDisconnect_
  | MeterOverVoltage_ | MeterUnderVoltage_ | MeterOverCurrent_ | MeterHighTemp_
  | MeterFailure_ | relayWeldDetection_.

#[export] Instance fault_eq_dec : EqDecision fault.
Proof. solve_decision. Defined.

Definition all_faults : list fault :=
  [MeterPowerLoss_; emergency_; gfci_; earthDisconnect_; MeterOverVoltage_;
   MeterUnderVoltage_; MeterOverCurrent_; MeterHighTemp_; MeterFailure_; relayWeldDetection_].

Definition rank (f : fault) : Z :=
  match f with
  | MeterPowerLoss_ => 0 | emergency_ => 1 | gfci_ => 2 | earthDisconnect_ => 3
  | MeterOverVoltage_ => 4 | MeterUnderVoltage_ => 5 | MeterOverCurrent_ => 6
  | MeterHighTemp_ => 7 | MeterFailure_ => 8 | relayWeldDetection_ => 9
  end.

(** The first fault of an [if]/[else if] chain over all of them. *)
Definition first_fault (p : fault -> bool) : option fault := List.find p all_faults.

Definition active (s : session) (f : fault) : bool :=
  match f with
  | MeterPowerLoss_ => MeterPowerLoss (MeterFaults (me s))
  | emergency_ => emergencyButton (glob s)
  | gfci_ => gfciButton (glob s)
  | earthDisconnect_ => earthDisconnectButton (glob s)
  | MeterOverVoltage_ => MeterOverVoltage (MeterFaults (me s))
  | MeterUnderVoltage_ => MeterUnderVoltage (MeterFaults (me s))
  | MeterOverCurrent_ => MeterOverCurrent (MeterFaults (me s))
  | MeterHighTemp_ => MeterHighTemp (MeterFaults (me s))
  | MeterFailure_ => MeterFailure (MeterFaults (me s))
  | relayWeldDetection_ => relayWeldDetectionButton (glob s)
  end.

(** The OCPP error code of a fault and, for [OtherError], the vendor's. *)
Definition error_code (f : fault) : string :=
  match f with
  | MeterPowerLoss_ | emergency_ | earthDisconnect_ | relayWeldDetection_ => "OtherError"
  | gfci_ => "GroundFailure"
  | MeterOverVoltage_ => "OverVoltage"
  | MeterUnderVoltage_ => "UnderVoltage"
  | MeterOverCurrent_ => "OverCurrentFailure"
  | MeterHighTemp_ => "HighTemperature"
  | MeterFailure_ => "PowerMeterFailure"
  end.

(** [vendorErrorCode] after the branch of [f]: cleared and written by the
    first three, written over what it holds by the relay weld. *)
Definition vendor_code (f : fault) (old : string) : string :=
  match f with
  | MeterPowerLoss_ => "PowerLoss"
  | emergency_ => "Emergency"
  | earthDisconnect_ => "EarthDisconnect"
  | relayWeldDetection_ => memcpy_str "WeldDetect" old
  | _ => old
  end.

Definition leds_of_fault (f : fault) : leds :=
  match f with emergency_ => emergency_leds | _ => fault_leds end.

(** ** State *)

(** [StatusState] *)
Definition STATUS_STARTUP := 0.
Definition STATUS_AVAILABLE := 1.
Definition STATUS_CHARGING := 2.

(** A connector's cells that only this loop and the reports of [Boot.v] use;
    [fault_old f] is [emergencyButton_old[connId]],
    [MeterFaults_old[connId].MeterPowerLoss], ... *)
Record watch := mkWatch {
  connectorEnabled : bool;
  fault_old : fault -> bool;
  cpState_old : Z;
  connectorFault_old : bool;
  reservedStatusSent : bool;
  StatusState : Z;
  isFaultRecovered : bool;
  connectorsOfflineDataSent : bool;
  updateStatusAfterBoot : bool
}.
#[export] Instance watch_rebuild : Rebuild watch := fun w =>
  mkWatch (connectorEnabled w) (fault_old w) (cpState_old w) (connectorFault_old w)
    (reservedStatusSent w) (StatusState w) (isFaultRecovered w)
    (connectorsOfflineDataSent w) (updateStatusAfterBoot w).

Record monitor := mkMonitor {
  line : session;   (* the globals and the connector's cells *)
  seen : watch;
  isWebsocketConnected_Now : bool;
  isWebsocketConnected_old : bool;
  bootedNow : bool
}.
#[export] Instance monitor_rebuild : Rebuild monitor := fun m =>
  mkMonitor (line m) (seen m) (isWebsocketConnected_Now m) (isWebsocketConnected_old m)
    (bootedNow m).

Definition call (c : cmd session) : cmd monitor := fun m => m <| line := c (line m) |>.
Definition setw (f : watch -> watch) : cmd monitor := fun m => m <| seen := f (seen m) |>.

Definition is_online (m : monitor) : bool :=
  isWebsocketConnected_Now m && isWebsocketBooted (glob (line m)).
Definition connection_changed (m : monitor) : bool :=
  negb (eqb (isWebsocketConnected_Now m) (isWebsocketConnected_old m)).
Definition pilot_is (x : Z) (m : monitor) : bool := cpState (me (line m)) =? x.
Definition pilot_changed (m : monitor) : bool :=
  negb (cpState (me (line m)) =? cpState_old (seen m)).
Definition pilot_was (x : Z) (m : monitor) : bool := cpState_old (seen m) =? x.
Definition task_is (t : EvseDevStatuse) (m : monitor) : bool :=
  bool_decide (taskState (me (line m)) = t).
Definition cdata (m : monitor) : ConnectorPrivateData_t := ConnectorData (me (line m)).

(** ** Pieces the branches share *)

(** Pilot at 100 % (not ready) or relay off, then the charger's own pilot. *)
Definition cut_power (connId : cid) : cmd session :=
  IF fun s => cpEnable (me s) THEN
    emit (fun _ => EvSlaveSetControlPilotDuty connId 100)
  ELSE emit (fun _ => EvSlaveUpdateRelay connId false) FI ;;
  emit (fun _ => EvSetControlPilotDuty 100).

Definition display (connId : cid) (b : display_bit) : cmd session :=
  emit (fun _ => EvDisplay connId b).

(** Fill in the notification, stamp it and send it. *)
Definition notify (errorCode status : string) (vendor : string -> string) : cmd session :=
  withs (fun s => setm (fun m => m <| CPStatusNotificationRequest :=
    (CPStatusNotificationRequest m)
      <| sn_errorCode := errorCode |> <| sn_status := status |>
      <| sn_vendorErrorCode := vendor (sn_vendorErrorCode (CPStatusNotificationRequest m)) |>
      <| sn_timestamp := memcpy_str (clock (glob s))
           (sn_timestamp (CPStatusNotificationRequest m)) |> |>)) ;;
  sendStatusNotificationRequest.

Definition show (l : leds) (online : bool) : cmd session :=
  withs (fun s => setm (fun m => m <| ledState := led_of l online (config (glob s)) |>)).

Definition report (errorCode status : string) (vendor : string -> string) (l : leds)
    : cmd monitor :=
  WHEN is_online THEN call (notify errorCode status vendor) FI ;;
  withs (fun m => call (show l (is_online m))).

Definition report_ok (status : string) (l : leds) : cmd monitor :=
  report "NoError" status (fun v => v) l.

(** ** One turn *)

(** Forget what was seen, so that everything is reported again. *)
Definition forget (all : bool) (w : watch) : watch :=
  w <| fault_old := fun f => match f with
                             | relayWeldDetection_ => if all then false else fault_old w f
                             | _ => false
                             end |>
    <| reservedStatusSent := false |> <| cpState_old := STARTUP |>.

(** After the offline data was sent, after a boot by timeout, and in the
    iteration of the boot (which leaves [relayWeldDetectionButton_old]). *)
Definition forget_on_request : cmd monitor :=
  WHEN fun m => connectorsOfflineDataSent (seen m) THEN
    setw (fun w => forget true w <| connectorsOfflineDataSent := false |>) FI ;;
  WHEN fun m => updateStatusAfterBoot (seen m) THEN
    setw (fun w => forget true w <| updateStatusAfterBoot := false |>) FI ;;
  WHEN fun m => bootedNow m THEN
    setw (fun w => forget false w <| updateStatusAfterBoot := false |>
                                  <| StatusState := STATUS_STARTUP |>) FI.

Definition sample (connId : cid) (mf : MeterFaults_t) : cmd session :=
  setm (fun m => m
    <| CPStatusNotificationRequest :=
         (CPStatusNotificationRequest m) <| sn_connectorId := cid_to_Z connId |> |>
    <| MeterFaults := mf |>).

(** The faults that fault the connector: all but [MeterFailure]. *)
Definition faulting (s : session) : bool :=
  active s emergency_ || active s relayWeldDetection_ || active s earthDisconnect_
  || active s gfci_ || active s MeterPowerLoss_ || active s MeterHighTemp_
  || active s MeterOverVoltage_ || active s MeterUnderVoltage_ || active s MeterOverCurrent_.

(** A fault that went away makes those after it new again. *)
Definition retract (s : session) (w : watch) : watch :=
  match first_fault (fun f => negb (active s f) && fault_old w f) with
  | Some f => w <| fault_old := fun g => if rank f <=? rank g then false else fault_old w g |>
  | None => w
  end.

(** An active fault hides those after it. *)
Definition absorb (s : session) (w : watch) : watch :=
  match first_fault (active s) with
  | Some f => w <| fault_old := fun g => if rank f <? rank g then active s g else fault_old w g |>
  | None => w
  end.

Definition classify : cmd monitor :=
  IF fun m => faulting (line m) THEN
    call (setm (fun c => c <| connectorFault := true |>)) ;;
    withs (fun m => setw (fun w => absorb (line m) (retract (line m) w)))
  ELSE call (setm (fun c => c <| connectorFault := false |>)) FI.

(** The fault went away: start the connector's status over. *)
Definition recover (connId : cid) : cmd monitor :=
  WHEN fun m => connectorFault_old (seen m) && negb (connectorFault (me (line m))) THEN
    WHEN fun m => fault_old (seen m) MeterPowerLoss_ && cid_eqb connId Conn1 THEN
      call (emit (fun _ => EvLCD_DisplayReinit)) FI ;;
    WHEN task_is flag_EVSE_Request_Charge THEN
      setw (fun w => w <| isFaultRecovered := true |>) FI ;;
    call (cut_power connId) ;;
    setw (fun w => w <| cpState_old := STARTUP |> <| StatusState := STATUS_STARTUP |>) ;;
    call (setm (fun c => c <| finishingStatusSent := false |>)) ;;
    IF fun m => negb (CmsAvailable (cdata m)) THEN
      call (setd (fun d => d <| CmsAvailableChanged := true |>))
    ELSE WHEN fun m => isReserved (cdata m) THEN
      setw (fun w => w <| reservedStatusSent := false |>) FI FI
  FI.

(** The fault to report: active, and new or seen over another connection. *)
Definition reportable (m : monitor) (f : fault) : bool :=
  active (line m) f && (negb (eqb (active (line m) f) (fault_old (seen m) f)) || connection_changed m).

Definition report_fault (connId : cid) (f : fault) : cmd monitor :=
  report (error_code f) "Faulted" (vendor_code f) (leds_of_fault f) ;;
  call (cut_power connId ;; display connId ChargerFaultBit).

Definition report_unavailable (connId : cid) : cmd monitor :=
  call (setd (fun d => d <| CmsAvailableChanged := false |>)) ;;
  report_ok "Unavailable" unavailable_leds ;;
  call (display connId ChargerUnAvailableBit ;; cut_power connId).

Definition report_reserved (connId : cid) : cmd monitor :=
  setw (fun w => w <| reservedStatusSent := true |>) ;;
  report_ok "Reserved" reservation_leds ;;
  call (display connId ChargerReservedBit ;; cut_power connId).

Definition report_available (connId : cid) : cmd monitor :=
  setw (fun w => w <| StatusState := STATUS_AVAILABLE |>) ;;
  call (setm (fun c => c <| connectorChargingStatusSent := false |>
                         <| finishingStatusSent := false |> <| finishingStatusPending := false |>) ;;
        setd (fun d => d <| CmsAvailableChanged := false |>)) ;;
  report_ok "Available" available_leds ;;
  IF fun m => negb (is_online m) && online (config (glob (line m))) THEN
    call (display connId ChargerUnAvailableBit)
  ELSE call (display connId ChargerAvailableBit) FI ;;
  call (cut_power connId).

(** Offline plug-and-play: the vehicle is its own authorisation. *)
Definition plug_and_play (connId : cid) : cmd session :=
  setd (fun d => d <| UnkownId := false |>) ;;
  setg (fun g => g <| ConnectorData0 := (ConnectorData0 g) <| idTag := "PLUGNPLAY" |> |>) ;;
  setd (fun d => d <| idTag := "PLUGNPLAY" |>) ;;
  custom_nvs_write_connector_data connId ;;
  setg (fun g => g <| rfidMatchingWithLocalList := true |>) ;;
  setm (fun c => c <| CPAuthorizeRequest_Sent := false |>) ;;
  setg (fun g => g <| AuthenticationProcessed := false |>) ;;
  goto falg_EVSE_Authentication.

Definition offline_only (m : monitor) : bool :=
  negb (is_online m) && negb (onlineOffline (config (glob (line m))))
  && offline (config (glob (line m))).

(** Plugged in (B1, and E2 without plug-and-play): finishing after a session,
    preparing before one. *)
Definition report_plugged (connId : cid) (b1 : bool) : cmd monitor :=
  call (setm (fun c => c <| connectorChargingStatusSent := false |>) ;;
        setd (fun d => d <| CmsAvailableChanged := false |>)) ;;
  setw (fun w => w <| reservedStatusSent := false |>) ;;
  IF fun m => finishingStatusPending (me (line m)) || finishingStatusSent (me (line m)) THEN
    call (setm (fun c => c <| finishingStatusPending := false |>)) ;;
    report_ok "Finishing" finishing_leds ;;
    call (display connId ChargerFinishingdBit)
  ELSE
    report_ok "Preparing" preparing_leds ;;
    WHEN fun m => b1 && offline_only m && plugnplay (config (glob (line m)))
                  && task_is flag_EVSE_Read_Id_Tag m THEN
      call (plug_and_play connId) FI ;;
    WHEN fun m => negb (isRfidTappedFirst (glob (line m)))
                  && task_is flag_EVSE_Read_Id_Tag m THEN
      call (display connId ChargerEvPluggedTapRfidBit) FI
  FI.

Definition report_suspended (connId : cid) : cmd monitor :=
  report_ok "SuspendedEV" suspended_leds ;;
  WHEN fun m => task_is flag_EVSE_Request_Charge m && isTransactionOngoing (cdata m) THEN
    call (display connId ChargerSuspendedBit) FI.

(** State C also takes note of the status; state D does not. *)
Definition report_charging (in_c : bool) : cmd monitor :=
  WHEN fun _ => in_c THEN
    setw (fun w => w <| StatusState := STATUS_CHARGING |> <| isFaultRecovered := false |>) FI ;;
  report_ok "Charging" charging_leds ;;
  call (setm (fun c => c <| connectorChargingStatusSent := true |>)).

Definition report_ev_error (connId : cid) : cmd monitor :=
  call (setd (fun d => d <| CmsAvailableChanged := false |>)) ;;
  WHEN is_online THEN
    call (notify "EVCommunicationError" "Faulted" (fun _ => "")) FI ;;
  call (cut_power connId).

(** ** The branches' conditions *)

Definition pilot (m : monitor) : bool := cpEnable (me (line m)).
Definition unfaulted (m : monitor) : bool := negb (connectorFault (me (line m))).
Definition open_for_use (m : monitor) : bool :=
  negb (isReserved (cdata m)) && CmsAvailable (cdata m).
Definition between_sessions (m : monitor) : bool :=
  negb (task_is flag_EVSE_Request_Charge m) && negb (task_is flag_EVSE_Stop_Transaction m).
Definition finishing_done (m : monitor) : bool :=
  finishingStatusSent (me (line m)) && negb (task_is flag_EVSE_Stop_Transaction m).
Definition availability_changed (m : monitor) : bool := CmsAvailableChanged (cdata m).

Definition turns_unavailable (m : monitor) : bool :=
  negb (CmsAvailable (cdata m)) && (connection_changed m || availability_changed m).

Definition turns_reserved (m : monitor) : bool :=
  isReserved (cdata m) && negb (reservedStatusSent (seen m)) && CmsAvailable (cdata m).

Definition turns_available (m : monitor) : bool :=
  ((pilot_is STATE_A m && pilot m) || negb (pilot m))
  && (pilot_changed m || (negb (pilot m) && negb (StatusState (seen m) =? STATUS_AVAILABLE))
      || finishing_done m || connection_changed m || availability_changed m)
  && open_for_use m && unfaulted m && between_sessions m.

Definition turns_plugged (x from : Z) (m : monitor) : bool :=
  pilot_is x m && pilot m
  && ((pilot_changed m && negb (pilot_was from m)) || connection_changed m
      || availability_changed m)
  && open_for_use m && negb (task_is flag_EVSE_Request_Charge m) && unfaulted m.

Definition turns_suspended (m : monitor) : bool :=
  pilot_is STATE_B2 m && pilot m && (pilot_changed m || connection_changed m) && unfaulted m.

Definition turns_charging (x from : Z) (m : monitor) : bool :=
  ((pilot_is x m && pilot m) || negb (pilot m))
  && ((pilot_changed m && negb (pilot_was from m)) || connection_changed m
      || (negb (pilot m) && task_is flag_EVSE_Request_Charge m
          && negb (StatusState (seen m) =? STATUS_CHARGING))
      || isFaultRecovered (seen m))
  && unfaulted m.

Definition turns_disconnected (m : monitor) : bool :=
  pilot_is STATE_DIS m && pilot m && pilot_changed m.

Definition turns_ev_error (m : monitor) : bool :=
  ((pilot_is STATE_E1 m && pilot m) || negb (pilot m))
  && (pilot_changed m || finishing_done m || connection_changed m || availability_changed m)
  && open_for_use m && unfaulted m && between_sessions m.

(** ** The turn *)

(** The [else if] chain once no fault is to be reported (its last arm, state
    F, is empty). *)
Definition report_status (connId : cid) : cmd monitor :=
  IF turns_unavailable THEN report_unavailable connId
  ELSE IF turns_reserved THEN report_reserved connId
  ELSE IF turns_available THEN report_available connId
  ELSE IF turns_plugged STATE_B1 STATE_E2 THEN report_plugged connId true
  ELSE IF turns_suspended THEN report_suspended connId
  ELSE IF turns_charging STATE_C STATE_D THEN report_charging true
  ELSE IF turns_charging STATE_D STATE_C THEN report_charging false
  ELSE IF turns_disconnected THEN skip
  ELSE IF turns_ev_error THEN report_ev_error connId
  ELSE IF turns_plugged STATE_E2 STATE_B1 THEN report_plugged connId false
  ELSE skip FI FI FI FI FI FI FI FI FI FI.

Definition report_change (connId : cid) : cmd monitor :=
  withs (fun m =>
    match first_fault (reportable m) with
    | Some f => report_fault connId f
    | None => report_status connId
    end).

Definition status_is_faulted (s : session) : bool :=
  starts_with "Faulted" (sn_status (CPStatusNotificationRequest (me s))).

Definition remember : cmd monitor :=
  withs (fun m => setw (fun w => w
    <| fault_old := active (line m) |>
    <| cpState_old := cpState (me (line m)) |>
    <| connectorFault_old := connectorFault (me (line m)) |>)) ;;
  WHEN is_online THEN
    IF fun m => connectorFault (me (line m)) && negb (status_is_faulted (line m)) THEN
      setw (fun w => w <| fault_old := fun _ => false |>)
    ELSE WHEN fun m => negb (connectorFault (me (line m))) && status_is_faulted (line m) THEN
      setw (fun w => w <| cpState_old := 0 |>) FI FI
  FI.

Definition watched (m : monitor) : bool :=
  connectorEnabled (seen m) && negb (task_is flag_EVSE_initialisation m)
  && negb (FirmwareUpdateStarted (glob (line m))).

Definition status_turn (connId : cid) (mf : MeterFaults_t) : cmd monitor :=
  WHEN watched THEN
    forget_on_request ;;
    call (sample connId mf) ;;
    classify ;;
    recover connId ;;
    report_change connId ;;
    remember
  FI.

(** The end of an iteration: what the connection is by then is what the next
    one compares with. *)
Definition end_of_iteration : cmd monitor := fun m =>
  m <| isWebsocketConnected_old := isWebsocketConnected (glob (line m)) |>
    <| bootedNow := false |>.
Definition begin_of_iteration : cmd monitor := fun m =>
  m <| isWebsocketConnected_Now := isWebsocketConnected (glob (line m)) |>.
