(* ===== verification/StatusSpec.v ===== *)
(** * Properties of the status notifications ([Status.v])

    What a turn of the charge point task does on a fault (the power is taken
    away, online or not; the central system is told), that the error code the
    central system last heard is the one of the present fault, and the status
    reported after a reconnection against a table of the OCPP statuses. *)

From S2P Require Import Prelude Config EnergyMeter ControlPilot Session SessionSpec Status.

(** ** The fault order *)

Section FirstFault.
Variable p q : fault -> bool.

Lemma first_fault_some f :
  first_fault p = Some f <->
  p f = true /\ forall g, rank g < rank f -> p g = false.
Proof.
  unfold first_fault, all_faults; cbn [List.find]. split.
  - repeat match goal with |- context [if p ?g then _ else _] => destruct (p g) eqn:?;
      [intros [= <-]; split; [done|]; intros []; cbn; intros; first [done|lia]|] end.
    done.
  - intros [Hf Hg].
    destruct f; repeat match goal with |- context [if p ?g then _ else _] =>
      first [rewrite Hf | rewrite (Hg g) by (cbn; lia)] end; done.
Qed.

Lemma first_fault_none : first_fault p = None <-> forall f, p f = false.
Proof.
  unfold first_fault, all_faults; cbn [List.find]. split.
  - repeat match goal with |- context [if p ?g then _ else _] => destruct (p g) eqn:?; [done|] end.
    intros _ []; done.
  - intros H. by rewrite !H.
Qed.
End FirstFault.

Lemma rank_inj f g : rank f = rank g -> f = g.
Proof. destruct f, g; cbn; intros; first [done | lia]. Qed.

Lemma first_fault_ext p q : (forall f, p f = q f) -> first_fault p = first_fault q.
Proof. intros H. unfold first_fault, all_faults; cbn [List.find]. by rewrite !H. Qed.

(** Every fault but the meter's failure faults the connector. *)
Lemma faulting_spec s :
  faulting s = true <-> exists f, f <> MeterFailure_ /\ active s f = true.
Proof.
  unfold faulting. rewrite !orb_true_iff. split.
  - intros H. repeat destruct H as [H|H]; eexists; (split; [|exact H]); done.
  - intros (f & Hf & Ha). destruct f; auto 12; done.
Qed.

(** ** Lifting to the monitor *)

Definition on_line (R : session -> session -> Prop) (m m' : monitor) : Prop :=
  R (line m) (line m').
#[export] Instance on_line_preorder R `{!PreOrder R} : PreOrder (on_line R).
Proof.
  split; [intros m; unfold on_line; reflexivity|]. intros a b c. unfold on_line. apply transitivity.
Qed.

Lemma respects_call R c : respects R c -> respects (on_line R) (call c).
Proof. intros H m. apply H. Qed.
Lemma respects_setw R f : Reflexive R -> respects (on_line R) (setw f).
Proof. intros H m. unfold on_line; cbn. reflexivity. Qed.

Ltac unfold_turn :=
  unfold status_turn, forget_on_request, classify, recover, report_change, report_fault,
    report_status, report_unavailable, report_reserved, report_available, report_plugged,
    report_suspended, report_charging, report_ev_error, report_ok, report, remember.
Ltac unfold_line := unfold sample, cut_power, display, notify, show, plug_and_play, setg, setm, setd, goto; unfold_calls.

(** ** Pieces of a turn *)

Lemma forget_on_request_spec m :
  let m' := forget_on_request m in
  line m' = line m /\ isWebsocketConnected_Now m' = isWebsocketConnected_Now m /\
  isWebsocketConnected_old m' = isWebsocketConnected_old m /\
  connectorFault_old (seen m') = connectorFault_old (seen m) /\
  (forall f, fault_old (seen m') f = true -> fault_old (seen m) f = true) /\
  (bootedNow m = false ->
   (forall f, fault_old (seen m') f = fault_old (seen m) f) \/
   (forall f, fault_old (seen m') f = false)).
Proof.
  cbn. unfold forget_on_request, seqc, whenc, ifc, setw, skip.
  destruct m as [s w n o b]; cbn. destruct w as [e fo co fa re st fr od up]; cbn.
  destruct od, up, b; cbn; split_and!; try done;
    first [intros []; done | intros _; first [by left | right; intros []; done]].
Qed.

Lemma faulted_retract s w f g :
  first_fault (active s) = Some f -> rank g < rank f ->
  fault_old w g = true -> fault_old (retract s w) f = false.
Proof.
  intros Hf Hg Ho. apply first_fault_some in Hf as [Ha Hb]. unfold retract.
  destruct (first_fault _) as [h|] eqn:E.
  - apply first_fault_some in E as [Eh Em]. cbn.
    destruct (Z.leb_spec (rank h) (rank f)); [done|].
    specialize (Em g ltac:(lia)). rewrite Hb in Em by done. by rewrite Ho in Em.
  - pose proof (proj1 (first_fault_none _) E g) as Em. cbn in Em.
    rewrite Hb in Em by done. by rewrite Ho in Em.
Qed.

Lemma retract_sub s w f : fault_old (retract s w) f = true -> fault_old w f = true.
Proof. unfold retract. case_match; cbn; [case_match; done | done]. Qed.

Lemma retract_kept s w f :
  active s f = true -> (forall g, rank g < rank f -> fault_old w g = false) ->
  fault_old (retract s w) f = fault_old w f.
Proof.
  intros Ha Hg. unfold retract. destruct (first_fault _) as [h|] eqn:E; [cbn|done].
  apply first_fault_some in E as [Eh _]. apply andb_true_iff in Eh as [En Eo].
  destruct (Z.leb_spec (rank h) (rank f)) as [L|L]; [|done].
  destruct (decide (rank h = rank f)) as [R|R].
  - apply rank_inj in R as ->. by rewrite Ha in En.
  - rewrite (Hg h) in Eo by lia. done.
Qed.

(** An active first fault, and what was seen of those after it is what is. *)
Lemma reportable_first m f :
  first_fault (active (line m)) = Some f ->
  (forall g, rank f < rank g -> fault_old (seen m) g = active (line m) g) ->
  first_fault (reportable m) =
    if negb (fault_old (seen m) f) || connection_changed m then Some f else None.
Proof.
  intros Hf Hr. apply first_fault_some in Hf as [Ha Hb].
  destruct (negb _ || _) eqn:E.
  - apply first_fault_some. split.
    + unfold reportable. rewrite Ha. revert E. by destruct (fault_old (seen m) f).
    + intros g Hg. unfold reportable. by rewrite Hb.
  - apply first_fault_none. intros g. unfold reportable.
    apply orb_false_iff in E as [E1 ->]. apply negb_false_iff in E1.
    destruct (Z.lt_trichotomy (rank g) (rank f)) as [L|[L|L]].
    + by rewrite Hb.
    + apply rank_inj in L as ->. by rewrite Ha, E1.
    + rewrite Hr by done. by destruct (active (line m) g).
Qed.

Lemma absorb_rest s w f :
  first_fault (active s) = Some f ->
  fault_old (absorb s w) f = fault_old w f /\
  (forall g, rank f < rank g -> fault_old (absorb s w) g = active s g) /\
  connectorFault_old (absorb s w) = connectorFault_old w.
Proof.
  intros Hf. unfold absorb. rewrite Hf. cbn. split_and!.
  - by rewrite Z.ltb_irrefl.
  - intros g Hg. by rewrite (proj2 (Z.ltb_lt _ _) Hg).
  - done.
Qed.

Lemma first_fault_faulting s f :
  first_fault (active s) = Some f -> f <> MeterFailure_ -> faulting s = true.
Proof. intros H Hn. apply first_fault_some in H as [Ha _]. apply faulting_spec. eauto. Qed.

(** What the turn remembers while a fault is active, and how it goes on. *)
Definition watch_faulted (id : cid) (mf : MeterFaults_t) (m : monitor) : watch :=
  let s := sample id mf (line m) in absorb s (retract s (seen (forget_on_request m))).
Definition turn_fault (id : cid) (mf : MeterFaults_t) (m : monitor) : monitor :=
  m <| line := (sample id mf (line m)) <| me := (me (sample id mf (line m))) <| connectorFault := true |> |> |>
    <| seen := watch_faulted id mf m |>.

Lemma turn_faulted id mf m :
  watched m = true -> faulting (sample id mf (line m)) = true ->
  status_turn id mf m = remember (report_change id (turn_fault id mf m)).
Proof.
  intros Hw Hf. unfold status_turn, whenc, ifc, seqc. rewrite Hw.
  destruct (forget_on_request_spec m) as (El & En & Eo & Ec & _).
  set (m1 := forget_on_request m) in *.
  assert (E : recover id (classify (call (sample id mf) m1)) = turn_fault id mf m).
  { unfold classify, ifc. cbn [call update line]. 
    change (line (call (sample id mf) m1)) with (sample id mf (line m1)). rewrite El, Hf.
    unfold turn_fault, watch_faulted. fold m1.
    assert (Eb : bootedNow m1 = bootedNow m).
    { unfold m1, forget_on_request, seqc, whenc, ifc, skip, setw. by repeat case_match. }
    destruct m as [s w n o b], m1 as [s1 w1 n1 o1 b1]. cbn in El, En, Eo, Eb. subst. 
    unfold recover, whenc, ifc. cbn. by rewrite andb_false_r. }
  by rewrite E.
Qed.

Lemma report_change_fault id mf m f :
  first_fault (active (sample id mf (line m))) = Some f ->
  report_change id (turn_fault id mf m) =
    (if negb (fault_old (watch_faulted id mf m) f) || connection_changed m
     then report_fault id f else report_status id) (turn_fault id mf m).
Proof.
  intros Hf. unfold report_change, withs.
  destruct (absorb_rest _ (retract (sample id mf (line m)) (seen (forget_on_request m))) _ Hf) as (_ & Hr & _).
  pose proof (reportable_first (turn_fault id mf m) f Hf Hr) as E.
  change (seen (turn_fault id mf m)) with (watch_faulted id mf m) in E.
  change (connection_changed (turn_fault id mf m)) with (connection_changed m) in E.
  rewrite E. by case_match.
Qed.

Lemma remember_line m : line (remember m) = line m.
Proof. unfold remember, seqc, withs, whenc, ifc, setw, skip. by repeat case_match. Qed.

(** The first fault is news: it was not seen, was last reported over another
    connection, or stood behind a fault that is gone. *)
Definition is_news (f : fault) (m : monitor) : Prop :=
  fault_old (seen m) f = false \/ connection_changed m = true \/
  (bootedNow m = false /\ exists g, rank g < rank f /\ fault_old (seen m) g = true).

Lemma news_reported id mf m f :
  first_fault (active (sample id mf (line m))) = Some f -> is_news f m ->
  negb (fault_old (watch_faulted id mf m) f) || connection_changed m = true.
Proof.
  intros Hf Hn. unfold watch_faulted.
  set (s := sample id mf (line m)) in *.
  destruct (absorb_rest s (retract s (seen (forget_on_request m))) f Hf) as (-> & _).
  destruct (forget_on_request_spec m) as (_ & _ & _ & _ & Hsub & Hb).
  destruct (fault_old (retract s _) f) eqn:E; [cbn|done].
  destruct Hn as [H|[H|(Hnb & g & Hg & Ho)]].
  - apply retract_sub, Hsub in E. by rewrite H in E.
  - by rewrite H.
  - destruct (Hb Hnb) as [Hk|Hk].
    + rewrite (faulted_retract s _ f g Hf Hg) in E; [done|]. by rewrite Hk.
    + apply retract_sub in E. by rewrite Hk in E.
Qed.

(** The commands that take the power away: pilot at 100 % or relay open. *)
Definition cut (id : cid) (c : conn) : event :=
  if cpEnable c then EvSlaveSetControlPilotDuty id 100 else EvSlaveUpdateRelay id false.

(** The notification of fault [f] by connector [id]. *)
Definition fault_report (id : cid) (f : fault) (m : monitor) : CPStatusNotificationRequest_t :=
  let r := CPStatusNotificationRequest (me (line m)) in
  r <| sn_UniqId := randomNumber (glob (line m)) |>
    <| sn_connectorId := cid_to_Z id |>
    <| sn_errorCode := error_code f |> <| sn_status := "Faulted" |>
    <| sn_vendorErrorCode := vendor_code f (sn_vendorErrorCode r) |>
    <| sn_timestamp := memcpy_str (clock (glob (line m))) (sn_timestamp r) |>.

(** A report sends the notification when the central system is there and sets
    the LED state. *)
Lemma report_line e st v l m :
  line (report e st v l m) =
    show l (is_online m) ((if is_online m then notify e st v else skip) (line m)).
Proof.
  unfold report, seqc, withs, whenc, ifc. destruct (is_online m) eqn:E; [|unfold skip; cbn; by rewrite E].
  assert (E2 : is_online (call (notify e st v) m) = is_online m) by reflexivity.
  cbn [call line update]. by rewrite E2, E.
Qed.

Lemma report_fault_spec id mf m f :
  let s := line (report_fault id f (turn_fault id mf m)) in
  trace (glob s) =
    EvDisplay id ChargerFaultBit :: EvSetControlPilotDuty 100 :: cut id (me (line m)) ::
    (if is_online m then [EvStatusNotification (fault_report id f m)] else []) ++
    trace (glob (line m)) /\
  connectorFault (me s) = true /\
  CPStatusNotificationRequest (me s) =
    (if is_online m then (fault_report id f m) <| sn_Sent := true |>
     else (CPStatusNotificationRequest (me (line m))) <| sn_connectorId := cid_to_Z id |>) /\
  ledState (me s) = led_of (leds_of_fault f) (is_online m) (config (glob (line m))).
Proof.
  cbv zeta. unfold report_fault, seqc. cbn [call line update].
  rewrite report_line. change (is_online (turn_fault id mf m)) with (is_online m).
  unfold cut_power, display, cut, ifc, seqc, skip.
  destruct (is_online m), (cpEnable (me (line m))) eqn:E2;
    cbn -[led_of leds_of_fault vendor_code error_code];
    rewrite ?E2; cbn -[led_of leds_of_fault vendor_code error_code]; by split_and!.
Qed.

(** ** Fault shutdown *)

Lemma fault_turn_line id mf m f :
  watched m = true -> first_fault (active (sample id mf (line m))) = Some f ->
  f <> MeterFailure_ -> is_news f m ->
  line (status_turn id mf m) = line (report_fault id f (turn_fault id mf m)).
Proof.
  intros Hw Hf Hm Hn.
  rewrite turn_faulted by eauto using first_fault_faulting.
  by rewrite remember_line, (report_change_fault _ _ _ _ Hf), (news_reported _ _ _ _ Hf Hn).
Qed.

(** Claim C5.  On a watched turn whose first active fault (the meter's failure
    apart) is news, the connector is marked faulted and its power is taken
    away, whatever the connection: the turn's calls are the pilot or relay
    command, the charger's pilot at 100 %, the fault on the display and, with
    the central system present, before them a [Faulted] notification with that
    fault's error code; the LED state is that fault's. *)
Theorem fault_shutdown id mf m f :
  watched m = true -> first_fault (active (sample id mf (line m))) = Some f ->
  f <> MeterFailure_ -> is_news f m ->
  let s := line (status_turn id mf m) in
  trace (glob s) =
    EvDisplay id ChargerFaultBit :: EvSetControlPilotDuty 100 :: cut id (me (line m)) ::
    (if is_online m then [EvStatusNotification (fault_report id f m)] else []) ++
    trace (glob (line m)) /\
  connectorFault (me s) = true /\
  ledState (me s) = led_of (leds_of_fault f) (is_online m) (config (glob (line m))).
Proof.
  intros Hw Hf Hm Hn. cbv zeta. rewrite (fault_turn_line _ _ _ f) by done.
  destruct (report_fault_spec id mf m f) as (H1 & H2 & _ & H4). auto.
Qed.

(** An AC1 charger, one connector charging, a ground fault appearing. *)
Definition example_watch : watch :=
  mkWatch true (fun _ => false) STATE_C false false STATUS_CHARGING false false false.
Definition no_meter_faults : MeterFaults_t := mkMeterFaults false false false false false false.
Definition example_monitor (now : bool) : monitor :=
  mkMonitor (mkSession (example_shared <| isWebsocketConnected := now |>
                          <| isWebsocketBooted := now |>)
               (example_conn <| taskState := flag_EVSE_Request_Charge |> <| cpState := STATE_C |>))
    example_watch now now false.
Definition with_gfci (m : monitor) : monitor :=
  m <| line := (line m) <| glob := (glob (line m)) <| gfciButton := true |> |> |>.

Lemma fault_shutdown_witness :
  trace (glob (line (status_turn Conn1 no_meter_faults (with_gfci (example_monitor false))))) =
    [EvDisplay Conn1 ChargerFaultBit; EvSetControlPilotDuty 100; EvSlaveSetControlPilotDuty Conn1 100].
Proof.
  destruct (fault_shutdown Conn1 no_meter_faults (with_gfci (example_monitor false)) gfci_
    eq_refl eq_refl ltac:(done) (or_introl eq_refl)) as [H _].
  exact H.
Defined.

(** ** What the central system last heard *)

(** The fault inputs a session carries. *)
Definition same_faults (s s' : session) : Prop := forall f, active s' f = active s f.
#[export] Instance same_faults_preorder : PreOrder same_faults.
Proof. split; [by intros s f|]. intros a b c H1 H2 f. by rewrite H2. Qed.

(** Walk down a turn: the calls on the line by [leaf]. *)
Ltac line_tac leaf :=
  respects_tac ltac:(idtac; lazymatch goal with
    | |- respects (on_line _) (call _) => apply respects_call; unfold_line; respects_tac leaf
    | |- respects (on_line _) (setw _) => apply respects_setw; exact _
    end).

Lemma report_change_active id : respects (on_line same_faults) (report_change id).
Proof. unfold_turn. line_tac ltac:(intros ? []; reflexivity). Qed.

Lemma recover_active id : respects (on_line same_faults) (recover id).
Proof. unfold_turn. line_tac ltac:(intros ? []; reflexivity). Qed.

Lemma classify_active : respects (on_line same_faults) classify.
Proof. unfold_turn. line_tac ltac:(intros ? []; reflexivity). Qed.

(** A turn ends having seen the faults it sampled, or nothing at all. *)
Lemma turn_remembers id mf m :
  watched m = true ->
  (forall f, fault_old (seen (status_turn id mf m)) f = active (sample id mf (line m)) f) \/
  (forall f, fault_old (seen (status_turn id mf m)) f = false).
Proof.
  intros Hw. destruct (forget_on_request_spec m) as (El & _).
  set (m1 := call (sample id mf) (forget_on_request m)).
  assert (E1 : line m1 = sample id mf (line m)) by (unfold m1, call; cbn; by rewrite El).
  set (m2 := report_change id (recover id (classify m1))).
  assert (E2 : forall f, active (line m2) f = active (sample id mf (line m)) f).
  { intros f. rewrite <- E1. unfold m2.
    rewrite (report_change_active id (recover id (classify m1)) f).
    rewrite (recover_active id (classify m1) f). apply (classify_active m1 f). }
  assert (E : status_turn id mf m = remember m2) by (unfold status_turn, whenc, ifc; by rewrite Hw).
  rewrite E. unfold remember, seqc, withs, whenc, ifc, setw, skip.
  repeat case_match; first [left; exact E2 | right; intros f; reflexivity].
Qed.

(** While faulted, the other arms send nothing or a status that is not
    [Faulted]. *)
Lemma report_status_faulted id m :
  connectorFault (me (line m)) = true ->
  let s := line (report_status id m) in
  CPStatusNotificationRequest (me s) = CPStatusNotificationRequest (me (line m)) \/
  status_is_faulted s = false.
Proof.
  intros Hf. cbv zeta. unfold report_status.
  assert (Hu : forall m', connectorFault (me (line m')) = true -> unfaulted m' = false)
    by (intros m' H; unfold unfaulted; by rewrite H).
  unfold ifc, turns_available, turns_plugged, turns_suspended, turns_charging, turns_ev_error.
  rewrite (Hu m Hf), !andb_false_r, !andb_false_l.
  destruct (turns_unavailable m).
  { unfold report_unavailable, report_ok, seqc. cbn [call line update]. rewrite report_line.
    destruct (is_online _); [right | left]; unfold cut_power, seqc, ifc, display; cbn; by case_match. }
  destruct (turns_reserved m).
  { unfold report_reserved, report_ok, seqc. cbn [call line update]. rewrite report_line.
    destruct (is_online _); [right | left]; unfold cut_power, seqc, ifc, display; cbn; by case_match. }
  left. by destruct (turns_disconnected m).
Qed.

(** The last notification, if a fault's, carries the code of the first fault
    that was seen. *)
Definition told (m : monitor) : Prop :=
  forall f, f <> MeterFailure_ -> first_fault (fault_old (seen m)) = Some f ->
  status_is_faulted (line m) = true ->
  sn_errorCode (CPStatusNotificationRequest (me (line m))) = error_code f.

(** The turns of one connector and what happens between them; the flag tells
    whether the last turn was online.  The other tasks may change everything
    but what was seen, and send other statuses; a first turn online or booted
    finds the connection changed ([isWebsocketConnected_old] is cleared with
    the boot). *)
Inductive watching : bool -> monitor -> Prop :=
  | watching_start m : (forall f, fault_old (seen m) f = false) -> watching false m
  | watching_others b m m' : watching b m ->
      (forall f, fault_old (seen m') f = fault_old (seen m) f) ->
      (status_is_faulted (line m') = true -> status_is_faulted (line m) = true /\
        sn_errorCode (CPStatusNotificationRequest (me (line m'))) =
        sn_errorCode (CPStatusNotificationRequest (me (line m)))) ->
      watching b m'
  | watching_turn b m id mf : watching b m -> watched m = true ->
      (is_online m = true -> b = false -> connection_changed m = true) ->
      (bootedNow m = true -> connection_changed m = true) ->
      watching (is_online m) (status_turn id mf m).

(** An active first fault that is no news has been told. *)
Lemma old_news m f mf id :
  first_fault (active (sample id mf (line m))) = Some f ->
  negb (fault_old (watch_faulted id mf m) f) || connection_changed m = false ->
  (bootedNow m = true -> connection_changed m = true) ->
  first_fault (fault_old (seen m)) = Some f /\ connection_changed m = false.
Proof.
  intros Hf E Hb.
  assert (Hn : ~ is_news f m) by (intros H; rewrite (news_reported _ _ _ _ Hf H) in E; done).
  apply orb_false_iff in E as [_ Ec]. split; [|done].
  assert (Hb0 : bootedNow m = false) by (destruct (bootedNow m); [by rewrite Hb in Ec|done]).
  apply first_fault_some. split.
  - destruct (fault_old (seen m) f) eqn:Eo; [done|]. destruct Hn. by left.
  - intros g Hg. destruct (fault_old (seen m) g) eqn:Eo; [|done]. destruct Hn. right; right. eauto.
Qed.

(** A turn with an active first fault, told or tells it. *)
Lemma turn_tells id mf m f :
  watched m = true -> first_fault (active (sample id mf (line m))) = Some f ->
  f <> MeterFailure_ -> is_online m = true ->
  (bootedNow m = true -> connection_changed m = true) ->
  (connection_changed m = false -> told m) ->
  let s := line (status_turn id mf m) in
  status_is_faulted s = true ->
  sn_errorCode (CPStatusNotificationRequest (me s)) = error_code f.
Proof.
  intros Hw Hf Hm Ho Hb Ht. cbv zeta.
  rewrite turn_faulted by eauto using first_fault_faulting.
  rewrite remember_line, (report_change_fault _ _ _ _ Hf).
  destruct (negb _ || _) eqn:E; intros Hs.
  - destruct (report_fault_spec id mf m f) as (_ & _ & H & _). by rewrite H, Ho.
  - destruct (old_news _ _ _ _ Hf E Hb) as [H1 H2].
    destruct (report_status_faulted id (turn_fault id mf m) eq_refl) as [H|H]; [|by rewrite H in Hs].
    rewrite H. unfold status_is_faulted in Hs. rewrite H in Hs. by apply (Ht H2).
Qed.

Lemma turn_first id mf m f :
  watched m = true -> first_fault (fault_old (seen (status_turn id mf m))) = Some f ->
  first_fault (active (sample id mf (line m))) = Some f.
Proof.
  intros Hw H. destruct (turn_remembers id mf m Hw) as [E|E].
  - by rewrite (first_fault_ext _ _ E) in H.
  - rewrite (proj2 (first_fault_none _) E) in H. done.
Qed.

Lemma told_turn b id mf m :
  watched m = true -> is_online m = true -> (b = true -> told m) ->
  (b = false -> connection_changed m = true) ->
  (bootedNow m = true -> connection_changed m = true) ->
  told (status_turn id mf m).
Proof.
  intros Hw Ho Ht Hc Hb f Hm Hf Hs. apply turn_first in Hf; [|done].
  apply (turn_tells id mf m f); try done. intros Hn.
  destruct b; [by apply Ht|]. by rewrite Hc in Hn.
Qed.

Lemma watching_told b m : watching b m -> b = true -> told m.
Proof.
  induction 1 as [m _|b m m' _ IH Eo Es|b m id mf _ IH Hw Hc Hb]; intros Ho; [done| |].
  - intros f Hm Hf Hs. destruct (Es Hs) as [Hs' ->]. rewrite (first_fault_ext _ _ Eo) in Hf. by apply IH.
  - by eapply (told_turn b); eauto.
Qed.

(** In every run of a connector's turns among the other tasks, the
    last notification after a turn online, if a fault's, carries the error
    code of the fault that is first among those the turn saw (the meter's
    failure apart). *)
Theorem announced_fault_is_current m f :
  watching true m -> f <> MeterFailure_ ->
  first_fault (fault_old (seen m)) = Some f -> status_is_faulted (line m) = true ->
  sn_errorCode (CPStatusNotificationRequest (me (line m))) = error_code f.
Proof. intros H. exact (watching_told _ _ H eq_refl f). Qed.

Definition gfci_on_reconnection : monitor :=
  with_gfci (example_monitor true) <| isWebsocketConnected_old := false |>.

Lemma announced_fault_is_current_witness :
  sn_errorCode (CPStatusNotificationRequest
    (me (line (status_turn Conn1 no_meter_faults gfci_on_reconnection)))) = "GroundFailure".
Proof.
  apply (announced_fault_is_current (status_turn Conn1 no_meter_faults gfci_on_reconnection) gfci_);
    try done.
  apply (watching_turn false gfci_on_reconnection Conn1 no_meter_faults); try done.
  by apply watching_start.
Defined.

Lemma remember_unfaulted_status m :
  is_online m = true -> connectorFault (me (line m)) = true -> status_is_faulted (line m) = false ->
  forall f, fault_old (seen (remember m)) f = false.
Proof.
  intros Ho Hc Hs f. unfold remember, seqc, withs, whenc, ifc, setw, skip.
  repeat (match goal with |- context [if ?g then _ else _] =>
    first [change g with (is_online m); rewrite Ho
          | change g with (connectorFault (me (line m)) && negb (status_is_faulted (line m)));
            rewrite Hc, Hs] end; cbv beta iota).
  reflexivity.
Qed.

Lemma line_is_online id m : is_online (report_change id m) = is_online m.
Proof.
  assert (H : respects (same is_online) (report_change id)); [|apply H].
  unfold_turn. respects_tac ltac:(idtac; lazymatch goal with
    | |- respects _ (call _) =>
        let R := constr:(same (fun s => isWebsocketBooted (glob s))) in
        let H := fresh in intros ?; unfold same, is_online; 
        match goal with |- context [call ?c ?m] =>
          assert (H : respects R c) by (unfold_line; respects_tac ltac:(intros ?; reflexivity));
          change (line (call c m)) with (c (line m)); by rewrite (H (line m)) end
    | |- _ => intros ?; reflexivity
    end).
Qed.


(** The ground fault appears while the central system made the connector
    unavailable: the first turn ends with [Unavailable], the second announces
    the fault. *)
Definition gfci_and_unavailable : monitor :=
  with_gfci (example_monitor true)
    <| line := (line (with_gfci (example_monitor true))) <| me := example_conn
         <| ConnectorData := (ConnectorData example_conn) <| CmsAvailable := false |>
                               <| CmsAvailableChanged := true |> |> |> |>
    <| seen := example_watch <| fault_old := fun f => bool_decide (f = gfci_) |> |>.


(** ** What a turn may call *)

Definition notifies (e : event) : Prop := match e with EvStatusNotification _ => True | _ => False end.
Definition silent (e : event) : Prop := quiet e /\ ~ notifies e.

(** The calls of a command are quiet, and it notifies only online. *)
Definition tells_online (m m' : monitor) : Prop :=
  is_online m' = is_online m /\
  emits (fun e => quiet e /\ (notifies e -> is_online m = true)) (line m) (line m').
#[export] Instance tells_online_preorder : PreOrder tells_online.
Proof.
  split; [intros m; split; [done|]; reflexivity|].
  intros a b c [H1 H2] [H3 H4]. split; [by rewrite H3|].
  etrans; [exact H2|]. by rewrite <- H1.
Qed.

Lemma emits_weaken (P Q : event -> Prop) s s' :
  (forall e, P e -> Q e) -> emits P s s' -> emits Q s s'.
Proof. intros H (l & E & F). exists l. split; [done|]. by eapply Forall_impl. Qed.

Lemma tells_call c :
  respects (emits silent) c -> respects (same (fun s => isWebsocketBooted (glob s))) c ->
  respects tells_online (call c).
Proof.
  intros He Hb m. split.
  - unfold is_online. change (line (call c m)) with (c (line m)).
    by rewrite (Hb (line m)).
  - eapply emits_weaken; [|apply He]. intros e [H1 H2]. split; [done|]. by intros ?%H2.
Qed.
Lemma tells_setw f : respects tells_online (setw f).
Proof. intros m. split; [done|]. exists []. by split. Qed.
Lemma tells_notify e st v : respects tells_online (whenc is_online (call (notify e st v))).
Proof.
  intros m. unfold whenc, ifc. destruct (is_online m) eqn:E; [|reflexivity]. split; [reflexivity|].
  eexists [_]. split; [reflexivity|].
  apply Forall_cons_2; [|by apply Forall_nil_2]. split; [by intros [] | by intros _].
Qed.
Lemma tells_report e st v l : respects tells_online (report e st v l).
Proof.
  unfold report. apply respects_seq; [exact _|apply tells_notify|].
  apply respects_with. intros m. apply tells_call; unfold_line;
    [emits_tac | respects_tac ltac:(intros ?; reflexivity)].
Qed.

(** A call whose primitive steps are quiet and send nothing. *)
Ltac tells_call_tac :=
  apply tells_call; unfold_line;
  [ respects_tac ltac:(first
      [ apply emits_emit; unfold silent, quiet; cbn; naive_solver
      | intros ?; exists []; split; [reflexivity | constructor] ])
  | respects_tac ltac:(intros ?; reflexivity) ].
Ltac tells_tac :=
  repeat (cbv beta zeta;
    lazymatch goal with
    | |- respects _ (whenc is_online (call (notify _ _ _))) => apply tells_notify
    | |- respects _ (report _ _ _ _) => apply tells_report
    | |- respects _ (setw _) => apply tells_setw
    | |- respects _ (seqc _ _) => apply respects_seq; [exact _ | |]
    | |- respects _ (ifc _ _ _) => apply respects_if
    | |- respects _ (whenc _ _) => apply respects_when; [exact _ |]
    | |- respects _ (withs _) => apply respects_with; intros ?
    | |- respects _ skip => apply respects_skip; exact _
    | |- respects _ (match ?x with _ => _ end) => destruct x
    | |- respects _ (call _) => tells_call_tac
    end).

(** A turn of the status loop never closes a relay or offers
    current, and it notifies the central system only when connected to it and
    accepted by it. *)
Theorem status_turn_is_quiet id mf m :
  exists l, trace (glob (line (status_turn id mf m))) = l ++ trace (glob (line m)) /\
    Forall (fun e => ~ energising e) l /\
    (is_online m = false -> Forall (fun e => ~ notifies e) l).
Proof.
  assert (H : respects tells_online (status_turn id mf)).
  { unfold status_turn, forget_on_request, classify, recover, report_change, report_fault,
      report_status, report_unavailable, report_reserved, report_available, report_plugged,
      report_suspended, report_charging, report_ev_error, report_ok, remember. tells_tac. }
  destruct (H m) as (_ & l & E & F). exists l. split_and!; [done| |].
  - eapply Forall_impl; [|exact F]. by intros e [Hq _].
  - intros Ho. eapply Forall_impl; [|exact F]. intros e [_ Hn] Hi. apply Hn in Hi. by rewrite Ho in Hi.
Qed.

(** ** The status after a reconnection *)

(** The OCPP error code and status of a connector without fault, from what the
    code keeps of it: a connector with a control pilot by the pilot's state, one
    without by its session. *)
Definition idle (t : EvseDevStatuse) : bool :=
  match t with flag_EVSE_Request_Charge | flag_EVSE_Stop_Transaction => false | _ => true end.
Definition charging (t : EvseDevStatuse) : bool :=
  match t with flag_EVSE_Request_Charge => true | _ => false end.
Definition plugged_status (c : conn) : option (string * string) :=
  if charging (taskState c) then None
  else Some ("NoError", if finishingStatusPending c || finishingStatusSent c then "Finishing"
                        else "Preparing").
Definition ocpp_status (c : conn) : option (string * string) :=
  if negb (CmsAvailable (ConnectorData c)) then Some ("NoError", "Unavailable")
  else if isReserved (ConnectorData c) then Some ("NoError", "Reserved")
  else if negb (cpEnable c) then
    Some ("NoError", if idle (taskState c) then "Available" else "Charging")
  else if cpState c =? STATE_A then
    if idle (taskState c) then Some ("NoError", "Available") else None
  else if cpState c =? STATE_B1 then plugged_status c
  else if cpState c =? STATE_E2 then plugged_status c
  else if cpState c =? STATE_B2 then Some ("NoError", "SuspendedEV")
  else if cpState c =? STATE_C then Some ("NoError", "Charging")
  else if cpState c =? STATE_D then Some ("NoError", "Charging")
  else if cpState c =? STATE_E1 then
    if idle (taskState c) then Some ("EVCommunicationError", "Faulted") else None
  else None.

Definition tell (e : event) : option (string * string) :=
  match e with
  | EvStatusNotification r => Some (sn_errorCode r, sn_status r)
  | _ => None
  end.

(** Online, the command sends exactly the notifications [l]. *)
Definition sends (l : list (string * string)) (c : cmd monitor) : Prop := forall m,
  is_online m = true -> is_online (c m) = true /\
  exists es, trace (glob (line (c m))) = es ++ trace (glob (line m)) /\ omap tell es = l.

Lemma sends_seq l1 l2 a b : sends l1 a -> sends l2 b -> sends (l2 ++ l1) (a ;; b).
Proof.
  intros Ha Hb m Ho. destruct (Ha m Ho) as (Ho1 & e1 & E1 & <-).
  destruct (Hb (a m) Ho1) as (Ho2 & e2 & E2 & <-). split; [done|].
  exists (e2 ++ e1). unfold seqc. by rewrite E2, E1, <- app_assoc, omap_app.
Qed.
Lemma sends_if l g a b : sends l a -> sends l b -> sends l (ifc g a b).
Proof. intros Ha Hb m Ho. unfold ifc. destruct (g m); auto. Qed.
Lemma sends_skip : sends [] skip.
Proof. intros m Ho. split; [done|]. by exists []. Qed.
Lemma sends_when g a : sends [] a -> sends [] (whenc g a).
Proof. intros H. apply sends_if; [done|apply sends_skip]. Qed.
Lemma sends_setw f : sends [] (setw f).
Proof. intros m Ho. split; [done|]. by exists []. Qed.
Lemma omap_silent l : Forall silent l -> omap tell l = [].
Proof.
  induction 1 as [|e l [_ Hn] F IH]; [done|]. cbn. rewrite IH.
  by destruct e; try destruct (Hn I).
Qed.
Lemma sends_call c :
  respects (emits silent) c -> respects (same (fun s => isWebsocketBooted (glob s))) c ->
  sends [] (call c).
Proof.
  intros He Hb m Ho. change (line (call c m)) with (c (line m)). split.
  - unfold is_online. change (line (call c m)) with (c (line m)). by rewrite (Hb (line m)).
  - destruct (He (line m)) as (l & E & F). exists l. split; [done|].
    by apply omap_silent.
Qed.
Lemma sends_notify e st v : sends [(e, st)] (whenc is_online (call (notify e st v))).
Proof.
  intros m Ho. unfold whenc, ifc. rewrite Ho. split; [exact Ho|]. eexists [_]. by split.
Qed.

Ltac sends_call_tac :=
  apply sends_call; unfold_line;
  [ respects_tac ltac:(first
      [ apply emits_emit; unfold silent, quiet; cbn; naive_solver
      | intros ?; exists []; split; [reflexivity | constructor] ])
  | respects_tac ltac:(intros ?; reflexivity) ].

Lemma sends_report e st v l : sends [(e, st)] (report e st v l).
Proof.
  apply (sends_seq [(e, st)] []); [apply sends_notify|].
  intros m Ho. unfold withs. revert m Ho.
  assert (forall b, sends [] (call (show l b))) by (intros b; sends_call_tac).
  intros m Ho. by apply H.
Qed.

(** Walk down a report that sends one notification. *)
Ltac sends_tac :=
  repeat lazymatch goal with
    | |- sends _ (report _ _ _ _) => apply sends_report
    | |- sends _ (whenc is_online (call (notify _ _ _))) => apply sends_notify
    | |- sends [?x] (seqc (report _ _ _ _) _) => apply (sends_seq [x] [])
    | |- sends [?x] (seqc (whenc is_online (call (notify _ _ _))) _) => apply (sends_seq [x] [])
    | |- sends ?l (seqc _ _) => apply (sends_seq [] l)
    | |- sends _ (ifc _ _ _) => apply sends_if
    | |- sends [] (whenc _ _) => apply sends_when
    | |- sends [] (setw _) => apply sends_setw
    | |- sends [] skip => apply sends_skip
    | |- sends [] (call _) => sends_call_tac
    end.

Lemma sends_unavailable id : sends [("NoError", "Unavailable")] (report_unavailable id).
Proof. unfold report_unavailable, report_ok. sends_tac. Qed.
Lemma sends_reserved id : sends [("NoError", "Reserved")] (report_reserved id).
Proof. unfold report_reserved, report_ok. sends_tac. Qed.
Lemma sends_available id : sends [("NoError", "Available")] (report_available id).
Proof. unfold report_available, report_ok. sends_tac. Qed.
Lemma sends_suspended id : sends [("NoError", "SuspendedEV")] (report_suspended id).
Proof. unfold report_suspended, report_ok. sends_tac. Qed.
Lemma sends_charging b : sends [("NoError", "Charging")] (report_charging b).
Proof. unfold report_charging, report_ok. sends_tac. Qed.
Lemma sends_ev_error id : sends [("EVCommunicationError", "Faulted")] (report_ev_error id).
Proof. unfold report_ev_error. sends_tac. Qed.
Lemma sends_remember : sends [] remember.
Proof.
  unfold remember. apply (sends_seq [] []); [intros m; apply sends_setw|]. sends_tac.
Qed.

(** [sends] at one state. *)
Definition sends_at (l : list (string * string)) (c : cmd monitor) (m : monitor) : Prop :=
  is_online (c m) = true /\
  exists es, trace (glob (line (c m))) = es ++ trace (glob (line m)) /\ omap tell es = l.

Lemma sends_at_seq l a b m :
  sends [] a -> is_online m = true -> sends_at l b (a m) -> sends_at l (a ;; b) m.
Proof.
  intros Ha Ho (Ho2 & e2 & E2 & <-). destruct (Ha m Ho) as (Ho1 & e1 & E1 & H1). split; [done|].
  exists (e2 ++ e1). unfold seqc. by rewrite E2, E1, <- app_assoc, omap_app, H1, app_nil_r.
Qed.

Lemma sends_plugged id b m :
  is_online m = true ->
  sends_at [("NoError", if finishingStatusPending (me (line m)) || finishingStatusSent (me (line m))
                        then "Finishing" else "Preparing")] (report_plugged id b) m.
Proof.
  intros Ho. unfold report_plugged.
  apply sends_at_seq; [sends_call_tac|done|]. apply sends_at_seq; [apply sends_setw|done|].
  set (m1 := setw _ (call _ m)).
  assert (Ho1 : is_online m1 = true) by exact Ho.
  change (finishingStatusPending (me (line m))) with (finishingStatusPending (me (line m1))).
  change (finishingStatusSent (me (line m))) with (finishingStatusSent (me (line m1))).
  clearbody m1. unfold sends_at, ifc. destruct (_ || _).
  - eassert (H : sends [("NoError", "Finishing")] _); [|exact (H m1 Ho1)]. unfold report_ok. sends_tac.
  - eassert (H : sends [("NoError", "Preparing")] _); [|exact (H m1 Ho1)]. unfold report_ok. sends_tac.
Qed.

Lemma idle_spec t :
  idle t = negb (bool_decide (t = flag_EVSE_Request_Charge)) &&
           negb (bool_decide (t = flag_EVSE_Stop_Transaction)).
Proof. by destruct t. Qed.
Lemma charging_spec t : charging t = bool_decide (t = flag_EVSE_Request_Charge).
Proof. by destruct t. Qed.

(** Online, nothing in fault, over a new connection and with nothing counted
    as seen, the [else if] chain sends the connector's status. *)
Lemma report_status_sends id m :
  is_online m = true -> connection_changed m = true -> reservedStatusSent (seen m) = false ->
  connectorFault (me (line m)) = false ->
  sends_at (option_list (ocpp_status (me (line m)))) (report_status id) m.
Proof.
  intros Ho Hc Hr Hf. unfold sends_at, report_status, ifc.
  unfold turns_unavailable, turns_reserved, turns_available, turns_plugged, turns_suspended,
    turns_charging, turns_disconnected, turns_ev_error, open_for_use, between_sessions,
    pilot, unfaulted, pilot_is, cdata, task_is.
  rewrite Hc, Hr, Hf, !orb_true_r, ?orb_true_l, !andb_true_r, ?orb_false_r. cbn [negb].
  unfold ocpp_status, plugged_status.
  destruct (CmsAvailable (ConnectorData (me (line m)))); cbn [negb andb];
    [|exact (sends_unavailable id m Ho)].
  destruct (isReserved (ConnectorData (me (line m)))); cbn [negb andb orb];
    [exact (sends_reserved id m Ho)|].
  rewrite idle_spec, charging_spec.
  pose proof (sends_plugged id true m Ho) as Hb1. pose proof (sends_plugged id false m Ho) as He2.
  pose proof (sends_available id m Ho) as Ha. pose proof (sends_suspended id m Ho) as Hs.
  pose proof (sends_charging true m Ho) as Hcc. pose proof (sends_charging false m Ho) as Hd.
  pose proof (sends_ev_error id m Ho) as He. pose proof (sends_skip m Ho) as Hn.
  unfold sends_at in Hb1, He2.
  revert Hb1 He2 Ha Hs Hcc Hd He Hn.
  generalize (report_plugged id true m), (report_plugged id false m), (report_available id m),
    (report_suspended id m), (report_charging true m), (report_charging false m),
    (report_ev_error id m), (skip m).
  generalize (cpEnable (me (line m))), (bool_decide (taskState (me (line m)) = flag_EVSE_Request_Charge)),
    (bool_decide (taskState (me (line m)) = flag_EVSE_Stop_Transaction)), (pilot_changed m),
    (cpState (me (line m))).
  intros pilot charge stop changed x. intros.
  destruct pilot; cbn [negb]; rewrite ?andb_true_r, ?andb_false_r, ?orb_true_r, ?orb_false_r; cbn [andb orb];
    [|by destruct charge, stop].
  repeat match goal with |- context [x =? ?y] =>
    destruct (Z.eqb_spec x y) as [->|_]; [cbn [Z.eqb] | cbn [andb]] end.
  all: destruct charge, stop, changed; assumption.
Qed.

Lemma recover_unfaulted id m : connectorFault_old (seen m) = false -> recover id m = m.
Proof. intros H. unfold recover, whenc, ifc. by rewrite H. Qed.

(** A turn without fault, before and after. *)
Lemma turn_unfaulted id mf m :
  watched m = true -> connectorFault_old (seen m) = false ->
  (forall f, active (sample id mf (line m)) f = false) ->
  exists m1, status_turn id mf m = remember (report_status id m1) /\
    line m1 = (sample id mf (line m)) <| me := (me (sample id mf (line m))) <| connectorFault := false |> |> /\
    seen m1 = seen (forget_on_request m) /\
    isWebsocketConnected_Now m1 = isWebsocketConnected_Now m /\
    isWebsocketConnected_old m1 = isWebsocketConnected_old m.
Proof.
  intros Hw Hc Ha.
  destruct (forget_on_request_spec m) as (El & En & Eo & Ec & _).
  set (m0 := call (sample id mf) (forget_on_request m)).
  assert (El0 : line m0 = sample id mf (line m)) by (unfold m0; cbn [call update line]; by rewrite <- El).
  assert (Hf : faulting (line m0) = false).
  { rewrite El0. destruct (faulting _) eqn:E; [|done].
    apply faulting_spec in E as (f & _ & E). by rewrite Ha in E. }
  set (m1 := call (setm (fun c => c <| connectorFault := false |>)) m0).
  exists m1.
  assert (El1 : line m1 = (line m0) <| me := (me (line m0)) <| connectorFault := false |> |>) by reflexivity.
  split_and!.
  - unfold status_turn, whenc, ifc, seqc. rewrite Hw. fold m0.
    assert (E : classify m0 = m1) by (unfold classify, ifc; by rewrite Hf).
    rewrite E, recover_unfaulted by (rewrite <- Hc, <- Ec; reflexivity).
    unfold report_change, withs.
    rewrite (proj2 (first_fault_none (reportable m1))); [done|].
    intros f. unfold reportable.
    assert (Ea : active (line m1) f = active (line m0) f) by (rewrite El1; by destruct f).
    by rewrite Ea, El0, Ha.
  - by rewrite El1, El0.
  - reflexivity.
  - by rewrite <- En.
  - by rewrite <- Eo.
Qed.

(** Claim C31.  When a connector without fault, with a control pilot or without
    one, is looked at again over a new connection, with nothing counted as seen,
    the central system is told exactly its OCPP status by the table
    [ocpp_status], and nothing else. *)
Theorem status_after_reconnection id mf m :
  watched m = true -> is_online m = true -> connection_changed m = true ->
  connectorsOfflineDataSent (seen m) || updateStatusAfterBoot (seen m) || bootedNow m = true ->
  connectorFault_old (seen m) = false ->
  (forall f, active (sample id mf (line m)) f = false) ->
  exists es, trace (glob (line (status_turn id mf m))) = es ++ trace (glob (line m)) /\
    omap tell es = option_list (ocpp_status (me (line m))).
Proof.
  intros Hw Ho Hc Hs Hf Ha.
  destruct (turn_unfaulted id mf m Hw Hf Ha) as (m1 & -> & El & Ew & En & Eo).
  assert (Ho1 : is_online m1 = true).
  { unfold is_online. rewrite En, El. exact Ho. }
  assert (Hr : reservedStatusSent (seen m1) = false).
  { rewrite Ew. revert Hs. unfold forget_on_request, seqc, whenc, ifc, setw, skip.
    destruct m as [s w n o b], w as [e fo co fa re st fr od up]; cbn.
    by destruct od, up, b. }
  destruct (report_status_sends id m1) as [H1 (es & E1 & E2)].
  - exact Ho1.
  - unfold connection_changed. by rewrite En, Eo.
  - exact Hr.
  - by rewrite El.
  - destruct (sends_remember _ H1) as [_ (es2 & E3 & E4)].
    exists (es2 ++ es). rewrite E3, E1, El, <- app_assoc, omap_app, E2, E4. split; [done|].
    cbn [app]. by rewrite El.
Qed.

(** A connector left plugged in after its session while the connection was
    lost. *)
Definition example_plugged : monitor :=
  (example_monitor true)
    <| isWebsocketConnected_old := false |>
    <| line := (line (example_monitor true)) <| me := example_conn <| finishingStatusSent := true |> |> |>
    <| seen := example_watch <| connectorsOfflineDataSent := true |> |>.

(** The same connector without a pilot, whose session is over. *)
Definition example_pilotless : monitor :=
  example_plugged <| line := (line example_plugged) <| me := (me (line example_plugged)) <| cpEnable := false |> |> |>.

Lemma status_after_reconnection_witness :
  (exists es, trace (glob (line (status_turn Conn1 no_meter_faults example_plugged))) = es /\
     omap tell es = [("NoError", "Finishing")]) /\
  (exists es, trace (glob (line (status_turn Conn1 no_meter_faults example_pilotless))) = es /\
     omap tell es = [("NoError", "Available")]).
Proof.
  split.
  - destruct (status_after_reconnection Conn1 no_meter_faults example_plugged) as (es & E1 & E2); try done.
    + by intros [].
    + exists es. rewrite app_nil_r in E1. by split.
  - destruct (status_after_reconnection Conn1 no_meter_faults example_pilotless) as (es & E1 & E2); try done.
    + by intros [].
    + exists es. rewrite app_nil_r in E1. by split.
Defined.

(** ** Two corners of the code *)

Definition example_idle : monitor :=
  (example_monitor true)
    <| line := (line (example_monitor true)) <| me := example_conn <| cpState := STATE_A |> |> |>
    <| seen := example_watch <| cpState_old := STATE_A |> <| StatusState := STATUS_AVAILABLE |> |>.
Definition meter_fails : MeterFaults_t := mkMeterFaults false false false false false true.

(** A failing energy meter is not one of the faults that fault a connector:
    it is announced on one turn and taken back on the next, while it lasts. *)
Example meter_failure_taken_back :
  let m1 := status_turn Conn1 meter_fails example_idle in
  let m2 := status_turn Conn1 meter_fails m1 in
  omap tell (trace (glob (line m2))) =
    [("NoError", "Available"); ("PowerMeterFailure", "Faulted")] /\
  connectorFault (me (line m2)) = false.
Proof. vm_compute. by split. Qed.

(** The relay weld's vendor code is written over the earth fault's. *)
Example weld_code_mixed :
  let m0 := example_idle <| line := (line example_idle)
              <| glob := (glob (line example_idle)) <| earthDisconnectButton := true |> |> |> in
  let m1 := status_turn Conn1 no_meter_faults m0 in
  let m2 := status_turn Conn1 no_meter_faults (m1 <| line := (line m1)
              <| glob := (glob (line m1)) <| earthDisconnectButton := false |>
                           <| relayWeldDetectionButton := true |> |> |>) in
  sn_vendorErrorCode (CPStatusNotificationRequest (me (line m2))) = "WeldDetectnnect".
Proof. vm_compute. reflexivity. Qed.

(** A connection lost while an iteration runs is not a change for the next
    one, which compares with what the connection was at the end. *)
Lemma loss_during_iteration_missed (m : monitor) (f : session -> session) :
  connection_changed (begin_of_iteration (end_of_iteration (m <| line := f (line m) |>))) = false.
Proof. unfold connection_changed. cbn. by destruct (isWebsocketConnected _). Qed.
