(* ===== verification/Led.v ===== *)
(** * LED states and the LED strip ([main/ocpp_task.c], [main/ledStrip.c])

    After the statuses, the charge point task settles each connector's LED
    state (a tapped card shows for one second, the upload of the logs replaces
    the emergency's) and, when it changed, gives its colour to the slave board
    or to the strip's task; the strip's task redraws every half second. *)

From S2P Require Import Prelude Config EnergyMeter ControlPilot Session Status.

(** ** Colours ([slave.h], [ocpp_task.h]) *)

Inductive ledColors_t :=
  | SOLID_BLACK | SOLID_WHITE | SOLID_ORANGE | SOLID_GREEN | SOLID_BLUE | SOLID_RED
  | BLINK_BLUE | BLINK_GREEN | BLINK_RED | BLINK_WHITE
  | SOLID_GREEN5_SOLID_WHITE1 | BLINK_BLUE5_SOLID_WHITE1 | SOLID_BLUE5_SOLID_WHITE1
  | BLINK_GREEN5_SOLID_WHITE1 | SOLID_GREEN3_SOLID_BLUE1
  | SOLID_GREEN3_SOLID_BLUE1_SOLID_WHITE1 | BLINK_RED5_SOLID_WHITE1
  | SOLID_RED5_SOLID_WHITE1 | SOLID_BLUE5_BLINK_WHITE1.

#[export] Instance ledColors_eq_dec : EqDecision ledColors_t.
Proof. solve_decision. Defined.

(** The value of the enumeration, as it goes to the slave board. *)
Definition color_code (c : ledColors_t) : Z :=
  match c with
  | SOLID_BLACK => 0 | SOLID_WHITE => 1 | SOLID_ORANGE => 2 | SOLID_GREEN => 3
  | SOLID_BLUE => 4 | SOLID_RED => 5 | BLINK_BLUE => 6 | BLINK_GREEN => 7
  | BLINK_RED => 8 | BLINK_WHITE => 9 | SOLID_GREEN5_SOLID_WHITE1 => 10
  | BLINK_BLUE5_SOLID_WHITE1 => 11 | SOLID_BLUE5_SOLID_WHITE1 => 12
  | BLINK_GREEN5_SOLID_WHITE1 => 13 | SOLID_GREEN3_SOLID_BLUE1 => 14
  | SOLID_GREEN3_SOLID_BLUE1_SOLID_WHITE1 => 15 | BLINK_RED5_SOLID_WHITE1 => 16
  | SOLID_RED5_SOLID_WHITE1 => 17 | SOLID_BLUE5_BLINK_WHITE1 => 18
  end.

Definition POWERON_LED := SOLID_WHITE.
Definition OTA_LED := SOLID_ORANGE.
Definition COMMISSIONING_LED := SOLID_ORANGE.
Definition AVAILABLE_LED := SOLID_GREEN.
Definition OFFLINE_AVAILABLE_LED := SOLID_GREEN5_SOLID_WHITE1.
Definition PREPARING_LED := BLINK_BLUE.
Definition OFFLINE_PREPARING_LED := BLINK_BLUE5_SOLID_WHITE1.
Definition SUSPENDED_LED := SOLID_BLUE.
Definition OFFLINE_SUSPENDED_LED := SOLID_BLUE5_SOLID_WHITE1.
Definition CHARGING_LED := BLINK_GREEN.
Definition OFFLINE_CHARGING_LED := BLINK_GREEN5_SOLID_WHITE1.
Definition FINISHING_LED := SOLID_GREEN3_SOLID_BLUE1.
Definition OFFLINE_FINISHING_LED := SOLID_GREEN3_SOLID_BLUE1_SOLID_WHITE1.
Definition EMERGENCY_FAULT_LED := BLINK_RED.
Definition OFFLINE_EMERGENCY_FAULT_LED := BLINK_RED5_SOLID_WHITE1.
Definition FAULT_LED := SOLID_RED.
Definition OFFLINE_FAULT_LED := SOLID_RED5_SOLID_WHITE1.
Definition RESERVATION_LED := SOLID_BLUE.
Definition OFFLINE_RESERVATION_LED := SOLID_BLUE5_BLINK_WHITE1.
Definition UNAVAILABLE_LED := SOLID_BLUE.
Definition OFFLINE_UNAVAILABLE_LED := SOLID_BLUE5_BLINK_WHITE1.
Definition RFID_TAPPED_LED := BLINK_WHITE.
Definition ONLINE_ONLY_AVAILABLE_LED := SOLID_GREEN.
Definition ONLINE_ONLY_OFFLINE_AVAILABLE_LED := BLINK_WHITE.
Definition ONLINE_ONLY_PREPARING_LED := BLINK_BLUE.
Definition ONLINE_ONLY_OFFLINE_PREPARING_LED := BLINK_WHITE.
Definition ONLINE_ONLY_SUSPENDED_LED := SOLID_BLUE.
Definition ONLINE_ONLY_OFFLINE_SUSPENDED_LED := SOLID_BLUE5_SOLID_WHITE1.
Definition ONLINE_ONLY_CHARGING_LED := BLINK_GREEN.
Definition ONLINE_ONLY_OFFLINE_CHARGING_LED := BLINK_GREEN5_SOLID_WHITE1.
Definition ONLINE_ONLY_FINISHING_LED := SOLID_GREEN3_SOLID_BLUE1.
Definition ONLINE_ONLY_OFFLINE_FINISHING_LED := SOLID_GREEN3_SOLID_BLUE1_SOLID_WHITE1.
Definition ONLINE_ONLY_EMERGENCY_LED := BLINK_RED.
Definition ONLINE_ONLY_OFFLINE_EMERGENCY_LED := BLINK_RED5_SOLID_WHITE1.
Definition ONLINE_ONLY_FAULT_LED := SOLID_RED.
Definition ONLINE_ONLY_OFFLINE_FAULT_LED := SOLID_RED5_SOLID_WHITE1.
Definition ONLINE_ONLY_RESERVATION_LED := SOLID_BLUE.
Definition ONLINE_ONLY_OFFLINE_RESERVATION_LED := SOLID_BLUE5_SOLID_WHITE1.
Definition ONLINE_ONLY_UNAVAILABLE_LED := SOLID_BLUE.
Definition ONLINE_ONLY_OFFLINE_UNAVAILABLE_LED := SOLID_BLUE5_SOLID_WHITE1.
Definition OFFLINE_ONLY_AVAILABLE_LED := SOLID_GREEN.
Definition OFFLINE_ONLY_PREPARING_LED := BLINK_BLUE.
Definition OFFLINE_ONLY_SUSPENDED_LED := SOLID_BLUE.
Definition OFFLINE_ONLY_CHARGING_LED := BLINK_GREEN.
Definition OFFLINE_ONLY_FINISHING_LED := SOLID_GREEN3_SOLID_BLUE1.
Definition OFFLINE_ONLY_EMERGENCY_LED := BLINK_RED.
Definition OFFLINE_ONLY_FAULT_LED := SOLID_RED.
Definition OFFLINE_ONLY_RFID_TAPPED_LED := SOLID_WHITE.

Definition RFID_TAPPED_LED_STATE := 22.
Definition OFFLINE_ONLY_RFID_TAPPED_LED_STATE := 48.
Definition EMERGENCY_LOGS_LED_STATE := 49.

(** The [switch] of the LED states, by the value of [ledStates_t]; the first
    and last have no arm. *)
Definition state_colors : list (option ledColors_t) :=
  [None;
   Some POWERON_LED; Some OTA_LED;
   Some COMMISSIONING_LED; Some AVAILABLE_LED;
   Some OFFLINE_AVAILABLE_LED; Some PREPARING_LED;
   Some OFFLINE_PREPARING_LED; Some SUSPENDED_LED;
   Some OFFLINE_SUSPENDED_LED; Some CHARGING_LED;
   Some OFFLINE_CHARGING_LED; Some FINISHING_LED;
   Some OFFLINE_FINISHING_LED; Some EMERGENCY_FAULT_LED;
   Some OFFLINE_EMERGENCY_FAULT_LED; Some FAULT_LED;
   Some OFFLINE_FAULT_LED; Some RESERVATION_LED;
   Some OFFLINE_RESERVATION_LED; Some UNAVAILABLE_LED;
   Some OFFLINE_UNAVAILABLE_LED; Some RFID_TAPPED_LED;
   Some ONLINE_ONLY_AVAILABLE_LED; Some ONLINE_ONLY_OFFLINE_AVAILABLE_LED;
   Some ONLINE_ONLY_PREPARING_LED; Some ONLINE_ONLY_OFFLINE_PREPARING_LED;
   Some ONLINE_ONLY_SUSPENDED_LED; Some ONLINE_ONLY_OFFLINE_SUSPENDED_LED;
   Some ONLINE_ONLY_CHARGING_LED; Some ONLINE_ONLY_OFFLINE_CHARGING_LED;
   Some ONLINE_ONLY_FINISHING_LED; Some ONLINE_ONLY_OFFLINE_FINISHING_LED;
   Some ONLINE_ONLY_EMERGENCY_LED; Some ONLINE_ONLY_OFFLINE_EMERGENCY_LED;
   Some ONLINE_ONLY_FAULT_LED; Some ONLINE_ONLY_OFFLINE_FAULT_LED;
   Some ONLINE_ONLY_RESERVATION_LED; Some ONLINE_ONLY_OFFLINE_RESERVATION_LED;
   Some ONLINE_ONLY_UNAVAILABLE_LED; Some ONLINE_ONLY_OFFLINE_UNAVAILABLE_LED;
   Some OFFLINE_ONLY_AVAILABLE_LED; Some OFFLINE_ONLY_PREPARING_LED;
   Some OFFLINE_ONLY_SUSPENDED_LED; Some OFFLINE_ONLY_CHARGING_LED;
   Some OFFLINE_ONLY_FINISHING_LED; Some OFFLINE_ONLY_EMERGENCY_LED;
   Some OFFLINE_ONLY_FAULT_LED; Some OFFLINE_ONLY_RFID_TAPPED_LED;
   None].
Definition color_of (st : Z) : option ledColors_t :=
  if st <? 0 then None else nth (Z.to_nat st) state_colors None.

(** ** The LED states' turn *)

Record lamp := mkLamp {
  monitored : monitor;
  uploadingLogs : bool;
  rfidTappedBlinkLed : bool;
  isRfidLedProcessed : bool;
  ledState_Before_Rfid : Z;
  ledState_old : Z;
  ledStateColor : ledColors_t
}.
#[export] Instance lamp_rebuild : Rebuild lamp := fun l =>
  mkLamp (monitored l) (uploadingLogs l) (rfidTappedBlinkLed l) (isRfidLedProcessed l)
    (ledState_Before_Rfid l) (ledState_old l) (ledStateColor l).

Definition connector (l : lamp) : conn := me (line (monitored l)).
Definition settings (l : lamp) : Config_t := config (glob (line (monitored l))).
Definition led (l : lamp) : Z := ledState (connector l).
Definition set_led (st : lamp -> Z) : cmd lamp := fun l =>
  l <| monitored := call (setm (fun c => c <| ledState := st l |>)) (monitored l) |>.
Definition slave_led (id : cid) (c : ledColors_t) : cmd lamp := fun l =>
  l <| monitored := call (emit (fun _ => EvSlaveSetLedColor (cid_to_Z id) (color_code c))) (monitored l) |>.

Definition emergency_logs : cmd lamp :=
  WHEN fun l => (led l =? EMERGENCY_FAULT_LED_STATE) || (led l =? EMERGENCY_LOGS_LED_STATE) THEN
    set_led (fun l => if uploadingLogs l then EMERGENCY_LOGS_LED_STATE
                      else EMERGENCY_FAULT_LED_STATE)
  FI.

Definition tapped_state (c : Config_t) : Z :=
  if offline c then OFFLINE_ONLY_RFID_TAPPED_LED_STATE else RFID_TAPPED_LED_STATE.

Definition blink_on_tap : cmd lamp :=
  WHEN fun l => rfidTappedBlinkLed l && negb (isRfidLedProcessed l) THEN
    (fun l => l <| rfidTappedBlinkLed := false |> <| ledState_Before_Rfid := led l |>) ;;
    set_led (fun l => tapped_state (settings l)) ;;
    (fun l => l <| isRfidLedProcessed := true |>)
  FI.

Definition end_blink : cmd lamp :=
  WHEN fun l =>
    ((ledState_old l =? RFID_TAPPED_LED_STATE) && (led l =? RFID_TAPPED_LED_STATE)
     && negb (offline (settings l)))
    || ((ledState_old l =? OFFLINE_ONLY_RFID_TAPPED_LED_STATE)
        && (led l =? OFFLINE_ONLY_RFID_TAPPED_LED_STATE) && offline (settings l))
  THEN set_led ledState_Before_Rfid FI.

Definition booted (l : lamp) : bool := negb (task_is flag_EVSE_initialisation (monitored l)).

Definition set_color (id : cid) : cmd lamp :=
  WHEN fun l => connectorEnabled (seen (monitored l)) && negb (led l =? ledState_old l)
                && booted l THEN
    withs (fun l =>
      match color_of (led l) with
      | Some c => IF fun l => vcharge_lite_1_4 (settings l) THEN slave_led id c
                  ELSE (fun l => l <| ledStateColor := c |>) FI
      | None => skip
      end) ;;
    (fun l => l <| ledState_old := led l |>)
  FI.

Definition led_turn (id : cid) : cmd lamp :=
  emergency_logs ;; blink_on_tap ;; end_blink ;; set_color id.

(** The reader's part of the iteration, for the LED: [tapped] when the card is
    new in this iteration, [reading] when it is still to be handled at the end
    of it. *)
Definition tap_flags (tapped reading : bool) : cmd lamp :=
  WHEN fun _ => tapped THEN (fun l => l <| rfidTappedBlinkLed := true |>) FI ;;
  WHEN fun _ => negb reading THEN (fun l => l <| isRfidLedProcessed := false |>) FI.

(** ** The strip ([LedTask1]) *)

Definition EXAMPLE_LED_NUMBERS := 10.
Definition rgb : Type := Z * Z * Z.
Definition dark : rgb := (0, 0, 0).
Definition white : rgb := (255, 255, 255).
Definition orange : rgb := (255, 255, 0).
Definition green : rgb := (0, 255, 0).
Definition blue : rgb := (0, 0, 255).
Definition red : rgb := (255, 0, 0).

(** [led_strip_clear] and [setLEDColor]: the pixels of the strip. *)
Definition cleared : list rgb := replicate (Z.to_nat EXAMPLE_LED_NUMBERS) dark.
Definition setLEDColor (c : rgb) (ledsToGlow : Z) : list rgb :=
  map (fun j => if Z.of_nat j <? ledsToGlow then c else dark)
    (seq 0 (Z.to_nat EXAMPLE_LED_NUMBERS)).
Definition full (c : rgb) : list rgb := setLEDColor c EXAMPLE_LED_NUMBERS.

(** Lit on even counts; [c1] five seconds then [c2] one. *)
Definition blink (c : rgb) (n : Z) : list rgb := if n mod 2 =? 0 then full c else cleared.
Definition five_one (c1 c2 : rgb) (n : Z) : list rgb :=
  if n mod 12 <? 10 then full c1 else full c2.
Definition blink_five_one (c : rgb) (n : Z) : list rgb :=
  if (n mod 12 <? 10) && (n mod 2 =? 0) then full c
  else if (n mod 12 <? 10) && (n mod 2 =? 1) then cleared
  else full white.

(** The frame of a colour at count [n]. *)
Definition frame (c : ledColors_t) (n : Z) : list rgb :=
  match c with
  | SOLID_BLACK => cleared
  | SOLID_WHITE => full white
  | SOLID_ORANGE => setLEDColor orange (n mod EXAMPLE_LED_NUMBERS + 1)
  | SOLID_GREEN => full green
  | SOLID_BLUE => full blue
  | SOLID_RED => full red
  | BLINK_BLUE => blink blue n
  | BLINK_GREEN => blink green n
  | BLINK_RED => blink red n
  | BLINK_WHITE => blink white n
  | SOLID_GREEN5_SOLID_WHITE1 => five_one green white n
  | BLINK_BLUE5_SOLID_WHITE1 => blink_five_one blue n
  | SOLID_BLUE5_SOLID_WHITE1 => five_one blue white n
  | BLINK_GREEN5_SOLID_WHITE1 => blink_five_one green n
  | SOLID_GREEN3_SOLID_BLUE1 => if n mod 8 <? 6 then full green else full blue
  | SOLID_GREEN3_SOLID_BLUE1_SOLID_WHITE1 =>
      if n mod 10 <? 6 then full green else if n mod 10 <? 8 then full blue else full white
  | BLINK_RED5_SOLID_WHITE1 => blink_five_one red n
  | SOLID_RED5_SOLID_WHITE1 => five_one red white n
  | SOLID_BLUE5_BLINK_WHITE1 =>
      if n mod 12 <? 10 then full blue else if n mod 2 =? 0 then full white else cleared
  end.

(** [LedTask1]: the count (a [uint8_t]), the last colour, and what is drawn. *)
Record strip := mkStrip {
  led_loopCount : Z;
  ledStateColor_old : ledColors_t;
  pixels : list rgb
}.
#[export] Instance strip_rebuild : Rebuild strip := fun s =>
  mkStrip (led_loopCount s) (ledStateColor_old s) (pixels s).

(** One pass of its loop, half a second. *)
Definition LedTask1 (c : ledColors_t) : cmd strip :=
  WHEN fun s => negb (bool_decide (c = ledStateColor_old s)) THEN
    (fun s => s <| led_loopCount := 0 |>) FI ;;
  (fun s => s <| pixels := frame c (led_loopCount s) |>) ;;
  (fun s => s <| ledStateColor_old := c |> <| led_loopCount := u8 (led_loopCount s + 1) |>).
