(* ===== verification/LedSpec.v ===== *)
(** * Properties of the LED states and the strip ([Led.v])

    A fault reaches the strip as red, what the strip draws in time, and the
    second for which a tapped card shows. *)

From S2P Require Import Prelude Config EnergyMeter ControlPilot Session SessionSpec Status StatusSpec Led.

(** ** The strip *)

Lemma strip_counts c s k :
  ledStateColor_old s <> c ->
  let s' := iter (S k) (LedTask1 c) s in
  led_loopCount s' = u8 (Z.of_nat k + 1) /\ ledStateColor_old s' = c.
Proof.
  intros Hc. induction k as [|k IH].
  - cbn. unfold LedTask1, seqc, whenc, ifc, skip.
    rewrite bool_decide_false by congruence. cbn. split; [|done]. reflexivity.
  - cbv zeta in *. rewrite iter_S. destruct IH as [E1 E2].
    set (s1 := iter (S k) (LedTask1 c) s) in *. unfold LedTask1, seqc, whenc, ifc, skip.
    rewrite bool_decide_true by done. split; [|done].
    change (led_loopCount _) with (u8 (led_loopCount s1 + 1)). rewrite E1. unfold u8. rewrite Zplus_mod_idemp_l. f_equal. lia.
Qed.

(** Counting from a change of colour, the strip's [k]-th redraw
    shows the colour's frame [k] modulo 256: its pattern runs on until the
    8-bit count wraps. *)
Theorem strip_draws_frames c s k :
  ledStateColor_old s <> c ->
  pixels (iter (S k) (LedTask1 c) s) = frame c (Z.of_nat k mod 256).
Proof.
  intros Hc. rewrite iter_S. destruct k as [|k].
  - unfold LedTask1, seqc, whenc, ifc, skip. cbn [iter]. by rewrite bool_decide_false by congruence.
  - destruct (strip_counts c s k Hc) as [E1 E2].
    set (s1 := iter (S k) (LedTask1 c) s) in *. unfold LedTask1, seqc, whenc, ifc, skip.
    rewrite bool_decide_true by done.
    change (frame c (led_loopCount s1) = frame c (Z.of_nat (S k) mod 256)). rewrite E1. unfold u8. do 2 f_equal. lia.
Qed.

Lemma strip_draws_frames_witness :
  pixels (iter 11 (LedTask1 SOLID_RED5_SOLID_WHITE1) (mkStrip 7 SOLID_GREEN [])) = full white.
Proof. rewrite strip_draws_frames; [reflexivity|done]. Defined.

(** The colours that say fault: red, steady or blinking, with a white second
    in six when offline. *)
Definition is_red (c : ledColors_t) : bool :=
  match c with
  | SOLID_RED | BLINK_RED | BLINK_RED5_SOLID_WHITE1 | SOLID_RED5_SOLID_WHITE1 => true
  | _ => false
  end.

Lemma red_frame c n : is_red c = true -> 0 <= n < 10 -> n mod 2 = 0 -> frame c n = full red.
Proof.
  intros Hc Hn He. assert (H : (n mod 12 <? 10) = true) by (rewrite Z.mod_small; lia).
  destruct c; try done; cbn; unfold blink, five_one, blink_five_one; by rewrite ?H, ?He.
Qed.

Lemma fault_color_red f online c :
  exists r, color_of (led_of (leds_of_fault f) online c) = Some r /\ is_red r = true /\
  led_of (leds_of_fault f) online c <> RFID_TAPPED_LED_STATE /\
  led_of (leds_of_fault f) online c <> OFFLINE_ONLY_RFID_TAPPED_LED_STATE.
Proof.
  unfold led_of. destruct online, (onlineOffline c), (offline c), f; eexists; cbn;
    (split; [reflexivity|]); split_and!; done.
Qed.

(** ** The LED turn *)

(** No card shows, no logs go up. *)
Definition no_tap (l : lamp) : Prop :=
  rfidTappedBlinkLed l = false /\ led l <> RFID_TAPPED_LED_STATE /\
  led l <> OFFLINE_ONLY_RFID_TAPPED_LED_STATE.

Lemma emergency_logs_led l :
  uploadingLogs l = false -> led l <> EMERGENCY_LOGS_LED_STATE ->
  led (emergency_logs l) = led l.
Proof.
  intros Hu Hl. unfold emergency_logs, whenc, ifc, skip.
  destruct (Z.eqb_spec (led l) EMERGENCY_FAULT_LED_STATE) as [E|E]; cbn [orb].
  - change (led (set_led _ l)) with (if uploadingLogs l then EMERGENCY_LOGS_LED_STATE else EMERGENCY_FAULT_LED_STATE).
    by rewrite Hu.
  - by rewrite (proj2 (Z.eqb_neq _ _) Hl).
Qed.

Lemma emergency_logs_same {A} (p : lamp -> A) :
  (forall f l, p (set_led f l) = p l) -> forall l, p (emergency_logs l) = p l.
Proof. intros H l. unfold emergency_logs, whenc, ifc, skip. by case_match. Qed.

(** Without a card, a turn shows the state the connector is in. *)
Lemma led_turn_shows id l c :
  uploadingLogs l = false -> led l <> EMERGENCY_LOGS_LED_STATE -> no_tap l ->
  connectorEnabled (seen (monitored l)) = true -> booted l = true ->
  vcharge_lite_1_4 (settings l) = false -> color_of (led l) = Some c -> led l <> ledState_old l ->
  ledStateColor (led_turn id l) = c.
Proof.
  intros Hu Hl (Ht1 & Ht2 & Ht3) He Hb Hv Hc Hn.
  unfold led_turn. rewrite seqc_eq. set (l1 := emergency_logs l).
  assert (E1 : led l1 = led l) by by apply emergency_logs_led.
  assert (E2 : rfidTappedBlinkLed l1 = false)
    by (unfold l1; by rewrite (emergency_logs_same rfidTappedBlinkLed)).
  assert (E3 : ledState_old l1 = ledState_old l) by by apply (emergency_logs_same ledState_old).
  assert (E4 : connectorEnabled (seen (monitored l1)) = true)
    by (rewrite <- He; by apply (emergency_logs_same (fun l => connectorEnabled (seen (monitored l))))).
  assert (E5 : booted l1 = true) by (rewrite <- Hb; by apply (emergency_logs_same booted)).
  assert (E6 : vcharge_lite_1_4 (settings l1) = false)
    by (rewrite <- Hv; by apply (emergency_logs_same (fun l => vcharge_lite_1_4 (settings l)))).
  clearbody l1.
  unfold blink_on_tap, end_blink, set_color, seqc, whenc, ifc, withs, skip. rewrite E2. cbn [andb].
  rewrite E1, (proj2 (Z.eqb_neq _ _) Ht2), (proj2 (Z.eqb_neq _ _) Ht3), !andb_false_r. cbn [orb andb].
  rewrite E1, E3, E4, E5, (proj2 (Z.eqb_neq _ _) Hn). cbn [negb andb].
  rewrite Hc. cbv beta iota. by rewrite E6.
Qed.

Definition with_monitor (m : monitor) (l : lamp) : lamp := l <| monitored := m |>.

Lemma turn_keeps_settings id mf m :
  config (glob (line (status_turn id mf m))) = config (glob (line m)) /\
  connectorEnabled (seen (status_turn id mf m)) = connectorEnabled (seen m).
Proof.
  split.
  - assert (H : respects (on_line (same (fun s => config (glob s)))) (status_turn id mf));
      [|exact (H m)].
    unfold_turn. line_tac ltac:(intros ?; reflexivity).
  - assert (H : respects (same (fun m => connectorEnabled (seen m))) (status_turn id mf));
      [|exact (H m)].
    assert (Hs : forall s w, connectorEnabled (absorb s (retract s w)) = connectorEnabled w)
      by (intros s w; unfold absorb, retract; by repeat case_match).
    unfold_turn. respects_tac ltac:(idtac; lazymatch goal with
      | |- respects _ (setw (fun w => absorb _ _)) => intros ?; apply Hs
      | |- _ => intros ?; reflexivity
      end).
Qed.

Definition stays_booted (s s' : session) : Prop :=
  taskState (me s) <> flag_EVSE_initialisation -> taskState (me s') <> flag_EVSE_initialisation.
#[export] Instance stays_booted_preorder : PreOrder stays_booted.
Proof. split; [by intros s H|]. intros a b c H1 H2 H. auto. Qed.

Lemma turn_stays_booted id mf : respects (on_line stays_booted) (status_turn id mf).
Proof. unfold_turn. line_tac ltac:(intros ? ?; cbn; first [assumption | discriminate]). Qed.

(** A fault that is news reaches the eye: on a charger driving its
    own strip, with no card being shown and no logs going up, the LED turn
    that follows gives the strip a red colour, online or not and in every
    mode; and drawn anew, every other redraw of its first five seconds is the
    whole strip in red. *)
Theorem fault_seen_on_strip id mf l f s n :
  let m := monitored l in
  watched m = true -> first_fault (active (sample id mf (line m))) = Some f ->
  f <> MeterFailure_ -> is_news f m ->
  uploadingLogs l = false -> rfidTappedBlinkLed l = false ->
  vcharge_lite_1_4 (settings l) = false ->
  ledState_old l <> led_of (leds_of_fault f) (is_online m) (settings l) ->
  let c := ledStateColor (led_turn id (with_monitor (status_turn id mf m) l)) in
  is_red c = true /\
  (ledStateColor_old s <> c -> Z.of_nat n < 10 -> Z.of_nat n mod 2 = 0 ->
   pixels (iter (S n) (LedTask1 c) s) = full red).
Proof.
  intros m Hw Hf Hm Hn Hu Ht Hv Ho. cbv zeta.
  destruct (fault_color_red f (is_online m) (settings l)) as (c & Hc & Hr & Hl1 & Hl2).
  destruct (turn_keeps_settings id mf m) as [Hcfg Hen].
  assert (El : led (with_monitor (status_turn id mf m) l) = led_of (leds_of_fault f) (is_online m) (settings l)).
  { rewrite turn_faulted by eauto using first_fault_faulting.
    unfold led, connector. cbn [monitored with_monitor update].
    rewrite remember_line, (report_change_fault _ _ _ _ Hf), (news_reported _ _ _ _ Hf Hn).
    by destruct (report_fault_spec id mf m f) as (_ & _ & _ & H4). }
  rewrite (led_turn_shows id _ c); try done.
  - split; [done|]. intros Hs Hb He. rewrite strip_draws_frames, Z.mod_small by (done || lia).
    apply red_frame; [done|lia|done].
  - rewrite El. intros E. rewrite E in Hc. done.
  - split; [done|]. by rewrite El.
  - cbn [monitored with_monitor update]. rewrite Hen.
    unfold watched in Hw. by repeat apply andb_true_iff in Hw as [Hw _].
  - unfold booted, task_is. cbn [monitored with_monitor update].
    rewrite bool_decide_false; [done|]. apply (turn_stays_booted id mf m).
    unfold watched, task_is in Hw. apply andb_true_iff in Hw as [Hw _].
    apply andb_true_iff in Hw as [_ Hw]. by apply negb_true_iff, bool_decide_eq_false in Hw.
  - unfold settings. cbn [monitored with_monitor update]. by rewrite Hcfg.
  - by rewrite El.
  - rewrite El. cbn. congruence.
Qed.

Definition example_lamp (now : bool) : lamp :=
  mkLamp (with_gfci (example_monitor now)) false false false 0 CHARGING_LED_STATE BLINK_GREEN.

Lemma fault_seen_on_strip_witness :
  let c := ledStateColor (led_turn Conn1
             (with_monitor (status_turn Conn1 no_meter_faults (monitored (example_lamp false))) (example_lamp false))) in
  c = SOLID_RED5_SOLID_WHITE1 /\ pixels (iter 3 (LedTask1 c) (mkStrip 7 BLINK_GREEN [])) = full red.
Proof.
  cbv zeta. destruct (fault_seen_on_strip Conn1 no_meter_faults (example_lamp false) gfci_
    (mkStrip 7 BLINK_GREEN []) 2) as [_ H];
    [done|done|done|by left|done|done|done|done|].
  split; [reflexivity|]. apply H; [done|lia|done].
Defined.

(** ** A tapped card *)

(** What a LED turn looks at and leaves alone: one booted connector in use,
    no logs going up. *)
Definition in_use (off : bool) (l : lamp) : Prop :=
  connectorEnabled (seen (monitored l)) = true /\ booted l = true /\
  uploadingLogs l = false /\ offline (settings l) = off.

Record blinking := mkBlinking {
  b_led : Z; b_old : Z; b_before : Z; b_tap : bool; b_done : bool
}.
Definition view (l : lamp) : blinking :=
  mkBlinking (led l) (ledState_old l) (ledState_Before_Rfid l) (rfidTappedBlinkLed l)
    (isRfidLedProcessed l).

(** The LED turn on these: a tap not yet shown replaces the state by the
    tapped one, and a tapped state that was shown gives way to the one before. *)
Definition tapped_led (off : bool) : Z :=
  if off then OFFLINE_ONLY_RFID_TAPPED_LED_STATE else RFID_TAPPED_LED_STATE.
Definition blink_step (off : bool) (b : blinking) : blinking :=
  let tap := b_tap b && negb (b_done b) in
  let before := if tap then b_led b else b_before b in
  let st := if tap then tapped_led off else b_led b in
  let st := if (b_old b =? tapped_led off) && (st =? tapped_led off) then before else st in
  mkBlinking st st before (if tap then false else b_tap b) (b_done b || tap).
Definition flag_step (tapped reading : bool) (b : blinking) : blinking :=
  mkBlinking (b_led b) (b_old b) (b_before b) (tapped || b_tap b) (reading && b_done b).

Lemma view_flags off tapped reading l :
  in_use off l ->
  view (tap_flags tapped reading l) = flag_step tapped reading (view l) /\
  in_use off (tap_flags tapped reading l).
Proof.
  intros H. unfold tap_flags, seqc, whenc, ifc, skip. destruct tapped, reading; by split.
Qed.

Lemma in_use_kept off (a : cmd lamp) l :
  respects (same (fun l => (connectorEnabled (seen (monitored l)), booted l,
                            uploadingLogs l, offline (settings l)))) a ->
  in_use off l -> in_use off (a l).
Proof.
  intros H. specialize (H l). unfold in_use. unfold same in H. by injection H as -> -> -> ->.
Qed.

Ltac in_use_tac := apply in_use_kept; respects_tac ltac:(intros ?; reflexivity).

Lemma in_use_logs off l : in_use off l -> in_use off (emergency_logs l).
Proof. unfold emergency_logs. in_use_tac. Qed.
Lemma in_use_blink off l : in_use off l -> in_use off (blink_on_tap l).
Proof. unfold blink_on_tap. in_use_tac. Qed.
Lemma in_use_end off l : in_use off l -> in_use off (end_blink l).
Proof. unfold end_blink. in_use_tac. Qed.
Lemma in_use_turn id off l : in_use off l -> in_use off (led_turn id l).
Proof. unfold led_turn, emergency_logs, blink_on_tap, end_blink, set_color. in_use_tac. Qed.

Lemma view_logs off l :
  in_use off l -> b_led (view l) <> EMERGENCY_LOGS_LED_STATE -> view (emergency_logs l) = view l.
Proof.
  intros (_ & _ & Hu & _) Hl. unfold view.
  f_equal; [by apply emergency_logs_led | by apply emergency_logs_same..].
Qed.

Lemma view_blink off l :
  in_use off l ->
  let b := view l in
  let tap := b_tap b && negb (b_done b) in
  view (blink_on_tap l) =
    mkBlinking (if tap then tapped_led off else b_led b) (b_old b)
      (if tap then b_led b else b_before b) (if tap then false else b_tap b) (b_done b || tap).
Proof.
  intros (_ & _ & _ & Ho). cbv zeta. unfold blink_on_tap, whenc, ifc, skip.
  cbn [b_led b_old b_before b_tap b_done view].
  destruct (rfidTappedBlinkLed l) eqn:Et, (isRfidLedProcessed l) eqn:Ep; cbn [negb andb orb];
    unfold view; rewrite ?Et, ?Ep; try reflexivity.
  f_equal. change (tapped_state (settings l) = tapped_led off). by rewrite <- Ho.
Qed.

Lemma view_end off l :
  in_use off l ->
  let b := view l in
  view (end_blink l) =
    mkBlinking (if (b_old b =? tapped_led off) && (b_led b =? tapped_led off) then b_before b
                else b_led b) (b_old b) (b_before b) (b_tap b) (b_done b).
Proof.
  intros (_ & _ & _ & Ho). cbv zeta. unfold end_blink, whenc, ifc, skip.
  cbn [b_led b_old b_before b_tap b_done view]. rewrite Ho.
  destruct off; cbn [negb tapped_led]; rewrite ?andb_true_r, ?andb_false_r, ?orb_false_r;
    cbn [orb]; by case_match.
Qed.

Lemma view_color id off l :
  in_use off l ->
  let b := view l in
  view (set_color id l) = mkBlinking (b_led b) (b_led b) (b_before b) (b_tap b) (b_done b).
Proof.
  intros (He & Hb & _ & _). cbv zeta. unfold set_color, whenc, ifc, skip, seqc, withs.
  rewrite He, Hb. cbn [b_led b_old b_before b_tap b_done view].
  destruct (Z.eqb_spec (led l) (ledState_old l)) as [E|E]; cbn [negb andb].
  - unfold view. by rewrite <- E.
  - destruct (color_of (led l)); cbv beta iota; [|reflexivity].
    by destruct (vcharge_lite_1_4 (settings l)).
Qed.

Lemma view_turn id off l :
  in_use off l -> b_led (view l) <> EMERGENCY_LOGS_LED_STATE ->
  view (led_turn id l) = blink_step off (view l).
Proof.
  intros H Hl. unfold led_turn. rewrite !seqc_eq.
  rewrite (view_color _ off), (view_end off), (view_blink off), (view_logs off);
    auto using in_use_logs, in_use_blink, in_use_end.
Qed.

(** An iteration's LED part: the reader's flags, then the LED turn. *)
Definition led_iteration (id : cid) (tapped reading : bool) (l : lamp) : lamp :=
  led_turn id (tap_flags tapped reading l).

Lemma view_iteration id off tapped reading l :
  in_use off l -> led l <> EMERGENCY_LOGS_LED_STATE ->
  view (led_iteration id tapped reading l) = blink_step off (flag_step tapped reading (view l)) /\
  in_use off (led_iteration id tapped reading l).
Proof.
  intros H Hl. destruct (view_flags off tapped reading l H) as [E H1]. unfold led_iteration.
  split; [|by apply in_use_turn]. rewrite (view_turn _ off); [by rewrite E|done|].
  rewrite E. exact Hl.
Qed.

(** In a state of its own, shown, and no tap waiting. *)
Definition settled (st : Z) (l : lamp) : Prop :=
  led l = st /\ ledState_old l = st /\ rfidTappedBlinkLed l = false /\ isRfidLedProcessed l = false /\
  st <> RFID_TAPPED_LED_STATE /\ st <> OFFLINE_ONLY_RFID_TAPPED_LED_STATE /\ st <> EMERGENCY_LOGS_LED_STATE.

Lemma view_eta l b : view l = b ->
  led l = b_led b /\ ledState_old l = b_old b.
Proof. by intros <-. Qed.

Lemma settled_view st l : settled st l -> view l = mkBlinking st st (ledState_Before_Rfid l) false false.
Proof. intros (H1 & H2 & H3 & H4 & _). unfold view. by rewrite H1, H2, H3, H4. Qed.

Lemma tapped_other off st l : settled st l -> (st =? tapped_led off) = false.
Proof. intros (_ & _ & _ & _ & H1 & H2 & _). apply Z.eqb_neq. by destruct off. Qed.

Lemma tapped_not_logs off : tapped_led off <> EMERGENCY_LOGS_LED_STATE.
Proof. by destruct off. Qed.

Lemma view_tap id off st r l :
  in_use off l -> settled st l ->
  view (led_iteration id true r l) = mkBlinking (tapped_led off) (tapped_led off) st false true /\
  in_use off (led_iteration id true r l).
Proof.
  intros Hu Hs. destruct (view_iteration id off true r l Hu) as [E H].
  { by destruct Hs as (-> & _ & _ & _ & _ & _ & ?). }
  rewrite E, (settled_view _ _ Hs). split; [|done]. unfold blink_step, flag_step.
  cbn [b_led b_old b_before b_tap b_done orb andb]. rewrite andb_false_r. cbn [negb].
  by rewrite (tapped_other off st l Hs).
Qed.

(** A tapped card changes the LED for one iteration: the next one,
    whether the card is still being read or not, has the connector's own
    state back. *)
Theorem tap_shown_once id off st r r' l :
  in_use off l -> settled st l ->
  let l1 := led_iteration id true r l in
  let l2 := led_iteration id false r' l1 in
  led l1 = tapped_led off /\ led l2 = st /\ ledState_old l2 = st.
Proof.
  intros Hu Hs. cbv zeta. destruct (view_tap id off st r l Hu Hs) as [E1 H1].
  destruct (view_eta _ _ E1) as [L1 _]. split; [done|].
  destruct (view_iteration id off false r' _ H1) as [E2 _]; [rewrite L1; exact (tapped_not_logs off)|].
  rewrite E1 in E2. destruct (view_eta _ _ E2) as [-> ->]. unfold blink_step, flag_step.
  cbn [b_led b_old b_before b_tap b_done orb andb]. by rewrite Z.eqb_refl.
Qed.

Definition settled_lamp : lamp :=
  mkLamp ((example_monitor true) <| line := (line (example_monitor true))
            <| me := (me (line (example_monitor true))) <| ledState := FAULT_LED_STATE |> |> |>)
    false false false 0 FAULT_LED_STATE SOLID_RED.

Lemma settled_lamp_ok : in_use false settled_lamp /\ settled FAULT_LED_STATE settled_lamp.
Proof. by repeat split. Qed.

Lemma tap_shown_once_witness :
  led (led_iteration Conn1 false true (led_iteration Conn1 true true settled_lamp)) = FAULT_LED_STATE.
Proof.
  destruct settled_lamp_ok as [Hu Hs].
  by destruct (tap_shown_once Conn1 false FAULT_LED_STATE true true settled_lamp Hu Hs) as (_ & H & _).
Defined.

(** Two cards refused in two iterations running (a faulted charger
    drops the reading at once) lose the connector's state: the tapped state is
    taken for the one before, and shows in every iteration after, until the
    status changes. *)
Theorem second_refused_tap_sticks id off st l readings :
  in_use off l -> settled st l ->
  let l2 := led_iteration id true false (led_iteration id true false l) in
  led (foldl (fun l r => led_iteration id false r l) l2 readings) = tapped_led off.
Proof.
  intros Hu Hs. cbv zeta. destruct (view_tap id off st false l Hu Hs) as [E1 H1].
  destruct (view_iteration id off true false _ H1) as [E2 H2];
    [rewrite (proj1 (view_eta _ _ E1)); exact (tapped_not_logs off)|].
  rewrite E1 in E2. unfold blink_step, flag_step in E2.
  cbn [b_led b_old b_before b_tap b_done orb andb negb] in E2. rewrite Z.eqb_refl in E2. cbn [andb] in E2.
  revert E2 H2. generalize (led_iteration id true false (led_iteration id true false l)).
  intros l2. generalize true at 1. revert l2.
  induction readings as [|r rs IH]; intros l2 done E2 H2; cbn [foldl]; [apply (view_eta _ _ E2)|].
  destruct (view_iteration id off false r l2 H2) as [E3 H3];
    [rewrite (proj1 (view_eta _ _ E2)); exact (tapped_not_logs off)|].
  eapply IH; [|exact H3]. rewrite E3, E2. unfold blink_step, flag_step.
  cbn [b_led b_old b_before b_tap b_done orb andb]. rewrite Z.eqb_refl. cbn [andb].
  by rewrite orb_false_r.
Qed.

Lemma second_refused_tap_sticks_witness :
  led (foldl (fun l r => led_iteration Conn1 false r l)
    (led_iteration Conn1 true false (led_iteration Conn1 true false settled_lamp))
    [false; true; true; false]) = RFID_TAPPED_LED_STATE.
Proof.
  destruct settled_lamp_ok as [Hu Hs].
  exact (second_refused_tap_sticks Conn1 false FAULT_LED_STATE settled_lamp [false; true; true; false] Hu Hs).
Defined.
