(* ===== verification/Outcome.v ===== *)
(** * Statements that may not return

    Two parts of the firmware restart the charger in mid-iteration
    ([esp_restart] does not return) or index an array with a value the code
    does not check.  Their statements are functions from a state to an
    [outcome]: the iteration goes on, the charger has restarted, or the
    behaviour is undefined in C; what follows a statement runs only in the
    first case.

    The operations are those of [cmd] ([Prelude.v]) lifted to outcomes;
    [ret] embeds a command. *)

From S2P Require Import Prelude.

Section Outcome.
Context {St : Type}.

Inductive outcome := Running (s : St) | Restarted (s : St) | Undefined.

Definition stmt : Type := St -> outcome.
Definition bind (a b : stmt) : stmt := fun s =>
  match a s with Running s => b s | Restarted s => Restarted s | Undefined => Undefined end.
Definition ret (f : St -> St) : stmt := fun s => Running (f s).
Definition pass : stmt := Running.
Definition test (g : St -> bool) (a b : stmt) : stmt := fun s => if g s then a s else b s.
Definition on (g : St -> bool) (a : stmt) : stmt := test g a pass.
Definition reads (k : St -> stmt) : stmt := fun s => k s s.
Fixpoint repeat_stmt (n : nat) (a : stmt) : stmt :=
  match n with O => pass | S n => bind a (repeat_stmt n a) end.
End Outcome.
Arguments outcome St : clear implicits.
Arguments stmt St : clear implicits.

Declare Scope outcome_scope.
Notation "a >> b" := (bind a b) (at level 100, right associativity) : outcome_scope.
#[global] Open Scope outcome_scope.

Section Laws.
Context {St : Type}.
Implicit Types (a b c : stmt St) (s : St).

Lemma bind_assoc a b c s : ((a >> b) >> c) s = (a >> (b >> c)) s.
Proof. unfold bind. by destruct (a s). Qed.
Lemma bind_ret f b s : (ret f >> b) s = b (f s).
Proof. done. Qed.
Lemma repeat_snoc n a s : repeat_stmt (n + 1) a s = (repeat_stmt n a >> a) s.
Proof.
  revert s. induction n as [|n IH]; intros s; cbn [repeat_stmt Nat.add].
  - cbn. unfold bind, pass. by destruct (a s).
  - rewrite bind_assoc. unfold bind at 1 2. destruct (a s); [apply IH|done|done].
Qed.
End Laws.

(** [a] relates every pre-state to the state it leaves, by [R], whether it goes
    on or restarts: [respects] for statements. *)
Definition leads {St} (R : St -> St -> Prop) (a : stmt St) : Prop := forall s,
  match a s with Running s' | Restarted s' => R s s' | Undefined => True end.
Lemma leads_bind {St} (R : St -> St -> Prop) `{!PreOrder R} a b :
  leads R a -> leads R b -> leads R (a >> b).
Proof.
  intros Ha Hb s. specialize (Ha s). unfold bind. destruct (a s) as [s1|s1|]; try done.
  specialize (Hb s1). destruct (b s1); try done; by etrans.
Qed.
Lemma leads_test {St} (R : St -> St -> Prop) g a b : leads R a -> leads R b -> leads R (test g a b).
Proof. intros Ha Hb s. unfold test. destruct (g s); [apply Ha | apply Hb]. Qed.
Lemma leads_ret {St} (R : St -> St -> Prop) f : respects R f -> leads R (ret f).
Proof. intros H s. apply H. Qed.
Lemma leads_reads {St} (R : St -> St -> Prop) k : (forall s, leads R (k s)) -> leads R (reads k).
Proof. intros H s. apply H. Qed.
Lemma leads_refl {St} (R : St -> St -> Prop) `{!PreOrder R} : leads R Running /\ leads R Restarted.
Proof. by split; intros s. Qed.

Ltac leads_tac leaf :=
  repeat (cbv beta zeta;
    lazymatch goal with
    | |- leads _ (bind _ _) => apply leads_bind; [exact _ | |]
    | |- leads _ (test _ _ _) => apply leads_test
    | |- leads _ (on _ _) => apply leads_test
    | |- leads _ (reads _) => apply leads_reads; intros ?
    | |- leads _ (ret _) => apply leads_ret
    | |- leads _ pass => apply leads_refl; exact _
    | |- leads _ Running => apply leads_refl; exact _
    | |- leads _ Restarted => apply leads_refl; exact _
    | |- leads _ (match ?x with _ => _ end) => destruct x
    | |- _ => leaf
    end).
