(* ===== verification/Network.v ===== *)
(** * Network interfaces ([main/networkInterfacesControl.c])

    [interfaceTask] brings up the interfaces that are fitted and enabled,
    makes the one of highest priority the default, opens the connection to the
    central system over the default one and, while there is none, moves the
    default to another interface that is up; after ten minutes without a
    connection it restarts the charger.

    The interfaces, their netifs and the websocket client are ESP-IDF's: the
    model keeps the default netif's description, which interface is up (the
    event handlers write it between the iterations) and the calls made.
    [WebsocketConnectedisConnected] is asked before and after the wait for the
    connection, so an iteration takes its two answers.  An interface id indexes
    [ifaces]; an index out of the array is undefined behaviour in C. *)

From S2P Require Import Prelude Config Outcome.

(** ** Data *)

(** [esp_netif_get_desc] *)
Inductive netif := sta | ppp | eth | other_netif.

#[export] Instance netif_eq_dec : EqDecision netif.
Proof. solve_decision. Defined.

Record iface_info_t := mkIface { if_netif : netif; connected : bool }.

(** Calls into ESP-IDF and the other tasks. *)
Inductive net_call :=
  | SetDefault (n : netif)
  | WifiConnect
  | WebsocketStart (network : Z)
  | CheckConnectivity
  | NetworkSwitchedDisplay
  | RestartEthernet
  | SlaveRestart.

Record net := mkNet {
  config : Config_t;
  ifaces : list iface_info_t;
  Wifi_Interface_Id : Z;
  PPP_Interface_Id : Z;
  ETH_Interface_Id : Z;
  available_interfaces : Z;
  HighPriorityNetwork : Z;
  Current_Interface_Id : Z;
  Current_Interface_Id_old : Z;
  default_netif : option netif;
  isWifiConnected : bool;
  isModemConnected : bool;
  isEthernetConnected : bool;
  isWebsocketConnected : bool;
  FirmwareUpdateStarted : bool;
  WifiConnectedButConnectivityLost : bool;
  EthernetConnectedButConnectivityLost : bool;
  PPPConnectedButConnectivityLost : bool;
  WebsocketOffCount : Z;
  WebsocketOffWithNetworkCount : Z;
  EthernetInternetDisconnectTime : Z;
  loopCount : Z;
  TastStartedTime : Z;
  calls : list net_call   (* latest first *)
}.
#[export] Instance net_rebuild : Rebuild net := fun s =>
  mkNet (config s) (ifaces s) (Wifi_Interface_Id s) (PPP_Interface_Id s) (ETH_Interface_Id s)
    (available_interfaces s) (HighPriorityNetwork s) (Current_Interface_Id s)
    (Current_Interface_Id_old s) (default_netif s) (isWifiConnected s) (isModemConnected s)
    (isEthernetConnected s) (isWebsocketConnected s) (FirmwareUpdateStarted s)
    (WifiConnectedButConnectivityLost s) (EthernetConnectedButConnectivityLost s)
    (PPPConnectedButConnectivityLost s) (WebsocketOffCount s) (WebsocketOffWithNetworkCount s)
    (EthernetInternetDisconnectTime s) (loopCount s) (TastStartedTime s) (calls s).

(** An index outside [ifaces] is [Undefined]. *)
Abbreviation outcome := (Outcome.outcome net).
Abbreviation stmt := (Outcome.stmt net).
Definition record_call (c : net_call) : stmt := ret (fun s => s <| calls := c :: calls s |>).

(** [ifaces[i]], for reading and for writing [connected]. *)
Definition deref (i : Z) (s : net) : option iface_info_t :=
  if i <? 0 then None else ifaces s !! Z.to_nat i.
Definition with_up (i : net -> Z) (k : bool -> stmt) : stmt := fun s =>
  match deref (i s) s with Some f => k (connected f) s | None => Undefined end.
Definition set_up (i : Z) (b : bool) : stmt := fun s =>
  match deref i s with
  | Some f => Running (s <| ifaces := <[Z.to_nat i := mkIface (if_netif f) b]> (ifaces s) |>)
  | None => Undefined
  end.

(** [esp_netif_set_default_netif(ifaces[i]->netif)] *)
Definition set_default (i : net -> Z) : stmt := fun s =>
  match deref (i s) s with
  | Some f => Running (s <| default_netif := Some (if_netif f) |>
                         <| calls := SetDefault (if_netif f) :: calls s |>)
  | None => Undefined
  end.

Definition wifi_on (c : Config_t) : bool := wifiAvailability c && wifiEnable c.
Definition gsm_on (c : Config_t) : bool := gsmAvailability c && gsmEnable c.
Definition ethernet_on (c : Config_t) : bool := ethernetAvailability c && ethernetEnable c.

(** ** [updateHighPriorityNetwork] *)

(** Whether an interface of priority [p] is to be used, the two others being
    on with their priorities: its priority is above theirs. *)
Definition preferred (p : Z) (on1 : bool) (p1 : Z) (on2 : bool) (p2 : Z) : bool :=
  if on1 && on2 then (p >? p1) && (p >? p2)
  else if on1 then p >? p1
  else if on2 then p >? p2
  else true.

Definition updateHighPriorityNetwork (c : Config_t) : Z :=
  let w := wifi_on c in
  let g := gsm_on c in
  let e := ethernet_on c in
  let connectingToEthernet :=
    e && preferred (ethernetPriority c) w (wifiPriority c) g (gsmPriority c) in
  let connectingToWifi :=
    w && preferred (wifiPriority c) g (gsmPriority c) e (ethernetPriority c) in
  let connectingToGsm :=
    g && preferred (gsmPriority c) e (ethernetPriority c) w (wifiPriority c) in
  if connectingToEthernet then 3 else if connectingToWifi then 1 else if connectingToGsm then 2 else 0.

Definition wifi_connect : stmt :=
  on (fun s => wifi_on (config s)) (record_call WifiConnect).

(** ** Start of [interfaceTask] *)

(** The interfaces are created in the order Wi-Fi, modem, Ethernet; the
    Ethernet driver may fail to install, which leaves its id at -1. *)
Definition create_ifaces (ethernet_ok : bool) : stmt := ret (fun s =>
  let c := config s in
  let w := if wifi_on c then [mkIface sta false] else [] in
  let g := if gsm_on c then [mkIface ppp false] else [] in
  let e := if ethernet_on c && ethernet_ok then [mkIface eth false] else [] in
  s <| ifaces := w ++ g ++ e |>
    <| Wifi_Interface_Id := if wifi_on c then 0 else -1 |>
    <| PPP_Interface_Id := if gsm_on c then Z.of_nat (length w) else -1 |>
    <| ETH_Interface_Id := if ethernet_on c && ethernet_ok then Z.of_nat (length (w ++ g)) else -1 |>
    <| available_interfaces := Z.of_nat (length (w ++ g ++ e)) |>).

(** Make interface [i] current and, when there is a choice, the default. *)
Definition choose (i : net -> Z) : stmt :=
  on (fun s => available_interfaces s >? 1) (set_default i) >>
  ret (fun s => s <| Current_Interface_Id := i s |>).

Definition interface_start (ethernet_ok : bool) : stmt :=
  ret (fun s => s <| Current_Interface_Id := -2 |> <| Current_Interface_Id_old := -2 |>
                  <| WebsocketOffCount := 0 |> <| WebsocketOffWithNetworkCount := 0 |>
                  <| EthernetInternetDisconnectTime := 0 |> <| TastStartedTime := 0 |>) >>
  create_ifaces ethernet_ok >>
  ret (fun s => s <| HighPriorityNetwork := updateHighPriorityNetwork (config s) |>) >>
  test (fun s => HighPriorityNetwork s =? 1) (choose Wifi_Interface_Id)
    (test (fun s => HighPriorityNetwork s =? 2) (choose PPP_Interface_Id)
      (on (fun s => HighPriorityNetwork s =? 3) (choose ETH_Interface_Id))) >>
  on (fun s => HighPriorityNetwork s =? 1) (record_call WifiConnect).

(** ** The ten-second part of an iteration *)

Definition track_default : stmt :=
  ret (fun s => s <| Current_Interface_Id :=
    match default_netif s with
    | Some ppp => PPP_Interface_Id s
    | Some sta => Wifi_Interface_Id s
    | Some eth => ETH_Interface_Id s
    | _ => Current_Interface_Id s
    end |>) >>
  on (fun s => negb (Current_Interface_Id_old s =? Current_Interface_Id s)
               && (Current_Interface_Id_old s >=? 0) && (Current_Interface_Id s >=? 0))
    (record_call NetworkSwitchedDisplay).

(** A modem that is up without a connection for six rounds is given up. *)
Definition watch_modem (ws : bool) : stmt :=
  ret (fun s => s <| isWebsocketConnected := ws |>) >>
  on (fun _ => ws) (ret (fun s => s <| WebsocketOffWithNetworkCount := 0 |>)) >>
  on (fun s => gsm_on (config s))
    (with_up PPP_Interface_Id (fun up => ret (fun s => s <| isModemConnected := up |>))) >>
  on (fun s => negb ws && (isWifiConnected s || isModemConnected s))
    (ret (fun s => s <| WebsocketOffWithNetworkCount := u32 (WebsocketOffWithNetworkCount s + 1) |>)) >>
  on (fun s => WebsocketOffWithNetworkCount s >? 5)
    (on (fun s => gsm_on (config s))
       (with_up PPP_Interface_Id (fun up =>
          on (fun s => up && (Current_Interface_Id s =? PPP_Interface_Id s))
            (reads (fun s => set_up (PPP_Interface_Id s) false)))) >>
     ret (fun s => s <| WebsocketOffWithNetworkCount := 0 |>)).

(** The log lines read [connected] too. *)
Definition log_interfaces : stmt :=
  on (fun s => gsm_on (config s)) (with_up PPP_Interface_Id (fun _ => pass)) >>
  on (fun s => ethernet_on (config s)) (with_up ETH_Interface_Id (fun _ => pass)).

Definition keep_wifi : stmt :=
  on (fun s => negb (Current_Interface_Id s =? PPP_Interface_Id s)
               && (Current_Interface_Id s =? Wifi_Interface_Id s)
               && negb (isWifiConnected s) && negb (FirmwareUpdateStarted s)) wifi_connect.

(** Open the connection over the current interface when it is up. *)
Definition try_connect (ws ws' : bool) : stmt :=
  on (fun s => negb ws && match default_netif s with Some _ => true | None => false end)
    (on (fun s => wifi_on (config s))
       (reads (fun s => set_up (Wifi_Interface_Id s) (isWifiConnected s))) >>
     with_up Current_Interface_Id (fun up => on (fun _ => up)
       (reads (fun s =>
          let c := Current_Interface_Id s in
          let network := if c =? PPP_Interface_Id s then 2
                         else if c =? Wifi_Interface_Id s then 1
                         else if c =? ETH_Interface_Id s then 3 else 0 in
          on (fun _ => network =? 3)
             (ret (fun s => s <| EthernetInternetDisconnectTime :=
                               u32 (EthernetInternetDisconnectTime s + 1) |>)) >>
           on (fun s => isWifiConnected s || isModemConnected s || isEthernetConnected s)
             (record_call (WebsocketStart network)) >>
           on (fun _ => negb ws') (record_call CheckConnectivity))))).

Definition retry_wifi : stmt :=
  on (fun s => negb (isWifiConnected s) && wifi_on (config s)
               && ((HighPriorityNetwork s =? 1) || (TastStartedTime s >? 10))
               && negb (FirmwareUpdateStarted s)) wifi_connect.

(** ** Failover *)

Definition wifi_if_down : stmt := on (fun s => negb (isWifiConnected s)) wifi_connect.

Definition failover_from_wifi : stmt :=
  on isWifiConnected (ret (fun s => s <| WifiConnectedButConnectivityLost := true |>)) >>
  test (fun s => available_interfaces s =? 3)
    (with_up ETH_Interface_Id (fun e => with_up PPP_Interface_Id (fun p =>
       test (fun s => gsm_on (config s) && e && ethernet_on (config s) && p)
         (test (fun s => ethernetPriority (config s) >? gsmPriority (config s))
            (set_default ETH_Interface_Id) (set_default PPP_Interface_Id))
       (test (fun s => gsm_on (config s) && p) (set_default PPP_Interface_Id)
       (on (fun s => ethernet_on (config s) && e) (set_default ETH_Interface_Id))))))
  (on (fun s => available_interfaces s =? 2)
    (test (fun s => gsm_on (config s))
       (with_up PPP_Interface_Id (fun p => on (fun _ => p) (set_default PPP_Interface_Id)))
    (on (fun s => ethernet_on (config s))
       (with_up ETH_Interface_Id (fun e => on (fun _ => e) (set_default ETH_Interface_Id)))))).

Definition failover_from_ethernet : stmt :=
  with_up ETH_Interface_Id (fun e => on (fun _ => e)
    (ret (fun s => s <| EthernetConnectedButConnectivityLost := true |>))) >>
  test (fun s => available_interfaces s =? 3)
    (wifi_if_down >>
     with_up PPP_Interface_Id (fun p =>
       test (fun s => gsm_on (config s) && p && wifi_on (config s) && isWifiConnected s)
         (test (fun s => wifiPriority (config s) >? gsmPriority (config s))
            (set_default Wifi_Interface_Id) (set_default PPP_Interface_Id))
       (test (fun s => gsm_on (config s) && p) (set_default PPP_Interface_Id)
       (on (fun s => wifi_on (config s) && isWifiConnected s) (set_default Wifi_Interface_Id)))))
  (on (fun s => available_interfaces s =? 2)
    (test (fun s => gsm_on (config s))
       (with_up PPP_Interface_Id (fun p => on (fun _ => p) (set_default PPP_Interface_Id)))
    (on (fun s => wifi_on (config s))
       (wifi_if_down >> on isWifiConnected (set_default Wifi_Interface_Id))))).

Definition failover_from_modem : stmt :=
  with_up PPP_Interface_Id (fun p => on (fun _ => p)
    (ret (fun s => s <| PPPConnectedButConnectivityLost := true |>))) >>
  test (fun s => available_interfaces s =? 3)
    (wifi_if_down >>
     with_up ETH_Interface_Id (fun e =>
       test (fun s => wifi_on (config s) && isWifiConnected s && ethernet_on (config s) && e)
         (test (fun s => ethernetPriority (config s) >? wifiPriority (config s))
            (set_default ETH_Interface_Id) (set_default Wifi_Interface_Id))
       (test (fun s => wifi_on (config s))
          (on isWifiConnected (set_default Wifi_Interface_Id))
       (on (fun s => ethernet_on (config s))
          (on (fun _ => e) (set_default ETH_Interface_Id))))))
  (on (fun s => available_interfaces s =? 2)
    (wifi_if_down >>
     test (fun s => wifi_on (config s) && isWifiConnected s) (set_default Wifi_Interface_Id)
       (on (fun s => ethernet_on (config s))
          (with_up ETH_Interface_Id (fun e => on (fun _ => e) (set_default ETH_Interface_Id)))))).

Definition failover (ws : bool) : stmt :=
  on (fun s => negb ws && (TastStartedTime s >? 10))
    (test (fun s => Current_Interface_Id s =? Wifi_Interface_Id s) failover_from_wifi
    (test (fun s => Current_Interface_Id s =? ETH_Interface_Id s) failover_from_ethernet
    (on (fun s => Current_Interface_Id s =? PPP_Interface_Id s) failover_from_modem))).

Definition periodic (ws ws' : bool) : stmt :=
  track_default >> watch_modem ws >> log_interfaces >> keep_wifi >> try_connect ws ws' >>
  retry_wifi >> failover ws'.

(** ** The iteration *)

Definition RESTART_AFTER := 600.

(** Ten minutes with a network but no connection restart the charger. *)
Definition watch_connection (ws : bool) : stmt :=
  on (fun s => negb ws && (isWifiConnected s || isModemConnected s || isEthernetConnected s))
    (ret (fun s => s <| WebsocketOffCount := u32 (WebsocketOffCount s + 1) |>) >>
     on (fun s => WebsocketOffCount s >=? RESTART_AFTER)
       (ret (fun s => s <| WebsocketOffCount := 0 |>) >>
        on (fun s => vcharge_lite_1_4 (config s)) (record_call SlaveRestart) >>
        Restarted)) >>
  on (fun _ => ws) (ret (fun s => s <| EthernetInternetDisconnectTime := 0 |>
                                    <| WebsocketOffCount := 0 |>)).

Definition watch_ethernet : stmt :=
  on (fun s => EthernetInternetDisconnectTime s >? 2)
    (ret (fun s => s <| EthernetInternetDisconnectTime := 0 |>) >> record_call RestartEthernet).

Definition count_time : stmt :=
  test (fun s => TastStartedTime s >? 10)
    (ret (fun s => s <| loopCount := u32 (loopCount s + 1) |>))
    (ret (fun s => s <| loopCount := 0 |> <| TastStartedTime := u32 (TastStartedTime s + 1) |>)) >>
  ret (fun s => s <| Current_Interface_Id_old := Current_Interface_Id s |>).

(** [ws] and [ws']: the connection before and after the wait for it. *)
Definition interfaceTask (ws ws' : bool) : stmt :=
  on (fun s => loopCount s mod 10 =? 0) (periodic ws ws') >>
  watch_connection ws' >> watch_ethernet >> count_time.
