(* ===== verification/NetworkSpec.v ===== *)
(** * Properties of the network interfaces ([Network.v])

    The interface preferred at start, that every index into [ifaces] is in
    range when the Ethernet driver installs (and that none is when it does
    not), where the failover goes, and when the charger is restarted. *)

From S2P Require Import Prelude Config Outcome Network.

(** ** The preferred interface *)

(** An interface by the code of [HighPriorityNetwork]. *)
Inductive kind := Wifi | Modem | Ethernet.
#[export] Instance kind_eq_dec : EqDecision kind.
Proof. solve_decision. Defined.
Definition code (k : kind) : Z := match k with Wifi => 1 | Modem => 2 | Ethernet => 3 end.
Definition is_on (c : Config_t) (k : kind) : bool :=
  match k with Wifi => wifi_on c | Modem => gsm_on c | Ethernet => ethernet_on c end.
Definition priority (c : Config_t) (k : kind) : Z :=
  match k with
  | Wifi => wifiPriority c | Modem => gsmPriority c | Ethernet => ethernetPriority c
  end.

(** On, and strictly above every other one that is on. *)
Definition above_all (c : Config_t) (k : kind) : Prop :=
  is_on c k = true /\
  forall j, j <> k -> is_on c j = true -> priority c j < priority c k.

Lemma preferred_spec p on1 p1 on2 p2 :
  preferred p on1 p1 on2 p2 = true <-> (on1 = true -> p1 < p) /\ (on2 = true -> p2 < p).
Proof. unfold preferred. destruct on1, on2; cbn; lia. Qed.

Lemma above_all_spec c k :
  above_all c k <->
  match k with
  | Wifi => wifi_on c && preferred (wifiPriority c) (gsm_on c) (gsmPriority c) (ethernet_on c) (ethernetPriority c)
  | Modem => gsm_on c && preferred (gsmPriority c) (ethernet_on c) (ethernetPriority c) (wifi_on c) (wifiPriority c)
  | Ethernet => ethernet_on c && preferred (ethernetPriority c) (wifi_on c) (wifiPriority c) (gsm_on c) (gsmPriority c)
  end = true.
Proof.
  unfold above_all. destruct k; rewrite andb_true_iff, preferred_spec;
    (split; [intros [H1 H2]; split; [exact H1|]; split | intros [H1 [H2 H3]]; split; [exact H1|]]).
  all: try (intros []; first [by auto | done]).
  all: intros H; first [by apply (H2 Wifi) | by apply (H2 Modem) | by apply (H2 Ethernet)].
Qed.

Lemma above_all_unique c j k : above_all c j -> above_all c k -> j = k.
Proof.
  intros [Hj Aj] [Hk Ak]. destruct (decide (j = k)) as [|N]; [done|].
  specialize (Aj k ltac:(congruence) Hk). specialize (Ak j N Hj). lia.
Qed.

(** The interface preferred at start is the one whose priority is
    above those of all the others that are fitted and enabled; when there is
    none (none is enabled, or the highest two are equal) no interface is
    preferred. *)
Theorem high_priority_network_spec c :
  (forall k, updateHighPriorityNetwork c = code k <-> above_all c k) /\
  (updateHighPriorityNetwork c = 0 <-> forall k, ~ above_all c k).
Proof.
  pose proof (above_all_spec c Wifi) as Hw. pose proof (above_all_spec c Modem) as Hg.
  pose proof (above_all_spec c Ethernet) as He. pose proof (above_all_unique c) as Hu.
  unfold updateHighPriorityNetwork. cbv zeta.
  destruct (ethernet_on c && _), (wifi_on c && _), (gsm_on c && _).
  all: try (exfalso; assert (Wifi = Ethernet) by (apply Hu; tauto); done).
  all: try (exfalso; assert (Modem = Ethernet) by (apply Hu; tauto); done).
  all: try (exfalso; assert (Wifi = Modem) by (apply Hu; tauto); done).
  all: assert (F : false <> true) by done.
  all: split; [intros []; cbn; split; intros H; first [reflexivity | discriminate | tauto]|].
  all: split; [intros E []; first [discriminate | tauto]|].
  all: intros H; pose proof (H Wifi); pose proof (H Modem); pose proof (H Ethernet);
    first [reflexivity | tauto].
Qed.

(** ** Interface ids *)

Definition id_of (k : kind) (s : net) : Z :=
  match k with
  | Wifi => Wifi_Interface_Id s | Modem => PPP_Interface_Id s | Ethernet => ETH_Interface_Id s
  end.
Definition netif_of (k : kind) : netif :=
  match k with Wifi => sta | Modem => ppp | Ethernet => eth end.
Definition count_on (c : Config_t) : Z :=
  (if wifi_on c then 1 else 0) + (if gsm_on c then 1 else 0) + (if ethernet_on c then 1 else 0).

(** Every interface that is on has its place in [ifaces], the others have the
    id -1. *)
Record wired (s : net) : Prop := mkWired {
  wired_on k : is_on (config s) k = true ->
    exists up, deref (id_of k s) s = Some (mkIface (netif_of k) up);
  wired_off k : is_on (config s) k = false -> id_of k s = -1;
  wired_count : available_interfaces s = count_on (config s)
}.

(** The current interface is one that is on, or none is chosen yet. *)
Definition current_on (s : net) : Prop :=
  exists k, is_on (config s) k = true /\ Current_Interface_Id s = id_of k s.
Definition own_default (s : net) : Prop :=
  exists k, is_on (config s) k = true /\ default_netif s = Some (netif_of k).

(** What an iteration keeps; [mv] when the default interface may have moved. *)
Record keeps (mv : bool) (s0 s : net) : Prop := mkKeeps {
  keeps_config : config s = config s0;
  keeps_id k : id_of k s = id_of k s0;
  keeps_shape : if_netif <$> ifaces s = if_netif <$> ifaces s0;
  keeps_count : available_interfaces s = available_interfaces s0;
  keeps_current : Current_Interface_Id s = Current_Interface_Id s0;
  keeps_default : default_netif s = default_netif s0 \/
    (mv = true /\ exists k, is_on (config s0) k = true /\ default_netif s = Some (netif_of k))
}.

Lemma keeps_refl mv s : keeps mv s s.
Proof. split; auto. Qed.

Lemma deref_shape s0 s i f0 :
  if_netif <$> ifaces s = if_netif <$> ifaces s0 -> deref i s0 = Some f0 ->
  exists f, deref i s = Some f /\ if_netif f = if_netif f0.
Proof.
  unfold deref. intros E H. case_match; [done|].
  assert (H2 : (if_netif <$> ifaces s) !! Z.to_nat i = Some (if_netif f0))
    by (rewrite E, list_lookup_fmap, H; done).
  rewrite list_lookup_fmap in H2. destruct (ifaces s !! Z.to_nat i) as [f|]; [|done].
  exists f. by injection H2.
Qed.

Lemma keeps_on mv s0 s k :
  wired s0 -> keeps mv s0 s -> is_on (config s0) k = true ->
  exists up, deref (id_of k s) s = Some (mkIface (netif_of k) up).
Proof.
  intros W K Hk. destruct (wired_on _ W k Hk) as [up0 H].
  destruct (deref_shape s0 s _ _ (keeps_shape _ _ _ K) H) as ([n up] & H2 & E).
  exists up. rewrite (keeps_id _ _ _ K). cbn in E. by rewrite H2, E.
Qed.

(** [a] from [s] keeps [s0]'s interfaces and stays in range. *)
Definition fine (mv : bool) (s0 s : net) (a : stmt) : Prop :=
  match a s with Running s' => keeps mv s0 s' | Restarted s' => keeps mv s0 s' | Undefined => False end.

Section Fine.
Variable mv : bool.
Variable s0 : net.
Hypothesis W : wired s0.

Lemma fine_bind s a b :
  fine mv s0 s a -> (forall s', keeps mv s0 s' -> fine mv s0 s' b) -> fine mv s0 s (a >> b).
Proof. unfold fine, bind. intros H1 H2. destruct (a s) as [s'|s'|]; [by apply H2 | done | done]. Qed.
Lemma fine_test s g a b :
  (g s = true -> fine mv s0 s a) -> (g s = false -> fine mv s0 s b) -> fine mv s0 s (test g a b).
Proof. unfold fine, test. intros H1 H2. destruct (g s); [by apply H1 | by apply H2]. Qed.
Lemma fine_pass s : keeps mv s0 s -> fine mv s0 s pass.
Proof. done. Qed.
Lemma fine_on s g a : keeps mv s0 s -> (g s = true -> fine mv s0 s a) -> fine mv s0 s (on g a).
Proof. intros K H. by apply fine_test. Qed.
Lemma fine_ret s f :
  keeps mv s0 s -> keeps mv s (f s) -> default_netif (f s) = default_netif s -> fine mv s0 s (ret f).
Proof.
  intros K [H1 H2 H3 H4 H5 _] H6. destruct K as [K1 K2 K3 K4 K5 K6].
  unfold fine, ret. split; try congruence; first [by rewrite H6 | intros k; by rewrite H2].
Qed.
Lemma fine_restart s : keeps mv s0 s -> fine mv s0 s Restarted.
Proof. done. Qed.

Lemma fine_reads s k : fine mv s0 s (k s) -> fine mv s0 s (reads k).
Proof. done. Qed.

Lemma fine_with_up s k i g :
  keeps mv s0 s -> is_on (config s0) k = true -> i s = id_of k s ->
  (forall up, fine mv s0 s (g up)) -> fine mv s0 s (with_up i g).
Proof.
  intros K Hk Hi Hg. destruct (keeps_on _ _ _ k W K Hk) as [up E].
  unfold fine, with_up. rewrite Hi, E. apply Hg.
Qed.

Lemma fine_set_default s k i :
  mv = true -> keeps mv s0 s -> is_on (config s0) k = true -> i s = id_of k s ->
  fine mv s0 s (set_default i).
Proof.
  intros Hmv K Hk Hi. destruct (keeps_on _ _ _ k W K Hk) as [up E].
  unfold fine, set_default. rewrite Hi, E. cbn [if_netif].
  destruct K as [K1 K2 K3 K4 K5 K6].
  split; [done | intros []; [exact (K2 Wifi)|exact (K2 Modem)|exact (K2 Ethernet)] | done | done | done |].
  right. split; [done|]. by exists k.
Qed.

Lemma fine_set_up s k b :
  keeps mv s0 s -> is_on (config s0) k = true -> fine mv s0 s (set_up (id_of k s) b).
Proof.
  intros K Hk. destruct (keeps_on _ _ _ k W K Hk) as [up E].
  unfold fine, set_up. rewrite E. destruct K as [K1 K2 K3 K4 K5 K6].
  split; [done | intros []; [exact (K2 Wifi)|exact (K2 Modem)|exact (K2 Ethernet)] | | done | done | done].
  rewrite <- K3. cbn [ifaces update]. unfold deref in E. case_match; [done|].
  apply list_eq. intros j. rewrite !list_lookup_fmap.
  destruct (decide (j = Z.to_nat (id_of k s))) as [->|N].
  - rewrite list_lookup_insert_eq by (by apply lookup_lt_Some in E). by rewrite E.
  - by rewrite list_lookup_insert_ne.
Qed.
End Fine.

Lemma three_on mv s0 s k :
  wired s0 -> keeps mv s0 s -> (available_interfaces s =? 3) = true -> is_on (config s0) k = true.
Proof.
  intros W K H. apply Z.eqb_eq in H. rewrite (keeps_count _ _ _ K), (wired_count _ W) in H.
  unfold count_on in H. destruct k; cbn; repeat case_match; done || lia.
Qed.

Lemma on_kept mv s0 s k : keeps mv s0 s -> is_on (config s) k = true -> is_on (config s0) k = true.
Proof. intros K. by rewrite (keeps_config _ _ _ K). Qed.

(** The kind of interface an id is asked of. *)
Ltac kind_of i :=
  lazymatch i with
  | Wifi_Interface_Id => constr:(Wifi)
  | PPP_Interface_Id => constr:(Modem)
  | ETH_Interface_Id => constr:(Ethernet)
  end.
(** Interface [k] is on: by the guards taken, or because all three are. *)
Ltac is_on_tac :=
  first
    [ assumption
    | match goal with
      | W : wired ?s0, K : keeps _ ?s0 ?s, H : (available_interfaces ?s =? 3) = true |- _ =>
          exact (three_on _ s0 s _ W K H)
      | K : keeps _ ?s0 ?s |- is_on (config ?s0) ?k = true =>
          apply (on_kept _ s0 s k K); repeat
            match goal with H : _ && _ = true |- _ => apply andb_true_iff in H as [? ?] end; assumption
      end ].
Ltac fine_tac :=
  repeat (cbv beta zeta; lazymatch goal with
    | |- fine _ _ _ (bind _ _) => apply fine_bind; [|intros ? ?]
    | |- fine _ _ _ (test _ _ _) => apply fine_test; intros ?
    | |- fine _ _ _ (on _ _) => apply fine_on; [assumption|intros ?]
    | |- fine _ _ _ (reads _) => apply fine_reads
    | |- fine _ _ _ pass => apply fine_pass; assumption
    | |- fine _ _ _ Restarted => apply fine_restart; assumption
    | |- fine _ _ _ (record_call _) =>
        apply fine_ret; [assumption | split; [done|by intros []|done..|by left] | done]
    | |- fine _ _ _ (ret _) =>
        apply fine_ret; [assumption | split; [done|by intros []|done..|by left] | done]
    | W : wired ?s0 |- fine ?mv ?s0 _ (with_up ?i _) => let k := kind_of i in
        apply (fine_with_up mv s0 W _ k); [assumption|is_on_tac|reflexivity|intros ?]
    | W : wired ?s0 |- fine ?mv ?s0 _ (set_default ?i) => let k := kind_of i in
        apply (fine_set_default mv s0 W _ k); [assumption|assumption|is_on_tac|reflexivity]
    end).

Section InRange.
Variable mv : bool.
Variable s0 : net.
Hypothesis W : wired s0.

Lemma fine_watch_modem s ws : keeps mv s0 s -> fine mv s0 s (watch_modem ws).
Proof.
  intros K. unfold watch_modem. fine_tac.
  apply (fine_set_up mv s0 W _ Modem); [assumption|is_on_tac].
Qed.
Lemma fine_log s : keeps mv s0 s -> fine mv s0 s log_interfaces.
Proof. intros K. unfold log_interfaces. fine_tac. Qed.
Lemma fine_keep_wifi s : keeps mv s0 s -> fine mv s0 s keep_wifi.
Proof. intros K. unfold keep_wifi, wifi_connect. fine_tac. Qed.
Lemma fine_retry_wifi s : keeps mv s0 s -> fine mv s0 s retry_wifi.
Proof. intros K. unfold retry_wifi, wifi_connect. fine_tac. Qed.
Lemma fine_from_wifi s : mv = true -> keeps mv s0 s -> fine mv s0 s failover_from_wifi.
Proof. intros Hmv K. unfold failover_from_wifi. fine_tac. Qed.
Lemma fine_from_ethernet s :
  mv = true -> keeps mv s0 s -> is_on (config s0) Ethernet = true -> fine mv s0 s failover_from_ethernet.
Proof. intros Hmv K H. unfold failover_from_ethernet, wifi_if_down, wifi_connect. fine_tac. Qed.
Lemma fine_from_modem s :
  mv = true -> keeps mv s0 s -> is_on (config s0) Modem = true -> fine mv s0 s failover_from_modem.
Proof. intros Hmv K H. unfold failover_from_modem, wifi_if_down, wifi_connect. fine_tac. Qed.

(** The id the current interface equals is one of an interface that is on. *)
Lemma current_id_on s k j :
  keeps mv s0 s -> is_on (config s0) k = true -> Current_Interface_Id s0 = id_of k s0 ->
  (Current_Interface_Id s =? id_of j s) = true -> is_on (config s0) j = true.
Proof.
  intros K Hk Hc H. apply Z.eqb_eq in H. rewrite (keeps_current _ _ _ K), (keeps_id _ _ _ K), Hc in H.
  destruct (is_on (config s0) j) eqn:E; [done|]. rewrite (wired_off _ W j E) in H.
  destruct (wired_on _ W k Hk) as [up D]. unfold deref in D. by rewrite H in D.
Qed.

Lemma fine_failover s ws :
  mv = true -> keeps mv s0 s -> current_on s0 -> fine mv s0 s (failover ws).
Proof.
  intros Hmv K (k & Hk & Hc). unfold failover.
  apply fine_on; [done|intros _]. apply fine_test; intros H1; [by apply fine_from_wifi|].
  apply fine_test; intros H2.
  - apply fine_from_ethernet; [done|done|]. by apply (current_id_on s k Ethernet).
  - apply fine_on; [done|intros H3]. apply fine_from_modem; [done|done|]. by apply (current_id_on s k Modem).
Qed.

Lemma fine_try_connect s ws ws' :
  keeps mv s0 s -> current_on s0 -> fine mv s0 s (try_connect ws ws').
Proof.
  intros K (k & Hk & Hc). unfold try_connect.
  apply fine_on; [done|intros _]. apply fine_bind.
  - apply fine_on; [done|intros H]. apply fine_reads, (fine_set_up mv s0 W s Wifi); [done|]. is_on_tac.
  - intros s1 K1. apply (fine_with_up mv s0 W s1 k); [done|done| |].
    + by rewrite (keeps_current _ _ _ K1), (keeps_id _ _ _ K1).
    + intros up. apply fine_on; [done|intros _].
      fine_tac.
Qed.
End InRange.

(** Between iterations and at their ends. *)
Record ready (s : net) : Prop := mkReady {
  ready_wired : wired s;
  ready_current : current_on s \/ Current_Interface_Id s = -2;
  ready_default : default_netif s = None \/ own_default s
}.

Lemma wired_same s0 s :
  config s = config s0 -> (forall k, id_of k s = id_of k s0) ->
  if_netif <$> ifaces s = if_netif <$> ifaces s0 -> available_interfaces s = available_interfaces s0 ->
  wired s0 -> wired s.
Proof.
  intros Hc Hi Hs Ha [W1 W2 W3]. split.
  - intros k. rewrite Hc, Hi. intros Hk. destruct (W1 k Hk) as [up0 H].
    destruct (deref_shape s0 s _ _ Hs H) as ([n up] & H2 & E). exists up. cbn in E. by rewrite H2, E.
  - intros k. rewrite Hc, Hi. apply W2.
  - by rewrite Ha, Hc.
Qed.

Lemma wired_keeps mv s0 s : wired s0 -> keeps mv s0 s -> wired s.
Proof. intros W [K1 K2 K3 K4 _ _]. by apply (wired_same s0). Qed.

Lemma ready_same s0 s :
  config s = config s0 -> (forall k, id_of k s = id_of k s0) ->
  Current_Interface_Id s = Current_Interface_Id s0 ->
  (current_on s0 -> current_on s) /\ (default_netif s = default_netif s0 -> own_default s0 -> own_default s).
Proof.
  intros Hc Hi Hu. split.
  - intros (k & H1 & H2). exists k. by rewrite Hc, Hu, Hi.
  - intros Hd (k & H1 & H2). exists k. by rewrite Hc, Hd.
Qed.

Lemma ready_keeps mv s0 s : ready s0 -> keeps mv s0 s -> ready s.
Proof.
  intros [W C D] K. pose proof K as [K1 K2 K3 K4 K5 K6].
  destruct (ready_same s0 s K1 K2 K5) as [Hc Hd]. split.
  - by apply (wired_keeps mv s0).
  - rewrite K5. destruct C; auto.
  - destruct K6 as [E|(_ & k & H1 & H2)].
    + rewrite E. destruct D; auto.
    + right. exists k. by rewrite K1.
Qed.

(** The current interface is set after the default one, whose netif is some
    interface's, or there is neither. *)
Lemma track_default_ready s :
  ready s -> exists s', track_default s = Running s' /\ wired s' /\ config s' = config s /\
    (current_on s' /\ (default_netif s' = None \/ own_default s') \/
     Current_Interface_Id s' = -2 /\ default_netif s' = None).
Proof.
  intros [W C D].
  set (s1 := s <| Current_Interface_Id :=
    match default_netif s with
    | Some ppp => PPP_Interface_Id s | Some sta => Wifi_Interface_Id s
    | Some eth => ETH_Interface_Id s | _ => Current_Interface_Id s
    end |>).
  assert (W1 : wired s1) by (apply (wired_same s); [done|by intros []|done|done|done]).
  assert (H1 : current_on s1 /\ (default_netif s1 = None \/ own_default s1) \/
               Current_Interface_Id s1 = -2 /\ default_netif s1 = None).
  { destruct D as [D|(k & Hk & D)].
    - change (default_netif s1) with (default_netif s).
      assert (Ec : Current_Interface_Id s1 = Current_Interface_Id s) by (cbn; by rewrite D).
      rewrite Ec. destruct C as [(k & Hk & C)|C]; [left|by right].
      split; [|by left]. exists k. split; [done|]. rewrite Ec, C. by destruct k.
    - left. split; [|right; exists k; by split]. exists k. split; [done|].
      cbn. rewrite D. by destruct k. }
  unfold track_default, bind, ret. fold s1. unfold on, test, record_call, ret, pass.
  case_match; eexists; (split; [reflexivity|]).
  - split_and!; [by apply (wired_same s1); [|intros []| | |]|done|exact H1].
  - by split_and!.
Qed.

Definition in_range (o : outcome) : Prop :=
  match o with Running s => ready s | Restarted _ => True | Undefined => False end.

Lemma in_range_bind a b s :
  in_range (a s) -> (forall s', ready s' -> in_range (b s')) -> in_range ((a >> b) s).
Proof. unfold bind, in_range. destruct (a s) as [s'|s'|]; intros H1 H2; [by apply H2 | done | done]. Qed.

Lemma fine_in_range mv s0 a : ready s0 -> fine mv s0 s0 a -> in_range (a s0).
Proof.
  unfold fine, in_range. destruct (a s0) as [s|s|]; [|done|done]. intros R K. by apply (ready_keeps mv s0).
Qed.

Lemma periodic_in_range ws ws' s : ready s -> in_range (periodic ws ws' s).
Proof.
  intros R. destruct (track_default_ready s R) as (s1 & E & W & Ec & H).
  unfold periodic, bind at 1. rewrite E. clear E R.
  destruct H as [[C D]|[C D]].
  - apply (fine_in_range true); [by split; auto|].
    apply fine_bind; [by apply fine_watch_modem, keeps_refl|]. intros s2 K2.
    apply fine_bind; [by apply fine_log|]. intros s3 K3.
    apply fine_bind; [by apply fine_keep_wifi|]. intros s4 K4.
    apply fine_bind; [by apply fine_try_connect|]. intros s5 K5.
    apply fine_bind; [by apply fine_retry_wifi|]. intros s6 K6. by apply fine_failover.
  - apply (fine_in_range false); [by split; auto|].
    apply fine_bind; [by apply fine_watch_modem, keeps_refl|]. intros s2 K2.
    apply fine_bind; [by apply fine_log|]. intros s3 K3.
    apply fine_bind; [by apply fine_keep_wifi|]. intros s4 K4.
    assert (D4 : default_netif s4 = None) by (destruct (keeps_default _ _ _ K4) as [->|[? _]]; done).
    apply fine_bind.
    { unfold try_connect. apply fine_on; [done|]. rewrite D4, andb_false_r. done. }
    intros s5 K5. apply fine_bind; [by apply fine_retry_wifi|]. intros s6 K6.
    assert (C6 : Current_Interface_Id s6 = -2) by (by rewrite (keeps_current _ _ _ K6)).
    assert (N : forall k, (Current_Interface_Id s6 =? id_of k s6) = false).
    { intros k. apply Z.eqb_neq. intros E. rewrite C6, (keeps_id _ _ _ K6 k) in E.
      destruct (is_on (config s1) k) eqn:Ek.
      - destruct (wired_on _ W k Ek) as [up D6]. unfold deref in D6. by rewrite <- E in D6.
      - by rewrite (wired_off _ W k Ek) in E. }
    assert (F : forall b : bool, b = true -> b = false -> False) by (intros []; done).
    unfold failover. apply fine_on; [done|intros _].
    apply fine_test; intros H1; [destruct (F _ H1 (N Wifi))|].
    apply fine_test; intros H2; [destruct (F _ H2 (N Ethernet))|].
    apply fine_on; [done|]. intros H3. destruct (F _ H3 (N Modem)).
Qed.

Lemma iteration_in_range ws ws' s : ready s -> in_range (interfaceTask ws ws' s).
Proof.
  intros R. unfold interfaceTask. apply in_range_bind.
  - unfold on, test, pass. case_match; [by apply periodic_in_range|done].
  - clear s R. intros s R. pose proof (ready_wired _ R) as W. pose proof (keeps_refl true s) as K.
    apply (fine_in_range true); [done|]. unfold watch_connection, watch_ethernet, count_time. fine_tac.
Qed.

(** ** Start *)

Lemma high_priority_network_on c :
  (updateHighPriorityNetwork c = 1 -> is_on c Wifi = true) /\
  (updateHighPriorityNetwork c = 2 -> is_on c Modem = true) /\
  (updateHighPriorityNetwork c = 3 -> is_on c Ethernet = true).
Proof.
  unfold updateHighPriorityNetwork. cbn [is_on]. cbv zeta.
  destruct (wifi_on c), (gsm_on c), (ethernet_on c); cbn [andb]; repeat case_match; by split_and!.
Qed.

Lemma create_ifaces_wired s :
  exists s', create_ifaces true s = Running s' /\ wired s' /\ config s' = config s /\
    default_netif s' = default_netif s /\ Current_Interface_Id s' = Current_Interface_Id s.
Proof.
  unfold create_ifaces, ret. eexists. split; [reflexivity|]. split; [|done].
  split; [intros k | intros k |]; cbn [config update is_on id_of Wifi_Interface_Id PPP_Interface_Id
    ETH_Interface_Id available_interfaces]; rewrite ?andb_true_r.
  - unfold deref. cbn [config update ifaces Wifi_Interface_Id PPP_Interface_Id ETH_Interface_Id].
    destruct k; cbn [is_on id_of config update Wifi_Interface_Id PPP_Interface_Id ETH_Interface_Id];
      intros H; rewrite ?H, ?andb_true_r in *; rewrite ?H;
      destruct (wifi_on (config s)), (gsm_on (config s)), (ethernet_on (config s)); try done;
      by eexists.
  - destruct k; cbn [is_on id_of config update Wifi_Interface_Id PPP_Interface_Id ETH_Interface_Id];
      rewrite ?andb_true_r; intros H; by rewrite H.
  - unfold count_on. by destruct (wifi_on (config s)), (gsm_on (config s)), (ethernet_on (config s)).
Qed.

Lemma choose_in_range k i s :
  wired s -> is_on (config s) k = true -> (forall s, i s = id_of k s) ->
  default_netif s = None \/ own_default s -> in_range (choose i s).
Proof.
  intros W Hk Hi D. unfold choose.
  assert (Hs : forall s1, wired s1 -> is_on (config s1) k = true ->
    default_netif s1 = None \/ own_default s1 ->
    in_range (ret (fun s => s <| Current_Interface_Id := i s |>) s1)).
  { intros s1 W1 Hk1 D1. split; [by apply (wired_same s1); [|intros []| | |]| |].
    - left. exists k. split; [done|]. cbn [Current_Interface_Id update]. rewrite Hi. by destruct k.
    - destruct D1 as [D1|(j & H1 & H2)]; [by left|right; by exists j]. }
  unfold bind, on, test, pass. destruct (available_interfaces s >? 1); [|by apply Hs].
  unfold set_default. destruct (wired_on _ W k Hk) as [up E]. rewrite Hi, E. apply Hs.
  - by apply (wired_same s); [|intros []| | |].
  - done.
  - right. by exists k.
Qed.

Lemma in_range_call c s : ready s -> in_range (record_call c s).
Proof.
  intros R. pose proof (ready_wired _ R) as W. pose proof (keeps_refl true s) as K.
  apply (fine_in_range true); [done|]. fine_tac.
Qed.

Lemma start_in_range s :
  default_netif s = None -> in_range (interface_start true s).
Proof.
  intros D. unfold interface_start. unfold bind at 1. unfold ret at 1.
  match goal with |- in_range (bind _ _ ?t) => set (s0 := t) end.
  unfold bind at 1. destruct (create_ifaces_wired s0) as (s1 & -> & W & Ec & Ed & Eu).
  unfold bind at 1. unfold ret at 1.
  match goal with |- in_range (bind _ _ ?t) => set (s2 := t) end.
  assert (W2 : wired s2) by (by apply (wired_same s1); [|intros []| | |]).
  assert (D2 : default_netif s2 = None \/ own_default s2) by (left; by transitivity (default_netif s1); [|rewrite Ed]).
  assert (H2 : HighPriorityNetwork s2 = updateHighPriorityNetwork (config s2)) by reflexivity.
  destruct (high_priority_network_on (config s2)) as (Hw & Hg & He). rewrite <- H2 in Hw, Hg, He.
  apply in_range_bind.
  - unfold test, on, pass.
    destruct (Z.eqb_spec (HighPriorityNetwork s2) 1) as [E|_]; [by apply (choose_in_range Wifi); auto|].
    destruct (Z.eqb_spec (HighPriorityNetwork s2) 2) as [E|_]; [by apply (choose_in_range Modem); auto|].
    unfold test. destruct (Z.eqb_spec (HighPriorityNetwork s2) 3) as [E|_]; [by apply (choose_in_range Ethernet); auto|].
    split; [done| |done]. right. by transitivity (Current_Interface_Id s1); [|rewrite Eu].
  - clear. intros s R. unfold on, test, pass. case_match; [by apply in_range_call|done].
Qed.

(** ** Runs *)

(** The task from power-up with a working Ethernet driver; between the
    iterations the event handlers change what is up, and ESP-IDF the default
    netif, which stays one of the charger's own or none. *)
Inductive reached : net -> Prop :=
  | reached_start s s' :
      default_netif s = None -> interface_start true s = Running s' -> reached s'
  | reached_events s s' : reached s ->
      config s' = config s -> (forall k, id_of k s' = id_of k s) ->
      if_netif <$> ifaces s' = if_netif <$> ifaces s ->
      available_interfaces s' = available_interfaces s ->
      Current_Interface_Id s' = Current_Interface_Id s ->
      default_netif s' = None \/ own_default s' -> reached s'
  | reached_iteration s s' ws ws' :
      reached s -> interfaceTask ws ws' s = Running s' -> reached s'.

Lemma reached_ready s : reached s -> ready s.
Proof.
  induction 1 as [s s' D E | s s' _ IH Hc Hi Hs Ha Hu Hd | s s' ws ws' _ IH E].
  - pose proof (start_in_range s D) as R. by rewrite E in R.
  - destruct IH as [W C D]. destruct (ready_same s s' Hc Hi Hu) as [Hcur _]. split; [|rewrite Hu|done].
    + by apply (wired_same s).
    + destruct C; auto.
  - pose proof (iteration_in_range ws ws' s IH) as R. by rewrite E in R.
Qed.

(** When the Ethernet driver installs (or is not used), no
    iteration of the interface task, whatever is up and however the default
    netif moved among the charger's own, reads outside [ifaces]. *)
Theorem interfaces_in_range s ws ws' : reached s -> interfaceTask ws ws' s <> Undefined.
Proof.
  intros R E. pose proof (iteration_in_range ws ws' s (reached_ready s R)) as H. by rewrite E in H.
Qed.

(** [a] keeps [p] and does not restart. *)
Definition stays {A} (p : net -> A) (a : stmt) : Prop := forall s,
  match a s with Running s' => p s' = p s | Restarted _ => False | Undefined => True end.

Section Stays.
Context {A : Type} (p : net -> A).
Lemma stays_bind a b : stays p a -> stays p b -> stays p (a >> b).
Proof.
  intros Ha Hb s. specialize (Ha s). unfold bind. destruct (a s) as [s'|s'|]; [|done|done].
  specialize (Hb s'). destruct (b s'); [congruence|done|done].
Qed.
Lemma stays_test g a b : stays p a -> stays p b -> stays p (test g a b).
Proof. intros Ha Hb s. unfold test. destruct (g s); [apply Ha | apply Hb]. Qed.
Lemma stays_pass : stays p pass.
Proof. done. Qed.
Lemma stays_on g a : stays p a -> stays p (on g a).
Proof. intros H. apply stays_test; [done | apply stays_pass]. Qed.
Lemma stays_reads k : (forall s0, stays p (k s0)) -> stays p (reads k).
Proof. intros H s. apply H. Qed.
Lemma stays_with_up i k : (forall up, stays p (k up)) -> stays p (with_up i k).
Proof. intros H s. unfold with_up. destruct (deref (i s) s); [apply H | done]. Qed.
End Stays.

Ltac stays_tac :=
  repeat (cbv beta zeta; lazymatch goal with
    | |- stays _ (bind _ _) => apply stays_bind
    | |- stays _ (test _ _ _) => apply stays_test
    | |- stays _ (on _ _) => apply stays_on
    | |- stays _ (reads _) => apply stays_reads; intros ?
    | |- stays _ pass => apply stays_pass
    | |- stays _ (with_up _ _) => apply stays_with_up; intros ?
    | |- stays _ (set_up _ _) => intros ?; unfold set_up; destruct (deref _ _); done
    | |- stays _ (set_default _) => intros ?; unfold set_default; destruct (deref _ _); done
    | |- stays _ _ => intros ?; reflexivity
    end).

Definition ethernet_view (s : net) : Config_t * Z * Z := (config s, ETH_Interface_Id s, loopCount s).

Lemma log_without_ethernet s :
  ethernet_on (config s) = true -> ETH_Interface_Id s = -1 ->
  match log_interfaces s with Running _ => False | Restarted _ => False | Undefined => True end.
Proof.
  intros He Hi. unfold log_interfaces, bind.
  assert (H : stays ethernet_view (on (fun s => gsm_on (config s)) (with_up PPP_Interface_Id (fun _ => pass))))
    by stays_tac.
  specialize (H s). destruct (on _ _ s) as [s'|s'|]; [|done|done]. injection H as Hc Hid _.
  unfold on, test, with_up, deref. by rewrite Hc, He, Hid, Hi.
Qed.

(** Going on from a state with Ethernet configured and without an id. *)
Definition no_ethernet (c : Config_t) (n : Z) (s : net) : Prop :=
  config s = c /\ ETH_Interface_Id s = -1 /\ loopCount s = n.

Lemma no_ethernet_bind c n a b s :
  stays ethernet_view a -> no_ethernet c n s ->
  (forall s', no_ethernet c n s' -> b s' = Undefined) -> (a >> b) s = Undefined.
Proof.
  intros Ha (H1 & H2 & H3) Hb. specialize (Ha s). unfold bind.
  destruct (a s) as [s'|s'|]; [|done|done]. injection Ha as E1 E2 E3. apply Hb.
  unfold no_ethernet. by rewrite E1, E2, E3.
Qed.

Lemma create_without_ethernet s b :
  exists s', no_ethernet (config s) (loopCount s) s' /\ (create_ifaces false >> b) s = b s'.
Proof.
  eexists. split; [|unfold create_ifaces, bind, ret; reflexivity]. split_and!; [done| |done].
  cbn [ETH_Interface_Id update]. by rewrite andb_false_r.
Qed.

Lemma periodic_without_ethernet n ws ws' b s :
  ethernet_on (config s) = true -> no_ethernet (config s) n s -> (periodic ws ws' >> b) s = Undefined.
Proof.
  intros He H. assert (E : periodic ws ws' s = Undefined); [|unfold bind; by rewrite E].
  unfold periodic. eapply no_ethernet_bind; [unfold track_default; stays_tac|exact H|].
  intros s2 H2. eapply no_ethernet_bind; [unfold watch_modem; stays_tac|exact H2|].
  intros s3 (H3 & H4 & _). pose proof (log_without_ethernet s3) as L. rewrite H3 in L. specialize (L He H4).
  unfold bind. by destruct (log_interfaces s3).
Qed.

(** When Ethernet is configured and its driver does not install,
    the task reads [ifaces[-1]], at the latest in its first iteration. *)
Theorem ethernet_failure_out_of_range s ws ws' :
  ethernet_on (config s) = true -> loopCount s mod 10 = 0 ->
  (interface_start false >> interfaceTask ws ws') s = Undefined.
Proof.
  intros He Hl. unfold interface_start. rewrite bind_assoc, bind_ret, bind_assoc.
  match goal with |- bind _ ?k ?t = _ => destruct (create_without_ethernet t k) as (s1 & H1 & ->) end.
  change (no_ethernet (config s) (loopCount s) s1) in H1.
  rewrite bind_assoc. eapply no_ethernet_bind; [stays_tac|exact H1|]. intros s2 H2.
  rewrite bind_assoc. eapply no_ethernet_bind; [unfold choose; stays_tac|exact H2|]. intros s3 H3.
  eapply no_ethernet_bind; [stays_tac|exact H3|]. intros s4 (H5 & H6 & H7).
  unfold interfaceTask. unfold bind at 1, on at 1, test at 1. rewrite H7, Hl. cbn [Z.eqb].
  pose proof (periodic_without_ethernet (loopCount s4) ws ws' pass s4) as P.
  rewrite H5 in P. specialize (P He). unfold bind in P.
  destruct (periodic ws ws' s4) as [s5|s5|]; [|specialize (P (conj H5 (conj H6 eq_refl))); done|done].
  by specialize (P (conj H5 (conj H6 eq_refl))).
Qed.

(** ** Failover *)

(** Whether interface [k] is up. *)
Definition link (s : net) (k : kind) : bool :=
  match k with
  | Wifi => isWifiConnected s
  | _ => match deref (id_of k s) s with Some f => connected f | None => false end
  end.
(** [j] could replace the current interface [k]. *)
Definition usable (s : net) (k j : kind) : Prop :=
  j <> k /\ is_on (config s) j = true /\ link s j = true.

Lemma with_up_link k f s :
  wired s -> is_on (config s) k = true -> k <> Wifi ->
  with_up (id_of k) f s = f (link s k) s.
Proof.
  intros W Hk Hn. destruct (wired_on _ W k Hk) as [up E]. unfold with_up, link. rewrite E.
  by destruct k.
Qed.
Lemma set_default_to k s :
  wired s -> is_on (config s) k = true ->
  set_default (id_of k) s =
    Running (s <| default_netif := Some (netif_of k) |> <| calls := SetDefault (netif_of k) :: calls s |>).
Proof. intros W Hk. destruct (wired_on _ W k Hk) as [up E]. unfold set_default. by rewrite E. Qed.

Lemma id_inj s j k :
  wired s -> is_on (config s) k = true -> (id_of k s =? id_of j s) = true -> j = k.
Proof.
  intros W Hk H. apply Z.eqb_eq in H. destruct (wired_on _ W k Hk) as [up E].
  destruct (is_on (config s) j) eqn:Hj.
  - destruct (wired_on _ W j Hj) as [up' E']. rewrite <- H, E in E'. injection E'. by destruct j, k.
  - rewrite (wired_off _ W j Hj) in H. unfold deref in E. by rewrite H in E.
Qed.

(** A state that differs in the calls made. *)
Definition only_calls (s s' : net) : Prop := exists l, s' = s <| calls := l |>.

Lemma wifi_if_down_calls s : exists s', wifi_if_down s = Running s' /\ only_calls s s'.
Proof.
  unfold wifi_if_down, wifi_connect, on, test, record_call, ret, pass. unfold only_calls.
  destruct (negb _); [destruct (wifi_on _)|]; eexists; (split; [reflexivity|]);
    [by eexists | exists (calls s); by destruct s..].
Qed.

(** Where the failover went: to a usable interface no usable one is above, or
    nowhere when there is none. *)
Definition moved_to_best (s : net) (k : kind) (o : outcome) : Prop :=
  exists s', o = Running s' /\
    ((exists j, usable s k j /\ default_netif s' = Some (netif_of j) /\
        forall i, usable s k i -> priority (config s) i <= priority (config s) j) \/
     ((forall j, ~ usable s k j) /\ default_netif s' = default_netif s)).

Lemma best_is s k o j :
  o = set_default (id_of j) s -> wired s -> usable s k j ->
  (forall i, usable s k i -> priority (config s) i <= priority (config s) j) -> moved_to_best s k o.
Proof.
  intros -> W U H. destruct U as (U1 & U2 & U3). rewrite set_default_to by done.
  eexists. split; [reflexivity|]. left. exists j. split_and!; [|done|done]. by repeat split.
Qed.

Lemma best_is_none s k s' :
  (forall j, ~ usable s k j) -> default_netif s' = default_netif s -> moved_to_best s k (Running s').
Proof. intros H1 H2. exists s'. split; [done|]. by right. Qed.

(** The fields the failover looks at. *)
Record like (s s' : net) : Prop := mkLike {
  like_config : config s' = config s;
  like_id k : id_of k s' = id_of k s;
  like_ifaces : ifaces s' = ifaces s;
  like_wifi : isWifiConnected s' = isWifiConnected s;
  like_count : available_interfaces s' = available_interfaces s;
  like_default : default_netif s' = default_netif s
}.

Lemma like_refl s : like s s.
Proof. by split. Qed.
Lemma like_trans s1 s2 s3 : like s1 s2 -> like s2 s3 -> like s1 s3.
Proof. intros [] []. split; congruence. Qed.
Lemma like_calls s s' : only_calls s s' -> like s s'.
Proof. intros [l ->]. by split. Qed.
Lemma like_wired s s' : like s s' -> wired s -> wired s'.
Proof. intros [] W. apply (wired_same s); try done. congruence. Qed.
Lemma like_deref s s' i : like s s' -> deref i s' = deref i s.
Proof. intros L. unfold deref. by rewrite (like_ifaces _ _ L). Qed.
Lemma like_link s s' k : like s s' -> link s' k = link s k.
Proof.
  intros L. unfold link. destruct k; rewrite ?(like_deref _ _ _ L).
  - apply (like_wifi _ _ L).
  - by rewrite (like_id _ _ L Modem).
  - by rewrite (like_id _ _ L Ethernet).
Qed.
Lemma like_usable s s' k j : like s s' -> usable s' k j <-> usable s k j.
Proof. intros L. unfold usable. by rewrite (like_config _ _ L), (like_link _ _ _ L). Qed.
Lemma like_best s s' k o : like s s' -> moved_to_best s' k o -> moved_to_best s k o.
Proof.
  intros L (s1 & E & H). exists s1. split; [done|]. destruct H as [(j & U & D & H)|[H D]].
  - left. exists j. split_and!; [by apply (like_usable s s' k j L)|done|].
    intros i Hi. rewrite <- (like_config _ _ L). by apply H, (like_usable s s' k i L).
  - right. split; [|by rewrite D, (like_default _ _ L)].
    intros j Hj. by apply (H j), (like_usable s s' k j L).
Qed.

(** A statement that leaves all that alone goes first. *)
Lemma best_after s k a b :
  (exists s1, a s = Running s1 /\ like s s1) ->
  (forall s1, like s s1 -> moved_to_best s1 k (b s1)) -> moved_to_best s k ((a >> b) s).
Proof. intros (s1 & E & L) H. unfold bind. rewrite E. by apply (like_best s s1), H. Qed.

Lemma mark_like g f s :
  (forall s, like s (f s)) -> exists s1, on g (ret f) s = Running s1 /\ like s s1.
Proof.
  intros H. unfold on, test, ret, pass. destruct (g s); eexists; (split; [reflexivity|]); [apply H|apply like_refl].
Qed.
Lemma wifi_if_down_like s : exists s1, wifi_if_down s = Running s1 /\ like s s1.
Proof.
  destruct (wifi_if_down_calls s) as (s1 & E & C). exists s1. split; [done|]. by apply like_calls.
Qed.
Lemma mark_up_like k f s :
  wired s -> is_on (config s) k = true -> (forall s, like s (f s)) ->
  exists s1, with_up (id_of k) (fun e => on (fun _ => e) (ret f)) s = Running s1 /\ like s s1.
Proof.
  intros W Hk H. destruct (wired_on _ W k Hk) as [up E]. unfold with_up. rewrite E. by apply mark_like.
Qed.

Lemma count_cases s :
  wired s ->
  (available_interfaces s =? 3) = wifi_on (config s) && gsm_on (config s) && ethernet_on (config s) /\
  (wifi_on (config s) && gsm_on (config s) && ethernet_on (config s) = false ->
   (available_interfaces s =? 2) =
   (wifi_on (config s) && gsm_on (config s)) || (wifi_on (config s) && ethernet_on (config s))
   || (gsm_on (config s) && ethernet_on (config s))).
Proof.
  intros W. rewrite (wired_count _ W). unfold count_on.
  by destruct (wifi_on (config s)), (gsm_on (config s)), (ethernet_on (config s)).
Qed.

(** Close a goal about the best usable interface by going through the three. *)
Ltac best_tac s W :=
  lazymatch goal with
  | |- moved_to_best _ _ (set_default Wifi_Interface_Id _) => apply (best_is s _ _ Wifi eq_refl W)
  | |- moved_to_best _ _ (set_default PPP_Interface_Id _) => apply (best_is s _ _ Modem eq_refl W)
  | |- moved_to_best _ _ (set_default ETH_Interface_Id _) => apply (best_is s _ _ Ethernet eq_refl W)
  | |- moved_to_best _ _ (Running _) => apply best_is_none; [|reflexivity]
  end;
  unfold usable, link in *; cbn [is_on priority] in *;
  first [ by split_and!
        | intros [] (? & ? & ?); cbn [is_on priority] in *; first [done | congruence | lia] ].

(** Run the guards on the interfaces fitted, with the links split on. *)
Ltac guards s C3 C2 :=
  unfold on, test, pass; rewrite ?C3, ?C2 by done;
  repeat match goal with
    | H : wifi_on (config s) = _ |- _ => rewrite H
    | H : gsm_on (config s) = _ |- _ => rewrite H
    | H : ethernet_on (config s) = _ |- _ => rewrite H
    end; cbn [andb orb].
Ltac go s W C3 C2 :=
  guards s C3 C2;
  repeat (first
      [ rewrite (with_up_link Modem _ s W) by done
      | rewrite (with_up_link Ethernet _ s W) by done ]; guards s C3 C2);
  try change (isWifiConnected s) with (link s Wifi);
  repeat match goal with |- context [link s ?k] => destruct (link s k) eqn:?; cbn [andb] end;
  repeat match goal with |- context [?a >? ?b] => destruct (a >? b) eqn:? end.

Lemma best_from_wifi s :
  wired s -> is_on (config s) Wifi = true -> moved_to_best s Wifi (failover_from_wifi s).
Proof.
  intros W0 Hw0. unfold failover_from_wifi. apply best_after; [by apply mark_like|].
  intros s1 L. pose proof (like_wired _ _ L W0) as W. rewrite <- (like_config _ _ L) in Hw0.
  clear s L W0. rename s1 into s. cbn [is_on] in Hw0.
  destruct (count_cases s W) as [C3 C2]. rewrite Hw0 in C3, C2.
  destruct (gsm_on (config s)) eqn:Hg, (ethernet_on (config s)) eqn:He; cbn [andb orb] in *.
  - go s W C3 C2; best_tac s W.
  - go s W C3 C2; best_tac s W.
  - go s W C3 C2; best_tac s W.
  - unfold on, test, pass. rewrite C3, C2 by done. best_tac s W.
Qed.

Lemma best_from_ethernet s :
  wired s -> is_on (config s) Ethernet = true ->
  moved_to_best s Ethernet (failover_from_ethernet s).
Proof.
  intros W0 He0. unfold failover_from_ethernet.
  apply best_after; [by apply (mark_up_like Ethernet)|].
  intros s1 L. pose proof (like_wired _ _ L W0) as W. rewrite <- (like_config _ _ L) in He0.
  clear s L W0. rename s1 into s. cbn [is_on] in He0.
  destruct (count_cases s W) as [C3 C2]. rewrite He0 in C3, C2.
  destruct (gsm_on (config s)) eqn:Hg, (wifi_on (config s)) eqn:Hw; cbn [andb orb] in *.
  - guards s C3 C2. apply best_after; [apply wifi_if_down_like|].
    intros s1 L. pose proof (like_wired _ _ L W) as W1.
    rewrite <- (like_config _ _ L) in Hg, Hw, He0. clear C2 C3 W L s.
    rename s1 into s, W1 into W. go s W W W; best_tac s W.
  - go s W C3 C2; best_tac s W.
  - guards s C3 C2. apply best_after; [apply wifi_if_down_like|].
    intros s1 L. pose proof (like_wired _ _ L W) as W1.
    rewrite <- (like_config _ _ L) in Hg, Hw, He0. clear C2 C3 W L s.
    rename s1 into s, W1 into W. go s W W W; best_tac s W.
  - unfold on, test, pass. rewrite C3, C2 by done. best_tac s W.
Qed.

Lemma best_from_modem s :
  wired s -> is_on (config s) Modem = true ->
  (wifi_on (config s) && ethernet_on (config s) = true -> isWifiConnected s = true) ->
  moved_to_best s Modem (failover_from_modem s).
Proof.
  intros W0 Hg0 Hx. unfold failover_from_modem.
  apply best_after; [by apply (mark_up_like Modem)|].
  intros s1 L. pose proof (like_wired _ _ L W0) as W. rewrite <- (like_config _ _ L) in Hg0, Hx.
  rewrite <- (like_wifi _ _ L) in Hx. clear s L W0. rename s1 into s. cbn [is_on] in Hg0.
  destruct (count_cases s W) as [C3 C2]. rewrite Hg0 in C3, C2.
  assert (Ha : forall a, (forall s1, like s s1 -> moved_to_best s1 Modem (a s1)) ->
               moved_to_best s Modem ((wifi_if_down >> a) s))
    by (intros a H; apply best_after; [apply wifi_if_down_like|done]).
  destruct (wifi_on (config s)) eqn:Hw, (ethernet_on (config s)) eqn:He; cbn [andb orb] in *.
  - guards s C3 C2. apply Ha. intros s1 L. pose proof (like_wired _ _ L W) as W1.
    rewrite <- (like_config _ _ L) in Hg0, Hw, He. specialize (Hx eq_refl).
    rewrite <- (like_wifi _ _ L) in Hx. clear C2 C3 W L Ha s.
    rename s1 into s, W1 into W. go s W W W; best_tac s W.
  - guards s C3 C2. apply Ha. intros s1 L.
    pose proof (like_wired _ _ L W) as W1.
    rewrite <- (like_config _ _ L) in Hg0, Hw, He. clear C2 C3 W L Ha Hx s.
    rename s1 into s, W1 into W. go s W W W; best_tac s W.
  - guards s C3 C2. apply Ha. intros s1 L.
    pose proof (like_wired _ _ L W) as W1.
    rewrite <- (like_config _ _ L) in Hg0, Hw, He. clear C2 C3 W L Ha Hx s.
    rename s1 into s, W1 into W. go s W W W; best_tac s W.
  - unfold on, test, pass. rewrite C3, C2 by done. best_tac s W.
Qed.

(** Claim C32.  Without a connection, twelve seconds after the start, the
    default interface moves from the current one to another that is up, such
    that no other one that is up has a higher priority, and stays when there
    is none; all but in one case: on the modem with all three interfaces on,
    it does not move while Wi-Fi is down, even though Ethernet may be up. *)
Theorem failover_goes_to_best s k :
  wired s -> is_on (config s) k = true -> Current_Interface_Id s = id_of k s ->
  TastStartedTime s > 10 ->
  if bool_decide (k = Modem) && wifi_on (config s) && ethernet_on (config s)
     && negb (isWifiConnected s)
  then exists s', failover false s = Running s' /\ default_netif s' = default_netif s
  else moved_to_best s k (failover false s).
Proof.
  intros W Hk Hc Ht. unfold failover, on, test, pass.
  rewrite Z.gtb_ltb, (proj2 (Z.ltb_lt _ _)) by lia. cbn [negb andb]. rewrite Hc.
  assert (N : forall j, j <> k -> (id_of k s =? id_of j s) = false).
  { intros j Hj. destruct (id_of k s =? id_of j s) eqn:E; [|done]. by apply id_inj in E. }
  pose proof (N Wifi) as Nw. pose proof (N Modem) as Nm. pose proof (N Ethernet) as Ne.
  cbn [id_of] in Nw, Nm, Ne. destruct k; cbn [id_of] in *.
  - rewrite bool_decide_false by done. rewrite Z.eqb_refl. by apply best_from_wifi.
  - rewrite bool_decide_true by done. rewrite Nw, Ne by done. rewrite Z.eqb_refl. cbn [andb].
    destruct (wifi_on (config s) && ethernet_on (config s)) eqn:E; cbn [andb];
      [|by apply best_from_modem; [..|rewrite E]].
    destruct (isWifiConnected s) eqn:Ew; cbn [negb]; [by apply best_from_modem|].
    unfold failover_from_modem.
    destruct (mark_up_like Modem (fun s => s <| PPPConnectedButConnectivityLost := true |>) s W Hk)
      as (s1 & E1 & L1); [by intros|].
    unfold bind at 1. change (with_up PPP_Interface_Id) with (with_up (id_of Modem)). rewrite E1.
    pose proof (like_wired _ _ L1 W) as W1. destruct (count_cases s1 W1) as [C3 _].
    rewrite (like_config _ _ L1) in C3. cbn [is_on] in Hk. apply andb_true_iff in E as [Eo Ee].
    rewrite Eo, Hk, Ee in C3. unfold test at 1. rewrite C3.
    destruct (wifi_if_down_like s1) as (s2 & E2 & L2). unfold bind at 1. rewrite E2.
    pose proof (like_trans _ _ _ L1 L2) as L. pose proof (like_wired _ _ L W) as W2.
    rewrite (with_up_link Ethernet _ s2 W2) by (try done; by rewrite (like_config _ _ L)).
    unfold on, test, pass. rewrite (like_config _ _ L), (like_wifi _ _ L), Eo, Ew. cbn [andb].
    exists s2. split; [done|]. apply (like_default _ _ L).
  - rewrite bool_decide_false by done. rewrite Nw by done. rewrite Z.eqb_refl. by apply best_from_ethernet.
Qed.

(** A charger with Wi-Fi and modem, on Wi-Fi without a connection. *)
Definition example_net : net :=
  mkNet (zeroed_config <| wifiAvailability := true |> <| wifiEnable := true |> <| wifiPriority := 3 |>
                       <| gsmAvailability := true |> <| gsmEnable := true |> <| gsmPriority := 2 |>)
    [mkIface sta true; mkIface ppp true] 0 1 (-1) 2 1 0 0 (Some sta)
    false true false false false false false false 0 0 0 0 11 [].

Lemma example_net_wired : wired example_net.
Proof. split; [intros []; try done; intros _; by eexists | intros []; done | done]. Qed.

Lemma failover_goes_to_best_witness :
  exists s', failover false example_net = Running s' /\ default_netif s' = Some ppp.
Proof.
  destruct (failover_goes_to_best example_net Wifi example_net_wired eq_refl eq_refl ltac:(done))
    as (s' & E & H).
  exists s'. split; [done|]. destruct H as [(j & (U1 & U2 & _) & -> & _)|[H _]].
  - by destruct j.
  - by destruct (H Modem).
Defined.

Lemma ethernet_failure_out_of_range_witness :
  ethernet_on (config (example_net <| config := (config example_net)
    <| ethernetAvailability := true |> <| ethernetEnable := true |> |>)) = true /\
  (interface_start false >> interfaceTask false false)
    (example_net <| config := (config example_net)
      <| ethernetAvailability := true |> <| ethernetEnable := true |> |>) = Undefined.
Proof. split; [reflexivity|]. apply ethernet_failure_out_of_range; reflexivity. Defined.

Lemma interfaces_in_range_witness :
  exists s, interface_start true (example_net <| default_netif := None |>) = Running s /\
  interfaceTask false false s <> Undefined.
Proof.
  eexists. split; [vm_compute; reflexivity|].
  apply interfaces_in_range. apply (reached_start (example_net <| default_netif := None |>)); vm_compute; reflexivity.
Defined.

(** ** Restart *)


(** The link and the count of the restart. *)
Definition restart_view (s : net) : bool * bool * Z :=
  (isWifiConnected s, isEthernetConnected s, WebsocketOffCount s).

Lemma periodic_restart_view ws ws' : stays restart_view (periodic ws ws').
Proof.
  unfold periodic, track_default, watch_modem, log_interfaces, keep_wifi, try_connect, retry_wifi,
    failover, failover_from_wifi, failover_from_ethernet, failover_from_modem, wifi_if_down, wifi_connect.
  stays_tac.
Qed.

Lemma rest_restart_view : stays restart_view (watch_ethernet >> count_time).
Proof. unfold watch_ethernet, count_time. stays_tac. Qed.

Lemma watch_lost s :
  isWifiConnected s || isEthernetConnected s = true -> 0 <= WebsocketOffCount s < RESTART_AFTER ->
  if WebsocketOffCount s =? RESTART_AFTER - 1 then exists s', watch_connection false s = Restarted s'
  else watch_connection false s = Running (s <| WebsocketOffCount := WebsocketOffCount s + 1 |>).
Proof.
  intros Hl Hc. unfold watch_connection, bind, on, test, ret, pass, RESTART_AFTER in *.
  assert (Hg : negb false && (isWifiConnected s || isModemConnected s || isEthernetConnected s) = true)
    by (cbn [negb andb]; destruct (isWifiConnected s), (isModemConnected s), (isEthernetConnected s); done).
  rewrite Hg. cbn [WebsocketOffCount update]. rewrite u32_small by lia. rewrite Z.geb_leb.
  destruct (Z.eqb_spec (WebsocketOffCount s) (600 - 1)) as [E|E].
  - rewrite E. cbn [Z.leb Z.compare Z.sub Z.add Z.opp Z.pos_sub Pos.compare Pos.compare_cont].
    change (600 <=? 600 - 1 + 1) with true. cbv iota. unfold record_call, ret.
    destruct (vcharge_lite_1_4 _); by eexists.
  - destruct (Z.leb_spec 600 (WebsocketOffCount s + 1)); [lia|done].
Qed.

(** One more second with a network and without a connection. *)
Lemma lost_second s :
  ready s -> isWifiConnected s || isEthernetConnected s = true ->
  0 <= WebsocketOffCount s < RESTART_AFTER ->
  if WebsocketOffCount s =? RESTART_AFTER - 1
  then exists s', interfaceTask false false s = Restarted s'
  else exists s', interfaceTask false false s = Running s' /\ ready s' /\
    isWifiConnected s' || isEthernetConnected s' = true /\
    WebsocketOffCount s' = WebsocketOffCount s + 1.
Proof.
  intros R Hl Hc. pose proof (iteration_in_range false false s R) as HR. revert HR.
  unfold interfaceTask. set (a := on _ _).
  assert (H : stays restart_view a) by (apply stays_on, periodic_restart_view).
  specialize (H s). unfold bind at 1 4 7. destruct (a s) as [s1|s1|]; [|done|by intros []].
  injection H as Hw He Hn. rewrite <- Hw, <- He in Hl. rewrite <- Hn in Hc |- *.
  pose proof (watch_lost s1 Hl Hc) as HW.
  destruct (WebsocketOffCount s1 =? RESTART_AFTER - 1).
  - intros _. destruct HW as [s2 E]. exists s2. unfold bind at 1. by rewrite E.
  - set (s2 := s1 <| WebsocketOffCount := _ |>) in HW.
    assert (E : forall b, (watch_connection false >> b) s1 = b s2) by (intros b; unfold bind; by rewrite HW).
    rewrite !E. pose proof (rest_restart_view s2) as H2. destruct ((watch_ethernet >> count_time) s2) as [s3|s3|]; [|done|by intros []].
    intros HR. exists s3. injection H2 as -> -> ->. by split_and!.
Qed.

(** Ten minutes with Wi-Fi or Ethernet up and no connection to the
    central system, and no less, restart the charger: the count reaches [n]
    after [n] seconds below six hundred, and the six hundredth restarts. *)
Theorem restart_after_ten_minutes s :
  ready s -> isWifiConnected s || isEthernetConnected s = true -> WebsocketOffCount s = 0 ->
  (forall n, Z.of_nat n < RESTART_AFTER ->
     exists s', repeat_stmt n (interfaceTask false false) s = Running s' /\
                WebsocketOffCount s' = Z.of_nat n) /\
  exists s', repeat_stmt 600 (interfaceTask false false) s = Restarted s'.
Proof.
  intros R Hl H0.
  assert (Hn : forall n t, ready t -> isWifiConnected t || isEthernetConnected t = true ->
    0 <= WebsocketOffCount t -> WebsocketOffCount t + Z.of_nat n < RESTART_AFTER ->
    exists t', repeat_stmt n (interfaceTask false false) t = Running t' /\ ready t' /\
      isWifiConnected t' || isEthernetConnected t' = true /\
      WebsocketOffCount t' = WebsocketOffCount t + Z.of_nat n).
  { induction n as [|n IH]; intros t Rt Lt Ct Nt; [exists t; split_and!; try done; lia|].
    pose proof (lost_second t Rt Lt ltac:(lia)) as H.
    destruct (Z.eqb_spec (WebsocketOffCount t) (RESTART_AFTER - 1)); [lia|].
    destruct H as (t1 & E & R1 & L1 & C1). cbn [repeat_stmt]. unfold bind. rewrite E.
    destruct (IH t1 R1 L1 ltac:(lia) ltac:(lia)) as (t2 & E2 & R2 & L2 & C2).
    exists t2. split_and!; try done. lia. }
  split.
  - intros n Hlt. destruct (Hn n s R Hl ltac:(lia) ltac:(lia)) as (s' & E & _ & _ & C).
    exists s'. split; [done|lia].
  - destruct (Hn 599%nat s R Hl ltac:(lia) ltac:(unfold RESTART_AFTER; lia)) as (s1 & E & R1 & L1 & C1).
    change 600%nat with (599 + 1)%nat. rewrite repeat_snoc. unfold bind. rewrite E.
    pose proof (lost_second s1 R1 L1) as H. rewrite C1, H0 in H. exact (H ltac:(unfold RESTART_AFTER; lia)).
Qed.

Definition example_lost : net := example_net <| WebsocketOffCount := 0 |> <| isWifiConnected := true |>.
Lemma example_lost_ready : ready example_lost.
Proof.
  split; [by apply (wired_same example_net), example_net_wired| |].
  - left. by exists Wifi.
  - right. by exists Wifi.
Qed.

Lemma restart_after_ten_minutes_witness :
  exists s', repeat_stmt 600 (interfaceTask false false) example_lost = Restarted s'.
Proof. apply (restart_after_ten_minutes example_lost example_lost_ready); reflexivity. Defined.
