(* ===== verification/Requests.v ===== *)
(** * Requests of the central system ([main/ocpp_task.c], [Connector0Task])

    The middle of an iteration of [Connector0Task]: once the charge point is
    connected and accepted it sends heartbeats and serves, in a fixed order,
    the requests and answers the receiving task has left in the [CMS...]
    variables; before that, whatever the connection, it counts the presses of
    the emergency button, which restart the charger or upload its logs.

    A request is [Some] payload while its [Received] flag is set.  The
    requests that belong to other components ([OcppKeys.v], [LocalList.v],
    [ProfileStore.v]) and those that are only answered ([DataTransfer],
    [GetCompositeSchedule], [GetDiagnostics], [UnlockConnector]) touch no
    cell of this state and are left out.  [esp_restart] does not return, and
    [TriggerMessage] indexes the connectors' arrays with a connector id
    nobody checks: the statements are those of [Outcome.v]. *)

From S2P Require Import Prelude Binary64 Config EnergyMeter ControlPilot Session Authorization Outcome.

(** ** State *)

Record desk := mkDesk {
  office : authz;
  connectorEnabled : cid -> bool;
  HeartbeatInterval : Z;   (* of [CPGetConfigurationResponse] *)
  now : Z;                 (* [gettimeofday], in seconds *)
  isWebsocketConnected_Now : bool;
  isPoweredOn : bool;
  loopCount : Z;
  (* requests and answers of the central system *)
  CMSRemoteStartTransactionRequest : cid -> option string;
  CMSChangeAvailabilityRequest : cid -> option string;
  CMSReserveNowRequest : cid -> option CMSReserveNowRequest_t;
  CMSHeartbeatResponse : option string;
  CMSRemoteStopTransactionRequest : option Z;
  CMSTriggerMessageRequest : option (string * Z);
  CMSClearCacheRequest : bool;
  CMSCancelReservationRequest : option Z;
  CMSResetRequest : option string;
  CMSUpdateFirmwareRequest : bool;
  updatingFirmwarePending : bool;
  CPResetResponse_status : string;
  (* the emergency button's presses *)
  slaveEmergencyButton : bool;   (* [slavePushButton[3]] *)
  emergencyButton_old : bool;    (* of connector 1 *)
  emergencyTransitionCount : Z;
  emergencyTimeCount : Z;
  uploadingLogs : bool
}.
#[export] Instance desk_rebuild : Rebuild desk := fun d =>
  mkDesk (office d) (connectorEnabled d) (HeartbeatInterval d) (now d)
    (isWebsocketConnected_Now d) (isPoweredOn d) (loopCount d)
    (CMSRemoteStartTransactionRequest d) (CMSChangeAvailabilityRequest d)
    (CMSReserveNowRequest d) (CMSHeartbeatResponse d) (CMSRemoteStopTransactionRequest d)
    (CMSTriggerMessageRequest d) (CMSClearCacheRequest d) (CMSCancelReservationRequest d)
    (CMSResetRequest d) (CMSUpdateFirmwareRequest d) (updatingFirmwarePending d)
    (CPResetResponse_status d) (slaveEmergencyButton d) (emergencyButton_old d)
    (emergencyTransitionCount d) (emergencyTimeCount d) (uploadingLogs d).

Definition stats (d : desk) : shared := G (office d).
Definition connector (d : desk) (i : cid) : conn := cell (office d) i.
Definition in_office (c : cmd authz) : cmd desk := fun d => d <| office := c (office d) |>.
Definition say (e : desk -> event) : cmd desk := fun d => in_office (call (fun _ => e d)) d.
Definition is_in (t : EvseDevStatuse) (i : cid) (d : desk) : bool := in_state t (office d) i.
Definition settings (d : desk) : Config_t := config (stats d).

(** The connectors of [for (i = 0; i <= config.NumberOfConnectors; i++)]. *)
Definition all_connectors (d : desk) : list cid := Conn0 :: fitted (office d).

Definition accepted_online (d : desk) : bool :=
  isWebsocketConnected_Now d && isWebsocketBooted (stats d).

(** ** Start of the iteration *)

(** Whether this second is a multiple of the interval of clock-aligned meter
    values; kept as it is while there is no connection. *)
Definition align_clock : cmd desk :=
  WHEN accepted_online THEN
    WHEN fun d => negb (ClockAlignedDataInterval (CPGetConfigurationResponse (stats d)) =? 0) THEN
      withs (fun d => in_office (setG (fun g => g <| ClockAlignedDataTime :=
        (now d mod 86400) mod ClockAlignedDataInterval (CPGetConfigurationResponse g) =? 0 |>)))
    FI
  FI.

Definition sample_emergency : cmd desk :=
  WHEN fun d => vcharge_lite_1_4 (settings d) THEN
    withs (fun d => in_office (setG (fun g => g <| emergencyButton := slaveEmergencyButton d |>)))
  FI.

Definition forget_presses : cmd desk := fun d =>
  d <| emergencyTransitionCount := 0 |> <| emergencyTimeCount := 0 |>.

(** Two presses within ten iterations restart the charger, three upload its
    logs. *)
Definition count_presses : stmt desk :=
  on (fun d => emergencyButton (stats d) && negb (emergencyButton_old d))
    (ret (fun d => d <| emergencyTransitionCount := u8 (emergencyTransitionCount d + 1) |>)) >>
  on (fun d => emergencyTransitionCount d >? 0)
    (ret (fun d => d <| emergencyTimeCount := u8 (emergencyTimeCount d + 1) |>) >>
     on (fun d => (emergencyTransitionCount d =? 2) && (emergencyTimeCount d =? 10))
       (ret forget_presses >> Restarted) >>
     on (fun d => (emergencyTransitionCount d =? 3) && (emergencyTimeCount d =? 10))
       (ret forget_presses >>
        on (fun d => redirectLogs (settings d) && isWebsocketConnected (stats d)
                     && isWebsocketBooted (stats d) && negb (uploadingLogs d))
          (ret (say (fun _ => EvUploadLogs) ;; (fun d => d <| uploadingLogs := true |>))))) >>
  on (fun d => emergencyTimeCount d >? 10) (ret forget_presses).

Definition begin_iteration : stmt desk :=
  ret (fun d => d <| isWebsocketConnected_Now := isWebsocketConnected (stats d) |>) >>
  ret align_clock >> ret sample_emergency >> count_presses.

(** ** Heartbeats *)

(** [sprintf(UniqId, "%llu", randomNumber++)] and the call. *)
Definition send_call (e : event) : cmd desk :=
  in_office (setG (fun g => g <| randomNumber := (randomNumber g + 1) mod 18446744073709551616 |>)) ;;
  say (fun _ => e).

Definition heartbeat : cmd desk :=
  WHEN fun d => loopCount d >=? HeartbeatInterval d THEN
    (fun d => d <| loopCount := 0 |>) ;; send_call EvHeartbeat
  FI.

(** The answer carries the time: set the clock and save it. *)
Definition heartbeat_answer : cmd desk :=
  withs (fun d => match CMSHeartbeatResponse d with
    | None => skip
    | Some time =>
        (fun d => d <| CMSHeartbeatResponse := None |>) ;;
        say (fun _ => EvSetClock time) ;; say (fun _ => EvWriteTimeBuffer time)
    end).

(** ** Requests for a connector *)

Definition authorize_received (i : cid) (d : desk) : bool :=
  if decide (i = Conn0) then aa_Received (office d)
  else CMSAuthorizeResponse_Received (connector d i).

Definition serve_connector (i : cid) : cmd desk :=
  WHEN authorize_received i THEN in_office processRfidTappedState FI ;;
  withs (fun d => match CMSRemoteStartTransactionRequest d i with
    | None => skip
    | Some tag =>
        (fun d => d <| CMSRemoteStartTransactionRequest :=
                         upd i None (CMSRemoteStartTransactionRequest d) |>) ;;
        in_office (remote_start i tag)
    end) ;;
  withs (fun d => match CMSChangeAvailabilityRequest d i with
    | None => skip
    | Some type =>
        in_office (change_availability i type) ;;
        (fun d => d <| CMSChangeAvailabilityRequest := upd i None (CMSChangeAvailabilityRequest d) |>)
    end) ;;
  in_office (apply_scheduled i) ;;
  withs (fun d => match CMSReserveNowRequest d i with
    | None => skip
    | Some r =>
        in_office (reserve_now i r) ;;
        (fun d => d <| CMSReserveNowRequest := upd i None (CMSReserveNowRequest d) |>)
    end).

(** ** Remote stop *)

Definition stop_connector (i : cid) : cmd desk :=
  in_office (set_data i (fun c => c <| stopReason := Stop_Remote |>) ;;
             setcell i (fun m => m <| taskState := flag_EVSE_Stop_Transaction |>)) ;;
  say (fun _ => EvRemoteStopResponse) ;;
  (fun d => d <| CMSRemoteStopTransactionRequest := None |>).

Definition carries (txn : Z) (i : cid) (d : desk) : bool :=
  txn =? transactionId (data_of (office d) i).

(** The first of the four cells that carries the transaction id; a request
    that none carries stays. *)
Definition stop_remotely : cmd desk :=
  withs (fun d => match CMSRemoteStopTransactionRequest d with
    | None => skip
    | Some txn =>
        IF carries txn Conn0 THEN stop_connector Conn0
        ELSE IF carries txn Conn1 THEN stop_connector Conn1
        ELSE IF carries txn Conn2 THEN stop_connector Conn2
        ELSE WHEN carries txn Conn3 THEN stop_connector Conn3
        FI FI FI FI
    end).

(** ** Triggered messages *)

(** Run a session function for any connector; [ConnectorData[0]] is the
    private data of connector 0. *)
Definition with_data (i : cid) (c : cmd session) : cmd authz := fun a =>
  let s := c (mkSession (G a) ((cell a i) <| ConnectorData := data_of a i |>)) in
  (setG (fun _ => glob s) ;; setcell i (fun _ => me s) ;;
   set_data i (fun _ => ConnectorData (me s))) a.

(** [connectorId] of a request that names no connector is not consulted. *)
Definition for_connector (id : Z) (c : cid -> cmd desk) : stmt desk := fun d =>
  match cid_of_Z id with Some i => Running (c i d) | None => Undefined end.

Definition trigger_status (i : cid) : cmd desk :=
  in_office (on_session i (
    withs (fun s => setm (fun m => m <| CPStatusNotificationRequest :=
      (CPStatusNotificationRequest m) <| sn_timestamp :=
        memcpy_str (clock (glob s)) (sn_timestamp (CPStatusNotificationRequest m)) |> |>)) ;;
    sendStatusNotificationRequest)).

Definition trigger_meter (i : cid) : cmd desk :=
  in_office (with_data i (
    setm (fun m => m <| ConnectorData := (ConnectorData m) <| meterValue := meter_now m |> |>) ;;
    setd (fun c => c <| meterStop := fadd (meterStop c)
      (fdiv (fmul (power (meterValue c)) (f_of_Z MeterValueSampleTime)) (f_of_Z 3600)) |>) ;;
    setd (fun c => c <| Energy := fsub (meterStop c) (meterStart c) |>) ;;
    updateMeterValues i false ;;
    sendMeterValuesRequest i "Trigger")).

Definition accept_trigger : cmd desk := say (fun _ => EvTriggerMessageResponse "Accepted").

Definition trigger_message : stmt desk :=
  reads (fun d => match CMSTriggerMessageRequest d with
    | None => pass
    | Some (message, id) =>
        ret (fun d => d <| CMSTriggerMessageRequest := None |>) >>
        let asks m := fun _ : desk => starts_with m message in
        test (asks "StatusNotification") (ret accept_trigger >> for_connector id trigger_status)
        (test (asks "MeterValues") (ret accept_trigger >> for_connector id trigger_meter)
        (ret (
          IF asks "BootNotification" THEN accept_trigger ;; send_call EvBootNotification
          ELSE IF asks "DiagnosticsStatusNotification" THEN
            accept_trigger ;; send_call EvDiagnosticsStatus
          ELSE IF asks "FirmwareStatusNotification" THEN
            accept_trigger ;; send_call EvFirmwareStatus
          ELSE WHEN asks "Heartbeat" THEN accept_trigger ;; send_call EvHeartbeat
          FI FI FI FI)))
    end).

(** ** Authorisation cache and reservations *)

Definition no_entries : list entry := replicate (Z.to_nat LOCAL_LIST_COUNT) (EmptyString, false).

Definition clear_cache : cmd desk :=
  WHEN CMSClearCacheRequest THEN
    in_office (seta (fun a => a <| LocalAuthorizationList := no_entries |>)) ;;
    say (fun d => EvWriteAuthorizationCache (LocalAuthorizationList (office d))) ;;
    say (fun _ => EvClearCacheResponse "Accepted") ;;
    (fun d => d <| CMSClearCacheRequest := false |>)
  FI.

Definition holds_reservation (id : Z) (i : cid) (d : desk) : bool :=
  (id =? rs_reservationId (ReservedData (data_of (office d) i))) && isReserved (data_of (office d) i).

(** [CPCancelReservationResponse.Sent] tells whether a connector answered. *)
Definition cancel_reservation : cmd desk :=
  withs (fun d => match CMSCancelReservationRequest d with
    | None => skip
    | Some id =>
        (fun d => let '(d, sent) :=
           foldl (fun '(d, sent) i =>
             if holds_reservation id i d then
               ((in_office (set_data i (fun c => c <| isReserved := false |>)) ;;
                 say (fun _ => EvCancelReservationResponse "Accepted")) d, true)
             else (d, sent)) (d, false) (all_connectors d) in
         if sent : bool then d else say (fun _ => EvCancelReservationResponse "Rejected") d) ;;
        (fun d => d <| CMSCancelReservationRequest := None |>)
    end).

(** ** Reset *)

(** Connectors 1 to 3, each waiting for a card or not enabled. *)
Definition all_idle (d : desk) : bool :=
  forallb (fun i => (is_in flag_EVSE_Read_Id_Tag i d && connectorEnabled d i)
                    || negb (connectorEnabled d i)) [Conn1; Conn2; Conn3].

Definition answer_reset (status : desk -> string) : cmd desk :=
  (fun d => d <| CPResetResponse_status := status d |>) ;;
  say (fun d => EvResetResponse (CPResetResponse_status d)).

Definition stop_soft (i : cid) : cmd desk :=
  in_office (set_data i (fun c => c <| stopReason := Stop_SoftReset |>) ;;
             setcell i (fun m => m <| taskState := flag_EVSE_Stop_Transaction |>)).

(** The loop over the connectors tests [taskState[1]] for each of them. *)
Definition stop_for_reset : cmd desk := fun d =>
  foreach (fitted (office d)) (fun i =>
    WHEN is_in flag_EVSE_Request_Charge Conn1 THEN stop_soft i FI) d.

Definition cut_for_reset (i : cid) : cmd desk :=
  WHEN is_in flag_EVSE_Request_Charge i THEN
    IF fun d => cpEnable (connector d i) THEN say (fun _ => EvSlaveSetControlPilotDuty i 100)
    ELSE say (fun _ => EvSlaveUpdateRelay i false) FI ;;
    in_office (set_data i (fun c => c <| stopReason := Stop_HardReset |>)) ;;
    in_office (save_data i)
  FI.

Definition soft_reset : stmt desk :=
  test all_idle
    (ret (answer_reset (fun _ => "Accepted")) >>
     ret (fun d => d <| CMSResetRequest := None |>) >> Restarted)
    (ret stop_for_reset).

Definition hard_reset : stmt desk :=
  ret (answer_reset (fun d => memcpy_str "Accepted" (CPResetResponse_status d))) >>
  ret (fun d => foreach (fitted (office d)) cut_for_reset d) >>
  ret (fun d => d <| CMSResetRequest := None |>) >> Restarted.

Definition reset : stmt desk :=
  reads (fun d => match CMSResetRequest d with
    | None => pass
    | Some type =>
        test (fun _ => starts_with "Soft" type) soft_reset
        (on (fun _ => starts_with "Hard" type) hard_reset)
    end).

(** ** Firmware update *)

Definition start_update : cmd desk := say (fun _ => EvUpdateFirmware).

Definition idle_or_disabled (d : desk) : bool :=
  forallb (fun i => is_in flag_EVSE_Read_Id_Tag i d || negb (connectorEnabled d i))
    [Conn1; Conn2; Conn3].

Definition update_firmware : cmd desk :=
  WHEN CMSUpdateFirmwareRequest THEN
    say (fun _ => EvUpdateFirmwareResponse) ;;
    (fun d => d <| CMSUpdateFirmwareRequest := false |>) ;;
    WHEN fun d => otaEnable (settings d) THEN
      IF idle_or_disabled THEN start_update
      ELSE (fun d => d <| updatingFirmwarePending := true |>) FI
    FI
  FI.

Definition pending_update : cmd desk :=
  WHEN updatingFirmwarePending THEN
    WHEN idle_or_disabled THEN
      (fun d => d <| updatingFirmwarePending := false |>) ;; start_update
    FI
  FI.

(** ** The block *)

Definition serve_requests : stmt desk :=
  on accepted_online
    (ret heartbeat >>
     ret (fun d => foreach (all_connectors d) serve_connector d) >>
     ret heartbeat_answer >>
     ret stop_remotely >>
     trigger_message >>
     ret clear_cache >>
     ret cancel_reservation >>
     reset >>
     ret update_firmware >>
     ret pending_update).

(** Without a connection the time is saved every ten iterations. *)
Definition count_loop : cmd desk :=
  (fun d => d <| loopCount := u32 (loopCount d + 1) |>) ;;
  WHEN fun d => negb (isWebsocketConnected_Now d) && negb (isPoweredOn d)
                && (loopCount d mod 10 =? 0) THEN
    say (fun d => EvWriteTimeBuffer (clock (stats d)))
  FI.

Definition requests_iteration : stmt desk :=
  begin_iteration >> serve_requests >> ret count_loop.
