(* ===== verification/RequestsSpec.v ===== *)
(** * Properties of the central system's requests ([Requests.v])

    What a reset, a cancelled reservation, a change of availability, a remote
    stop, a cleared cache and the emergency button's gesture lead to, alone
    and together with the connectors' tasks, the flash and the power-up. *)

From S2P Require Import Prelude Binary64 Config EnergyMeter ControlPilot Nvs.
From S2P Require Import OfflineStore Session SessionSpec SessionEnd Upload Boot BootSpec.
From S2P Require Import Authorization AuthorizationSpec Outcome Requests.

(** ** Cells of the connectors *)

Lemma fitted_range a : Conn0 ∉ fitted a.
Proof. apply connectors_upto_not_0. Qed.

Lemma all_connectors_NoDup d : NoDup (all_connectors d).
Proof. constructor; [apply fitted_range | apply fitted_nodup]. Qed.

Lemma data_of_set i j f a :
  data_of (set_data i f a) j = if decide (j = i) then f (data_of a i) else data_of a j.
Proof.
  unfold data_of, set_data. destruct i, j; reflexivity.
Qed.

Lemma set_data_globals i f a :
  config (G (set_data i f a)) = config (G a) /\ trace (G (set_data i f a)) = trace (G a).
Proof. unfold set_data. by destruct i. Qed.

Lemma set_data_task i f a j : taskState (cell (set_data i f a) j) = taskState (cell a j).
Proof. unfold set_data. by destruct i, j. Qed.

Lemma filter_ext_in {A} (p q : A -> bool) (l : list A) :
  (forall x, x ∈ l -> p x = q x) ->
  filter (fun x => p x = true) l = filter (fun x => q x = true) l.
Proof.
  induction l as [|x l IH]; intros H; [done|]. rewrite !filter_cons, (H x), IH; set_solver.
Qed.

(** The copy of a connector's data in flash: the last one written. *)
Fixpoint saved (i : cid) (l : list event) : option ConnectorPrivateData_t :=
  match l with
  | [] => None
  | EvWriteConnectorData j d :: l => if decide (j = i) then Some d else saved i l
  | _ :: l => saved i l
  end.

Definition writes (i : cid) (e : event) : Prop :=
  match e with EvWriteConnectorData j _ => j = i | _ => False end.

Lemma saved_skip i l k : Forall (fun e => ~ writes i e) l -> saved i (l ++ k) = saved i k.
Proof.
  induction 1 as [|e l H Hl IH]; [done|]. rewrite <- app_comm_cons. rewrite <- IH.
  destruct e; cbn [saved]; try done. by rewrite decide_False.
Qed.

(** ** Cancelled reservations *)

Definition cancel_one (id : Z) (i : cid) : cmd desk :=
  in_office (set_data i (fun c => c <| isReserved := false |>)) ;;
  say (fun _ => EvCancelReservationResponse "Accepted").

Lemma cancel_one_data id i d j :
  data_of (office (cancel_one id i d)) j =
    if decide (j = i) then (data_of (office d) i) <| isReserved := false |> else data_of (office d) j.
Proof. etransitivity; [|apply data_of_set]. destruct i, j; reflexivity. Qed.

Lemma cancel_one_trace id i d :
  trace (stats (cancel_one id i d)) = EvCancelReservationResponse "Accepted" :: trace (stats d).
Proof. destruct i; reflexivity. Qed.

Definition cancel_loop (id : Z) (l : list cid) (d : desk) (sent : bool) : desk * bool :=
  foldl (fun '(d, sent) i =>
    if holds_reservation id i d then (cancel_one id i d, true) else (d, sent)) (d, sent) l.

Lemma cancel_loop_spec id l d sent :
  NoDup l ->
  let hits := filter (fun i => holds_reservation id i d = true) l in
  let '(d', sent') := cancel_loop id l d sent in
  sent' = sent || negb (bool_decide (hits = [])) /\
  trace (stats d') = replicate (length hits) (EvCancelReservationResponse "Accepted") ++ trace (stats d) /\
  forall i, data_of (office d') i =
    if decide (i ∈ hits) then (data_of (office d) i) <| isReserved := false |>
    else data_of (office d) i.
Proof.
  intros Hl. revert d sent. induction Hl as [|i l Hi Hl IH]; intros d sent; cbn zeta.
  - cbn. split_and!; [by rewrite orb_false_r | done..].
  - rewrite filter_cons. unfold cancel_loop. cbn [foldl].
    destruct (holds_reservation id i d) eqn:E; [rewrite decide_True by done | rewrite decide_False by done].
    + set (d1 := cancel_one id i d). specialize (IH d1 true).
      change (foldl _ _ l) with (cancel_loop id l d1 true).
      assert (F : filter (fun i => holds_reservation id i d1 = true) l
                = filter (fun i => holds_reservation id i d = true) l).
      { apply filter_ext_in. intros j Hj. unfold holds_reservation, d1.
        rewrite !cancel_one_data, !decide_False by (intros ->; tauto). done. }
      rewrite F in IH. destruct (cancel_loop id l d1 true) as [d' sent'].
      destruct IH as (-> & T & D). split_and!.
      * cbn. by rewrite orb_true_r.
      * rewrite T. unfold d1. rewrite cancel_one_trace. cbn [length].
        rewrite replicate_S_end, <- app_assoc. done.
      * intros j. rewrite D. unfold d1. rewrite !cancel_one_data. destruct (decide (j = i)) as [->|Hj].
        -- rewrite decide_False; [by rewrite decide_True by set_solver|].
           intros [_ H]%list_elem_of_filter. tauto.
        -- destruct (decide (j ∈ filter _ l)); [rewrite decide_True by set_solver | rewrite decide_False by set_solver]; done.
    + change (foldl _ _ l) with (cancel_loop id l d sent). apply IH.
Qed.

Lemma cancel_reservation_eq d id :
  CMSCancelReservationRequest d = Some id ->
  let hits := filter (fun i => holds_reservation id i d = true) (all_connectors d) in
  let d' := cancel_reservation d in
  CMSCancelReservationRequest d' = None /\
  trace (stats d') =
    (if decide (hits = []) then [EvCancelReservationResponse "Rejected"]
     else replicate (length hits) (EvCancelReservationResponse "Accepted")) ++ trace (stats d) /\
  forall i, data_of (office d') i =
    if decide (i ∈ hits) then (data_of (office d) i) <| isReserved := false |>
    else data_of (office d) i.
Proof.
  intros E hits d'. unfold d', cancel_reservation, withs. rewrite E.
  pose proof (cancel_loop_spec id (all_connectors d) d false (all_connectors_NoDup d)) as H.
  rewrite !seqc_eq. cbv beta.
  change (foldl _ (d, false) (all_connectors d)) with (cancel_loop id (all_connectors d) d false).
  fold hits in H. destruct (cancel_loop id _ d false) as [d1 sent]. destruct H as (-> & T & D).
  destruct (decide (hits = [])) as [E0|E0]; cbn [orb].
  - rewrite bool_decide_true by done. cbn [negb]. split; [done|].
    split; [|intros i; rewrite <- D; by destruct i].
    rewrite E0 in T. change (EvCancelReservationResponse "Rejected" :: trace (stats d1) =
      [EvCancelReservationResponse "Rejected"] ++ trace (stats d)). by rewrite T.
  - rewrite bool_decide_false by done. cbn [negb]. done.
Qed.

(** The connectors that hold a reservation with this id. *)
Definition reserved_as (id : Z) (d : desk) (i : cid) : bool :=
  isReserved (data_of (office d) i) && (rs_reservationId (ReservedData (data_of (office d) i)) =? id).

Lemma holds_reservation_eq id i d : holds_reservation id i d = reserved_as id d i.
Proof. unfold holds_reservation, reserved_as. by rewrite Z.eqb_sym, andb_comm. Qed.

(** Cancelling a reservation frees exactly the connectors that hold one with
    the requested id, each acceptance being answered, and is rejected when
    there is none.  Nothing is written to flash: what a restart will read
    back is what it was before the cancellation, so a reservation that was
    saved when it was made comes back. *)
Theorem reservation_cancelled d id :
  CMSCancelReservationRequest d = Some id ->
  let hits := filter (fun i => reserved_as id d i = true) (all_connectors d) in
  let d' := cancel_reservation d in
  CMSCancelReservationRequest d' = None /\
  trace (stats d') =
    (if decide (hits = []) then [EvCancelReservationResponse "Rejected"]
     else replicate (length hits) (EvCancelReservationResponse "Accepted")) ++ trace (stats d) /\
  (forall i, data_of (office d') i =
    if decide (i ∈ hits) then (data_of (office d) i) <| isReserved := false |>
    else data_of (office d) i) /\
  (forall i, saved i (trace (stats d')) = saved i (trace (stats d))).
Proof.
  intros E hits d'. destruct (cancel_reservation_eq d id E) as (H1 & H2 & H3).
  assert (F : filter (fun i => holds_reservation id i d = true) (all_connectors d) = hits)
    by (apply filter_ext_in; intros; apply holds_reservation_eq).
  rewrite F in H2, H3. split_and!; try done. intros i. unfold d'. rewrite H2. apply saved_skip.
  destruct (decide _); [repeat constructor; tauto|]. apply Forall_replicate. tauto.
Qed.

(** ** Reset *)

Lemma hard_not_soft type : starts_with "Hard" type = true -> starts_with "Soft" type = false.
Proof. destruct type as [|[[] [] [] [] [] [] [] []] t]; done. Qed.

(** What the loop of a hard reset does to one charging connector. *)
Definition cut_call (i : cid) (d : desk) : event :=
  if cpEnable (connector d i) then EvSlaveSetControlPilotDuty i 100 else EvSlaveUpdateRelay i false.
Definition hard_stopped (i : cid) (d : desk) : ConnectorPrivateData_t :=
  (data_of (office d) i) <| stopReason := Stop_HardReset |>.
Definition charging (i : cid) (d : desk) : bool := is_in flag_EVSE_Request_Charge i d.

(** The calls of the loop over [l], latest first. *)
Definition cut_calls (l : list cid) (d : desk) : list event :=
  flat_map (fun i => if charging i d then [EvWriteConnectorData i (hard_stopped i d); cut_call i d]
                     else []) (reverse l).

Lemma connector_view j d' d : j <> Conn0 -> connector d' j = connector d j ->
  charging j d' = charging j d /\ hard_stopped j d' = hard_stopped j d /\ cut_call j d' = cut_call j d.
Proof.
  intros Hj H. unfold charging, is_in, in_state, hard_stopped, cut_call, data_of.
  rewrite !decide_False by done. unfold connector in *. by rewrite H.
Qed.

Lemma cut_for_reset_spec i d : i <> Conn0 ->
  let d' := cut_for_reset i d in
  trace (stats d') = (if charging i d then [EvWriteConnectorData i (hard_stopped i d); cut_call i d]
                      else []) ++ trace (stats d) /\
  forall j, j <> i -> connector d' j = connector d j.
Proof.
  intros Hi. cbv zeta. unfold cut_for_reset, whenc, ifc, charging, cut_call.
  destruct (is_in _ i d); [|done].
  unfold seqc at 1 3. destruct (cpEnable (connector d i)).
  all: split; [destruct i; [done|reflexivity..]|].
  all: intros j Hj; destruct i, j; try done; reflexivity.
Qed.

Lemma cut_calls_cons i l d :
  cut_calls (i :: l) d = cut_calls l d ++ cut_calls [i] d.
Proof. unfold cut_calls. rewrite (reverse_cons l i), flat_map_app. reflexivity. Qed.

Lemma flat_map_same {A B} (f g : A -> list B) l :
  (forall x, x ∈ l -> f x = g x) -> flat_map f l = flat_map g l.
Proof. induction l as [|x l IH]; intros H; [done|]. cbn. rewrite (H x), IH; set_solver. Qed.

Lemma cut_loop_spec l d : NoDup l -> Conn0 ∉ l ->
  trace (stats (foreach l cut_for_reset d)) = cut_calls l d ++ trace (stats d).
Proof.
  intros Hl. revert d. induction Hl as [|i l Hi Hl IH]; intros d H0; [done|].
  unfold foreach. cbn [foldl]. fold (foreach l cut_for_reset (cut_for_reset i d)).
  destruct (cut_for_reset_spec i d ltac:(set_solver)) as [T C].
  rewrite IH by set_solver. rewrite T, (cut_calls_cons i l d), <- app_assoc. f_equal.
  2: { f_equal. unfold cut_calls. change (reverse [i]) with [i]. cbn [flat_map]. by rewrite app_nil_r. }
  unfold cut_calls. apply flat_map_same. intros j Hj.
  rewrite elem_of_reverse in Hj.
  destruct (connector_view j (cut_for_reset i d) d) as (-> & -> & ->); [set_solver | apply C; congruence|done].
Qed.

Lemma saved_cut_calls l d i k : NoDup l -> i ∈ l -> charging i d = true ->
  saved i (cut_calls l d ++ k) = Some (hard_stopped i d).
Proof.
  intros Hl. revert k. induction Hl as [|j l Hj Hl IH]; intros k Hi Hc; [by apply not_elem_of_nil in Hi|].
  rewrite cut_calls_cons, <- app_assoc.
  apply elem_of_cons in Hi as [<-|Hi]; [|by apply IH].
  rewrite saved_skip.
  - unfold cut_calls. change (reverse [i]) with [i]. cbn [flat_map]. rewrite Hc. cbn [app saved].
    by rewrite decide_True.
  - apply Forall_forall. intros e He. unfold cut_calls in He.
    apply in_flat_map in He as (x & Hx & He).
    rewrite <- list_elem_of_In, elem_of_reverse in Hx.
    destruct (charging x d); [|done].
    assert (x <> i) by congruence.
    destruct He as [<-|[<-|[]]]; [cbn; congruence|]. unfold cut_call. destruct (cpEnable _); cbn; tauto.
Qed.

Lemma hard_reset_eq d type :
  CMSResetRequest d = Some type -> starts_with "Hard" type = true ->
  exists d', reset d = Restarted d' /\
    trace (stats d') = cut_calls (fitted (office d)) d
      ++ EvResetResponse (memcpy_str "Accepted" (CPResetResponse_status d)) :: trace (stats d).
Proof.
  intros E H. unfold reset, reads. rewrite E. unfold test at 1. rewrite (hard_not_soft _ H).
  unfold on, test. rewrite H. unfold hard_reset. rewrite !bind_ret. eexists. split; [reflexivity|].
  set (d1 := answer_reset _ d). change (fitted (office d1)) with (fitted (office d)).
  etransitivity; [exact (cut_loop_spec (fitted (office d)) d1 (fitted_nodup _) (fitted_range _))|].
  f_equal.
Qed.

(** The stop request of a transaction a hard reset ended. *)
Lemma stop_online_hard id on s :
  updatingDataToCms (me s) = false -> stopReason (ConnectorData (me s)) = Stop_HardReset ->
  let d := ConnectorData (me s) in
  let s' := stop_online id on s in
  reports s' = reports s /\
  stop_report (CPStopTransactionRequest (me s')) =
    RStop (i32 (transactionId d)) (idTag d) (i32 (f_trunc (meterStop d)))
      (memcpy_str (clock (glob s)) (sp_timestamp (CPStopTransactionRequest (me s)))) "HardReset".
Proof.
  intros Hu Hr. cbv zeta.
  assert (F : respects (same reports) (stop_online id on)).
  { unfold stop_online, restart_reason, updateMeterValues; unfold_calls. same_tac. }
  split; [apply F|]. unfold stop_online. rewrite !seqc_eq. set (s1 := withs _ s).
  assert (E : restart_reason not_plugged on s1 = s1).
  { unfold restart_reason, whenc, ifc.
    change (ConnectorData (me s1)) with (ConnectorData (me s)). by rewrite Hr. }
  rewrite E, (reason_summary s1 Hu eq_refl).
  change (stopReason (ConnectorData (me s1))) with (stopReason (ConnectorData (me s))).
  rewrite Hr. reflexivity.
Qed.


(** Whether an iteration of a connector's task is undisturbed. *)
Definition undisturbed (s : session) :=
  (updatingDataToCms (me s), FirmwareUpdateStarted (glob s), isWebsocketConnected (glob s),
   isWebsocketBooted (glob s), CPGetConfigurationResponse (glob s)).

Lemma task_undisturbed id : respects (same undisturbed) (ConnectorTask id).
Proof.
  unfold ConnectorTask, de_energise. unfold_rfid; unfold_auth; unfold_start; unfold_stop; unfold_charge.
  same_tac.
Qed.

(** Connector [i] sent to the stop state for a soft reset. *)
Definition soft_stopped (m : conn) : conn :=
  m <| ConnectorData := (ConnectorData m) <| stopReason := Stop_SoftReset |> |>
    <| taskState := flag_EVSE_Stop_Transaction |>.

Lemma soft_loop_idle l d :
  charging Conn1 d = false ->
  foreach l (fun i => WHEN is_in flag_EVSE_Request_Charge Conn1 THEN stop_soft i FI) d = d.
Proof.
  intros H. induction l as [|i l IH]; [done|]. unfold foreach. cbn [foldl].
  unfold whenc at 2, ifc. unfold charging in H. rewrite H. exact IH.
Qed.

Lemma stop_for_reset_spec d :
  stop_for_reset d =
    if charging Conn1 d && bool_decide (Conn1 ∈ fitted (office d)) then stop_soft Conn1 d else d.
Proof.
  unfold stop_for_reset. destruct (charging Conn1 d) eqn:E; cbn [andb]; [|by apply soft_loop_idle].
  assert (F : fitted (office d) = [] \/ exists l, fitted (office d) = Conn1 :: l /\ Conn1 ∉ l).
  { unfold fitted, connectors_upto. rewrite !filter_cons, filter_nil. repeat case_decide; cbn [cid_to_Z] in *; try lia.
    all: first [by left | right; eexists; split; [reflexivity|set_solver]]. }
  destruct F as [->|(l & -> & _)]; [by rewrite bool_decide_false by set_solver|].
  rewrite bool_decide_true by set_solver.
  transitivity (foreach l (fun i => WHEN is_in flag_EVSE_Request_Charge Conn1 THEN stop_soft i FI)
    (stop_soft Conn1 d)); [|by apply soft_loop_idle].
  unfold foreach. cbn [foldl]. f_equal. unfold whenc, ifc. unfold charging in E. by rewrite E.
Qed.

Lemma soft_reset_eq d type :
  CMSResetRequest d = Some type -> starts_with "Soft" type = true ->
  reset d =
    if all_idle d then
      Restarted ((answer_reset (fun _ => "Accepted") d) <| CMSResetRequest := None |>)
    else Running (if charging Conn1 d && bool_decide (Conn1 ∈ fitted (office d)) then stop_soft Conn1 d else d).
Proof.
  intros E H. unfold reset, reads. rewrite E. unfold test at 1. rewrite H. unfold soft_reset, test.
  destruct (all_idle d); [by rewrite !bind_ret|]. unfold ret. by rewrite stop_for_reset_spec.
Qed.

(** Every enabled connector waits for a card. *)
Definition at_rest (d : desk) : Prop := forall i, i <> Conn0 -> connectorEnabled d i = true ->
  taskState (connector d i) = flag_EVSE_Read_Id_Tag.

Lemma all_idle_spec d : all_idle d = true <-> at_rest d.
Proof.
  unfold all_idle, at_rest, is_in, in_state, connector. cbn [forallb]. rewrite andb_true_r. split.
  - intros H i Hi He. bool_simpl. destruct i; [done|..];
      match goal with H : _ || negb (connectorEnabled d ?j) = true |- context [cell _ ?j] =>
        rewrite He, orb_false_r in H; bool_simpl; done end.
  - intros H.
    assert (X : forall i, i <> Conn0 -> bool_decide (taskState (cell (office d) i) = flag_EVSE_Read_Id_Tag)
      && connectorEnabled d i || negb (connectorEnabled d i) = true).
    { intros i Hi. destruct (connectorEnabled d i) eqn:E; [|apply orb_true_r].
      rewrite bool_decide_true by by apply H. done. }
    by rewrite !X.
Qed.

(** A soft reset is accepted, and the charger restarts, once every enabled
    connector waits for a card; until then it stays pending, unanswered, and
    stops a charging connector 1 with the reason [SoftReset].  No other
    connector is ever stopped for it: while connector 1 does not charge the
    handler does nothing, so that a reset sent while only connector 2 charges
    waits for that session to end by itself. *)
Theorem soft_reset_policy d type :
  CMSResetRequest d = Some type -> starts_with "Soft" type = true ->
  (at_rest d -> exists d', reset d = Restarted d' /\
     trace (stats d') = EvResetResponse "Accepted" :: trace (stats d)) /\
  (~ at_rest d ->
     if charging Conn1 d && bool_decide (Conn1 ∈ fitted (office d)) then
       exists d', reset d = Running d' /\ CMSResetRequest d' = Some type /\
         trace (stats d') = trace (stats d) /\
         connector d' Conn1 = soft_stopped (connector d Conn1) /\
         forall i, i <> Conn1 -> connector d' i = connector d i
     else reset d = Running d).
Proof.
  intros E H. rewrite (soft_reset_eq d type E H). rewrite <- all_idle_spec.
  split; intros Hi; [rewrite Hi; by eexists|].
  rewrite (not_true_is_false _ Hi). destruct (_ && _); [|done]. eexists. split; [reflexivity|].
  split_and!; try done. intros i Hn. unfold connector. by destruct i.
Qed.

(** The central system's answer to a stop request arrives. *)
Definition answer_stop (i : cid) (w : world) : world :=
  mkWorld (globals w) (upd i ((cells w i) <| CMSStopTransactionResponse_Received := true |>) (cells w)).
Definition with_world (w : world) (d : desk) : desk := in_office (fun a => a <| charge := w |>) d.

Lemma undisturbed_ready s s' :
  undisturbed s' = undisturbed s -> not_busy s = true -> online_now s = true ->
  not_busy s' = true /\ online_now s' = true /\
  CPGetConfigurationResponse (glob s') = CPGetConfigurationResponse (glob s).
Proof. unfold undisturbed, online_now. cbn. intros [= -> -> -> -> ->]. done. Qed.

(** The session a turn of connector [i] ends with. *)
Definition turn_of (i : cid) (w : world) : session :=
  ConnectorTask i (mkSession (globals w) (cells w i)).

(** Claim C14.  On a charger with one connector, a soft reset during an online session
    ends it: connector 1's next turn sends the stop request with the reason
    [SoftReset] and the transaction's id; once the central system answers, the
    following turn makes the connector idle and the pending reset is accepted
    and restarts the charger. *)
Theorem soft_reset_completes d type :
  CMSResetRequest d = Some type -> starts_with "Soft" type = true ->
  Conn1 ∈ fitted (office d) -> charging Conn1 d = true ->
  connectorEnabled d Conn1 = true -> connectorEnabled d Conn2 = false -> connectorEnabled d Conn3 = false ->
  let s := mkSession (stats d) (connector d Conn1) in
  not_busy s = true -> online_now s = true -> sp_Sent (CPStopTransactionRequest (me s)) = false ->
  1 <= TransactionMessageRetryInterval (CPGetConfigurationResponse (stats d)) ->
  exists d1 d2, reset d = Running d1 /\
    let w1 := turn Conn1 (charge (office d1)) in
    let w2 := turn Conn1 (answer_stop Conn1 w1) in
    reset (with_world w2 d1) = Restarted d2 /\
    exists r l, trace (stats d2) = EvResetResponse "Accepted" :: l /\ EvStopTransaction r ∈ l /\
      sp_reason r = "SoftReset" /\
      sp_transactionId r = i32 (transactionId (ConnectorData (connector d Conn1))).
Proof.
  intros E H Hf Hc E1 E2 E3 s Hb Ho Hs Hi.
  assert (Hn : all_idle d = false).
  { unfold all_idle. cbn [forallb]. rewrite E1. unfold is_in, in_state.
    unfold charging, is_in, in_state in Hc. bool_simpl. by rewrite Hc. }
  exists (stop_soft Conn1 d).
  set (s1 := mkSession (stats d) (soft_stopped (connector d Conn1))).
  pose proof (online_stop_turn Conn1 s1 eq_refl Hb Ho Hi) as W1.
  change (sp_Sent (CPStopTransactionRequest (me s1))) with (sp_Sent (CPStopTransactionRequest (me s))) in W1.
  rewrite Hs in W1. cbn [negb] in W1. destruct W1 as (T1 & S1 & Tr1).
  destruct (undisturbed_ready s1 (ConnectorTask Conn1 s1) (task_undisturbed Conn1 s1) Hb Ho) as (Hb1 & Ho1 & K1).
  set (s1' := ConnectorTask Conn1 s1) in *.
  set (s2 := mkSession (glob s1') ((me s1') <| CMSStopTransactionResponse_Received := true |>)).
  pose proof (online_stop_turn Conn1 s2 T1 Hb1 Ho1) as W2.
  change (CPGetConfigurationResponse (glob s2)) with (CPGetConfigurationResponse (glob s1')) in W2.
  rewrite K1 in W2. specialize (W2 Hi).
  change (sp_Sent (CPStopTransactionRequest (me s2))) with (sp_Sent (CPStopTransactionRequest (me s1'))) in W2.
  rewrite S1 in W2. cbn [negb] in W2. destruct W2 as (T2 & _ & d0 & note & Tr2 & _).
  set (s2' := ConnectorTask Conn1 s2) in *.
  assert (W1 : turn_of Conn1 (charge (office (stop_soft Conn1 d))) = s1') by reflexivity.
  set (w1 := turn Conn1 (charge (office (stop_soft Conn1 d)))).
  assert (W2 : turn_of Conn1 (answer_stop Conn1 w1) = s2').
  { unfold turn_of, s2', s2. rewrite <- W1. reflexivity. }
  set (w2 := turn Conn1 (answer_stop Conn1 w1)).
  assert (G2 : globals w2 = glob s2') by (rewrite <- W2; reflexivity).
  assert (C2 : taskState (cells w2 Conn1) = flag_EVSE_Read_Id_Tag) by (rewrite <- T2, <- W2; reflexivity).
  set (d1 := with_world w2 (stop_soft Conn1 d)).
  pose proof (soft_reset_eq d1 type E H) as P.
  assert (Hi1 : all_idle d1 = true).
  { unfold all_idle. cbn [forallb]. change (connectorEnabled d1) with (connectorEnabled d).
    change (is_in flag_EVSE_Read_Id_Tag Conn1 d1)
      with (bool_decide (taskState (cells w2 Conn1) = flag_EVSE_Read_Id_Tag)).
    by rewrite E1, E2, E3, C2, !andb_false_r. }
  rewrite Hi1 in P. eexists. split; [|cbv zeta; split; [exact P|]].
  - pose proof (soft_reset_eq d type E H) as Q. rewrite Hn, Hc, bool_decide_true in Q by done. exact Q.
  - exists (stop_request s1), (trace (globals w2)). split; [reflexivity|]. split; [|split; reflexivity].
    rewrite G2, Tr2. change (glob s2) with (glob s1'). rewrite Tr1.
    apply elem_of_app. right. do 2 (apply elem_of_cons; right). apply elem_of_app. right. by left.
Qed.

(** ** The authorisation cache *)

(** A cleared cache accepts no card, in memory and in flash. *)
Lemma cleared_cache_accepts_nobody d :
  CMSClearCacheRequest d = true ->
  let d' := clear_cache d in
  (forall tag, list_matches tag (LocalAuthorizationList (office d')) = false) /\
  trace (stats d') = EvClearCacheResponse "Accepted" :: EvWriteAuthorizationCache no_entries :: trace (stats d).
Proof.
  intros H. cbv zeta. unfold clear_cache, whenc, ifc. rewrite H. split; [|reflexivity].
  intros tag. unfold list_matches.
  change (existsb (fun e => starts_with tag (fst e) && snd e) no_entries = false).
  generalize (Z.to_nat LOCAL_LIST_COUNT) as n. 
  enough (forall n, existsb (fun e : entry => starts_with tag (fst e) && snd e)
    (replicate n (EmptyString, false)) = false) as X by (intros _; apply X).
  induction n as [|n IH]; [done|]. cbn. rewrite andb_false_r. exact IH.
Qed.

(** ** Availability *)

(** An idle connector without a vehicle. *)
Definition free (a : authz) (i : cid) : bool :=
  in_state flag_EVSE_Read_Id_Tag a i
  && (((cpState (cell a i) =? STATE_A) && cpEnable (cell a i))
      || (negb (cpEnable (cell a i)) && (Authorization.StatusState a i =? Authorization.STATUS_AVAILABLE))).

(** An unavailable idle connector stays idle, whatever is authorised. *)
Lemma unavailable_stays_idle i w :
  taskState (cells w i) = flag_EVSE_Read_Id_Tag ->
  CmsAvailable (ConnectorData (cells w i)) = false ->
  taskState (cells (turn i w) i) = flag_EVSE_Read_Id_Tag.
Proof.
  intros Ht Ha. unfold turn. cbn [cells]. rewrite upd_same.
  set (s := mkSession (globals w) (cells w i)).
  change (taskState (me s) = flag_EVSE_Read_Id_Tag) in Ht.
  change (CmsAvailable (ConnectorData (me s)) = false) in Ha. clearbody s.
  unfold ConnectorTask, withs. rewrite Ht. unfold whenc at 1, ifc at 1. destruct (not_busy s); [|done].
  symexec_as (processRfidState i s) ltac:(unfold processRfidState).
  all: try match goal with |- context [updateDisplayOnAcceptanceFailed ?j ?t] =>
    destruct (display_summary j t) as (? & ? & ? & ->) end; exact Ht.
Qed.

(** Claim C33.  A request to make a connector inoperative during a session is scheduled:
    it touches neither the session nor the availability.  A scheduled request
    takes effect at the first iteration that finds the connector idle without
    a vehicle, is then answered again and saved, and from then on no
    authorisation starts a session there; at any other iteration it does
    nothing, so that a vehicle left plugged in may start further sessions. *)
Theorem scheduled_unavailability a i type :
  i <> Conn0 -> starts_with "Inoperative" type = true ->
  let a1 := change_availability i type a in
  let a2 := apply_scheduled i a in
  (in_state flag_EVSE_Request_Charge a i = true ->
     taskState (cell a1 i) = taskState (cell a i) /\
     data_of a1 i = (data_of a i) <| CmsAvailableChanged := false |> <| CmsAvailableScheduled := true |> /\
     trace (G a1) = EvChangeAvailabilityResponse i "Scheduled"
       :: EvWriteConnectorData i (data_of a1 i) :: trace (G a)) /\
  (CmsAvailableScheduled (data_of a i) = true ->
     if free a i then
       data_of a2 i = (data_of a i) <| CmsAvailableScheduled := false |> <| CmsAvailable := false |>
                                    <| CmsAvailableChanged := true |> /\
       trace (G a2) = EvWriteConnectorData i (data_of a2 i)
         :: EvChangeAvailabilityResponse i "Accepted" :: trace (G a) /\
       forall g, taskState (cells (turn i (mkWorld g (cells (charge a2)))) i) = flag_EVSE_Read_Id_Tag
     else a2 = a).
Proof.
  intros Hi Ht a1 a2. split.
  - intros Hc. unfold a1, change_availability, set_data. rewrite decide_False by done.
    rewrite seqc_eq. unfold ifc.
    match goal with |- context [if ?b then _ else _] => replace b with true end.
    + rewrite Ht. unfold data_of. rewrite !decide_False by done. destruct i; done.
    + symmetry. rewrite <- Hc. by destruct i.
  - intros Hs. destruct (free a i) eqn:E.
    + assert (A : a2 = (set_data i (fun d => d <| CmsAvailableScheduled := false |>
          <| CmsAvailable := false |> <| CmsAvailableChanged := true |>) ;;
        call (fun _ => EvChangeAvailabilityResponse i "Accepted") ;; save_data i) a).
      { unfold a2, apply_scheduled, whenc, ifc. unfold free in E. by rewrite E, Hs. }
      rewrite A. split_and!; [destruct i; done..|]. intros g.
      apply andb_true_iff in E as [E _]. unfold in_state in E. apply bool_decide_eq_true in E.
      apply unavailable_stays_idle; by destruct i.
    + unfold a2, apply_scheduled, whenc, ifc. unfold free in E. by rewrite E.
Qed.

(** ** Remote stops *)

(** A request with the transaction id of no cell stays, unanswered; one with
    the id of cell 0 is answered as accepted but stops no connector: it takes
    the charge point's own task out of the state in which it reports, after a
    reconnection, what happened offline. *)
Theorem remote_stop_of_cell_0 {N} `{NvsLaws N ConnectorPrivateData_t} d txn :
  CMSRemoteStopTransactionRequest d = Some txn ->
  let d' := stop_remotely d in
  ((forall i, carries txn i d = false) -> d' = d) /\
  (carries txn Conn0 d = true ->
     CMSRemoteStopTransactionRequest d' = None /\
     trace (stats d') = EvRemoteStopResponse :: trace (stats d) /\
     (forall i, i <> Conn0 -> connector d' i = connector d i) /\
     forall fuel junk (p : @plant N), Boot.charge p = charge (office d') -> boot_step fuel junk p = Some p).
Proof.
  intros E d'. split; intros Hn.
  - unfold d', stop_remotely, withs. rewrite E. unfold whenc, ifc. by rewrite !Hn.
  - assert (X : d' = stop_connector Conn0 d).
    { unfold d', stop_remotely, withs. rewrite E. unfold ifc at 1. by rewrite Hn. }
    rewrite X. split_and!; [done..|by intros []|].
    intros fuel junk p Hp. unfold boot_step. by rewrite Hp.
Qed.

(** ** The emergency button's gesture *)

Definition set_button (b : bool) : cmd desk := in_office (setG (fun g => g <| emergencyButton := b |>)).

(** Iterations that sample the button as [l]; the loop over the connectors
    remembers each sample. *)
Fixpoint press_loop (l : list bool) : stmt desk :=
  match l with
  | [] => pass
  | b :: l => ret (set_button b) >> count_presses
              >> ret (fun d => d <| emergencyButton_old := b |>) >> press_loop l
  end.

(** The presses in [l] after a sample [old]. *)
Fixpoint rises (old : bool) (l : list bool) : Z :=
  match l with [] => 0 | b :: l => Z.b2z (b && negb old) + rises b l end.

Definition gesture_view (d : desk) :=
  (trace (stats d), redirectLogs (settings d), isWebsocketConnected (stats d),
   isWebsocketBooted (stats d), uploadingLogs d).
Definition counts (d : desk) : Z * Z := (emergencyTransitionCount d, emergencyTimeCount d).

Lemma rises_range old l : 0 <= rises old l <= Z.of_nat (length l).
Proof.
  revert old. induction l as [|b l IH]; intros old; cbn [rises length]; [lia|].
  specialize (IH b). destruct (b && negb old); cbn [Z.b2z]; lia.
Qed.

(** One sample of a gesture, up to its tenth. *)
Definition edge (b : bool) (d : desk) : Z := Z.b2z (b && negb (emergencyButton_old d)).
Definition counted (b : bool) (d : desk) : desk :=
  (set_button b d) <| emergencyTransitionCount := emergencyTransitionCount d + edge b d |>
                   <| emergencyTimeCount := emergencyTimeCount d + 1 |>.
Definition upload_logs : cmd desk :=
  WHEN fun d => redirectLogs (settings d) && isWebsocketConnected (stats d)
                && isWebsocketBooted (stats d) && negb (uploadingLogs d) THEN
    say (fun _ => EvUploadLogs) ;; (fun d => d <| uploadingLogs := true |>) FI.

Lemma count_press b d :
  let n := emergencyTransitionCount d + edge b d in
  0 <= emergencyTransitionCount d <= emergencyTimeCount d -> emergencyTimeCount d <= 9 -> 0 < n ->
  (ret (set_button b) >> count_presses) d =
    if emergencyTimeCount d + 1 =? 10 then
      if n =? 2 then Restarted (forget_presses (counted b d))
      else if n =? 3 then Running (upload_logs (forget_presses (counted b d)))
      else Running (counted b d)
    else Running (counted b d).
Proof.
  intros n Hn Hk Hp. rewrite bind_ret. unfold count_presses.
  set (c := on _ (ret _)). assert (C : c (set_button b d) =
    Running ((set_button b d) <| emergencyTransitionCount := n |>)).
  { unfold c, on, test, ret, pass, n, edge.
    change (emergencyButton (stats (set_button b d))) with b.
    change (emergencyButton_old (set_button b d)) with (emergencyButton_old d).
    change (emergencyTransitionCount (set_button b d)) with (emergencyTransitionCount d).
    destruct (b && _); cbn [Z.b2z]; [by rewrite u8_small by lia|].
    rewrite Z.add_0_r. by destruct d. }
  unfold bind at 1. rewrite C. clear c C.
  assert (Hn10 : n <= 10) by (unfold n, edge; destruct (_ && _); cbn [Z.b2z]; lia).
  fold (counted b d). unfold bind, on, test, ret, pass.
  cbn [emergencyTransitionCount update]. rewrite (proj2 (Z.gtb_lt n 0) Hp).
  cbn [emergencyTransitionCount emergencyTimeCount update].
  change (emergencyTimeCount (set_button b d)) with (emergencyTimeCount d).
  rewrite u8_small by lia. fold (counted b d).
  destruct (Z.eqb_spec (emergencyTimeCount d + 1) 10) as [E|E].
  - rewrite !andb_true_r. destruct (n =? 2); [done|]. cbn [emergencyTransitionCount emergencyTimeCount update].
    rewrite E. cbn [Z.eqb Pos.eqb]. rewrite andb_true_r. destruct (n =? 3).
    + unfold upload_logs, whenc, ifc. by destruct (_ && _).
    + unfold counted. by rewrite E.
  - rewrite !andb_false_r. cbn [emergencyTransitionCount emergencyTimeCount update].
    rewrite (proj2 (Z.eqb_neq _ 10) E), andb_false_r.
    cbn [emergencyTimeCount update]. rewrite Z.gtb_ltb, (proj2 (Z.ltb_ge _ _)) by lia. done.
Qed.

(** The logs are uploaded when they are kept and there is a connection. *)
Definition uploads (d : desk) : bool :=
  redirectLogs (settings d) && isWebsocketConnected (stats d) && isWebsocketBooted (stats d)
  && negb (uploadingLogs d).

(** What ten iterations with [n] presses lead to from [d]. *)
Definition gesture_outcome (n : Z) (d : desk) (o : outcome desk) : Prop :=
  if n =? 2 then exists d', o = Restarted d' /\ trace (stats d') = trace (stats d)
  else exists d', o = Running d' /\
    if n =? 3 then
      counts d' = (0, 0) /\ uploadingLogs d' = uploadingLogs d || uploads d /\
      trace (stats d') = (if uploads d then [EvUploadLogs] else []) ++ trace (stats d)
    else counts d' = (n, 10) /\ trace (stats d') = trace (stats d).

Lemma gesture_outcome_view n d1 d o :
  gesture_view d1 = gesture_view d -> gesture_outcome n d1 o -> gesture_outcome n d o.
Proof. unfold gesture_view, gesture_outcome, uploads. by intros [= -> -> -> -> ->]. Qed.

Lemma gesture_tenth b d :
  0 < emergencyTransitionCount d <= 9 -> emergencyTimeCount d = 9 ->
  gesture_outcome (emergencyTransitionCount d + edge b d) d (press_loop [b] d).
Proof.
  intros Hn Hk. cbn [press_loop]. rewrite <- bind_assoc. unfold bind at 1.
  assert (0 <= edge b d) by (unfold edge; destruct (_ && _); cbn; lia).
  rewrite count_press by lia. rewrite Hk. change (9 + 1 =? 10) with true. cbv iota.
  set (n := emergencyTransitionCount d + edge b d). set (c := counted b d).
  assert (C : counts c = (n, 10)) by (unfold counts, c; cbn; by rewrite Hk).
  assert (V : gesture_view c = gesture_view d) by reflexivity. clearbody c n.
  apply (gesture_outcome_view n c d _ V). unfold gesture_outcome.
  destruct (n =? 2); [by eexists|]. destruct (n =? 3).
  - assert (U : uploads (forget_presses c) = uploads c) by reflexivity.
    assert (Vf : counts (forget_presses c) = (0, 0) /\ gesture_view (forget_presses c) = gesture_view c)
      by done.
    unfold upload_logs, whenc, ifc. fold (uploads (forget_presses c)). rewrite U.
    set (f := forget_presses c) in *. clearbody f. destruct Vf as [F1 F2]. injection F2 as F3 _ _ _ F7.
    destruct (uploads c); eexists; (split; [reflexivity|]); (split; [exact F1|]).
    + split; [by rewrite orb_true_r | exact (f_equal (cons EvUploadLogs) F3)].
    + split; [by rewrite orb_false_r | exact F3].
  - eexists. split; [reflexivity|]. split; [exact C | reflexivity].
Qed.

Lemma gesture_early b l d :
  0 <= emergencyTransitionCount d <= emergencyTimeCount d -> emergencyTimeCount d < 9 ->
  0 < emergencyTransitionCount d + edge b d ->
  press_loop (b :: l) d = press_loop l ((counted b d) <| emergencyButton_old := b |>).
Proof.
  intros Hn Hk Hp. cbn [press_loop]. rewrite <- bind_assoc. unfold bind at 1.
  rewrite count_press by lia. by rewrite (proj2 (Z.eqb_neq _ 10)) by lia.
Qed.

Lemma gesture_rest l d :
  0 < emergencyTransitionCount d <= emergencyTimeCount d ->
  (1 <= length l)%nat -> emergencyTimeCount d + Z.of_nat (length l) = 10 ->
  gesture_outcome (emergencyTransitionCount d + rises (emergencyButton_old d) l) d (press_loop l d).
Proof.
  revert d. induction l as [|b [|b' l] IH]; intros d Hn Hl Hk; cbn [length] in *; [lia|..].
  - replace (rises _ [b]) with (edge b d) by (unfold edge; cbn [rises]; lia).
    apply gesture_tenth; lia.
  - assert (0 <= edge b d <= 1) by (unfold edge; destruct (_ && _); cbn; lia).
    rewrite gesture_early by lia. set (d1 := (counted b d) <| emergencyButton_old := b |>).
    apply (gesture_outcome_view _ d1); [reflexivity|].
    replace (emergencyTransitionCount d + rises (emergencyButton_old d) (b :: b' :: l))
      with (emergencyTransitionCount d1 + rises b (b' :: l)).
    + apply IH; unfold d1; cbn; lia.
    + unfold d1, edge in *. cbn [rises]. cbn. unfold edge. lia.
Qed.

(** The gesture on the emergency button: starting with the press that opens
    a window of ten iterations, exactly two presses restart the charger at the
    tenth iteration and exactly three upload its logs (when they are kept and
    the charge point is connected and accepted, once); any other number does
    nothing, and until the tenth iteration nothing happens at all. *)
Theorem emergency_gesture d l :
  counts d = (0, 0) -> emergencyButton_old d = false ->
  ((length l < 9)%nat -> exists d', press_loop (true :: l) d = Running d' /\
     trace (stats d') = trace (stats d)) /\
  (length l = 9%nat -> gesture_outcome (rises false (true :: l)) d (press_loop (true :: l) d)).
Proof.
  intros [= Hn Hk] Ho. assert (He : edge true d = 1) by (unfold edge; by rewrite Ho).
  set (d1 := (counted true d) <| emergencyButton_old := true |>).
  assert (E : press_loop (true :: l) d = press_loop l d1) by (apply gesture_early; lia).
  assert (C1 : emergencyTransitionCount d1 = 1 /\ emergencyTimeCount d1 = 1).
  { unfold d1, counted. cbn. rewrite Hn, Hk, He. done. }
  destruct C1 as [N1 K1]. rewrite E. split; intros Hl.
  - assert (P : forall l d, 0 < emergencyTransitionCount d <= emergencyTimeCount d ->
      emergencyTimeCount d + Z.of_nat (length l) <= 9 ->
      exists d', press_loop l d = Running d' /\ trace (stats d') = trace (stats d)).
    { clear. induction l as [|b l IH]; intros d Hn Hk; [by eexists|]. cbn [length] in Hk.
      assert (0 <= edge b d <= 1) by (unfold edge; destruct (_ && _); cbn; lia).
      rewrite gesture_early by lia.
      destruct (IH ((counted b d) <| emergencyButton_old := b |>)) as (d' & R & T); [cbn; lia..|].
      exists d'. split; [exact R|]. by rewrite T. }
    destruct (P l d1) as (d' & R & T); [lia..|]. exists d'. split; [exact R|]. by rewrite T.
  - apply (gesture_outcome_view _ d1); [reflexivity|].
    replace (rises false (true :: l)) with (emergencyTransitionCount d1 + rises true l)
      by (cbn [rises]; rewrite N1; reflexivity).
    apply (gesture_rest l d1); lia.
Qed.

(** ** Heartbeats *)

Definition grows (a a' : authz) : Prop := exists l, trace (G a') = l ++ trace (G a).
#[export] Instance grows_preorder : PreOrder grows.
Proof.
  split; [by exists []|]. intros a b c [l E] [k F]. exists (k ++ l). by rewrite F, E, app_assoc.
Qed.

Ltac grows_leaf :=
  let a := fresh "a" in intros a; unfold grows;
  lazymatch goal with
  | |- context [offer_card ?p a] => destruct (offer_card_summary p a) as (? & ->)
  | |- context [display_failure a] => destruct (display_failure_summary a) as (? & ? & ? & ->)
  | |- _ => idtac
  end;
  first [exists []; reflexivity | eexists [_]; reflexivity
        | eexists (_ ++ [_]); rewrite <- app_assoc; reflexivity].

Lemma tapped_grows : respects grows processRfidTappedState.
Proof. unfold_authz. respects_tac grows_leaf. Qed.

Lemma set_data_grows i f : respects grows (set_data i f).
Proof. intros a. exists []. by destruct (set_data_globals i f a) as [_ ->]. Qed.

Lemma remote_start_grows i tag : respects grows (remote_start i tag).
Proof.
  unfold remote_start, press_button, sendRemoteStartTransactionResponse, set_idTag.
  respects_tac ltac:(first [apply tapped_grows | grows_leaf]).
Qed.

Ltac office_leaf :=
  first [apply tapped_grows | apply remote_start_grows | apply set_data_grows | grows_leaf].

Lemma change_availability_grows i type : respects grows (change_availability i type).
Proof. unfold change_availability, save_data. respects_tac office_leaf. Qed.
Lemma apply_scheduled_grows i : respects grows (apply_scheduled i).
Proof. unfold apply_scheduled, save_data. respects_tac office_leaf. Qed.
Lemma reserve_now_grows i r : respects grows (reserve_now i r).
Proof. unfold reserve_now, save_data. respects_tac office_leaf. Qed.
Lemma with_data_grows i c : respects (emits (fun _ => True)) c -> respects grows (with_data i c).
Proof.
  intros H a. unfold with_data. set (s := mkSession _ _).
  destruct (H s) as (l & E & _). exists l. rewrite !seqc_eq.
  rewrite (proj2 (set_data_globals i _ _)). exact E.
Qed.
Lemma on_session_grows i c : respects (emits (fun _ => True)) c -> respects grows (on_session i c).
Proof. intros H a. destruct (H (mkSession (G a) (cell a i))) as (l & E & _). by exists l. Qed.

(** The calls made so far stay, and the count of the iterations is the
    heartbeats' only. *)
Definition later (d d' : desk) : Prop :=
  grows (office d) (office d') /\ loopCount d' = loopCount d.
#[export] Instance later_preorder : PreOrder later.
Proof.
  split; [done|]. intros a b c [G1 L1] [G2 L2]. split; [by etrans | congruence].
Qed.

Lemma later_office c : respects grows c -> respects later (in_office c).
Proof. intros H d. split; [apply H | done]. Qed.
Lemma later_say e : respects later (say e).
Proof. intros d. split; [by eexists [_]|done]. Qed.

Ltac calls_tac := unfold_calls; unfold updateMeterValues;
  respects_tac ltac:(first [apply emits_emit; done | intros ?; exists []; split; [reflexivity | constructor]]).
Ltac later_tac :=
  respects_tac ltac:(first
    [ apply later_say
    | apply later_office; first
        [ apply change_availability_grows | apply apply_scheduled_grows | apply reserve_now_grows
        | apply with_data_grows; calls_tac | apply on_session_grows; calls_tac
        | respects_tac office_leaf ]
    | intros ?; split; [exists []; reflexivity | reflexivity] ]).

Lemma serve_connector_later i : respects later (serve_connector i).
Proof. unfold serve_connector. later_tac. Qed.
Lemma trigger_status_later i : respects later (trigger_status i).
Proof. unfold trigger_status. later_tac. Qed.
Lemma trigger_meter_later i : respects later (trigger_meter i).
Proof. unfold trigger_meter. later_tac. Qed.
Lemma send_call_later e : respects later (send_call e).
Proof. unfold send_call. later_tac. Qed.

Lemma trigger_later : leads later trigger_message.
Proof.
  assert (F : forall id c, (forall i, respects later (c i)) -> leads later (for_connector id c)).
  { intros id c H d. unfold for_connector. destruct (cid_of_Z id); [apply H | done]. }
  unfold trigger_message, accept_trigger.
  leads_tac ltac:(first
    [ apply F; first [apply trigger_status_later | apply trigger_meter_later]
    | respects_tac ltac:(first [apply send_call_later | apply later_say
        | intros ?; split; [exists []; reflexivity | reflexivity]]) ]).
Qed.

Lemma cancel_later : respects later cancel_reservation.
Proof.
  intros d. split.
  - destruct (CMSCancelReservationRequest d) as [id|] eqn:E.
    + destruct (cancel_reservation_eq d id E) as (_ & T & _). eexists. exact T.
    + exists []. unfold cancel_reservation, withs. by rewrite E.
  - unfold cancel_reservation, withs. destruct (CMSCancelReservationRequest d); [|done].
    rewrite !seqc_eq. cbv beta. generalize (all_connectors d) as l. intros l.
    match goal with |- loopCount (update _ _ (let '(_, _) := foldl ?f ?p l in _)) = _ =>
      assert (X : forall q, loopCount (fst (foldl f q l)) = loopCount (fst q)) end.
    { induction l as [|i l IH]; intros [q b]; [done|]. cbn [foldl]. rewrite IH.
      by destruct (holds_reservation _ i q). }
    specialize (X (d, false)). destruct (foldl _ _ l) as [d1 []]; exact X.
Qed.

Lemma each_later (l : desk -> list cid) body :
  (forall i, respects later (body i)) -> respects later (fun d => foreach (l d) body d).
Proof. intros H d. apply respects_foreach; [exact _ | exact H]. Qed.

Lemma reset_later : leads later reset.
Proof.
  unfold reset, soft_reset, hard_reset, answer_reset, stop_for_reset, stop_soft, cut_for_reset, save_data.
  leads_tac ltac:(try (apply each_later; intros ?); later_tac).
Qed.

(** What follows the heartbeats in an iteration. *)
Lemma requests_later :
  leads later (ret (fun d => foreach (all_connectors d) serve_connector d) >> ret heartbeat_answer >>
    ret stop_remotely >> trigger_message >> ret clear_cache >> ret cancel_reservation >> reset >>
    ret update_firmware >> ret pending_update).
Proof.
  unfold heartbeat_answer, stop_remotely, stop_connector, clear_cache, update_firmware, pending_update,
    start_update.
  leads_tac ltac:(first
    [ apply trigger_later | apply reset_later | apply cancel_later
    | apply each_later; exact serve_connector_later | later_tac ]).
Qed.

(** The start of the iteration leaves these to the heartbeats. *)
Definition beat_view (d : desk) :=
  (loopCount d, HeartbeatInterval d, isWebsocketConnected (stats d), isWebsocketBooted (stats d)).

Lemma begin_view : leads (same beat_view) begin_iteration.
Proof.
  unfold begin_iteration, align_clock, sample_emergency, count_presses, forget_presses.
  leads_tac ltac:(respects_tac ltac:(intros ?; reflexivity)).
Qed.
Lemma begin_connected d d' :
  begin_iteration d = Running d' -> isWebsocketConnected_Now d' = isWebsocketConnected (stats d).
Proof.
  intros E. unfold begin_iteration in E. rewrite bind_ret in E. set (d1 := update _ _ d) in E.
  assert (L : leads (same isWebsocketConnected_Now)
    (ret align_clock >> ret sample_emergency >> count_presses)).
  { unfold align_clock, sample_emergency, count_presses, forget_presses.
    leads_tac ltac:(respects_tac ltac:(intros ?; reflexivity)). }
  specialize (L d1). rewrite E in L. exact L.
Qed.

Lemma begin_later : leads later begin_iteration.
Proof.
  unfold begin_iteration, align_clock, sample_emergency, count_presses, forget_presses.
  leads_tac later_tac.
Qed.

Definition talking (d : desk) : bool := isWebsocketConnected (stats d) && isWebsocketBooted (stats d).

(** A heartbeat is among the calls of the iteration from [d] to [e]. *)
Definition beats (d e : desk) : Prop :=
  exists l k, trace (stats e) = l ++ EvHeartbeat :: k ++ trace (stats d).

Lemma iteration_beat d e :
  requests_iteration d = Running e -> talking d = true -> 0 <= loopCount d < 4294967295 ->
  if loopCount d >=? HeartbeatInterval d then loopCount e = 1 /\ beats d e
  else loopCount e = loopCount d + 1.
Proof.
  intros E T Hl. unfold requests_iteration, bind at 1 in E.
  destruct (begin_iteration d) as [d1|d1|] eqn:E1; try done.
  pose proof (begin_view d) as V. pose proof (begin_later d) as B. rewrite E1 in V, B.
  injection V as V1 V2 V3 V4. destruct B as [[k Bk] _].
  assert (A : accepted_online d1 = true).
  { unfold accepted_online. rewrite (begin_connected d d1 E1), V4. exact T. }
  unfold bind at 1, serve_requests, on, test in E. rewrite A, bind_ret in E.
  match type of E with match ?rest (heartbeat d1) with _ => _ end = _ =>
    pose proof (requests_later (heartbeat d1)) as R; set (f := rest) in E end.
  fold f in R. destruct (f (heartbeat d1)) as [d3|d3|]; try done. injection E as <-. clear f.
  destruct R as [[l Rl] Rc].
  assert (C : exists q, trace (stats (count_loop d3)) = q ++ trace (stats d3) /\
    loopCount (count_loop d3) = u32 (loopCount d3 + 1)).
  { unfold count_loop. rewrite seqc_eq. unfold whenc, ifc. destruct (_ && _); [by exists [EvWriteTimeBuffer (clock (stats d3))]|by exists []]. }
  destruct C as (q & Cq & ->). unfold beats. rewrite Cq, Rc.
  unfold heartbeat, whenc, ifc in *. rewrite V1, V2 in *.
  destruct (loopCount d >=? HeartbeatInterval d) eqn:G.
  - split; [reflexivity|]. exists (q ++ l), k. rewrite <- app_assoc. f_equal.
    etransitivity; [exact Rl|]. f_equal. exact (f_equal (cons EvHeartbeat) Bk).
  - unfold skip. rewrite V1. apply u32_small. lia.
Qed.

(** While the charge point is connected and accepted, its heartbeats never
    stop: from any iteration on, whatever requests are served and whatever the
    other tasks do between the iterations, one is sent at the latest after the
    configured number of iterations. *)
Theorem heartbeat_period (run : nat -> desk) I :
  0 <= I < 4294967295 -> 0 <= loopCount (run 0%nat) < 4294967295 ->
  (forall k, HeartbeatInterval (run k) = I /\ talking (run k) = true /\
     exists e, requests_iteration (run k) = Running e /\ loopCount (run (S k)) = loopCount e) ->
  forall k, exists j e, (k <= j)%nat /\ Z.of_nat (j - k) <= I /\
    requests_iteration (run j) = Running e /\ beats (run j) e.
Proof.
  intros HI H0 Hr.
  assert (Hc : forall k, 0 <= loopCount (run k) < 4294967295).
  { induction k as [|k IH]; [done|]. destruct (Hr k) as (Hi & Ht & e & E & L).
    pose proof (iteration_beat _ _ E Ht IH) as P. rewrite Hi in P. rewrite L.
    destruct (_ >=? _) eqn:G; bool_simpl; destruct_and?; lia. }
  intros k. remember (Z.to_nat (I - loopCount (run k))) as m eqn:Em.
  assert (Hm : I - loopCount (run k) <= Z.of_nat m) by lia.
  assert (Hm' : Z.of_nat m <= I) by (pose proof (Hc k); lia). clear Em.
  enough (exists j e, (k <= j)%nat /\ Z.of_nat (j - k) <= Z.of_nat m /\
    requests_iteration (run j) = Running e /\ beats (run j) e) as (j & e & ? & ? & ?).
  { exists j, e. split_and!; try tauto. lia. }
  clear Hm'. revert k Hm. induction m as [|m IH]; intros k Hm.
  all: destruct (Hr k) as (Hi & Ht & e & E & L).
  all: pose proof (iteration_beat _ _ E Ht (Hc k)) as P; rewrite Hi in P.
  all: destruct (_ >=? _) eqn:G; bool_simpl; [destruct P as [_ P]; exists k, e; split_and!; try done; lia|].
  1: lia.
  destruct (IH (S k)) as (j & e' & ? & ? & ? & ?); [lia|]. exists j, e'. split_and!; try done; lia.
Qed.

(** ** Examples *)

(** Two connectors, the first one charging, online. *)
Definition example_office : authz :=
  setcell Conn1 (fun m => m <| taskState := flag_EVSE_Request_Charge |>
    <| ConnectorData := (ConnectorData m) <| isTransactionOngoing := true |> <| transactionId := 77 |>
                                          <| CmsAvailable := true |> |>)
  (setG (fun g => g <| newRfidRead := false |> <| isWebsocketConnected := true |>
                    <| isWebsocketBooted := true |>) example_tap).

Definition example_desk : desk :=
  mkDesk example_office (fun i => bool_decide (i = Conn1)) 1 0 true false 1
    (fun _ => None) (fun _ => None) (fun _ => None) None None None false None None false false ""
    false false 0 0 false.

Lemma reservation_cancelled_witness :
  let d := (in_office (reserve_now Conn2 (mkReserve "deadbeef" "" None 7))
              (in_office (set_data Conn2 (fun c => c <| CmsAvailable := true |>)) example_desk))
             <| CMSCancelReservationRequest := Some 7 |> in
  isReserved (data_of (office d) Conn2) = true /\
  isReserved (data_of (office (cancel_reservation d)) Conn2) = false /\
  (exists c, saved Conn2 (trace (stats (cancel_reservation d))) = Some c /\ isReserved c = true).
Proof.
  intros d. destruct (reservation_cancelled d 7 eq_refl) as (_ & _ & D & S).
  split; [reflexivity|]. rewrite D, S. split; [reflexivity|]. eexists. split; reflexivity.
Defined.

Lemma soft_reset_policy_witness :
  reset (in_office (setcell Conn2 (fun m => m <| taskState := flag_EVSE_Request_Charge |>) ;;
                    setcell Conn1 (fun m => m <| taskState := flag_EVSE_Read_Id_Tag |>))
           (example_desk <| connectorEnabled := fun _ => true |> <| CMSResetRequest := Some "Soft" |>))
  = Running (in_office (setcell Conn2 (fun m => m <| taskState := flag_EVSE_Request_Charge |>) ;;
                    setcell Conn1 (fun m => m <| taskState := flag_EVSE_Read_Id_Tag |>))
           (example_desk <| connectorEnabled := fun _ => true |> <| CMSResetRequest := Some "Soft" |>)).
Proof. set (d := in_office _ _). apply (soft_reset_policy d "Soft" eq_refl eq_refl).
  intros H. specialize (H Conn2 ltac:(done) eq_refl). discriminate H.
Defined.

Lemma soft_reset_completes_witness :
  exists d2 r l, trace (stats d2) = EvResetResponse "Accepted" :: l /\ EvStopTransaction r ∈ l /\
    sp_reason r = "SoftReset" /\ sp_transactionId r = 77.
Proof.
  destruct (soft_reset_completes (example_desk <| CMSResetRequest := Some "Soft" |>) "Soft")
    as (d1 & d2 & _ & _ & r & l & T & I & R & X).
  all: try reflexivity.
  - change (Conn1 ∈ [Conn1; Conn2]). by left.
  - cbn. lia.
  - exists d2, r, l. split_and!; done.
Defined.

(** The connector of [example_desk] when it has restarted, on a charger that
    does not resume sessions, and on one without a pilot that does. *)
Definition restarted_session (resumes : bool) : session :=
  mkSession ((G (office example_desk))
      <| config := (config (G (office example_desk))) <| resumeSession := resumes |> |>)
    (example_conn <| cpEnable := negb resumes |> <| ConnectorData := hard_stopped Conn1 example_desk |>).


Lemma scheduled_unavailability_witness :
  CmsAvailableScheduled (data_of (change_availability Conn1 "Inoperative" example_office) Conn1) = true.
Proof.
  destruct (scheduled_unavailability example_office Conn1 "Inoperative") as [H _]; [done..|].
  destruct (H eq_refl) as (_ & D & _). rewrite D. reflexivity.
Defined.

Lemma remote_stop_of_cell_0_witness :
  let d := example_desk <| CMSRemoteStopTransactionRequest := Some 0 |> in
  connector (stop_remotely d) Conn1 = connector d Conn1 /\
  taskState (connector (stop_remotely d) Conn0) = flag_EVSE_Stop_Transaction.
Proof.
  intros d. destruct (remote_stop_of_cell_0 (N := Flash ConnectorPrivateData_t) d 0 eq_refl) as [_ H].
  destruct (H eq_refl) as (_ & _ & C & _). split; [by apply C | reflexivity].
Defined.

Lemma emergency_gesture_witness :
  exists d', press_loop [true; false; false; true; true; false; false; false; false; false] example_desk
             = Restarted d'.
Proof.
  destruct (emergency_gesture example_desk [false; false; true; true; false; false; false; false; false]
    eq_refl eq_refl) as [_ H].
  destruct (H eq_refl) as (d' & R & _). exists d'. exact R.
Defined.

Lemma heartbeat_period_witness :
  exists e, requests_iteration example_desk = Running e /\ beats example_desk e.
Proof.
  assert (H : forall k : nat, HeartbeatInterval example_desk = 1 /\ talking example_desk = true /\
    exists e, requests_iteration example_desk = Running e /\ loopCount example_desk = loopCount e).
  { intros _. split; [reflexivity|]. split; [reflexivity|].
    eexists. split; [vm_compute; reflexivity|]. vm_compute. reflexivity. }
  destruct (heartbeat_period (fun _ => example_desk) 1 ltac:(lia) ltac:(cbn; lia) H 0%nat)
    as (_ & e & _ & _ & E & B).
  exists e. split; [exact E | exact B].
Defined.
