(* ===== verification/Cjson.v ===== *)
(** * JSON documents, as the firmware uses them ([main/ocpp.c])

    Messages are parsed and printed by the cJSON library, which is not part of
    the repository.  [CJson] is the interface the firmware reads documents
    through: a node is what a [cJSON *] other than [NULL] points to, and the
    accessors are total on it; the accessors of an absent node ([NULL], here
    [None]) give an absent node, as cJSON documents it.  [tree] is what the
    firmware assembles with [cJSON_Create...] and [cJSON_Add...] and prints with
    [cJSON_Print]; with a parser it is also an instance of the interface, which
    the witnesses use. *)

From Stdlib Require Import Ascii.
From S2P Require Import Prelude Binary64.

(** ** Assembled documents *)

Inductive tree :=
  | Num (z : Z)
  | Str (s : string)
  | Bool (b : bool)
  | Arr (l : list tree)
  | Obj (l : list (string * tree)).

(** ** The library *)

Class CJson := {
  node : Type;
  cJSON_Parse : string -> option node;
  cJSON_GetArrayItem : node -> nat -> option node;
  cJSON_GetObjectItem : node -> string -> option node;
  (** The elements [cJSON_ArrayForEach] visits; [None] unless [cJSON_IsArray]. *)
  elements : node -> option (list node);
  (** [Some] exactly when [cJSON_IsNumber]: the value as an [int]. *)
  valueint : node -> option Z;
  valuedouble : node -> b64;
  (** [Some] exactly when [cJSON_IsString]; the [valuestring] of any other
      parsed node is [NULL]. *)
  valuestring : node -> option string;
  cJSON_IsObject : node -> bool;
  (** The text of an assembled document, memory for it being there. *)
  cJSON_Print : tree -> string
}.

Section Accessors.
Context `{CJson}.

Definition item (j : option node) (k : nat) : option node := j ≫= fun n => cJSON_GetArrayItem n k.
Definition member (j : option node) (k : string) : option node := j ≫= fun n => cJSON_GetObjectItem n k.
Definition number (j : option node) : option Z := j ≫= valueint.
Definition text (j : option node) : option string := j ≫= valuestring.
Definition is_object (j : option node) : bool := match j with Some n => cJSON_IsObject n | None => false end.
Definition array (j : option node) : option (list node) := j ≫= elements.
End Accessors.

(** ** Trees as documents *)

Definition lower (a : ascii) : ascii :=
  let n := nat_of_ascii a in
  if ((65 <=? n) && (n <=? 90))%nat then ascii_of_nat (n + 32) else a.
Fixpoint lowercase (s : string) : string :=
  match s with EmptyString => EmptyString | String a s => String (lower a) (lowercase s) end.

(** Names are compared without case. *)
Definition find_member (l : list (string * tree)) (k : string) : option tree :=
  snd <$> List.find (fun e => (lowercase (fst e) =? lowercase k)%string) l.

(** An [int] holds the nearest value in its range. *)
Definition saturate (z : Z) : Z := Z.max (-2147483648) (Z.min 2147483647 z).

(** The text of a tree, without white space and without escapes. *)
Definition quote (s : string) : string := String "034" (s +:+ String "034" EmptyString).
Fixpoint print_tree (t : tree) : string :=
  match t with
  | Num z => pretty z
  | Str s => quote s
  | Bool b => if b then "true" else "false"
  | Arr l => "[" +:+ String.concat "," (map print_tree l) +:+ "]"
  | Obj l => "{" +:+ String.concat "," (map (fun e => quote (fst e) +:+ ":" +:+ print_tree (snd e)) l) +:+ "}"
  end.

Definition tree_json (parse : string -> option tree) : CJson := {|
  node := tree;
  cJSON_Parse := parse;
  cJSON_GetArrayItem t k := match t with
    | Arr l => l !! k
    | Obj l => snd <$> l !! k
    | _ => None
    end;
  cJSON_GetObjectItem t k := match t with Obj l => find_member l k | _ => None end;
  elements t := match t with Arr l => Some l | _ => None end;
  valueint t := match t with Num z => Some (saturate z) | _ => None end;
  valuedouble t := match t with Num z => f_of_Z z | _ => S754_zero false end;
  valuestring t := match t with Str s => Some s | _ => None end;
  cJSON_IsObject t := match t with Obj _ => true | _ => false end;
  cJSON_Print := print_tree
|}.
