(* ===== verification/Messages.v ===== *)
(** * OCPP messages ([main/ocpp.c], [main/websocket_connect.c])

    [ocpp_response] takes a message of the central system apart and leaves its
    fields in the [CMS...] variables, where [Connector0Task] and the
    connectors' tasks find them ([Requests.v], [Session.v], [Boot.v]); the
    [send...] functions number a call, put it on the queue of outgoing
    messages and keep its number, by which [ocpp_response] recognises the
    answer.

    Buffers are strings with their size at the copy: [memcpy] with the length
    of its source writes past a buffer the source does not fit into, and
    [valuestring] of an absent node is not defined; both are [Undefined].  A
    source that fills a buffer exactly leaves it without its terminator, which
    is not followed further.  JSON is read through [CJson]. *)

From S2P Require Import Prelude Outcome Binary64 Config EnergyMeter ControlPilot Session.
From S2P Require Import Authorization LocalList Nvs ProfileStore Cjson.

(** ** Data ([ocpp.h]) *)

Definition OCPP_CALL := 2.
Definition OCPP_RECEIVE := 3.
Definition OCPP_ERROR := 4.
Definition NUM_OF_CONNECTORS := 4.
Definition idTagLength := 25.
Definition OCPP_MESSAGEID_LENGTH := 40.
Definition CP_MESSAGEID_LENGTH := 10.
Definition OCPP_MSG_SIZE := 1700.
Definition QUEUE_LENGTH : nat := 3.

(** A request of the central system: its id, its fields and its flag. *)
Record request (A : Type) := mkRequest { rq_UniqId : string; rq_body : A; rq_Received : bool }.
Arguments mkRequest {A}.
Arguments rq_UniqId {A}.
Arguments rq_body {A}.
Arguments rq_Received {A}.
#[export] Instance request_rebuild A : Rebuild (request A) := fun r =>
  mkRequest (rq_UniqId r) (rq_body r) (rq_Received r).

Record remote_start_fields := mkRemoteStart {
  rs_isConnectorIdReceived : bool;
  rs_connectorId : Z;
  rs_idTag : string
}.
#[export] Instance remote_start_rebuild : Rebuild remote_start_fields := fun r =>
  mkRemoteStart (rs_isConnectorIdReceived r) (rs_connectorId r) (rs_idTag r).

Record reserve_fields := mkReserveFields {
  rv_connectorId : Z;
  rv_expiryDate : string;
  rv_idTag : string;
  rv_isparentidTagReceived : bool;
  rv_parentidTag : string;
  rv_reservationId : Z
}.
#[export] Instance reserve_rebuild : Rebuild reserve_fields := fun r =>
  mkReserveFields (rv_connectorId r) (rv_expiryDate r) (rv_idTag r)
    (rv_isparentidTagReceived r) (rv_parentidTag r) (rv_reservationId r).

Record clear_profile_fields := mkClearFields {
  cl_id : Z; cl_connectorId : Z; cl_chargingProfilePurpose : Z; cl_stackLevel : Z
}.
#[export] Instance clear_profile_rebuild : Rebuild clear_profile_fields := fun r =>
  mkClearFields (cl_id r) (cl_connectorId r) (cl_chargingProfilePurpose r) (cl_stackLevel r).

(** The [idtaginfo] of an answer and its flag; [an_transactionId] is that of
    [StartTransaction]. *)
Record idtag_answer := mkIdtagAnswer {
  an_expiryDateReceived : bool;
  an_expiryDate : string;
  an_parentidTagReceived : bool;
  an_parentidTag : string;
  an_status : string;
  an_transactionId : Z;
  an_Received : bool
}.
#[export] Instance idtag_answer_rebuild : Rebuild idtag_answer := fun a =>
  mkIdtagAnswer (an_expiryDateReceived a) (an_expiryDate a) (an_parentidTagReceived a)
    (an_parentidTag a) (an_status a) (an_transactionId a) (an_Received a).

Record heartbeat_fields := mkHeartbeatAnswer { hb_currentTime : string; hb_Received : bool }.
#[export] Instance heartbeat_rebuild : Rebuild heartbeat_fields := fun a =>
  mkHeartbeatAnswer (hb_currentTime a) (hb_Received a).

Record boot_fields := mkBootAnswer {
  bt_status : string; bt_currentTime : string; bt_interval : Z; bt_Received : bool
}.
#[export] Instance boot_rebuild : Rebuild boot_fields := fun a =>
  mkBootAnswer (bt_status a) (bt_currentTime a) (bt_interval a) (bt_Received a).

(** The calls of the charge point; each has one cell for its id. *)
Inductive call :=
  | Heartbeat
  | BootNotification
  | StatusNotification (i : cid)
  | MeterValues (i : cid)
  | Authorize (i : cid)
  | StartTransaction (i : cid)
  | StopTransaction (i : cid)
  | FirmwareStatusNotification
  | DiagnosticsStatusNotification.
#[export] Instance call_eq_dec : EqDecision call.
Proof. solve_decision. Defined.

Record inbox := mkInbox {
  (* requests of the central system *)
  CMSCancelReservationRequest : request Z;
  CMSChangeAvailabilityRequest : cid -> request string;
  CMSChangeConfigurationRequest : request (string * string);
  CMSClearCacheRequest : request unit;
  CMSGetConfigurationRequest : request unit;
  CMSRemoteStartTransactionRequest : cid -> request remote_start_fields;
  CMSRemoteStopTransactionRequest : request Z;
  CMSResetRequest : request string;
  CMSTriggerMessageRequest : request (string * Z);
  CMSGetLocalListVersionRequest : request unit;
  CMSSendLocalListRequest : CMSSendLocalListRequest_t;
  CMSReserveNowRequest : cid -> request reserve_fields;
  CMSUpdateFirmwareRequest : request unit;
  CMSClearChargingProfileRequest : request clear_profile_fields;
  CMSDataTransferRequest : request unit;
  CMSGetCompositeScheduleRequest : request unit;
  CMSGetDiagnosticsRequest : request string;
  CMSSetChargingProfileRequest : request unit;
  CMSUnlockConnectorRequest : request unit;
  (* answers of the central system *)
  CMSHeartbeatResponse : heartbeat_fields;
  CMSBootNotificationResponse : boot_fields;
  CMSStatusNotificationResponse : cid -> bool;
  CMSMeterValuesResponse : cid -> bool;
  CMSAuthorizeResponse : cid -> idtag_answer;
  CMSStartTransactionResponse : cid -> idtag_answer;
  CMSStopTransactionResponse : cid -> idtag_answer;
  CMSFirmwareStatusNotificationResponse : bool;
  (* [CPGetConfigurationResponse] *)
  HeartbeatInterval : Z;
  HeartbeatIntervalValue : string;
  (* calls: ids, number of the next one, outgoing messages *)
  CP_UniqId : call -> string;
  randomNumber : Z;
  OcppMsgQueue : list string;   (* the text in each cell *)
  wire : list string;   (* what [WebSocketTask] has sent, latest first *)
  (* profiles handed to [custom_nvs_write_chargingProgile], latest first *)
  written : list ChargingProfiles_t
}.
#[export] Instance inbox_rebuild : Rebuild inbox := fun b =>
  mkInbox (CMSCancelReservationRequest b) (CMSChangeAvailabilityRequest b)
    (CMSChangeConfigurationRequest b) (CMSClearCacheRequest b) (CMSGetConfigurationRequest b)
    (CMSRemoteStartTransactionRequest b) (CMSRemoteStopTransactionRequest b)
    (CMSResetRequest b) (CMSTriggerMessageRequest b) (CMSGetLocalListVersionRequest b)
    (CMSSendLocalListRequest b) (CMSReserveNowRequest b) (CMSUpdateFirmwareRequest b)
    (CMSClearChargingProfileRequest b) (CMSDataTransferRequest b)
    (CMSGetCompositeScheduleRequest b) (CMSGetDiagnosticsRequest b)
    (CMSSetChargingProfileRequest b) (CMSUnlockConnectorRequest b) (CMSHeartbeatResponse b)
    (CMSBootNotificationResponse b) (CMSStatusNotificationResponse b)
    (CMSMeterValuesResponse b) (CMSAuthorizeResponse b) (CMSStartTransactionResponse b)
    (CMSStopTransactionResponse b) (CMSFirmwareStatusNotificationResponse b)
    (HeartbeatInterval b) (HeartbeatIntervalValue b) (CP_UniqId b) (randomNumber b)
    (OcppMsgQueue b) (wire b) (written b).

(** ** Statements *)

Definition fits (size : Z) (s : string) : bool := Z.of_nat (String.length s) <=? size.

(** [setNULL(dst); memcpy(dst, s, strlen(s));] into [size] bytes, [f] being
    the assignment of the text. *)
Definition copying (size : Z) (s : string) (f : inbox -> inbox) : stmt inbox := fun b =>
  if fits size s then Running (f b) else Undefined.

(** An array of the connectors indexed by an unchecked number. *)
Definition with_cell (z : Z) (k : cid -> stmt inbox) : stmt inbox :=
  match cid_of_Z z with Some i => k i | None => fun _ => Undefined end.

Definition set_id {A} (s : string) (r : request A) : request A := r <| rq_UniqId := s |>.
Definition set_body {A} (f : A -> A) (r : request A) : request A := update rq_body f r.
Definition set_received {A} (v : bool) (r : request A) : request A := r <| rq_Received := v |>.
(** An update of one cell of an array. *)
Definition at_cell {A} (i : cid) (f : A -> A) (a : cid -> A) : cid -> A := upd i (f (a i)) a.

Section Messages.
Context `{CJson}.
Implicit Types (j : option node).

(** ** Requests of the central system: [[2, id, action, payload]] *)

Definition ResponseMsgId j : option string := text (item j 1).
Definition field j (k : string) : option node := member (item j 3) k.

(** [ResponseMsgId->valuestring] without a test. *)
Definition copy_id j (f : string -> inbox -> inbox) : stmt inbox :=
  match ResponseMsgId j with
  | Some id => copying OCPP_MESSAGEID_LENGTH id (f id)
  | None => fun _ => Undefined
  end.

(** The branches of [ocpp_response] that take the id only. *)
Definition take_id j (set : (request unit -> request unit) -> inbox -> inbox) : stmt inbox :=
  copy_id j (fun id => set (set_id id)) >> ret (set (set_received true)).

Definition CMSChangeAvailabilityRequestProcess j : stmt inbox :=
  match number (field j "connectorId") with
  | None => pass
  | Some z =>
      with_cell (u8 z) (fun i =>
        let set f := update CMSChangeAvailabilityRequest (at_cell i f) in
        copy_id j (fun id => set (set_id id)) >>
        match text (field j "type") with
        | Some type =>
            copying 15 type (set (set_body (fun _ => type))) >> ret (set (set_received true))
        | None => ret (set (set_received false))
        end)
  end.

Definition CMSChangeConfigurationRequestProcess j : stmt inbox :=
  let set f := update CMSChangeConfigurationRequest f in
  match text (field j "key") with
  | None => pass
  | Some key =>
      copy_id j (fun id => set (set_id id)) >>
      copying 50 key (set (set_body (fun b => (key, snd b)))) >>
      match text (field j "value") with
      | Some value =>
          copying 200 value (set (set_body (fun b => (fst b, value)))) >>
          ret (set (set_received true))
      | None => ret (set (set_received false))
      end
  end.

Definition CMSCancelReservationRequestProcess j : stmt inbox :=
  let set f := update CMSCancelReservationRequest f in
  match number (field j "reservationId") with
  | Some id =>
      copy_id j (fun msg => set (set_id msg)) >>
      ret (set (set_body (fun _ => u32 id))) >> ret (set (set_received true))
  | None => ret (set (set_received false))
  end.

Definition CMSTriggerMessageRequestProcess j : stmt inbox :=
  let set f := update CMSTriggerMessageRequest f in
  match text (field j "requestedMessage") with
  | None => pass
  | Some message =>
      copy_id j (fun id => set (set_id id)) >>
      copying 35 message (set (set_body (fun b => (message, snd b)))) >>
      if existsb (String.eqb message)
           ["BootNotification"; "DiagnosticsStatusNotification"; "FirmwareStatusNotification"; "Heartbeat"]
      then ret (set (set_received true))
      else if existsb (String.eqb message) ["MeterValues"; "StatusNotification"] then
        match number (field j "connectorId") with
        | Some z => ret (set (set_received true)) >> ret (set (set_body (fun b => (fst b, u8 z))))
        | None => ret (set (set_received false))
        end
      else ret (set (set_received false))
  end.

(** *** The local list: see [LocalList.v] *)

Definition list_item (n : node) : LocalList.item :=
  let info := member (Some n) "idTagInfo" in
  mkItem (text (member (Some n) "idTag")) (text (member info "expiryDate"))
    (text (member info "parentidTag")) (text (member info "status")).

Definition list_payload j : payload :=
  mkPayload (ResponseMsgId j) (number (field j "listVersion")) (text (field j "updateType"))
    (map list_item <$> array (field j "localAuthorizationList")).

Definition opt_fits (size : Z) (s : option string) : bool :=
  match s with Some s => fits size s | None => true end.

Definition item_fits (it : LocalList.item) : bool :=
  opt_fits idTagLength (it_idTag it) && opt_fits 25 (it_expiryDate it) &&
  opt_fits idTagLength (it_parentidTag it) && opt_fits 13 (it_status it).

(** The elements the loops store. *)
Definition stored_items (p : payload) (r : CMSSendLocalListRequest_t) : list LocalList.item :=
  let type := default (updateType r) (pl_updateType p) in
  let items := default [] (pl_list p) in
  let existing := existing_items (LocalList.slots r) in
  if starts_with "Full" type then take (Z.to_nat LOCAL_LIST_COUNT) items
  else if starts_with "Differential" type then
    take (Z.to_nat (LOCAL_LIST_COUNT - existing - existing)) items
  else [].

Definition CMSSendLocalListRequestProcess j : stmt inbox := fun b =>
  let p := list_payload j in
  if opt_fits OCPP_MESSAGEID_LENGTH (pl_UniqId p) && opt_fits 13 (pl_updateType p)
     && forallb item_fits (stored_items p (CMSSendLocalListRequest b))
  then Running (update CMSSendLocalListRequest (LocalList.CMSSendLocalListRequestProcess p) b)
  else Undefined.

(** *** Charging profiles *)

Definition choose (s : string) (l : list (string * Z)) : option Z :=
  snd <$> List.find (fun e => starts_with s (fst e)) l.

(** [memcmp(s, name, strlen(s)) == 0]: a prefix of a name is taken for it. *)
Definition purposes : list (string * Z) :=
  [("ChargePointMaxProfile", ChargePointMaxProfile); ("TxProfile", TxProfile);
   ("TxDefaultProfile", TxDefaultProfile)]%string.
Definition kinds : list (string * Z) :=
  [("Absolute", Absolute); ("Recurring", Recurring); ("Relative", Relative)]%string.
Definition recurrencies : list (string * Z) := [("Daily", Daily); ("Weekly", Weekly)]%string.
Definition rate_units : list (string * Z) :=
  [("A", chargingRateUnitAmpere); ("W", chargingRateUnitWatt)]%string.

(** Days from 1970-01-01 to 1 January of year [y] (Gregorian, [y] from 0 on);
    [sscanf] reads an empty buffer, so [mktime] is given month 0 - 1 and day 0 of
    year 0: 30 November of the year before. *)
Definition days_to_year (y : Z) : Z :=
  365 * y + (y + 3) / 4 - (y + 99) / 100 + (y + 399) / 400 - 719528.
Definition unread_time : Z := u32 (86400 * (days_to_year 0 - 31 - 1)).

Definition when_some {A P} (v : option A) (f : A -> P -> P) (p : P) : P :=
  match v with Some a => f a p | None => p end.

(** The fields of an element of [chargingSchedulePeriod] over the slot [p]. *)
Definition read_period (n : node) (p : period) (ok : bool) : period * bool :=
  let start := number (member (Some n) "startPeriod") in
  let lim := member (Some n) "limit" in
  let ok := bool_decide (is_Some start) && bool_decide (is_Some (number lim)) && ok in
  (mkPeriod ok (match start with Some z => u32 z | None => startPeriod p end)
     (match number lim, lim with Some _, Some l => to_b32 (valuedouble l) | _, _ => limit p end)
     (match number (member (Some n) "numberPhases") with Some z => u8 z | None => numberPhases p end),
   ok).

Fixpoint read_periods (l : list node) (i : nat) (sched : nat -> period) (ok : bool)
    : (nat -> period) * bool * nat :=
  match l with
  | [] => (sched, ok, i)
  | n :: l =>
      if (i <? SchedulePeriodCount)%nat then
        let '(p, ok) := read_period n (sched i) ok in
        read_periods l (S i) (fun k => if (k =? i)%nat then p else sched k) ok
      else read_periods l (S i) sched ok
  end.

(** [for (k = i; k < SchedulePeriodCount; k++) schedulePresent = false]. *)
Definition drop_periods (i : nat) (sched : nat -> period) : nat -> period := fun k =>
  if ((i <=? k) && (k <? SchedulePeriodCount))%nat
  then mkPeriod false (startPeriod (sched k)) (limit (sched k)) (numberPhases (sched k))
  else sched k.

(** The chosen value of an enumeration, 0 when none matches, and whether one
    did. *)
Definition set_choice (v : option string) (names : list (string * Z))
    (set : Z -> ChargingProfiles_t -> ChargingProfiles_t) (p : ChargingProfiles_t)
    : ChargingProfiles_t * bool :=
  match v with
  | None => (p, false)
  | Some s => (set (default 0 (choose s names)) p, bool_decide (is_Some (choose s names)))
  end.

Definition read_schedule (cs : option node) (p : ChargingProfiles_t) : ChargingProfiles_t * bool :=
  if is_object cs then
    let p := when_some (number (member cs "duration")) (fun z p => p <| duration := u32 z |>) p in
    let p := when_some (text (member cs "startSchedule"))
               (fun _ p => p <| startSchedule := unread_time |>) p in
    let '(p, unit_ok) := set_choice (text (member cs "chargingRateUnit")) rate_units
                           (fun z p => p <| chargingRateUnit := z |>) p in
    let '(p, periods_ok) :=
      match array (member cs "chargingSchedulePeriod") with
      | None => (p, false)
      | Some l =>
          let '(sched, ok, i) := read_periods l 0 (chargingSchedulePeriod p) true in
          (p <| chargingSchedulePeriod := drop_periods i sched |>, ok)
      end in
    let p := match member cs "minChargingRate" with
             | Some n => if bool_decide (is_Some (valueint n))
                         then p <| minChargingRate := to_b32 (valuedouble n) |> else p
             | None => p
             end in
    (p, unit_ok && periods_ok)
  else (p, false).

(** The profile read over [p] and whether everything mandatory was there. *)
Definition read_profile (cs : option node) (p : ChargingProfiles_t) : ChargingProfiles_t * bool :=
  let id := number (member cs "chargingProfileId") in
  let level := number (member cs "stackLevel") in
  let p := when_some id (fun z p => p <| chargingProfileId := u32 z |>) p in
  let p := when_some (number (member cs "transactionId"))
             (fun z p => p <| ProfileStore.transactionId := u32 z |>) p in
  let p := when_some level (fun z p => p <| stackLevel := u32 z |>) p in
  let '(p, purpose_ok) := set_choice (text (member cs "chargingProfilePurpose")) purposes
                            (fun z p => p <| chargingProfilePurpose := z |>) p in
  let '(p, kind_ok) := set_choice (text (member cs "chargingProfileKind")) kinds
                         (fun z p => p <| chargingProfileKind := z |>) p in
  let p := fst (set_choice (text (member cs "recurrencyKind")) recurrencies
                  (fun z p => p <| recurrencyKind := z |>) p) in
  let p := when_some (text (member cs "validFrom")) (fun _ p => p <| validFrom := unread_time |>) p in
  let p := when_some (text (member cs "validTo")) (fun _ p => p <| validTo := unread_time |>) p in
  let '(p, schedule_ok) := read_schedule (member cs "chargingSchedule") p in
  (p, bool_decide (is_Some id) && bool_decide (is_Some level) && purpose_ok && kind_ok && schedule_ok).

(** [WriteChargingProfileToFlash]: the result is given to [k]. *)
Definition WriteChargingProfileToFlash (ChargingProfile : ChargingProfiles_t) (cs : option node)
    (k : bool -> stmt inbox) : stmt inbox :=
  match cs with
  | None => k false
  | Some _ =>
      let '(p, ok) := read_profile cs ChargingProfile in
      ret (fun b => if ok then b <| written := p :: written b |> else b) >> k ok
  end.

Definition CMSSetChargingProfileRequestProcess j : stmt inbox :=
  let set f := update CMSSetChargingProfileRequest f in
  match ResponseMsgId j with
  | None => pass
  | Some id =>
      copying OCPP_MESSAGEID_LENGTH id (set (set_id id)) >>
      match number (field j "connectorId") with
      | Some z =>
          WriteChargingProfileToFlash (zero_profile <| ProfileStore.connectorId := u8 z |>)
            (field j "csChargingProfiles") (fun ok => ret (set (set_received ok)))
      | None => ret (set (set_received false))
      end
  end.

Definition CMSClearChargingProfileRequestProcess j : stmt inbox :=
  let set f := update CMSClearChargingProfileRequest f in
  let copy_number k f := ret (set (set_body (when_some (number (field j k)) f))) in
  copy_number "id" (fun z r => r <| cl_id := u32 z |>) >>
  copy_number "connectorId" (fun z r => r <| cl_connectorId := u8 z |>) >>
  ret (set (set_body (when_some (text (field j "chargingProfilePurpose"))
    (fun s r => r <| cl_chargingProfilePurpose := default 0 (choose s purposes) |>)))) >>
  copy_number "stackLevel" (fun z r => r <| cl_stackLevel := u32 z |>) >>
  match ResponseMsgId j with
  | Some id => copying OCPP_MESSAGEID_LENGTH id (set (set_id id)) >> ret (set (set_received true))
  | None => pass
  end.

(** *** Starting, stopping, reserving *)

(** From [setNULL(UniqId)] on, for connector [i]; [profile_ok] is
    [iscsChargingProfileReceived]. *)
Definition finish_remote_start j (i : cid) (profile_ok : bool) : stmt inbox :=
  let set f := update CMSRemoteStartTransactionRequest (at_cell i f) in
  ret (set (set_id EmptyString)) >>
  match ResponseMsgId j with
  | None => pass
  | Some id =>
      copying OCPP_MESSAGEID_LENGTH id (set (set_id id)) >>
      match text (field j "idTag") with
      | Some tag =>
          copying idTagLength tag (set (set_body (fun r => r <| rs_idTag := tag |>))) >>
          ret (set (set_received profile_ok))
      | None => ret (set (set_received false))
      end
  end.

Definition CMSRemoteStartTransactionRequestProcess j : stmt inbox :=
  match number (field j "connectorId") with
  | Some z =>
      if z <? NUM_OF_CONNECTORS then
        with_cell z (fun i =>
          ret (update CMSRemoteStartTransactionRequest (at_cell i
            (set_body (fun r => r <| rs_isConnectorIdReceived := true |> <| rs_connectorId := z |>)))) >>
          if is_object (field j "chargingProfile") then
            WriteChargingProfileToFlash (zero_profile <| ProfileStore.connectorId := u8 z |>)
              (field j "chargingProfile") (finish_remote_start j i)
          else finish_remote_start j i true)
      else finish_remote_start j Conn0 false
  | None =>
      ret (update CMSRemoteStartTransactionRequest (at_cell Conn0
        (set_body (fun r => r <| rs_isConnectorIdReceived := true |>)))) >>
      finish_remote_start j Conn0 false
  end.

Definition CMSRemoteStopTransactionRequestProcess j : stmt inbox :=
  let set f := update CMSRemoteStopTransactionRequest f in
  match number (field j "transactionId") with
  | Some z =>
      copy_id j (fun id => set (set_id id)) >>
      ret (set (set_body (fun _ => z))) >> ret (set (set_received true))
  | None => ret (set (set_received false))
  end.

(** A text field that is copied when it is there. *)
Definition copy_field j (k : string) (size : Z) (f : string -> inbox -> inbox) : stmt inbox :=
  match text (field j k) with Some s => copying size s (f s) | None => pass end.

Definition has_text j (k : string) : bool := bool_decide (is_Some (text (field j k))).
Definition has_number j (k : string) : bool := bool_decide (is_Some (number (field j k))).

Definition CMSReserveNowRequestProcess j : stmt inbox :=
  match number (field j "connectorId") with
  | None => pass
  | Some z =>
      with_cell (u8 z) (fun i =>
        let set f := update CMSReserveNowRequest (at_cell i f) in
        let body f := set (set_body f) in
        ret (body (fun r => r <| rv_connectorId := z |>)) >>
        copy_id j (fun id => set (set_id id)) >>
        copy_field j "expiryDate" 25 (fun s => body (fun r => r <| rv_expiryDate := s |>)) >>
        copy_field j "idTag" idTagLength (fun s => body (fun r => r <| rv_idTag := s |>)) >>
        match text (field j "parentidTag") with
        | Some s => copying idTagLength s (body (fun r =>
            r <| rv_isparentidTagReceived := true |> <| rv_parentidTag := s |>))
        | None => ret (body (fun r =>
            r <| rv_isparentidTagReceived := false |> <| rv_parentidTag := EmptyString |>))
        end >>
        ret (body (when_some (number (field j "reservationId"))
          (fun z r => r <| rv_reservationId := z |>))) >>
        ret (set (set_received
          (has_text j "expiryDate" && has_text j "idTag" && has_number j "reservationId"))))
  end.

Definition CMSResetRequestProcess j : stmt inbox :=
  let set f := update CMSResetRequest f in
  match text (field j "type") with
  | Some type =>
      copy_id j (fun id => set (set_id id)) >>
      copying 5 type (set (set_body (fun _ => type))) >> ret (set (set_received true))
  | None => ret (set (set_received false))
  end.

Definition CMSUpdateFirmwareRequestProcess j : stmt inbox :=
  let set f := update CMSUpdateFirmwareRequest f in
  match ResponseMsgId j with
  | Some id =>
      copying OCPP_MESSAGEID_LENGTH id (set (set_id id)) >>
      ret (set (set_received (has_text j "location" && has_text j "retrieveDate")))
  | None => ret (set (set_received false))
  end.

Definition CMSGetDiagnosticsRequestProcess j : stmt inbox :=
  let set f := update CMSGetDiagnosticsRequest f in
  copy_field j "location" 100 (fun s => set (set_body (fun _ => s))) >>
  match ResponseMsgId j with
  | Some id =>
      copying OCPP_MESSAGEID_LENGTH id (set (set_id id)) >>
      ret (set (set_received (has_text j "location")))
  | None => pass
  end.

(** The [strcmp] chain over the actions. *)
Definition process_request (action : string) j : stmt inbox :=
  let named s := (action =? s)%string in
  if named "CancelReservation" then CMSCancelReservationRequestProcess j
  else if named "ChangeAvailability" then CMSChangeAvailabilityRequestProcess j
  else if named "ChangeConfiguration" then CMSChangeConfigurationRequestProcess j
  else if named "ClearCache" then take_id j (update CMSClearCacheRequest)
  else if named "GetConfiguration" then take_id j (update CMSGetConfigurationRequest)
  else if named "RemoteStartTransaction" then CMSRemoteStartTransactionRequestProcess j
  else if named "RemoteStopTransaction" then CMSRemoteStopTransactionRequestProcess j
  else if named "Reset" then CMSResetRequestProcess j
  else if named "TriggerMessage" then CMSTriggerMessageRequestProcess j
  else if named "GetLocalListVersion" then take_id j (update CMSGetLocalListVersionRequest)
  else if named "SendLocalList" then CMSSendLocalListRequestProcess j
  else if named "ReserveNow" then CMSReserveNowRequestProcess j
  else if named "UpdateFirmware" then CMSUpdateFirmwareRequestProcess j
  else if named "ClearChargingProfile" then CMSClearChargingProfileRequestProcess j
  else if named "DataTransfer" then take_id j (update CMSDataTransferRequest)
  else if named "GetCompositeSchedule" then take_id j (update CMSGetCompositeScheduleRequest)
  else if named "GetDiagnostics" then CMSGetDiagnosticsRequestProcess j
  else if named "SetChargingProfile" then CMSSetChargingProfileRequestProcess j
  else if named "UnlockConnector" then take_id j (update CMSUnlockConnectorRequest)
  else pass.

(** ** Answers of the central system: [[3, id, payload]] *)

Definition BootNotificationResponseProcess (Payload : option node) : stmt inbox :=
  let set f := update CMSBootNotificationResponse f in
  let status := text (member Payload "status") in
  let currentTime := text (member Payload "currentTime") in
  let interval := number (member Payload "interval") in
  match status with
  | Some s => copying 10 s (set (fun a => a <| bt_status := s |>)) | None => pass end >>
  match currentTime with
  | Some s => copying 25 s (set (fun a => a <| bt_currentTime := s |>)) | None => pass end >>
  ret (set (when_some interval (fun z a => a <| bt_interval := u32 z |>))) >>
  let received := bool_decide (is_Some status) && bool_decide (is_Some currentTime)
                  && bool_decide (is_Some interval) in
  ret (set (fun a => a <| bt_Received := received |>)) >>
  if received then
    ret (fun b => b <| HeartbeatInterval := bt_interval (CMSBootNotificationResponse b) |>) >>
    (* [sprintf(HeartbeatIntervalValue, "%ld", ...)] into 10 bytes *)
    reads (fun b => let value := pretty (i32 (HeartbeatInterval b)) in
      copying 9 value (fun b => b <| HeartbeatIntervalValue := value |>))
  else pass.

Definition HeartbeatResponseProcess (Payload : option node) : stmt inbox :=
  let set f := update CMSHeartbeatResponse f in
  match text (member Payload "currentTime") with
  | Some s => copying 25 s (set (fun a => a <| hb_currentTime := s |>)) >>
              ret (set (fun a => a <| hb_Received := true |>))
  | None => ret (set (fun a => a <| hb_Received := false |>))
  end.

(** The [idTagInfo] of an answer into the record [set] updates; [size] is that
    of its [status]. *)
Definition read_idTagInfo (Payload : option node) (size : Z)
    (set : (idtag_answer -> idtag_answer) -> inbox -> inbox) : stmt inbox :=
  let info := member Payload "idTagInfo" in
  match text (member info "status") with
  | Some s => copying size s (set (fun a => a <| an_status := s |>)) | None => pass end >>
  match text (member info "expiryDate") with
  | Some s => copying 25 s (set (fun a => a <| an_expiryDateReceived := true |> <| an_expiryDate := s |>))
  | None => ret (set (fun a => a <| an_expiryDateReceived := false |>)) end >>
  match text (member info "parentidTag") with
  | Some s => copying idTagLength s (set (fun a =>
                a <| an_parentidTagReceived := true |> <| an_parentidTag := s |>))
  | None => ret (set (fun a => a <| an_parentidTagReceived := false |>)) end.

Definition has_status (Payload : option node) : bool :=
  let info := member Payload "idTagInfo" in
  is_object info && bool_decide (is_Some (text (member info "status"))).

Definition AuthorizationResponseProcess (Payload : option node) (i : cid) : stmt inbox :=
  let set f := update CMSAuthorizeResponse (at_cell i f) in
  read_idTagInfo Payload 10 set >>
  ret (set (fun a => a <| an_Received := has_status Payload |>)).

Definition StartTransactionResponseProcess (Payload : option node) (i : cid) : stmt inbox :=
  let set f := update CMSStartTransactionResponse (at_cell i f) in
  let transactionId := number (member Payload "transactionId") in
  read_idTagInfo Payload 13 set >>
  ret (set (when_some transactionId (fun z a => a <| an_transactionId := u32 z |>))) >>
  ret (set (fun a => a <| an_Received := has_status Payload && bool_decide (is_Some transactionId) |>)).

Definition StopTransactionResponseProcess (Payload : option node) (i : cid) : stmt inbox :=
  let set f := update CMSStopTransactionResponse (at_cell i f) in
  read_idTagInfo Payload 13 set >>
  ret (set (fun a => a <| an_Received := has_status Payload |>)).

(** What an answer to a call does; [DiagnosticsStatusNotification] is not
    recognised. *)
Definition process_answer (c : call) (Payload : option node) : stmt inbox :=
  match c with
  | Heartbeat => HeartbeatResponseProcess Payload
  | BootNotification => BootNotificationResponseProcess Payload
  | StatusNotification i => ret (update CMSStatusNotificationResponse (upd i true))
  | MeterValues i => ret (update CMSMeterValuesResponse (upd i true))
  | Authorize i => AuthorizationResponseProcess Payload i
  | StartTransaction i => StartTransactionResponseProcess Payload i
  | StopTransaction i => StopTransactionResponseProcess Payload i
  | FirmwareStatusNotification => ret (fun b => b <| CMSFirmwareStatusNotificationResponse := true |>)
  | DiagnosticsStatusNotification => pass
  end.

Definition four (c : cid -> call) : list call := [c Conn0; c Conn1; c Conn2; c Conn3].

(** The [else if] chain, which follows the test for heartbeats. *)
Definition answer_chain : list call :=
  [BootNotification] ++ four StatusNotification ++ four MeterValues ++ four Authorize
  ++ four StartTransaction ++ four StopTransaction ++ [FirmwareStatusNotification].

Fixpoint first_answered (id : string) (l : list call) (Payload : option node) : stmt inbox :=
  match l with
  | [] => pass
  | c :: l => test (fun b => (id =? CP_UniqId b c)%string) (process_answer c Payload)
                (first_answered id l Payload)
  end.

Definition process_response (id : string) (Payload : option node) : stmt inbox :=
  on (fun b => (id =? CP_UniqId b Heartbeat)%string) (process_answer Heartbeat Payload) >>
  first_answered id answer_chain Payload.

(** ** The dispatcher *)

Definition process_message j : stmt inbox :=
  match number (item j 0) with
  | None => pass
  | Some type =>
      if type =? OCPP_CALL then
        match text (item j 2) with Some action => process_request action j | None => pass end
      else if type =? OCPP_RECEIVE then
        match text (item j 1) with
        | Some id => process_response id (item j 2)
        | None => fun _ => Undefined
        end
      else pass   (* also [OCPP_ERROR] *)
  end.

Definition ocpp_response (jsonString : string) : stmt inbox := process_message (cJSON_Parse jsonString).

(** [WEBSOCKET_EVENT_DATA]: a close frame, a pong, or text. *)
Definition websocket_data (op_code : Z) (data : string) : stmt inbox :=
  if (op_code =? 8) && (Z.of_nat (String.length data) =? 2) then pass
  else if op_code =? 10 then pass
  else if fits OCPP_MSG_SIZE data then ocpp_response data else fun _ => Undefined.

(** ** Outgoing messages *)

(** What is left of a message in a cell of the queue: [cJSON_Print], and the
    first [OCPP_MSG_SIZE] bytes of its text, which is what [xQueueSend] copies.
    (Of a shorter text it also copies what lies behind [json_output]; that is
    behind the terminator.)  A text that fills the cell has no terminator. *)
Definition queue_cell (m : tree) : string := String.substring 0 (Z.to_nat OCPP_MSG_SIZE) (cJSON_Print m).

(** [xQueueSend] with the queue full for a second drops the message; its
    result is not looked at. *)
Definition enqueue (m : tree) : inbox -> inbox := fun b =>
  if (length (OcppMsgQueue b) <? QUEUE_LENGTH)%nat
  then b <| OcppMsgQueue := OcppMsgQueue b ++ [queue_cell m] |> else b.

Definition action_name (c : call) : string :=
  match c with
  | Heartbeat => "Heartbeat"
  | BootNotification => "BootNotification"
  | StatusNotification _ => "StatusNotification"
  | MeterValues _ => "MeterValues"
  | Authorize _ => "Authorize"
  | StartTransaction _ => "StartTransaction"
  | StopTransaction _ => "StopTransaction"
  | FirmwareStatusNotification => "FirmwareStatusNotification"
  | DiagnosticsStatusNotification => "DiagnosticsStatusNotification"
  end.

Definition call_message (c : call) (id : string) (Payload : tree) : tree :=
  Arr [Num OCPP_CALL; Str id; Str (action_name c); Payload].
Definition answer_message (id : string) (Payload : tree) : tree :=
  Arr [Num OCPP_RECEIVE; Str id; Payload].

(** The flag of the last answer, cleared by the senders that wait for one. *)
Definition forget_answer (c : call) : inbox -> inbox :=
  match c with
  | MeterValues i => update CMSMeterValuesResponse (upd i false)
  | Authorize i => update CMSAuthorizeResponse (at_cell i (fun a => a <| an_Received := false |>))
  | StartTransaction i =>
      update CMSStartTransactionResponse (at_cell i (fun a => a <| an_Received := false |>))
  | StopTransaction i =>
      update CMSStopTransactionResponse (at_cell i (fun a => a <| an_Received := false |>))
  | _ => id
  end.

(** [sprintf(UniqId, "%llu", randomNumber++)], the message, the queue. *)
Definition send_request (c : call) (Payload : tree) : stmt inbox :=
  reads (fun b => let id := pretty (randomNumber b) in
    copying (CP_MESSAGEID_LENGTH - 1) id (fun b =>
      b <| CP_UniqId := fun d => if decide (d = c) then id else CP_UniqId b d |>
        <| randomNumber := (randomNumber b + 1) mod 18446744073709551616 |>) >>
    ret (enqueue (call_message c id Payload))) >>
  ret (forget_answer c).

Definition send_answer (id : inbox -> string) (Payload : inbox -> tree) : stmt inbox :=
  ret (fun b => enqueue (answer_message (id b) (Payload b)) b).

(** A round of [WebSocketTask] over an open connection: [strlen] of a text
    without its terminator reads past [receivedMessage]. *)
Definition transmit : stmt inbox := fun b =>
  match OcppMsgQueue b with
  | [] => Running b
  | m :: q =>
      if Z.of_nat (String.length m) <? OCPP_MSG_SIZE
      then Running (b <| OcppMsgQueue := q |> <| wire := m :: wire b |>)
      else Undefined
  end.
End Messages.
