(* ===== verification/MessagesSpec.v ===== *)
(** * What the messages mean

    An answer reaches exactly the call whose number it carries, also among
    late and repeated ones ([answers_correlated]); a request is flagged only by
    a message that carries its mandatory fields, three kinds apart
    ([request_needs_its_fields]), and then appears, with the fields it carried, among the requests
    [Connector0Task] serves ([requests_delivered], against [Requests.v]); which
    answers overrun the buffers ([authorize_answer_defined_iff]); what becomes
    of the times of a charging profile ([start_schedule_ignored], against
    [SmartCharging.v]). *)

From S2P Require Import Prelude Outcome Binary64 Text Config EnergyMeter ControlPilot Session.
From S2P Require Import Authorization LocalList Nvs ProfileStore FaultGpios SlaveLink.
From S2P Require Import SmartCharging Requests RequestsSpec Cjson Messages.

(** ** Runs *)

Section Runs.
Context `{CJson}.

(** A message between the charge point and the central system, or a round of
    the sender's task; one that is not defined ends the run. *)
Inductive message_step : inbox -> inbox -> Prop :=
  | step_call c Payload b b' : send_request c Payload b = Running b' -> message_step b b'
  | step_answer id Payload b b' : send_answer id Payload b = Running b' -> message_step b b'
  | step_transmit b b' : transmit b = Running b' -> message_step b b'
  | step_receive op data b b' : websocket_data op data b = Running b' -> message_step b b'.

(** At power-up no call has a number, the first one will be 100 and nothing is
    queued. *)
Definition powered_up (b : inbox) : Prop :=
  Messages.randomNumber b = 100 /\ (forall c, CP_UniqId b c = EmptyString) /\ OcppMsgQueue b = [].

Inductive run : inbox -> Prop :=
  | run_start b : powered_up b -> run b
  | run_step b b' : run b -> message_step b b' -> run b'.

(** Every call has no number yet or one given out, and no two have the same. *)
Definition numbered_calls (b : inbox) : Prop :=
  100 <= Messages.randomNumber b <= 1000000000 /\
  (forall c, CP_UniqId b c = EmptyString \/
     exists n, 100 <= n < Messages.randomNumber b /\ CP_UniqId b c = pretty n) /\
  forall c d, CP_UniqId b c = CP_UniqId b d -> CP_UniqId b c <> EmptyString -> c = d.

(** ** Frames *)

(** The numbers of the calls, and the queue. *)
Definition keeps_calls (b b' : inbox) : Prop :=
  CP_UniqId b' = CP_UniqId b /\ Messages.randomNumber b' = Messages.randomNumber b.
Definition keeps_outgoing (b b' : inbox) : Prop :=
  keeps_calls b b' /\ OcppMsgQueue b' = OcppMsgQueue b.
#[local] Instance keeps_outgoing_preorder : PreOrder keeps_outgoing.
Proof. split; [by intros b | intros b1 b2 b3 [[] ?] [[] ?]; repeat split; congruence]. Qed.

End Runs.

Lemma leads_copying (R : inbox -> inbox -> Prop) size s f :
  respects R f -> leads R (copying size s f).
Proof. intros Hf b. unfold copying. destruct (fits size s); [apply Hf | done]. Qed.
Lemma leads_undefined {St} (R : St -> St -> Prop) : leads R (fun _ => Undefined).
Proof. by intros b. Qed.

(** Split a handler into its updates. *)
Ltac handler_tac leaf :=
  leads_tac ltac:(idtac;
    lazymatch goal with
    | |- leads _ (copying _ _ _) => apply leads_copying
    | |- leads _ (fun _ => Undefined) => apply leads_undefined
    | |- _ => leaf
    end).

Section Correlation.
Context `{CJson}.
#[local] Existing Instance keeps_outgoing_preorder.

Ltac keeps_leaf := idtac;
  lazymatch goal with
  | |- respects keeps_outgoing _ =>
      let b := fresh "b" in intros b;
      repeat match goal with |- context [if ?x then _ else _] => destruct x end;
      repeat split; reflexivity
  end.

Lemma process_answer_keeps c P : leads keeps_outgoing (process_answer c P).
Proof.
  destruct c; cbn [process_answer];
    unfold HeartbeatResponseProcess, BootNotificationResponseProcess, AuthorizationResponseProcess,
      StartTransactionResponseProcess, StopTransactionResponseProcess, read_idTagInfo;
    handler_tac keeps_leaf.
Qed.

Lemma process_request_keeps action j : leads keeps_outgoing (process_request action j).
Proof.
  unfold process_request.
  repeat match goal with |- leads _ (if ?x then _ else _) => destruct x end;
  unfold CMSCancelReservationRequestProcess, CMSChangeAvailabilityRequestProcess,
    CMSChangeConfigurationRequestProcess, CMSRemoteStartTransactionRequestProcess,
    CMSRemoteStopTransactionRequestProcess, CMSResetRequestProcess,
    CMSTriggerMessageRequestProcess, CMSReserveNowRequestProcess,
    CMSUpdateFirmwareRequestProcess, CMSClearChargingProfileRequestProcess,
    CMSGetDiagnosticsRequestProcess, CMSSetChargingProfileRequestProcess,
    WriteChargingProfileToFlash, finish_remote_start, take_id, copy_id, copy_field, with_cell;
    handler_tac keeps_leaf.
  intros b. unfold CMSSendLocalListRequestProcess. cbv zeta. by destruct (_ && _).
Qed.

Lemma first_answered_keeps id l P : leads keeps_outgoing (first_answered id l P).
Proof.
  induction l as [|c l IH]; cbn [first_answered].
  - apply leads_refl. exact _.
  - apply leads_test; [apply process_answer_keeps | exact IH].
Qed.

Lemma response_keeps s : leads keeps_outgoing (ocpp_response s).
Proof.
  unfold ocpp_response, process_message, process_response.
  handler_tac ltac:(first [apply process_request_keeps | apply process_answer_keeps
                          | apply first_answered_keeps]).
Qed.

Lemma websocket_data_keeps op data : leads keeps_outgoing (websocket_data op data).
Proof. unfold websocket_data. handler_tac ltac:(apply response_keeps). Qed.

(** ** Finding the call of an answer *)

Lemma first_answered_none id l P b :
  (forall c, c ∈ l -> CP_UniqId b c <> id) -> first_answered id l P b = Running b.
Proof.
  intros Hid. induction l as [|c l IH]; [done|]. cbn [first_answered]. unfold test.
  rewrite (proj2 (String.eqb_neq id _)) by (intros E; by apply (Hid c); [left | ]).
  apply IH. intros d Hd. apply Hid. by right.
Qed.

Lemma first_answered_found id l P b c :
  c ∈ l -> CP_UniqId b c = id -> (forall d, CP_UniqId b d = id -> d = c) ->
  first_answered id l P b = process_answer c P b.
Proof.
  intros Hin Hc Hu. induction l as [|d l IH]; [by apply not_elem_of_nil in Hin|].
  cbn [first_answered]. unfold test. destruct (id =? CP_UniqId b d)%string eqn:E.
  - apply String.eqb_eq in E. by rewrite (Hu d).
  - apply IH. apply elem_of_cons in Hin as [->|Hin]; [|exact Hin].
    apply String.eqb_neq in E. by destruct E.
Qed.

Lemma in_answer_chain c : c = Heartbeat \/ c = DiagnosticsStatusNotification \/ c ∈ answer_chain.
Proof.
  destruct c as [| |i|i|i|i|i| |]; [by left | | | | | | | | by right; left]; right; right;
    try destruct i; apply list_elem_of_In; cbn; tauto.
Qed.

Lemma not_in_chain : (Heartbeat ∉ answer_chain) /\ (DiagnosticsStatusNotification ∉ answer_chain).
Proof. split; intros Hin; apply list_elem_of_In in Hin; cbn in Hin; intuition congruence. Qed.

Lemma process_response_of id P b c :
  CP_UniqId b c = id -> (forall d, CP_UniqId b d = id -> d = c) ->
  process_response id P b = process_answer c P b.
Proof.
  intros Hc Hu. unfold process_response, on, bind, test.
  destruct (decide (c = Heartbeat)) as [->|Hh].
  - rewrite Hc, String.eqb_refl. pose proof (process_answer_keeps Heartbeat P b) as Hk.
    destruct (process_answer Heartbeat P b) as [b1|b1|]; [|done|done].
    destruct Hk as [[Hk _] _]. apply first_answered_none. intros d Hd E.
    rewrite Hk in E. apply Hu in E as ->. by apply (proj1 not_in_chain).
  - rewrite (proj2 (String.eqb_neq id (CP_UniqId b Heartbeat))) by (intros E; apply Hh; symmetry; by apply Hu).
    change (first_answered id answer_chain P b = process_answer c P b).
    destruct (in_answer_chain c) as [->|[->|Hin]]; [done| |by apply first_answered_found].
    apply first_answered_none. intros d Hd E. apply Hu in E as ->. by apply (proj2 not_in_chain).
Qed.

Lemma process_response_none id P b :
  (forall c, CP_UniqId b c <> id) -> process_response id P b = Running b.
Proof.
  intros Hn. unfold process_response, on, bind, test.
  rewrite (proj2 (String.eqb_neq id _)) by (intros E; by apply (Hn Heartbeat)).
  change (first_answered id answer_chain P b = Running b). apply first_answered_none. intros. apply Hn.
Qed.

(** ** Numbers *)

Lemma sent_call c Payload b b' :
  send_request c Payload b = Running b' ->
  fits 9 (pretty (Messages.randomNumber b)) = true /\
  CP_UniqId b' = (fun d => if decide (d = c) then pretty (Messages.randomNumber b) else CP_UniqId b d) /\
  Messages.randomNumber b' = (Messages.randomNumber b + 1) mod 18446744073709551616.
Proof.
  unfold send_request, reads, bind, copying, ret.
  change (CP_MESSAGEID_LENGTH - 1) with 9.
  destruct (fits 9 (pretty (Messages.randomNumber b))); [|done].
  cbv zeta. intros [= <-]. split; [done|].
  assert (He : forall m b, CP_UniqId (enqueue m b) = CP_UniqId b /\
    Messages.randomNumber (enqueue m b) = Messages.randomNumber b)
    by (intros m b0; unfold enqueue; by destruct (_ <? _)%nat).
  assert (Hf : forall b, CP_UniqId (forget_answer c b) = CP_UniqId b /\
    Messages.randomNumber (forget_answer c b) = Messages.randomNumber b)
    by (intros b0; by destruct c).
  rewrite (proj1 (Hf _)), (proj2 (Hf _)), (proj1 (He _ _)), (proj2 (He _ _)). done.
Qed.

Lemma pretty_9_digits n : 0 < n -> fits 9 (pretty n) = (n <? 1000000000).
Proof.
  intros Hn. unfold fits. pose proof (length_pretty 9 n Hn) as Hl. cbn in Hl.
  destruct (n <? 1000000000) eqn:E; [apply Z.leb_le | apply Z.leb_gt]; lia.
Qed.

(** ** Every call is answered under its number *)

Lemma numbered_start b : powered_up b -> numbered_calls b.
Proof.
  intros (Hn & Hid & _). unfold numbered_calls. rewrite Hn. split; [lia|]. split.
  - intros c. left. apply Hid.
  - intros c d _ Hc. by destruct Hc.
Qed.

Lemma numbered_same b b' : keeps_calls b b' -> numbered_calls b -> numbered_calls b'.
Proof. intros [E1 E2]. unfold numbered_calls. by rewrite E1, E2. Qed.

Lemma numbered_send c Payload b b' :
  numbered_calls b -> send_request c Payload b = Running b' -> numbered_calls b'.
Proof.
  intros (Hr & Hid & Hinj) (Hfit & Hids & Hn)%sent_call.
  rewrite pretty_9_digits in Hfit by lia. apply Z.ltb_lt in Hfit.
  rewrite Z.mod_small in Hn by lia. unfold numbered_calls. rewrite Hn, Hids.
  assert (Hnew : forall d, CP_UniqId b d <> pretty (Messages.randomNumber b)).
  { intros d. destruct (Hid d) as [->|(n & Hn' & ->)]; [apply not_eq_sym; apply pretty_Z_nonempty|].
    intros E%(inj pretty). lia. }
  split; [lia|]. split.
  - intros d. destruct (decide (d = c)) as [->|Hd].
    + right. exists (Messages.randomNumber b). split; [lia | done].
    + destruct (Hid d) as [E|(n & Hn' & E)]; [by left|]. right. exists n. split; [lia | done].
  - intros d e. destruct (decide (d = c)) as [->|Hd], (decide (e = c)) as [->|He]; try done.
    + intros E _. by destruct (Hnew e).
    + intros E _. by destruct (Hnew d).
    + apply Hinj.
Qed.

Lemma transmitted b b' :
  transmit b = Running b' ->
  b' = b \/ exists m q, OcppMsgQueue b = m :: q /\ Z.of_nat (String.length m) < OCPP_MSG_SIZE /\
    b' = b <| OcppMsgQueue := q |> <| wire := m :: wire b |>.
Proof.
  unfold transmit. destruct (OcppMsgQueue b) as [|m q]; [intros [= <-]; by left|].
  destruct (_ <? _) eqn:E; [|done]. intros [= <-]. right. exists m, q. split_and!; [done|lia|done].
Qed.

Lemma numbered_run b : run b -> numbered_calls b.
Proof.
  induction 1 as [b Hb|b b' _ IH Hs]; [by apply numbered_start|].
  destruct Hs as [c P b b' E|id P b b' E|b b' E|op data b b' E].
  - by eapply numbered_send.
  - eapply numbered_same; [|exact IH]. injection E as <-. unfold enqueue. by destruct (_ <? _)%nat.
  - eapply numbered_same; [|exact IH]. by apply transmitted in E as [-> | (m & q & _ & _ & ->)].
  - eapply numbered_same; [|exact IH]. pose proof (websocket_data_keeps op data b) as Hk.
    rewrite E in Hk. apply Hk.
Qed.

(** The queue holds what its depth allows. *)
Lemma enqueue_queue m b :
  (length (OcppMsgQueue b) <= QUEUE_LENGTH)%nat ->
  OcppMsgQueue (enqueue m b) = take QUEUE_LENGTH (OcppMsgQueue b ++ [queue_cell m]).
Proof.
  intros Hl. unfold enqueue. destruct (_ <? _)%nat eqn:E.
  - apply Nat.ltb_lt in E. rewrite take_ge; [done|]. rewrite length_app. cbn. lia.
  - apply Nat.ltb_ge in E. rewrite take_app_le, take_ge by lia. done.
Qed.

(** A message shorter than a cell is in it whole, and is what is sent. *)
Lemma queue_cell_whole m :
  Z.of_nat (String.length (cJSON_Print m)) < OCPP_MSG_SIZE -> queue_cell m = cJSON_Print m.
Proof. intros Hl. apply substring_short. unfold OCPP_MSG_SIZE in *. lia. Qed.
Lemma sent_whole m b :
  OcppMsgQueue b = [] -> Z.of_nat (String.length (cJSON_Print m)) < OCPP_MSG_SIZE ->
  exists b', transmit (enqueue m b) = Running b' /\ wire b' = cJSON_Print m :: wire b /\ OcppMsgQueue b' = [].
Proof.
  intros Hq Hl. unfold transmit, enqueue. rewrite Hq. cbn [length Nat.ltb Nat.leb QUEUE_LENGTH app].
  cbn. rewrite queue_cell_whole by done. apply Z.ltb_lt in Hl. rewrite Hl. eexists. by split_and!.
Qed.

Lemma queue_bounded b : run b -> (length (OcppMsgQueue b) <= QUEUE_LENGTH)%nat.
Proof.
  assert (He : forall m b, (length (OcppMsgQueue b) <= QUEUE_LENGTH)%nat ->
    (length (OcppMsgQueue (enqueue m b)) <= QUEUE_LENGTH)%nat).
  { intros m b0 Hb. rewrite enqueue_queue by done. rewrite length_take. lia. }
  induction 1 as [b (_ & _ & ->)|b b' _ IH Hs]; [cbn; lia|].
  destruct Hs as [c P b b' E|id P b b' E|b b' E|op data b b' E].
  - revert E. unfold send_request, reads, bind, copying, ret. destruct (fits _ _); [|done].
    intros [= <-]. assert (Hf : forall b, OcppMsgQueue (forget_answer c b) = OcppMsgQueue b)
      by (intros b0; by destruct c).
    rewrite Hf. by apply He.
  - injection E as <-. by apply He.
  - apply transmitted in E as [->|(m & q & Eq & _ & ->)]; [done|]. rewrite Eq in IH. cbn in *. lia.
  - pose proof (websocket_data_keeps op data b) as Hk. rewrite E in Hk. by rewrite (proj2 Hk).
Qed.

(** [s] is the text of the answer [[3, id, Payload]]. *)
Definition answer_text (s id : string) (Payload : option node) : Prop :=
  let j := cJSON_Parse s in
  number (item j 0) = Some OCPP_RECEIVE /\ text (item j 1) = Some id /\ item j 2 = Payload.

Lemma answer_text_response s id P : answer_text s id P -> ocpp_response s = process_response id P.
Proof.
  intros (Ht & Hid & HP). unfold ocpp_response, process_message. by rewrite Ht, Hid, HP.
Qed.

(** Claim C17.  Answers and calls: over every run of sends, receptions and
    transmissions since power-up, an answer acts on the response of exactly the
    call that last carried its number and on nothing else; an answer whose
    number no call carries changes nothing, and sending a call again makes a
    late answer to its earlier sending one of those. *)
Theorem answers_correlated b s id Payload :
  run b -> answer_text s id Payload -> id <> EmptyString ->
  (forall c, CP_UniqId b c = id -> ocpp_response s b = process_answer c Payload b) /\
  ((forall c, CP_UniqId b c <> id) -> ocpp_response s b = Running b) /\
  (forall c again b', CP_UniqId b c = id -> send_request c again b = Running b' ->
     ocpp_response s b' = Running b').
Proof.
  intros Hb Hs Hne. rewrite (answer_text_response _ _ _ Hs).
  pose proof (numbered_run _ Hb) as (Hr & Hid & Hinj). split; [|split].
  - intros c Hc. apply process_response_of; [done|]. intros d Hd. apply Hinj; congruence.
  - apply process_response_none.
  - intros c again b' Hc (Hfit & Hids & _)%sent_call. apply process_response_none.
    intros d. rewrite Hids. destruct (decide (d = c)) as [->|Hd].
    + destruct (Hid c) as [E|(n & Hn & E)]; [congruence|]. rewrite <-Hc, E.
      intros E2%(inj pretty). lia.
    + intros E. apply Hd, Hinj; congruence.
Qed.
End Correlation.

(** ** Power-up, concretely *)

Definition no_request {A} (a : A) : request A := mkRequest EmptyString a false.
Definition no_answer : idtag_answer := mkIdtagAnswer false "" false "" "" 0 false.
Definition empty_inbox : inbox :=
  mkInbox (no_request 0) (fun _ => no_request EmptyString) (no_request (EmptyString, EmptyString))
    (no_request tt) (no_request tt) (fun _ => no_request (mkRemoteStart false 0 ""))
    (no_request 0) (no_request EmptyString) (no_request (EmptyString, 0)) (no_request tt)
    (mkLocalList "" 0 "" (replicate 10 empty_slot) false)
    (fun _ => no_request (mkReserveFields 0 "" "" false "" 0)) (no_request tt)
    (no_request (mkClearFields 0 0 0 0)) (no_request tt) (no_request tt) (no_request EmptyString)
    (no_request tt) (no_request tt) (mkHeartbeatAnswer "" false) (mkBootAnswer "" "" 0 false)
    (fun _ => false) (fun _ => false) (fun _ => no_answer) (fun _ => no_answer) (fun _ => no_answer)
    false 0 "" (fun _ => EmptyString) 100 [] [] [].

(** A parser of one document, and the text of it. *)
Definition one_document (t : tree) : CJson :=
  tree_json (fun s => if (s =? "doc")%string then Some t else None).

Definition heartbeat_answered : tree :=
  Arr [Num 3; Str "100"; Obj [("currentTime", Str "2024-02-01T15:30:00Z")]].

Lemma answers_correlated_witness :
  let J := one_document heartbeat_answered in
  exists b b', run b /\ CP_UniqId b Heartbeat = "100" /\
    ocpp_response "doc" b = Running b' /\ hb_Received (CMSHeartbeatResponse b') = true.
Proof.
  cbv zeta. set (J := one_document heartbeat_answered).
  set (P := Some (Obj [("currentTime", Str "2024-02-01T15:30:00Z")]) : option (@node J)).
  assert (Hr : @run J empty_inbox) by (by apply run_start).
  assert (Hs : exists b, send_request Heartbeat (Obj []) empty_inbox = Running b
    /\ CP_UniqId b Heartbeat = "100") by (eexists; by split).
  destruct Hs as (b & Hs & Hid).
  assert (Hb : @run J b) by (eapply run_step; [exact Hr | by eapply step_call]).
  destruct (@answers_correlated J b "doc" "100" P Hb) as (H1 & _ & _); [|done|].
  { split; [|split]; reflexivity. }
  exists b. eexists. rewrite (H1 Heartbeat Hid). split_and!; [done|done|reflexivity|reflexivity].
Defined.

(** ** What a request must carry *)

(** The requests of the central system, one per cell. *)
Inductive kind :=
  | KCancelReservation | KChangeAvailability (i : cid) | KChangeConfiguration | KClearCache
  | KGetConfiguration | KRemoteStart (i : cid) | KRemoteStop | KReset | KTrigger
  | KGetLocalListVersion | KSendLocalList | KReserveNow (i : cid) | KUpdateFirmware
  | KClearChargingProfile | KDataTransfer | KGetCompositeSchedule | KGetDiagnostics
  | KSetChargingProfile | KUnlockConnector.

Definition flagged (b : inbox) (k : kind) : bool :=
  match k with
  | KCancelReservation => rq_Received (CMSCancelReservationRequest b)
  | KChangeAvailability i => rq_Received (CMSChangeAvailabilityRequest b i)
  | KChangeConfiguration => rq_Received (CMSChangeConfigurationRequest b)
  | KClearCache => rq_Received (CMSClearCacheRequest b)
  | KGetConfiguration => rq_Received (CMSGetConfigurationRequest b)
  | KRemoteStart i => rq_Received (CMSRemoteStartTransactionRequest b i)
  | KRemoteStop => rq_Received (CMSRemoteStopTransactionRequest b)
  | KReset => rq_Received (CMSResetRequest b)
  | KTrigger => rq_Received (CMSTriggerMessageRequest b)
  | KGetLocalListVersion => rq_Received (CMSGetLocalListVersionRequest b)
  | KSendLocalList => LocalList.Received (CMSSendLocalListRequest b)
  | KReserveNow i => rq_Received (CMSReserveNowRequest b i)
  | KUpdateFirmware => rq_Received (CMSUpdateFirmwareRequest b)
  | KClearChargingProfile => rq_Received (CMSClearChargingProfileRequest b)
  | KDataTransfer => rq_Received (CMSDataTransferRequest b)
  | KGetCompositeSchedule => rq_Received (CMSGetCompositeScheduleRequest b)
  | KGetDiagnostics => rq_Received (CMSGetDiagnosticsRequest b)
  | KSetChargingProfile => rq_Received (CMSSetChargingProfileRequest b)
  | KUnlockConnector => rq_Received (CMSUnlockConnectorRequest b)
  end.

Definition kind_action (k : kind) : string :=
  match k with
  | KCancelReservation => "CancelReservation"
  | KChangeAvailability _ => "ChangeAvailability"
  | KChangeConfiguration => "ChangeConfiguration"
  | KClearCache => "ClearCache"
  | KGetConfiguration => "GetConfiguration"
  | KRemoteStart _ => "RemoteStartTransaction"
  | KRemoteStop => "RemoteStopTransaction"
  | KReset => "Reset"
  | KTrigger => "TriggerMessage"
  | KGetLocalListVersion => "GetLocalListVersion"
  | KSendLocalList => "SendLocalList"
  | KReserveNow _ => "ReserveNow"
  | KUpdateFirmware => "UpdateFirmware"
  | KClearChargingProfile => "ClearChargingProfile"
  | KDataTransfer => "DataTransfer"
  | KGetCompositeSchedule => "GetCompositeSchedule"
  | KGetDiagnostics => "GetDiagnostics"
  | KSetChargingProfile => "SetChargingProfile"
  | KUnlockConnector => "UnlockConnector"
  end.

Section Mandatory.
Context `{CJson}.

Definition names_connector (i : cid) (j : option node) : Prop :=
  exists z, number (field j "connectorId") = Some z /\ cid_of_Z (u8 z) = Some i.

(** [SetChargingProfile]'s [csChargingProfiles].  A text stands for every name
    it begins, as the comparisons have it, and only the periods there is room
    for are looked at. *)
Definition begins_one_of (names : list string) (v : option node) : Prop :=
  exists s name, text v = Some s /\ name ∈ names /\ String.prefix s name = true.
Definition period_fields (n : node) : Prop :=
  is_Some (number (member (Some n) "startPeriod")) /\ is_Some (number (member (Some n) "limit")).
Definition schedule_fields (cs : option node) : Prop :=
  is_object cs = true /\ begins_one_of ["A"; "W"] (member cs "chargingRateUnit") /\
  exists l, array (member cs "chargingSchedulePeriod") = Some l /\ Forall period_fields (take 20 l).
Definition profile_fields (cs : option node) : Prop :=
  is_Some (number (member cs "chargingProfileId")) /\ is_Some (number (member cs "stackLevel")) /\
  begins_one_of ["ChargePointMaxProfile"; "TxProfile"; "TxDefaultProfile"] (member cs "chargingProfilePurpose") /\
  begins_one_of ["Absolute"; "Recurring"; "Relative"] (member cs "chargingProfileKind") /\
  schedule_fields (member cs "chargingSchedule").

(** The fields OCPP makes mandatory, by kind, with their JSON types; four kinds
    have none.  (A remote start, and a trigger of one of the two messages that
    are a connector's, is taken only with its optional connector id.) *)
Definition mandatory (k : kind) (j : option node) : Prop :=
  match k with
  | KCancelReservation => is_Some (number (field j "reservationId"))
  | KChangeAvailability i => names_connector i j /\ is_Some (text (field j "type"))
  | KChangeConfiguration => is_Some (text (field j "key")) /\ is_Some (text (field j "value"))
  | KRemoteStart i =>
      number (field j "connectorId") = Some (cid_to_Z i) /\ is_Some (text (field j "idTag"))
  | KRemoteStop => is_Some (number (field j "transactionId"))
  | KReset => is_Some (text (field j "type"))
  | KTrigger => exists m, text (field j "requestedMessage") = Some m /\
      (m ∈ ["BootNotification"; "DiagnosticsStatusNotification"; "FirmwareStatusNotification"; "Heartbeat"]
       \/ m ∈ ["MeterValues"; "StatusNotification"] /\ is_Some (number (field j "connectorId")))
  | KSendLocalList =>
      is_Some (number (field j "listVersion")) /\ is_Some (text (field j "updateType"))
  | KReserveNow i => names_connector i j /\ is_Some (text (field j "expiryDate")) /\
      is_Some (text (field j "idTag")) /\ is_Some (number (field j "reservationId"))
  | KUpdateFirmware => is_Some (text (field j "location")) /\ is_Some (text (field j "retrieveDate"))
  | KGetDiagnostics => is_Some (text (field j "location"))
  | KSetChargingProfile =>
      is_Some (number (field j "connectorId")) /\ profile_fields (field j "csChargingProfiles")
  | KDataTransfer => is_Some (text (field j "vendorId"))
  | KGetCompositeSchedule => is_Some (number (field j "connectorId")) /\ is_Some (number (field j "duration"))
  | KUnlockConnector => is_Some (number (field j "connectorId"))
  | KClearCache | KGetConfiguration | KGetLocalListVersion | KClearChargingProfile => True
  end.

(** Kinds whose mandatory fields the firmware does not look at. *)
Definition unread (k : kind) : bool :=
  match k with KDataTransfer | KGetCompositeSchedule | KUnlockConnector => true | _ => false end.

(** Only the cells of [action] are touched, and flagged only with their
    fields. *)
Definition takes_request (action : string) (j : option node) (b b' : inbox) : Prop :=
  forall k, flagged b' k = flagged b k \/
    kind_action k = action /\ (flagged b' k = true -> unread k = false -> mandatory k j).
#[local] Instance takes_request_preorder action j : PreOrder (takes_request action j).
Proof.
  split; [by intros b k; left|]. intros b1 b2 b3 H1 H2 k.
  destruct (H2 k) as [->|?]; [apply H1 | by right].
Qed.

Lemma local_list_received p r :
  LocalList.Received (LocalList.CMSSendLocalListRequestProcess p r) = true ->
  is_Some (pl_listVersion p) /\ is_Some (pl_updateType p).
Proof.
  unfold LocalList.CMSSendLocalListRequestProcess, store_list, wipe_list. cbv zeta.
  destruct (pl_listVersion p), (pl_updateType p); cbn -[store_items]; try (by split; eexists);
    repeat match goal with
      | |- context [if ?x then _ else _] => destruct x
      | |- context [match pl_list p with _ => _ end] => destruct (pl_list p)
      | |- context [store_items ?a ?b ?c ?d ?e] => destruct (store_items a b c d e) as [[? ?] ?]
      end; done.
Qed.

Lemma cid_of_Z_Some z i : cid_of_Z z = Some i -> z = cid_to_Z i.
Proof. unfold cid_of_Z. repeat case_decide; intros [= <-]; done. Qed.

(** Name what the fields are before splitting a handler. *)
Ltac name_fields :=
  repeat match goal with
    | |- leads _ ?c =>
        match c with context [match ?x with Some _ => _ | None => _ end] => destruct x eqn:? end
    end.

Ltac takes_leaf := idtac;
  lazymatch goal with
  | |- respects (takes_request _ _) _ =>
      let b := fresh "b" in let k := fresh "k" in
      intros b k;
      repeat match goal with |- context [flagged (if ?x then _ else _)] => destruct x end;
      destruct k; try (left; reflexivity);
      try (match goal with i : cid, i' : cid |- _ => destruct i, i' end; try (left; reflexivity));
      right; (split; [reflexivity|]); cbn; intros ? ?; bool_simpl;
      unfold names_connector, has_text, has_number in *; bool_simpl; simplify_eq;
      rewrite ?elem_of_cons in *; eauto 10
  end.

Lemma takes_CancelReservation j : leads (takes_request "CancelReservation" j) (CMSCancelReservationRequestProcess j).
Proof. unfold CMSCancelReservationRequestProcess, copy_id. cbv beta zeta. name_fields; handler_tac takes_leaf. Qed.
Lemma takes_ChangeAvailability j : leads (takes_request "ChangeAvailability" j) (CMSChangeAvailabilityRequestProcess j).
Proof. unfold CMSChangeAvailabilityRequestProcess, copy_id, with_cell. cbv beta zeta. name_fields; handler_tac takes_leaf. Qed.
Lemma takes_ChangeConfiguration j : leads (takes_request "ChangeConfiguration" j) (CMSChangeConfigurationRequestProcess j).
Proof. unfold CMSChangeConfigurationRequestProcess, copy_id. cbv beta zeta. name_fields; handler_tac takes_leaf. Qed.
Lemma takes_RemoteStopTransaction j : leads (takes_request "RemoteStopTransaction" j) (CMSRemoteStopTransactionRequestProcess j).
Proof. unfold CMSRemoteStopTransactionRequestProcess, copy_id. cbv beta zeta. name_fields; handler_tac takes_leaf. Qed.
Lemma takes_Reset j : leads (takes_request "Reset" j) (CMSResetRequestProcess j).
Proof. unfold CMSResetRequestProcess, copy_id. cbv beta zeta. name_fields; handler_tac takes_leaf. Qed.
Lemma takes_UpdateFirmware j : leads (takes_request "UpdateFirmware" j) (CMSUpdateFirmwareRequestProcess j).
Proof. unfold CMSUpdateFirmwareRequestProcess, copy_id. cbv beta zeta. name_fields; handler_tac takes_leaf. Qed.
Lemma takes_GetDiagnostics j : leads (takes_request "GetDiagnostics" j) (CMSGetDiagnosticsRequestProcess j).
Proof. unfold CMSGetDiagnosticsRequestProcess, copy_field. cbv beta zeta. name_fields; handler_tac takes_leaf. Qed.
Lemma takes_ClearChargingProfile j : leads (takes_request "ClearChargingProfile" j) (CMSClearChargingProfileRequestProcess j).
Proof. unfold CMSClearChargingProfileRequestProcess. cbv beta zeta. name_fields; handler_tac takes_leaf. Qed.
Lemma takes_ReserveNow j : leads (takes_request "ReserveNow" j) (CMSReserveNowRequestProcess j).
Proof. unfold CMSReserveNowRequestProcess, with_cell, copy_id, copy_field. cbv beta zeta. name_fields; handler_tac takes_leaf. Qed.
Lemma takes_TriggerMessage j : leads (takes_request "TriggerMessage" j) (CMSTriggerMessageRequestProcess j).
Proof.
  unfold CMSTriggerMessageRequestProcess, copy_id. cbv beta zeta.
  destruct (text (field j "requestedMessage")) as [m|] eqn:Em; [|handler_tac takes_leaf].
  assert (Hin : forall l, existsb (String.eqb m) l = true -> m ∈ l).
  { intros l (x & Hx & ->%String.eqb_eq)%existsb_exists. by apply list_elem_of_In. }
  repeat match goal with |- context [if existsb (String.eqb m) ?l then _ else _] =>
    destruct (existsb (String.eqb m) l) eqn:? end; name_fields;
    handler_tac ltac:(idtac; lazymatch goal with |- respects _ _ =>
      let b := fresh "b" in let k := fresh "k" in
      intros b k; destruct k; try (left; reflexivity); right; (split; [reflexivity|]); intros Hf _;
        try done; exists m; (split; [done|]); auto end).
Qed.

Lemma takes_finish_remote_start j i ok :
  (ok = true -> number (field j "connectorId") = Some (cid_to_Z i)) ->
  leads (takes_request "RemoteStartTransaction" j) (finish_remote_start j i ok).
Proof.
  intros Hok. unfold finish_remote_start. cbv beta zeta.
  destruct (text (field j "idTag")) as [tag|] eqn:Et; name_fields; handler_tac ltac:(idtac;
    lazymatch goal with |- respects _ _ =>
      let b := fresh "b" in let k := fresh "k" in
      intros b k; destruct k as [|c| | | |c| | | | | |c| | | | | | |]; try (left; reflexivity);
      destruct (decide (c = i)) as [->|Hc]; [|left; cbn; unfold at_cell; by rewrite upd_other];
      first [left; cbn; unfold at_cell; rewrite upd_same; reflexivity
            | right; split; [done|]; cbn; unfold at_cell; rewrite upd_same; cbn; intros Hr _;
              split; [by apply Hok | by rewrite Et] ] end).
Qed.

Lemma takes_RemoteStartTransaction j :
  leads (takes_request "RemoteStartTransaction" j) (CMSRemoteStartTransactionRequestProcess j).
Proof.
  unfold CMSRemoteStartTransactionRequestProcess, with_cell, WriteChargingProfileToFlash.
  destruct (number (field j "connectorId")) as [z|] eqn:Ez; [destruct (z <? NUM_OF_CONNECTORS)|].
  - destruct (cid_of_Z z) as [i|] eqn:Ei; [|apply leads_undefined]. apply cid_of_Z_Some in Ei as ->.
    handler_tac ltac:(idtac; lazymatch goal with
      | |- leads _ (finish_remote_start _ _ _) => by apply takes_finish_remote_start
      | |- _ => takes_leaf end).
  - by apply takes_finish_remote_start.
  - apply leads_bind; [exact _| |by apply takes_finish_remote_start].
    apply leads_ret. intros b k. left. destruct k; try reflexivity. by destruct i.
Qed.

Lemma set_choice_names v l set p :
  snd (set_choice (text v) l set p) = true -> begins_one_of (map fst l) v.
Proof.
  unfold set_choice, choose. destruct (text v) as [s|] eqn:Ev; [|done]. cbn [snd].
  destruct (List.find _ l) as [[name z]|] eqn:Ef; [|done]. intros _.
  apply List.find_some in Ef as [Hin Hs]. exists s, name. split; [done|]. split; [|exact Hs].
  apply list_elem_of_In. by apply (in_map fst) in Hin.
Qed.

Lemma read_periods_full l i sched ok :
  (SchedulePeriodCount <= i)%nat -> (read_periods l i sched ok).1.2 = ok.
Proof.
  revert i. induction l as [|n l IH]; intros i Hi; cbn [read_periods]; [done|].
  rewrite (proj2 (Nat.ltb_ge i SchedulePeriodCount)) by done. apply IH. lia.
Qed.

Lemma read_periods_fields l i sched ok :
  (read_periods l i sched ok).1.2 = true -> ok = true /\ Forall period_fields (take (SchedulePeriodCount - i) l).
Proof.
  revert i sched ok. induction l as [|n l IH]; intros i sched ok.
  { by rewrite take_nil. }
  destruct (decide (i < SchedulePeriodCount)%nat) as [Hlt|Hge].
  - cbn [read_periods]. rewrite (proj2 (Nat.ltb_lt i SchedulePeriodCount)) by done.
    unfold read_period. cbv beta zeta iota. intros [Hok Hl]%IH. bool_simpl.
    split; [done|]. replace (SchedulePeriodCount - i)%nat with (S (SchedulePeriodCount - S i)) by lia.
    cbn [take]. by constructor.
  - rewrite read_periods_full by lia. replace (SchedulePeriodCount - i)%nat with 0%nat by lia.
    intros ->. split; [done | constructor].
Qed.

Lemma read_schedule_fields cs p : snd (read_schedule cs p) = true -> schedule_fields cs.
Proof.
  unfold read_schedule, schedule_fields. destruct (is_object cs); [|done]. cbv zeta.
  match goal with |- context [set_choice ?v rate_units ?f ?q] =>
    pose proof (set_choice_names (member cs "chargingRateUnit") rate_units f q) as Hu;
    destruct (set_choice v rate_units f q) as [p1 unit_ok] end.
  destruct (array (member cs "chargingSchedulePeriod")) as [l|];
    [|cbn; by rewrite andb_false_r].
  pose proof (read_periods_fields l 0 (chargingSchedulePeriod p1) true) as Hl.
  destruct (read_periods l 0 _ true) as [[sched ok] i]. cbn in Hu, Hl |- *.
  intros [-> ->]%andb_prop. split; [done|]. split; [by apply Hu|]. exists l. split; [done|]. by apply Hl.
Qed.

Lemma read_profile_fields cs p : snd (read_profile cs p) = true -> profile_fields cs.
Proof.
  unfold read_profile, profile_fields. cbv zeta.
  match goal with |- context [set_choice ?v purposes ?f ?q] =>
    pose proof (set_choice_names (member cs "chargingProfilePurpose") purposes f q) as Hu;
    destruct (set_choice v purposes f q) as [p1 purpose_ok] end.
  match goal with |- context [set_choice ?v kinds ?f ?q] =>
    pose proof (set_choice_names (member cs "chargingProfileKind") kinds f q) as Hk;
    destruct (set_choice v kinds f q) as [p2 kind_ok] end.
  match goal with |- context [read_schedule ?v ?q] =>
    pose proof (read_schedule_fields v q) as Hs; destruct (read_schedule v q) as [p3 schedule_ok] end.
  cbn in Hu, Hk, Hs |- *. intros Hok. bool_simpl. split_and!; auto.
Qed.

Lemma takes_SetChargingProfile j :
  leads (takes_request "SetChargingProfile" j) (CMSSetChargingProfileRequestProcess j).
Proof.
  unfold CMSSetChargingProfileRequestProcess, WriteChargingProfileToFlash. cbv beta zeta.
  destruct (number (field j "connectorId")) as [z|] eqn:Ez; [|name_fields; handler_tac takes_leaf].
  destruct (field j "csChargingProfiles") as [cs|] eqn:Ec; [|name_fields; handler_tac takes_leaf].
  destruct (read_profile (Some cs) _) as [p ok] eqn:Er.
  assert (Hp : ok = true -> mandatory KSetChargingProfile j).
  { intros ->. cbn [mandatory]. rewrite Ez, Ec. split; [done|].
    eapply read_profile_fields. by rewrite Er. }
  clear Er. name_fields; handler_tac ltac:(idtac;
    lazymatch goal with |- respects _ _ =>
      let b := fresh "b" in let k := fresh "k" in
      intros b k; try (left; by destruct k, ok);
      destruct k; try (left; reflexivity); right; (split; [done | intros Hf _; by apply Hp]) end).
Qed.

Lemma takes_SendLocalList j :
  leads (takes_request "SendLocalList" j) (CMSSendLocalListRequestProcess j).
Proof.
  intros b. unfold CMSSendLocalListRequestProcess. cbv zeta. destruct (_ && _); [|done].
  intros k. destruct k; try (left; reflexivity). right. split; [done|].
  intros Hf _. exact (local_list_received (list_payload j) _ Hf).
Qed.

Lemma process_request_takes action j : leads (takes_request action j) (process_request action j).
Proof.
  unfold process_request. cbv beta zeta.
  repeat match goal with |- leads _ (if (action =? ?s)%string then _ else _) =>
    destruct (String.eqb_spec action s) as [->|_] end;
  auto using takes_CancelReservation, takes_ChangeAvailability, takes_ChangeConfiguration, takes_RemoteStopTransaction, takes_Reset, takes_UpdateFirmware, takes_GetDiagnostics, takes_ClearChargingProfile, takes_ReserveNow, takes_TriggerMessage, takes_RemoteStartTransaction, takes_SetChargingProfile, takes_SendLocalList; unfold take_id, copy_id; name_fields; handler_tac takes_leaf.
Qed.

Definition same_flags (b b' : inbox) : Prop := forall k, flagged b' k = flagged b k.
#[local] Instance same_flags_preorder : PreOrder same_flags.
Proof. split; [by intros b k | intros b1 b2 b3 H1 H2 k; by rewrite H2, H1]. Qed.

Ltac same_flags_leaf := idtac;
  lazymatch goal with |- respects same_flags _ => let b := fresh "b" in let k := fresh "k" in
    intros b k; by destruct k end.

Lemma process_answer_flags c P : leads same_flags (process_answer c P).
Proof.
  destruct c; cbn [process_answer];
    unfold HeartbeatResponseProcess, BootNotificationResponseProcess, AuthorizationResponseProcess,
      StartTransactionResponseProcess, StopTransactionResponseProcess, read_idTagInfo;
    handler_tac same_flags_leaf.
Qed.

Lemma process_response_flags id P : leads same_flags (process_response id P).
Proof.
  unfold process_response. generalize answer_chain as l. intros l. apply leads_bind; [exact _| |].
  - apply leads_test; [apply process_answer_flags | apply leads_refl; exact _].
  - induction l as [|c l IH]; cbn [first_answered]; [apply leads_refl; exact _|].
    apply leads_test; [apply process_answer_flags | exact IH].
Qed.

Lemma take_id_flag j set cell b b' :
  take_id j set b = Running b' -> (forall f b, cell (set f b) = f (cell b)) -> rq_Received (cell b') = true.
Proof.
  unfold take_id, copy_id, bind, copying, ret. repeat case_match; try done.
  all: intros [= <-] Hc; by rewrite Hc.
Qed.

Lemma unread_taken j k b b' :
  unread k = true -> process_request (kind_action k) j b = Running b' -> flagged b' k = true.
Proof. destruct k; try done; intros _ Hr; cbn [flagged]; eapply take_id_flag; try exact Hr; by intros. Qed.

(** Claim C19.  Malformed requests: whatever text arrives, a request appears in
    a cell only when the text is a call of that cell's action that carries the
    fields OCPP makes mandatory for it with their types, down to the periods of
    a charging profile; a remote start and a trigger of a connector's message
    need their optional connector id as well.
    The exceptions are DataTransfer, GetCompositeSchedule and UnlockConnector:
    every call of these is taken, whatever it carries.  The cells of the other
    actions keep theirs, and anything that is not a call leaves every cell as it
    was. *)
Theorem request_needs_its_fields s b b' k :
  ocpp_response s b = Running b' ->
  let j := cJSON_Parse s in
  let is_call := number (item j 0) = Some OCPP_CALL /\ text (item j 2) = Some (kind_action k) in
  (flagged b' k = true -> flagged b k = false -> is_call /\ (unread k = false -> mandatory k j)) /\
  (is_call -> unread k = true -> flagged b' k = true) /\
  (~ is_call -> flagged b' k = flagged b k).
Proof.
  intros Hr. cbv zeta. unfold ocpp_response in Hr. set (j := cJSON_Parse s) in *. clearbody j.
  assert (Hk : flagged b' k = flagged b k \/
    (number (item j 0) = Some OCPP_CALL /\ text (item j 2) = Some (kind_action k)) /\
    (flagged b' k = true -> unread k = false -> mandatory k j)).
  { revert Hr. unfold process_message.
    destruct (number (item j 0)) as [type|]; [|intros [= <-]; by left].
    destruct (type =? OCPP_CALL) eqn:Et.
    - apply Z.eqb_eq in Et as ->. destruct (text (item j 2)) as [action|]; [|intros [= <-]; by left].
      intros Hr. pose proof (process_request_takes action j b) as Hl. rewrite Hr in Hl.
      destruct (Hl k) as [?|[<- ?]]; [by left | by right].
    - destruct (type =? OCPP_RECEIVE); [|intros [= <-]; by left].
      destruct (text (item j 1)) as [id|]; [|done]. intros Hr. left.
      pose proof (process_response_flags id (item j 2) b) as Hl. rewrite Hr in Hl. apply Hl. }
  split; [|split].
  - intros H1 H2. destruct Hk as [Hk|[? Hk]]; [congruence | auto].
  - intros [Ht Ha] Hu. revert Hr. unfold process_message. rewrite Ht, Ha. by apply unread_taken.
  - intros Hn. by destruct Hk as [Hk|[? _]].
Qed.
End Mandatory.

(** A remote start that names no connector: OCPP allows it. *)
Definition remote_start_anywhere : tree :=
  Arr [Num 2; Str "id"; Str "RemoteStartTransaction"; Obj [("idTag", Str "CARD")]].

(** An unlock request that says nothing: OCPP requires the connector. *)
Definition unlock_nothing : tree := Arr [Num 2; Str "id"; Str "UnlockConnector"; Obj []].

Lemma request_needs_its_fields_witness :
  (let J := one_document remote_start_anywhere in
   exists b', ocpp_response "doc" empty_inbox = Running b' /\
     flagged b' (KRemoteStart Conn0) = false /\ flagged b' KReset = false) /\
  (let J := one_document unlock_nothing in
   exists b', ocpp_response "doc" empty_inbox = Running b' /\ flagged b' KUnlockConnector = true).
Proof.
  split; cbv zeta.
  - set (J := one_document remote_start_anywhere). eexists. split; [reflexivity|].
    match goal with |- flagged ?b _ = _ /\ _ => set (b' := b) end.
    assert (Hr : @ocpp_response J "doc" empty_inbox = Running b') by reflexivity.
    split.
    + destruct (flagged b' (KRemoteStart Conn0)) eqn:E; [|done].
      destruct (proj1 (@request_needs_its_fields J "doc" empty_inbox b' (KRemoteStart Conn0) Hr) E
        eq_refl) as [_ Hm]. destruct (Hm eq_refl) as [Hz _]. discriminate Hz.
    + refine (proj2 (proj2 (@request_needs_its_fields J "doc" empty_inbox b' KReset Hr)) _).
      by intros [_ ?].
  - set (J := one_document unlock_nothing). eexists. split; [reflexivity|].
    match goal with |- flagged ?b _ = _ => set (b' := b) end.
    assert (Hr : @ocpp_response J "doc" empty_inbox = Running b') by reflexivity.
    refine (proj1 (proj2 (@request_needs_its_fields J "doc" empty_inbox b' KUnlockConnector Hr)) _ eq_refl).
    by split.
Defined.

(** ** From a message to a request being served *)

(** A request with its fields while it is flagged. *)
Definition pending {A B} (r : request A) (f : A -> B) : option B :=
  if rq_Received r then Some (f (rq_body r)) else None.

Definition reserve_view (r : reserve_fields) : CMSReserveNowRequest_t :=
  mkReserve (rv_idTag r) (rv_expiryDate r)
    (if rv_isparentidTagReceived r then Some (rv_parentidTag r) else None) (rv_reservationId r).

(** The cells [Connector0Task] reads ([Requests.v]), as the messages left
    them; transaction ids are compared as [uint32_t]. *)
Definition view (b : inbox) (d : desk) : desk :=
  d <| Requests.CMSRemoteStartTransactionRequest :=
         fun i => pending (CMSRemoteStartTransactionRequest b i) rs_idTag |>
    <| Requests.CMSChangeAvailabilityRequest :=
         fun i => pending (CMSChangeAvailabilityRequest b i) id |>
    <| Requests.CMSReserveNowRequest := fun i => pending (CMSReserveNowRequest b i) reserve_view |>
    <| Requests.CMSRemoteStopTransactionRequest := pending (CMSRemoteStopTransactionRequest b) u32 |>
    <| Requests.CMSTriggerMessageRequest := pending (CMSTriggerMessageRequest b) id |>
    <| Requests.CMSClearCacheRequest := rq_Received (CMSClearCacheRequest b) |>
    <| Requests.CMSCancelReservationRequest := pending (CMSCancelReservationRequest b) id |>
    <| Requests.CMSResetRequest := pending (CMSResetRequest b) id |>
    <| Requests.CMSUpdateFirmwareRequest := rq_Received (CMSUpdateFirmwareRequest b) |>.

(** Two desks with the same requests. *)
Definition same_requests (d e : desk) : Prop :=
  (forall i, Requests.CMSRemoteStartTransactionRequest d i = Requests.CMSRemoteStartTransactionRequest e i /\
     Requests.CMSChangeAvailabilityRequest d i = Requests.CMSChangeAvailabilityRequest e i /\
     Requests.CMSReserveNowRequest d i = Requests.CMSReserveNowRequest e i) /\
  Requests.CMSRemoteStopTransactionRequest d = Requests.CMSRemoteStopTransactionRequest e /\
  Requests.CMSTriggerMessageRequest d = Requests.CMSTriggerMessageRequest e /\
  Requests.CMSClearCacheRequest d = Requests.CMSClearCacheRequest e /\
  Requests.CMSCancelReservationRequest d = Requests.CMSCancelReservationRequest e /\
  Requests.CMSResetRequest d = Requests.CMSResetRequest e /\
  Requests.CMSUpdateFirmwareRequest d = Requests.CMSUpdateFirmwareRequest e.

(** A request as the central system means it. *)
Inductive arrival :=
  | RemoteStart (i : cid) (tag : string)
  | ChangeAvailability (i : cid) (type : string)
  | ReserveNow (i : cid) (r : CMSReserveNowRequest_t)
  | RemoteStop (transactionId : Z)
  | TriggerConnector (message : string) (i : cid)
  | ClearCache
  | CancelReservation (reservationId : Z)
  | Reset (type : string)
  | UpdateFirmware.

(** What it is to [Connector0Task]. *)
Definition arrive (a : arrival) : desk -> desk :=
  match a with
  | RemoteStart i tag => update Requests.CMSRemoteStartTransactionRequest (upd i (Some tag))
  | ChangeAvailability i type => update Requests.CMSChangeAvailabilityRequest (upd i (Some type))
  | ReserveNow i r => update Requests.CMSReserveNowRequest (upd i (Some r))
  | RemoteStop id => fun d => d <| Requests.CMSRemoteStopTransactionRequest := Some id |>
  | TriggerConnector m i => fun d => d <| Requests.CMSTriggerMessageRequest := Some (m, cid_to_Z i) |>
  | ClearCache => fun d => d <| Requests.CMSClearCacheRequest := true |>
  | CancelReservation id => fun d => d <| Requests.CMSCancelReservationRequest := Some id |>
  | Reset type => fun d => d <| Requests.CMSResetRequest := Some type |>
  | UpdateFirmware => fun d => d <| Requests.CMSUpdateFirmwareRequest := true |>
  end.

(** The id its answer is sent under. *)
Definition reply_id (a : arrival) (b : inbox) : string :=
  match a with
  | RemoteStart i _ => rq_UniqId (CMSRemoteStartTransactionRequest b i)
  | ChangeAvailability i _ => rq_UniqId (CMSChangeAvailabilityRequest b i)
  | ReserveNow i _ => rq_UniqId (CMSReserveNowRequest b i)
  | RemoteStop _ => rq_UniqId (CMSRemoteStopTransactionRequest b)
  | TriggerConnector _ _ => rq_UniqId (CMSTriggerMessageRequest b)
  | ClearCache => rq_UniqId (CMSClearCacheRequest b)
  | CancelReservation _ => rq_UniqId (CMSCancelReservationRequest b)
  | Reset _ => rq_UniqId (CMSResetRequest b)
  | UpdateFirmware => rq_UniqId (CMSUpdateFirmwareRequest b)
  end.

Section Delivery.
Context `{CJson}.

(** [j] is the call [[2, id, action, payload]], its id within the buffer. *)
Definition call_of (action id : string) (j : option node) : Prop :=
  number (item j 0) = Some OCPP_CALL /\ text (item j 2) = Some action /\
  text (item j 1) = Some id /\ fits OCPP_MESSAGEID_LENGTH id = true.

Definition has (j : option node) (k : string) (size : Z) (v : string) : Prop :=
  text (field j k) = Some v /\ fits size v = true.

Definition carries (j : option node) (a : arrival) (id : string) : Prop :=
  match a with
  | RemoteStart i tag => call_of "RemoteStartTransaction" id j /\
      number (field j "connectorId") = Some (cid_to_Z i) /\ has j "idTag" idTagLength tag /\
      (is_object (field j "chargingProfile") = true ->
       snd (read_profile (field j "chargingProfile")
              (zero_profile <| ProfileStore.connectorId := cid_to_Z i |>)) = true)
  | ChangeAvailability i type => call_of "ChangeAvailability" id j /\
      number (field j "connectorId") = Some (cid_to_Z i) /\ has j "type" 15 type
  | ReserveNow i r => call_of "ReserveNow" id j /\
      number (field j "connectorId") = Some (cid_to_Z i) /\
      has j "expiryDate" 25 (rn_expiryDate r) /\ has j "idTag" idTagLength (rn_idTag r) /\
      match rn_parentidTag r with
      | Some p => has j "parentidTag" idTagLength p
      | None => text (field j "parentidTag") = None
      end /\
      number (field j "reservationId") = Some (rn_reservationId r)
  | RemoteStop txn => call_of "RemoteStopTransaction" id j /\
      exists z, number (field j "transactionId") = Some z /\ txn = u32 z
  | TriggerConnector m i => call_of "TriggerMessage" id j /\
      (m = "MeterValues" \/ m = "StatusNotification") /\ text (field j "requestedMessage") = Some m /\
      number (field j "connectorId") = Some (cid_to_Z i)
  | ClearCache => call_of "ClearCache" id j
  | CancelReservation n => call_of "CancelReservation" id j /\
      exists z, number (field j "reservationId") = Some z /\ n = u32 z
  | Reset type => call_of "Reset" id j /\ has j "type" 5 type
  | UpdateFirmware => call_of "UpdateFirmware" id j /\
      is_Some (text (field j "location")) /\ is_Some (text (field j "retrieveDate"))
  end.

Lemma call_of_process action id j :
  call_of action id j -> process_message j = process_request action j.
Proof. intros (Ht & Ha & _). unfold process_message. by rewrite Ht, Ha. Qed.

Lemma copying_fits size s f b : fits size s = true -> copying size s f b = Running (f b).
Proof. intros E. unfold copying. by rewrite E. Qed.

Lemma copy_id_fits action id j f b :
  call_of action id j -> copy_id j f b = Running (f id b).
Proof. intros (_ & _ & Hi & Hf). unfold copy_id, ResponseMsgId. rewrite Hi. by apply copying_fits. Qed.

(** Run the statements of a handler whose fields are known, then compare the
    cells. *)
Ltac run_handler Hc :=
  repeat (unfold bind at 1;
    first [rewrite (copy_id_fits _ _ _ _ _ Hc) | rewrite copying_fits by assumption | unfold ret at 1]).
Ltac cells :=
  let k := fresh "k" in
  split; [unfold same_requests; split_and!; try reflexivity;
          try (intros k; split_and!; try reflexivity)|];
  cbn; unfold at_cell, upd, pending; rewrite ?cid_eqb_spec; repeat case_bool_decide; subst; cbn;
  try done.

Ltac deliver f Hc :=
  rewrite (call_of_process _ _ _ Hc);
  lazymatch type of Hc with call_of ?a _ ?j => change (process_request a j) with (f j) end.

Definition delivered (j : option node) (b : inbox) (a : arrival) (id : string) (d : desk) : Prop :=
  exists b', process_message j b = Running b' /\
    same_requests (view b' d) (arrive a (view b d)) /\ reply_id a b' = id.

Lemma u8_cid i : cid_of_Z (u8 (cid_to_Z i)) = Some i.
Proof. by destruct i. Qed.

Lemma deliver_reset j b type id d :
  carries j (Reset type) id -> delivered j b (Reset type) id d.
Proof.
  intros [Hc [Ht Hf]]. unfold delivered. deliver CMSResetRequestProcess Hc.
  unfold CMSResetRequestProcess. rewrite Ht. cbv zeta. run_handler Hc.
  eexists. split; [reflexivity | cells].
Qed.

Lemma deliver_availability j b i type id d :
  carries j (ChangeAvailability i type) id -> delivered j b (ChangeAvailability i type) id d.
Proof.
  intros (Hc & Hi & [Ht Hf]). unfold delivered. deliver CMSChangeAvailabilityRequestProcess Hc.
  unfold CMSChangeAvailabilityRequestProcess, with_cell. rewrite Hi, u8_cid, Ht. cbv zeta.
  run_handler Hc. eexists. split; [reflexivity | cells].
Qed.

Lemma deliver_trigger j b m i id d :
  carries j (TriggerConnector m i) id -> delivered j b (TriggerConnector m i) id d.
Proof.
  intros (Hc & Hm & Ht & Hi). unfold delivered. deliver CMSTriggerMessageRequestProcess Hc.
  unfold CMSTriggerMessageRequestProcess. rewrite Ht, Hi. cbv zeta.
  assert (Hf : fits 35 m = true) by (by destruct Hm as [-> | ->]).
  destruct Hm as [-> | ->]; run_handler Hc; eexists; (split; [reflexivity | cells]); by destruct i.
Qed.

Lemma deliver_clear_cache j b id d : carries j ClearCache id -> delivered j b ClearCache id d.
Proof.
  intros Hc. unfold delivered. cbn [carries] in Hc. rewrite (call_of_process _ _ _ Hc).
  change (process_request "ClearCache" j) with (take_id j (update CMSClearCacheRequest)).
  unfold take_id. run_handler Hc. eexists. split; [reflexivity | cells].
Qed.

Lemma deliver_cancel j b n id d :
  carries j (CancelReservation n) id -> delivered j b (CancelReservation n) id d.
Proof.
  intros (Hc & z & Hz & ->). unfold delivered. deliver CMSCancelReservationRequestProcess Hc.
  unfold CMSCancelReservationRequestProcess. rewrite Hz. cbv zeta. run_handler Hc.
  eexists. split; [reflexivity | cells].
Qed.

Lemma deliver_remote_stop j b n id d :
  carries j (RemoteStop n) id -> delivered j b (RemoteStop n) id d.
Proof.
  intros (Hc & z & Hz & ->). unfold delivered. deliver CMSRemoteStopTransactionRequestProcess Hc.
  unfold CMSRemoteStopTransactionRequestProcess. rewrite Hz. cbv zeta. run_handler Hc.
  eexists. split; [reflexivity | cells].
Qed.

Lemma deliver_update j b id d : carries j UpdateFirmware id -> delivered j b UpdateFirmware id d.
Proof.
  intros (Hc & Hl & Hr). unfold delivered. deliver CMSUpdateFirmwareRequestProcess Hc.
  unfold CMSUpdateFirmwareRequestProcess, ResponseMsgId, has_text. pose proof Hc as (_ & _ & Hi & Hf).
  rewrite Hi, (bool_decide_true _ Hl), (bool_decide_true _ Hr). cbv zeta. run_handler Hc.
  eexists. split; [reflexivity | cells].
Qed.

Lemma deliver_reserve j b i r id d :
  carries j (ReserveNow i r) id -> delivered j b (ReserveNow i r) id d.
Proof.
  intros (Hc & Hi & [He Hef] & [Ht Htf] & Hp & Hn). unfold delivered.
  deliver CMSReserveNowRequestProcess Hc.
  unfold CMSReserveNowRequestProcess, with_cell, copy_field, has_text, has_number.
  rewrite Hi, u8_cid, He, Ht, Hn. cbv zeta. rewrite !bool_decide_true by done.
  destruct r as [tag expiry [p|] n]; [destruct Hp as [Hp Hpf]|]; cbn in *; rewrite Hp;
    run_handler Hc; eexists; (split; [reflexivity | cells]).
Qed.

Lemma finish_remote_start_runs j b i tag id :
  call_of "RemoteStartTransaction" id j -> has j "idTag" idTagLength tag ->
  exists b', finish_remote_start j i true b = Running b' /\
    b' = update CMSRemoteStartTransactionRequest (at_cell i (set_received true))
          (update CMSRemoteStartTransactionRequest (at_cell i (set_body (fun r => r <| rs_idTag := tag |>)))
            (update CMSRemoteStartTransactionRequest (at_cell i (set_id id))
              (update CMSRemoteStartTransactionRequest (at_cell i (set_id EmptyString)) b))).
Proof.
  intros Hc [Ht Hf]. unfold finish_remote_start, ResponseMsgId. pose proof Hc as (_ & _ & Hi & Hif).
  rewrite Hi, Ht. cbv zeta. run_handler Hc. eexists. by split.
Qed.

Lemma deliver_remote_start j b i tag id d :
  carries j (RemoteStart i tag) id -> delivered j b (RemoteStart i tag) id d.
Proof.
  intros (Hc & Hi & Ht & Hp). unfold delivered. deliver CMSRemoteStartTransactionRequestProcess Hc.
  unfold CMSRemoteStartTransactionRequestProcess, with_cell, WriteChargingProfileToFlash.
  rewrite Hi, cid_of_to. replace (cid_to_Z i <? NUM_OF_CONNECTORS) with true by (by destruct i).
  replace (u8 (cid_to_Z i)) with (cid_to_Z i) by (by destruct i).
  unfold bind at 1, ret at 1.
  match goal with |- context [update CMSRemoteStartTransactionRequest ?f b] => set (b1 := update CMSRemoteStartTransactionRequest f b) end.
  destruct (is_object (field j "chargingProfile")) eqn:Eo.
  - specialize (Hp eq_refl). destruct (field j "chargingProfile") as [cs|]; [|done].
    destruct (read_profile _ _) as [p ok]. cbn in Hp. subst ok. unfold bind at 1, ret at 1.
    set (b2 := b1 <| written := p :: written b1 |>).
    destruct (finish_remote_start_runs j b2 i tag id Hc Ht) as (b' & -> & ->).
    eexists. split; [reflexivity | cells].
  - destruct (finish_remote_start_runs j b1 i tag id Hc Ht) as (b' & -> & ->).
    eexists. split; [reflexivity | cells].
Qed.


(** A message asking for a hard reset is one the next iteration serves. *)
Lemma hard_reset_message s b id d :
  carries (cJSON_Parse s) (Reset "Hard") id ->
  exists b', ocpp_response s b = Running b' /\ reset (view b' d) = hard_reset (view b' d).
Proof.
  intros (b' & Hr & Hs & _)%(deliver_reset _ b _ _ d). exists b'. split; [exact Hr|].
  destruct Hs as (_ & _ & _ & _ & _ & Hs & _). unfold reset, reads. by rewrite Hs.
Qed.
End Delivery.

Definition hard_reset_call : tree :=
  Arr [Num 2; Str "7f2c"; Str "Reset"; Obj [("type", Str "Hard")]].


(** ** Answers that overrun *)

Section Bounds.
Context `{CJson}.

(** Claim C20.  The answer to an authorisation: taking it is defined exactly
    when its status fits 10 bytes, its expiry date 25 and its parent tag 25.
    Of OCPP's five statuses [ConcurrentTx] does not fit. *)
Theorem authorize_answer_defined_iff b s id Payload i :
  run b -> answer_text s id Payload -> id <> EmptyString -> CP_UniqId b (Authorize i) = id ->
  let info := member Payload "idTagInfo" in
  (ocpp_response s b <> Undefined <->
     opt_fits 10 (text (member info "status")) = true /\
     opt_fits 25 (text (member info "expiryDate")) = true /\
     opt_fits 25 (text (member info "parentidTag")) = true) /\
  (text (member info "status") = Some "ConcurrentTx"%string -> ocpp_response s b = Undefined) /\
  (forall status, status ∈ ["Accepted"; "Blocked"; "Expired"; "Invalid"]%string ->
     opt_fits 10 (Some status) = true).
Proof.
  intros Hb Hs Hne Hid. cbv zeta. rewrite (answer_text_response _ _ _ Hs).
  pose proof (numbered_run _ Hb) as (_ & _ & Hinj).
  rewrite (process_response_of _ _ _ (Authorize i) Hid) by (intros d Hd; apply Hinj; congruence).
  cbn [process_answer]. unfold AuthorizationResponseProcess, read_idTagInfo. cbv zeta.
  split_and!.
  - destruct (text (member (member Payload "idTagInfo") "status")) as [st|],
      (text (member (member Payload "idTagInfo") "expiryDate")) as [ex|],
      (text (member (member Payload "idTagInfo") "parentidTag")) as [pa|];
      unfold bind, copying, ret, pass; cbn [opt_fits]; change idTagLength with 25;
      repeat match goal with |- context [if fits ?n ?x then _ else _] => destruct (fits n x) end;
      intuition congruence.
  - intros ->. reflexivity.
  - intros status Hst%list_elem_of_In. cbn in Hst. by intuition subst.
Qed.
End Bounds.

Definition concurrent_tx : tree :=
  Arr [Num 3; Str "100"; Obj [("idTagInfo", Obj [("status", Str "ConcurrentTx")])]].

Lemma authorize_answer_defined_iff_witness :
  let J := one_document concurrent_tx in
  exists b, run b /\ ocpp_response "doc" b = Undefined.
Proof.
  cbv zeta. set (J := one_document concurrent_tx).
  set (P := Some (Obj [("idTagInfo", Obj [("status", Str "ConcurrentTx")])]) : option (@node J)).
  assert (Hr : @run J empty_inbox) by (by apply run_start).
  assert (Hs : exists b, send_request (Authorize Conn0) (Obj []) empty_inbox = Running b
    /\ CP_UniqId b (Authorize Conn0) = "100") by (eexists; by split).
  destruct Hs as (b & Hs & Hid).
  assert (Hb : @run J b) by (eapply run_step; [exact Hr | by eapply step_call]).
  exists b. split; [done|].
  destruct (@authorize_answer_defined_iff J b "doc" "100" P Conn0 Hb) as (_ & H2 & _); [|done|done|].
  { split; [|split]; reflexivity. }
  by apply H2.
Defined.

(** ** The times of a charging profile *)

Section Profiles.
Context `{CJson}.

Lemma set_choice_keeps {A} (f : ChargingProfiles_t -> A) v names set p :
  (forall z p, f (set z p) = f p) -> f (fst (set_choice v names set p)) = f p.
Proof. intros Hf. unfold set_choice. destruct v; [apply Hf | done]. Qed.

Lemma when_some_keeps {A B} (f : ChargingProfiles_t -> A) (v : option B) set p :
  (forall z p, f (set z p) = f p) -> f (when_some v set p) = f p.
Proof. intros Hf. unfold when_some. destruct v; [apply Hf | done]. Qed.

(** The fields a schedule does not touch, and its start. *)
Lemma read_schedule_start cs p t :
  is_object cs = true -> text (member cs "startSchedule") = Some t ->
  startSchedule (fst (read_schedule cs p)) = unread_time.
Proof.
  intros Ho Ht. unfold read_schedule. rewrite Ho, Ht.
  match goal with |- context [set_choice ?v ?n ?s ?q] =>
    pose proof (set_choice_keeps startSchedule v n s q (fun _ _ => eq_refl)) as Hc;
    destruct (set_choice v n s q) as [p1 ok1] end.
  cbn [fst] in Hc. change (startSchedule p1 = unread_time) in Hc.
  destruct (array _) as [l|]; [destruct (read_periods _ _ _ _) as [[sched ok] i]|];
    (destruct (member cs "minChargingRate") as [n|]; [destruct (bool_decide _)|]); exact Hc.
Qed.

Lemma read_schedule_valid cs p :
  validTo (fst (read_schedule cs p)) = validTo p.
Proof.
  unfold read_schedule. destruct (is_object cs); [|done].
  set (q := when_some (number (member cs "duration")) _ p).
  assert (Hq : validTo q = validTo p) by (by apply when_some_keeps). clearbody q.
  set (q2 := when_some (text (member cs "startSchedule")) _ q).
  assert (Hq2 : validTo q2 = validTo p) by (rewrite <-Hq; by apply when_some_keeps). clearbody q2.
  match goal with |- context [set_choice ?v ?n ?s ?q] =>
    pose proof (set_choice_keeps validTo v n s q (fun _ _ => eq_refl)) as Hc;
    destruct (set_choice v n s q) as [p1 ok1] end.
  cbn [fst] in Hc. rewrite Hq2 in Hc.
  destruct (array _) as [l|]; [destruct (read_periods _ _ _ _) as [[sched ok] i]|];
    (destruct (member cs "minChargingRate") as [n|]; [destruct (bool_decide _)|]); exact Hc.
Qed.

(** What precedes the schedule, as one profile. *)
Lemma read_profile_eq cs p :
  exists q, fst (read_profile cs p) = fst (read_schedule (member cs "chargingSchedule") q) /\
    (is_Some (text (member cs "validTo")) -> validTo q = unread_time).
Proof.
  unfold read_profile.
  destruct (set_choice _ purposes _ _) as [p1 ok1].
  destruct (set_choice _ kinds _ p1) as [p2 ok2].
  match goal with |- context [when_some (text (member cs "validTo")) ?f ?r] =>
    exists (when_some (text (member cs "validTo")) f r) end.
  destruct (read_schedule _ _) as [p3 ok3]. split; [done|]. by intros [t ->].
Qed.

(** Times of a profile: the firmware does not read them.  Whatever
    start of schedule an absolute profile gives, until 2041 the last of its
    periods is the one in force from the moment it is installed; and whatever
    end of validity it gives, it does not end before then. *)
Theorem start_schedule_ignored cs p0 t now ongoing began :
  let p := fst (read_profile cs p0) in
  let schedule := member cs "chargingSchedule" in
  is_object schedule = true -> text (member schedule "startSchedule") = Some t ->
  chargingProfileKind p = Absolute -> (1 <= periods_present p)%nat ->
  startPeriod (chargingSchedulePeriod p (periods_present p - 1)) < 2147483648 ->
  107041792 <= now < 2254525440 ->
  SchedulePeriodToBeUsed p (timeElapsed p now ongoing began) = Some (periods_present p - 1)%nat /\
  (is_Some (text (member cs "validTo")) -> (now >=? validTo p) = false).
Proof.
  cbv zeta. intros Ho Ht Hk Hn Hl Hnow.
  destruct (read_profile_eq cs p0) as (q & Hq & Hv). split.
  - assert (Hs : startSchedule (fst (read_profile cs p0)) = 2254525440)
      by (rewrite Hq; by eapply read_schedule_start).
    clear Hq Hv. set (p := fst (read_profile cs p0)) in *. clearbody p.
    assert (He : timeElapsed p now ongoing began = now + 2040441856).
    { unfold timeElapsed. rewrite Hk, Z.eqb_refl, Hs.
      change (2254525440 >? 0) with true. cbv iota. unfold u32. mlia. }
    rewrite He. unfold SchedulePeriodToBeUsed.
    destruct (periods_present p) as [|[|k]]; [lia|done|].
    replace (S (S k) - 1)%nat with (S k) in * by lia.
    by replace (_ >=? _) with true by lia.
  - intros Hto. rewrite Hq, read_schedule_valid, Hv by done. change unread_time with 2254525440. lia.
Qed.
End Profiles.

(** Full current from midnight on, 6 A from one o'clock on. *)
Definition night_profile : tree :=
  Obj [("chargingProfileId", Num 7); ("stackLevel", Num 1);
       ("chargingProfilePurpose", Str "TxDefaultProfile"); ("chargingProfileKind", Str "Absolute");
       ("validTo", Str "2024-05-01T00:00:00Z");
       ("chargingSchedule", Obj [("startSchedule", Str "2024-04-25T00:00:00Z");
          ("chargingRateUnit", Str "A");
          ("chargingSchedulePeriod",
             Arr [Obj [("startPeriod", Num 0); ("limit", Num 32)];
                  Obj [("startPeriod", Num 3600); ("limit", Num 6)]])])].

(** Ten minutes past midnight the 6 A period is in force. *)
Lemma start_schedule_ignored_witness :
  let J := one_document night_profile in
  let p := fst (read_profile (cJSON_Parse "doc") zero_profile) in
  snd (read_profile (cJSON_Parse "doc") zero_profile) = true /\
  SchedulePeriodToBeUsed p (timeElapsed p (1714003200 + 600) false 0) = Some 1%nat.
Proof.
  cbv zeta. set (J := one_document night_profile). split; [vm_compute; reflexivity|].
  assert (E : periods_present (fst (@read_profile J (@cJSON_Parse J "doc") zero_profile)) = 2%nat)
    by (vm_compute; reflexivity).
  pose proof (@start_schedule_ignored J (@cJSON_Parse J "doc") zero_profile "2024-04-25T00:00:00Z"
    (1714003200 + 600) false 0) as H. cbv zeta in H. rewrite E in H.
  apply H; [reflexivity | reflexivity | vm_compute; reflexivity | lia | vm_compute; reflexivity | lia].
Defined.
