(* ===== verification/Reports.v ===== *)
(** * What the charge point says ([main/ocpp.c])

    The payloads the [send...] functions assemble: the boot notification and
    where its fields come from ([ocpp_struct_init]), status, authorisation,
    start, the sampled values of [MeterValues] and [StopTransaction] as the
    configuration keys select them ([OcppKeys.v]), and the answers.
    [Messages.v] numbers and queues them. *)

From Stdlib Require Import Ascii.
From S2P Require Import Prelude Outcome Binary64 Config EnergyMeter ControlPilot Session.
From S2P Require Import OcppKeys Cjson.

(** ** Boot notification *)

Record CPBootNotificationRequest_t := mkBootRequest {
  bn_chargePointVendor : string;
  bn_chargePointModel : string;
  bn_chargePointSerialNumber : string;
  bn_chargeBoxSerialNumber : string;
  bn_firmwareVersion : string;
  bn_iccid : string;
  bn_imsi : string
}.
#[export] Instance boot_request_rebuild : Rebuild CPBootNotificationRequest_t := fun r =>
  mkBootRequest (bn_chargePointVendor r) (bn_chargePointModel r) (bn_chargePointSerialNumber r)
    (bn_chargeBoxSerialNumber r) (bn_firmwareVersion r) (bn_iccid r) (bn_imsi r).

(** The texts of [config] it is made of. *)
Record identity := mkIdentity {
  chargePointVendor : string;
  chargePointModel : string;
  serialNumber : string;
  webSocketURL : string;
  firmwareVersion : string;
  slavefirmwareVersion : string;
  simIMEINumber : string;
  simIMSINumber : string
}.

(** [strrchr(s, '/') + 1]. *)
Fixpoint after_last_slash (s : string) : option string :=
  match s with
  | EmptyString => None
  | String a s =>
      match after_last_slash s with
      | Some t => Some t
      | None => if (a =? "/")%char then Some s else None
      end
  end.

(** [memcpy(dst, src, strlen(src))] into [size] bytes that were zero. *)
Definition fill (size : Z) (src : string) (set : string -> CPBootNotificationRequest_t -> CPBootNotificationRequest_t)
    : stmt CPBootNotificationRequest_t := fun r =>
  if Z.of_nat (String.length src) <=? size then Running (set src r) else Undefined.

(** [snprintf(dst, 70, "%s & %s", a, b)]. *)
Definition both_versions (a b : string) : string := String.substring 0 69 (a ++ " & " ++ b).

(** The part of [ocpp_struct_init] that prepares it; [slave_version] is the
    result of [getSlaveFirmwareVersion]. *)
Definition init_boot_request (lite slave_version : bool) (c : identity) : stmt CPBootNotificationRequest_t :=
  match after_last_slash (webSocketURL c) with
  | Some name => fill 25 name (fun s r => r <| bn_chargePointSerialNumber := s |>)
  | None => pass
  end >>
  fill 20 (chargePointVendor c) (fun s r => r <| bn_chargePointVendor := s |>) >>
  fill 20 (chargePointModel c) (fun s r => r <| bn_chargePointModel := s |>) >>
  fill 25 (serialNumber c) (fun s r => r <| bn_chargeBoxSerialNumber := s |>) >>
  (if lite && slave_version
   then ret (fun r => r <| bn_firmwareVersion := both_versions (firmwareVersion c) (slavefirmwareVersion c) |>)
   else fill 70 (firmwareVersion c) (fun s r => r <| bn_firmwareVersion := s |>)) >>
  fill 20 (simIMEINumber c) (fun s r => r <| bn_iccid := s |>) >>
  fill 20 (simIMSINumber c) (fun s r => r <| bn_imsi := s |>).

Definition boot_payload (cfg : Config_t) (r : CPBootNotificationRequest_t) : tree :=
  Obj ([("chargePointVendor", Str (bn_chargePointVendor r));
        ("chargePointModel", Str (bn_chargePointModel r));
        ("chargePointSerialNumber", Str (bn_chargePointSerialNumber r));
        ("chargeBoxSerialNumber", Str (bn_chargeBoxSerialNumber r));
        ("firmwareVersion", Str (bn_firmwareVersion r))] ++
       (if gsmAvailability cfg && gsmEnable cfg
        then [("iccid", Str (bn_iccid r)); ("imsi", Str (bn_imsi r))] else [])).

(** ** Status, authorisation, start *)

Definition heartbeat_payload : tree := Obj [].

Definition status_payload (r : CPStatusNotificationRequest_t) : tree :=
  Obj ([("connectorId", Num (sn_connectorId r)); ("errorCode", Str (sn_errorCode r));
        ("status", Str (sn_status r)); ("timestamp", Str (sn_timestamp r))] ++
       (if starts_with "OtherError" (sn_errorCode r)
        then [("vendorErrorCode", Str (sn_vendorErrorCode r))] else [])).

Definition authorize_payload (idTag : string) : tree := Obj [("idTag", Str idTag)].

(** [FirmwareStatusNotification], [DiagnosticsStatusNotification]. *)
Definition status_only_payload (status : string) : tree := Obj [("status", Str status)].

Definition start_payload (reservationId : Z) (r : CPStartTransactionRequest_t) : tree :=
  Obj ([("connectorId", Num (st_connectorId r)); ("idTag", Str (st_idTag r));
        ("meterStart", Num (st_meterStart r))] ++
       (if st_reservationIdPresent r then [("reservationId", Num reservationId)] else []) ++
       [("timestamp", Str (st_timestamp r))]).

(** ** Sampled values *)

(** [ContextValuestr]. *)
Definition context_text (context : Z) : string :=
  if context =? 5 then "Transaction.Begin"
  else if context =? 6 then "Transaction.End"
  else if context =? 3 then "Sample.Clock"
  else if context =? 4 then "Sample.Periodic"
  else if context =? 1 then "Interruption.Begin"
  else if context =? 2 then "Interruption.End"
  else if context =? 7 then "Trigger"
  else "Other".

(** The nine sampled values: measurand and phase, where there is one. *)
Definition sampled_kinds : list (measurand * option cid) :=
  [(mEnergyActiveImportRegister, None); (mPowerActiveImport, None);
   (mVoltage, Some Conn1); (mVoltage, Some Conn2); (mVoltage, Some Conn3);
   (mCurrentImport, Some Conn1); (mCurrentImport, Some Conn2); (mCurrentImport, Some Conn3);
   (mTemperature, None)].

(** The texts [ocpp_struct_init] gives them. *)
Definition sampled_measurand (m : measurand) : string :=
  match m with
  | mEnergyActiveImportRegister => "Energy.Active.Import.Register"
  | mPowerActiveImport => "Power.Active.Import"
  | mVoltage => "Voltage"
  | mCurrentImport => "Current.Import"
  | mTemperature => "Temperature"
  | _ => ""
  end.
Definition phase_text (i : cid) : string :=
  match i with Conn1 => "L1" | Conn2 => "L2" | Conn3 => "L3" | Conn0 => "" end.

(** A value that belongs to a phase is sent on three-phase chargers, else by
    the connector of that phase only. *)
Definition phase_here (cfg : Config_t) (connId : cid) (phase : option cid) : bool :=
  match phase with
  | None => true
  | Some i => is_three_phase cfg || bool_decide (connId = i)
  end.

Definition sampled_object (context value : string) (e : measurand * option cid) : tree :=
  Obj ([("value", Str value); ("context", Str context);
        ("measurand", Str (sampled_measurand (fst e)))] ++
       match snd e with Some i => [("phase", Str (phase_text i))] | None => [] end).

(** The values [keep] selects, in order, [print] giving their texts. *)
Definition sampled_array (keep : measurand * option cid -> bool) (print : sampled -> string)
    (context : string) (values : list sampled) : tree :=
  Arr (map (fun '(e, v) => sampled_object context (print v) e)
        (List.filter (fun '(e, _) => keep e) (zip sampled_kinds values))).

Definition meter_key (aligned : bool) : key :=
  if aligned then kMeterValuesAlignedData else kMeterValuesSampledData.
Definition stop_key (aligned : bool) : key :=
  if aligned then kStopTxnAlignedData else kStopTxnSampledData.

Definition keep_meter (keys : CPGetConfigurationResponse_t) (cfg : Config_t) (aligned : bool)
    (connId : cid) (e : measurand * option cid) : bool :=
  measurands keys (meter_key aligned) (fst e) && phase_here cfg connId (snd e).

(** [sendStopTransactionRequest] looks the voltage of the first phase up
    under the keys of [MeterValues]. *)
Definition keep_stop (keys : CPGetConfigurationResponse_t) (cfg : Config_t) (aligned : bool)
    (connId : cid) (e : measurand * option cid) : bool :=
  measurands keys
    (if decide (e = (mVoltage, Some Conn1)) then meter_key aligned else stop_key aligned) (fst e)
  && phase_here cfg connId (snd e).

Definition meter_payload keys cfg print connId (context : Z) aligned (r : CPMeterValuesRequest_t) : tree :=
  Obj [("connectorId", Num (mv_connectorId r)); ("transactionId", Num (mv_transactionId r));
       ("meterValue", Arr [Obj [("timestamp", Str (mv_timestamp r));
          ("sampledValue", sampled_array (keep_meter keys cfg aligned connId) print
             (context_text context) (mv_sampledValue r))]])].

(** [values] is [CPMeterValuesRequest[connId].meterValue.sampledValue]. *)
Definition stop_payload keys cfg print connId (context : Z) (aligned offline : bool)
    (values : list sampled) (r : CPStopTransactionRequest_t) : tree :=
  Obj ([("idTag", Str (sp_idTag r)); ("meterStop", Num (sp_meterStop r));
        ("timestamp", Str (sp_timestamp r)); ("transactionId", Num (sp_transactionId r));
        ("reason", Str (sp_reason r))] ++
       if offline then [] else
       [("transactionData", Arr [Obj [("timestamp", Str (sp_timestamp r));
          ("sampledValue", sampled_array (keep_stop keys cfg aligned connId) print
             (context_text context) values)]])]).

(** ** Answers *)

Inductive answer :=
  | Status (status : string)            (* most of them *)
  | UpdateFirmwareAnswer
  | GetDiagnosticsAnswer (fileName : string)
  | GetLocalListVersionAnswer (listVersion : Z)
  | ProfileAnswer (smartCharging : bool)  (* Set- and ClearChargingProfile *)
  | RejectedAnswer                       (* DataTransfer, GetCompositeSchedule *)
  | UnlockConnectorAnswer.

Definition answer_payload (a : answer) : tree :=
  match a with
  | Status s => Obj [("status", Str s)]
  | UpdateFirmwareAnswer => Obj []
  | GetDiagnosticsAnswer f => Obj [("fileName", Str f)]
  | GetLocalListVersionAnswer v => Obj [("listVersion", Num v)]
  | ProfileAnswer smart => Obj [("status", Str (if smart then "Accepted" else "NotSupported"))]
  | RejectedAnswer => Obj [("status", Str "Rejected")]
  | UnlockConnectorAnswer => Obj [("status", Str "NotSupported")]
  end.

(** ** Properties *)

(** The sampled values a message carries: measurand, phase, text. *)
Definition get (t : option tree) (k : string) : option tree :=
  match t with Some (Obj l) => find_member l k | _ => None end.
Definition first_of (t : option tree) : option tree :=
  match t with Some (Arr (x :: _)) => Some x | _ => None end.
Definition value_of (o : tree) : option tree * option tree * option tree :=
  (get (Some o) "measurand", get (Some o) "phase", get (Some o) "value").
Definition reported (section : string) (message : tree) :=
  match get (first_of (get (Some message) section)) "sampledValue" with
  | Some (Arr l) => map value_of l
  | _ => []
  end.

(** The values the meter can give, by their OCPP names; those of a phase are
    there on three-phase chargers and for the connector on that phase. *)
Definition supported : list (string * option (string * cid)) :=
  [("Energy.Active.Import.Register", None); ("Power.Active.Import", None);
   ("Voltage", Some ("L1", Conn1)); ("Voltage", Some ("L2", Conn2)); ("Voltage", Some ("L3", Conn3));
   ("Current.Import", Some ("L1", Conn1)); ("Current.Import", Some ("L2", Conn2));
   ("Current.Import", Some ("L3", Conn3)); ("Temperature", None)]%string.

(** Those of them a test on names selects, with their texts. *)
Definition selected (wanted : string * option (string * cid) -> bool) (cfg : Config_t) (connId : cid)
    (print : sampled -> string) (values : list sampled) :=
  map (fun '((name, phase), v) =>
         (Some (Str name), (fun p => Str (fst p)) <$> phase, Some (Str (print v))))
    (List.filter (fun '(e, _) => wanted e &&
       match snd e with
       | None => true
       | Some (_, i) => Ac11s cfg || Ac22s cfg || Ac44s cfg || bool_decide (connId = i)
       end) (zip supported values)).

Lemma filter_zip_map {A B C D} (p : A -> bool) (q : B -> bool) (f : A * C -> D) (g : B * C -> D) la lb vs :
  Forall2 (fun a b => p a = q b /\ forall v, f (a, v) = g (b, v)) la lb ->
  map f (List.filter (fun '(a, _) => p a) (zip la vs))
  = map g (List.filter (fun '(b, _) => q b) (zip lb vs)).
Proof.
  intros Hl. revert vs. induction Hl as [|a b la lb [Hp Hf] _ IH]; intros [|v vs]; try done.
  cbn. rewrite Hp. destruct (q b); cbn; rewrite IH; [by rewrite Hf | done].
Qed.

Lemma set_value_measurands k v c : measurands (set_value k v c) = measurands c.
Proof. reflexivity. Qed.

Lemma measurands_changed name k v keys keys' :
  branch_for name = Some (k, Measurands) ->
  change_key name v keys = (keys', "Accepted"%string) ->
  measurands keys' = updk k (parse_measurands v (measurands keys k)) (measurands keys).
Proof.
  intros Hb. unfold change_key. rewrite Hb. destruct (ReadOnly keys k); [done|].
  unfold write_key, seqc. by intros [= <-].
Qed.

Lemma sampled_array_reported keep wanted cfg connId print context values :
  Forall2 (fun (a : measurand * option cid) (b : string * option (string * cid)) =>
    keep a = (wanted b && match snd b with
                          | None => true
                          | Some (_, i) => Ac11s cfg || Ac22s cfg || Ac44s cfg || bool_decide (connId = i)
                          end) /\
    forall v, value_of (sampled_object context (print v) a)
      = (Some (Str (fst b)), (fun p => Str (fst p)) <$> snd b, Some (Str (print v))))
    sampled_kinds supported ->
  match sampled_array keep print context values with Arr l => map value_of l | _ => [] end
  = selected wanted cfg connId print values.
Proof.
  intros Hl. unfold sampled_array, selected. rewrite map_map.
  rewrite <-(filter_zip_map keep (fun b => wanted b && match snd b with
      | None => true
      | Some (_, i) => Ac11s cfg || Ac22s cfg || Ac44s cfg || bool_decide (connId = i) end)
    (fun x => value_of (let '(e, v) := x in sampled_object context (print v) e)) _ sampled_kinds).
  - done.
  - eapply Forall2_impl; [|exact Hl]. intros a [name phase] [H1 H2]. split; [exact H1 | exact H2].
Qed.

(** Claim C21.  Measurands: once a list of measurands was accepted for
    [MeterValuesSampledData], every periodic report carries, in order and with
    their values, exactly those of the list the meter has, of the connector's
    phase or of all three.  The same holds of [StopTxnSampledData] and the
    report at the end of a transaction, except that the voltage of phase L1 is
    sent when [MeterValuesSampledData] has it, whatever the list says. *)
Theorem reports_follow_configuration v keys keys' cfg print connId context :
  (change_key "MeterValuesSampledData" v keys = (keys', "Accepted"%string) -> forall r,
     reported "meterValue" (meter_payload keys' cfg print connId context false r)
     = selected (fun e => strstr v (fst e)) cfg connId print (mv_sampledValue r)) /\
  (change_key "StopTxnSampledData" v keys = (keys', "Accepted"%string) -> forall values r,
     reported "transactionData" (stop_payload keys' cfg print connId context false false values r)
     = selected (fun e => if bool_decide (e = ("Voltage", Some ("L1", Conn1)))%string
                          then measurands keys kMeterValuesSampledData mVoltage
                          else strstr v (fst e)) cfg connId print values).
Proof.
  split; intros Hc.
  - apply (measurands_changed _ kMeterValuesSampledData) in Hc; [|reflexivity]. intros r.
    apply sampled_array_reported. unfold keep_meter, meter_key. rewrite Hc. unfold updk.
    rewrite decide_True by done. repeat constructor; done.
  - apply (measurands_changed _ kStopTxnSampledData) in Hc; [|reflexivity]. intros values r.
    apply sampled_array_reported. unfold keep_stop, meter_key, stop_key. rewrite Hc. unfold updk.
    repeat constructor; done.
Qed.

(** A central system that asks for the energy only still gets the voltage of
    connector 1 at the end of a transaction. *)
Lemma reports_follow_configuration_witness :
  exists keys', change_key "StopTxnSampledData" "Energy.Active.Import.Register" (default_keys 1)
                = (keys', "Accepted"%string) /\
    map (fun e => fst (fst e)) (reported "transactionData"
      (stop_payload keys' factory_config (fun _ => "230.00"%string) Conn1 6 false false
         (replicate 9 (Fmt_u 0)) (mkStopReq false 0 "" 0 "" 0 "")))
    = [Some (Str "Energy.Active.Import.Register"); Some (Str "Voltage")].
Proof.
  set (c := change_key "StopTxnSampledData" "Energy.Active.Import.Register" (default_keys 1)).
  assert (E : c = (fst c, "Accepted"%string)).
  { rewrite (surjective_pairing c) at 1. f_equal. }
  exists (fst c). split; [exact E|].
  destruct (reports_follow_configuration "Energy.Active.Import.Register" (default_keys 1) (fst c)
    factory_config (fun _ => "230.00"%string) Conn1 6) as [_ Hs].
  rewrite (Hs E). clearbody c. vm_compute. reflexivity.
Defined.
