(* ===== verification/Senders.v ===== *)
(** * Sending ([main/ocpp.c], [main/ocpp_task.c])

    The [send...] functions: payloads ([Reports.v]) numbered and queued
    ([Messages.v]), one definition per function, and the requests of the
    central system that [Connector0Task] only answers.

    A call is sent under the next number ([send_request]); an answer under the
    id its request left in its cell, which [answered_under_request_id] shows to
    be the id of the message that raised the flag. *)

From S2P Require Import Prelude Outcome Binary64 Config EnergyMeter ControlPilot Session.
From S2P Require Import Authorization LocalList OcppKeys Cjson Messages MessagesSpec Reports.

Section Sending.
Context `{CJson}.

(** ** Calls *)

Definition sendHeartbeatRequest : stmt inbox := send_request Heartbeat heartbeat_payload.
Definition sendBootNotificationRequest (cfg : Config_t) (r : CPBootNotificationRequest_t) : stmt inbox :=
  send_request BootNotification (boot_payload cfg r).
Definition sendStatusNotificationRequest (i : cid) (r : CPStatusNotificationRequest_t) : stmt inbox :=
  send_request (StatusNotification i) (status_payload r).
Definition sendAuthorizationRequest (i : cid) (idTag : string) : stmt inbox :=
  send_request (Authorize i) (authorize_payload idTag).
Definition sendFirmwareStatusNotificationRequest (status : string) : stmt inbox :=
  send_request FirmwareStatusNotification (status_only_payload status).
Definition sendDiagnosticsStatusNotificationRequest (status : string) : stmt inbox :=
  send_request DiagnosticsStatusNotification (status_only_payload status).
Definition sendStartTransactionRequest (i : cid) (reservationId : Z) (r : CPStartTransactionRequest_t)
    : stmt inbox :=
  send_request (StartTransaction i) (start_payload reservationId r).
Definition sendStopTransactionRequest keys cfg print (i : cid) (context : Z) (aligned offline : bool)
    (values : list sampled) (r : CPStopTransactionRequest_t) : stmt inbox :=
  send_request (StopTransaction i) (stop_payload keys cfg print i context aligned offline values r).
Definition sendMeterValuesRequest keys cfg print (i : cid) (context : Z) (aligned : bool)
    (r : CPMeterValuesRequest_t) : stmt inbox :=
  send_request (MeterValues i) (meter_payload keys cfg print i context aligned r).

(** ** Answers *)

Definition under {A} (cell : inbox -> request A) (a : answer) : stmt inbox :=
  send_answer (fun b => rq_UniqId (cell b)) (fun _ => answer_payload a).

Definition sendCancelReservationResponse (status : string) : stmt inbox :=
  under CMSCancelReservationRequest (Status status).
Definition sendClearChargingProfileResponse (smartCharging : bool) : stmt inbox :=
  under CMSClearChargingProfileRequest (ProfileAnswer smartCharging).
Definition sendDataTransferResponse : stmt inbox := under CMSDataTransferRequest RejectedAnswer.
Definition sendGetCompositeScheduleResponse : stmt inbox :=
  under CMSGetCompositeScheduleRequest RejectedAnswer.
Definition sendGetDiagnosticsResponse (fileName : string) : stmt inbox :=
  under CMSGetDiagnosticsRequest (GetDiagnosticsAnswer fileName).
Definition sendSetChargingProfileResponse (smartCharging : bool) : stmt inbox :=
  under CMSSetChargingProfileRequest (ProfileAnswer smartCharging).
Definition sendUnlockConnectorResponse : stmt inbox :=
  under CMSUnlockConnectorRequest UnlockConnectorAnswer.
Definition sendChangeAvailabilityResponse (status : string) (i : cid) : stmt inbox :=
  under (fun b => CMSChangeAvailabilityRequest b i) (Status status).
Definition sendChangeConfigurationResponse (status : string) : stmt inbox :=
  under CMSChangeConfigurationRequest (Status status).
Definition sendClearCacheResponse (status : string) : stmt inbox :=
  under CMSClearCacheRequest (Status status).
Definition sendUpdateFirmwareResponse : stmt inbox := under CMSUpdateFirmwareRequest UpdateFirmwareAnswer.
Definition sendGetLocalListVersionResponse : stmt inbox := reads (fun b =>
  under CMSGetLocalListVersionRequest
    (GetLocalListVersionAnswer (LocalList.listVersion (CMSSendLocalListRequest b)))).
Definition sendRemoteStartTransactionResponse (status : string) (i : cid) : stmt inbox :=
  under (fun b => CMSRemoteStartTransactionRequest b i) (Status status).
Definition sendRemoteStopTransactionResponse : stmt inbox :=
  under CMSRemoteStopTransactionRequest (Status "Accepted").
Definition sendReserveNowResponse (status : string) (i : cid) : stmt inbox :=
  under (fun b => CMSReserveNowRequest b i) (Status status).
Definition sendResetResponse (status : string) : stmt inbox := under CMSResetRequest (Status status).
Definition SendLocalListResponse : stmt inbox :=
  send_answer (fun b => LocalList.UniqId (CMSSendLocalListRequest b))
    (fun _ => answer_payload (Status "Accepted")).
Definition SendTriggerMessageResponse (status : string) : stmt inbox :=
  under CMSTriggerMessageRequest (Status status).

(** The report of the keys goes out as three answers to one request. *)
Definition configuration_payload (count : Z) (keys : CPGetConfigurationResponse_t) : tree :=
  Obj [("configurationKey", Arr (map (fun '(k, readonly, v) =>
          Obj [("key", Str k); ("readonly", Bool readonly); ("value", Str v)])
          (configurationKeyJsonArray count keys)));
       ("unknownKey", Arr [])].
Definition sendGetConfigurationResponseKeys (count : Z) (keys : CPGetConfigurationResponse_t) : stmt inbox :=
  send_answer (fun b => rq_UniqId (CMSGetConfigurationRequest b)) (fun _ => configuration_payload count keys).
Definition sendGetConfigurationResponse (keys : CPGetConfigurationResponse_t) : stmt inbox :=
  sendGetConfigurationResponseKeys 1 keys >>
  sendGetConfigurationResponseKeys 2 keys >>
  sendGetConfigurationResponseKeys 3 keys.

(** ** Requests that are only answered ([Connector0Task]) *)

(** What else they do, latest first. *)
Inductive chore := WriteLocalList | ClearProfile (id : Z) | SendLogs.
Record clerk := mkClerk { box : inbox; chores : list chore }.
#[export] Instance clerk_rebuild : Rebuild clerk := fun c => mkClerk (box c) (chores c).

Definition mail (a : stmt inbox) : stmt clerk := fun c =>
  match a (box c) with
  | Running b => Running (c <| box := b |>)
  | Restarted b => Restarted (c <| box := b |>)
  | Undefined => Undefined
  end.
Definition also (f : clerk -> chore) : stmt clerk := ret (fun c => c <| chores := f c :: chores c |>).
Definition done_with {A} (set : (request A -> request A) -> inbox -> inbox) : stmt clerk :=
  mail (ret (set (set_received false))).
Definition received {A} (cell : inbox -> request A) (c : clerk) : bool := rq_Received (cell (box c)).

Definition answer_configuration (keys : CPGetConfigurationResponse_t) : stmt clerk :=
  on (received CMSGetConfigurationRequest)
    (mail (sendGetConfigurationResponse keys) >> done_with (update CMSGetConfigurationRequest)).
Definition answer_local_list : stmt clerk :=
  on (fun c => LocalList.Received (CMSSendLocalListRequest (box c)))
    (mail SendLocalListResponse >> also (fun _ => WriteLocalList) >>
     mail (ret (update CMSSendLocalListRequest (fun r => r <| LocalList.Received := false |>)))).
Definition answer_list_version : stmt clerk :=
  on (received CMSGetLocalListVersionRequest)
    (mail sendGetLocalListVersionResponse >> done_with (update CMSGetLocalListVersionRequest)).
(** [fileName] is what [updateDiagnosticsfileName] leaves. *)
Definition answer_rest (smartCharging : bool) (fileName : string) : stmt clerk :=
  on (received CMSClearChargingProfileRequest)
    (mail (sendClearChargingProfileResponse smartCharging) >>
     also (fun c => ClearProfile (cl_id (rq_body (CMSClearChargingProfileRequest (box c))))) >>
     done_with (update CMSClearChargingProfileRequest)) >>
  on (received CMSDataTransferRequest)
    (mail sendDataTransferResponse >> done_with (update CMSDataTransferRequest)) >>
  on (received CMSGetCompositeScheduleRequest)
    (mail sendGetCompositeScheduleResponse >> done_with (update CMSGetCompositeScheduleRequest)) >>
  on (received CMSGetDiagnosticsRequest)
    (mail (sendGetDiagnosticsResponse fileName) >> also (fun _ => SendLogs) >>
     done_with (update CMSGetDiagnosticsRequest)) >>
  on (received CMSSetChargingProfileRequest)
    (mail (sendSetChargingProfileResponse smartCharging) >> done_with (update CMSSetChargingProfileRequest)) >>
  on (received CMSUnlockConnectorRequest)
    (mail sendUnlockConnectorResponse >> done_with (update CMSUnlockConnectorRequest)).

(** ** Answers and their requests *)

(** The id a cell holds. *)
Definition cell_id (b : inbox) (k : kind) : string :=
  match k with
  | KCancelReservation => rq_UniqId (CMSCancelReservationRequest b)
  | KChangeAvailability i => rq_UniqId (CMSChangeAvailabilityRequest b i)
  | KChangeConfiguration => rq_UniqId (CMSChangeConfigurationRequest b)
  | KClearCache => rq_UniqId (CMSClearCacheRequest b)
  | KGetConfiguration => rq_UniqId (CMSGetConfigurationRequest b)
  | KRemoteStart i => rq_UniqId (CMSRemoteStartTransactionRequest b i)
  | KRemoteStop => rq_UniqId (CMSRemoteStopTransactionRequest b)
  | KReset => rq_UniqId (CMSResetRequest b)
  | KTrigger => rq_UniqId (CMSTriggerMessageRequest b)
  | KGetLocalListVersion => rq_UniqId (CMSGetLocalListVersionRequest b)
  | KSendLocalList => LocalList.UniqId (CMSSendLocalListRequest b)
  | KReserveNow i => rq_UniqId (CMSReserveNowRequest b i)
  | KUpdateFirmware => rq_UniqId (CMSUpdateFirmwareRequest b)
  | KClearChargingProfile => rq_UniqId (CMSClearChargingProfileRequest b)
  | KDataTransfer => rq_UniqId (CMSDataTransferRequest b)
  | KGetCompositeSchedule => rq_UniqId (CMSGetCompositeScheduleRequest b)
  | KGetDiagnostics => rq_UniqId (CMSGetDiagnosticsRequest b)
  | KSetChargingProfile => rq_UniqId (CMSSetChargingProfileRequest b)
  | KUnlockConnector => rq_UniqId (CMSUnlockConnectorRequest b)
  end.

(** The function that answers a kind of request, and what it is given. *)
Definition respond (status fileName : string) (smartCharging : bool) (keys : CPGetConfigurationResponse_t)
    (k : kind) : stmt inbox :=
  match k with
  | KCancelReservation => sendCancelReservationResponse status
  | KChangeAvailability i => sendChangeAvailabilityResponse status i
  | KChangeConfiguration => sendChangeConfigurationResponse status
  | KClearCache => sendClearCacheResponse status
  | KGetConfiguration => sendGetConfigurationResponse keys
  | KRemoteStart i => sendRemoteStartTransactionResponse status i
  | KRemoteStop => sendRemoteStopTransactionResponse
  | KReset => sendResetResponse status
  | KTrigger => SendTriggerMessageResponse status
  | KGetLocalListVersion => sendGetLocalListVersionResponse
  | KSendLocalList => SendLocalListResponse
  | KReserveNow i => sendReserveNowResponse status i
  | KUpdateFirmware => sendUpdateFirmwareResponse
  | KClearChargingProfile => sendClearChargingProfileResponse smartCharging
  | KDataTransfer => sendDataTransferResponse
  | KGetCompositeSchedule => sendGetCompositeScheduleResponse
  | KGetDiagnostics => sendGetDiagnosticsResponse fileName
  | KSetChargingProfile => sendSetChargingProfileResponse smartCharging
  | KUnlockConnector => sendUnlockConnectorResponse
  end.

End Sending.

Section Replies.
Context `{CJson}.

(** What a handler does to a cell: its id and flag stay, or they are those of
    the message. *)
Definition takes_id (id : string) (b b' : inbox) : Prop := forall k,
  (cell_id b' k = cell_id b k /\ (flagged b' k = true -> flagged b k = true)) \/
  (flagged b' k = true -> cell_id b' k = id).

Definition ends (R : inbox -> inbox -> Prop) (a : stmt inbox) : Prop := forall b,
  match a b with Running b' => R b b' | _ => True end.

(** Run a handler whose message has the id and look at every cell. *)
Ltac ends_tac :=
  let b := fresh "b" in let k := fresh "k" in intros b;
  unfold bind, ret, pass, copying, test, on, reads;
  repeat (cbv beta iota zeta;
    match goal with
    | |- context [text (field ?j ?k)] => destruct (text (field j k))
    | |- context [number (field ?j ?k)] => destruct (number (field j k))
    | |- context [cid_of_Z ?z] => destruct (cid_of_Z z)
    | |- context [?z <? NUM_OF_CONNECTORS] => destruct (z <? NUM_OF_CONNECTORS)
    | |- context [is_object ?j] => destruct (is_object j)
    | |- context [fits ?n ?s] => destruct (fits n s)
    | |- context [existsb ?p ?l] => destruct (existsb p l)
    | |- context [WriteChargingProfileToFlash ?p ?cs _] =>
        unfold WriteChargingProfileToFlash; destruct cs; [destruct (read_profile _ p) as [? []]|]
    end); cbv beta iota zeta; try exact I;
  intros k; destruct k;
  try (left; split; [reflexivity | intros Hf; first [exact Hf | discriminate Hf]]);
  try (match goal with i : cid, i' : cid |- _ => destruct i, i'
       | i : cid |- _ => destruct i end);
  try (left; split; [reflexivity | intros Hf; first [exact Hf | discriminate Hf]]);
  right; intros _; reflexivity.

Ltac ends_of E := unfold take_id, copy_id, copy_field, with_cell; rewrite ?E; ends_tac.

Lemma local_list_id p r :
  LocalList.UniqId (LocalList.CMSSendLocalListRequestProcess p r) = default (LocalList.UniqId r) (pl_UniqId p).
Proof.
  unfold LocalList.CMSSendLocalListRequestProcess, store_list, wipe_list. cbv zeta.
  repeat match goal with
    | |- context [store_items ?a ?b ?c ?d ?e] => destruct (store_items a b c d e) as [[? ?] ?]
    | |- context [pl_list p] => destruct (pl_list p)
    | |- context [starts_with ?a ?b] => destruct (starts_with a b)
    | |- context [if ?x then _ else _] => destruct x
    end; reflexivity.
Qed.

Lemma local_list_ends j id :
  ResponseMsgId j = Some id -> ends (takes_id id) (CMSSendLocalListRequestProcess j).
Proof.
  intros E b. unfold CMSSendLocalListRequestProcess. cbv zeta. destruct (_ && _); [|exact I].
  intros k. destruct k; try (by left; split). right. intros _. cbn [cell_id].
  change (LocalList.UniqId (LocalList.CMSSendLocalListRequestProcess (list_payload j)
    (CMSSendLocalListRequest b)) = id).
  rewrite local_list_id. cbn [pl_UniqId list_payload]. by rewrite E.
Qed.

Lemma process_request_ends j id action :
  ResponseMsgId j = Some id ->
  ends (takes_id id) (process_request action j).
Proof.
  intros E. unfold process_request. cbv beta zeta.
  repeat match goal with |- ends _ (if (action =? ?s)%string then _ else _) =>
    destruct (String.eqb_spec action s) as [->|_] end.
  - unfold CMSCancelReservationRequestProcess. ends_of E.
  - unfold CMSChangeAvailabilityRequestProcess. ends_of E.
  - unfold CMSChangeConfigurationRequestProcess. ends_of E.
  - ends_of E.
  - ends_of E.
  - unfold CMSRemoteStartTransactionRequestProcess, finish_remote_start. ends_of E.
  - unfold CMSRemoteStopTransactionRequestProcess. ends_of E.
  - unfold CMSResetRequestProcess. ends_of E.
  - unfold CMSTriggerMessageRequestProcess. ends_of E.
  - ends_of E.
  - apply local_list_ends, E.
  - unfold CMSReserveNowRequestProcess. ends_of E.
  - unfold CMSUpdateFirmwareRequestProcess. ends_of E.
  - unfold CMSClearChargingProfileRequestProcess. ends_of E.
  - ends_of E.
  - ends_of E.
  - unfold CMSGetDiagnosticsRequestProcess. ends_of E.
  - unfold CMSSetChargingProfileRequestProcess. ends_of E.
  - ends_of E.
  - intros b k. by left.
Qed.

(** A request taken in has its message's id. *)
Lemma taken_id s b b' k id :
  ocpp_response s b = Running b' -> text (item (cJSON_Parse s) 1) = Some id ->
  flagged b k = false -> flagged b' k = true -> cell_id b' k = id.
Proof.
  intros Hr Hid H1 H2. revert Hr. unfold ocpp_response, process_message.
  destruct (number (item (cJSON_Parse s) 0)) as [type|]; [|intros [= <-]; congruence].
  destruct (type =? OCPP_CALL).
  - destruct (text (item (cJSON_Parse s) 2)) as [action|]; [|intros [= <-]; congruence].
    intros Hr. pose proof (process_request_ends _ _ action Hid b) as He. rewrite Hr in He.
    destruct (He k) as [[_ Hf]|Hf]; [rewrite Hf in H1; done | by apply Hf].
  - destruct (type =? OCPP_RECEIVE); [|intros [= <-]; congruence]. rewrite Hid. intros Hr.
    pose proof (process_response_flags id (item (cJSON_Parse s) 2) b) as Hl. rewrite Hr in Hl.
    rewrite Hl in H2. congruence.
Qed.

(** The answers of a kind of request: one, three for the report of the keys. *)
Definition answers_to (k : kind) : nat := match k with KGetConfiguration => 3 | _ => 1 end.

Lemma respond_enqueues status fileName smart keys k b :
  exists Ps, length Ps = answers_to k /\
    respond status fileName smart keys k b =
    Running (foldl (fun b P => enqueue (answer_message (cell_id b k) P) b) b Ps).
Proof.
  destruct k; try (by (eexists [_])).
  exists [configuration_payload 1 keys; configuration_payload 2 keys; configuration_payload 3 keys].
  by split.
Qed.

Lemma enqueue_all k b id Ps :
  (length (OcppMsgQueue b) <= QUEUE_LENGTH)%nat -> cell_id b k = id ->
  OcppMsgQueue (foldl (fun b P => enqueue (answer_message (cell_id b k) P) b) b Ps) =
  take QUEUE_LENGTH (OcppMsgQueue b ++ map (fun P => queue_cell (answer_message id P)) Ps).
Proof.
  revert b. induction Ps as [|P Ps IH]; intros b Hl Hid; cbn [foldl map].
  - by rewrite app_nil_r, take_ge.
  - assert (Hq := enqueue_queue (answer_message (cell_id b k) P) b Hl).
    assert (Hc : cell_id (enqueue (answer_message (cell_id b k) P) b) k = id)
      by (unfold enqueue; destruct (_ <? _)%nat; [|done]; rewrite <-Hid; by destruct k).
    rewrite IH; [|rewrite Hq, length_take; lia|done].
    rewrite Hq, Hid. rewrite (cons_middle _ _ (map _ Ps)), app_assoc. generalize (OcppMsgQueue b ++ [queue_cell (answer_message id P)]) as l. intros l.
    destruct (decide (length l <= QUEUE_LENGTH)%nat) as [Hle|Hgt].
    + by rewrite (take_ge l).
    + rewrite (take_app_le l) by lia. rewrite take_app_le by (rewrite length_take; lia).
      by rewrite take_take, Nat.min_id.
Qed.

(** Claim C18.  Answering: in every run, when a message raises the flag of a
    request, the function that answers that kind of request puts its answer on
    the queue under the id of that very message - one answer, or three of the
    same id for the report of the configuration keys - as far as the queue of
    three has room; what does not fit is lost.  A cell of the queue holds the
    printed answer, cut at [OCPP_MSG_SIZE] bytes ([queue_cell]). *)
Theorem answered_under_request_id s b b' k id status fileName smart keys :
  run b -> ocpp_response s b = Running b' -> text (item (cJSON_Parse s) 1) = Some id ->
  flagged b k = false -> flagged b' k = true ->
  exists b'' Ps, respond status fileName smart keys k b' = Running b'' /\
    length Ps = answers_to k /\
    OcppMsgQueue b'' = take 3 (OcppMsgQueue b ++ map (fun P => queue_cell (Arr [Num 3; Str id; P])) Ps).
Proof.
  intros Hb Hr Hid H1 H2. pose proof (taken_id _ _ _ _ _ Hr Hid H1 H2) as Hc.
  pose proof (queue_bounded b Hb) as Hl.
  assert (Hq : OcppMsgQueue b' = OcppMsgQueue b).
  { pose proof (response_keeps s b) as Hs. rewrite Hr in Hs. apply Hs. }
  destruct (respond_enqueues status fileName smart keys k b') as (Ps & HP & HR).
  eexists _, Ps. split; [exact HR|]. split; [exact HP|].
  rewrite (enqueue_all _ _ id) by (rewrite ?Hq; done). by rewrite Hq.
Qed.
End Replies.

Definition get_configuration_call : tree :=
  Arr [Num 2; Str "7f2d"; Str "GetConfiguration"; Obj []].

(** With a heartbeat still queued the third part of the report is lost. *)
Lemma answered_under_request_id_witness :
  let J := one_document get_configuration_call in
  exists b b' b'' P1 P2, run b /\ ocpp_response "doc" b = Running b' /\
    respond "" "" false (default_keys 1) KGetConfiguration b' = Running b'' /\
    OcppMsgQueue b'' = OcppMsgQueue b ++
      [queue_cell (Arr [Num 3; Str "7f2d"; P1]); queue_cell (Arr [Num 3; Str "7f2d"; P2])].
Proof.
  cbv zeta. set (J := one_document get_configuration_call).
  assert (Hr : @run J empty_inbox) by (by apply run_start).
  assert (Hs : exists b, send_request Heartbeat (Obj []) empty_inbox = Running b /\
    length (OcppMsgQueue b) = 1%nat /\ flagged b KGetConfiguration = false)
    by (eexists; split; [reflexivity | by split]).
  destruct Hs as (b & Hs & Hl & Hf).
  assert (Hb : @run J b) by (eapply run_step; [exact Hr | by eapply step_call]).
  set (b' := update CMSGetConfigurationRequest (set_received true)
               (update CMSGetConfigurationRequest (set_id "7f2d") b)).
  assert (Hd : @ocpp_response J "doc" b = Running b') by reflexivity.
  destruct (@answered_under_request_id J "doc" b b' KGetConfiguration "7f2d" "" "" false
    (default_keys 1) Hb Hd eq_refl Hf eq_refl) as (b'' & Ps & HR & HP & HQ).
  destruct Ps as [|P1 [|P2 [|P3 [|]]]]; try discriminate HP.
  exists b, b', b'', P1, P2. split_and!; [exact Hb | exact Hd | exact HR |].
  rewrite HQ. destruct (OcppMsgQueue b) as [|m [|]]; try discriminate Hl. reflexivity.
Defined.
