(* ===== verification/Display.v ===== *)
(** * The display ([main/display.c])

    Two kinds of display: one or more 20x4 character displays ([DISP_CHAR]) and
    a DWIN panel on a serial line ([DISP_DWIN]).  The other tasks ask for pages
    by setting bits of [LcdDisplayTask]'s notification value
    ([EvDisplay] and [EvAuthDisplay] of [Session.v]); the task draws one page
    per round, the first in the order of its [if] chain.

    A page of the character display is built in [lcdString] from a template
    and copies at fixed offsets; a copy that leaves the array is [Undefined].
    The panel's values are sent in frames, only when they differ from the last
    one sent. *)

From S2P Require Import Prelude Outcome Binary64 Text Config EnergyMeter ControlPilot Session.

(** ** State *)

(** The DWIN values the firmware remembers ([dwin_page], ...). *)
Inductive reg :=
  | dwin_page | dwin_status | dwin_fault | dwin_4g | dwin_wifi | dwin_cloud
  | dwin_voltage | dwin_current | dwin_energy.
#[export] Instance reg_eq_dec : EqDecision reg.
Proof. solve_decision. Defined.

(** What drawing changes; [glass] is the memory of the character display
    behind a port expander, in the order its controller shows lines 1, 3, 2, 4. *)
Record screen := mkScreen {
  LCDbuffer : cid -> string;
  updatedbuffer : string;
  glass : cid -> string;
  connectorRating : cid -> Z;
  reasonForStop : cid -> string;
  dwin : reg -> Z;
  uart : list (list Z)   (* frames sent to the panel, latest first *)
}.
#[export] Instance screen_rebuild : Rebuild screen := fun s =>
  mkScreen (LCDbuffer s) (updatedbuffer s) (glass s) (connectorRating s) (reasonForStop s)
    (dwin s) (uart s).

(** The task's notification, its local copy, and what the page task cycles
    through. *)
Record task := mkTask {
  notified : Z;
  pending : bool;
  notify_value : Z;
  displayState : cid -> display_bit;
  pageNum : Z
}.
#[export] Instance task_rebuild : Rebuild task := fun t =>
  mkTask (notified t) (pending t) (notify_value t) (displayState t) (pageNum t).

Record display := mkDisplay { shown : screen; lcd_task : task }.
#[export] Instance display_rebuild : Rebuild display := fun d => mkDisplay (shown d) (lcd_task d).

(** What the pages show. *)
Record scene := mkScene {
  sc_config : Config_t;
  cp_enabled : cid -> bool;
  isConnected : bool;
  default_netif : option string;   (* its description *)
  sc_emergencyButton : bool;
  sc_gfciButton : bool;
  sc_earthDisconnectButton : bool;
  sc_relayWeldDetectionButton : bool;
  meter_faults : cid -> MeterFaults_t;
  connector : cid -> ConnectorPrivateData_t;
  firmware_update : bool;
  firmwareUpdateProgress : b64
}.

Definition is_char (s : scene) : bool := displayType (sc_config s) =? DISP_CHAR.
Definition is_dwin (s : scene) : bool := displayType (sc_config s) =? DISP_DWIN.
Definition shared_display (s : scene) : bool := MultiConnectorDisplay (sc_config s).

Definition connected_to (s : scene) (desc : string) : bool :=
  isConnected s && bool_decide (default_netif s = Some desc).

(** ** The DWIN panel *)

Definition address (r : reg) : Z :=
  match r with
  | dwin_4g => 0x03 | dwin_wifi => 0x06 | dwin_status => 0x0A | dwin_fault => 0x0C
  | dwin_cloud => 0x0E | dwin_voltage => 0x10 | dwin_current => 0x12 | dwin_energy => 0x14
  | dwin_page => 0x84
  end.

Definition dwin_cmd (lsb hi lo : Z) : list Z := [0x5A; 0xA5; 0x05; 0x82; 0x10; lsb; hi; lo].
Definition dwin_page_cmd (page_num : Z) : list Z :=
  [0x5A; 0xA5; 0x07; 0x82; 0x00; 0x84; 0x5A; 0x01; 0x00; page_num].

Definition dwin_send_cmd (frame : list Z) : cmd screen := fun s => s <| uart := frame :: uart s |>.

(** Send a value that is not the one remembered, and remember it. *)
Definition evse_update (r : reg) (v : Z) : cmd screen := fun s =>
  if dwin s r =? v then s
  else
    let frame := match r with
      | dwin_page => dwin_page_cmd v
      | _ => dwin_cmd (address r) (Z.shiftr v 8) (Z.land v 255)
      end in
    (dwin_send_cmd frame s) <| dwin := fun q => if decide (q = r) then v else dwin s q |>.

Definition evse_page_change (page_num : Z) : cmd screen := evse_update dwin_page page_num.
Definition evse_update_status (status : Z) : cmd screen := evse_update dwin_status status.
Definition evse_update_fault (fault : Z) : cmd screen := evse_update dwin_fault fault.
Definition evse_update_4G_logo (logo : Z) : cmd screen := evse_update dwin_4g logo.
Definition evse_update_wifi_logo (logo : Z) : cmd screen := evse_update dwin_wifi logo.
Definition evse_update_cloud_status (status : Z) : cmd screen := evse_update dwin_cloud status.
Definition evse_voltage_value (voltage : b64) : cmd screen :=
  evse_update dwin_voltage (u16 (f_trunc (fmul voltage (f_of_Z 10)))).
Definition evse_current_value (current : b64) : cmd screen :=
  evse_update dwin_current (u16 (f_trunc (fmul current (f_of_Z 100)))).
Definition evse_energy_value (energy : b64) : cmd screen :=
  evse_update dwin_energy (u16 (f_trunc (fdiv energy (f_of_Z 10)))).
Definition evse_update_time (time : Z) : cmd screen :=
  dwin_send_cmd (dwin_cmd 0x16 0 (u8 (time / 3600))) ;;
  dwin_send_cmd (dwin_cmd 0x18 0 (u8 (time mod 3600 / 60))) ;;
  dwin_send_cmd (dwin_cmd 0x1A 0 (u8 (time mod 60))).

(** The page, status and fault of a connector, then the logos. *)
Definition dwin_state (s : scene) (page status fault : Z) : cmd screen :=
  evse_page_change page ;;
  evse_update_status status ;;
  evse_update_fault fault ;;
  evse_update_4G_logo
    (if connected_to s "ppp" then 1
     else if gsmAvailability (sc_config s) && gsmEnable (sc_config s) then 2 else 0) ;;
  evse_update_wifi_logo
    (if connected_to s "sta" then 1
     else if wifiAvailability (sc_config s) && wifiEnable (sc_config s) then 2 else 0) ;;
  evse_update_cloud_status (if isConnected s then 1 else 2).

(** ** The character displays *)

(** The expander that shows [lcd[dispId]]: both displays are given the write
    function of the first one, the third none. *)
Definition driver (s : scene) (dispId : cid) : option cid :=
  match dispId with
  | Conn1 => Some Conn1
  | Conn2 => if negb (shared_display s) && (NumofDisplays (sc_config s) >? 1) then Some Conn1 else None
  | _ => None
  end.

Definition lcd_line (k : nat) (text : string) : string := String.substring (20 * k) 20 text.

Definition UpdateLcdDisplay (s : scene) (dispId : cid) : cmd screen := fun sc =>
  let text := updatedbuffer sc in
  let buffer := (lcd_line 0 text ++ lcd_line 2 text ++ lcd_line 1 text ++ lcd_line 3 text)%string in
  sc <| LCDbuffer := upd dispId text (LCDbuffer sc) |>
     <| glass := match driver s dispId with
                 | Some x => upd x buffer (glass sc)
                 | None => glass sc
                 end |>.

Definition set_text (text : string) : cmd screen := fun sc =>
  sc <| updatedbuffer := String.substring 0 80 text |>.

(** Where a connector's page goes. *)
Definition show_on (s : scene) (connId : cid) : cmd screen :=
  UpdateLcdDisplay s (if shared_display s then Conn1 else connId).

(** Pages of the whole charge point. *)
Definition show_all (s : scene) : cmd screen :=
  if shared_display s then UpdateLcdDisplay s Conn1
  else if NumberOfConnectors (sc_config s) =? 1 then UpdateLcdDisplay s Conn1
  else if NumberOfConnectors (sc_config s) =? 2 then UpdateLcdDisplay s Conn1 ;; UpdateLcdDisplay s Conn2
  else if NumberOfConnectors (sc_config s) =? 3 then
    UpdateLcdDisplay s Conn1 ;; UpdateLcdDisplay s Conn2 ;; UpdateLcdDisplay s Conn3
  else skip.
Definition show_each (s : scene) : cmd screen :=
  if NumofDisplays (sc_config s) =? NumberOfConnectors (sc_config s) then
    foreach (connectors_upto (NumberOfConnectors (sc_config s))) (UpdateLcdDisplay s)
  else UpdateLcdDisplay s Conn1.

Definition badge (s : scene) : string :=
  if connected_to s "eth" then "ETH"
  else if connected_to s "sta" then "WFI"
  else if connected_to s "ppp" then "GSM"
  else "OFL".

(** A line of 20 characters, and the template of a page. *)
Definition row (text : string) : string := String.substring 0 20 (text ++ spaces 20).
Definition header (s : scene) : string := (spaces 17 ++ badge s)%string.
Definition template (first a b c : string) : string := (first ++ row a ++ row b ++ row c)%string.

Definition rating (s : scene) (connId : cid) : Z :=
  if cp_enabled s connId then
    match connId with
    | Conn1 => if Ac11s (sc_config s) then 11 else if Ac22s (sc_config s) then 22
               else if Ac44s (sc_config s) then 44 else 7
    | _ => 7
    end
  else 3.
Definition updateConnectorType (s : scene) (connId : cid) : cmd screen := fun sc =>
  sc <| connectorRating := upd connId (rating s connId) (connectorRating sc) |>.

(** ["C-%hhu:%hhukW %s"]. *)
Definition outputType (s : scene) (connId : cid) (kW : Z) : string :=
  clip 21 ("C-" ++ pretty (cid_to_Z connId) ++ ":" ++ pretty kW ++ "kW " ++
           (if cp_enabled s connId then "TYPE-2" else "SOCKET")).

(** [strncpy(lcdString + at, text, strlen(text))] in the 81 bytes. *)
Definition put (at_ : nat) (text : string) (page : option string) : option string :=
  page ≫= fun p => if (at_ + String.length text <=? 81)%nat then Some (overlay at_ text p) else None.

(** Draw a page of a connector, built by [page] from the connector's label. *)
Definition draw_page (s : scene) (connId : cid) (page : string -> option string) : stmt screen :=
  ret (updateConnectorType s connId) >>
  reads (fun sc =>
    match page (outputType s connId (connectorRating sc connId)) with
    | Some text => ret (set_text text ;; show_on s connId)
    | None => fun _ => Undefined
    end).

Definition labelled (s : scene) (a b c : string) (label : string) : option string :=
  put 0 label (Some (template (header s) a b c)).

(** ** Texts *)

Definition reason_text (s : scene) (connId : cid) : string :=
  let d := connector s connId in
  let f := meter_faults s connId in
  let r := stopReason d in
  let v := voltage (meterValueFault d) connId in
  let i := current (meterValueFault d) connId in
  if r =? Stop_EmergencyStop then "EMERGENCY"
  else if r =? Stop_EVDisconnected then "STOPPED BY EV"
  else if r =? Stop_HardReset then "POWER LOSS"
  else if r =? Stop_Local then "STOPPED BY USER"
  else if r =? Stop_Other then
    if sc_earthDisconnectButton s then "EARTH DISCONNECTED"
    else if sc_gfciButton s then "LEAKAGE CURRENT"
    else if MeterHighTemp f then clip 20 ("OVER TEMP-" ++ pretty (temp (meterValueFault d)) ++ "C")
    else if MeterOverVoltage f then clip 20 ("OVER VOLTAGE-" ++ fixed 1 v ++ "V")
    else if MeterUnderVoltage f then clip 20 ("UNDER VOLTAGE-" ++ fixed 1 v ++ "V")
    else if MeterOverCurrent f then clip 20 ("OVER CURRENT-" ++ fixed 1 i ++ "A")
    else "OTHER"
  else if r =? Stop_PowerLoss then "POWER LOSS"
  else if r =? Stop_Reboot then "POWER LOSS"
  else if r =? Stop_Remote then "STOPPED BY USER"
  else if r =? Stop_SoftReset then "POWER LOSS"
  else if r =? Stop_UnlockCommand then "EMERGENCY"
  else if r =? Stop_DeAuthorized then "EMERGENCY"
  else "".
Definition getReasonForStop (s : scene) (connId : cid) : cmd screen := fun sc =>
  sc <| reasonForStop := upd connId (reason_text s connId) (reasonForStop sc) |>.

(** ["%02d:%02d:%02d"] into 10 bytes; the seconds are an [int]. *)
Definition convertSecondsToTime (totalSeconds : Z) : option string :=
  let t := i32 totalSeconds in
  let text := (two_digits (Z.quot t 3600) ++ ":" ++ two_digits (Z.quot (Z.rem t 3600) 60) ++ ":" ++
               two_digits (Z.rem (Z.rem t 3600) 60))%string in
  if (String.length text <=? 9)%nat then Some text else None.

(** The text and the panel's code of the fault to show. *)
Definition fault_shown (s : scene) (connId : cid) : string * Z :=
  let f := meter_faults s connId in
  let d := meterValueFault (connector s connId) in
  if sc_emergencyButton s then ("EMERGENCY PRESSED", 2)
  else if sc_gfciButton s then ("LEAKAGE CURRENT", 4)
  else if MeterPowerLoss f then ("POWER LOSS", 3)
  else if sc_earthDisconnectButton s then ("EARTH DISCONNECTED", 1)
  else if MeterOverVoltage f then (clip 21 ("OVER VOLTAGE-" ++ fixed 1 (voltage d connId) ++ "V"), 5)
  else if MeterUnderVoltage f then (clip 21 ("UNDER VOLTAGE-" ++ fixed 1 (voltage d connId) ++ "V"), 6)
  else if MeterOverCurrent f then (clip 21 ("OVER CURRENT-" ++ fixed 1 (current d connId) ++ "A"), 7)
  else if MeterHighTemp f then (clip 21 ("OVER TEMP-" ++ pretty (temp d) ++ "C"), 8)
  else if sc_relayWeldDetectionButton s then ("RELAY WELD DETECTED", 4)
  else ("INTERNAL FAULT", 4).

(** ** Pages of a connector *)

Definition setLcdChargerReserved (s : scene) (connId : cid) : stmt screen :=
  if is_char s then draw_page s connId (labelled s "" "RESERVED" "")
  else if is_dwin s then ret (dwin_state s 1 6 0) else pass.

Definition setLcdChargerFault (s : scene) (connId : cid) : stmt screen :=
  let '(text, code) := fault_shown s connId in
  if is_char s then draw_page s connId (fun l => put 60 text (labelled s "" "FAULT:" "" l))
  else if is_dwin s then
    ret (dwin_state s (if isTransactionOngoing (connector s connId) then 3 else 1) 8 code)
  else pass.

Definition setLcdChargerEvPluggedTapRfid (s : scene) (connId : cid) : stmt screen :=
  if is_char s then draw_page s connId (labelled s "" "EV PLUGGED IN" "")
  else if is_dwin s then ret (dwin_state s 1 1 0) else pass.

Definition setLcdChargerFinishing (s : scene) (connId : cid) : stmt screen :=
  let d := connector s connId in
  if is_char s then
    ret (getReasonForStop s connId) >>
    draw_page s connId (fun l =>
      convertSecondsToTime (chargingDuration d) ≫= fun time =>
      put 60 (reason_text s connId)
        (put 52 time
          (put 42 (clip 10 (fixed 1 (fdiv (Energy d) (f_of_Z 1000))))
            (labelled s "CHARGING COMPLETE" "E:    kWh T:" "" l))))
  else if is_dwin s then
    ret (dwin_state s 4 5 0 ;; evse_energy_value (Energy d) ;; evse_update_time (chargingDuration d))
  else pass.

(** [%.1f] from 10 on, else [%.2f]. *)
Definition short (x y : b64) : string :=
  clip 10 (if fgeb x (f_of_Z 10) then fixed 1 y else fixed 2 y).

Definition charging_page (s : scene) (connId : cid) (label : string) : option string :=
  let d := connector s connId in
  let v := meterValue d in
  let thousandth x := fdiv x (f_of_Z 1000) in
  convertSecondsToTime (chargingDuration d) ≫= fun time =>
  put 74 (short (current v connId) (current v connId))
    (put 62 time
      (put 54 (clip 10 (fixed 1 (voltage v connId)))
        (put 42 (clip 10 (fixed 2 (thousandth (Energy d))))
          (put 34 (short (power v) (thousandth (power v)))
            (labelled s "CHARGING    P:    kW" "E:     kWh  V:     V" "T:          C:     A" label))))).

Definition setLcdChargerCharging (s : scene) (connId : cid) : stmt screen :=
  let d := connector s connId in
  if is_char s then draw_page s connId (charging_page s connId)
  else if is_dwin s then
    ret (dwin_state s 2 2 0 ;;
         evse_voltage_value (voltage (meterValue d) connId) ;;
         evse_current_value (current (meterValue d) connId) ;;
         evse_energy_value (Energy d) ;;
         evse_update_time (chargingDuration d))
  else pass.

Definition setLcdChargerUnAvailable (s : scene) (connId : cid) : stmt screen :=
  if is_char s then draw_page s connId (labelled s "" "UNAVAILABLE" "")
  else if is_dwin s then ret (dwin_state s 1 7 0) else pass.

(** The panel is not told. *)
Definition setLcdChargerSuspended (s : scene) (connId : cid) : stmt screen :=
  if is_char s then draw_page s connId (labelled s "" "READY TO CHARGE" "") else pass.

Definition setLcdChargerAvailable (s : scene) (connId : cid) : stmt screen :=
  if is_char s then draw_page s connId (labelled s "" "AVAILABLE" "")
  else if is_dwin s then ret (dwin_state s 1 0 0) else pass.

(** ** Pages of the charge point *)

Definition message (a b c d : string) : cmd screen := set_text (row a ++ row b ++ row c ++ row d).

(** On the panel a tapped card shows page 5 for a second. *)
Definition setLcdChargerRfidTapped (s : scene) : stmt screen :=
  if is_char s then ret (message "" "RFID TAPPED" "ATHENTICATING" "" ;; show_all s)
  else if is_dwin s then
    reads (fun sc => ret (evse_page_change 5 ;; evse_page_change (dwin sc dwin_page)))
  else pass.
Definition setLcdChargerAuthSuccessPlugEV (s : scene) : stmt screen :=
  if is_char s then ret (message "AUTHENTICATION" "SUCCESSFUL" "PLUG IN YOUR EV" "" ;; show_all s) else pass.
Definition setLcdChargerAuthSuccess (s : scene) : stmt screen :=
  if is_char s then ret (message "" "AUTHENTICATION" "SUCCESSFUL" "" ;; show_all s) else pass.
Definition setLcdChargerAuthFailed (s : scene) : stmt screen :=
  if is_char s then ret (message "" "AUTHENTICATION" "DENIED" "" ;; show_all s) else pass.
Definition setLcdChargerCommissioning (s : scene) : stmt screen :=
  if is_char s then ret (message "" "COMMISSIONING" "IN PROGRESS" "" ;; show_each s) else pass.
Definition setLcdChargerFirmwareUpdating (s : scene) : stmt screen :=
  if is_char s then
    match put 70 (clip 8 (fixed 2 (firmwareUpdateProgress s) ++ "%"))
            (Some (template (header s) "CHARGER UPDATING" "DO NOT TURN OFF" "PROGRESS:")) with
    | Some text => ret (set_text text ;; show_each s)
    | None => fun _ => Undefined
    end
  else pass.
Definition setLcdChargerInitializing (s : scene) : stmt screen :=
  if is_char s then
    ret (set_text (template (spaces 17 ++ "OFL") "" "POWERING ON" "") ;; show_all s)
  else if is_dwin s then ret (evse_page_change 0) else pass.

(** The first line of what each display shows, anew. *)
Definition setLcdNetWorkChange (s : scene) : stmt screen :=
  if is_char s then
    ret (foreach (connectors_upto (NumberOfConnectors (sc_config s))) (fun i sc =>
      (set_text (overlay 0 (outputType s i (connectorRating sc i))
                   (overlay 0 (header s) (LCDbuffer sc i))) ;;
       UpdateLcdDisplay s i) sc))
  else pass.

(** [LCD_DisplayReinit]: the text last drawn, on the displays anew. *)
Definition LCD_DisplayReinit (s : scene) : cmd screen :=
  if is_char s then
    UpdateLcdDisplay s Conn1 ;;
    (if negb (shared_display s) && (NumofDisplays (sc_config s) >? 1) then UpdateLcdDisplay s Conn2 else skip)
  else skip.

(** ** Asking for a page *)

(** Bit numbers; connector 0 has none. *)
Definition connector_bit (b : display_bit) (connId : cid) : option Z :=
  match connId with
  | Conn0 => None
  | Conn1 => Some match b with
      | ChargerAvailableBit => 1 | ChargerUnAvailableBit => 4 | ChargerChargingBit => 8
      | ChargerFinishingdBit => 13 | ChargerEvPluggedTapRfidBit => 16 | ChargerFaultBit => 19
      | ChargerReservedBit => 22 | ChargerSuspendedBit => 28 end
  | Conn2 => Some match b with
      | ChargerAvailableBit => 2 | ChargerUnAvailableBit => 5 | ChargerChargingBit => 9
      | ChargerFinishingdBit => 14 | ChargerEvPluggedTapRfidBit => 17 | ChargerFaultBit => 20
      | ChargerReservedBit => 23 | ChargerSuspendedBit => 29 end
  | Conn3 => Some match b with
      | ChargerAvailableBit => 3 | ChargerUnAvailableBit => 6 | ChargerChargingBit => 10
      | ChargerFinishingdBit => 15 | ChargerEvPluggedTapRfidBit => 31 | ChargerFaultBit => 21
      | ChargerReservedBit => 24 | ChargerSuspendedBit => 30 end
  end.
Definition CHARGER_INITIALIZING_BIT := 0.
Definition CHARGER_RFID_TAPPED_BIT := 7.
Definition CHARGER_AUTH_SUCCESS_PLUG_EV_BIT := 11.
Definition CHARGER_AUTH_FAILED_BIT := 12.
Definition CHARGER_AUTH_SUCCESS_BIT := 18.
Definition CHARGER_FIRMWARE_UPDATE_BIT := 25.
Definition CHARGER_COMMISSIONING_BIT := 26.
Definition CHARGER_NETWORKSWITCH_BIT := 27.
Definition CHARGER_ERROR_BIT := 32.

(** [xTaskNotify(LcdDisplayTask_handle, bits, eSetBits)]. *)
Definition notify (bit : option Z) : cmd task := fun t =>
  t <| notified := match bit with Some n => u32 (Z.lor (notified t) (Z.shiftl 1 n)) | None => notified t end |>
    <| pending := true |>.

Definition has_display (s : scene) : bool := is_char s || is_dwin s.

(** [SetCharger...Bit(connId)]. *)
Definition set_connector_bit (s : scene) (b : display_bit) (connId : cid) : cmd task :=
  if has_display s then
    if negb (shared_display s) then notify (connector_bit b connId)
    else fun t => t <| displayState := upd connId b (displayState t) |>
  else skip.
Definition set_charger_bit (s : scene) (n : Z) : cmd task :=
  if has_display s then notify (Some n) else skip.
Definition networkSwitchedUpdateDisplay (s : scene) : cmd task :=
  if has_display s then
    if negb (shared_display s) then notify (Some CHARGER_NETWORKSWITCH_BIT) else skip
  else skip.

Definition setLcdConnectorPageBit (s : scene) (connId : cid) : cmd task := fun t =>
  if has_display s then notify (connector_bit (displayState t connId) connId) t else t.

(** A round of [displayPageTask], which a shared display has. *)
Definition displayPageTask (s : scene) : cmd task := fun t =>
  if firmware_update s then t
  else
    let t := match cid_of_Z (pageNum t) with Some i => setLcdConnectorPageBit s i t | None => t end in
    let next := u8 (pageNum t + 1) in
    t <| pageNum := if next >? NumberOfConnectors (sc_config s) then 1 else next |>.

(** ** [LcdDisplayTask] *)

Inductive page :=
  | Initializing | Commissioning | FirmwareUpdating | RfidTapped | AuthFailed | AuthSuccessPlugEV
  | AuthSuccess | ConnectorPage (b : display_bit) (connId : cid) | Error | NetWorkChange.

#[export] Instance display_bit_eq_dec : EqDecision display_bit.
Proof. solve_decision. Defined.
#[export] Instance page_eq_dec : EqDecision page.
Proof. solve_decision. Defined.

Definition draw_connector (s : scene) (b : display_bit) : cid -> stmt screen :=
  match b with
  | ChargerFaultBit => setLcdChargerFault s
  | ChargerUnAvailableBit => setLcdChargerUnAvailable s
  | ChargerReservedBit => setLcdChargerReserved s
  | ChargerAvailableBit => setLcdChargerAvailable s
  | ChargerEvPluggedTapRfidBit => setLcdChargerEvPluggedTapRfid s
  | ChargerFinishingdBit => setLcdChargerFinishing s
  | ChargerSuspendedBit => setLcdChargerSuspended s
  | ChargerChargingBit => setLcdChargerCharging s
  end.

Definition draw (s : scene) (p : page) : stmt screen :=
  match p with
  | Initializing => setLcdChargerInitializing s
  | Commissioning => setLcdChargerCommissioning s
  | FirmwareUpdating => setLcdChargerFirmwareUpdating s
  | RfidTapped => setLcdChargerRfidTapped s
  | AuthFailed => setLcdChargerAuthFailed s
  | AuthSuccessPlugEV => setLcdChargerAuthSuccessPlugEV s
  | AuthSuccess => setLcdChargerAuthSuccess s
  | ConnectorPage b i => draw_connector s b i
  | Error => setLcdChargerUnAvailable s Conn1 >> setLcdChargerUnAvailable s Conn2 >>
             setLcdChargerUnAvailable s Conn3
  | NetWorkChange => setLcdNetWorkChange s
  end.

(** The [if] chain: bits with their pages, in order. *)
Definition three (b : display_bit) : list (Z * page) :=
  omap (fun i => (fun n => (n, ConnectorPage b i)) <$> connector_bit b i) [Conn1; Conn2; Conn3].
Definition chain : list (Z * page) :=
  [(CHARGER_INITIALIZING_BIT, Initializing); (CHARGER_COMMISSIONING_BIT, Commissioning);
   (CHARGER_FIRMWARE_UPDATE_BIT, FirmwareUpdating); (CHARGER_RFID_TAPPED_BIT, RfidTapped);
   (CHARGER_AUTH_FAILED_BIT, AuthFailed); (CHARGER_AUTH_SUCCESS_PLUG_EV_BIT, AuthSuccessPlugEV);
   (CHARGER_AUTH_SUCCESS_BIT, AuthSuccess)]
  ++ three ChargerReservedBit ++ three ChargerAvailableBit ++ three ChargerSuspendedBit
  ++ three ChargerUnAvailableBit ++ three ChargerEvPluggedTapRfidBit ++ three ChargerFinishingdBit
  ++ [(CHARGER_ERROR_BIT, Error)] ++ three ChargerChargingBit ++ three ChargerFaultBit
  ++ [(CHARGER_NETWORKSWITCH_BIT, NetWorkChange)].

Definition in_task (f : cmd task) : stmt display := ret (fun d => d <| lcd_task := f (lcd_task d) |>).
Definition in_screen (a : stmt screen) : stmt display := fun d =>
  match a (shown d) with
  | Running sc => Running (d <| shown := sc |>)
  | Restarted sc => Restarted (d <| shown := sc |>)
  | Undefined => Undefined
  end.

(** [notify_value & BIT]. *)
Definition bit_set (v : Z) (e : Z * page) : bool := negb (Z.land v (Z.shiftl 1 (fst e)) =? 0).

(** A round; with nothing to wait for the task stays where it is. *)
Definition lcd_round (s : scene) : stmt display :=
  on (fun d => negb (notify_value (lcd_task d) =? 0)) (in_task (notify None)) >>
  on (fun d => pending (lcd_task d))
    (in_task (fun t => t <| pending := false |> <| notify_value := notified t |>) >>
     reads (fun d =>
       match List.find (bit_set (notify_value (lcd_task d))) chain with
       | Some (n, p) =>
           in_task (fun t => t <| notified := Z.ldiff (notified t) (Z.shiftl 1 n) |>) >>
           in_screen (draw s p)
       | None => pass
       end)).

(** ** What the other tasks ask for ([Session.v]) *)

Definition asked (s : scene) (e : event) : cmd display := fun d =>
  match e with
  | EvDisplay i b => d <| lcd_task := set_connector_bit s b i (lcd_task d) |>
  | EvAuthDisplay ChargerRfidTappedBit =>
      d <| lcd_task := set_charger_bit s CHARGER_RFID_TAPPED_BIT (lcd_task d) |>
  | EvAuthDisplay ChargerAuthSuccessPlugEvBit =>
      d <| lcd_task := set_charger_bit s CHARGER_AUTH_SUCCESS_PLUG_EV_BIT (lcd_task d) |>
  | EvAuthDisplay ChargerAuthSuccessBit =>
      d <| lcd_task := set_charger_bit s CHARGER_AUTH_SUCCESS_BIT (lcd_task d) |>
  | EvAuthDisplay ChargerAuthFailedBit =>
      d <| lcd_task := set_charger_bit s CHARGER_AUTH_FAILED_BIT (lcd_task d) |>
  | EvLCD_DisplayReinit => d <| shown := LCD_DisplayReinit s (shown d) |>
  | _ => d
  end.
(** A trace has its latest event first. *)
Definition asked_all (s : scene) (tr : list event) : cmd display := fun d =>
  foldl (fun d e => asked s e d) d (rev tr).
