(* ===== verification/DisplaySpec.v ===== *)
(** * What the display shows

    [LcdDisplayTask] draws every page asked for, once, in the order of its
    chain, and comes to rest ([pages_drawn_once_in_order]); so on a charger of
    one connector the fault the status loop reports is what stays on the display
    ([fault_stays_on_display], against [Status.v]); and the panel's
    registers hold the values last drawn although repeated ones are not sent
    ([panel_in_step]). *)

From S2P Require Import Prelude Outcome Binary64 Text Config EnergyMeter ControlPilot Session.
From S2P Require Import SessionSpec Status StatusSpec Display.

(** ** The task *)

(** The pages a notification value asks for, in the order of the chain. *)
Definition entries_of (v : Z) : list (Z * page) := List.filter (bit_set v) chain.
Definition pages_of (v : Z) : list page := map snd (entries_of v).

Fixpoint draw_all (s : scene) (ps : list page) : stmt screen :=
  match ps with [] => pass | p :: ps => draw s p >> draw_all s ps end.

Lemma bit_set_testbit v e : 0 <= fst e -> bit_set v e = Z.testbit v (fst e).
Proof.
  intros Hn. unfold bit_set. rewrite Z.shiftl_1_l. destruct (Z.testbit v (fst e)) eqn:E.
  - apply negb_true_iff, Z.eqb_neq. intros H0%(f_equal (fun z => Z.testbit z (fst e))).
    rewrite Z.land_spec, E, Z.pow2_bits_true, Z.bits_0 in H0 by lia. done.
  - apply negb_false_iff, Z.eqb_eq. apply Z.bits_inj'. intros m Hm.
    rewrite Z.land_spec, Z.bits_0, Z.pow2_bits_eqb by lia.
    destruct (Z.eqb_spec (fst e) m) as [<-|]; [by rewrite E | apply andb_false_r].
Qed.

(** All the numbers are different, and all 32 bits have a page. *)
Lemma chain_bits : NoDup (fst <$> chain) /\ Forall (fun e => 0 <= fst e) chain.
Proof. split; [apply (bool_decide_unpack _); vm_compute; exact I | apply (bool_decide_unpack _); vm_compute; exact I]. Qed.

Lemma chain_covers n : 0 <= n < 32 -> n ∈ fst <$> chain.
Proof.
  intros Hn. assert (Hall : Forall (fun m => m ∈ fst <$> chain) (seqZ 0 32))
    by (apply (bool_decide_unpack _); vm_compute; exact I).
  rewrite Forall_forall in Hall. apply Hall, list_elem_of_In, elem_of_seqZ. lia.
Qed.

Lemma find_filter {A} (f : A -> bool) l : List.find f l = head (List.filter f l).
Proof. induction l as [|x l IH]; [done|]. cbn. by destruct (f x). Qed.

(** Clearing the first bit leaves the pages after it. *)
Lemma entries_cleared v n p l :
  entries_of v = (n, p) :: l -> entries_of (Z.ldiff v (Z.shiftl 1 n)) = l.
Proof.
  unfold entries_of. destruct chain_bits as [Hd Hp]. revert Hd Hp. generalize chain as c.
  intros c Hd Hp.
  assert (Hf : forall c, Forall (fun e => 0 <= fst e) c -> 0 <= n ->
    List.filter (bit_set (Z.ldiff v (Z.shiftl 1 n))) c =
    List.filter (fun e => negb (fst e =? n)) (List.filter (bit_set v) c)).
  { clear. intros c Hp Hn. induction Hp as [|e c He _ IH]; [done|]. cbn.
    rewrite IH, !bit_set_testbit, Z.ldiff_spec, Z.shiftl_1_l, Z.pow2_bits_eqb by done.
    rewrite (Z.eqb_sym n). destruct (Z.testbit v (fst e)); cbn; [|done].
    by destruct (fst e =? n). }
  intros Hc.
  assert (Hin : forall e, e ∈ (n, p) :: l -> e ∈ c).
  { intros e He. rewrite <-Hc in He. apply list_elem_of_In, filter_In in He as [He _].
    by apply list_elem_of_In. }
  assert (Hn : 0 <= n) by (rewrite Forall_forall in Hp; apply (Hp (n, p)), list_elem_of_In, Hin; left).
  rewrite Hf, Hc by done. cbn. rewrite Z.eqb_refl. cbn.
  assert (Hl : NoDup (fst <$> (n, p) :: l)).
  { rewrite <-Hc. clear -Hd. induction c as [|e c IH]; [constructor|].
    cbn in Hd. inversion_clear Hd as [|? ? He Hd']. cbn. destruct (bit_set v e); [|by apply IH].
    cbn. constructor; [|by apply IH]. intros Hi. apply He.
    apply list_elem_of_fmap in Hi as (e' & -> & Hi). apply list_elem_of_fmap. exists e'. split; [done|].
    apply list_elem_of_In, filter_In in Hi as [Hi _]. by apply list_elem_of_In. }
  cbn in Hl. inversion_clear Hl as [|? ? Hl' _]. clear -Hl'. rename Hl' into Hl.
  induction l as [|e l IH]; [done|]. cbn in Hl |- *. apply not_elem_of_cons in Hl as [Hne Hl].
  replace (fst e =? n) with false by (symmetry; apply Z.eqb_neq; congruence). cbn. by rewrite IH.
Qed.

Lemma entries_nil v : 0 <= v < 2 ^ 32 -> entries_of v = [] -> v = 0.
Proof.
  intros Hv Hn. apply Z.bits_inj'. intros m Hm. rewrite Z.bits_0.
  destruct (decide (m < 32)) as [Hlt|].
  - pose proof (chain_covers m ltac:(lia)) as Hin. apply list_elem_of_fmap in Hin as (e & -> & He).
    destruct (Z.testbit v (fst e)) eqn:E; [|done].
    rewrite <-bit_set_testbit in E by done.
    assert (Hin : e ∈ entries_of v) by (apply list_elem_of_In, filter_In; split; [by apply list_elem_of_In|done]).
    rewrite Hn in Hin. by apply not_elem_of_nil in Hin.
  - apply Z.bits_above_log2; [lia|]. destruct (decide (v = 0)) as [->|]; [cbn; lia|].
    apply Z.log2_lt_pow2; [lia|]. eapply Z.lt_le_trans; [apply Hv|]. apply Z.pow_le_mono_r; lia.
Qed.

(** Between rounds the task has work when it was notified or served a bit in
    the round before. *)
Definition working (t : task) : Prop := pending t = true \/ notify_value t <> 0.

(** The task once it has seen [v] and has [left] still to draw. *)
Definition seen_bits (v left : Z) (t : task) : task :=
  mkTask left false v (displayState t) (pageNum t).

Lemma lcd_round_working s d :
  working (lcd_task d) ->
  lcd_round s d =
  let v := notified (lcd_task d) in
  match entries_of v with
  | (n, p) :: _ =>
      in_screen (draw s p) (mkDisplay (shown d) (seen_bits v (Z.ldiff v (Z.shiftl 1 n)) (lcd_task d)))
  | [] => Running (mkDisplay (shown d) (seen_bits v v (lcd_task d)))
  end.
Proof.
  intros Hw. destruct d as [sc [v p nv ds pn]]. unfold working in Hw. cbn in Hw.
  unfold lcd_round, entries_of. cbv zeta.
  assert (H1 : on (fun d => negb (notify_value (lcd_task d) =? 0)) (in_task (notify None))
                 (mkDisplay sc (mkTask v p nv ds pn)) = Running (mkDisplay sc (mkTask v true nv ds pn))).
  { unfold on, test, in_task, ret. cbn. destruct (nv =? 0) eqn:E; cbn; [|done].
    apply Z.eqb_eq in E. destruct Hw as [->|]; [done | lia]. }
  unfold bind at 1. rewrite H1. unfold on at 1, test at 1. cbn [pending lcd_task].
  unfold bind at 1, in_task at 1, ret at 1, reads. cbn [lcd_task update notified notify_value].
  change (notify_value (lcd_task _)) with v. rewrite find_filter.
  destruct (List.filter (bit_set v) chain) as [|[n q] l]; reflexivity.
Qed.

Lemma ldiff_bounds v m : 0 <= v -> 0 <= Z.ldiff v m <= v.
Proof.
  intros Hv. split; [apply Z.ldiff_nonneg; by left|].
  assert (E : v - Z.land v m = Z.ldiff v m).
  { rewrite Z.sub_nocarry_ldiff; apply Z.bits_inj'; intros k Hk;
      rewrite !Z.ldiff_spec, !Z.land_spec, ?Z.bits_0; by destruct (Z.testbit v k), (Z.testbit m k). }
  assert (0 <= Z.land v m) by (apply Z.land_nonneg; by left). lia.
Qed.

Lemma rounds_draw s ps d :
  0 <= notified (lcd_task d) < 2 ^ 32 -> working (lcd_task d) ->
  pages_of (notified (lcd_task d)) = ps ->
  (forall sc, draw_all s ps (shown d) = Running sc ->
     repeat_stmt (S (length ps)) (lcd_round s) d = Running (mkDisplay sc (seen_bits 0 0 (lcd_task d)))) /\
  (draw_all s ps (shown d) = Undefined -> repeat_stmt (S (length ps)) (lcd_round s) d = Undefined).
Proof.
  revert d. induction ps as [|p ps IH]; intros d Hv Hw Hp; unfold pages_of in Hp.
  - apply map_eq_nil in Hp. pose proof (entries_nil _ Hv Hp) as H0.
    cbn [repeat_stmt length]. unfold bind. rewrite lcd_round_working by done. cbv zeta. rewrite Hp, H0.
    split; [by intros sc [= ->] | done].
  - destruct (entries_of (notified (lcd_task d))) as [|[n q] l] eqn:El; [done|].
    injection Hp as -> Hl. cbn [draw_all length]. remember (S (length ps)) as k eqn:Ek.
    cbn [repeat_stmt]. unfold bind. rewrite lcd_round_working by done. cbv zeta. rewrite El.
    pose proof (entries_cleared _ _ _ _ El) as Hc. set (v := notified (lcd_task d)) in *.
    assert (Hne : v <> 0) by (intros E0; rewrite E0 in El; vm_compute in El; discriminate El).
    assert (Hv' : 0 <= Z.ldiff v (Z.shiftl 1 n) < 2 ^ 32).
    { pose proof (ldiff_bounds v (Z.shiftl 1 n)). lia. }
    unfold in_screen. cbn [shown]. destruct (draw s p (shown d)) as [sc1|sc1|]; [|done|done].
    specialize (IH (mkDisplay sc1 (seen_bits v (Z.ldiff v (Z.shiftl 1 n)) (lcd_task d))) Hv').
    apply IH; [by right|]. unfold pages_of. cbn [lcd_task seen_bits notified]. by rewrite Hc.
Qed.

(** Claim C27.  The display task: from any notification value it draws every
    page whose bit is set exactly once, in the order of its chain, one per
    round, and after one more round waits with no bit left; it fails only when
    one of these pages leaves its buffer. *)
Theorem pages_drawn_once_in_order s d :
  0 <= notified (lcd_task d) < 2 ^ 32 -> working (lcd_task d) ->
  let ps := pages_of (notified (lcd_task d)) in
  let rounds := repeat_stmt (S (length ps)) (lcd_round s) d in
  NoDup ps /\
  (forall p, p ∈ ps <-> exists n, (n, p) ∈ chain /\ Z.testbit (notified (lcd_task d)) n = true) /\
  (forall sc, draw_all s ps (shown d) = Running sc ->
     exists d', rounds = Running d' /\ shown d' = sc /\ notified (lcd_task d') = 0 /\
       lcd_round s d' = Running d') /\
  (draw_all s ps (shown d) = Undefined -> rounds = Undefined).
Proof.
  cbv zeta. intros Hv Hw. destruct (rounds_draw s _ d Hv Hw eq_refl) as [H1 H2]. split_and!.
  - unfold pages_of, entries_of. generalize (bit_set (notified (lcd_task d))) as f. intros f.
    assert (Hd : NoDup (map snd chain)) by (apply (bool_decide_unpack _); vm_compute; exact I).
    revert Hd. generalize chain as c. intros c. induction c as [|e c IH]; [constructor|].
    intros Hd. inversion_clear Hd as [|? ? He Hd']. cbn. destruct (f e); [|by apply IH].
    cbn. constructor; [|by apply IH]. intros Hi. apply He, list_elem_of_In.
    apply list_elem_of_In, in_map_iff in Hi as (e' & <- & [Hi _]%filter_In). by apply in_map.
  - intros p. unfold pages_of, entries_of. rewrite list_elem_of_In, in_map_iff. split.
    + intros ([n q] & <- & [Hi Hb]%filter_In). exists n. apply list_elem_of_In in Hi. split; [done|].
      rewrite bit_set_testbit in Hb; [done|]. destruct chain_bits as [_ Hp].
      rewrite Forall_forall in Hp. by apply (Hp (n, q)), list_elem_of_In.
    + intros (n & Hi & Hb). exists (n, p). split; [done|]. apply filter_In.
      split; [by apply list_elem_of_In|]. rewrite bit_set_testbit; [done|].
      destruct chain_bits as [_ Hp]. rewrite Forall_forall in Hp. by apply (Hp (n, p)), list_elem_of_In.
  - intros sc Hsc. eexists. split; [by apply H1|]. split; [done|]. split; reflexivity.
  - exact H2.
Qed.

(** ** The panel *)

(** What the panel's register holds after the frames it was sent (latest
    first): the value of the latest one for it. *)
Definition frame_value (r : reg) (frame : list Z) : option Z :=
  match frame with
  | [0x5A; 0xA5; 0x05; 0x82; 0x10; lsb; hi; lo] =>
      if bool_decide (r <> dwin_page) && (lsb =? address r) then Some (hi * 256 + lo) else None
  | [0x5A; 0xA5; 0x07; 0x82; 0x00; 0x84; 0x5A; 0x01; 0x00; page_num] =>
      if bool_decide (r = dwin_page) then Some page_num else None
  | _ => None
  end.
Definition register (sc : screen) (r : reg) : option Z := head (omap (frame_value r) (uart sc)).

(** The initial values of the variables. *)
Definition unsent (r : reg) : Z :=
  match r with dwin_voltage | dwin_current | dwin_energy => 0xFFFF | _ => 0xFF end.

Definition in_step (sc : screen) : Prop := forall r,
  0 <= dwin sc r < 65536 /\ (dwin sc r = unsent r \/ register sc r = Some (dwin sc r)).

Lemma frame_value_page r v :
  frame_value r (dwin_page_cmd v) = if bool_decide (r = dwin_page) then Some v else None.
Proof. by destruct r. Qed.
Lemma frame_value_data r q v :
  q <> dwin_page -> 0 <= v < 65536 ->
  frame_value r (dwin_cmd (address q) (Z.shiftr v 8) (Z.land v 255)) =
  if bool_decide (r = q) then Some v else None.
Proof.
  intros Hq Hv. assert (E : Z.shiftr v 8 * 256 + Z.land v 255 = v).
  { rewrite Z.shiftr_div_pow2 by lia. change 255 with (Z.ones 8). rewrite Z.land_ones by lia.
    change (2 ^ 8) with 256. pose proof (Z.div_mod v 256). lia. }
  destruct q; [done| | | | | | | |]; (destruct r; cbn -[Z.shiftr Z.land Z.mul Z.add];
    rewrite ?E; reflexivity).
Qed.

Lemma register_cons sc f r :
  register (sc <| uart := f :: uart sc |>) r =
  match frame_value r f with Some v => Some v | None => register sc r end.
Proof. unfold register. cbn. by destruct (frame_value r f). Qed.

(** Once requested, a value is remembered, and shown when it was sent. *)
Lemma evse_update_spec r v sc :
  0 <= v < 65536 -> in_step sc ->
  in_step (evse_update r v sc) /\ dwin (evse_update r v sc) r = v /\
  forall q, q <> r -> dwin (evse_update r v sc) q = dwin sc q.
Proof.
  intros Hv Hs. unfold evse_update. destruct (dwin sc r =? v) eqn:E.
  - apply Z.eqb_eq in E. done.
  - cbv zeta. split_and!.
    + intros q. change (dwin (_ <| dwin := ?f |>) q) with (f q). cbv beta.
      change (register (?x <| dwin := ?f |>) q) with (register x q).
      unfold dwin_send_cmd. rewrite register_cons.
      destruct (decide (q = r)) as [->|Hq]; (split; [first [exact Hv | apply Hs]|]).
      * right. destruct r; cbv iota; [by rewrite frame_value_page | rewrite frame_value_data by done; done ..].
      * destruct (Hs q) as [_ [Hu|Hr]]; [by left | right].
        destruct r; cbv iota; [rewrite frame_value_page | rewrite frame_value_data by done ..];
          by rewrite bool_decide_false.
    + cbn. by rewrite decide_True.
    + intros q Hq. cbn. by rewrite decide_False.
Qed.

Definition remains_in_step (sc sc' : screen) : Prop := in_step sc -> in_step sc'.
#[local] Instance remains_preorder : PreOrder remains_in_step.
Proof. split; unfold remains_in_step; [by intros sc | intros a b c H1 H2 H; auto]. Qed.

Lemma evse_update_step r v : 0 <= v < 65536 -> respects remains_in_step (evse_update r v).
Proof. intros Hv sc Hs. by apply evse_update_spec. Qed.

Lemma time_step z hi lo :
  z ∈ [0x16; 0x18; 0x1A] -> respects remains_in_step (dwin_send_cmd (dwin_cmd z hi lo)).
Proof.
  intros Hz sc Hs r. destruct (Hs r) as [Hd [Hu|Hr]]; (split; [exact Hd|]); [by left | right].
  unfold dwin_send_cmd. rewrite register_cons.
  assert (Hf : frame_value r (dwin_cmd z hi lo) = None).
  { apply list_elem_of_In in Hz. cbn in Hz. destruct Hz as [<-|[<-|[<-|[]]]]; by destruct r. }
  by rewrite Hf.
Qed.

Ltac step_leaf := idtac;
  lazymatch goal with
  | |- respects remains_in_step (evse_update _ _) => apply evse_update_step; first [lia | apply u16_range | repeat case_match; lia]
  | |- respects remains_in_step (dwin_send_cmd (dwin_cmd _ _ _)) =>
      apply time_step; apply list_elem_of_In; cbn; tauto
  | |- respects remains_in_step _ => intros ? ?; assumption
  end.

Lemma dwin_state_step s page status fault :
  0 <= page < 65536 -> 0 <= status < 65536 -> 0 <= fault < 65536 ->
  respects remains_in_step (dwin_state s page status fault).
Proof.
  intros. unfold dwin_state, evse_page_change, evse_update_status, evse_update_fault,
    evse_update_4G_logo, evse_update_wifi_logo, evse_update_cloud_status.
  respects_tac step_leaf.
Qed.

(** Drawing a page. *)
Ltac page_leaf := idtac;
  lazymatch goal with
  | |- leads _ (fun _ => Undefined) => by intros ?
  | |- respects _ (dwin_state _ _ _ _) => apply dwin_state_step; lia
  | |- respects _ (seqc _ _) => respects_tac page_leaf
  | |- respects _ (foreach _ _) => respects_tac page_leaf
  | |- respects _ _ => step_leaf
  end.

Lemma draw_page_step s i a : leads remains_in_step (draw_page s i a).
Proof.
  unfold draw_page, show_on, UpdateLcdDisplay, set_text, updateConnectorType.
  leads_tac page_leaf.
Qed.

Lemma fault_code_range s i : 0 <= snd (fault_shown s i) <= 8.
Proof. unfold fault_shown. repeat case_match; cbn; lia. Qed.

Lemma connector_page_step s b i : leads remains_in_step (draw_connector s b i).
Proof.
  destruct b; cbn [draw_connector];
    unfold setLcdChargerReserved, setLcdChargerEvPluggedTapRfid, setLcdChargerFinishing,
      setLcdChargerCharging, setLcdChargerUnAvailable, setLcdChargerSuspended, setLcdChargerAvailable,
      setLcdChargerFault, getReasonForStop, evse_voltage_value, evse_current_value,
      evse_energy_value, evse_update_time; cbv zeta.
  { pose proof (fault_code_range s i). destruct (fault_shown s i) as [text code]. cbn in *.
    destruct (is_char s); [apply draw_page_step|]. destruct (is_dwin s); [|leads_tac page_leaf].
    apply leads_ret. destruct (isTransactionOngoing _); apply dwin_state_step; lia. }
  all: destruct (is_char s); [|destruct (is_dwin s)];
    leads_tac ltac:(first [apply draw_page_step | page_leaf]).
Qed.

Lemma rfid_page_step s : leads remains_in_step (setLcdChargerRfidTapped s).
Proof.
  unfold setLcdChargerRfidTapped, message, show_all, UpdateLcdDisplay, set_text.
  destruct (is_char s); [leads_tac page_leaf|]. destruct (is_dwin s); [|leads_tac page_leaf].
  intros sc Hs. apply evse_update_step; [apply Hs|]. apply evse_update_step; [lia | exact Hs].
Qed.

Lemma page_step s p : leads remains_in_step (draw s p).
Proof.
  destruct p as [| | | | | | |b i| |]; cbn [draw];
    try apply connector_page_step; try apply rfid_page_step;
    unfold setLcdChargerInitializing, setLcdChargerCommissioning, setLcdChargerFirmwareUpdating,
      setLcdChargerAuthFailed, setLcdChargerAuthSuccessPlugEV, setLcdChargerAuthSuccess,
      setLcdNetWorkChange, message, show_all, show_each, set_text, UpdateLcdDisplay, evse_page_change.
  7: { repeat (apply leads_bind; [exact _| |]); apply (connector_page_step s ChargerUnAvailableBit). }
  all: leads_tac page_leaf.
Qed.

(** At power-up nothing was sent; from there the panel keeps in step. *)
Definition blank_screen : screen :=
  mkScreen (fun _ => spaces 80) (spaces 80) (fun _ => spaces 80) (fun _ => 3) (fun _ => EmptyString)
    unsent [].

Lemma blank_in_step : in_step blank_screen.
Proof. intros r. split; [destruct r; cbn; lia | by left]. Qed.

Lemma draw_all_step s ps : leads remains_in_step (draw_all s ps).
Proof.
  induction ps as [|p ps IH]; cbn [draw_all]; [leads_tac page_leaf|].
  apply leads_bind; [exact _ | apply page_step | exact IH].
Qed.

(** ** Pages that are drawn *)

(** A session of less than a thousand hours and less than 100 kA. *)
Definition drawable (s : scene) : Prop := forall i,
  is_Some (convertSecondsToTime (chargingDuration (connector s i))) /\
  (String.length (short (current (meterValue (connector s i)) i) (current (meterValue (connector s i)) i)) <= 7)%nat.

Lemma length_short x y : (String.length (short x y) <= 9)%nat.
Proof. apply length_clip. Qed.

Lemma put_some n text page p :
  page = Some p -> (n + String.length text <= 81)%nat -> put n text page = Some (overlay n text p).
Proof. intros -> Hl. unfold put. cbn. by rewrite (proj2 (Nat.leb_le _ _) Hl). Qed.

Lemma length_outputType s i kW : (String.length (outputType s i kW) <= 20)%nat.
Proof. apply length_clip. Qed.

Lemma labelled_some s a b c l :
  (String.length l <= 20)%nat -> labelled s a b c l = Some (overlay 0 l (template (header s) a b c)).
Proof. intros Hl. apply put_some; [done | lia]. Qed.

Lemma draw_page_runs s i page sc :
  (forall l, (String.length l <= 20)%nat -> is_Some (page l)) ->
  exists sc', draw_page s i page sc = Running sc'.
Proof.
  intros Hp. unfold draw_page, bind, ret, reads.
  match goal with |- context [page ?l] => destruct (Hp l) as [t ->] end; [apply length_outputType|].
  by eexists.
Qed.

Lemma reason_length s i : (String.length (reason_text s i) <= 19)%nat.
Proof.
  unfold reason_text.
  repeat match goal with |- context [if ?b then _ else _] => destruct b end;
    first [apply length_clip | cbn; lia].
Qed.

Lemma fault_length s i : (String.length (fst (fault_shown s i)) <= 20)%nat.
Proof.
  unfold fault_shown.
  repeat match goal with |- context [if ?b then _ else _] => destruct b end;
    first [apply length_clip | cbn; lia].
Qed.

Lemma time_length t text : convertSecondsToTime t = Some text -> (String.length text <= 9)%nat.
Proof.
  unfold convertSecondsToTime. destruct (_ <=? 9)%nat eqn:E; [|done]. intros [= <-]. by apply Nat.leb_le.
Qed.

Lemma put_is_some n text page :
  is_Some page -> (n + String.length text <= 81)%nat -> is_Some (put n text page).
Proof. intros [p Hp] Hl. eexists. by apply (put_some _ _ _ p). Qed.

Lemma charging_page_some s i l :
  drawable s -> (String.length l <= 20)%nat -> is_Some (charging_page s i l).
Proof.
  intros Hd Hl. destruct (Hd i) as [[time Ht] Hc]. unfold charging_page. cbv zeta. rewrite Ht. cbn [mbind option_bind].
  pose proof (time_length _ _ Ht).
  repeat (apply put_is_some; [|first [lia | etrans; [apply Nat.add_le_mono_l; first [apply length_short | apply length_clip]|]; cbn; lia]]).
  by eexists.
Qed.

Lemma draw_runs s p sc : drawable s -> exists sc', draw s p sc = Running sc'.
Proof.
  intros Hd.
  assert (Hl : forall a b c i sc, exists sc', draw_page s i (labelled s a b c) sc = Running sc')
    by (intros; apply draw_page_runs; intros l Hl; eexists; by apply labelled_some).
  destruct p as [| | | | | | |b i| |]; cbn [draw];
    unfold setLcdChargerInitializing, setLcdChargerCommissioning, setLcdChargerRfidTapped,
      setLcdChargerAuthFailed, setLcdChargerAuthSuccessPlugEV, setLcdChargerAuthSuccess,
      setLcdNetWorkChange, setLcdChargerUnAvailable;
    try (destruct (is_char s), (is_dwin s); by eexists).
  - unfold setLcdChargerFirmwareUpdating. destruct (is_char s); [|by eexists].
    destruct (put_is_some 70 (clip 8 (fixed 2 (firmwareUpdateProgress s) ++ "%"))
      (Some (template (header s) "CHARGER UPDATING" "DO NOT TURN OFF" "PROGRESS:"))) as [t Ht];
      [by eexists | pose proof (length_clip 7 (fixed 2 (firmwareUpdateProgress s) ++ "%")); lia|].
    rewrite Ht. by eexists.
  - destruct b; cbn [draw_connector]; unfold setLcdChargerReserved, setLcdChargerEvPluggedTapRfid,
      setLcdChargerUnAvailable, setLcdChargerSuspended, setLcdChargerAvailable, setLcdChargerFault,
      setLcdChargerFinishing, setLcdChargerCharging; cbv zeta;
      try (destruct (is_char s); [apply Hl | destruct (is_dwin s); by eexists]).
    + pose proof (fault_length s i). destruct (fault_shown s i) as [text code]. cbn [fst] in *.
      destruct (is_char s); [|destruct (is_dwin s); by eexists].
      apply draw_page_runs. intros l Hll. apply put_is_some; [eexists; by apply labelled_some | lia].
    + destruct (is_char s); [|destruct (is_dwin s); by eexists].
      unfold bind at 1, ret at 1. apply draw_page_runs. intros l Hll.
      destruct (Hd i) as [[time Ht] _]. rewrite Ht. cbn [mbind option_bind]. pose proof (time_length _ _ Ht).
      pose proof (reason_length s i).
      repeat (apply put_is_some; [|first [lia | etrans; [apply Nat.add_le_mono_l, length_clip|]; cbn; lia]]).
      by eexists.
    + destruct (is_char s); [|destruct (is_dwin s); by eexists].
      apply draw_page_runs. intros l Hll. by apply charging_page_some.
  - destruct (is_char s).
    + unfold bind. destruct (Hl "" "UNAVAILABLE" "" Conn1 sc) as [sc1 ->].
      destruct (Hl "" "UNAVAILABLE" "" Conn2 sc1) as [sc2 ->]. apply Hl.
    + destruct (is_dwin s); by eexists.
Qed.

Lemma draw_all_runs s ps sc : drawable s -> exists sc', draw_all s ps sc = Running sc'.
Proof.
  intros Hd. revert sc. induction ps as [|p ps IH]; intros sc; [by eexists|].
  cbn [draw_all]. unfold bind. destruct (draw_runs s p sc Hd) as [sc1 ->]. apply IH.
Qed.

Lemma draw_all_app s ps qs sc : draw_all s (ps ++ qs) sc = (draw_all s ps >> draw_all s qs) sc.
Proof.
  revert sc. induction ps as [|p ps IH]; intros sc; [done|]. cbn [draw_all app].
  rewrite bind_assoc. unfold bind at 1 2. by destruct (draw s p sc).
Qed.

(** ** Examples *)

(** A charger with a display of a kind, on a wired network. *)
Definition scene_of (s : session) (netif : option string) (progress : b64) : scene :=
  mkScene (config (glob s)) (fun _ => cpEnable (me s)) (isWebsocketConnected (glob s)) netif
    (emergencyButton (glob s)) (gfciButton (glob s)) (earthDisconnectButton (glob s))
    (relayWeldDetectionButton (glob s)) (fun _ => MeterFaults (me s))
    (fun _ => ConnectorData (me s)) (FirmwareUpdateStarted (glob s)) progress.
Definition example_scene (kind : Z) : scene :=
  scene_of (mkSession (example_shared <| config := (config example_shared) <| displayType := kind |> |>)
              example_conn) (Some "eth"%string) (f_of_Z 0).
Definition example_display (bits : Z) : display :=
  mkDisplay blank_screen (mkTask bits true 0 (fun _ => ChargerAvailableBit) 1).

Definition text_on (i : cid) (o : outcome screen) : string :=
  match o with Running sc => LCDbuffer sc i | _ => EmptyString end.

(** An available page and a fault page asked for: the first is drawn first. *)
Lemma pages_drawn_once_in_order_witness :
  pages_of (2 ^ 19 + 2) = [ConnectorPage ChargerAvailableBit Conn1; ConnectorPage ChargerFaultBit Conn1] /\
  exists d', repeat_stmt 3 (lcd_round (example_scene DISP_CHAR)) (example_display (2 ^ 19 + 2)) = Running d' /\
    notified (lcd_task d') = 0 /\
    LCDbuffer (shown d') Conn1 =
      "C-1:7kW TYPE-2   OFL                    FAULT:              INTERNAL FAULT      "%string.
Proof.
  destruct (pages_drawn_once_in_order (example_scene DISP_CHAR) (example_display (2 ^ 19 + 2)))
    as (_ & _ & H & _); [split; done | by left|].
  split; [vm_compute; reflexivity|].
  change (shown (example_display (2 ^ 19 + 2))) with blank_screen in H.
  replace (pages_of (notified (lcd_task (example_display (2 ^ 19 + 2))))) with
    [ConnectorPage ChargerAvailableBit Conn1; ConnectorPage ChargerFaultBit Conn1] in H
    by (vm_compute; reflexivity).
  assert (Ht : text_on Conn1 (draw_all (example_scene DISP_CHAR)
    [ConnectorPage ChargerAvailableBit Conn1; ConnectorPage ChargerFaultBit Conn1] blank_screen) =
    "C-1:7kW TYPE-2   OFL                    FAULT:              INTERNAL FAULT      "%string)
    by (vm_compute; reflexivity).
  destruct (draw_all _ _ _) as [sc| |]; [|done|done].
  destruct (H sc eq_refl) as (d' & H1 & H2 & H3 & _).
  exists d'. split; [exact H1|]. split; [exact H3|]. rewrite H2. exact Ht.
Defined.

(** Claim C28.  The panel keeps in step: after drawing any pages from power-up,
    a page, status, fault, logo or measurement register whose value the
    firmware remembers as drawn, and which is not its power-up value, holds
    that value on the panel, although values that did not change were not
    sent again. *)
Theorem panel_in_step s ps sc r :
  draw_all s ps blank_screen = Running sc ->
  dwin sc r <> unsent r -> register sc r = Some (dwin sc r).
Proof.
  intros Hd Hr. pose proof (draw_all_step s ps blank_screen) as H. rewrite Hd in H.
  by destruct (H blank_in_step r) as [_ [|]].
Qed.

(** Charging, then charging again: the second page sends nothing but the
    time, yet the page register still reads 2. *)
Lemma panel_in_step_witness :
  exists sc, draw_all (example_scene DISP_DWIN)
      [ConnectorPage ChargerChargingBit Conn1; ConnectorPage ChargerChargingBit Conn1] blank_screen = Running sc /\
    length (uart sc) = 15%nat /\ register sc dwin_page = Some 2.
Proof.
  assert (E : match draw_all (example_scene DISP_DWIN)
      [ConnectorPage ChargerChargingBit Conn1; ConnectorPage ChargerChargingBit Conn1] blank_screen with
    | Running sc => length (uart sc) = 15%nat /\ dwin sc dwin_page = 2
    | _ => False end) by (vm_compute; done).
  destruct (draw_all _ _ _) as [sc| |] eqn:Hd; [|done|done]. exists sc. destruct E as [E1 E2].
  split; [done|]. split; [done|]. rewrite <-E2.
  apply (panel_in_step _ _ _ dwin_page Hd). rewrite E2. discriminate.
Defined.

(** ** The fault page *)

(** The lines of a character display, from its memory. *)
Definition lines_of (memory : string) : list string :=
  [lcd_line 0 memory; lcd_line 2 memory; lcd_line 1 memory; lcd_line 3 memory].

Definition join4 (a b c d : string) : string := (a ++ b ++ c ++ d)%string.

Lemma substring_front (a b : string) n :
  String.length a = n -> String.substring 0 n (a ++ b) = a.
Proof. intros <-. apply substring_app_l. Qed.
Lemma substring_behind (a b : string) n k m :
  String.length a = n -> String.substring (n + k) m (a ++ b) = String.substring k m b.
Proof. intros <-. apply substring_app_r. Qed.

Lemma lines_join a b c d :
  String.length a = 20%nat -> String.length b = 20%nat -> String.length c = 20%nat ->
  String.length d = 20%nat ->
  lcd_line 0 (join4 a b c d) = a /\ lcd_line 1 (join4 a b c d) = b /\
  lcd_line 2 (join4 a b c d) = c /\ lcd_line 3 (join4 a b c d) = d.
Proof.
  intros Ha Hb Hc Hd. unfold lcd_line, join4.
  change (20 * 0)%nat with 0%nat. change (20 * 1)%nat with (20 + 0)%nat.
  change (20 * 2)%nat with (20 + (20 + 0))%nat. change (20 * 3)%nat with (20 + (20 + (20 + 0)))%nat.
  rewrite !(substring_behind a), !(substring_behind b), (substring_behind c), !substring_front by done.
  split_and!; try done. rewrite <-Hd. apply substring_all.
Qed.

Lemma length_clipped m s n : (n <= m)%nat -> String.length (String.substring 0 n (s ++ spaces m)) = n.
Proof.
  revert m n. induction s as [|a s IH]; intros m n Hn.
  -
    revert n Hn. induction m as [|m IHm]; intros [|n] Hn; try done; [lia|].
    change (S (String.length (String.substring 0 n ("" ++ spaces m))) = S n). rewrite IHm; lia.
  - destruct n as [|n]; [done|].
    change (S (String.length (String.substring 0 n (s ++ spaces m))) = S n). rewrite IH; lia.
Qed.

Lemma length_row t : String.length (row t) = 20%nat.
Proof. by apply length_clipped. Qed.

Lemma length_header s : String.length (header s) = 20%nat.
Proof. unfold header, badge. by destruct (connected_to s "eth"), (connected_to s "sta"), (connected_to s "ppp"). Qed.

(** What the display of connector 1 shows of a fault. *)
Definition fault_label (s : scene) : string := outputType s Conn1 (rating s Conn1).
Definition fault_line0 (s : scene) : string := overlay 0 (fault_label s) (header s).
Definition fault_text (s : scene) : string :=
  join4 (fault_line0 s) (row "") (row "FAULT:") (row (fst (fault_shown s Conn1))).

Definition shows_fault (s : scene) (sc : screen) : Prop :=
  LCDbuffer sc Conn1 = fault_text s /\
  connectorRating sc Conn1 = rating s Conn1 /\
  lines_of (glass sc Conn1) =
    [fault_line0 s; row ""; row "FAULT:"; row (fst (fault_shown s Conn1))].

Lemma length_line0 s : String.length (fault_line0 s) = 20%nat.
Proof. unfold fault_line0. rewrite length_overlay. apply length_header. Qed.

Lemma length_join4 a b c d :
  String.length (join4 a b c d) =
  (String.length a + (String.length b + (String.length c + String.length d)))%nat.
Proof. unfold join4. by rewrite !length_app_string. Qed.

Lemma length_fault_text s : String.length (fault_text s) = 80%nat.
Proof. unfold fault_text. by rewrite length_join4, length_line0, !length_row. Qed.

(** A text of four full lines is what the display shows. *)
Lemma UpdateLcdDisplay_lines s a b c d sc :
  String.length a = 20%nat -> String.length b = 20%nat -> String.length c = 20%nat ->
  String.length d = 20%nat -> updatedbuffer sc = join4 a b c d ->
  LCDbuffer (UpdateLcdDisplay s Conn1 sc) Conn1 = join4 a b c d /\
  lines_of (glass (UpdateLcdDisplay s Conn1 sc) Conn1) = [a; b; c; d].
Proof.
  intros Ha Hb Hc Hd Ht. destruct (lines_join a b c d) as (L0 & L1 & L2 & L3); [done..|].
  destruct (lines_join a c b d) as (M0 & M1 & M2 & M3); [done..|].
  unfold UpdateLcdDisplay. cbv zeta.
  change (LCDbuffer (?x <| LCDbuffer := ?f |> <| glass := ?g |>) Conn1) with (f Conn1).
  change (glass (?x <| LCDbuffer := ?f |> <| glass := ?g |>) Conn1) with (g Conn1).
  cbn [driver]. rewrite !upd_same, Ht, L0, L1, L2, L3. split; [done|].
  change (a ++ c ++ b ++ d)%string with (join4 a c b d). unfold lines_of. by rewrite M0, M1, M2, M3.
Qed.

Lemma fault_page_text s :
  put 60 (fst (fault_shown s Conn1)) (labelled s "" "FAULT:" "" (fault_label s)) = Some (fault_text s).
Proof.
  pose proof (fault_length s Conn1) as Hf. pose proof (length_outputType s Conn1 (rating s Conn1)) as Hl.
  rewrite labelled_some by done.
  rewrite (put_some _ _ _ _ eq_refl) by lia. f_equal.
  unfold template. rewrite overlay_app_l by (by rewrite length_header).
  assert (E : forall a b c d t, String.length a = 20%nat -> String.length b = 20%nat ->
    String.length c = 20%nat -> overlay 60 t (a ++ b ++ c ++ d)%string = join4 a b c (overlay 0 t d)).
  { clear. intros a b c d t Ha Hb Hc. unfold join4.
    replace 60%nat with (String.length a + (String.length b + (String.length c + 0)))%nat by lia.
    by rewrite !overlay_app_r. }
  rewrite E by (rewrite ?length_overlay, ?length_header, ?length_row; done).
  unfold fault_text. f_equal. change (row "") with (spaces 20). unfold row.
  apply (overlay_spaces 20 20). lia.
Qed.

Lemma set_text_full text sc : String.length text = 80%nat -> updatedbuffer (set_text text sc) = text.
Proof. intros Hl. change (String.substring 0 80 text = text). rewrite <-Hl. apply substring_all. Qed.

Lemma shows_fault_drawn s sc :
  connectorRating sc Conn1 = rating s Conn1 ->
  shows_fault s ((set_text (fault_text s) ;; UpdateLcdDisplay s Conn1) sc).
Proof.
  intros Hr. unfold seqc, shows_fault.
  destruct (UpdateLcdDisplay_lines s (fault_line0 s) (row "") (row "FAULT:")
    (row (fst (fault_shown s Conn1))) (set_text (fault_text s) sc)) as [H1 H2];
    [apply length_line0 | apply length_row .. | by apply set_text_full, length_fault_text|].
  split; [exact H1|]. split; [exact Hr | exact H2].
Qed.

Lemma fault_page_drawn s sc :
  is_char s = true -> shared_display s = false ->
  exists sc', setLcdChargerFault s Conn1 sc = Running sc' /\ shows_fault s sc'.
Proof.
  intros Hc Hs. unfold setLcdChargerFault. pose proof (fault_page_text s) as Ht. revert Ht.
  destruct (fault_shown s Conn1) as [text code] eqn:Ef. cbn [fst]. intros Ht.
  rewrite Hc. unfold draw_page, bind, ret, reads, show_on. rewrite Hs.
  change (connectorRating (updateConnectorType s Conn1 sc) Conn1) with (rating s Conn1).
  unfold fault_label in Ht. rewrite Ht. eexists. split; [reflexivity|]. by apply shows_fault_drawn.
Qed.

Lemma network_change_keeps s sc :
  is_char s = true -> NumberOfConnectors (sc_config s) = 1 -> shows_fault s sc ->
  exists sc', setLcdNetWorkChange s sc = Running sc' /\ shows_fault s sc'.
Proof.
  intros Hc Hn (Ht & Hr & _). unfold setLcdNetWorkChange. rewrite Hc, Hn. eexists. split; [reflexivity|].
  change (connectors_upto 1) with [Conn1]. unfold ret.
  change (shows_fault s ((set_text (overlay 0 (outputType s Conn1 (connectorRating sc Conn1))
    (overlay 0 (header s) (LCDbuffer sc Conn1))) ;; UpdateLcdDisplay s Conn1) sc)).
  rewrite Ht, Hr.
  replace (overlay 0 (outputType s Conn1 (rating s Conn1)) (overlay 0 (header s) (fault_text s)))
    with (fault_text s); [by apply shows_fault_drawn|].
  unfold fault_text at 2, join4. pose proof (length_line0 s) as Hl0.
  rewrite (overlay_app_l (header s)) by (by rewrite Hl0, length_header).
  rewrite (overlay_whole (header s)) by (by rewrite Hl0, length_header).
  rewrite overlay_app_l by (rewrite length_header; apply length_outputType). reflexivity.
Qed.

(** The order of the chain: the faults of the connectors come last but for the
    network's page. *)
Lemma pages_end_with_fault v :
  Z.testbit v 19 = true -> Z.testbit v 20 = false -> Z.testbit v 21 = false ->
  exists pre, pages_of v = pre ++ [ConnectorPage ChargerFaultBit Conn1] ++
    (if Z.testbit v 27 then [NetWorkChange] else []).
Proof.
  intros H19 H20 H21.
  assert (E : exists c, chain = c ++ [(19, ConnectorPage ChargerFaultBit Conn1);
    (20, ConnectorPage ChargerFaultBit Conn2); (21, ConnectorPage ChargerFaultBit Conn3);
    (27, NetWorkChange)]) by (eexists (firstn 29 chain); reflexivity).
  destruct E as [c E]. exists (map snd (List.filter (bit_set v) c)).
  unfold pages_of, entries_of. rewrite E, List.filter_app, map_app. f_equal.
  cbn [List.filter]. rewrite !bit_set_testbit by done. cbn [fst]. rewrite H19, H20, H21.
  by destruct (Z.testbit v 27).
Qed.

Definition panel_shows_fault (s : scene) (sc : screen) : Prop :=
  register sc dwin_status = Some 8 /\ register sc dwin_fault = Some (snd (fault_shown s Conn1)).

Lemma dwin_state_values s page status fault sc :
  0 <= page < 65536 -> 0 <= status < 65536 -> 0 <= fault < 65536 -> in_step sc ->
  let sc' := dwin_state s page status fault sc in
  in_step sc' /\ dwin sc' dwin_status = status /\ dwin sc' dwin_fault = fault.
Proof.
  intros Hp Hs Hf H0. cbv zeta. unfold dwin_state, seqc.
  unfold evse_page_change, evse_update_status, evse_update_fault, evse_update_4G_logo,
    evse_update_wifi_logo, evse_update_cloud_status.
  destruct (evse_update_spec dwin_page page sc Hp H0) as (H1 & _ & _).
  destruct (evse_update_spec dwin_status status _ Hs H1) as (H2 & E2 & _).
  destruct (evse_update_spec dwin_fault fault _ Hf H2) as (H3 & E3 & F3).
  specialize (F3 dwin_status ltac:(done)). rewrite E2 in F3.
  set (sc3 := evse_update dwin_fault fault _) in *. clearbody sc3.
  match goal with |- context [evse_update dwin_4g ?x sc3] =>
    destruct (evse_update_spec dwin_4g x sc3 ltac:(repeat case_match; lia) H3) as (H4 & _ & F4) end.
  set (sc4 := evse_update dwin_4g _ sc3) in *. clearbody sc4.
  match goal with |- context [evse_update dwin_wifi ?x sc4] =>
    destruct (evse_update_spec dwin_wifi x sc4 ltac:(repeat case_match; lia) H4) as (H5 & _ & F5) end.
  set (sc5 := evse_update dwin_wifi _ sc4) in *. clearbody sc5.
  match goal with |- context [evse_update dwin_cloud ?x sc5] =>
    destruct (evse_update_spec dwin_cloud x sc5 ltac:(repeat case_match; lia) H5) as (H6 & _ & F6) end.
  split; [exact H6|]. rewrite !F6, !F5, !F4 by done. done.
Qed.

(** Whatever was to be drawn before it, the fault page is what remains. *)
Lemma fault_page_remains s v sc0 :
  has_display s = true -> shared_display s = false -> NumberOfConnectors (sc_config s) = 1 ->
  drawable s -> in_step sc0 ->
  Z.testbit v 19 = true -> Z.testbit v 20 = false -> Z.testbit v 21 = false ->
  exists sc, draw_all s (pages_of v) sc0 = Running sc /\
    (is_char s = true -> shows_fault s sc) /\ (is_dwin s = true -> panel_shows_fault s sc).
Proof.
  intros Hh Hs Hn Hd H0 H19 H20 H21. destruct (pages_end_with_fault v H19 H20 H21) as [pre ->].
  rewrite draw_all_app. unfold bind. destruct (draw_all_runs s pre sc0 Hd) as [sc1 E1].
  pose proof (draw_all_step s pre sc0) as Hstep. rewrite E1 in *. specialize (Hstep H0).
  cbn [draw_all app draw draw_connector]. unfold bind.
  destruct (is_char s) eqn:Hc.
  - assert (Hnd : is_dwin s = false).
    { unfold is_char, is_dwin in *. apply Z.eqb_eq in Hc. by rewrite Hc. }
    destruct (fault_page_drawn s sc1 Hc Hs) as (sc2 & E2 & H2). rewrite E2.
    destruct (Z.testbit v 27); cbn [draw_all draw].
    + unfold bind. destruct (network_change_keeps s sc2 Hc Hn H2) as (sc3 & E3 & H3). rewrite E3.
      exists sc3. rewrite Hnd. split; [done|]. split; [done | discriminate].
    + exists sc2. rewrite Hnd. split; [done|]. split; [done | discriminate].
  - unfold has_display in Hh. rewrite Hc in Hh. cbn in Hh.
    pose proof (fault_code_range s Conn1) as Hr.
    assert (E : exists sc2, setLcdChargerFault s Conn1 sc1 = Running sc2 /\ panel_shows_fault s sc2).
    { unfold setLcdChargerFault, panel_shows_fault.
      destruct (fault_shown s Conn1) as [text code]. cbn [fst snd] in *. rewrite Hc, Hh.
      eexists. split; [reflexivity|].
      match goal with |- context [dwin_state s ?p 8 code sc1] =>
        destruct (dwin_state_values s p 8 code sc1) as (Hi & Ev1 & Ev2);
          [case_match; lia | lia | lia | exact Hstep|] end.
      destruct (Hi dwin_status) as [_ [Hu|Hu]]; [rewrite Ev1 in Hu; discriminate Hu|].
      destruct (Hi dwin_fault) as [_ [Hw|Hw]]; [rewrite Ev2 in Hw; cbn in Hw; lia|].
      by rewrite Hu, Hw, Ev1, Ev2. }
    destruct E as (sc2 & E2 & H2). rewrite E2. exists sc2. rewrite Hh.
    split; [|split; [discriminate | done]].
    destruct (Z.testbit v 27); cbn [draw_all draw]; [|done].
    unfold bind, setLcdNetWorkChange. by rewrite Hc.
Qed.

(** What a page says of a fault, and the faults a page looks at. *)
Definition fault_message (s : scene) (i : cid) (f : fault) : string * Z :=
  let d := meterValueFault (connector s i) in
  match f with
  | emergency_ => ("EMERGENCY PRESSED", 2)
  | gfci_ => ("LEAKAGE CURRENT", 4)
  | MeterPowerLoss_ => ("POWER LOSS", 3)
  | earthDisconnect_ => ("EARTH DISCONNECTED", 1)
  | MeterOverVoltage_ => (clip 21 ("OVER VOLTAGE-" ++ fixed 1 (voltage d i) ++ "V"), 5)
  | MeterUnderVoltage_ => (clip 21 ("UNDER VOLTAGE-" ++ fixed 1 (voltage d i) ++ "V"), 6)
  | MeterOverCurrent_ => (clip 21 ("OVER CURRENT-" ++ fixed 1 (current d i) ++ "A"), 7)
  | MeterHighTemp_ => (clip 21 ("OVER TEMP-" ++ pretty (temp d) ++ "C"), 8)
  | relayWeldDetection_ => ("RELAY WELD DETECTED", 4)
  | MeterFailure_ => ("INTERNAL FAULT", 4)
  end.
Definition scene_fault (s : scene) (i : cid) (f : fault) : bool :=
  let m := meter_faults s i in
  match f with
  | MeterPowerLoss_ => MeterPowerLoss m
  | emergency_ => sc_emergencyButton s
  | gfci_ => sc_gfciButton s
  | earthDisconnect_ => sc_earthDisconnectButton s
  | MeterOverVoltage_ => MeterOverVoltage m
  | MeterUnderVoltage_ => MeterUnderVoltage m
  | MeterOverCurrent_ => MeterOverCurrent m
  | MeterHighTemp_ => MeterHighTemp m
  | MeterFailure_ => MeterFailure m
  | relayWeldDetection_ => sc_relayWeldDetectionButton s
  end.

Lemma fault_shown_active s i f :
  scene_fault s i f = true ->
  exists g, scene_fault s i g = true /\ fault_shown s i = fault_message s i g.
Proof.
  intros Hf. unfold fault_shown.
  destruct (sc_emergencyButton s) eqn:E1; [by exists emergency_|].
  destruct (sc_gfciButton s) eqn:E2; [by exists gfci_|].
  destruct (MeterPowerLoss (meter_faults s i)) eqn:E3; [by exists MeterPowerLoss_|].
  destruct (sc_earthDisconnectButton s) eqn:E4; [by exists earthDisconnect_|].
  destruct (MeterOverVoltage (meter_faults s i)) eqn:E5; [by exists MeterOverVoltage_|].
  destruct (MeterUnderVoltage (meter_faults s i)) eqn:E6; [by exists MeterUnderVoltage_|].
  destruct (MeterOverCurrent (meter_faults s i)) eqn:E7; [by exists MeterOverCurrent_|].
  destruct (MeterHighTemp (meter_faults s i)) eqn:E8; [by exists MeterHighTemp_|].
  destruct (sc_relayWeldDetectionButton s) eqn:E9; [by exists relayWeldDetection_|].
  exists MeterFailure_. split; [|done]. destruct f; cbn in *; congruence.
Qed.

(** The events of a faulted turn ask for the fault page alone. *)
Lemma fault_turn_asks s mf m f d :
  watched m = true -> first_fault (active (sample Conn1 mf (line m))) = Some f ->
  f <> MeterFailure_ -> is_news f m -> has_display s = true -> shared_display s = false ->
  exists tr, trace (glob (line (status_turn Conn1 mf m))) = tr ++ trace (glob (line m)) /\
    asked_all s tr d = d <| lcd_task := notify (Some 19) (lcd_task d) |>.
Proof.
  intros Hw Hf Hm Hn Hh Hs. rewrite (fault_turn_line _ _ _ f) by done.
  destruct (report_fault_spec Conn1 mf m f) as (Ht & _). cbv zeta in Ht. rewrite Ht.
  exists (EvDisplay Conn1 ChargerFaultBit :: EvSetControlPilotDuty 100 :: cut Conn1 (me (line m)) ::
    (if is_online m then [EvStatusNotification (fault_report Conn1 f m)] else [])).
  split; [done|]. unfold asked_all, cut.
  destruct (is_online m), (cpEnable (me (line m))); cbn [rev app foldl asked];
    unfold set_connector_bit; by rewrite Hh, Hs.
Qed.

Lemma notify_bits n t k :
  0 <= n < 32 -> 0 <= k < 32 ->
  Z.testbit (notified (notify (Some n) t)) k = Z.testbit (notified t) k || (n =? k).
Proof.
  intros Hn Hk. change (Z.testbit (u32 (Z.lor (notified t) (Z.shiftl 1 n))) k = Z.testbit (notified t) k || (n =? k)).
  unfold u32. change 4294967296 with (2 ^ 32). rewrite Z.mod_pow2_bits_low by lia.
  by rewrite Z.lor_spec, Z.shiftl_1_l, Z.pow2_bits_eqb by lia.
Qed.

(** Claim C7.  From a fault input to the display.  On a watched turn of a
    one-connector charger whose first active fault (the meter's failure apart)
    is news, on a display of its own, with a session whose time and current fit
    the display ([drawable]), whatever other pages were already asked for, the
    fault pages of a second and third connector (bits 20 and 21) apart, and
    whichever values the panel already holds: when the display task comes to
    rest after the turn's requests, a character display reads, on its four
    lines, the connector's label, nothing, [FAULT:] and the text of an active
    fault; a panel reads status 8 and that fault's code. *)
Theorem fault_stays_on_display s mf m f d :
  watched m = true -> first_fault (active (sample Conn1 mf (line m))) = Some f ->
  f <> MeterFailure_ -> is_news f m ->
  has_display s = true -> shared_display s = false -> NumberOfConnectors (sc_config s) = 1 ->
  drawable s -> (forall g, scene_fault s Conn1 g = active (sample Conn1 mf (line m)) g) ->
  in_step (shown d) ->
  Z.testbit (notified (lcd_task d)) 20 = false -> Z.testbit (notified (lcd_task d)) 21 = false ->
  exists tr n d' g,
    trace (glob (line (status_turn Conn1 mf m))) = tr ++ trace (glob (line m)) /\
    repeat_stmt n (lcd_round s) (asked_all s tr d) = Running d' /\
    notified (lcd_task d') = 0 /\
    active (sample Conn1 mf (line m)) g = true /\
    (is_char s = true -> lines_of (glass (shown d') Conn1) =
       [fault_line0 s; row ""; row "FAULT:"; row (fst (fault_message s Conn1 g))]) /\
    (is_dwin s = true -> register (shown d') dwin_status = Some 8 /\
       register (shown d') dwin_fault = Some (snd (fault_message s Conn1 g))).
Proof.
  intros Hw Hf Hm Hn Hh Hs H1 Hd Ha H0 H20 H21.
  destruct (fault_turn_asks s mf m f d) as (tr & Htr & Hask); [done..|].
  assert (Hact : scene_fault s Conn1 f = true).
  { rewrite Ha. unfold first_fault in Hf. by apply find_some in Hf as [_ Hf]. }
  destruct (fault_shown_active s Conn1 f Hact) as (g & Hg & Hmsg).
  set (t := notify (Some 19) (lcd_task d)) in *.
  destruct (fault_page_remains s (notified t) (shown d)) as (sc & Hsc & Hchar & Hdwin); try done;
    try (unfold t; rewrite notify_bits by lia; rewrite ?H20, ?H21; rewrite ?orb_true_r; done).
  exists tr, (S (length (pages_of (notified t)))).
  destruct (rounds_draw s (pages_of (notified t)) (d <| lcd_task := t |>)) as [Hrun _];
    [apply u32_range | left; reflexivity | reflexivity|].
  specialize (Hrun sc Hsc). eexists; exists g. rewrite Hask.
  split; [exact Htr|]. split; [exact Hrun|]. split; [done|]. split; [by rewrite <-Ha|].
  cbn [shown]. rewrite <-Hmsg. split; [intros Hc; by apply Hchar | intros Hc; by apply Hdwin].
Qed.

(** A ground fault while an available page waits: the display of the charger
    reads the leakage. *)
Definition faulted_session : session := sample Conn1 no_meter_faults (line (with_gfci (example_monitor false))).
Definition faulted_scene (kind : Z) : scene :=
  scene_of (faulted_session <| glob := (glob faulted_session)
    <| config := (config (glob faulted_session)) <| displayType := kind |> <| NumberOfConnectors := 1 |> |> |>)
    (Some "eth"%string) (f_of_Z 0).

Lemma faulted_scene_drawable kind : drawable (faulted_scene kind).
Proof.
  intros i. split; [eexists; vm_compute; reflexivity|].
  destruct i; apply (bool_decide_unpack _); vm_compute; exact I.
Qed.

Lemma fault_stays_on_display_witness :
  exists tr n d',
    trace (glob (line (status_turn Conn1 no_meter_faults (with_gfci (example_monitor false))))) = tr ++ [] /\
    repeat_stmt n (lcd_round (faulted_scene DISP_CHAR)) (asked_all (faulted_scene DISP_CHAR) tr (example_display 2)) = Running d' /\
    lines_of (glass (shown d') Conn1) =
      ["C-1:7kW TYPE-2   OFL"; "                    "; "FAULT:              "; "LEAKAGE CURRENT     "]%string.
Proof.
  destruct (fault_stays_on_display (faulted_scene DISP_CHAR) no_meter_faults (with_gfci (example_monitor false))
    gfci_ (example_display 2)) as (tr & n & d' & g & H1 & H2 & _ & Hg & H3 & _);
    try solve [reflexivity | discriminate | left; reflexivity | apply faulted_scene_drawable | apply blank_in_step].

  exists tr, n, d'. split; [exact H1|]. split; [exact H2|]. rewrite (H3 eq_refl).
  destruct g; try (vm_compute in Hg; discriminate Hg). vm_compute. reflexivity.
Defined.
