(* ===== verification/WebConfig.v ===== *)
(** * The configuration page ([main/local_http_server.c])

    At power-up the charger opens a Wi-Fi access point for two minutes, ten
    once a page was asked for, and serves a login page, the configuration form
    and the values in it.  The posted form is a JSON document of texts; every
    text given is decoded into the configuration, which is written to flash
    before the charger restarts.  A second form uploads a firmware image.

    [settings] is [config]: the words of [Config.v] and the character arrays,
    as the bytes before their first NUL.  A text longer than its array is
    [Undefined], and so is reading one that fills it, for want of a
    terminator.  Parsing is cJSON's ([Cjson.v]); its printing, the HTTP server
    and the OTA partition are parameters. *)

From Stdlib Require Import Ascii.
From S2P Require Import Prelude Outcome Binary64 Text Config Led Cjson.

(** ** State *)

(** The character arrays of [Config_t] the pages read or write. *)
Inductive field :=
  | serialNumber | chargerName | chargePointVendor | chargePointModel
  | commissionedBy | commissionedDate | simIMEINumber | webSocketURL
  | wifiSSID | wifiPassword | gsmAPN | ipAddress | gatewayAddress | dnsAddress
  | subnetMask | otaURLConfig | firmwareVersion | slavefirmwareVersion
  | adminpassword | factorypassword | servicepassword | customerpassword.
#[export] Instance field_eq_dec : EqDecision field.
Proof. solve_decision. Defined.

Definition capacity (f : field) : Z :=
  match f with
  | webSocketURL | otaURLConfig => 100
  | wifiSSID | wifiPassword | gsmAPN => 50
  | firmwareVersion | slavefirmwareVersion => 30
  | _ => 20
  end.

Record settings := mkSettings { words : Config_t; texts : field -> string }.
#[export] Instance settings_rebuild : Rebuild settings := fun s => mkSettings (words s) (texts s).

Definition ADMIN_URL := 1.
Definition FACTORY_URL := 2.
Definition SERVICE_URL := 3.
Definition CUSTOMER_URL := 4.

Inductive web_event :=
  | EvClearSendLocalList
  | EvClearLocalAuthenticatinCache
  | EvRespond (status : Z) (body : string)
  | EvLoginPage
  | EvConfigurationPage (type_locked : bool)
  | EvSlaveLed (connId : cid) (color : ledColors_t)
  | EvLed (connId : cid) (color : ledColors_t)
  | EvCommissioningPage
  | EvAccessPoint (up : bool).

Record portal := mkPortal {
  live : settings;       (* [config] *)
  flash : settings;      (* its blob in flash *)
  CurrentUrlType : Z;
  isUrlHit : bool;
  isServerStarted : bool;
  log : list web_event   (* latest first *)
}.
#[export] Instance portal_rebuild : Rebuild portal := fun p =>
  mkPortal (live p) (flash p) (CurrentUrlType p) (isUrlHit p) (isServerStarted p) (log p).

Definition note (e : web_event) : cmd portal := fun p => p <| log := e :: log p |>.

(** ** Choices *)

(** A chain of [strcmp]s, and a chain of comparisons with the values. *)
Definition select {A} (l : list (string * A)) (other : A) (v : string) : A :=
  match List.find (fun e => (fst e =? v)%string) l with Some e => snd e | None => other end.
Definition named {A} (l : list (string * A)) (other : string) (same : A -> bool) : string :=
  match List.find (fun e => same (snd e)) l with Some e => fst e | None => other end.

(** A flag of the configuration and its assignment. *)
Definition flag : Type := (Config_t -> bool) * (Config_t -> Config_t).

Definition boards : list (string * flag) :=
  [("AC1", (AC1, fun c => c <| AC1 := true |>));
   ("AC2", (AC2, fun c => c <| AC2 := true |>));
   ("VCharge1.4", (vcharge_lite_1_4, fun c => c <| vcharge_lite_1_4 := true |>));
   ("VChargeV5", (vcharge_v5, fun c => c <| vcharge_v5 := true |>))]%string.
Definition no_board (c : Config_t) : Config_t :=
  c <| AC1 := false |> <| AC2 := false |> <| vcharge_lite_1_4 := false |>
    <| vcharge_lite_1_3 := false |> <| vcharge_v5 := false |>.

Definition charger_types : list (string * flag) :=
  [("Ac3s", (Ac3s, fun c => c <| Ac3s := true |>));
   ("Ac7s", (Ac7s, fun c => c <| Ac7s := true |>));
   ("Ac11s", (Ac11s, fun c => c <| Ac11s := true |>));
   ("Ac22s", (Ac22s, fun c => c <| Ac22s := true |>));
   ("Ac44s", (Ac44s, fun c => c <| Ac44s := true |>));
   ("Ac14D", (Ac14D, fun c => c <| Ac14D := true |>));
   ("Ac10DP", (Ac10DP, fun c => c <| Ac10DP := true |>));
   ("Ac10DA", (Ac10DA, fun c => c <| Ac10DA := true |>));
   ("Ac6D", (Ac6D, fun c => c <| Ac6D := true |>));
   ("Ac10t", (Ac10t, fun c => c <| Ac10t := true |>));
   ("Ac14t", (Ac14t, fun c => c <| Ac14t := true |>));
   ("Ac18t", (Ac18t, fun c => c <| Ac18t := true |>))]%string.
Definition no_type (c : Config_t) : Config_t :=
  c <| Ac3s := false |> <| Ac7s := false |> <| Ac11s := false |> <| Ac22s := false |>
    <| Ac44s := false |> <| Ac14D := false |> <| Ac10DP := false |> <| Ac10DA := false |>
    <| Ac6D := false |> <| Ac10t := false |> <| Ac14t := false |> <| Ac18t := false |>.

(** One of the flags of a family: the others are cleared first. *)
Definition choose (l : list (string * flag)) (clear : Config_t -> Config_t) (v : string)
    (c : Config_t) : Config_t :=
  select (map (fun e => (fst e, snd (snd e))) l) id v (clear c).
Definition chosen (l : list (string * flag)) (other : string) (c : Config_t) : string :=
  named l other (fun f => fst f c).

(** The amperes of the form and the duty cycles they stand for. *)
Definition amperes : list (string * Z) :=
  [("63", 89); ("50", 83); ("40", 66); ("32", 53); ("25", 41); ("20", 33); ("16", 26); ("10", 16)]%string.

(** Types whose connectors carry at most 32 A, and at most 16 A. *)
Definition limited_to_53 (i : cid) (c : Config_t) : bool :=
  match i with
  | Conn1 => Ac7s c || Ac22s c || Ac14D c || Ac10DP c || Ac10DA c || Ac14t c || Ac18t c
  | Conn2 => Ac14D c || Ac18t c
  | _ => false
  end.
Definition limited_to_26 (i : cid) (c : Config_t) : bool :=
  match i with
  | Conn1 => Ac6D c || Ac10t c || Ac3s c || Ac11s c
  | Conn2 => Ac6D c || Ac10t c || Ac14t c || Ac10DP c || Ac10DA c
  | Conn3 => Ac10t c || Ac14t c || Ac18t c
  | _ => false
  end.
Definition set_pwm (i : cid) (v : string) (c : Config_t) : Config_t :=
  let d := select amperes 100 v in
  let d := if (d >? 53) && limited_to_53 i c then 53 else d in
  let d := if (d >? 26) && limited_to_26 i c then 26 else d in
  c <| serverSetCpDuty := upd i d (serverSetCpDuty c) |>.
Definition pwm_text (i : cid) (c : Config_t) : string :=
  named amperes "10" (Z.eqb (serverSetCpDuty c i)).

Definition display_types : list (string * Z) := [("LED", 1); ("20x4", 2); ("DWIN", 3)]%string.
Definition display_numbers : list (string * Z) := [("1", 1); ("2", 2); ("3", 3)]%string.
(** The form's priority 1 is the highest, the configuration's 3. *)
Definition priorities : list (string * Z) := [("1", 3); ("2", 2); ("3", 1)]%string.
Definition shown_priorities : list (string * Z) := [("3", 1); ("2", 2); ("1", 3)]%string.

Definition set_mode (v : string) (c : Config_t) : Config_t :=
  select
    [("onlineOffline", fun c => c <| onlineOffline := true |>);
     ("online", fun c => c <| online := true |>);
     ("offline", fun c => c <| offline := true |>)]%string
    (fun c => c <| offline := true |> <| plugnplay := true |>) v
    (c <| onlineOffline := false |> <| online := false |> <| offline := false |> <| plugnplay := false |>).
Definition mode_text (c : Config_t) : string :=
  if onlineOffline c then "onlineOffline"
  else if online c then "online"
  else if offline c && negb (plugnplay c) then "offline"
  else "plugnplay".

Definition enabled (v : string) : bool := (v =? "Enable")%string.
Definition enabled_text (b : bool) : string := if b then "Enable" else "Disable".
Definition yes (v : string) : bool := (v =? "Yes")%string.
Definition yes_text (b : bool) : string := if b then "Yes" else "No".
Definition static (v : string) : bool := (v =? "Static")%string.
Definition static_text (b : bool) : string := if b then "Static" else "Dynamic".

Definition real_or (other : b64) (v : string) : b64 := default other (scan_double v).

(** ** Writing the configuration ([Set_Config]) *)

Section Server.
Context `{CJson}.
Context (cJSON_Print : tree -> string).

(** What to do with a member of the document that is a text. *)
Definition given (n : node) (name : string) (f : string -> stmt portal) : stmt portal :=
  match text (member (Some n) name) with Some v => f v | None => pass end.

(** [setNULL(a); memcpy(a, v, strlen(v))]. *)
Definition copy_text (f : field) (v : string) : stmt portal := fun p =>
  if Z.of_nat (String.length v) <=? capacity f then
    Running (p <| live := (live p) <| texts := fun g => if decide (g = f) then v else texts (live p) g |> |>)
  else Undefined.

(** A terminated array as a C string. *)
Definition c_text (s : settings) (f : field) : option string :=
  if Z.of_nat (String.length (texts s f)) <? capacity f then Some (texts s f) else None.

Definition setw (f : Config_t -> Config_t) : stmt portal :=
  ret (fun p => p <| live := (live p) <| words := f (words (live p)) |> |>).

(** A URL that does not begin with the present one also clears the local
    lists. *)
Definition set_webSocketURL (v : string) : stmt portal :=
  reads (fun p => match c_text (live p) webSocketURL with
    | Some old =>
        if starts_with old v then pass
        else ret (note EvClearSendLocalList ;; note EvClearLocalAuthenticatinCache)
    | None => fun _ => Undefined
    end) >>
  copy_text webSocketURL v.

Definition set_identity (n : node) : stmt portal :=
  given n "serialNumber" (copy_text serialNumber) >>
  given n "chargerName" (copy_text chargerName) >>
  given n "chargePointVendor" (copy_text chargePointVendor) >>
  given n "chargePointModel" (copy_text chargePointModel) >>
  given n "boardType" (fun v => setw (choose boards no_board v)) >>
  given n "chargerType" (fun v => setw (choose charger_types no_type v)) >>
  given n "connector1PWM" (fun v => setw (set_pwm Conn1 v)) >>
  given n "connector2PWM" (fun v => setw (set_pwm Conn2 v)) >>
  given n "connector3PWM" (fun v => setw (set_pwm Conn3 v)) >>
  given n "chargerDisplayType" (fun v =>
    setw (fun c => c <| displayType := select display_types (displayType c) v |>)) >>
  given n "DisplayNum" (fun v =>
    setw (fun c => c <| NumofDisplays := select display_numbers (NumofDisplays c) v |>)) >>
  given n "commissionedBy" (copy_text commissionedBy) >>
  given n "commissionedDate" (copy_text commissionedDate).

Definition set_network (n : node) : stmt portal :=
  given n "webSocketURL" set_webSocketURL >>
  given n "wifiStatus" (fun v => setw (fun c => c <| wifiEnable := enabled v |>)) >>
  given n "wifiPriority" (fun v => setw (fun c => c <| wifiPriority := select priorities 1 v |>)) >>
  given n "wifiSSID" (copy_text wifiSSID) >>
  given n "wifiPassword" (copy_text wifiPassword) >>
  given n "gsmStatus" (fun v => setw (fun c => c <| gsmEnable := enabled v |>)) >>
  given n "gsmPriority" (fun v => setw (fun c => c <| gsmPriority := select priorities 2 v |>)) >>
  given n "gsmAPN" (copy_text gsmAPN) >>
  given n "ethernetStatus" (fun v => setw (fun c => c <| ethernetEnable := enabled v |>)) >>
  given n "ethernetPriority" (fun v => setw (fun c => c <| ethernetPriority := select priorities 3 v |>)) >>
  given n "ethernetConfig" (fun v => setw (fun c => c <| ethernetConfig := static v |>)) >>
  given n "ipAddress" (copy_text ipAddress) >>
  given n "gatewayAddress" (copy_text gatewayAddress) >>
  given n "dnsAddress" (copy_text dnsAddress) >>
  given n "subnetMask" (copy_text subnetMask).

Definition set_overCurrent (i : cid) (v : string) (c : Config_t) : Config_t :=
  c <| overCurrentThreshold := upd i (real_or (f_of_Z 20) v) (overCurrentThreshold c) |>.

Definition set_charging (n : node) : stmt portal :=
  given n "OnlineOfflineStatus" (fun v => setw (set_mode v)) >>
  given n "gfci" (fun v => setw (fun c => c <| gfci := yes v |>)) >>
  given n "lowCurrentTime" (fun v => setw (fun c => c <| lowCurrentTime := scan_short v 30 |>)) >>
  given n "minLowCurrentThreshold" (fun v =>
    setw (fun c => c <| minLowCurrentThreshold := real_or (dec 1 1) v |>)) >>
  given n "resumeSession" (fun v => setw (fun c => c <| resumeSession := yes v |>)) >>
  given n "overVoltageThreshold" (fun v =>
    setw (fun c => c <| overVoltageThreshold := real_or (f_of_Z 270) v |>)) >>
  given n "underVoltageThreshold" (fun v =>
    setw (fun c => c <| underVoltageThreshold := real_or (f_of_Z 110) v |>)) >>
  given n "con1overCurrentThreshold" (fun v => setw (set_overCurrent Conn1 v)) >>
  given n "con2overCurrentThreshold" (fun v => setw (set_overCurrent Conn2 v)) >>
  given n "con3overCurrentThreshold" (fun v => setw (set_overCurrent Conn3 v)) >>
  given n "overTemperatureThreshold" (fun v =>
    setw (fun c => c <| overTemperatureThreshold := real_or (f_of_Z 50) v |>)) >>
  given n "restoreSession" (fun v => setw (fun c => c <| restoreSession := yes v |>)) >>
  given n "sessionRestoreTime" (fun v =>
    setw (fun c => c <| sessionRestoreTime := scan_short v 120 |>)) >>
  given n "StopTransactionInSuspendedStateStatus" (fun v =>
    setw (fun c => c <| StopTransactionInSuspendedState := enabled v |>)) >>
  given n "StopTransactionInSuspendedStateTime" (fun v =>
    setw (fun c => c <| StopTransactionInSuspendedStateTime := scan_short v 120 |>)).

Definition set_services (n : node) : stmt portal :=
  given n "smartChargingStatus" (fun v => setw (fun c => c <| smartCharging := enabled v |>)) >>
  given n "batteryBackupStatus" (fun v => setw (fun c => c <| BatteryBackup := enabled v |>)) >>
  given n "diagnosticServerStatus" (fun v => setw (fun c => c <| DiagnosticServer := enabled v |>)) >>
  given n "alprDeviceStatus" (fun v => setw (fun c => c <| ALPR := enabled v |>)) >>
  given n "clearAuthCache" (fun v => setw (fun c => c <| clearAuthCache := yes v |>)) >>
  given n "factoryReset" (fun v => setw (fun c => c <| factoryReset := yes v |>)) >>
  given n "otaURLConfig" (copy_text otaURLConfig) >>
  given n "adminpassword" (copy_text adminpassword) >>
  given n "factorypassword" (copy_text factorypassword) >>
  given n "servicepassword" (copy_text servicepassword) >>
  given n "customerpassword" (copy_text customerpassword).

Definition custom_nvs_write_config : cmd portal := fun p => p <| flash := live p |>.
Definition custom_nvs_read_config : cmd portal := fun p => p <| live := flash p |>.

(** The four kinds of URL are treated alike: the argument is not used. *)
Definition Set_Config (url : Z) (buffer : string) : stmt portal :=
  match cJSON_Parse buffer with
  | Some n =>
      set_identity n >> set_network n >> set_charging n >> set_services n >>
      setw (fun c => c <| defaultConfig := true |>) >>
      ret custom_nvs_write_config
  | None => pass
  end.

(** ** Serving the values ([Get_Config]) *)

(** [sprintf] into a 16-byte array. *)
Definition sprintf16 (v : string) : option string :=
  if (String.length v <=? 15)%nat then Some v else None.

(** The members in the order they are added. *)
Definition form_identity (s : settings) : list (string * option string) :=
  let c := words s in
  [("serialNumber", c_text s serialNumber);
   ("chargerName", c_text s chargerName);
   ("chargePointVendor", c_text s chargePointVendor);
   ("chargePointModel", c_text s chargePointModel);
   ("boardType", Some (chosen boards "NOT Defined" c));
   ("chargerType", Some (chosen charger_types "Not Defined" c));
   ("connector1PWM", Some (pwm_text Conn1 c));
   ("connector2PWM", Some (pwm_text Conn2 c));
   ("connector3PWM", Some (pwm_text Conn3 c));
   ("chargerDisplayType", Some (named display_types "LED" (Z.eqb (displayType c))));
   ("DisplayNum", Some (named display_numbers "1" (Z.eqb (NumofDisplays c))));
   ("commissionedBy", c_text s commissionedBy);
   ("commissionedDate", c_text s commissionedDate);
   ("firmwareversion", c_text s firmwareVersion);
   ("slavefirmwareversion", c_text s slavefirmwareVersion)]%string.

Definition form_network (s : settings) : list (string * option string) :=
  let c := words s in
  [("webSocketURL", c_text s webSocketURL);
   ("wifiStatus", Some (enabled_text (wifiEnable c)));
   ("wifiPriority", Some (named shown_priorities "Not Defined" (Z.eqb (wifiPriority c))));
   ("wifiSSID", c_text s wifiSSID);
   ("wifiPassword", c_text s wifiPassword);
   ("gsmStatus", Some (enabled_text (gsmEnable c)));
   ("gsmPriority", Some (named shown_priorities "Not Defined" (Z.eqb (gsmPriority c))));
   ("gsmAPN", c_text s gsmAPN);
   ("simIMEINumber", c_text s simIMEINumber);
   ("ethernetStatus", Some (enabled_text (ethernetEnable c)));
   ("ethernetPriority", Some (named shown_priorities "Not Defined" (Z.eqb (ethernetPriority c))));
   ("ethernetConfig", Some (static_text (ethernetConfig c)));
   ("ipAddress", c_text s ipAddress);
   ("gatewayAddress", c_text s gatewayAddress);
   ("dnsAddress", c_text s dnsAddress);
   ("subnetMask", c_text s subnetMask)]%string.

Definition form_charging (s : settings) : list (string * option string) :=
  let c := words s in
  [("OnlineOfflineStatus", Some (mode_text c));
   ("gfci", Some (yes_text (gfci c)));
   ("lowCurrentTime", sprintf16 (pretty (lowCurrentTime c)));
   ("minLowCurrentThreshold", sprintf16 (fixed 6 (minLowCurrentThreshold c)));
   ("resumeSession", Some (yes_text (resumeSession c)));
   ("overVoltageThreshold", sprintf16 (fixed 2 (overVoltageThreshold c)));
   ("underVoltageThreshold", sprintf16 (fixed 2 (underVoltageThreshold c)));
   ("con1overCurrentThreshold", sprintf16 (fixed 2 (overCurrentThreshold c Conn1)));
   ("con2overCurrentThreshold", sprintf16 (fixed 2 (overCurrentThreshold c Conn2)));
   ("con3overCurrentThreshold", sprintf16 (fixed 2 (overCurrentThreshold c Conn3)));
   ("overTemperatureThreshold", sprintf16 (fixed 2 (overTemperatureThreshold c)));
   ("restoreSession", Some (yes_text (restoreSession c)));
   ("sessionRestoreTime", sprintf16 (pretty (sessionRestoreTime c)));
   ("StopTransactionInSuspendedStateStatus", Some (enabled_text (StopTransactionInSuspendedState c)));
   ("StopTransactionInSuspendedStateTime", sprintf16 (pretty (StopTransactionInSuspendedStateTime c)))]%string.

Definition form_services (s : settings) : list (string * option string) :=
  let c := words s in
  [("smartChargingStatus", Some (enabled_text (smartCharging c)));
   ("batteryBackupStatus", Some (enabled_text (BatteryBackup c)));
   ("diagnosticServerStatus", Some (enabled_text (DiagnosticServer c)));
   ("alprDeviceStatus", Some (enabled_text (ALPR c)));
   ("clearAuthCache", Some (yes_text (clearAuthCache c)));
   ("factoryReset", Some (yes_text (factoryReset c)));
   ("otaURLConfig", c_text s otaURLConfig);
   ("localListTags", Some "NULL");
   ("adminpassword", c_text s adminpassword);
   ("factorypassword", c_text s factorypassword);
   ("servicepassword", c_text s servicepassword);
   ("customerpassword", c_text s customerpassword)]%string.

Definition form (s : settings) : option (list (string * string)) :=
  mapM (fun e => pair (fst e) <$> snd e)
    (form_identity s ++ form_network s ++ form_charging s ++ form_services s).

(** [buffer] after [Get_Config]. *)
Definition Get_Config (url : Z) (s : settings) : option string :=
  form s ≫= fun l =>
  let printed := cJSON_Print (Obj (map (fun e => (fst e, Str (snd e))) l)) in
  if (String.length printed <? 2048)%nat then Some printed else None.

(** ** The requests *)

Definition respond (status : Z) (body : string) : stmt portal := ret (note (EvRespond status body)).

(** [body] is what [httpd_req_recv] puts into the 2048 bytes. *)
Definition received_body (body : string) (k : stmt portal) : stmt portal :=
  if (String.length body <? 2048)%nat then k else fun _ => Undefined.

Definition esp_restart : stmt portal := Restarted.

Definition on_set_config_url (body : string) : stmt portal :=
  received_body body
    (reads (fun p => Set_Config (CurrentUrlType p) body) >> respond 204 "" >> esp_restart).

Definition on_get_config_url : stmt portal :=
  ret custom_nvs_read_config >>
  reads (fun p => match Get_Config (CurrentUrlType p) (live p) with
    | Some buffer => respond 200 buffer
    | None => fun _ => Undefined
    end).

Definition on_GetFirmwareVersion_url : stmt portal :=
  ret custom_nvs_read_config >>
  reads (fun p => match c_text (live p) firmwareVersion with
    | Some v =>
        let printed := cJSON_Print (Obj [("firmwareversion", Str v)]%string) in
        if (String.length printed <? 2048)%nat then respond 200 printed else fun _ => Undefined
    | None => fun _ => Undefined
    end).

(** [Url_Config]: the form, where the board, the type and the displays of a
    charger with a name of its own cannot be selected. *)
Definition Url_Config (url : Z) : stmt portal :=
  reads (fun p => match c_text (live p) chargerName with
    | Some name => ret (note (EvConfigurationPage (negb (starts_with name "Amplify"))))
    | None => fun _ => Undefined
    end).
Definition on_configuration_url : stmt portal :=
  ret (fun p => p <| isUrlHit := true |>) >>
  reads (fun p => Url_Config (CurrentUrlType p)) >>
  ret (fun p => p <| CurrentUrlType := 0 |>).

Definition accounts : list (string * field * Z) :=
  [("Admin", adminpassword, ADMIN_URL); ("Factory", factorypassword, FACTORY_URL);
   ("Service", servicepassword, SERVICE_URL); ("Customer", customerpassword, CUSTOMER_URL)]%string.

Definition quoted (s : string) : string := String (ascii_of_nat 34) (s ++ String (ascii_of_nat 34) EmptyString).
Definition message_json (m : string) : string := "{ " ++ quoted "message" ++ " : " ++ quoted m ++ " }".

(** [memcmp(text, known, strlen(known)) == 0]: a shorter text differs at its
    terminator. *)
Fixpoint login (l : list (string * field * Z)) (username password : string) : stmt portal :=
  match l with
  | (name, f, url) :: l =>
      if starts_with name username then
        reads (fun p => match c_text (live p) f with
          | Some known =>
              if starts_with known password then
                ret (fun p => p <| CurrentUrlType := url |>) >>
                respond 200 (message_json "Valid password")
              else login l username password
          | None => fun _ => Undefined
          end)
      else login l username password
  | [] => respond 400 (message_json "Invalid password")
  end.

Definition on_login_Auth_url (body : string) : stmt portal :=
  received_body body
    match cJSON_Parse body with
    | Some n =>
        match text (member (Some n) "username"), text (member (Some n) "password") with
        | Some username, Some password => login accounts username password
        | _, _ => respond 400 (message_json "Invalid password")
        end
    | None => respond 400 (message_json "Invalid password")
    end.

Definition STATION_CONNECTED_LED := BLINK_WHITE.
Definition STATION_CONFIG_LED := SOLID_WHITE.

(** A colour on every connector's LED, through the slave board or the strip. *)
Definition show_colour (by_slave : Config_t -> bool) (color : ledColors_t) : cmd portal :=
  withs (fun p => let c := words (live p) in
    foreach (connectors_upto (NumberOfConnectors c)) (fun i =>
      note (if by_slave c then EvSlaveLed i color else EvLed i color))).

Definition on_login_url : cmd portal :=
  note EvLoginPage ;;
  (fun p => p <| isUrlHit := true |>) ;;
  show_colour vcharge_lite_1_4 STATION_CONFIG_LED.

Definition local_http_server_start : cmd portal := fun p =>
  if isServerStarted p then p else p <| isServerStarted := true |>.
Definition local_http_server_stop : cmd portal := fun p =>
  if isServerStarted p then p <| isServerStarted := false |> else p.
End Server.

(** ** The commissioning window ([StartServerOnPowerOn])

    The window sees the other tasks once a second: [joined k] is the [k]th
    reading of [isStationConnected()] and [requests k] the requests served in
    the [k]th second of the open server. *)

Section Window.
Context (joined : nat -> bool) (requests : nat -> stmt portal) (answers : nat -> option bool).

(** Readings taken, the last of them, and the seconds passed. *)
Fixpoint wait_for_station (fuel : nat) (k : nat) (timer : Z) : nat * Z :=
  match fuel with
  | O => (k, timer)
  | S fuel =>
      if timer <? 120 then
        if joined k then (S k, timer) else wait_for_station fuel (S k) (timer + 1)
      else (k, timer)
  end.

Fixpoint serve (fuel : nat) (k : nat) (timer expiryTime : Z) (p : portal) : outcome (Z * portal) :=
  match fuel with
  | O => Undefined
  | S fuel =>
      if timer <? expiryTime then
        let expiryTime := if isUrlHit p then 600 else expiryTime in
        match requests k p with
        | Running p => serve fuel (S k) (timer + 1) expiryTime p
        | Restarted p => Restarted (timer, p)
        | Undefined => Undefined
        end
      else Running (timer, p)
  end.

(** [wifiStartPowerOn]: on a charger that was configured before, only while
    the emergency button is pressed; the slave board is asked for it up to ten
    times, [answers] being its replies. *)
Fixpoint ask_button (fuel : nat) (k : nat) (button : bool) : bool :=
  match fuel with
  | O => button
  | S fuel => match answers k with Some b => b | None => ask_button fuel (S k) button end
  end.
Definition wifiStartPowerOn (emergencyButton : bool) (c : Config_t) : bool :=
  if negb (defaultConfig c) then true
  else if vcharge_lite_1_4 c then ask_button 10 0 emergencyButton
  else emergencyButton.

Definition by_slave (c : Config_t) : bool := vcharge_lite_1_4 c || AC2 c.

(** With the seconds the window took. *)
Definition StartServerOnPowerOn (emergencyButton : bool) (p : portal) : outcome (Z * portal) :=
  let p := show_colour by_slave POWERON_LED p in
  if wifiStartPowerOn emergencyButton (words (live p)) then
    let p := (note (EvAccessPoint true) ;; show_colour by_slave COMMISSIONING_LED) p in
    let '(k, timer) := wait_for_station 121 0 0 in
    if joined k then
      let p := (show_colour by_slave STATION_CONNECTED_LED ;; note EvCommissioningPage ;; local_http_server_start) p in
      match serve 601 0 timer 120 p with
      | Running (timer, p) => Running (timer, (local_http_server_stop ;; note (EvAccessPoint false)) p)
      | o => o
      end
    else Running (timer, note (EvAccessPoint false) p)
  else Running (0, p).
End Window.

(** ** Uploading firmware ([on_UpdateFirmware_url]) *)

(** What a call of [httpd_req_recv] on the 1024 bytes gives; the empty chunk
    is the end of the data. *)
Inductive received := Chunk (bytes : string) | HTTPD_SOCK_ERR_TIMEOUT | RecvError.

Inductive update_result :=
  | ESP_FAIL (written : string)
  | Rebooted (written : string) (new_image : bool)
  | UndefinedBehaviour.

Section Update.
(** [esp_ota_begin], [esp_ota_write] after what was written, [esp_ota_end],
    which validates the image, and [esp_ota_set_boot_partition]. *)
Context (ota_begin : bool) (ota_write : string -> string -> bool) (ota_end : string -> bool)
  (ota_set_boot_partition : bool).

Definition crlf2 : string :=
  String (ascii_of_nat 13) (String (ascii_of_nat 10) (String (ascii_of_nat 13) (String (ascii_of_nat 10) EmptyString))).

(** The text up to the first NUL, where [strstr] stops. *)
Fixpoint c_string (s : string) : string :=
  match s with
  | String a s => if Ascii.eqb a Ascii.zero then EmptyString else String a (c_string s)
  | EmptyString => EmptyString
  end.

(** What follows the part's header, [strstr(otaBuffer, "\r\n\r\n") + 4]. *)
Definition body_part (bytes : string) : option string :=
  (fun k => String.substring (k + 4) (String.length bytes - (k + 4)) bytes) <$>
  String.index 0 crlf2 (c_string bytes).

(** After the loop; [begun] when the first chunk was written. *)
Definition finish (begun : bool) (written : string) : update_result :=
  if begun && ota_end written then Rebooted written ota_set_boot_partition else ESP_FAIL written.

(** The rounds from a state on; the connection gives no more after [rs]. A
    timeout goes to the loop's condition, which a negative length ends. *)
Fixpoint upload (contentLength : nat) (rs : list received) (begun : bool) (count : nat)
    (written : string) : update_result :=
  match rs with
  | [] =>
      if begun then
        if ota_write written "" then finish begun written else ESP_FAIL written
      else UndefinedBehaviour
  | HTTPD_SOCK_ERR_TIMEOUT :: _ => finish begun written
  | RecvError :: _ => ESP_FAIL written
  | Chunk bytes :: rs =>
      let body := if begun then Some bytes else body_part bytes in
      match body with
      | None => UndefinedBehaviour
      | Some body =>
          if negb begun && negb ota_begin then ESP_FAIL written
          else if ota_write written body then
            let written := (written ++ body)%string in
            let count := (count + String.length body)%nat in
            if (0 <? String.length bytes)%nat && (count <? contentLength)%nat
            then upload contentLength rs true count written
            else finish true written
          else ESP_FAIL written
      end
  end.

Definition on_UpdateFirmware_url (content_len : nat) (rs : list received) : update_result :=
  upload content_len rs false 0 "".
End Update.
