(* ===== verification/WebConfigSpec.v ===== *)
(** * What the configuration page does

    Saving the form as it is served changes nothing
    ([config_page_roundtrip]) for a configuration the form can show; a posted
    current respects the charger's type ([posted_current_within_rating]) but
    does not survive the restart ([posted_current_lost_at_restart]); posting
    needs no login ([anyone_becomes_admin]); the window of the access point is
    bounded ([commissioning_window_bounded]); and an upload writes the body it
    received, up to the first timeout ([upload_writes_body]). *)

From Stdlib Require Import Ascii FunctionalExtensionality.
From S2P Require Import Prelude Outcome Binary64 Text Config Led Cjson WebConfig.

(** ** Saving what was served *)

(** A configuration the form can show. *)
Definition within_rating (i : cid) (c : Config_t) : Prop :=
  (limited_to_53 i c = true -> serverSetCpDuty c i <= 53) /\
  (limited_to_26 i c = true -> serverSetCpDuty c i <= 26).

Definition carried (p : nat) (x : b64) : Prop :=
  scan_double (fixed p x) = Some x /\ (String.length (fixed p x) <= 15)%nat.

Record presentable (s : settings) : Prop := {
  pr_texts f : Z.of_nat (String.length (texts s f)) < capacity f;
  pr_board : exists e, e ∈ boards /\ words s = snd (snd e) (no_board (words s));
  pr_type : exists e, e ∈ charger_types /\ words s = snd (snd e) (no_type (words s));
  pr_duty i : i <> Conn0 -> serverSetCpDuty (words s) i ∈ map snd amperes /\ within_rating i (words s);
  pr_display : displayType (words s) ∈ [1; 2; 3] /\ NumofDisplays (words s) ∈ [1; 2; 3];
  pr_priorities : wifiPriority (words s) ∈ [1; 2; 3] /\ gsmPriority (words s) ∈ [1; 2; 3] /\
    ethernetPriority (words s) ∈ [1; 2; 3];
  pr_mode : exists v, v ∈ ["onlineOffline"; "online"; "offline"; "plugnplay"]%string /\
    words s = set_mode v (words s);
  pr_times : 0 <= lowCurrentTime (words s) < 65536 /\ 0 <= sessionRestoreTime (words s) < 65536 /\
    0 <= StopTransactionInSuspendedStateTime (words s) < 65536;
  pr_low : carried 6 (minLowCurrentThreshold (words s));
  pr_limits : carried 2 (overVoltageThreshold (words s)) /\ carried 2 (underVoltageThreshold (words s)) /\
    carried 2 (overTemperatureThreshold (words s));
  pr_current i : i <> Conn0 -> carried 2 (overCurrentThreshold (words s) i)
}.

Section Page.
Context `{CJson}.

Lemma given_some n k v f p : text (member (Some n) k) = Some v -> given n k f p = f v p.
Proof. intros E. unfold given. by rewrite E. Qed.

Lemma setw_same g p : g (words (live p)) = words (live p) -> setw g p = Running p.
Proof. intros E. destruct p as [[w t] fl u h st l]. unfold setw, ret. cbn in *. by rewrite E. Qed.

Lemma copy_text_same f p :
  Z.of_nat (String.length (texts (live p) f)) < capacity f ->
  copy_text f (texts (live p) f) p = Running p.
Proof.
  intros Hl. unfold copy_text. rewrite (proj2 (Z.leb_le _ _)) by lia. f_equal.
  assert (E : (fun g => if decide (g = f) then texts (live p) f else texts (live p) g) = texts (live p)).
  { apply functional_extensionality. intros g. by destruct (decide (g = f)) as [->|]. }
  rewrite E. by destruct p as [[w t] fl u h st l].
Qed.

Lemma c_text_some s f : Z.of_nat (String.length (texts s f)) < capacity f -> c_text s f = Some (texts s f).
Proof. intros Hl. unfold c_text. by rewrite (proj2 (Z.ltb_lt _ _) Hl). Qed.

Lemma upd_id {A} i (f : cid -> A) : upd i (f i) f = f.
Proof.
  apply functional_extensionality. intros j. destruct (decide (j = i)) as [->|Hj];
    [apply upd_same | by apply upd_other].
Qed.

Lemma set_pwm_shown i c :
  serverSetCpDuty c i ∈ map snd amperes -> within_rating i c -> set_pwm i (pwm_text i c) c = c.
Proof.
  intros Hd [H53 H26]. unfold set_pwm.
  assert (E : select amperes 100 (pwm_text i c) = serverSetCpDuty c i).
  { unfold pwm_text. apply list_elem_of_In in Hd. cbn in Hd. by repeat destruct Hd as [<-|Hd]. }
  rewrite E. cbv zeta.
  assert (E1 : (if (serverSetCpDuty c i >? 53) && limited_to_53 i c then 53 else serverSetCpDuty c i)
    = serverSetCpDuty c i).
  { destruct (limited_to_53 i c); [|by rewrite andb_false_r].
    specialize (H53 eq_refl). by replace (serverSetCpDuty c i >? 53) with false by lia. }
  rewrite E1.
  assert (E2 : (if (serverSetCpDuty c i >? 26) && limited_to_26 i c then 26 else serverSetCpDuty c i)
    = serverSetCpDuty c i).
  { destruct (limited_to_26 i c); [|by rewrite andb_false_r].
    specialize (H26 eq_refl). by replace (serverSetCpDuty c i >? 26) with false by lia. }
  rewrite E2, upd_id. by destruct c.
Qed.

Lemma find_key {A} (l : list (string * A)) k v :
  NoDup (map fst l) -> (k, v) ∈ l -> List.find (fun e => (fst e =? k)%string) l = Some (k, v).
Proof.
  induction l as [|[k' v'] l IH]; intros Hd He; [by apply not_elem_of_nil in He|].
  cbn in Hd |- *. inversion_clear Hd as [|? ? Hx Hd']. apply elem_of_cons in He as [[= <- <-]|He].
  - by rewrite String.eqb_refl.
  - destruct (String.eqb_spec k' k) as [->|]; [|by apply IH].
    exfalso. apply Hx. apply list_elem_of_In. change k with (fst (k, v)). apply in_map.
    by apply list_elem_of_In.
Qed.

Lemma choose_chosen l clear other c n (g : Config_t -> bool) set :
  NoDup (map fst l) -> (n, (g, set)) ∈ l -> c = set (clear c) ->
  chosen l other c = n -> choose l clear (chosen l other c) c = c.
Proof.
  intros Hd He Hc Hn. rewrite Hn. unfold choose, select.
  rewrite (find_key _ n set); [by symmetry | |].
  - rewrite map_map. exact Hd.
  - apply list_elem_of_In. apply list_elem_of_In in He.
    apply (in_map (fun e : string * flag => (fst e, snd (snd e)))) in He. exact He.
Qed.

Lemma board_shown c : (exists e, e ∈ boards /\ c = snd (snd e) (no_board c)) ->
  choose boards no_board (chosen boards "NOT Defined" c) c = c.
Proof.
  intros ([n [g set]] & He & Hc). apply (choose_chosen _ _ _ _ n g set); try done.
  - apply (bool_decide_unpack _). vm_compute. exact I.
  - apply list_elem_of_In in He. cbn in He.
    repeat destruct He as [He|He]; try done; injection He as <- <- <-; rewrite Hc; reflexivity.
Qed.

Lemma type_shown c : (exists e, e ∈ charger_types /\ c = snd (snd e) (no_type c)) ->
  choose charger_types no_type (chosen charger_types "Not Defined" c) c = c.
Proof.
  intros ([n [g set]] & He & Hc). apply (choose_chosen _ _ _ _ n g set); try done.
  - apply (bool_decide_unpack _). vm_compute. exact I.
  - apply list_elem_of_In in He. cbn in He.
    repeat destruct He as [He|He]; try done; injection He as <- <- <-; rewrite Hc; reflexivity.
Qed.

Lemma mode_shown c : (exists v, v ∈ ["onlineOffline"; "online"; "offline"; "plugnplay"]%string /\
  c = set_mode v c) -> set_mode (mode_text c) c = c.
Proof.
  intros (v & Hv & Hc). assert (E : mode_text c = v).
  { rewrite Hc. apply list_elem_of_In in Hv. cbn in Hv. by repeat destruct Hv as [<-|Hv]. }
  rewrite E. by symmetry.
Qed.
(** The choices of the form, read back. *)
Ltac choices := intros Hx; apply list_elem_of_In in Hx; cbn in Hx; by repeat destruct Hx as [<-|Hx].
Lemma display_shown x other : x ∈ [1; 2; 3] -> select display_types other (named display_types "LED" (Z.eqb x)) = x.
Proof. choices. Qed.
Lemma displays_shown x other : x ∈ [1; 2; 3] -> select display_numbers other (named display_numbers "1" (Z.eqb x)) = x.
Proof. choices. Qed.
Lemma priority_shown x other :
  x ∈ [1; 2; 3] -> select priorities other (named shown_priorities "Not Defined" (Z.eqb x)) = x.
Proof. choices. Qed.

(** The document gives back every value of the form. *)
Definition posts_back (n : node) (s : settings) : Prop := forall k v,
  (k, Some v) ∈ form_identity s ++ form_network s ++ form_charging s ++ form_services s ->
  text (member (Some n) k) = Some v.

Lemma bind_same (a b : stmt portal) p : a p = Running p -> (a >> b) p = b p.
Proof. intros E. unfold bind. by rewrite E. Qed.

Lemma given_same n k v f p :
  text (member (Some n) k) = Some v -> f v p = Running p -> given n k f p = Running p.
Proof. intros E1 E2. by rewrite (given_some _ _ _ _ _ E1). Qed.

Lemma given_text n k f p :
  Z.of_nat (String.length (texts (live p) f)) < capacity f ->
  (forall v, c_text (live p) f = Some v -> text (member (Some n) k) = Some v) ->
  given n k (copy_text f) p = Running p.
Proof.
  intros Hl Ht. apply (given_same _ _ (texts (live p) f)); [apply Ht; by apply c_text_some|].
  by apply copy_text_same.
Qed.

Lemma given_word n k v (g : string -> Config_t -> Config_t) p :
  text (member (Some n) k) = Some v -> g v (words (live p)) = words (live p) ->
  given n k (fun v => setw (g v)) p = Running p.
Proof. intros E1 E2. apply (given_same _ _ v); [done|]. by apply setw_same. Qed.

Ltac in_form :=
  unfold form_identity, form_network, form_charging, form_services; cbv zeta; cbn [app];
  repeat first [constructor 1 | constructor 2].

Lemma starts_with_self s : starts_with s s = true.
Proof. unfold starts_with. induction s as [|a s IH]; [done|]. cbn. destruct (Ascii.ascii_dec a a); [exact IH | done]. Qed.

Section Saving.
Context (n : node) (p : portal) (Hp : presentable (live p)) (Hn : posts_back n (live p)).

Lemma text_given f k :
  (k, c_text (live p) f) ∈ form_identity (live p) ++ form_network (live p) ++
    form_charging (live p) ++ form_services (live p) ->
  given n k (copy_text f) p = Running p.
Proof.
  intros Hk. apply given_text; [apply Hp|]. intros v Hv. apply Hn. by rewrite <-Hv.
Qed.

(** One member: a text, or a word by [leaf]; the last member has no sequel. *)
Ltac text_member := first [rewrite bind_same; [|by apply text_given; in_form] | by apply text_given; in_form].
Ltac word_with leaf := eapply given_word; [apply Hn; in_form | leaf].
Ltac word_member leaf := first [rewrite bind_same; [|solve [word_with leaf]] | solve [word_with leaf]].

(** A word whose decoding gives its value back. *)
Ltac kept E := cbv beta; rewrite E; by destruct (words (live p)).

Lemma enabled_shown b : enabled (enabled_text b) = b. Proof. by destruct b. Qed.
Lemma yes_shown b : yes (yes_text b) = b. Proof. by destruct b. Qed.
Lemma static_shown b : static (static_text b) = b. Proof. by destruct b. Qed.
Lemma real_shown k x other : carried k x -> real_or other (fixed k x) = x.
Proof. intros [E _]. unfold real_or. by rewrite E. Qed.
Lemma sprintf_short v : (String.length v <= 15)%nat -> sprintf16 v = Some v.
Proof. intros Hl. unfold sprintf16. by rewrite (proj2 (Nat.leb_le _ _) Hl). Qed.

Lemma identity_same : set_identity n p = Running p.
Proof.
  unfold set_identity. destruct (pr_display _ Hp) as [Hd1 Hd2].
  do 4 text_member.
  word_member ltac:(apply board_shown, pr_board, Hp).
  word_member ltac:(apply type_shown, pr_type, Hp).
  do 3 word_member ltac:(apply set_pwm_shown; apply (pr_duty _ Hp); done).
  word_member ltac:(kept (display_shown _ (displayType (words (live p))) Hd1)).
  word_member ltac:(kept (displays_shown _ (NumofDisplays (words (live p))) Hd2)).
  do 2 text_member.
Qed.

Lemma url_same : given n "webSocketURL" set_webSocketURL p = Running p.
Proof.
  pose proof (pr_texts _ Hp webSocketURL) as Hl.
  apply (given_same _ _ (texts (live p) webSocketURL)).
  - apply Hn. rewrite <-c_text_some by done. in_form.
  - unfold set_webSocketURL, bind, reads. rewrite c_text_some by done.
    rewrite starts_with_self. by apply copy_text_same.
Qed.

Lemma network_same : set_network n p = Running p.
Proof.
  unfold set_network. destruct (pr_priorities _ Hp) as (H1 & H2 & H3).
  rewrite (bind_same _ _ _ url_same).
  word_member ltac:(kept (enabled_shown (wifiEnable (words (live p))))).
  word_member ltac:(kept (priority_shown _ 1 H1)).
  do 2 text_member.
  word_member ltac:(kept (enabled_shown (gsmEnable (words (live p))))).
  word_member ltac:(kept (priority_shown _ 2 H2)).
  text_member.
  word_member ltac:(kept (enabled_shown (ethernetEnable (words (live p))))).
  word_member ltac:(kept (priority_shown _ 3 H3)).
  word_member ltac:(kept (static_shown (ethernetConfig (words (live p))))).
  do 4 text_member.
Qed.

Ltac current_kept E :=
  cbv beta; unfold set_overCurrent; rewrite E, upd_id; by destruct (words (live p)).

Ltac printed E Hn' leaf :=
  first [rewrite bind_same; [|eapply given_word; [eapply Hn'; [exact E | in_form] | solve [leaf]]]
        | eapply given_word; [eapply Hn'; [exact E | in_form] | solve [leaf]]].

Lemma charging_same : set_charging n p = Running p.
Proof.
  unfold set_charging. destruct (pr_times _ Hp) as (H1 & H2 & H3). destruct (pr_limits _ Hp) as (L1 & L2 & L3).
  pose proof (fun i Hi => pr_current _ Hp i Hi) as Hc.
  assert (Hs : forall x, 0 <= x < 65536 -> sprintf16 (pretty x) = Some (pretty x)).
  { intros x Hx. apply sprintf_short. destruct (decide (x = 0)) as [->|]; [cbn; lia|].
    etrans; [apply (length_pretty 5); cbn; lia | lia]. }
  assert (Hr : forall k x, carried k x -> sprintf16 (fixed k x) = Some (fixed k x))
    by (intros k x [_ Hx]; by apply sprintf_short).
  assert (Hn' : forall k o v, o = Some v ->
    (k, o) ∈ form_identity (live p) ++ form_network (live p) ++ form_charging (live p) ++ form_services (live p) ->
    text (member (Some n) k) = Some v) by (intros k o v ->; apply Hn).
  word_member ltac:(apply mode_shown, pr_mode, Hp).
  word_member ltac:(kept (yes_shown (gfci (words (live p))))).
  printed (Hs _ H1) Hn' ltac:(kept (scan_short_pretty _ 30 H1)).
  printed (Hr _ _ (pr_low _ Hp)) Hn' ltac:(kept (real_shown _ _ (dec 1 1) (pr_low _ Hp))).
  word_member ltac:(kept (yes_shown (resumeSession (words (live p))))).
  printed (Hr _ _ L1) Hn' ltac:(kept (real_shown _ _ (f_of_Z 270) L1)).
  printed (Hr _ _ L2) Hn' ltac:(kept (real_shown _ _ (f_of_Z 110) L2)).
  printed (Hr _ _ (Hc Conn1 ltac:(done))) Hn' ltac:(current_kept (real_shown _ _ (f_of_Z 20) (Hc Conn1 ltac:(done)))).
  printed (Hr _ _ (Hc Conn2 ltac:(done))) Hn' ltac:(current_kept (real_shown _ _ (f_of_Z 20) (Hc Conn2 ltac:(done)))).
  printed (Hr _ _ (Hc Conn3 ltac:(done))) Hn' ltac:(current_kept (real_shown _ _ (f_of_Z 20) (Hc Conn3 ltac:(done)))).
  printed (Hr _ _ L3) Hn' ltac:(kept (real_shown _ _ (f_of_Z 50) L3)).
  word_member ltac:(kept (yes_shown (restoreSession (words (live p))))).
  printed (Hs _ H2) Hn' ltac:(kept (scan_short_pretty _ 120 H2)).
  word_member ltac:(kept (enabled_shown (StopTransactionInSuspendedState (words (live p))))).
  printed (Hs _ H3) Hn' ltac:(kept (scan_short_pretty _ 120 H3)).
Qed.

Lemma services_same : set_services n p = Running p.
Proof.
  unfold set_services.
  word_member ltac:(kept (enabled_shown (smartCharging (words (live p))))).
  word_member ltac:(kept (enabled_shown (BatteryBackup (words (live p))))).
  word_member ltac:(kept (enabled_shown (DiagnosticServer (words (live p))))).
  word_member ltac:(kept (enabled_shown (ALPR (words (live p))))).
  word_member ltac:(kept (yes_shown (clearAuthCache (words (live p))))).
  word_member ltac:(kept (yes_shown (factoryReset (words (live p))))).
  do 5 text_member.
Qed.
End Saving.

Lemma form_member s l k v :
  form s = Some l ->
  (k, Some v) ∈ form_identity s ++ form_network s ++ form_charging s ++ form_services s -> (k, v) ∈ l.
Proof.
  unfold form. intros Hl Hk. apply mapM_Some_1 in Hl.
  apply list_elem_of_lookup in Hk as [i Hi].
  destruct (Forall2_lookup_l _ _ _ _ _ Hl Hi) as ([k' v'] & Hin & E).
  cbn in E. injection E as <- <-. by apply list_elem_of_lookup_2 in Hin.
Qed.

(** Claim C23.  Posting the form with the values it was served changes nothing:
    for a configuration the form can show, [Set_Config] on a document with
    the members [Get_Config] serves leaves every word and text as it was (and
    [defaultConfig] set), and writes that to flash. *)
Theorem config_page_roundtrip n p l url body :
  presentable (live p) -> cJSON_Parse body = Some n -> form (live p) = Some l ->
  (forall k v, (k, v) ∈ l -> text (member (Some n) k) = Some v) ->
  let saved := (live p) <| words := (words (live p)) <| defaultConfig := true |> |> in
  Set_Config url body p = Running (p <| live := saved |> <| flash := saved |>).
Proof.
  intros Hp Hb Hl Hn. cbv zeta. unfold Set_Config. rewrite Hb.
  assert (Hback : posts_back n (live p)) by (intros k v Hk; eapply Hn, form_member; eassumption).
  rewrite (bind_same _ _ _ (identity_same n p Hp Hback)), (bind_same _ _ _ (network_same n p Hp Hback)),
    (bind_same _ _ _ (charging_same n p Hp Hback)), (bind_same _ _ _ (services_same n p Hp Hback)).
  reflexivity.
Qed.
End Page.

(** *** A 22 kW charger and the document its page posts back *)

Definition example_words : Config_t :=
  factory_config <| Ac3s := false |> <| Ac22s := true |> <| plugnplay := false |>
    <| serverSetCpDuty := fun _ => 53 |>.
Definition example_texts (f : field) : string :=
  match f with
  | serialNumber | chargerName => "Amplify"
  | adminpassword => "admin1"
  | factorypassword => "factory1"
  | servicepassword => "service1"
  | customerpassword => "customer1"
  | webSocketURL => "wss://csms.example/ws/CP1"
  | _ => ""
  end.
Definition example_portal : portal :=
  let s := mkSettings example_words example_texts in mkPortal s s 0 false false [].
Definition example_form : list (string * string) := default [] (form (live example_portal)).
Definition posted (l : list (string * string)) : tree := Obj (map (fun e => (fst e, Str (snd e))) l).
#[local] Instance example_json : CJson := tree_json (fun _ => Some (posted example_form)).

Lemma example_presentable : presentable (live example_portal).
Proof.
  split.
  - intros []; reflexivity.
  - eexists. split; [apply list_elem_of_In; cbn; right; right; left; reflexivity | reflexivity].
  - eexists. split; [apply list_elem_of_In; cbn; do 3 right; left; reflexivity | reflexivity].
  - intros [] Hi; try done; (split; [apply list_elem_of_In; cbn; tauto | split; [|done]]; intros _; cbn; lia).
  - split; apply list_elem_of_In; cbn; tauto.
  - split_and!; apply list_elem_of_In; cbn; tauto.
  - exists "online"%string. split; [apply list_elem_of_In; cbn; tauto | reflexivity].
  - cbn. lia.
  - split; [vm_compute; reflexivity | apply Nat.leb_le; vm_compute; reflexivity].
  - split_and!; (split; [vm_compute; reflexivity | apply Nat.leb_le; vm_compute; reflexivity]).
  - intros [] Hi; try done; (split; [vm_compute; reflexivity | apply Nat.leb_le; vm_compute; reflexivity]).
Qed.

Lemma config_page_roundtrip_witness :
  Set_Config 0 "the form" example_portal =
    Running (let saved := (live example_portal) <| words := example_words <| defaultConfig := true |> |> in
             example_portal <| live := saved |> <| flash := saved |>).
Proof.
  apply (config_page_roundtrip (H := example_json) (posted example_form) example_portal example_form 0 "the form" example_presentable).
  - reflexivity.
  - vm_compute. reflexivity.
  - intros k v Hk. assert (Hall : Forall (fun e => text (member (H := example_json) (Some (posted example_form)) (fst e)) = Some (snd e))
      example_form) by (apply (bool_decide_unpack _); vm_compute; exact I).
    rewrite Forall_forall in Hall. apply list_elem_of_In in Hk. exact (Hall (k, v) Hk).
Defined.

(** ** Currents *)

Section Currents.
Context `{CJson}.

(** Neither the type nor connector [i]'s duty cycle changes. *)
Definition keeps_duty (i : cid) (p p' : portal) : Prop :=
  let c := words (live p) in let c' := words (live p') in
  limited_to_53 i c' = limited_to_53 i c /\ limited_to_26 i c' = limited_to_26 i c /\
  serverSetCpDuty c' i = serverSetCpDuty c i.
#[local] Instance keeps_duty_preorder i : PreOrder (keeps_duty i).
Proof.
  split; [by intros p | intros a b c (A1 & A2 & A3) (B1 & B2 & B3)].
  unfold keeps_duty. cbv zeta. by rewrite B1, B2, B3, A1, A2, A3.
Qed.

(** The duty cycle a text sets. *)
Lemma set_pwm_duty i v c :
  exists d, set_pwm i v c = c <| serverSetCpDuty := upd i d (serverSetCpDuty c) |> /\
    (limited_to_53 i c = true -> d <= 53) /\ (limited_to_26 i c = true -> d <= 26).
Proof.
  eexists. split; [reflexivity|]. cbv zeta. set (d := select amperes 100 v). clearbody d.
  split; intros Hl; rewrite Hl, ?andb_true_r; repeat case_match; lia.
Qed.

Lemma set_pwm_other i j v : i <> j -> leads (keeps_duty i) (setw (set_pwm j v)).
Proof.
  intros Hij. apply leads_ret. intros p. destruct (set_pwm_duty j v (words (live p))) as (d & E & _).
  unfold keeps_duty. cbv zeta.
  change (words (live (p <| live := (live p) <| words := set_pwm j v (words (live p)) |> |>)))
    with (set_pwm j v (words (live p))).
  rewrite E. split_and!; [by destruct i | by destruct i |]. by apply upd_other.
Qed.

Lemma given_keeps (R : portal -> portal -> Prop) `{!PreOrder R} n k f :
  (forall v, leads R (f v)) -> leads R (given n k f).
Proof. intros Hf. unfold given. destruct (text _); [apply Hf | by apply leads_refl]. Qed.

Lemma copy_text_keeps i f v : leads (keeps_duty i) (copy_text f v).
Proof. intros p. unfold copy_text. by destruct (_ <=? _). Qed.

Lemma set_webSocketURL_keeps i v : leads (keeps_duty i) (set_webSocketURL v).
Proof.
  unfold set_webSocketURL. apply leads_bind; [exact _| |apply copy_text_keeps].
  apply leads_reads. intros p. destruct (c_text _ _); [|by intros q].
  destruct (starts_with _ _); by intros q.
Qed.

Lemma set_mode_keeps i v : leads (keeps_duty i) (setw (set_mode v)).
Proof.
  apply leads_ret. intros p. unfold set_mode, select. cbn [List.find fst].
  destruct (_ =? v)%string; [by destruct i|]. destruct (_ =? v)%string; [by destruct i|].
  destruct (_ =? v)%string; by destruct i.
Qed.

(** Every member after the currents. *)
Ltac duty_leaf := idtac;
  lazymatch goal with
  | |- leads _ (given _ _ _) => apply given_keeps; [exact _|]; intros ?
  | |- leads _ (copy_text _ _) => apply copy_text_keeps
  | |- leads _ (set_webSocketURL _) => apply set_webSocketURL_keeps
  | |- leads _ (setw (set_mode _)) => apply set_mode_keeps
  | |- leads (keeps_duty ?i) (setw _) => apply leads_ret; intros ?; by destruct i
  end.

Lemma rest_keeps i n : leads (keeps_duty i) (set_network n) /\ leads (keeps_duty i) (set_charging n) /\
  leads (keeps_duty i) (set_services n).
Proof. split_and!; [unfold set_network | unfold set_charging | unfold set_services]; leads_tac duty_leaf. Qed.

(** What a statement that ends establishes. *)
Definition ensures (P : portal -> Prop) (a : stmt portal) : Prop := forall p,
  match a p with Running p' => P p' | _ => True end.
Lemma ensures_bind P a b : ensures P b -> ensures P (a >> b).
Proof. intros Hb p. unfold bind. destruct (a p); [apply Hb | done | done]. Qed.
Lemma ensures_then P R a b :
  ensures P a -> leads R b -> (forall p p', P p -> R p p' -> P p') -> ensures P (a >> b).
Proof.
  intros Ha Hb Hs p. unfold bind. specialize (Ha p). destruct (a p) as [q| |]; [|done|done].
  specialize (Hb q). destruct (b q); [by eapply Hs | done | done].
Qed.

Lemma within_kept i p p' :
  within_rating i (words (live p)) -> keeps_duty i p p' -> within_rating i (words (live p')).
Proof. intros [H1 H2] (E1 & E2 & E3). unfold within_rating. by rewrite E1, E2, E3. Qed.

Lemma posted_within i v : ensures (fun p => within_rating i (words (live p))) (setw (set_pwm i v)).
Proof.
  intros p. destruct (set_pwm_duty i v (words (live p))) as (d & E & H53 & H26).
  change (within_rating i (set_pwm i v (words (live p)))). rewrite E. unfold within_rating.
  change (serverSetCpDuty (?c <| serverSetCpDuty := ?f |>) i) with (f i).
  rewrite upd_same. by destruct i.
Qed.

Definition pwm_member (i : cid) : string :=
  match i with
  | Conn0 => "connector0PWM" | Conn1 => "connector1PWM" | Conn2 => "connector2PWM" | Conn3 => "connector3PWM"
  end.

Lemma identity_within i n v :
  i <> Conn0 -> text (member (Some n) (pwm_member i)) = Some v ->
  ensures (fun p => within_rating i (words (live p))) (set_identity n).
Proof.
  intros Hi Hv.
  assert (Hg : ensures (fun p => within_rating i (words (live p)))
    (given n (pwm_member i) (fun v => setw (set_pwm i v)))).
  { unfold given. rewrite Hv. apply posted_within. }
  unfold set_identity. do 6 apply ensures_bind.
  destruct i; [done| | |]; cbn [pwm_member] in Hg; [|apply ensures_bind | do 2 apply ensures_bind];
    (eapply ensures_then; [exact Hg | | apply within_kept]);
    leads_tac ltac:(idtac; lazymatch goal with
      | |- leads _ (setw (set_pwm _ _)) => by apply set_pwm_other
      | _ => duty_leaf
      end).
Qed.

(** No part of it restarts the charger. *)
Definition goes_on (a : stmt portal) : Prop := forall p p', a p <> Restarted p'.
Lemma goes_on_bind a b : goes_on a -> goes_on b -> goes_on (a >> b).
Proof. intros Ha Hb p p'. unfold bind. specialize (Ha p). destruct (a p) as [q|q|]; [apply Hb | by intros _; apply (Ha q) | done]. Qed.
Lemma goes_on_given n k f : (forall v, goes_on (f v)) -> goes_on (given n k f).
Proof. intros Hf p p'. unfold given. destruct (text _); [apply Hf | done]. Qed.
Lemma goes_on_copy f v : goes_on (copy_text f v).
Proof. intros p p'. unfold copy_text. by destruct (_ <=? _). Qed.
Lemma goes_on_url v : goes_on (set_webSocketURL v).
Proof.
  apply goes_on_bind; [|apply goes_on_copy]. intros p p'. unfold reads.
  destruct (c_text _ _); [|done]. by destruct (starts_with _ _).
Qed.

Lemma Set_Config_goes_on url body : goes_on (Set_Config url body).
Proof.
  unfold Set_Config. destruct (cJSON_Parse body) as [n|]; [|done].
  unfold set_identity, set_network, set_charging, set_services.
  repeat lazymatch goal with
  | |- goes_on (bind _ _) => apply goes_on_bind
  | |- goes_on (given _ _ _) => apply goes_on_given; intros ?
  | |- goes_on (copy_text _ _) => apply goes_on_copy
  | |- goes_on (set_webSocketURL _) => apply goes_on_url
  | |- goes_on _ => by intros ? ?
  end.
Qed.

Lemma Set_Config_within i n v url body :
  i <> Conn0 -> cJSON_Parse body = Some n -> text (member (Some n) (pwm_member i)) = Some v ->
  ensures (fun p => within_rating i (words (live p))) (Set_Config url body).
Proof.
  intros Hi Hb Hv. unfold Set_Config. rewrite Hb. destruct (rest_keeps i n) as (K1 & K2 & K3).
  apply (ensures_then _ (keeps_duty i)); [| |apply within_kept].
  - by apply (identity_within i n v).
  - leads_tac ltac:(first [exact K1 | exact K2 | exact K3 | duty_leaf | by intros ?]).
Qed.

Lemma Set_Config_flash n url body :
  cJSON_Parse body = Some n -> ensures (fun p => flash p = live p) (Set_Config url body).
Proof. intros Hb. unfold Set_Config. rewrite Hb. do 5 apply ensures_bind. by intros p. Qed.

(** A posted current respects the charger's type: after any form
    that gives a connector's current, whatever the text, the duty cycle is at
    most 53 % (32 A) where the type is limited to 32 A on that connector, and
    at most 26 % (16 A) where it is limited to 16 A, for the type the same
    form may have set. *)
Theorem posted_current_within_rating i n v url body p p' :
  i <> Conn0 -> cJSON_Parse body = Some n -> text (member (Some n) (pwm_member i)) = Some v ->
  Set_Config url body p = Running p' -> within_rating i (words (live p')).
Proof.
  intros Hi Hb Hv Hr. pose proof (Set_Config_within i n v url body Hi Hb Hv p) as Hw.
  by rewrite Hr in Hw.
Qed.

(** What the tasks find after the restart. *)
Definition boot_of (s : settings) : boot := mkBoot (words s) (fun _ => false).

(** Claim C24.  A posted current does not survive the restart that follows it.
    The request writes a current the type allows to flash, yet the charger
    starts again at 53 % (32 A) on every connector in use: over the rating
    where the type is limited to 16 A, and shown by the form as 32 A. *)
Theorem posted_current_lost_at_restart i n v body p p' :
  i <> Conn0 -> cJSON_Parse body = Some n -> text (member (Some n) (pwm_member i)) = Some v ->
  on_set_config_url body p = Restarted p' -> typed (words (flash p')) = true ->
  let c := Config.config (init_config (boot_of (flash p'))) in
  cid_to_Z i <= NumberOfConnectors c ->
  within_rating i (words (flash p')) /\
  cpDuty c i = 53 /\ pwm_text i c = "32"%string /\
  (limited_to_26 i c = true -> ~ within_rating i c).
Proof.
  cbv zeta. intros Hi Hb Hv Hr Ht Hle.
  destruct (init_config_ready (boot_of (flash p')) (or_intror Ht) (fun _ => eq_refl)) as (_ & Hd & _).
  destruct (Hd i Hle Hi) as [H1 H2].
  split_and!; [|exact H1 | by unfold pwm_text; rewrite H2 |].
  - unfold on_set_config_url, received_body in Hr. destruct (_ <? 2048)%nat; [|done].
    unfold bind, reads, respond, ret, esp_restart in Hr.
    pose proof (Set_Config_within i n v (CurrentUrlType p) body Hi Hb Hv p) as Hw.
    pose proof (Set_Config_flash n (CurrentUrlType p) body Hb p) as Hf.
    pose proof (Set_Config_goes_on (CurrentUrlType p) body p) as Hg.
    destruct (Set_Config _ _ _) as [q|q|]; [|by destruct (Hg q) | done].
    injection Hr as <-. change (within_rating i (words (flash q))). by rewrite Hf.
  - intros Hl [_ H26]. specialize (H26 Hl). lia.
Qed.
End Currents.

(** A 3 kW charger is given 16 A. *)
Definition small_portal : portal :=
  let s := mkSettings (example_words <| Ac22s := false |> <| Ac3s := true |>) example_texts in
  mkPortal s s 0 false false [].
#[local] Instance sixteen_json : CJson := tree_json (fun _ => Some (posted [("connector1PWM", "16")]%string)).

Lemma posted_current_within_rating_witness :
  exists p', Set_Config (H := sixteen_json) 0 "the form" small_portal = Running p' /\
    serverSetCpDuty (words (live p')) Conn1 = 26 /\ within_rating Conn1 (words (live p')).
Proof.
  eexists. split; [reflexivity|]. split; [reflexivity|].
  exact (posted_current_within_rating (H := sixteen_json) Conn1 (posted [("connector1PWM", "16")]%string) "16" 0
    "the form" small_portal _ ltac:(done) eq_refl eq_refl eq_refl).
Defined.

Lemma posted_current_lost_at_restart_witness :
  exists p', on_set_config_url (H := sixteen_json) "the form" small_portal = Restarted p' /\
    serverSetCpDuty (words (flash p')) Conn1 = 26 /\
    cpDuty (Config.config (init_config (boot_of (flash p')))) Conn1 = 53.
Proof.
  eexists. split; [reflexivity|]. split; [reflexivity|].
  apply (posted_current_lost_at_restart (H := sixteen_json) Conn1 (posted [("connector1PWM", "16")]%string) "16"
    "the form" small_portal _ ltac:(done) eq_refl eq_refl eq_refl eq_refl). vm_compute. done.
Defined.

(** ** Passwords *)

Section Login.
Context `{CJson}.

(** What a log-in with terminated passwords does: the first account whose
    name and password the given texts begin with. *)
Lemma login_spec l username password p :
  (forall f, Z.of_nat (String.length (texts (live p) f)) < capacity f) ->
  login l username password p =
  match List.find (fun e => let '(name, f, _) := e in
      starts_with name username && starts_with (texts (live p) f) password) l with
  | Some (_, _, url) =>
      Running (note (EvRespond 200 (message_json "Valid password")) (p <| CurrentUrlType := url |>))
  | None => Running (note (EvRespond 400 (message_json "Invalid password")) p)
  end.
Proof.
  intros Hl. induction l as [|[[name f] url] l IH]; [done|]. cbn [login List.find].
  destruct (starts_with name username); [|exact IH].
  unfold reads. rewrite c_text_some by done. cbn [andb].
  by destruct (starts_with (texts (live p) f) password).
Qed.

(** A form with one text. *)
Lemma other_given n k f p : text (member (Some n) k) = None -> given n k f p = Running p.
Proof. intros E. unfold given. by rewrite E. Qed.

Ltac others Hn := rewrite bind_same; [|apply other_given, Hn; vm_compute; discriminate].

Lemma password_form url body n w p :
  cJSON_Parse body = Some n ->
  (forall k, lowercase k <> "adminpassword"%string -> text (member (Some n) k) = None) ->
  text (member (Some n) "adminpassword") = Some w -> Z.of_nat (String.length w) <= 20 ->
  let saved := mkSettings ((words (live p)) <| defaultConfig := true |>)
    (fun f => if decide (f = adminpassword) then w else texts (live p) f) in
  Set_Config url body p = Running (p <| live := saved |> <| flash := saved |>).
Proof.
  intros Hb Hn Hw Hl. cbv zeta. unfold Set_Config. rewrite Hb.
  assert (E1 : set_identity n p = Running p)
    by (unfold set_identity; do 12 others Hn; apply other_given, Hn; vm_compute; discriminate).
  assert (E2 : set_network n p = Running p)
    by (unfold set_network; do 14 others Hn; apply other_given, Hn; vm_compute; discriminate).
  assert (E3 : set_charging n p = Running p)
    by (unfold set_charging; do 14 others Hn; apply other_given, Hn; vm_compute; discriminate).
  rewrite (bind_same _ _ _ E1), (bind_same _ _ _ E2), (bind_same _ _ _ E3).
  unfold set_services. unfold bind at 1.
  do 7 others Hn. unfold bind at 1. rewrite (given_some _ _ _ _ _ Hw). unfold copy_text.
  change (capacity adminpassword) with 20. rewrite (proj2 (Z.leb_le _ _) Hl).
  do 2 others Hn. rewrite other_given by (apply Hn; vm_compute; discriminate). reflexivity.
Qed.

(** The charger after the restart: the configuration is read back from flash
    and nobody has logged in. *)
Definition restarted (p : portal) : portal := mkPortal (flash p) (flash p) 0 false true [].

(** Claim C22.  The configuration can be posted without logging in: for any
    passwords, and whoever is or is not logged in, one request that carries a
    new administrator password is accepted, and after the restart that
    password logs in as administrator. *)
Theorem anyone_becomes_admin p w body n body' n' :
  (forall f, Z.of_nat (String.length (texts (live p) f)) < capacity f) ->
  Z.of_nat (String.length w) < 20 -> (String.length body < 2048)%nat -> (String.length body' < 2048)%nat ->
  cJSON_Parse body = Some n -> text (member (Some n) "adminpassword") = Some w ->
  (forall k, lowercase k <> "adminpassword"%string -> text (member (Some n) k) = None) ->
  cJSON_Parse body' = Some n' -> text (member (Some n') "username") = Some "Admin"%string ->
  text (member (Some n') "password") = Some w ->
  exists p1 p2, on_set_config_url body p = Restarted p1 /\
    texts (flash p1) adminpassword = w /\
    on_login_Auth_url body' (restarted p1) = Running p2 /\ CurrentUrlType p2 = ADMIN_URL.
Proof.
  intros Ht Hw Hlb Hlb' Hb Hbw Hbo Hb' Hu Hpw.
  unfold on_set_config_url, received_body. rewrite (proj2 (Nat.ltb_lt _ _) Hlb).
  unfold bind, reads, respond, ret, esp_restart.
  rewrite (password_form _ _ _ _ _ Hb Hbo Hbw) by lia.
  eexists _, _. split; [reflexivity|]. split; [reflexivity|].
  unfold on_login_Auth_url, received_body. rewrite (proj2 (Nat.ltb_lt _ _) Hlb'), Hb', Hu, Hpw.
  rewrite login_spec.
  - cbn [accounts List.find]. change (starts_with "Admin" "Admin") with true.
    change (texts (live (restarted _)) adminpassword) with w. rewrite starts_with_self.
    cbn [andb]. split; reflexivity.
  - intros f. change (Z.of_nat (String.length (if decide (f = adminpassword) then w else texts (live p) f)) < capacity f).
    by destruct (decide (f = adminpassword)) as [->|].
Qed.
End Login.

#[local] Instance intruder_json : CJson := tree_json (fun body =>
  if (body =? "set")%string then Some (posted [("adminpassword", "mine")]%string)
  else Some (posted [("username", "Admin"); ("password", "mine")]%string)).

Lemma anyone_becomes_admin_witness :
  exists p1 p2, on_set_config_url (H := intruder_json) "set" example_portal = Restarted p1 /\
    texts (live example_portal) adminpassword = "admin1"%string /\
    on_login_Auth_url (H := intruder_json) "log in" (restarted p1) = Running p2 /\ CurrentUrlType p2 = ADMIN_URL.
Proof.
  destruct (anyone_becomes_admin (H := intruder_json) example_portal "mine" "set"
    (posted [("adminpassword", "mine")]%string) "log in"
    (posted [("username", "Admin"); ("password", "mine")]%string)) as (p1 & p2 & H1 & _ & H2 & H3);
    try solve [reflexivity | cbn; lia].
  - intros []; reflexivity.
  - intros k Hk.
    change ((snd <$> (if (lowercase "adminpassword" =? lowercase k)%string
      then Some ("adminpassword"%string, Str "mine") else None)) ≫= valuestring (CJson := intruder_json) = None).
    destruct (String.eqb_spec (lowercase "adminpassword") (lowercase k)) as [E|]; [|reflexivity].
    exfalso. apply Hk. rewrite <-E. reflexivity.
  - exists p1, p2. done.
Defined.

(** ** The window *)

Section Window.
Context (joined : nat -> bool) (requests : nat -> stmt portal) (answers : nat -> option bool).

Lemma wait_bounds fuel k timer :
  0 <= timer <= 120 -> 120 - timer < Z.of_nat fuel ->
  let '(k', timer') := wait_for_station joined fuel k timer in
  timer <= timer' <= 120 /\ (timer' = 120 \/ exists j, k' = S j /\ joined j = true).
Proof.
  revert k timer. induction fuel as [|fuel IH]; intros k timer Ht Hf; [lia|].
  cbn [wait_for_station]. destruct (Z.ltb_spec timer 120).
  - destruct (joined k) eqn:E.
    + split; [lia|]. right. by exists k.
    + specialize (IH (S k) (timer + 1)). destruct (wait_for_station _ _ _ _) as [k' timer'].
      destruct IH as [H1 H2]; [lia | lia|]. split; [lia | exact H2].
  - split; [lia | left; lia].
Qed.

(** The server is left after [expiryTime] seconds, or ten minutes after a page
    was asked for. *)
Lemma serve_bounds fuel k timer expiryTime p :
  (forall k p, requests k p <> Undefined) ->
  0 <= timer -> expiryTime <= 600 -> timer <= expiryTime -> 600 - timer < Z.of_nat fuel ->
  match serve requests fuel k timer expiryTime p with
  | Running (timer', _) => timer <= timer' <= 600
  | Restarted (timer', _) => timer <= timer' < 600
  | Undefined => False
  end.
Proof.
  intros Hr. revert k timer expiryTime p. induction fuel as [|fuel IH]; intros k timer e p H0 He Hle Hf; [lia|].
  cbn [serve]. destruct (Z.ltb_spec timer e); [|lia].
  cbv zeta. destruct (requests k p) as [q|q|] eqn:E; [| lia | by destruct (Hr k p)].
  specialize (IH (S k) (timer + 1) (if isUrlHit p then 600 else e) q).
  destruct (serve _ _ _ _ _ _) as [[t q']|[t q']|]; (apply IH || destruct IH); try (destruct (isUrlHit p)); lia.
Qed.

Lemma serve_quiet fuel k timer p :
  (forall k p, requests k p = Running p) -> isUrlHit p = false ->
  0 <= timer <= 120 -> 120 - timer < Z.of_nat fuel ->
  serve requests fuel k timer 120 p = Running (120, p).
Proof.
  intros Hr Hu. revert k timer. induction fuel as [|fuel IH]; intros k timer Ht Hf; [lia|].
  cbn [serve]. destruct (Z.ltb_spec timer 120); [|by replace timer with 120 by lia].
  rewrite Hu, Hr. apply IH; lia.
Qed.

Lemma show_colour_log g color p : exists l, show_colour g color p = p <| log := l |>.
Proof.
  unfold show_colour, withs, foreach. generalize (connectors_upto (NumberOfConnectors (words (live p)))) as ids.
  generalize (words (live p)) as c. intros c ids. revert p.
  induction ids as [|i ids IH]; intros p; [exists (log p); by destruct p|].
  cbn [foldl]. destruct (IH (note (if g c then EvSlaveLed i color else EvLed i color) p)) as [l ->].
  by exists l.
Qed.

Lemma ask_button_pressed fuel k b :
  ask_button answers fuel k b = true -> b = true \/ exists j, (k <= j < k + fuel)%nat /\ answers j = Some true.
Proof.
  revert k. induction fuel as [|fuel IH]; intros k; cbn [ask_button]; [by left|].
  destruct (answers k) as [[]|] eqn:E; intros Hb; [right; exists k; split; [lia | done] | done|].
  destruct (IH _ Hb) as [|(j & Hj & Ej)]; [by left | right; exists j; split; [lia | done]].
Qed.

(** Claim C25.  The window of the access point: it opens only on a charger that
    was never configured or while the emergency button is pressed; it closes,
    unless a request restarts the charger, after 600 seconds at the latest,
    and after 120 when no request comes and no station leaves; the server is then stopped and the
    access point down. *)
Theorem commissioning_window_bounded emergencyButton p :
  (forall k p, requests k p <> Undefined) -> isServerStarted p = false -> isUrlHit p = false ->
  let c := words (live p) in
  (wifiStartPowerOn answers emergencyButton c = true ->
     defaultConfig c = false \/ emergencyButton = true \/ exists k, (k < 10)%nat /\ answers k = Some true) /\
  match StartServerOnPowerOn joined requests answers emergencyButton p with
  | Running (t, p') =>
      t <= 600 /\ isServerStarted p' = false /\
      (wifiStartPowerOn answers emergencyButton c = false -> t = 0) /\
      (wifiStartPowerOn answers emergencyButton c = true ->
         head (log p') = Some (EvAccessPoint false) /\
         ((forall k p, requests k p = Running p) -> (forall k, joined k = true -> joined (S k) = true) -> t = 120))
  | Restarted (t, _) => wifiStartPowerOn answers emergencyButton c = true /\ t < 600
  | Undefined => False
  end.
Proof.
  intros Hr Hs Hu. cbv zeta. split.
  { unfold wifiStartPowerOn. destruct (defaultConfig _); [cbn [negb] | by left].
    destruct (vcharge_lite_1_4 _); [|by intros ->; right; left].
    intros Hb. destruct (ask_button_pressed _ _ _ Hb) as [|(k & Hk & E)];
      [by right; left | right; right; exists k; split; [lia | done]]. }
  unfold StartServerOnPowerOn, seqc. destruct (show_colour_log by_slave POWERON_LED p) as [l1 ->].
  change (words (live (p <| log := l1 |>))) with (words (live p)).
  destruct (wifiStartPowerOn answers emergencyButton (words (live p))) eqn:Ew; [|by split_and!].
  destruct (show_colour_log by_slave COMMISSIONING_LED (note (EvAccessPoint true) (p <| log := l1 |>))) as [l2 ->].
  set (p2 := (note (EvAccessPoint true) (p <| log := l1 |>)) <| log := l2 |>).
  assert (Hs2 : isServerStarted p2 = false) by exact Hs.
  assert (Hu2 : isUrlHit p2 = false) by exact Hu. clearbody p2.
  pose proof (wait_bounds 121 0 0 ltac:(lia) ltac:(lia)) as Hw.
  destruct (wait_for_station joined 121 0 0) as [k timer]. destruct Hw as [Hw1 Hw2].
  destruct (joined k) eqn:Ej.
  - destruct (show_colour_log by_slave STATION_CONNECTED_LED p2) as [l3 ->].
    set (p3 := local_http_server_start _).
    assert (Hu3 : isUrlHit p3 = false).
    { unfold p3, local_http_server_start.
      by destruct (isServerStarted (note EvCommissioningPage (p2 <| log := l3 |>))). }
    clearbody p3. pose proof (serve_bounds 601 0 timer 120 p3 Hr) as Hb.
    pose proof (fun H => serve_quiet 601 0 timer p3 H Hu3 ltac:(lia) ltac:(lia)) as Hq.
    destruct (serve requests 601 0 timer 120 p3) as [[t q]|[t q]|].
    + specialize (Hb ltac:(lia) ltac:(lia) ltac:(lia) ltac:(lia)).
      split_and!; [lia | | done|].
      { change (isServerStarted (local_http_server_stop q) = false). unfold local_http_server_stop.
        by destruct (isServerStarted q) eqn:E. }
      intros _. split; [done|]. intros Hquiet _. specialize (Hq Hquiet). by injection Hq.
    + split; [done|]. specialize (Hb ltac:(lia) ltac:(lia) ltac:(lia) ltac:(lia)). lia.
    + by apply Hb; lia.
  - split_and!; [lia | exact Hs2 | done|]. intros _. split; [done|]. intros _ Hstay.
    destruct Hw2 as [|(j & -> & Hj)]; [done|]. by rewrite (Hstay j Hj) in Ej.
Qed.
End Window.

(** A configured charger with its emergency button pressed, a station that
    joins after five seconds and asks for the login page in the third second. *)
Definition visited (k : nat) : stmt portal := if (k =? 3)%nat then ret on_login_url else pass.

Lemma commissioning_window_bounded_witness :
  exists p', StartServerOnPowerOn (fun k => (5 <=? k)%nat) visited (fun _ => None) true
      (example_portal <| live := mkSettings (example_words <| defaultConfig := true |>) example_texts |>) =
    Running (600, p') /\ isServerStarted p' = false.
Proof.
  pose proof (commissioning_window_bounded (fun k => (5 <=? k)%nat) visited (fun _ => None) true
    (example_portal <| live := mkSettings (example_words <| defaultConfig := true |>) example_texts |>)) as H.
  specialize (H ltac:(intros k q; unfold visited; by destruct (k =? 3)%nat) eq_refl eq_refl).
  destruct H as [_ H].
  assert (E : match StartServerOnPowerOn (fun k => (5 <=? k)%nat) visited (fun _ => None) true
      (example_portal <| live := mkSettings (example_words <| defaultConfig := true |>) example_texts |>) with
    | Running (t, _) => t = 600 | _ => False end) by (vm_compute; reflexivity).
  destruct (StartServerOnPowerOn _ _ _ _ _) as [[t p']|[t p']|]; [|done|done].
  exists p'. destruct H as (_ & H & _). by rewrite E.
Defined.

(** ** Uploads *)

Lemma app_empty_string (s : string) : (s ++ "")%string = s.
Proof. induction s as [|a s IH]; [done|]. exact (f_equal (String a) IH). Qed.

Section Upload.
Context (ota_begin : bool) (ota_write : string -> string -> bool) (ota_end : string -> bool)
  (ota_set_boot_partition : bool).

Definition bytes_of (cs : list string) : string := foldr String.append EmptyString cs.
Definition data (cs : list string) : list received := map Chunk cs.

Lemma upload_rest contentLength cs count written rest :
  (forall a b, ota_write a b = true) -> Forall (fun c => c <> EmptyString) cs ->
  (count + String.length (bytes_of cs) < contentLength)%nat ->
  upload ota_begin ota_write ota_end ota_set_boot_partition contentLength (data cs ++ rest) true count written =
  upload ota_begin ota_write ota_end ota_set_boot_partition contentLength rest true
    (count + String.length (bytes_of cs)) (written ++ bytes_of cs).
Proof.
  intros Hw Hcs. revert count written. induction Hcs as [|c cs Hc _ IH]; intros count written Hl.
  - cbn. by rewrite Nat.add_0_r, app_empty_string.
  - cbn [bytes_of foldr] in Hl. rewrite length_app_string in Hl.
    cbn [data map app upload]. rewrite Hw. cbn [negb andb].
    replace (0 <? String.length c)%nat with true by (destruct c; [done | reflexivity]).
    rewrite (proj2 (Nat.ltb_lt _ _)) by lia. cbn [andb].
    unfold data in IH. rewrite IH by (unfold bytes_of; lia).
    cbn [bytes_of foldr]. rewrite length_app_string, <-app_assoc_string. f_equal. unfold bytes_of. lia.
Qed.

Lemma length_substring n m s : (String.length (String.substring n m s) <= String.length s - n)%nat.
Proof.
  revert n m. induction s as [|a s IH]; intros [|n] [|m]; cbn; try lia; [|apply IH..].
  specialize (IH 0%nat m). lia.
Qed.

Lemma length_c_string s : (String.length (c_string s) <= String.length s)%nat.
Proof. induction s as [|a s IH]; [done|]. cbn. destruct (Ascii.eqb a zero); cbn; lia. Qed.

(** A part's body is shorter than the part by its header. *)
Lemma length_body_part s b : body_part s = Some b -> (String.length b + 4 <= String.length s)%nat.
Proof.
  unfold body_part. destruct (String.index 0 crlf2 (c_string s)) as [k|] eqn:E; [|done].
  intros [= <-]. apply String.index_correct1 in E.
  pose proof (length_substring k (String.length crlf2) (c_string s)) as Hl.
  pose proof (length_c_string s). rewrite E in Hl. cbn in Hl.
  pose proof (length_substring (k + 4) (String.length s - (k + 4)) s). lia.
Qed.

Abbreviation uploaded := (on_UpdateFirmware_url ota_begin ota_write ota_end ota_set_boot_partition).

Lemma update_starts first b cs rest :
  ota_begin = true -> (forall x y, ota_write x y = true) -> body_part first = Some b ->
  Forall (fun c => c <> EmptyString) cs ->
  uploaded (String.length first + String.length (bytes_of cs)) (Chunk first :: data cs ++ rest) =
  upload ota_begin ota_write ota_end ota_set_boot_partition
    (String.length first + String.length (bytes_of cs)) rest true
    (String.length b + String.length (bytes_of cs)) (b ++ bytes_of cs).
Proof.
  intros Hb Hw Hf Hcs. pose proof (length_body_part _ _ Hf) as Hl.
  unfold on_UpdateFirmware_url. cbn [upload].
  assert (Hn : negb ota_begin = false) by (by rewrite Hb). rewrite Hf, Hn, Hw. cbn [negb andb].
  change ("" ++ b)%string with b. change (0 + String.length b)%nat with (String.length b).
  rewrite (proj2 (Nat.ltb_lt 0 _)), (proj2 (Nat.ltb_lt (String.length b) _)) by lia. cbn [andb].
  apply upload_rest; [done|done|lia].
Qed.

(** Claim C26.  An upload whose first chunk holds the part's header: flash gets
    the bytes after the header, in order (the closing boundary of the form
    among them), and the charger restarts, into the new image if the boot
    partition could be set, exactly when that image is valid.  A timeout of
    the connection ends the transfer: whatever would have followed, flash
    keeps what had come and that is taken for the whole image. *)
Theorem upload_writes_body first b cs rest :
  ota_begin = true -> (forall x y, ota_write x y = true) -> body_part first = Some b ->
  Forall (fun c => c <> EmptyString) cs ->
  let total := (String.length first + String.length (bytes_of cs))%nat in
  let image := (b ++ bytes_of cs)%string in
  let result := if ota_end image then Rebooted image ota_set_boot_partition else ESP_FAIL image in
  uploaded total (Chunk first :: data cs) = result /\
  uploaded total (Chunk first :: data cs ++ HTTPD_SOCK_ERR_TIMEOUT :: rest) = result.
Proof.
  cbv zeta. intros Hb Hw Hf Hcs. split.
  - rewrite <-(app_nil_r (data cs)), (update_starts _ b) by done. cbn [upload]. by rewrite Hw.
  - by rewrite (update_starts _ b).
Qed.
End Upload.

(** The part of a form, in two chunks, and a connection lost in between. *)
Definition example_part : string := "Content-Type: bin" ++ crlf2 ++ "IM".

Lemma upload_writes_body_witness :
  on_UpdateFirmware_url true (fun _ _ => true) (fun s => (s =? "IMAGE--")%string) true 28
    [Chunk example_part; Chunk "AGE--"] = Rebooted "IMAGE--" true /\
  on_UpdateFirmware_url true (fun _ _ => true) (fun s => (s =? "IMAGE--")%string) true 23
    [Chunk example_part; HTTPD_SOCK_ERR_TIMEOUT; Chunk "AGE--"] = ESP_FAIL "IM".
Proof.
  split.
  - apply (proj1 (upload_writes_body true (fun _ _ => true) (fun s => (s =? "IMAGE--")%string) true
      example_part "IM" ["AGE--"]%string [] eq_refl (fun _ _ => eq_refl) eq_refl ltac:(repeat constructor; done))).
  - apply (proj2 (upload_writes_body true (fun _ _ => true) (fun s => (s =? "IMAGE--")%string) true
      example_part "IM" [] [Chunk "AGE--"] eq_refl (fun _ _ => eq_refl) eq_refl ltac:(constructor))).
Defined.
